(* ===== verification/_CoqProject ===== *)
-Q . S2P
Prelude.v
CString.v
Mem.v
Bitmap.v
Ring.v
Traces.v
Ports.v
Vga.v
Output.v
Idt.v
Network.v
Memory.v
Process.v
Context.v
Segments.v
Ipc.v
Device.v
CharDevice.v
BlockDevice.v
Keyboard.v
Preempt.v
Security.v
Power.v
Monitor.v
VfsSimple.v
RamFs.v
Vfs.v
FsEnhanced.v
ProgramLoader.v
Log.v
KeyboardIntl.v
Serial.v
Pci.v
NetCore.v
Timer.v
Clock.v
Syscall.v
Kernel.v
Shell.v
Mouse.v
Quiet.v
Boot.v
System.v
Running.v
Programs.v
Userland.v
Usermode.v
Spare.v
SelfTest.v
ServiceTests.v
