(* ===== verification/Prelude.v ===== *)
(** * A verification library for MinimalistOS

    MinimalistOS is a small 32-bit x86 kernel in C: a page allocator and heap,
    a process table with a round-robin scheduler, drivers for the screen, the
    keyboard, the mouse, the serial line, PCI and an NE2000 network card, two
    in-memory file systems, a program loader, users and permissions, system
    calls and a command line.  This library models the C code function by
    function and proves what each part promises and how the parts work
    together.

    ** How C is modelled

    An integer is a [Z]; [u8], [u16], [u32], [s8] and [s32] are the conversions
    to a width, [+u], [-u] and [*u] the wrapping operations on 32 bits
    (Prelude).  A function is a Rocq function from the state of its part to its
    result and the new state, in the option monad: [None], also written [UB],
    is undefined behaviour - an access outside an object or through NULL, a
    shift too far - or a wait that has not ended within its bound.  A theorem
    that an operation returns [Some] therefore also says that it is defined.
    [b.[i]] and [zset b i v] read and write arrays with C's bounds; a [char *]
    is the bytes from the pointer to the end of its object, [str b] the string
    they hold and [lit s] a literal.  Static variables are the fields of one
    record per file.

    ** The parts, and the code they model

    - Prelude, CString (kernel/string.c), Mem, Bitmap, Ring, Traces: integers,
      arrays, loops, strings, [itoa], byte memories, bitmaps, circular buffers
      and sequences of steps, with the lemmas the other files share.
    - Ports (kernel/io.h, kernel/string.c): the hardware as a class: [inb],
      [outb], [inw], [outw], [inl], [outl] on an abstract machine.  [PortLog]
      adds the log of the byte writes.  What reads return is left open, so the
      theorems hold for all hardware, or name what they need from it.
    - Vga (drivers/vga.c) with Output (what code that only prints shows), Log
      (kernel/log.c), Serial (drivers/serial.c), Pci (kernel/pci.c), NetCore
      (kernel/net_core.c, drivers/net_ne2k.c), Idt (kernel/idt.c), Timer
      (drivers/timer.c), Mouse (drivers/mouse.c), Keyboard
      (drivers/keyboard.c) and KeyboardIntl (drivers/keyboard_intl.c): the
      drivers and the interrupt dispatch, on that machine.
    - Memory (kernel/memory.c), Process (kernel/process.c and [context_init]),
      Ipc (kernel/ipc.c), Network (kernel/network.c), Security
      (kernel/security.c), Power (kernel/power.c), Monitor (kernel/monitor.c),
      Device (kernel/device.c) with CharDevice and BlockDevice
      (drivers/char_device.c, drivers/block_device.c): the kernel's services.
    - VfsSimple (fs/vfs_simple.c), RamFs (fs/ramfs.c), Vfs (fs/vfs.c, over
      RamFs), FsEnhanced (fs/filesystem_enhanced.c), ProgramLoader
      (kernel/program_loader.c): files and programs.
    - Context (kernel/context_switch.s, kernel/context.c, the interrupt stub of
      kernel/interrupts.s): registers, stacks and the instructions these
      routines use; Segments (kernel/entry.s, the table of
      boot/debug_boot.asm): the processor's check of the segments, and the
      entry; Usermode (kernel/usermode.c): ring 3, on the same instructions.
    - Preempt: [keyboard_getchar] one memory access at a time, with the
      keyboard interrupt between any two; Clock: [vga_print] one access to
      video memory at a time, with the clock's interrupt between any two.
    - Syscall (kernel/syscall.c): the services behind the system call table,
      on the state [sys] of the whole kernel, each through a lens to the part
      it uses; Kernel: what every system call preserves, over a class of
      contracts for the registered device drivers.
    - Shell (kernel/shell.c, [process_print_list]), Boot (kernel/kmain.c): the
      command line over the keyboard and the screen, and the start of the kernel
      over all parts; Quiet: what these leave alone, the interrupt controllers,
      and what they write to the other devices.
    - System (kernel/idt.c, interrupts.s over the parts of Syscall): an
      interrupt on its way from the processor through gate and stub to the
      registered function or the exception handler, between the steps of the
      shell's thread, against a desk of a clock, a terminal and a queue of keys;
      Running: the kernel from [kmain] on.
    - Programs (kernel/user_process.c, user_program.c, test_process.c and the
      test processes of the network and the devices): programs as interaction
      trees; Userland: a process alone in its frame, with arbitrary answers to
      its system calls.
    - Spare (kernel/minimal.c, fs/ramfs_simple.c): code no build links;
      SelfTest (kernel/test.c, string_tests.c, tests.c, fs_test.c) and
      ServiceTests (security_test.c, power_test.c, monitor_test.c,
      memory_test.c): the kernel's own tests run on these definitions.

    The parts meet in the code by direct calls, and do so here: Log and Shell
    print through Vga, Timer drives [schedule] through the dispatch of Idt,
    Device, RamFs and the drivers take pages and blocks from Memory,
    ProgramLoader reads through a class of file operations which VfsSimple
    implements, Vfs calls mounted file systems through a record of operations
    which RamFs fills, Syscall runs Process, VfsSimple, Network, Device,
    Security, Monitor, Vga, Serial and Keyboard, and Boot starts them all.

    ** What the theorems show

    - Whole system: from zeroed statics [kmain] reaches a shell that then runs
      typed lines ([kernel_boots], [shell_session]); from there every
      interleaving of the open interrupt lines with the shell's thread is a
      history of a clock, a terminal and a queue of keys, nothing else changes,
      and [int $0x80] halts the machine, as its gate is empty
      ([booted_kernel_safe]).  Behind the gate, every sequence of calls of the
      system call functions with valid arguments keeps every part well formed,
      cannot change the security state of a caller that is not root, and the
      next one returns ([system_calls_safe], [non_root_confined]); in front of
      it, the user processes ask for what their texts say, whatever they are
      answered ([user_processes_speak]).
    - Memory: the pages clients hold are distinct and exactly the used ones
      ([page_ownership]), heap blocks are disjoint and inside the heap,
      [map_page] and [get_phys_addr] agree.
    - Processes: the reachable tables are well formed with at most one running
      process, scheduling is round robin, a ready process runs.
    - Refinement of an abstract specification, for every sequence of
      operations: the RAM file system is a finite map, the mount layer over it
      is files by name with descriptors at positions of their own, the device
      registry is a bounded list, the network buffer and the key buffer are
      bounded queues, the screen is a terminal of 25 lines.
    - Concurrency: [keyboard_getchar], interrupted between any two of its
      memory accesses, is an atomic read of the key queue
      ([getchar_linearizable]), but not with a second reader
      ([getchar_not_reentrant]); a string printed while the clock interrupts
      leaves the screen of some order of whole characters and digits
      ([print_under_clock]).
    - Registers: the stub of a hardware interrupt hands the handler the
      interrupted registers and resumes with what the handler leaves
      ([irq_stub_transparent]); [context_init] in assembly is the one of
      Process ([context_init_refines]).
    - Drivers: the interrupt lines that can interrupt and where they arrive,
      dispatch and acknowledgement, the count of the clock, the exact end of
      [timer_wait], mouse packets.
    - Functional results and round trips: the ELF loader's image of a program,
      appending to files, the file system a path is looked up in, first-fit
      block search, the last 256 log messages, formatted output with its
      truncation, numbers printed by [itoa], character device data, message
      receipt.
    - Error behaviour, where the code does not do what it means to:
      [context_switch] does not resume what it saved
      ([context_switch_misreturns]); no program can make a system call
      ([booted_kernel_safe]); statistics divide by zero, packets are refused,
      root has no permission and no device opens because [kmain] does not start
      those parts ([parts_never_started]).  Lemmas show more: the RAM disk never
      mounts, no program ever loads through the linked file system, file growth
      and long screen lines overwrite, a new process never starts, user mode is
      never entered; and the reports of the kernel's own tests, which succeed,
      fail or stop where the model says.

    ** Bounds and fuel

    Recursions that are not structural carry a bound that is proved enough.
    [itoa] has [itoa_fuel] = 33 rounds, one more than the digits of a 32-bit
    number in base 2, and the serial line 11 for ten decimal digits; [walk]
    has one round more than the registry has devices; the loader takes
    [e_phnum] rounds; the shell trims 256 bytes in 257.  Loops that wait for
    hardware have the code's own time-outs (100000 polls for the serial line
    and the mouse) or, where the code would wait for ever, a bound that is an
    argument: [patience] for a character, [rounds] for the keyboard controller
    and for the keys of a line, the interrupts still to come for [timer_wait].
    The theorems say which bound is enough, or assume that the device answers
    within it.

    ** What is not modelled

    The boot loader, which runs in 16-bit mode on BIOS calls, and [lgdt].  Of
    the processor's way into an interrupt, System has the limit of the table,
    the type, presence and selector of the gate and the exception that follows
    when one of them is wrong; an exception on the way to an exception is left
    out, and so is [hlt] but for the end of an exception.  [schedule] returns
    the pair of processes it would switch between; the kernel [kmain] leaves has
    one process and never switches, and Context shows what the routine that
    switches does.  The system call functions (Syscall, Kernel) are what the
    handler registered for vector 0x80 runs; no instruction reaches it.  Apart
    from the key buffer, the video memory and the steps of processes,
    interrupts come between operations, not inside them.  The static variables
    that C starts at zero are zero when [kmain] starts: the code relies on it,
    although neither the entry nor the boot loader clears them, so the theorems
    about the start hold from [kmain] on and not from power on.  The layout of
    structures copied to user programs is a parameter of Syscall.  Messages on the screen are modelled for Vga, Log,
    Shell, Mouse, Boot, KeyboardIntl, the system calls and the tests; the
    other parts leave out the ones that report what they did.  Delay loops are
    left out.  Of the in-kernel tests, those that wait for keys or interrupts
    are left out.  The handler that halts after a damaged stack
    ([__stack_chk_fail]) never returns and is left out. *)

From Stdlib Require Export ZArith Lia.
From stdpp Require Export base tactics option numbers relations sets list.

(** ** Machine integers

    A C integer of a given width is a [Z]; the functions below write out the
    wrap-around of the conversion to that width. *)
Declare Scope c_scope.
Delimit Scope c_scope with c.
#[global] Open Scope Z_scope.

Definition u8 (z : Z) : Z := z mod 256.
Definition u16 (z : Z) : Z := z mod 65536.
Definition u32 (z : Z) : Z := z mod 4294967296.
Definition s8 (z : Z) : Z := (z + 128) mod 256 - 128.
Definition s32 (z : Z) : Z := (z + 2147483648) mod 4294967296 - 2147483648.

(** Unsigned 32-bit arithmetic, as the C operators on [uint32_t] compute it. *)
Notation "x +u y" := (u32 (x + y)) (at level 50, left associativity) : c_scope.
Notation "x -u y" := (u32 (x - y)) (at level 50, left associativity) : c_scope.
Notation "x *u y" := (u32 (x * y)) (at level 40, left associativity) : c_scope.
Notation "~u x" := (u32 (Z.lnot x)) (at level 35, right associativity) : c_scope.
#[global] Open Scope c_scope.

(** C truth values as the [int] a function returns. *)
Definition c_bool (b : bool) : Z := if b then 1 else 0.

(** ** Partial computations

    [None] is undefined behaviour of the C program: an access outside the
    object a pointer points into.  A function that cannot reach it is proved
    to return [Some]. *)
Definition UB {A} : option A := None.

(** ** Arrays indexed by a C integer *)
Definition zget {A} (l : list A) (i : Z) : option A :=
  if i <? 0 then None else l !! Z.to_nat i.
Definition zset {A} (l : list A) (i : Z) (x : A) : option (list A) :=
  if (0 <=? i) && (i <? Z.of_nat (length l)) then Some (<[Z.to_nat i := x]> l) else None.
Notation "l .[ i ]" := (zget l i) (at level 1, left associativity, format "l .[ i ]") : c_scope.

Definition zlen {A} (l : list A) : Z := Z.of_nat (length l).
Lemma to_nat_zlen {A} (l : list A) : Z.to_nat (zlen l) = length l.
Proof. apply Nat2Z.id. Qed.

#[global] Arguments Nat.modulo : simpl never.
#[global] Arguments Nat.div : simpl never.
#[global] Arguments seqZ : simpl never.
#[global] Arguments zget : simpl never.
#[global] Arguments zset : simpl never.

(** ** Arithmetic automation *)
Ltac unfold_ints := unfold u8, u16, u32, s8, s32, zlen in *.
Ltac int_lia := unfold_ints; Z.div_mod_to_equations; lia.

(** Case analysis on the boolean integer tests of the code. *)
Ltac zcases :=
  repeat match goal with
  | H : context [Z.ltb ?a ?b] |- _ => destruct (Z.ltb_spec a b)
  | H : context [Z.leb ?a ?b] |- _ => destruct (Z.leb_spec a b)
  | H : context [Z.eqb ?a ?b] |- _ => destruct (Z.eqb_spec a b)
  | |- context [Z.ltb ?a ?b] => destruct (Z.ltb_spec a b)
  | |- context [Z.leb ?a ?b] => destruct (Z.leb_spec a b)
  | |- context [Z.eqb ?a ?b] => destruct (Z.eqb_spec a b)
  end.

Create HintDb ints.
Create HintDb arrays.
Create Rewrite HintDb int_rw.
Create Rewrite HintDb array_rw.

Lemma u8_id z : 0 <= z < 256 → u8 z = z.
Proof. intros. apply Z.mod_small. lia. Qed.
Lemma u16_id z : 0 <= z < 65536 → u16 z = z.
Proof. intros. apply Z.mod_small. lia. Qed.
Lemma u32_id z : 0 <= z < 4294967296 → u32 z = z.
Proof. intros. apply Z.mod_small. lia. Qed.
Lemma s32_id z : -2147483648 <= z < 2147483648 → s32 z = z.
Proof. intros. int_lia. Qed.
Lemma u8_range z : 0 <= u8 z < 256.
Proof. apply Z.mod_pos_bound. lia. Qed.
Lemma u16_range z : 0 <= u16 z < 65536.
Proof. apply Z.mod_pos_bound. lia. Qed.
Lemma u32_range z : 0 <= u32 z < 4294967296.
Proof. apply Z.mod_pos_bound. lia. Qed.
Lemma s32_range z : -2147483648 <= s32 z < 2147483648.
Proof. int_lia. Qed.
Lemma u32_u32 z : u32 (u32 z) = u32 z.
Proof. apply u32_id, u32_range. Qed.
#[export] Hint Rewrite u8_id u16_id u32_id s32_id using lia : int_rw.
#[export] Hint Resolve u8_range u16_range u32_range s32_range : ints.

(** ** Arrays *)
Section arrays.
  Context {A : Type}.
  Implicit Types (l : list A) (x : A).

Lemma zget_Some l i : 0 <= i < zlen l → is_Some (zget l i).
Proof.
    intros Hi. unfold zget. destruct (Z.ltb_spec i 0); [lia|].
    apply lookup_lt_is_Some_2. unfold zlen in Hi. lia.
Qed.
Lemma zget_nat l (i : nat) : zget l (Z.of_nat i) = l !! i.
Proof. unfold zget. destruct (Z.ltb_spec (Z.of_nat i) 0); [lia|]. by rewrite Nat2Z.id. Qed.
Lemma zget_range l i x : zget l i = Some x → 0 <= i < zlen l.
Proof.
    unfold zget, zlen. destruct (Z.ltb_spec i 0) as [|Hi]; [done|].
    intros H%lookup_lt_Some. lia.
Qed.
Lemma zset_in l i x :
    0 <= i < zlen l → zset l i x = Some (<[Z.to_nat i := x]> l).
Proof.
    unfold zset, zlen. intros Hi.
    destruct (Z.leb_spec 0 i), (Z.ltb_spec i (Z.of_nat (length l))); simpl; done || lia.
Qed.
Lemma zset_Some l i x l' :
    zset l i x = Some l' → 0 <= i < zlen l ∧ l' = <[Z.to_nat i := x]> l.
Proof.
    unfold zset, zlen.
    destruct (Z.leb_spec 0 i), (Z.ltb_spec i (Z.of_nat (length l))); simpl; naive_solver lia.
Qed.
Lemma zset_length l i x l' : zset l i x = Some l' → length l' = length l.
Proof. intros [_ ->]%zset_Some. apply length_insert. Qed.
Lemma zget_zset_eq l i x l' : zset l i x = Some l' → zget l' i = Some x.
Proof.
    intros [Hi ->]%zset_Some. unfold zget, zlen in *. destruct (Z.ltb_spec i 0); [lia|].
    apply list_lookup_insert_eq. lia.
Qed.
Lemma zget_zset_ne l i j x l' : i ≠ j → zset l i x = Some l' → zget l' j = zget l j.
Proof.
    intros Hne [Hi ->]%zset_Some. unfold zget, zlen in *. destruct (Z.ltb_spec j 0); [done|].
    apply list_lookup_insert_ne. lia.
Qed.
End arrays.
#[export] Hint Resolve zget_Some : arrays.
#[export] Hint Rewrite @length_insert @length_replicate @length_app @length_drop @length_take : array_rw.

(** ** Search loops

    [find_loop p l] is the loop [for (i = 0; i < n; i++) if (p(l[i])) return i;]
    over the [n] elements of [l]; the test may itself be undefined. *)
Fixpoint find_loop {A} (p : A → option bool) (l : list A) : option (option nat) :=
  match l with
  | [] => Some None
  | x :: l' =>
      b ← p x;
      if (b : bool) then Some (Some O) else r ← find_loop p l'; Some (option_map S r)
  end.

(** The same loop with a total test. *)
Fixpoint find_first {A} (p : A → bool) (l : list A) : option nat :=
  match l with
  | [] => None
  | x :: l' => if p x then Some O else S <$> find_first p l'
  end.

Section search.
  Context {A : Type}.
  Implicit Types (p : A → bool) (l : list A).

Lemma find_loop_pure (p : A → option bool) q l :
    (∀ x, x ∈ l → p x = Some (q x)) → find_loop p l = Some (find_first q l).
Proof.
    induction l as [|x l IH]; intros H; [done|]. cbn.
    rewrite (H x) by set_solver. cbn. destruct (q x); [done|].
    rewrite IH by set_solver. done.
Qed.
Lemma find_first_Some p l i :
    find_first p l = Some i ↔
      (∃ x, l !! i = Some x ∧ p x = true) ∧
      ∀ j x, (j < i)%nat → l !! j = Some x → p x = false.
Proof.
    revert i. induction l as [|y l IH]; intros i; simpl.
    - split; [done|]. intros [(x & Hx & _) _]. done.
    - destruct (p y) eqn:Hy.
      + split.
        * intros [= <-]. split; [by exists y|]. lia.
        * intros [_ Hbefore]. destruct i as [|i]; [done|].
          specialize (Hbefore 0%nat y ltac:(lia) eq_refl). congruence.
      + destruct i as [|i].
        * split; [by destruct (find_first p l)|]. intros [(x & [= <-] & Hx) _]. congruence.
        * rewrite fmap_Some. split.
          -- intros (k & Hk & [= <-]). apply IH in Hk as [Hx Hbefore]. split; [done|].
             intros [|j] x Hj Hl; [by simplify_eq/=|]. apply (Hbefore j); [lia|done].
          -- intros [Hx Hbefore]. exists i. split; [|done]. apply IH. split; [done|].
             intros j x Hj Hl. apply (Hbefore (S j)); [lia|done].
Qed.
Lemma find_first_None p l :
    find_first p l = None ↔ ∀ x, x ∈ l → p x = false.
Proof.
    induction l as [|y l IH]; simpl.
    - split; [|done]. intros _ x Hx. by apply not_elem_of_nil in Hx.
    - setoid_rewrite elem_of_cons. destruct (p y) eqn:Hy.
      + split; [done|]. intros H. rewrite (H y) in Hy by auto. done.
      + rewrite fmap_None, IH. split; [by intros H x [->|Hx]; auto|auto].
Qed.
Lemma find_first_lt p l i : find_first p l = Some i → (i < length l)%nat.
Proof. intros [(x & Hx & _) _]%find_first_Some. by apply lookup_lt_Some in Hx. Qed.
End search.

(** ** Alignment masks *)

Lemma testbit_u32_high x j : 0 <= x < 4294967296 → 32 <= j → Z.testbit x j = false.
Proof.
  intros Hx Hj. rewrite <- (u32_id x Hx). unfold u32. change 4294967296 with (2 ^ 32).
  apply Z.mod_pow2_bits_high. lia.
Qed.

(** [x & ~(2^k - 1)] rounds down to a multiple of [2^k]. *)
Lemma land_not_ones k x :
  0 <= k <= 32 → 0 <= x < 4294967296 → Z.land x (~u (Z.ones k)) = 2 ^ k * (x / 2 ^ k).
Proof.
  intros Hk Hx. rewrite Z.mul_comm, <- Z.shiftr_div_pow2, <- Z.shiftl_mul_pow2 by lia.
  rewrite <- Z.ldiff_ones_r by lia. apply Z.bits_inj'. intros j Hj.
  rewrite Z.land_spec, Z.ldiff_spec. destruct (Z.lt_ge_cases j 32) as [Hlt|Hge].
  - unfold u32. change 4294967296 with (2 ^ 32). by rewrite Z.mod_pow2_bits_low, Z.lnot_spec by lia.
  - by rewrite (testbit_u32_high x j Hx).
Qed.

(** [base | flags] with aligned [base] and small [flags] is their sum. *)
Lemma lor_aligned k a b : 0 <= k → 0 <= b < 2 ^ k → Z.lor (2 ^ k * a) b = 2 ^ k * a + b.
Proof.
  intros Hk Hb. symmetry. apply Z.add_nocarry_lor. rewrite Z.mul_comm, <- Z.shiftl_mul_pow2 by lia.
  apply Z.bits_inj'. intros j Hj. rewrite Z.land_spec, Z.testbit_0_l, Z.shiftl_spec by lia.
  destruct (Z.lt_ge_cases j k) as [Hlt|Hge].
  - by rewrite Z.testbit_neg_r by lia.
  - rewrite <- (Z.mod_small b (2 ^ k)) by lia. rewrite Z.mod_pow2_bits_high by lia. apply andb_false_r.
Qed.

Lemma alter_id {A} (f : A → A) (l : list A) i :
  (∀ x, l !! i = Some x → f x = x) → alter f i l = l.
Proof.
  intros H. apply list_eq. intros j. rewrite list_lookup_alter.
  destruct (decide (i = j)) as [->|]; [|done].
  destruct (l !! j) as [x|] eqn:E; [cbn; by rewrite H|done].
Qed.

Lemma take_S_insert {A} (l : list A) n x :
  (n < length l)%nat → take (S n) (<[n := x]> l) = take n l ++ [x].
Proof.
  intros Hn. rewrite (take_S_r _ _ x) by by apply list_lookup_insert_eq.
  f_equal. apply take_insert_ge. lia.
Qed.

(** Counting the elements that pass a test, across an update. *)
Lemma filter_insert_length {A} (P : A → Prop) `{∀ x, Decision (P x)} (l : list A) i x y :
  l !! i = Some x →
  (length (filter P (<[i := y]> l)) + (if decide (P x) then 1 else 0) =
   length (filter P l) + (if decide (P y) then 1 else 0))%nat.
Proof.
  intros Hx. rewrite insert_take_drop by by eapply lookup_lt_Some.
  rewrite <- (take_drop_middle l i x Hx) at 3. rewrite !list.filter_app, !length_app.
  rewrite !filter_cons. destruct (decide (P x)), (decide (P y)); rewrite ?length_cons; lia.
Qed.

Lemma filter_all {A} (P : A → Prop) `{∀ x, Decision (P x)} (l : list A) :
  (∀ x, x ∈ l → P x) → filter P l = l.
Proof.
  induction l as [|x l IH]; intros H'; [done|].
  rewrite filter_cons_True by (apply H'; by left). f_equal. apply IH. intros y Hy. apply H'. by right.
Qed.

Lemma filter_none {A} (P : A → Prop) `{∀ x, Decision (P x)} (l : list A) :
  (∀ x, x ∈ l → ¬ P x) → filter P l = [].
Proof.
  induction l as [|x l IH]; intros H'; [done|].
  rewrite filter_cons_False by (apply H'; by left). apply IH. intros y Hy. apply H'. by right.
Qed.

Lemma insert_middle {A} (p : list A) x v r : <[length p := v]> (p ++ x :: r) = p ++ v :: r.
Proof. rewrite insert_app_r_alt by done. by rewrite Nat.sub_diag. Qed.

Lemma zset_middle {A} (p : list A) i x v r : i = zlen p → zset (p ++ x :: r) i v = Some (p ++ v :: r).
Proof.
  intros ->. rewrite zset_in by (unfold zlen; rewrite length_app; cbn; lia). unfold zlen.
  by rewrite Nat2Z.id, insert_middle.
Qed.

(** ** Counting loops

    [for_loop n i body s] is [for (; i < i0 + n; i++) body], [i0] being the
    first value of [i]. *)
Fixpoint for_loop {S} (n : nat) (i : Z) (body : Z → S → option S) (s : S) : option S :=
  match n with
  | O => Some s
  | S n => s ← body i s; for_loop n (i + 1) body s
  end.

(** The invariant rule: [P j] holds when the counter is [j]. *)
Lemma for_loop_inv {S} (P : Z → S → Prop) n i body s :
  P i s →
  (∀ j t, i <= j < i + Z.of_nat n → P j t → ∃ t', body j t = Some t' ∧ P (j + 1) t') →
  ∃ s', for_loop n i body s = Some s' ∧ P (i + Z.of_nat n) s'.
Proof.
  revert i s. induction n as [|n IH]; intros i s Hs Hstep; cbn [for_loop].
  - exists s. by rewrite Z.add_0_r.
  - destruct (Hstep i s) as (t & -> & Ht); [lia|done|]. cbn [mbind option_bind].
    destruct (IH (i + 1) t Ht) as (s' & E & Hs'); [intros j u Hj; apply Hstep; lia|].
    exists s'. split; [done|]. by replace (i + Z.of_nat (Datatypes.S n)) with (i + 1 + Z.of_nat n) by lia.
Qed.
