(* ===== verification/CString.v ===== *)
(** * CString: the freestanding C library of kernel/string.c

    A [char *] is the buffer from the pointer to the end of the object it
    points into, as a list of bytes (0..255).  Reading or writing past that
    list is undefined behaviour ([None]). *)
From S2P Require Import Prelude.
From Stdlib Require String Ascii.
Export String.StringSyntax.

(** ** String literals *)
Fixpoint bytes_of_string (s : String.string) : list Z :=
  match s with
  | String.EmptyString => []
  | String.String c s' => Z.of_nat (Ascii.nat_of_ascii c) :: bytes_of_string s'
  end.
(** The array a C string literal denotes: its characters and the NUL. *)
Definition lit (s : String.string) : list Z := bytes_of_string s ++ [0].
#[global] Arguments lit _%_string_scope.
#[global] Arguments bytes_of_string _%_string_scope.

(** ** The string a buffer holds

    [cstr b] is the sequence of characters before the first NUL, when there
    is one. *)
Fixpoint cstr (b : list Z) : option (list Z) :=
  match b with
  | [] => None
  | c :: b' => if c =? 0 then Some [] else cons c <$> cstr b'
  end.

(** ** Memory functions *)
Fixpoint memset (s : list Z) (c : Z) (n : nat) {struct n} : option (list Z) :=
  match n with
  | O => Some s
  | S n' =>
      match s with
      | [] => UB
      | _ :: p => p' ← memset p c n'; Some (u8 c :: p')
      end
  end.

Fixpoint memcpy (dest src : list Z) (n : nat) {struct n} : option (list Z) :=
  match n with
  | O => Some dest
  | S n' =>
      match dest, src with
      | _ :: d, c :: s => d' ← memcpy d s n'; Some (c :: d')
      | _, _ => UB
      end
  end.

Fixpoint memcmp (p1 p2 : list Z) (n : nat) {struct n} : option Z :=
  match n with
  | O => Some 0
  | S n' =>
      match p1, p2 with
      | c1 :: q1, c2 :: q2 => if negb (c1 =? c2) then Some (c1 - c2) else memcmp q1 q2 n'
      | _, _ => UB
      end
  end.

(** ** String functions *)
Fixpoint strlen (str : list Z) : option Z :=
  match str with
  | [] => UB
  | c :: s => if negb (c =? 0) then n ← strlen s; Some (1 + n) else Some 0
  end.

Fixpoint strcpy (dest src : list Z) {struct src} : option (list Z) :=
  match src, dest with
  | c :: s, _ :: d => if negb (c =? 0) then d' ← strcpy d s; Some (c :: d') else Some (c :: d)
  | _, _ => UB
  end.

Fixpoint strcat (dest src : list Z) : option (list Z) :=
  match dest with
  | [] => UB
  | c :: d => if negb (c =? 0) then d' ← strcat d src; Some (c :: d') else strcpy dest src
  end.

Fixpoint strcmp (s1 s2 : list Z) : option Z :=
  match s1, s2 with
  | c1 :: t1, c2 :: t2 =>
      if negb (c1 =? 0) && (c1 =? c2) then strcmp t1 t2 else Some (c1 - c2)
  | _, _ => UB
  end.

Fixpoint strncmp (s1 s2 : list Z) (n : nat) {struct n} : option Z :=
  match n with
  | O => Some 0
  | S n' =>
      match s1, s2 with
      | c1 :: t1, c2 :: t2 =>
          if negb (c1 =? c2) then Some (c1 - c2)
          else if c1 =? 0 then Some 0 else strncmp t1 t2 n'
      | _, _ => UB
      end
  end.

(** First loop of [strncpy] copies while [i < n && src[i] != 0]; the second
    pads with NULs to [n]. *)
Fixpoint strncpy (dest src : list Z) (n : nat) {struct n} : option (list Z) :=
  match n with
  | O => Some dest
  | S n' =>
      match src with
      | [] => UB
      | c :: s =>
          if negb (c =? 0) then
            match dest with
            | [] => UB
            | _ :: d => d' ← strncpy d s n'; Some (c :: d')
            end
          else memset dest 0 n
      end
  end.

(** ** Integer to string *)
Definition itoa_digit (rem : Z) : Z := if rem <? 10 then rem + 48 else rem - 10 + 97.

(** The [do ... while (tmp_value != 0)] loop, writing at index [ptr]. *)
Fixpoint itoa_digits (fuel : nat) (buf : list Z) (ptr tmp_value base : Z) : option (list Z * Z) :=
  match fuel with
  | O => None
  | S fuel' =>
      let rem := Z.rem tmp_value base in
      let rem := if rem <? 0 then - rem else rem in
      buf ← zset buf ptr (itoa_digit rem);
      let tmp_value := Z.quot tmp_value base in
      if negb (tmp_value =? 0) then itoa_digits fuel' buf (ptr + 1) tmp_value base
      else Some (buf, ptr + 1)
  end.

(** The [while (ptr1 < ptr)] loop that swaps the two ends. *)
Fixpoint itoa_reverse (fuel : nat) (buf : list Z) (ptr1 ptr : Z) : option (list Z) :=
  match fuel with
  | O => None
  | S fuel' =>
      if ptr1 <? ptr then
        tmp_char ← buf.[ptr];
        c1 ← buf.[ptr1];
        buf ← zset buf ptr c1;
        buf ← zset buf ptr1 tmp_char;
        itoa_reverse fuel' buf (ptr1 + 1) (ptr - 1)
      else Some buf
  end.

(** A 32-bit value has at most 32 digits (base 2). *)
Definition itoa_fuel : nat := 33.

Definition itoa (value : Z) (str : list Z) (base : Z) : option (list Z) :=
  if (base <? 2) || (36 <? base) then zset str 0 0
  else
    let neg := (value <? 0) && (base =? 10) in
    str ← (if neg then zset str 0 45 else Some str);
    let ptr1 := if neg then 1 else 0 in
    '(str, ptr) ← itoa_digits itoa_fuel str ptr1 value base;
    str ← zset str ptr 0;
    itoa_reverse itoa_fuel str ptr1 (ptr - 1).

(** ** Idioms of the callers *)

(** [strcmp(a, b) == 0] *)
Definition streq (s1 s2 : list Z) : option bool := r ← strcmp s1 s2; Some (r =? 0).

(** [strncpy(d, src, k - 1); d[k - 1] = '\0';] on a field of [k] bytes *)
Definition copy_name (d src : list Z) (k : nat) : option (list Z) :=
  d ← strncpy d src (k - 1);
  zset d (Z.of_nat k - 1) 0.

(** The abstract contents a name field of [k] bytes keeps of a string. *)
Definition trunc (k : nat) (s : list Z) : list Z := take (k - 1) s.

(** * Facts about C strings *)

Lemma cstr_alt b s :
  cstr b = Some s ↔ ∃ r, b = s ++ 0 :: r ∧ Forall (λ c, c ≠ 0) s.
Proof.
  revert s. induction b as [|c b IH]; intros s; simpl.
  - split; [done|]. intros (r & H & _). by destruct s.
  - destruct (Z.eqb_spec c 0) as [->|Hc].
    + split; [intros [= <-]; exists b; auto|].
      intros (r & H & Hs). destruct s; [done|]. simplify_list_eq. inversion Hs; done.
    + rewrite fmap_Some. split.
      * intros (t & Ht & ->). apply IH in Ht as (r & -> & Hs). exists r. split; [done|].
        constructor; done.
      * intros (r & H & Hs). destruct s as [|c' s]; simplify_list_eq.
        exists s. split; [|done]. apply IH. exists r. inversion Hs; done.
Qed.

Lemma cstr_app s r : Forall (λ c, c ≠ 0) s → cstr (s ++ 0 :: r) = Some s.
Proof. intros. apply cstr_alt. eauto. Qed.

Lemma cstr_nonzero b s : cstr b = Some s → Forall (λ c, c ≠ 0) s.
Proof. intros (r & _ & H)%cstr_alt. done. Qed.

Lemma strlen_cstr b s : cstr b = Some s → strlen b = Some (zlen s).
Proof.
  intros (r & -> & Hs)%cstr_alt. induction Hs as [|c s Hc Hs IH]; [done|]. simpl.
  destruct (Z.eqb_spec c 0); [done|]. simpl. rewrite IH. simpl. f_equal. unfold zlen.
  rewrite length_cons. lia.
Qed.

(** The value [strcmp] returns on two strings: the difference of the first
    characters that differ, NUL included. *)
Fixpoint str_diff (s1 s2 : list Z) : Z :=
  match s1, s2 with
  | [], [] => 0
  | [], c :: _ => 0 - c
  | c :: _, [] => c - 0
  | c1 :: t1, c2 :: t2 => if c1 =? c2 then str_diff t1 t2 else c1 - c2
  end.

Lemma strcmp_str_diff b1 b2 s1 s2 :
  cstr b1 = Some s1 → cstr b2 = Some s2 → strcmp b1 b2 = Some (str_diff s1 s2).
Proof.
  revert b2 s1 s2. induction b1 as [|c1 b1 IH]; intros b2 s1 s2 H1 H2; [done|].
  destruct b2 as [|c2 b2]; [done|]. cbn in *.
  destruct (Z.eqb_spec c1 0) as [->|Hc1].
  - simplify_eq. destruct (Z.eqb_spec c2 0) as [->|Hc2]; [by simplify_eq|].
    apply fmap_Some in H2 as (t & _ & ->). done.
  - apply fmap_Some in H1 as (t1 & Ht1 & ->). simpl.
    destruct (Z.eqb_spec c1 c2) as [->|Hne].
    + destruct (Z.eqb_spec c2 0); [done|]. apply fmap_Some in H2 as (t2 & Ht2 & ->).
      rewrite (IH _ t1 t2) by done. rewrite Z.eqb_refl. done.
    + destruct (Z.eqb_spec c2 0) as [->|Hc2]; [by simplify_eq|].
      apply fmap_Some in H2 as (t & _ & ->). apply Z.eqb_neq in Hne. by rewrite Hne.
Qed.

Lemma str_diff_eq s1 s2 :
  Forall (λ c, c ≠ 0) s1 → Forall (λ c, c ≠ 0) s2 → str_diff s1 s2 = 0 ↔ s1 = s2.
Proof.
  intros H1. revert s2. induction H1 as [|c1 s1 Hc1 H1 IH]; intros s2 H2; destruct H2 as [|c2 s2 Hc2 H2];
    simpl; [done|split; [lia|done]..|].
  destruct (Z.eqb_spec c1 c2) as [->|].
  - rewrite IH by done. split; [by intros ->|by intros [=]].
  - split; [lia|by intros [=]].
Qed.

Lemma streq_spec b1 b2 s1 s2 :
  cstr b1 = Some s1 → cstr b2 = Some s2 → streq b1 b2 = Some (bool_decide (s1 = s2)).
Proof.
  intros H1 H2. unfold streq. rewrite (strcmp_str_diff _ _ _ _ H1 H2). simpl. f_equal.
  pose proof (str_diff_eq s1 s2 (cstr_nonzero _ _ H1) (cstr_nonzero _ _ H2)) as Heq.
  symmetry. destruct (Z.eqb_spec (str_diff s1 s2) 0) as [E|E]; rewrite Heq in E.
  - by apply bool_decide_eq_true.
  - by apply bool_decide_eq_false.
Qed.

Lemma memset_spec s c n :
  (n ≤ length s)%nat → memset s c n = Some (replicate n (u8 c) ++ drop n s).
Proof.
  revert s. induction n as [|n IH]; intros s Hn; [done|].
  destruct s as [|x s]; simpl in *; [lia|]. by rewrite IH by lia.
Qed.

Lemma memcpy_spec dest src n :
  (n ≤ length dest)%nat → (n ≤ length src)%nat →
  memcpy dest src n = Some (take n src ++ drop n dest).
Proof.
  revert dest src. induction n as [|n IH]; intros dest src Hd Hs; [done|].
  destruct dest as [|x dest], src as [|c src]; simpl in *; try lia. by rewrite IH by lia.
Qed.

Lemma memcpy_overrun dest src n :
  (length src < n ∨ length dest < n)%nat → memcpy dest src n = None.
Proof.
  revert dest src. induction n as [|n IH]; intros dest src H; [lia|].
  destruct dest as [|x dest], src as [|c src]; simpl in *; try done. by rewrite IH by lia.
Qed.

Lemma strncpy_spec dest src s n :
  cstr src = Some s → (n ≤ length dest)%nat →
  strncpy dest src n = Some (take n (s ++ replicate n 0) ++ drop n dest).
Proof.
  intros (r & -> & Hs)%cstr_alt. revert dest n.
  induction Hs as [|c s Hc Hs IH]; intros dest n Hn; destruct n as [|n]; try done.
  - cbn [strncpy app]. rewrite Z.eqb_refl. cbn [negb].
    rewrite memset_spec by done. by rewrite take_replicate, Nat.min_id.
  - destruct dest as [|x dest]; simpl in Hn; [lia|]. cbn.
    destruct (Z.eqb_spec c 0); [done|]. cbn. rewrite IH by lia. cbn. f_equal. f_equal. f_equal.
    change (0 :: replicate n 0) with (replicate (S n) 0).
    rewrite !take_app. f_equal. rewrite !take_replicate. f_equal. lia.
Qed.

(** A zeroed field of [k] bytes after [strncpy] of [k - 1] characters. *)
Lemma cstr_take_replicate s k :
  Forall (λ c, c ≠ 0) s → (0 < k)%nat →
  cstr (take (k - 1) (s ++ replicate (k - 1) 0) ++ drop (k - 1) (replicate k 0)) = Some (trunc k s).
Proof.
  intros Hs Hk. replace k with (k - 1 + 1)%nat at 4 by lia. rewrite drop_replicate.
  replace (k - 1 + 1 - (k - 1))%nat with 1%nat by lia.
  rewrite take_app, take_replicate, <- app_assoc. unfold trunc. apply cstr_alt.
  assert (Forall (λ c, c ≠ 0) (take (k - 1) s)) by by apply Forall_take.
  destruct ((k - 1 - length s) `min` (k - 1))%nat as [|m]; simpl; eauto.
Qed.

Lemma copy_name_spec d src s k :
  cstr src = Some s → (0 < k)%nat → length d = k →
  ∃ d', copy_name d src k = Some d' ∧ length d' = k ∧ cstr d' = Some (trunc k s).
Proof.
  intros Hs Hk Hd. unfold copy_name. rewrite (strncpy_spec _ _ s) by (done || lia). simpl.
  set (d1 := take (k - 1) (s ++ replicate (k - 1) 0) ++ drop (k - 1) d).
  assert (length d1 = k) as Hd1.
  { unfold d1. rewrite length_app, length_take, length_app, length_replicate, length_drop. lia. }
  rewrite zset_in by (unfold zlen; lia). eexists. split; [done|].
  split; [by rewrite length_insert|].
  assert (d1 = take (k - 1) (s ++ replicate (k - 1) 0) ++ [nth (k - 1) d 0]) as ->.
  { unfold d1. f_equal. destruct (drop (k - 1) d) as [|y l] eqn:E.
    - apply (f_equal length) in E. rewrite length_drop in E. simpl in E. lia.
    - assert (l = []) as ->. { apply (f_equal length) in E. rewrite length_drop in E.
        destruct l; [done|]. simpl in E. lia. }
      f_equal. rewrite <- (take_drop (k - 1) d) at 1. rewrite E.
      rewrite app_nth2; rewrite length_take; [|lia].
      replace (k - 1 - (k - 1) `min` length d)%nat with 0%nat by lia. done. }
  set (pre := take (k - 1) (s ++ replicate (k - 1) 0)) in *.
  assert (Z.to_nat (Z.of_nat k - 1) = (length pre + 0)%nat) as ->.
  { unfold pre. rewrite length_take, length_app, length_replicate. lia. }
  rewrite insert_app_r. cbn. unfold pre. rewrite take_app, take_replicate, <- app_assoc.
  unfold trunc. apply cstr_alt.
  apply cstr_nonzero in Hs. assert (Forall (λ c, c ≠ 0) (take (k - 1) s)) by by apply Forall_take.
  destruct ((k - 1 - length s) `min` (k - 1))%nat as [|m]; simpl; eauto.
Qed.

(** A fixed-size field of [k] bytes that holds a string. *)
Definition name_ok (k : nat) (b : list Z) : Prop := length b = k ∧ is_Some (cstr b).
#[export] Instance name_ok_dec k b : Decision (name_ok k b).
Proof. unfold name_ok. apply _. Defined.

(** The string a name field holds. *)
Definition str (b : list Z) : list Z := default [] (cstr b).

Lemma name_ok_str k b : name_ok k b → cstr b = Some (str b).
Proof. intros [_ [n Hn]]. unfold str. by rewrite Hn. Qed.

Lemma name_ok_zero k : (0 < k)%nat → name_ok k (replicate k 0).
Proof. intros Hk. split; [by rewrite length_replicate|]. destruct k; [lia|]. by eexists. Qed.

Lemma copy_name_ok d src n k :
  cstr src = Some n → (0 < k)%nat → length d = k →
  ∃ d', copy_name d src k = Some d' ∧ name_ok k d' ∧ str d' = trunc k n.
Proof.
  intros Hn Hk Hd. destruct (copy_name_spec d src n k Hn Hk Hd) as (d' & E & Hl & Hc).
  exists d'. split; [done|]. unfold name_ok, str. rewrite Hc. split; [|done]. split; [done|by eexists].
Qed.

Lemma strcpy_spec dest src s :
  cstr src = Some s → (length s < length dest)%nat →
  strcpy dest src = Some (s ++ 0 :: drop (S (length s)) dest).
Proof.
  intros (r & -> & Hs)%cstr_alt. revert dest.
  induction Hs as [|c s Hc Hs IH]; intros [|x dest] Hl; simpl in *; try lia; [done|].
  destruct (Z.eqb_spec c 0); [done|]. cbn. rewrite IH by lia. done.
Qed.

(** Compared over the length of the second string, [strncmp] tests for a prefix. *)
Lemma strncmp_prefix b1 b2 s1 s2 :
  cstr b1 = Some s1 → cstr b2 = Some s2 →
  ∃ r, strncmp b1 b2 (length s2) = Some r ∧ (r = 0 ↔ s2 `prefix_of` s1).
Proof.
  intros (r1 & -> & H1)%cstr_alt (r2 & -> & H2)%cstr_alt. revert s1 H1.
  induction H2 as [|c2 s2 Hc2 H2 IH]; intros s1 H1.
  { exists 0. split; [done|]. split; [intros _; apply prefix_nil|done]. }
  destruct H1 as [|c1 s1 Hc1 H1]; cbn [length app strncmp].
  - destruct (Z.eqb_spec 0 c2) as [E|_]; [by destruct Hc2|]. cbn [negb]. exists (0 - c2). split; [done|].
    split; [lia|]. by intros []%prefix_nil_not.
  - destruct (Z.eqb_spec c1 c2) as [->|Hne]; cbn [negb].
    + destruct (Z.eqb_spec c2 0); [done|]. destruct (IH s1 H1) as (r & -> & Hr). exists r. split; [done|].
      rewrite Hr. split; [apply prefix_cons|apply prefix_cons_inv_2].
    + exists (c1 - c2). split; [done|]. split; [lia|]. intros ?%prefix_cons_inv_1. by destruct Hne.
Qed.

(** * Facts about [itoa] *)

(** The digits of [n] in [base], least significant first. *)
Fixpoint digits (fuel : nat) (n base : Z) : list Z :=
  match fuel with
  | O => []
  | S fuel' => n mod base :: (if n / base =? 0 then [] else digits fuel' (n / base) base)
  end.

(** Reading a numeral back. *)
Definition digit_value (c : Z) : Z := if c <=? 57 then c - 48 else c - 97 + 10.
Definition numeral_value (base : Z) (s : list Z) : Z :=
  fold_left (λ acc c, acc * base + digit_value c) s 0.
Definition signed_numeral_value (base : Z) (s : list Z) : Z :=
  match s with
  | c :: t => if c =? 45 then - numeral_value base t else numeral_value base s
  | [] => 0
  end.

Section itoa.
  Context (base : Z) (Hbase : 2 <= base <= 36).

Lemma digits_range fuel n : 0 <= n → Forall (λ d, 0 <= d < base) (digits fuel n base).
Proof.
    revert n. induction fuel as [|fuel IH]; intros n Hn; simpl; [done|].
    constructor; [apply Z.mod_pos_bound; lia|].
    destruct (_ =? 0); [done|]. apply IH. apply Z.div_pos; lia.
Qed.

Lemma digits_length fuel n (k : nat) :
    0 <= n < base ^ Z.of_nat k → (0 < k)%nat → (length (digits fuel n base) ≤ k)%nat.
Proof.
    revert n k. induction fuel as [|fuel IH]; intros n k Hn Hk; simpl; [lia|].
    destruct (Z.eqb_spec (n / base) 0) as [|Hne]; simpl; [lia|].
    destruct k as [|k]; [lia|]. rewrite Nat2Z.inj_succ, Z.pow_succ_r in Hn by lia.
    assert (0 <= n / base < base ^ Z.of_nat k).
    { split; [apply Z.div_pos; lia|]. apply Z.div_lt_upper_bound; lia. }
    destruct k as [|k]; [simpl in *; lia|].
    apply le_n_S, IH; [done|lia].
Qed.

Lemma itoa_digit_value d : 0 <= d < base → digit_value (itoa_digit d) = d.
Proof. intros Hd. unfold digit_value, itoa_digit. zcases; lia. Qed.
Lemma itoa_digit_range d : 0 <= d < base → 48 <= itoa_digit d <= 122.
Proof. intros Hd. unfold itoa_digit. zcases; lia. Qed.

Lemma numeral_value_app s c :
    numeral_value base (s ++ [c]) = numeral_value base s * base + digit_value c.
Proof. unfold numeral_value. by rewrite fold_left_app. Qed.

Lemma digits_value fuel n :
    0 <= n < base ^ Z.of_nat fuel → (0 < fuel)%nat →
    numeral_value base (rev (itoa_digit <$> digits fuel n base)) = n.
Proof.
    revert n. induction fuel as [|fuel IH]; intros n Hn Hk; [lia|]. simpl.
    rewrite numeral_value_app, itoa_digit_value
      by (apply Z.mod_pos_bound; lia).
    transitivity (base * (n / base) + n mod base); [|symmetry; apply Z.div_mod; lia].
    destruct (Z.eqb_spec (n / base) 0) as [E|Hne]; [rewrite E; unfold numeral_value; cbn; lia|].
    rewrite Nat2Z.inj_succ, Z.pow_succ_r in Hn by lia.
    assert (0 <= n / base < base ^ Z.of_nat fuel).
    { split; [apply Z.div_pos; lia|]. apply Z.div_lt_upper_bound; lia. }
    destruct fuel as [|fuel]; [simpl in *; lia|]. rewrite IH by (done || lia). lia.
Qed.

  (** The digit loop writes the digits of the absolute value. *)
Lemma itoa_digits_spec fuel tmp pre rest :
    Z.abs tmp < base ^ Z.of_nat fuel → (0 < fuel)%nat →
    (length (digits fuel (Z.abs tmp) base) ≤ length rest)%nat →
    itoa_digits fuel (pre ++ rest) (zlen pre) tmp base =
      Some (pre ++ (itoa_digit <$> digits fuel (Z.abs tmp) base)
                ++ drop (length (digits fuel (Z.abs tmp) base)) rest,
            zlen pre + zlen (digits fuel (Z.abs tmp) base)).
Proof.
    revert tmp pre rest. induction fuel as [|fuel IH]; intros tmp pre rest Htmp Hf Hlen; [lia|].
    cbn [itoa_digits digits] in *.
    assert ((if Z.rem tmp base <? 0 then - Z.rem tmp base else Z.rem tmp base) = Z.abs tmp mod base) as ->.
    { rewrite <- (Z.rem_mod_nonneg (Z.abs tmp)) by lia. rewrite Z.rem_abs_l by lia. zcases; lia. }
    destruct rest as [|x rest]; [simpl in Hlen; lia|].
    rewrite zset_in by (unfold zlen; rewrite length_app, length_cons; lia).
    replace (Z.to_nat (zlen pre)) with (length pre + 0)%nat by (unfold zlen; lia).
    rewrite insert_app_r. cbn [option_bind mbind insert list_insert].
    assert (Z.abs (Z.quot tmp base) = Z.abs tmp / base) as Hq.
    { rewrite <- Z.quot_abs, (Z.abs_eq base), Z.quot_div_nonneg by lia. done. }
    assert ((Z.quot tmp base =? 0) = (Z.abs tmp / base =? 0)) as -> by (zcases; lia).
    set (d := itoa_digit (Z.abs tmp mod base)).
    replace (pre ++ d :: rest) with ((pre ++ [d]) ++ rest) by by rewrite <- app_assoc.
    destruct (Z.eqb_spec (Z.abs tmp / base) 0) as [Hz|Hz]; cbn [negb].
    - cbn. rewrite <- app_assoc. unfold zlen. done.
    - rewrite Nat2Z.inj_succ, Z.pow_succ_r in Htmp by lia.
      assert (0 <= Z.abs tmp / base < base ^ Z.of_nat fuel).
      { split; [apply Z.div_pos; lia|]. apply Z.div_lt_upper_bound; lia. }
      destruct fuel as [|fuel']; [simpl in *; lia|].
      replace (zlen pre + 1) with (zlen (pre ++ [d])) by (unfold zlen; rewrite length_app; simpl; lia).
      rewrite IH; rewrite ?Hq; [|lia|lia|].
      + rewrite <- app_assoc. unfold zlen. rewrite length_app. cbn [length app fmap list_fmap drop].
        f_equal. f_equal. lia.
      + cbn [length] in Hlen. lia.
Qed.

Lemma itoa_reverse_done fuel buf i j : j <= i → itoa_reverse (S fuel) buf i j = Some buf.
Proof. intros H. cbn [itoa_reverse]. destruct (Z.ltb_spec i j); [lia|done]. Qed.

  (** One round of the loop swaps the two ends. *)
Lemma itoa_reverse_step fuel pre a mid b post :
    itoa_reverse (S fuel) (pre ++ a :: mid ++ b :: post) (zlen pre) (zlen pre + zlen mid + 1) =
    itoa_reverse fuel ((pre ++ [b]) ++ mid ++ a :: post) (zlen (pre ++ [b])) (zlen pre + zlen mid).
Proof.
    unfold zlen. cbn [itoa_reverse].
    assert (Z.of_nat (length pre) + Z.of_nat (length mid) + 1 = Z.of_nat (length (pre ++ a :: mid)))
      as E2 by (rewrite length_app, length_cons; lia).
    assert (pre ++ a :: mid ++ b :: post = (pre ++ a :: mid) ++ b :: post) as E1
      by by rewrite <- app_assoc.
    rewrite E2. destruct (Z.ltb_spec (Z.of_nat (length pre)) (Z.of_nat (length (pre ++ a :: mid))))
      as [_|]; [|rewrite length_app, length_cons in *; lia].
    rewrite !zget_nat. rewrite E1 at 1.
    rewrite !list_lookup_middle by done. cbn [mbind option_bind].
    rewrite E1, zset_in by (unfold zlen; rewrite (length_app (pre ++ _)), length_cons; lia).
    rewrite Nat2Z.id. cbn [mbind option_bind].
    rewrite <- (Nat.add_0_r (length (pre ++ a :: mid))) at 1. rewrite insert_app_r.
    cbn [insert list_insert].
    rewrite zset_in by (unfold zlen; rewrite !length_app, !length_cons; lia).
    cbn [mbind option_bind]. rewrite Nat2Z.id, <- app_assoc.
    rewrite <- (Nat.add_0_r (length pre)) at 1. rewrite insert_app_r. cbn [insert list_insert app].
    f_equal; [by rewrite <- app_assoc| |]; rewrite !length_app, ?length_cons; simpl; lia.
Qed.

Lemma itoa_reverse_spec fuel pre mid post :
    (length mid ≤ 2 * fuel)%nat → (0 < fuel)%nat →
    itoa_reverse (S fuel) (pre ++ mid ++ post) (zlen pre) (zlen pre + zlen mid - 1) =
      Some (pre ++ rev mid ++ post).
Proof.
    revert pre mid post. induction fuel as [|fuel IH]; intros pre mid post Hlen Hf; [lia|].
    destruct mid as [|a mid].
    { apply itoa_reverse_done. unfold zlen. simpl. lia. }
    destruct (decide (mid = [])) as [->|Hne].
    { apply itoa_reverse_done. unfold zlen. simpl. lia. }
    destruct (exists_last Hne) as (mid' & b & ->). clear Hne.
    replace (zlen pre + zlen (a :: mid' ++ [b]) - 1) with (zlen pre + zlen mid' + 1)
      by (unfold zlen; rewrite length_cons, length_app; simpl; lia).
    cbn [app]. rewrite <- app_assoc. cbn [app]. rewrite itoa_reverse_step.
    cbn [rev]. rewrite rev_app_distr. cbn [rev app]. rewrite <- !app_assoc. cbn [app].
    rewrite length_cons, length_app in Hlen. cbn [length] in Hlen.
    destruct fuel as [|fuel].
    - destruct mid' as [|? mid']; [|simpl in Hlen; lia].
      apply itoa_reverse_done. unfold zlen. rewrite length_app. simpl. lia.
    - replace (pre ++ b :: mid' ++ a :: post) with ((pre ++ [b]) ++ mid' ++ a :: post)
        by by rewrite <- app_assoc.
      replace (zlen pre + zlen mid') with (zlen (pre ++ [b]) + zlen mid' - 1)
        by (unfold zlen; rewrite length_app; simpl; lia).
      rewrite IH by lia. by rewrite <- app_assoc.
Qed.
End itoa.

Lemma pow_2_le_base base : 2 <= base → 2 ^ 32 <= base ^ 32.
Proof. intros. apply Z.pow_le_mono_l. lia. Qed.

(** The bytes [itoa] leaves in the buffer. *)
Lemma itoa_spec value str base sign ds :
  2 <= base <= 36 → -2147483648 <= value < 2147483648 →
  sign = (if (value <? 0) && (base =? 10) then [45] else []) →
  ds = digits itoa_fuel (Z.abs value) base →
  (length sign + length ds < length str)%nat →
  itoa value str base =
    Some (sign ++ rev (itoa_digit <$> ds) ++ 0 :: drop (S (length sign + length ds)) str).
Proof.
  intros Hb Hv Hsign Hds Hlen. unfold itoa.
  destruct (Z.ltb_spec base 2), (Z.ltb_spec 36 base); try lia. cbn [orb].
  assert ((if (value <? 0) && (base =? 10) then zset str 0 45 else Some str)
    = Some (sign ++ drop (length sign) str)) as ->.
  { rewrite Hsign. destruct ((value <? 0) && (base =? 10)); [|done].
    rewrite zset_in by (unfold zlen; lia). destruct str; [simpl in Hlen; lia|done]. }
  cbn [mbind option_bind].
  replace (if (value <? 0) && (base =? 10) then 1 else 0) with (zlen sign)
    by (rewrite Hsign; by destruct ((value <? 0) && (base =? 10))).
  pose proof (pow_2_le_base base ltac:(lia)) as Hpow.
  assert (Z.abs value < base ^ Z.of_nat itoa_fuel).
  { unfold itoa_fuel. change (Z.of_nat 33) with (1 + 32). rewrite Z.pow_add_r, Z.pow_1_r by lia. nia. }
  rewrite (itoa_digits_spec base);
    [|done|done|unfold itoa_fuel; lia|rewrite <- Hds, length_drop; lia].
  cbn [mbind option_bind]. rewrite <- Hds, drop_drop.
  set (ms := itoa_digit <$> ds). assert (length ms = length ds) as Hms by apply length_fmap.
  rewrite zset_in by (unfold zlen; rewrite !length_app, length_drop, Hms; lia).
  destruct (drop (length sign + length ds) str) as [|x rest] eqn:Edrop.
  { apply (f_equal length) in Edrop. rewrite length_drop in Edrop. simpl in Edrop. lia. }
  assert (Z.to_nat (zlen sign + zlen ds) = length (sign ++ ms) + 0)%nat as ->
    by (unfold zlen; rewrite length_app, Hms; lia).
  rewrite app_assoc, insert_app_r, <- app_assoc. cbn [mbind option_bind insert list_insert].
  replace (zlen ds) with (zlen ms) by (unfold zlen; by rewrite Hms).
  assert (length ds ≤ 33)%nat.
  { rewrite Hds. apply digits_length; [done| |lia]. split; [lia|].
    change (Z.of_nat 33) with (1 + 32). rewrite Z.pow_add_r, Z.pow_1_r by lia. nia. }
  rewrite (itoa_reverse_spec 32) by (rewrite ?Hms; lia).
  do 4 f_equal.
  replace (S (length sign + length ds)) with (length sign + length ds + 1)%nat by lia.
  by rewrite <- drop_drop, Edrop.
Qed.

(** C36. Printing with [itoa] in a base from 2 to 36 any [int] of at most [k]
    digits stays inside a buffer of [k + 1] bytes, one more for the sign of a
    negative number in base 10; it leaves a C string there, and reading that
    numeral back gives the number in base 10 and, as no sign is written in any
    other base, its absolute value there.  (So 12 bytes do for every [int] in
    base 10 and the 9 of the hexadecimal conversions in log.c for all eight
    digits; the 8, 16 and 4 bytes of [process_print_list] do for numbers of up
    to 7, 15 and 3 digits.) *)
Theorem itoa_roundtrip value str base (k : nat) :
  2 <= base <= 36 → -2147483648 <= value < 2147483648 → (0 < k)%nat → Z.abs value < base ^ Z.of_nat k →
  ((if ((value <? 0) && (base =? 10))%Z then S k else k) < length str)%nat →
  ∃ str' s, itoa value str base = Some str' ∧ length str' = length str ∧ cstr str' = Some s ∧
    signed_numeral_value base s = (if base =? 10 then value else Z.abs value).
Proof.
  intros Hb Hv Hk Hdig Hroom.
  remember (if (value <? 0) && (base =? 10) then [45] else []) as sign eqn:Hsign.
  remember (digits itoa_fuel (Z.abs value) base) as ds eqn:Hd.
  pose proof (pow_2_le_base base ltac:(lia)) as Hpow.
  assert (length sign + length ds < length str)%nat as Hlen.
  { assert (length ds ≤ k)%nat by (subst ds; apply digits_length; lia).
    rewrite Hsign. destruct (_ && _); simpl; lia. }
  pose proof (itoa_spec value str base sign ds Hb Hv Hsign Hd Hlen) as ->.
  assert (Forall (λ c, 48 <= c <= 122) (rev (itoa_digit <$> ds))) as Hds.
  { apply Forall_rev, Forall_fmap. rewrite Hd.
    eapply List.Forall_impl; [apply (itoa_digit_range base Hb)|apply digits_range; lia]. }
  eexists _, (sign ++ rev (itoa_digit <$> ds)). split; [done|]. split_and!.
  - rewrite !length_app, length_rev, length_fmap, length_cons, length_drop. lia.
  - rewrite app_assoc. apply cstr_app. apply Forall_app. split.
    + rewrite Hsign. destruct (_ && _); repeat constructor; lia.
    + eapply List.Forall_impl; [|done]. simpl. lia.
  - assert (numeral_value base (rev (itoa_digit <$> ds)) = Z.abs value) as Hval.
    { rewrite Hd. apply digits_value; [done| |unfold itoa_fuel; lia].
      unfold itoa_fuel. change (Z.of_nat 33) with (1 + 32). rewrite Z.pow_add_r, Z.pow_1_r by lia. nia. }
    rewrite Hsign. destruct (Z.ltb_spec value 0), (Z.eqb_spec base 10); cbn [andb app signed_numeral_value];
      [rewrite Z.eqb_refl, Hval; lia|..].
    all: destruct (rev (itoa_digit <$> ds)) as [|c t] eqn:E;
      [apply (f_equal length) in E; rewrite length_rev, length_fmap, Hd in E; discriminate E|].
    all: cbn [signed_numeral_value]; inversion Hds; subst; destruct (Z.eqb_spec c 45); [lia|];
      rewrite Hval; lia.
Qed.

Lemma itoa_roundtrip_witness :
  ∃ str' s, itoa (-2147483648) (replicate 12 170) 10 = Some str' ∧ length str' = 12%nat ∧
    cstr str' = Some s ∧ signed_numeral_value 10 s = -2147483648.
Proof. apply (itoa_roundtrip (-2147483648) (replicate 12 170) 10 10); [lia|lia|lia|lia|]. vm_compute. lia. Defined.
