(* ===== verification/Mem.v ===== *)
(** * Mem: large byte arrays

    The static byte arrays of the kernel (the heap, the file data areas, the
    program memory) are total functions from offsets to bytes together with
    the size of the object; the block operations check the bounds and are
    undefined ([None]) when the access leaves the object. *)
From S2P Require Import Prelude.

Definition mem : Type := Z → Z.

Definition mem_zero : mem := λ _, 0.

(** [bs] stored at offset [a]. *)
Definition mem_write (m : mem) (a : Z) (bs : list Z) : mem :=
  λ x, if (a <=? x) && (x <? a + zlen bs) then nth (Z.to_nat (x - a)) bs 0 else m x.

(** [n] bytes from offset [a]. *)
Definition mem_read (m : mem) (a n : Z) : list Z := m <$> seqZ a n.

(** [memcpy(obj + a, src, n)] into an object of [size] bytes; [src] is what
    the source pointer can reach. *)
Definition mem_store (size : Z) (m : mem) (a : Z) (src : list Z) (n : Z) : option mem :=
  if (0 <=? a) && (0 <=? n) && (a + n <=? size) && (n <=? zlen src)
  then Some (mem_write m a (take (Z.to_nat n) src))
  else UB.

(** [memcpy(dest, obj + a, n)] out of an object of [size] bytes; the
    destination must offer [room] bytes. *)
Definition mem_load (size : Z) (m : mem) (a n room : Z) : option (list Z) :=
  if (0 <=? a) && (0 <=? n) && (a + n <=? size) && (n <=? room)
  then Some (mem_read m a n)
  else UB.

(** [memset(obj + a, c, n)] *)
Definition mem_fill (size : Z) (m : mem) (a c n : Z) : option mem :=
  if (0 <=? a) && (0 <=? n) && (a + n <=? size)
  then Some (λ x, if (a <=? x) && (x <? a + n) then u8 c else m x)
  else UB.

Section mem_facts.
Implicit Types (m : mem) (bs : list Z).

Lemma mem_write_out m a bs x : x < a ∨ a + zlen bs <= x → mem_write m a bs x = m x.
Proof. intros Hx. unfold mem_write. zcases; simpl; done || lia. Qed.

Lemma mem_write_in m a bs x :
  a <= x < a + zlen bs → mem_write m a bs x = nth (Z.to_nat (x - a)) bs 0.
Proof. intros Hx. unfold mem_write. zcases; simpl; done || lia. Qed.

Lemma mem_read_length m a n : 0 <= n → zlen (mem_read m a n) = n.
Proof. intros. unfold zlen, mem_read. rewrite length_fmap, length_seqZ. lia. Qed.

Lemma mem_read_lookup m a n (i : nat) :
  Z.of_nat i < n → mem_read m a n !! i = Some (m (a + Z.of_nat i)).
Proof.
  intros Hi. unfold mem_read. rewrite list_lookup_fmap.
  rewrite lookup_seqZ_lt by lia. done.
Qed.

Lemma mem_read_ext m1 m2 a n :
  (∀ x, a <= x < a + n → m1 x = m2 x) → mem_read m1 a n = mem_read m2 a n.
Proof.
  intros H. unfold mem_read. apply list_fmap_ext. intros i x Hx.
  apply lookup_seqZ in Hx as [-> Hi]. apply H. lia.
Qed.

Lemma mem_read_write_same m a bs : mem_read (mem_write m a bs) a (zlen bs) = bs.
Proof.
  apply list_eq. intros i. destruct (decide (i < length bs)%nat) as [Hi|Hi].
  - rewrite mem_read_lookup by (unfold zlen; lia).
    rewrite mem_write_in by (unfold zlen; lia).
    replace (Z.to_nat (a + Z.of_nat i - a)) with i by lia.
    rewrite nth_lookup. destruct (lookup_lt_is_Some_2 bs i Hi) as [y Hy]. by rewrite Hy.
  - rewrite !lookup_ge_None_2; [done|lia|].
    pose proof (mem_read_length (mem_write m a bs) a (zlen bs)). unfold zlen in *. lia.
Qed.

Lemma mem_read_write_out m a bs b n :
  b + n <= a ∨ a + zlen bs <= b → mem_read (mem_write m a bs) b n = mem_read m b n.
Proof. intros H. apply mem_read_ext. intros x Hx. apply mem_write_out. lia. Qed.

Lemma mem_store_Some size m a src n :
  0 <= a → 0 <= n → a + n <= size → n <= zlen src →
  mem_store size m a src n = Some (mem_write m a (take (Z.to_nat n) src)).
Proof. intros. unfold mem_store. zcases; simpl; done || lia. Qed.

Lemma mem_load_Some size m a n room :
  0 <= a → 0 <= n → a + n <= size → n <= room →
  mem_load size m a n room = Some (mem_read m a n).
Proof. intros. unfold mem_load. zcases; simpl; done || lia. Qed.

Lemma mem_store_overrun size m a src n :
  size < a + n ∨ zlen src < n → mem_store size m a src n = None.
Proof. intros. unfold mem_store. zcases; simpl; done || lia. Qed.

Lemma mem_load_overrun size m a n room :
  size < a + n ∨ room < n → mem_load size m a n room = None.
Proof. intros. unfold mem_load. zcases; simpl; done || lia. Qed.

Lemma zlen_take (src : list Z) n : 0 <= n <= zlen src → zlen (take (Z.to_nat n) src) = n.
Proof. unfold zlen. intros. rewrite length_take. lia. Qed.

Lemma mem_read_app m a x y : 0 <= x → 0 <= y → mem_read m a (x + y) = mem_read m a x ++ mem_read m (a + x) y.
Proof. intros Hx Hy. unfold mem_read. by rewrite seqZ_app, fmap_app by done. Qed.

Lemma mem_read_take m a n k : 0 <= k <= n → take (Z.to_nat k) (mem_read m a n) = mem_read m a k.
Proof.
  intros Hk. replace n with (k + (n - k)) by lia. rewrite mem_read_app by lia.
  apply take_app_length'. pose proof (mem_read_length m a k). unfold zlen in *. lia.
Qed.

Lemma mem_read_drop m a n k : 0 <= k <= n → drop (Z.to_nat k) (mem_read m a n) = mem_read m (a + k) (n - k).
Proof.
  intros Hk. replace n with (k + (n - k)) at 1 by lia. rewrite mem_read_app by lia.
  apply drop_app_length'. pose proof (mem_read_length m a k). unfold zlen in *. lia.
Qed.

(** Reading an area of which a part has been overwritten, possibly at its end. *)
Lemma mem_read_splice m a sz off bs :
  0 <= off <= sz →
  mem_read (mem_write m (a + off) bs) a (Z.max sz (off + zlen bs)) =
    take (Z.to_nat off) (mem_read m a sz) ++ bs ++ drop (Z.to_nat (off + zlen bs)) (mem_read m a sz).
Proof.
  intros Ho. assert (0 <= zlen bs) as Hb by (unfold zlen; lia). rewrite mem_read_take by done.
  set (rest := Z.max sz (off + zlen bs) - (off + zlen bs)).
  replace (Z.max sz (off + zlen bs)) with (off + (zlen bs + rest)) by lia.
  rewrite !mem_read_app by lia. rewrite (mem_read_write_out m (a + off) bs a) by lia.
  rewrite mem_read_write_same. do 2 f_equal. rewrite mem_read_write_out by lia.
  destruct (Z.le_gt_cases sz (off + zlen bs)) as [Hle|Hgt].
  - assert (rest = 0) as -> by lia. symmetry. apply drop_ge. pose proof (mem_read_length m a sz).
    unfold zlen in *. lia.
  - rewrite mem_read_drop by lia. f_equal; lia.
Qed.

(** Reading an area whose beginning has been overrun from below. *)
Lemma mem_read_overrun m a bs b n :
  a <= b → 0 <= n →
  mem_read (mem_write m a bs) b n =
    take (Z.to_nat n) (drop (Z.to_nat (b - a)) bs ++ drop (length bs - Z.to_nat (b - a)) (mem_read m b n)).
Proof.
  intros Hab Hn. assert (∀ m', length (mem_read m' b n) = Z.to_nat n) as Hlen.
  { intros m'. pose proof (mem_read_length m' b n Hn). unfold zlen in *. lia. }
  apply list_eq. intros i. destruct (decide (i < Z.to_nat n)%nat) as [Hi|Hi].
  2: { rewrite !lookup_ge_None_2; [done|rewrite length_take; lia|rewrite Hlen; lia]. }
  rewrite mem_read_lookup, lookup_take_lt by lia.
  destruct (decide (i < length (drop (Z.to_nat (b - a)) bs))%nat) as [Hlt|Hge]; rewrite length_drop in *.
  - rewrite lookup_app_l, lookup_drop by (rewrite length_drop; lia).
    rewrite mem_write_in by (unfold zlen; lia). rewrite nth_lookup.
    replace (Z.to_nat (b + Z.of_nat i - a)) with (Z.to_nat (b - a) + i)%nat by lia.
    destruct (lookup_lt_is_Some_2 bs (Z.to_nat (b - a) + i)) as [x Hx]; [lia|]. by rewrite Hx.
  - rewrite lookup_app_r, length_drop, lookup_drop, mem_read_lookup by (rewrite ?length_drop; lia).
    rewrite mem_write_out by (unfold zlen; lia). do 2 f_equal. lia.
Qed.

Lemma mem_fill_spec sz m a c n :
  0 <= a → 0 <= n → a + n <= sz →
  ∃ m', mem_fill sz m a c n = Some m' ∧ mem_read m' a n = replicate (Z.to_nat n) (u8 c) ∧
    ∀ x, x < a ∨ a + n <= x → m' x = m x.
Proof.
  intros Ha Hn Hfit. unfold mem_fill. destruct (Z.leb_spec 0 a), (Z.leb_spec 0 n), (Z.leb_spec (a + n) sz); try lia.
  cbn [andb]. eexists. split; [reflexivity|]. split.
  - apply list_eq. intros i. destruct (decide (i < Z.to_nat n)%nat) as [Hi|Hi].
    + rewrite mem_read_lookup, lookup_replicate_2 by lia. zcases; cbn; done || lia.
    + rewrite !lookup_ge_None_2; [done|rewrite length_replicate; lia|].
      match goal with |- context [mem_read ?m' a n] => pose proof (mem_read_length m' a n Hn) end.
      unfold zlen in *. lia.
  - intros x Hx. zcases; cbn; done || lia.
Qed.
End mem_facts.
