(* ===== verification/Bitmap.v ===== *)
(** * Bitmap: allocation bitmaps in arrays of 32-bit words

    [page_bitmap] of kernel/memory.c and [fs.bitmap] of
    fs/filesystem_enhanced.c test, set and clear bit [i] in word [i / 32] with
    the mask [1 << (i % 32)]. *)
From S2P Require Import Prelude.

Definition bit_mask (i : Z) : Z := u32 (Z.shiftl 1 (i mod 32)).

(** [bitmap[i / 32] & (1 << (i % 32))] as a truth value *)
Definition bm_test (bm : list Z) (i : Z) : option bool :=
  w ← bm.[i / 32]; Some (negb (Z.land w (bit_mask i) =? 0)).
(** [bitmap[i / 32] |= (1 << (i % 32))] *)
Definition bm_set (bm : list Z) (i : Z) : option (list Z) :=
  w ← bm.[i / 32]; zset bm (i / 32) (Z.lor w (bit_mask i)).
(** [bitmap[i / 32] &= ~(1 << (i % 32))] *)
Definition bm_clear (bm : list Z) (i : Z) : option (list Z) :=
  w ← bm.[i / 32]; zset bm (i / 32) (Z.land w (~u bit_mask i)).

(** ** The set of bits a bitmap holds *)
Definition bm_bit (bm : list Z) (i : Z) : bool :=
  match bm.[i / 32] with Some w => Z.testbit w (i mod 32) | None => false end.

Definition word_ok (w : Z) : Prop := 0 <= w < 4294967296.

Definition bm_ok (n : Z) (bm : list Z) : Prop := zlen bm * 32 = n ∧ Forall word_ok bm.

(** Number of set bits below [n]. *)
Definition bm_count (bm : list Z) (n : Z) : Z := zlen (filter (λ i, bm_bit bm i = true) (seqZ 0 n)).

Lemma bit_mask_pow i : bit_mask i = 2 ^ (i mod 32).
Proof.
  unfold bit_mask. pose proof (Z.mod_pos_bound i 32 ltac:(lia)).
  rewrite Z.shiftl_1_l. apply u32_id. split; [apply Z.pow_nonneg; lia|].
  change 4294967296 with (2 ^ 32). apply Z.pow_lt_mono_r; lia.
Qed.

Lemma word_testbit_high w j : word_ok w → 32 <= j → Z.testbit w j = false.
Proof.
  intros Hw Hj. destruct (decide (w = 0)) as [->|]; [apply Z.testbit_0_l|].
  apply Z.bits_above_log2; [unfold word_ok in Hw; lia|].
  enough (Z.log2 w < 32) by lia. apply Z.log2_lt_pow2; unfold word_ok in Hw; lia.
Qed.

Lemma word_ok_bits w : 0 <= w → (∀ j, 32 <= j → Z.testbit w j = false) → word_ok w.
Proof.
  intros Hw Hbits. split; [done|]. destruct (Z.lt_ge_cases w 4294967296) as [|Hge]; [done|].
  assert (32 <= Z.log2 w) as Hl by (apply Z.log2_le_pow2; lia).
  exfalso. pose proof (Z.bit_log2 w ltac:(lia)) as E.
  by rewrite Hbits in E.
Qed.

Section words.
Context (w i : Z) (Hw : word_ok w).
Let k := i mod 32.

Lemma mask_range : 0 <= k < 32.
Proof. apply Z.mod_pos_bound. lia. Qed.

Lemma land_mask_zero : (Z.land w (bit_mask i) =? 0) = negb (Z.testbit w k).
Proof.
  pose proof mask_range. rewrite bit_mask_pow. fold k.
  destruct (Z.testbit w k) eqn:E; simpl.
  - apply Z.eqb_neq. intros H0. apply (f_equal (λ z, Z.testbit z k)) in H0.
    rewrite Z.land_spec, E, Z.pow2_bits_true, Z.testbit_0_l in H0 by lia. done.
  - apply Z.eqb_eq. apply Z.bits_inj'. intros j Hj. rewrite Z.land_spec, Z.testbit_0_l.
    destruct (decide (j = k)) as [->|]; [by rewrite E|].
    rewrite Z.pow2_bits_false by lia. apply andb_false_r.
Qed.

Lemma lor_mask_bits j : 0 <= j → Z.testbit (Z.lor w (bit_mask i)) j = (j =? k) || Z.testbit w j.
Proof.
  intros Hj. pose proof mask_range. rewrite bit_mask_pow, Z.lor_spec, Z.pow2_bits_eqb by lia.
  fold k. rewrite (Z.eqb_sym k j). apply orb_comm.
Qed.

Lemma land_mask_bits j : 0 <= j < 32 →
  Z.testbit (Z.land w (~u bit_mask i)) j = negb (j =? k) && Z.testbit w j.
Proof.
  intros Hj. pose proof mask_range. rewrite Z.land_spec, bit_mask_pow. unfold u32.
  change 4294967296 with (2 ^ 32). rewrite Z.mod_pow2_bits_low, Z.lnot_spec, Z.pow2_bits_eqb by lia.
  fold k. rewrite (Z.eqb_sym k j). apply andb_comm.
Qed.

Lemma lor_mask_ok : word_ok (Z.lor w (bit_mask i)).
Proof.
  pose proof mask_range. apply word_ok_bits.
  - apply Z.lor_nonneg. unfold word_ok in Hw. rewrite bit_mask_pow.
    pose proof (Z.pow_nonneg 2 (i mod 32)). lia.
  - intros j Hj. rewrite lor_mask_bits by lia. rewrite word_testbit_high by done.
    destruct (Z.eqb_spec j k); [lia|done].
Qed.

Lemma land_mask_ok : word_ok (Z.land w (~u bit_mask i)).
Proof.
  apply word_ok_bits.
  - apply Z.land_nonneg. left. unfold word_ok in Hw. lia.
  - intros j Hj. rewrite Z.land_spec, word_testbit_high by done. done.
Qed.
End words.

Section bitmap.
Context (n : Z) (bm : list Z) (Hbm : bm_ok n bm).
Implicit Types (i j : Z).

Lemma bm_word i : 0 <= i < n → ∃ w, bm.[i / 32] = Some w ∧ word_ok w.
Proof.
  destruct Hbm as [Hlen Hwords]. intros Hi.
  destruct (zget_Some bm (i / 32)) as [w Hw].
  { split; [apply Z.div_pos; lia|]. apply Z.div_lt_upper_bound; lia. }
  exists w. split; [done|]. unfold zget in Hw. destruct (_ <? 0); [done|].
  by eapply Forall_lookup_1.
Qed.

Lemma bm_test_spec i : 0 <= i < n → bm_test bm i = Some (bm_bit bm i).
Proof.
  intros Hi. unfold bm_test, bm_bit. destruct (bm_word i Hi) as (w & -> & Hw). simpl.
  by rewrite land_mask_zero, negb_involutive.
Qed.

Lemma same_word_bit i j : i / 32 = j / 32 → (j mod 32 =? i mod 32) = (j =? i).
Proof.
  intros H. pose proof (Z.div_mod i 32). pose proof (Z.div_mod j 32). zcases; lia.
Qed.

Lemma bm_set_spec i :
  0 <= i < n →
  ∃ bm', bm_set bm i = Some bm' ∧ bm_ok n bm' ∧
    ∀ j, 0 <= j → bm_bit bm' j = (j =? i) || bm_bit bm j.
Proof.
  intros Hi. unfold bm_set. destruct (bm_word i Hi) as (w & Hget & Hw). rewrite Hget. simpl.
  destruct Hbm as [Hlen Hwords].
  rewrite zset_in by (by eapply zget_range). eexists. split; [done|]. split; [split|].
  - unfold zlen in *. by rewrite length_insert.
  - apply Forall_insert; [done|]. by apply lor_mask_ok.
  - intros j Hj. unfold bm_bit. destruct (decide (i / 32 = j / 32)) as [E|E].
    + rewrite <- E, Hget. erewrite zget_zset_eq by (apply zset_in; by eapply zget_range).
      rewrite lor_mask_bits by (apply Z.mod_pos_bound; lia). by rewrite (same_word_bit i j).
    + erewrite zget_zset_ne; [|done|apply zset_in; by eapply zget_range].
      destruct (Z.eqb_spec j i); [congruence|done].
Qed.

Lemma bm_clear_spec i :
  0 <= i < n →
  ∃ bm', bm_clear bm i = Some bm' ∧ bm_ok n bm' ∧
    ∀ j, 0 <= j → bm_bit bm' j = negb (j =? i) && bm_bit bm j.
Proof.
  intros Hi. unfold bm_clear. destruct (bm_word i Hi) as (w & Hget & Hw). rewrite Hget. simpl.
  destruct Hbm as [Hlen Hwords].
  rewrite zset_in by (by eapply zget_range). eexists. split; [done|]. split; [split|].
  - unfold zlen in *. by rewrite length_insert.
  - apply Forall_insert; [done|]. by apply land_mask_ok.
  - intros j Hj. unfold bm_bit. destruct (decide (i / 32 = j / 32)) as [E|E].
    + rewrite <- E, Hget. erewrite zget_zset_eq by (apply zset_in; by eapply zget_range).
      rewrite land_mask_bits by (apply Z.mod_pos_bound; lia). by rewrite (same_word_bit i j).
    + erewrite zget_zset_ne; [|done|apply zset_in; by eapply zget_range].
      destruct (Z.eqb_spec j i); [congruence|done].
Qed.
End bitmap.

(** ** Counting *)
Lemma bm_count_split bm i n :
  0 <= i < n →
  bm_count bm n =
    zlen (filter (λ j, bm_bit bm j = true) (seqZ 0 i)) + c_bool (bm_bit bm i)
    + zlen (filter (λ j, bm_bit bm j = true) (seqZ (i + 1) (n - i - 1))).
Proof.
  intros Hi. unfold bm_count, zlen.
  assert (seqZ 0 n = seqZ 0 i ++ [i] ++ seqZ (i + 1) (n - i - 1)) as ->.
  { replace n with (i + (1 + (n - i - 1))) at 1 by lia. rewrite seqZ_app by lia. f_equal.
    rewrite seqZ_app by lia. done. }
  rewrite !list.filter_app, !length_app. cbn [filter list_filter].
  destruct (bm_bit bm i); simpl; lia.
Qed.

Lemma filter_bits_ext bm bm' (l : list Z) :
  (∀ j, j ∈ l → bm_bit bm' j = bm_bit bm j) →
  filter (λ j, bm_bit bm' j = true) l = filter (λ j, bm_bit bm j = true) l.
Proof.
  induction l as [|j l IH]; intros H; [done|]. rewrite !filter_cons, IH by set_solver.
  rewrite (H j) by set_solver. done.
Qed.

Lemma filter_bits_all bm (l : list Z) :
  (∀ j, j ∈ l → bm_bit bm j = true) → filter (λ j, bm_bit bm j = true) l = l.
Proof.
  induction l as [|j l IH]; intros H; [done|].
  rewrite filter_cons_True, IH by set_solver. done.
Qed.

(** Changing one bit changes the count by the difference of that bit. *)
Lemma bm_count_update bm bm' i n b :
  0 <= i < n →
  (∀ j, 0 <= j → bm_bit bm' j = if j =? i then b else bm_bit bm j) →
  bm_count bm' n = bm_count bm n - c_bool (bm_bit bm i) + c_bool b.
Proof.
  intros Hi H. rewrite !(bm_count_split _ i n) by done.
  rewrite (H i), Z.eqb_refl by lia.
  rewrite (filter_bits_ext bm bm' (seqZ 0 i)), (filter_bits_ext bm bm' (seqZ (i + 1) _)); [lia|..];
    intros j Hj%elem_of_seqZ; rewrite H by lia; destruct (Z.eqb_spec j i); lia || done.
Qed.

Lemma bm_count_bounds bm n : 0 <= n → 0 <= bm_count bm n <= n.
Proof.
  intros Hn. unfold bm_count, zlen. pose proof (length_filter (λ j, bm_bit bm j = true) (seqZ 0 n)) as H.
  rewrite length_seqZ in H. lia.
Qed.

(** The count is [n] exactly when every bit is set. *)
Lemma bm_count_full bm n :
  0 <= n → bm_count bm n = n ↔ ∀ i, 0 <= i < n → bm_bit bm i = true.
Proof.
  intros Hn. unfold bm_count, zlen. split.
  - intros H i Hi. destruct (bm_bit bm i) eqn:E; [done|]. exfalso.
    assert (length (filter (λ j, bm_bit bm j = true) (seqZ 0 n)) < length (seqZ 0 n))%nat.
    { apply (length_filter_lt _ _ i); [apply elem_of_seqZ; lia|congruence]. }
    rewrite length_seqZ in *. lia.
  - intros H. rewrite filter_bits_all; [rewrite length_seqZ; lia|].
    intros i Hi%elem_of_seqZ. apply H. lia.
Qed.
