(* ===== verification/Ring.v ===== *)
(** * Ring: circular buffers and the bounded FIFO they implement

    Several components keep a fixed array with a head index and a count (or
    two indices) taken modulo its size: the packet buffer of
    kernel/network.c, the message queue of kernel/ipc.c, the key buffer of
    drivers/keyboard.c, the character device of drivers/char_device.c and
    the log of kernel/monitor.c.  This file holds the view of such an array
    as a list, the interface [Fifo] that states what a bounded queue
    promises its clients, and the refinement theorem proved from the laws of
    that interface alone. *)
From S2P Require Import Prelude.

(** ** The list a circular buffer holds *)
Fixpoint ring_view {A} (N : nat) (buf : list A) (head count : nat) : list A :=
  match count with
  | O => []
  | S c =>
      match buf !! head with
      | Some x => x :: ring_view N buf ((head + 1) mod N) c
      | None => []
      end
  end.

Section ring.
Context {A : Type} (N : nat).
Implicit Types (buf : list A) (h c : nat).

Lemma mod_lt k : (0 < N)%nat → (k mod N < N)%nat.
Proof. intros. apply Nat.mod_upper_bound. lia. Qed.

Lemma mod_mod_add h i : (0 < N)%nat → (((h + 1) mod N + i) mod N = (h + S i) mod N)%nat.
Proof. intros. rewrite Nat.Div0.add_mod_idemp_l. f_equal. lia. Qed.

Lemma ring_view_lookup buf h c i :
  length buf = N → (h < N)%nat → (i < c)%nat →
  ring_view N buf h c !! i = buf !! ((h + i) mod N)%nat.
Proof.
  intros Hb. revert h i. induction c as [|c IH]; intros h i Hh Hi; [lia|]. simpl.
  destruct (lookup_lt_is_Some_2 buf h) as [x Hx]; [lia|]. rewrite Hx.
  destruct i as [|i]; simpl.
  - rewrite Nat.add_0_r, Nat.mod_small by lia. done.
  - rewrite IH by (try apply mod_lt; lia). f_equal. apply mod_mod_add. lia.
Qed.

Lemma ring_view_length buf h c :
  length buf = N → (h < N)%nat → length (ring_view N buf h c) = c.
Proof.
  intros Hb. revert h. induction c as [|c IH]; intros h Hh; [done|]. simpl.
  destruct (lookup_lt_is_Some_2 buf h) as [x Hx]; [lia|]. rewrite Hx. simpl.
  rewrite IH by (apply mod_lt; lia). done.
Qed.

(** A write outside the live part is not seen. *)
Lemma ring_view_insert_outside buf h c j x :
  length buf = N → (h < N)%nat → (c ≤ N)%nat →
  (∀ i, (i < c)%nat → ((h + i) mod N)%nat ≠ j) →
  ring_view N (<[j := x]> buf) h c = ring_view N buf h c.
Proof.
  intros Hb Hh Hc Hj. apply list_eq_same_length with (n := c).
  - by rewrite ring_view_length.
  - by rewrite ring_view_length by (rewrite ?length_insert; lia).
  - intros i y z Hi. rewrite !ring_view_lookup by (rewrite ?length_insert; lia).
    rewrite list_lookup_insert_ne by (symmetry; by apply Hj). congruence.
Qed.

Lemma ring_index_inj h i k :
  (0 < N)%nat → (i < N)%nat → (k < N)%nat → ((h + i) mod N = (h + k) mod N)%nat → i = k.
Proof.
  intros HN Hi Hk H.
  pose proof (Nat.div_mod_eq (h + i) N). pose proof (Nat.div_mod_eq (h + k) N).
  destruct (Nat.lt_trichotomy ((h + i) / N) ((h + k) / N)) as [Hq|[Hq|Hq]]; nia.
Qed.

(** Storing at index [(h + c) mod N] appends. *)
Lemma ring_view_push buf h c x :
  length buf = N → (h < N)%nat → (c < N)%nat →
  ring_view N (<[((h + c) mod N)%nat := x]> buf) h (S c) = ring_view N buf h c ++ [x].
Proof.
  intros Hb Hh Hc. apply list_eq_same_length with (n := S c).
  - rewrite length_app, ring_view_length by done. simpl. lia.
  - by rewrite ring_view_length by (rewrite ?length_insert; lia).
  - intros i y z Hi. rewrite ring_view_lookup by (rewrite ?length_insert; lia).
    destruct (decide (i = c)) as [->|Hne].
    + rewrite list_lookup_insert_eq by (rewrite Hb; apply mod_lt; lia).
      rewrite lookup_app_r by (rewrite ring_view_length; lia).
      rewrite ring_view_length, Nat.sub_diag by lia. simpl. congruence.
    + rewrite list_lookup_insert_ne.
      2: { intros E. apply Hne. symmetry. apply (ring_index_inj h); lia || done. }
      rewrite lookup_app_l by (rewrite ring_view_length; lia).
      rewrite ring_view_lookup by lia. congruence.
Qed.

Lemma ring_view_pop buf h c :
  length buf = N → (h < N)%nat →
  ∃ x, buf !! h = Some x ∧ ring_view N buf h (S c) = x :: ring_view N buf ((h + 1) mod N) c.
Proof.
  intros Hb Hh. destruct (lookup_lt_is_Some_2 buf h) as [x Hx]; [lia|].
  exists x. split; [done|]. simpl. by rewrite Hx.
Qed.
End ring.

(** ** The bounded FIFO interface *)

(** Operations of a bounded queue: [fifo_put] reports whether the element
    was accepted, [fifo_get] the oldest element if there is one. *)
Class Fifo (Q A : Type) := {
  fifo_ok : Q → Prop;
  fifo_elem : A → Prop;
  fifo_view : Q → list A;
  fifo_cap : nat;
  fifo_put : A → Q → option (bool * Q);
  fifo_get : Q → option (option A * Q);
}.

(** What the clients of a queue rely on. *)
Class FifoLaws (Q A : Type) `{F : Fifo Q A} := {
  fifo_put_law (x : A) (q : Q) :
    fifo_ok q → fifo_elem x →
    ∃ q', fifo_put x q = Some (bool_decide (length (fifo_view q) < fifo_cap)%nat, q') ∧
      fifo_ok q' ∧
      fifo_view q' =
        if bool_decide (length (fifo_view q) < fifo_cap)%nat then fifo_view q ++ [x] else fifo_view q;
  fifo_get_law (q : Q) :
    fifo_ok q →
    ∃ q', fifo_get q = Some (head (fifo_view q), q') ∧ fifo_ok q' ∧
      fifo_view q' = tail (fifo_view q);
}.

Inductive fifo_op (A : Type) : Type :=
| Put (x : A)
| Get.
Arguments Put {A} x.
Arguments Get {A}.

Inductive fifo_out (A : Type) : Type :=
| PutOut (accepted : bool)
| GetOut (x : option A).
Arguments PutOut {A} accepted.
Arguments GetOut {A} x.

(** The specification: a list of at most [cap] elements. *)
Fixpoint spec_run {A} (cap : nat) (ops : list (fifo_op A)) (l : list A) : list (fifo_out A) * list A :=
  match ops with
  | [] => ([], l)
  | Put x :: ops =>
      let acc := bool_decide (length l < cap)%nat in
      let '(outs, l') := spec_run cap ops (if acc then l ++ [x] else l) in
      (PutOut acc :: outs, l')
  | Get :: ops =>
      let '(outs, l') := spec_run cap ops (tail l) in
      (GetOut (head l) :: outs, l')
  end.

(** The implementation behind the interface, operation by operation. *)
Fixpoint impl_run {Q A} `{Fifo Q A} (ops : list (fifo_op A)) (q : Q) : option (list (fifo_out A) * Q) :=
  match ops with
  | [] => Some ([], q)
  | Put x :: ops =>
      '(b, q) ← fifo_put x q;
      '(outs, q) ← impl_run ops q;
      Some (PutOut b :: outs, q)
  | Get :: ops =>
      '(x, q) ← fifo_get q;
      '(outs, q) ← impl_run ops q;
      Some (GetOut x :: outs, q)
  end.

Definition op_elem {Q A} `{Fifo Q A} (op : fifo_op A) : Prop :=
  match op with Put x => fifo_elem x | Get => True end.

(** Every implementation of the interface refines the list. *)
Lemma fifo_refines {Q A} `{FifoLaws Q A} (ops : list (fifo_op A)) (q : Q) :
  fifo_ok q → Forall (op_elem (Q := Q)) ops →
  ∃ q', impl_run ops q = Some ((spec_run fifo_cap ops (fifo_view q)).1, q') ∧
    fifo_ok q' ∧ fifo_view q' = (spec_run fifo_cap ops (fifo_view q)).2.
Proof.
  revert q. induction ops as [|[x|] ops IH]; intros q Hq Hops; [by exists q| |];
    inversion Hops as [|? ? Hop Hrest]; subst; simpl.
  - destruct (fifo_put_law x q Hq Hop) as (q1 & -> & Hq1 & Hv1). simpl.
    destruct (IH q1 Hq1 Hrest) as (q2 & -> & Hq2 & Hv2). rewrite Hv1 in *. simpl.
    destruct (spec_run _ _ _) as [outs l]. eauto.
  - destruct (fifo_get_law q Hq) as (q1 & -> & Hq1 & Hv1). simpl.
    destruct (IH q1 Hq1 Hrest) as (q2 & -> & Hq2 & Hv2). rewrite Hv1 in *. simpl.
    destruct (spec_run _ _ _) as [outs l]. eauto.
Qed.
