(* ===== verification/Traces.v ===== *)
(** * Traces: labelled step relations, their traces and simulations

    A system that several parties drive - a processor that interrupts a
    function, processes that take turns - is a step relation whose steps carry
    a label, or none when the outside does not see them.  This file has the
    traces of such a relation, invariants along them, and the proof that a
    forward simulation gives trace inclusion. *)
From S2P Require Import Prelude.

Section traces.
Context {S L : Type} (step : S → option L → S → Prop).
Implicit Types (s : S) (ls : list L).

(** What one step shows *)
Definition shown (o : option L) : list L := match o with Some l => [l] | None => [] end.

Inductive trace : S → list L → S → Prop :=
| trace_nil s : trace s [] s
| trace_step s o s1 ls s2 : step s o s1 → trace s1 ls s2 → trace s (shown o ++ ls) s2.

Lemma trace_app s ls s1 ls' s2 : trace s ls s1 → trace s1 ls' s2 → trace s (ls ++ ls') s2.
Proof.
  intros H H'. induction H as [|s o s1 ls s3 Hs _ IH]; [done|]. rewrite <- app_assoc. econstructor; eauto.
Qed.

Lemma trace_one s o s' : step s o s' → trace s (shown o) s'.
Proof. intros H. rewrite <- (app_nil_r (shown o)). econstructor; [exact H|constructor]. Qed.

(** An invariant that may speak of what was shown so far *)
Lemma trace_invariant (I : list L → S → Prop) s ls s' ls0 :
  (∀ ls s o s', I ls s → step s o s' → I (ls ++ shown o) s') →
  trace s ls s' → I ls0 s → I (ls0 ++ ls) s'.
Proof.
  intros Hstep H. revert ls0. induction H as [|s1 o s2 ls s3 Hs _ IH]; intros ls0 HI; [by rewrite app_nil_r|].
  rewrite app_assoc. apply IH. by eapply Hstep.
Qed.
End traces.

(** A step of the implementation is matched by steps of the specification
    that show the same: every trace of the one is a trace of the other. *)
Lemma simulation_traces {S T L : Type} (step : S → option L → S → Prop) (spec : T → option L → T → Prop)
    (R : S → T → Prop) s t ls s' :
  (∀ s t o s', R s t → step s o s' → ∃ t', trace spec t (shown o) t' ∧ R s' t') →
  R s t → trace step s ls s' → ∃ t', trace spec t ls t' ∧ R s' t'.
Proof.
  intros Hsim HR H. revert t HR. induction H as [s|s o s1 ls s2 Hs _ IH]; intros t HR.
  - exists t. split; [constructor|done].
  - destruct (Hsim _ _ _ _ HR Hs) as (t1 & Ht1 & HR1). destruct (IH _ HR1) as (t2 & Ht2 & HR2).
    exists t2. split; [|done]. by eapply trace_app.
Qed.
