(* ===== verification/Ports.v ===== *)
(** * Ports: x86 I/O ports (kernel/io.h, kernel/string.c)

    The drivers run against the class [Ports]: the state [W] of the hardware
    and what the instructions do to it.  [PortLog] is what a driver may
    rely on about its own output: reading a port writes nothing, writing one
    adds exactly that write.  Nothing is assumed about the values read. *)
From S2P Require Import Prelude.

Class Ports (W : Type) := {
  inb : Z → W → Z * W;
  outb : Z → Z → W → W;
  inw : Z → W → Z * W;
  outw : Z → Z → W → W;
  inl : Z → W → Z * W;
  outl : Z → Z → W → W;
}.

(** [log w] is the sequence of byte writes (port, value) so far. *)
Class PortLog (W : Type) `{Ports W} (log : W → list (Z * Z)) := {
  log_inb port w : log (inb port w).2 = log w;
  log_outb port v w : log (outb port v w) = log w ++ [(u16 port, u8 v)];
}.

(** The ports of the two interrupt controllers, and what only they can change:
    [I] is kept by reading any port and by writing every other one. *)
Definition pic_port (port : Z) : bool := bool_decide (port ∈ [0x20; 0x21; 0xA0; 0xA1]).
Class Quiet {W : Type} `{Ports W} (I : W → Prop) : Prop := {
  quiet_inb port w : I w → I (inb port w).2;
  quiet_outb port v w : pic_port (u16 port) = false → I w → I (outb port v w);
}.
#[export] Instance quiet_true {W : Type} `{Ports W} : Quiet (λ _, True).
Proof. done. Qed.

(** The functions of kernel/string.c, one instruction each, with the widths of
    their parameters and results *)
Module Lib.
Section lib.
Context {W : Type} `{Ports W}.
Definition outb (port value : Z) (w : W) : W := outb (u16 port) (u8 value) w.
Definition inb (port : Z) (w : W) : Z * W := let '(ret, w) := inb (u16 port) w in (u8 ret, w).
Definition outw (port value : Z) (w : W) : W := outw (u16 port) (u16 value) w.
Definition inw (port : Z) (w : W) : Z * W := let '(ret, w) := inw (u16 port) w in (u16 ret, w).
Definition outl (port value : Z) (w : W) : W := outl (u16 port) (u32 value) w.
Definition inl (port : Z) (w : W) : Z * W := let '(ret, w) := inl (u16 port) w in (u32 ret, w).
End lib.
End Lib.

(** A concrete machine: the [n]-th read of the run returns [reads n port]. *)
Record machine := { reads : nat → Z → Z; clock : nat; writes : list (Z * Z); word_writes : list (Z * Z); long_writes : list (Z * Z) }.

Definition machine_read (port : Z) (m : machine) : Z * machine :=
  (reads m (clock m) port,
   {| reads := reads m; clock := S (clock m); writes := writes m; word_writes := word_writes m; long_writes := long_writes m |}).

#[export] Instance machine_ports : Ports machine := {|
  inb port m := let '(v, m) := machine_read port m in (u8 v, m);
  outb port v m := {| reads := reads m; clock := clock m; writes := writes m ++ [(u16 port, u8 v)];
                      word_writes := word_writes m; long_writes := long_writes m |};
  inw port m := let '(v, m) := machine_read port m in (u16 v, m);
  outw port v m := {| reads := reads m; clock := clock m; writes := writes m;
                      word_writes := word_writes m ++ [(u16 port, u16 v)]; long_writes := long_writes m |};
  inl port m := let '(v, m) := machine_read port m in (u32 v, m);
  outl port v m := {| reads := reads m; clock := clock m; writes := writes m;
                      word_writes := word_writes m; long_writes := long_writes m ++ [(u16 port, u32 v)] |};
|}.
#[export] Instance machine_log : PortLog machine writes.
Proof. split; [done|]. reflexivity. Qed.

(** A machine on which every read returns [v]. *)
Definition constant_machine (v : Z) : machine :=
  {| reads := λ _ _, v; clock := 0; writes := []; word_writes := []; long_writes := [] |}.
