(* ===== verification/Vga.v ===== *)
(** * Vga: the text screen (drivers/vga.c)

    The 80 x 25 cells of video memory are a flat list of 16-bit values; the
    cursor registers are written through the I/O ports.  A [char] is signed:
    the bytes from 128 on are below the space and are not printed. *)
From S2P Require Import Prelude CString Ports.

Module Vga.

Definition VGA_WIDTH : Z := 80.
Definition VGA_HEIGHT : Z := 25.
Definition VGA_COLOR_BLACK : Z := 0.
Definition VGA_COLOR_RED : Z := 4.
Definition VGA_COLOR_LIGHT_GREY : Z := 7.

(** The static variables and the memory at 0xB8000. *)
Record vga_state := { cursor_x : Z; cursor_y : Z; current_color : Z; screen : list Z }.

Definition set_pos (x y : Z) (s : vga_state) : vga_state :=
  {| cursor_x := x; cursor_y := y; current_color := current_color s; screen := screen s |}.
Definition set_screen (l : list Z) (s : vga_state) : vga_state :=
  {| cursor_x := cursor_x s; cursor_y := cursor_y s; current_color := current_color s; screen := l |}.

Definition cell (c color : Z) : Z := u16 (Z.lor (u16 (s8 c)) (Z.shiftl (u16 color) 8)).

Definition vga_putchar_at (c color x y : Z) (s : vga_state) : option vga_state :=
  l ← zset (screen s) (y * VGA_WIDTH + x) (cell c color);
  Some (set_screen l s).

Definition vga_set_color (fg bg : Z) (s : vga_state) : vga_state :=
  {| cursor_x := cursor_x s; cursor_y := cursor_y s;
     current_color := u8 (Z.lor (Z.shiftl bg 4) (Z.land fg 0x0F)); screen := screen s |}.

(** [vga[y * VGA_WIDTH + x] = vga[(y + 1) * VGA_WIDTH + x]] *)
Definition copy_up (y x : Z) (s : vga_state) : option vga_state :=
  v ← (screen s).[(y + 1) * VGA_WIDTH + x];
  l ← zset (screen s) (y * VGA_WIDTH + x) v;
  Some (set_screen l s).

Definition vga_scroll (s : vga_state) : option vga_state :=
  s ← for_loop 24 0 (λ y, for_loop 80 0 (λ x, copy_up y x)) s;
  for_loop 80 0 (λ x s, vga_putchar_at 32 (current_color s) x (VGA_HEIGHT - 1) s) s.

Definition vga_get_cursor_y (s : vga_state) : Z := cursor_y s.

Section vga.
Context {W : Type} `{Ports W}.

Definition vga_update_cursor (s : vga_state) (w : W) : W :=
  let pos := u16 (cursor_y s * VGA_WIDTH + cursor_x s) in
  let w := outb 0x3D4 0x0E w in
  let w := outb 0x3D5 (u8 (Z.land (Z.shiftr pos 8) 0xFF)) w in
  let w := outb 0x3D4 0x0F w in
  outb 0x3D5 (u8 (Z.land pos 0xFF)) w.

Definition vga_enable_cursor (cursor_start cursor_end : Z) (w : W) : W :=
  let w := outb 0x3D4 0x0A w in
  let w := outb 0x3D5 (Z.lor (Z.land 0x00 0xC0) (Z.land cursor_start 0x1F)) w in
  let w := outb 0x3D4 0x0B w in
  outb 0x3D5 (Z.lor (Z.land 0x00 0xE0) (Z.land cursor_end 0x1F)) w.

Definition vga_clear (s : vga_state) (w : W) : option (vga_state * W) :=
  s ← for_loop 25 0 (λ y, for_loop 80 0 (λ x s, vga_putchar_at 32 (current_color s) x y s)) s;
  let s := set_pos 0 0 s in
  Some (s, vga_update_cursor s w).

Definition vga_init (s : vga_state) (w : W) : option (vga_state * W) :=
  let w := vga_enable_cursor 0 15 w in
  let s := vga_set_color VGA_COLOR_LIGHT_GREY VGA_COLOR_BLACK s in
  '(s, w) ← vga_clear s w;
  Some (s, vga_update_cursor s w).

(** The cursor is first brought back onto the screen. *)
Definition clamp_cursor (s : vga_state) : vga_state :=
  let x := if VGA_WIDTH <=? cursor_x s then 0 else cursor_x s in
  let y := if VGA_HEIGHT <=? cursor_y s then VGA_HEIGHT - 1 else cursor_y s in
  set_pos x y s.

(** The chain of character cases. *)
Definition put_on_screen (c : Z) (s : vga_state) : option vga_state :=
  if (c =? 10) || (c =? 13) then Some (set_pos 0 (cursor_y s + 1) s)
  else if c =? 8 then
    let s :=
      if 0 <? cursor_x s then set_pos (cursor_x s - 1) (cursor_y s) s
      else if 0 <? cursor_y s then set_pos (VGA_WIDTH - 1) (cursor_y s - 1) s
      else s in
    vga_putchar_at 32 (current_color s) (cursor_x s) (cursor_y s) s
  else if c =? 9 then Some (set_pos (Z.land (cursor_x s + 8) (Z.lnot 7)) (cursor_y s) s)
  else if 32 <=? s8 c then
    let s := if VGA_WIDTH <=? cursor_x s then set_pos 0 (cursor_y s + 1) s else s in
    s ← vga_putchar_at c (current_color s) (cursor_x s) (cursor_y s) s;
    Some (set_pos (cursor_x s + 1) (cursor_y s) s)
  else Some s.

Definition vga_putchar (c : Z) (s : vga_state) (w : W) : option (vga_state * W) :=
  s ← put_on_screen c (clamp_cursor s);
  s ← (if VGA_HEIGHT <=? cursor_y s then
         s ← vga_scroll s; Some (set_pos (cursor_x s) (VGA_HEIGHT - 1) s)
       else Some s);
  Some (s, vga_update_cursor s w).

Fixpoint vga_print (str : list Z) (s : vga_state) (w : W) : option (vga_state * W) :=
  match str with
  | [] => UB
  | c :: str => if negb (c =? 0) then '(s, w) ← vga_putchar c s w; vga_print str s w else Some (s, w)
  end.

Definition vga_print_at (str : list Z) (x y : Z) (s : vga_state) (w : W) : option (vga_state * W) :=
  let old_x := cursor_x s in
  let old_y := cursor_y s in
  '(s, w) ← vga_print str (set_pos x y s) w;
  let s := set_pos old_x old_y s in
  Some (s, vga_update_cursor s w).

Definition vga_set_cursor (x y : Z) (s : vga_state) (w : W) : vga_state * W :=
  if (0 <=? x) && (x <? VGA_WIDTH) && (0 <=? y) && (y <? VGA_HEIGHT) then
    let s := set_pos x y s in (s, vga_update_cursor s w)
  else (s, w).
End vga.

(** ** Reference: a terminal of 25 lines

    The screen as a list of lines; the last line is the youngest one. *)
Record terminal := { t_col : Z; t_row : Z; t_color : Z; t_lines : list (list Z) }.

Definition t_move (x y : Z) (t : terminal) : terminal :=
  {| t_col := x; t_row := y; t_color := t_color t; t_lines := t_lines t |}.
Definition blank_line (color : Z) : list Z := replicate 80 (cell 32 color).
Definition t_write (c : Z) (t : terminal) : terminal :=
  {| t_col := t_col t; t_row := t_row t; t_color := t_color t;
     t_lines := alter (insert (Z.to_nat (t_col t)) (cell c (t_color t))) (Z.to_nat (t_row t)) (t_lines t) |}.

(** Go down a line, dropping the first one at the bottom of the screen. *)
Definition t_newline (t : terminal) : terminal :=
  if t_row t =? 24 then
    {| t_col := 0; t_row := 24; t_color := t_color t; t_lines := tail (t_lines t) ++ [blank_line (t_color t)] |}
  else t_move 0 (t_row t + 1) t.

Definition t_back (t : terminal) : terminal :=
  if 0 <? t_col t then t_move (t_col t - 1) (t_row t) t
  else if 0 <? t_row t then t_move 79 (t_row t - 1) t else t.

(** The bytes 32 to 127; the ones above are negative as a [char]. *)
Definition visible (c : Z) : bool := (32 <=? c mod 256) && (c mod 256 <? 128).

(** A character: past the last column the line is written over from its
    first column. *)
Definition t_put (c : Z) (t : terminal) : terminal :=
  let t := t_move (if 80 <=? t_col t then 0 else t_col t) (Z.min 24 (t_row t)) t in
  if bool_decide (c ∈ [10; 13]) then t_newline t
  else if c =? 8 then t_write 32 (t_back t)
  else if c =? 9 then t_move (8 * (t_col t / 8 + 1)) (t_row t) t
  else if visible c then t_move (t_col t + 1) (t_row t) (t_write c t)
  else t.

Definition t_print (str : list Z) (t : terminal) : terminal := foldl (flip t_put) t str.

(** ** Loops over the cells *)
Lemma set_screen_twice l l' s : set_screen l (set_screen l' s) = set_screen l s.
Proof. done. Qed.

(** Line [y] is filled with blanks. *)
Lemma fill_row y s :
  0 <= y < 25 → zlen (screen s) = 2000 →
  for_loop 80 0 (λ x s, vga_putchar_at 32 (current_color s) x y s) s =
    Some (set_screen (take (Z.to_nat (80 * y)) (screen s) ++ blank_line (current_color s) ++
                      drop (Z.to_nat (80 * y + 80)) (screen s)) s).
Proof.
  intros Hy Hl. set (v := cell 32 (current_color s)). set (l := screen s) in *. unfold zlen in Hl.
  destruct (for_loop_inv (λ j t, t = set_screen (take (Z.to_nat (80 * y)) l ++ replicate (Z.to_nat j) v ++
    drop (Z.to_nat (80 * y + j)) l) s) 80 0 (λ x s, vga_putchar_at 32 (current_color s) x y s) s) as (s' & -> & ->).
  - change (Z.to_nat 0) with 0%nat. cbn [replicate app]. rewrite Z.add_0_r, take_drop. by destruct s.
  - intros j t Hj ->. unfold vga_putchar_at. cbn [screen set_screen current_color]. fold v.
    destruct (drop (Z.to_nat (80 * y + j)) l) as [|x r] eqn:E.
    { apply (f_equal length) in E. rewrite length_drop in E. cbn in E. lia. }
    rewrite app_assoc, zset_middle
      by (unfold zlen, VGA_WIDTH; rewrite length_app, length_take, length_replicate; lia).
    cbn [mbind option_bind]. eexists. split; [done|]. rewrite set_screen_twice, <- app_assoc. do 2 f_equal.
    replace (Z.to_nat (j + 1)) with (S (Z.to_nat j)) by lia. rewrite replicate_S_end, <- app_assoc. cbn [app]. do 2 f_equal.
    replace (Z.to_nat (80 * y + (j + 1))) with (S (Z.to_nat (80 * y + j))) by lia.
    by rewrite <- Nat.add_1_r, <- drop_drop, E.
  - done.
Qed.

Lemma set_screen_id s : set_screen (screen s) s = s.
Proof. by destruct s. Qed.

Lemma zlen_row y (l m : list Z) :
  0 <= y < 25 → zlen l = 2000 → zlen m = 80 →
  zlen (take (Z.to_nat (80 * y)) l ++ m ++ drop (Z.to_nat (80 * y + 80)) l) = 2000.
Proof. unfold zlen. intros. rewrite !length_app, length_take, length_drop. lia. Qed.

Lemma zlen_blank color : zlen (blank_line color) = 80.
Proof. done. Qed.

(** All lines are. *)
Lemma fill_rows s :
  zlen (screen s) = 2000 →
  for_loop 25 0 (λ y, for_loop 80 0 (λ x s, vga_putchar_at 32 (current_color s) x y s)) s =
    Some (set_screen (concat (replicate 25 (blank_line (current_color s)))) s).
Proof.
  intros Hl. set (b := blank_line (current_color s)).
  destruct (for_loop_inv (λ y t, t = set_screen (concat (replicate (Z.to_nat y) b) ++ drop (Z.to_nat (80 * y)) (screen s)) s)
    25 0 (λ y, for_loop 80 0 (λ x s, vga_putchar_at 32 (current_color s) x y s)) s) as (s' & -> & ->).
  - change (Z.to_nat 0) with 0%nat. cbn [replicate concat app]. by rewrite drop_0, set_screen_id.
  - intros y t Hy ->. set (l := concat (replicate (Z.to_nat y) b) ++ drop (Z.to_nat (80 * y)) (screen s)).
    assert (length (concat (replicate (Z.to_nat y) b)) = Z.to_nat (80 * y)) as Hc.
    { clear - Hy. replace (Z.to_nat (80 * y)) with (80 * Z.to_nat y)%nat by lia.
      induction (Z.to_nat y) as [|n IH]; [done|]. cbn [replicate concat]. rewrite length_app, IH.
      change (length b) with 80%nat. lia. }
    rewrite fill_row; [|lia|]; cbn [screen set_screen current_color]; fold b.
    + eexists. split; [done|]. rewrite set_screen_twice. f_equal. unfold l.
      replace (Z.to_nat (y + 1)) with (S (Z.to_nat y)) by lia.
      rewrite replicate_S_end, concat_app, take_app_length' by done. cbn [concat]. rewrite app_nil_r, <- app_assoc.
      do 2 f_equal. replace (Z.to_nat (80 * y + 80)) with (Z.to_nat (80 * y) + 80)%nat by lia.
      rewrite <- drop_drop, drop_app_length' by done. rewrite drop_drop. f_equal. lia.
    + unfold l, zlen in *. rewrite length_app, Hc, length_drop. lia.
  - change (Z.to_nat (0 + Z.of_nat 25)) with 25%nat. rewrite drop_ge by (unfold zlen in Hl; lia). by rewrite app_nil_r.
Qed.

(** Copying every cell from the line below. *)
Lemma copy_rows s :
  zlen (screen s) = 2000 →
  for_loop 24 0 (λ y, for_loop 80 0 (λ x, copy_up y x)) s =
    Some (set_screen (drop 80 (screen s) ++ drop 1920 (screen s)) s).
Proof.
  intros Hl. unfold zlen in Hl. set (l := screen s) in *.
  set (P k t := t = set_screen (take (Z.to_nat k) (drop 80 l) ++ drop (Z.to_nat k) l) s).
  assert (∀ y x t, 0 <= y < 24 → 0 <= x < 80 → P (80 * y + x) t →
    ∃ t', copy_up y x t = Some t' ∧ P (80 * y + (x + 1)) t') as Hcell.
  { intros y x t Hy Hx ->. set (k := Z.to_nat (80 * y + x)). unfold copy_up. cbn [screen set_screen].
    destruct (lookup_lt_is_Some_2 l (80 + k)) as [v Hv]; [lia|].
    assert (length (take k (drop 80 l)) = k) as Hk by (rewrite length_take, length_drop; lia).
    replace ((y + 1) * VGA_WIDTH + x) with (Z.of_nat (80 + k)) by (unfold VGA_WIDTH; lia).
    rewrite zget_nat, lookup_app_r by lia. rewrite Hk, lookup_drop.
    replace (k + (80 + k - k))%nat with (80 + k)%nat by lia. rewrite Hv. cbn [mbind option_bind].
    destruct (lookup_lt_is_Some_2 l k) as [u Hu]; [lia|].
    rewrite (drop_S l u k) by done. rewrite zset_middle by (unfold zlen, VGA_WIDTH; lia). cbn [mbind option_bind].
    eexists. split; [done|]. unfold P. rewrite set_screen_twice. f_equal.
    replace (Z.to_nat (80 * y + (x + 1))) with (S k) by lia.
    rewrite (take_S_r _ _ v) by (rewrite lookup_drop; done). by rewrite <- app_assoc. }
  destruct (for_loop_inv (λ y, P (80 * y)) 24 0 (λ y, for_loop 80 0 (λ x, copy_up y x)) s) as (s' & -> & ->).
  - unfold P. rewrite Z.mul_0_r. change (Z.to_nat 0) with 0%nat. rewrite take_0, drop_0. symmetry. apply set_screen_id.
  - intros y t Hy Ht. destruct (for_loop_inv (λ x, P (80 * y + x)) 80 0 (λ x, copy_up y x) t) as (t' & E & Ht').
    + by rewrite Z.add_0_r.
    + intros x t' Hx. apply Hcell; lia.
    + exists t'. split; [done|]. by replace (80 * (y + 1)) with (80 * y + (0 + Z.of_nat 80)) by lia.
  - do 3 f_equal. change (Z.to_nat (80 * (0 + Z.of_nat 24))) with 1920%nat. apply take_ge. rewrite length_drop. lia.
Qed.

Lemma vga_scroll_spec s :
  zlen (screen s) = 2000 →
  vga_scroll s = Some (set_screen (drop 80 (screen s) ++ blank_line (current_color s)) s).
Proof.
  intros Hl. unfold vga_scroll. rewrite copy_rows by done. cbn [mbind option_bind].
  change (VGA_HEIGHT - 1) with 24. rewrite fill_row; cbn [screen set_screen current_color]; [|lia|].
  - rewrite set_screen_twice. change (Z.to_nat (80 * 24)) with 1920%nat. change (Z.to_nat (80 * 24 + 80)) with 2000%nat.
    unfold zlen in Hl. rewrite take_app_length' by (rewrite length_drop; lia).
    rewrite (drop_ge _ 2000) by (rewrite length_app, !length_drop; lia). by rewrite app_nil_r.
  - unfold zlen in *. rewrite length_app, !length_drop. lia.
Qed.

(** ** The screen shows a terminal *)
Record shows (t : terminal) (s : vga_state) : Prop := {
  sh_x : cursor_x s = t_col t;
  sh_y : cursor_y s = t_row t;
  sh_color : current_color s = t_color t;
  sh_screen : screen s = concat (t_lines t);
  sh_lines : length (t_lines t) = 25%nat;
  sh_width : Forall (λ l, length l = 80%nat) (t_lines t);
  sh_col : 0 <= t_col t;
  sh_row : 0 <= t_row t;
}.

Definition on_screen (t : terminal) : Prop := t_col t <= 80 ∧ t_row t <= 24.

Lemma concat_length (rows : list (list Z)) :
  Forall (λ l, length l = 80%nat) rows → length (concat rows) = (80 * length rows)%nat.
Proof. induction 1 as [|r rows Hr _ IH]; [done|]. cbn [concat]. rewrite length_app, IH, Hr. cbn. lia. Qed.

Lemma insert_concat (rows : list (list Z)) (y x : nat) (v : Z) :
  Forall (λ l, length l = 80%nat) rows → (x < 80)%nat →
  <[(80 * y + x)%nat := v]> (concat rows) = concat (alter (insert x v) y rows).
Proof.
  intros Hw Hx. revert y. induction Hw as [|r rows Hr Hw IH]; intros y; [done|]. destruct y as [|y]; cbn [concat].
  - rewrite Nat.mul_0_r, Nat.add_0_l. change (alter (insert x v) 0%nat (r :: rows)) with (<[x:=v]> r :: rows).
    cbn [concat]. apply insert_app_l. lia.
  - change (alter (insert x v) (S y) (r :: rows)) with (r :: alter (insert x v) y rows). cbn [concat].
    rewrite insert_app_r_alt by lia. rewrite <- IH. do 2 f_equal. lia.
Qed.

Lemma sh_cells t s : shows t s → zlen (screen s) = 2000.
Proof. intros [_ _ _ -> Hl Hw _ _]. unfold zlen. rewrite concat_length by done. lia. Qed.

Lemma write_shows c t s :
  shows t s → t_col t < 80 → t_row t < 25 →
  ∃ s', vga_putchar_at c (current_color s) (cursor_x s) (cursor_y s) s = Some s' ∧ shows (t_write c t) s'.
Proof.
  intros Hsh Hx Hy. pose proof (sh_cells _ _ Hsh) as Hc. destruct Hsh as [Ex Ey Ec Es Hl Hw Hx0 Hy0].
  unfold vga_putchar_at. rewrite Ex, Ey, zset_in by (unfold VGA_WIDTH; lia). cbn [mbind option_bind].
  eexists. split; [done|]. split; cbn [cursor_x cursor_y current_color screen set_screen t_write t_col t_row t_color t_lines]; try done.
  - rewrite Es, Ec. unfold VGA_WIDTH.
    replace (Z.to_nat (t_row t * 80 + t_col t)) with (80 * Z.to_nat (t_row t) + Z.to_nat (t_col t))%nat by lia.
    apply insert_concat; [done|lia].
  - by rewrite length_alter.
  - apply Forall_alter; [done|]. intros l _ Hlen. by rewrite length_insert.
Qed.

Lemma move_shows x y t s : shows t s → 0 <= x → 0 <= y → shows (t_move x y t) (set_pos x y s).
Proof. intros [Ex Ey Ec Es Hl Hw Hx0 Hy0] Hx Hy. by split. Qed.

(** Going down past the last line scrolls. *)
Lemma newline_shows t s :
  shows t s → t_row t <= 24 →
  let s1 := set_pos 0 (cursor_y s + 1) s in
  ∃ s', (if VGA_HEIGHT <=? cursor_y s1 then s ← vga_scroll s1; Some (set_pos (cursor_x s) (VGA_HEIGHT - 1) s)
         else Some s1) = Some s' ∧ shows (t_newline t) s'.
Proof.
  intros Hsh Hy s1. pose proof (sh_cells _ _ Hsh) as Hc. pose proof Hsh as [Ex Ey Ec Es Hl Hw Hx0 Hy0].
  cbn [cursor_y s1 set_pos]. rewrite Ey. unfold VGA_HEIGHT, t_newline.
  destruct (Z.leb_spec 25 (t_row t + 1)), (Z.eqb_spec (t_row t) 24); try lia.
  - rewrite vga_scroll_spec by done. cbn [mbind option_bind]. eexists. split; [done|].
    destruct (t_lines t) as [|r rows] eqn:E; [done|]. apply Forall_cons in Hw as [Hr Hw].
    split; cbn [cursor_x cursor_y current_color screen set_screen set_pos s1 t_col t_row t_color t_lines tail]; try done.
    + rewrite Es, Ec. cbn [concat]. rewrite drop_app_length' by done. rewrite concat_app. cbn [concat]. by rewrite app_nil_r.
    + rewrite length_app. cbn in Hl |- *. lia.
    + apply Forall_app. split; [done|]. by apply Forall_singleton.
  - eexists. split; [done|]. unfold s1. rewrite Ey. apply move_shows; [done|lia..].
Qed.

Lemma clamp_shows t s :
  shows t s → shows (t_move (if 80 <=? t_col t then 0 else t_col t) (Z.min 24 (t_row t)) t) (clamp_cursor s).
Proof.
  intros Hsh. pose proof Hsh as [Ex Ey Ec Es Hl Hw Hx0 Hy0]. unfold clamp_cursor, VGA_WIDTH, VGA_HEIGHT. rewrite Ex, Ey.
  replace (if 25 <=? t_row t then 25 - 1 else t_row t) with (Z.min 24 (t_row t)) by (zcases; lia).
  apply move_shows; [done| |lia]. zcases; lia.
Qed.

Lemma back_shows t s :
  shows t s →
  shows (t_back t) (if 0 <? cursor_x s then set_pos (cursor_x s - 1) (cursor_y s) s
                    else if 0 <? cursor_y s then set_pos (VGA_WIDTH - 1) (cursor_y s - 1) s else s).
Proof.
  intros Hsh. pose proof Hsh as [Ex Ey _ _ _ _ Hx0 Hy0]. unfold t_back. rewrite Ex, Ey.
  destruct (Z.ltb_spec 0 (t_col t)); [apply move_shows; [done|lia..]|].
  destruct (Z.ltb_spec 0 (t_row t)); [apply move_shows; [done|done|lia]|done].
Qed.

Lemma tab_stop x : 0 <= x → Z.land (x + 8) (Z.lnot 7) = 8 * (x / 8 + 1).
Proof.
  intros Hx. change 7 with (Z.ones 3). rewrite <- Z.ldiff_land, Z.ldiff_ones_r by lia.
  rewrite Z.shiftr_div_pow2, Z.shiftl_mul_pow2 by lia. change (2 ^ 3) with 8.
  replace (x + 8) with (x + 1 * 8) by lia. rewrite Z.div_add by lia. lia.
Qed.

Lemma printable c : (32 <=? s8 c) = visible c.
Proof.
  unfold visible, s8. destruct (Z.leb_spec 32 (c mod 256)), (Z.ltb_spec (c mod 256) 128); cbn; zcases; int_lia.
Qed.

Section shows.
Context {W : Type} `{Ports W}.

Lemma on_screen_put c t : 0 <= t_col t → 0 <= t_row t → on_screen (t_put c t).
Proof.
  intros Hx Hy. unfold t_put, on_screen.
  set (u := t_move (if 80 <=? t_col t then 0 else t_col t) (Z.min 24 (t_row t)) t).
  assert (0 <= t_col u < 80 ∧ 0 <= t_row u <= 24) as [Hcol Hrow] by (cbn; zcases; lia). clearbody u.
  destruct (bool_decide _); [unfold t_newline; destruct (Z.eqb_spec (t_row u) 24); cbn; lia|].
  destruct (c =? 8); [unfold t_write, t_back; cbn; zcases; cbn; lia|].
  destruct (c =? 9); [cbn; int_lia|]. destruct (visible c); cbn; lia.
Qed.

Lemma putchar_shows c t s w :
  shows t s →
  ∃ s', vga_putchar c s w = Some (s', vga_update_cursor s' w) ∧ shows (t_put c t) s'.
Proof.
  intros Hsh. apply clamp_shows in Hsh. unfold vga_putchar, put_on_screen, t_put.
  assert (0 <= t_col t → 0 <= (if 80 <=? t_col t then 0 else t_col t) < 80) as Hx by (zcases; lia).
  set (u := t_move (if 80 <=? t_col t then 0 else t_col t) (Z.min 24 (t_row t)) t) in *.
  set (r := clamp_cursor s) in *. pose proof Hsh as [Ex Ey _ _ _ _ Hx0 Hy0].
  assert (t_col u < 80 ∧ t_row u <= 24) as [Hcol Hrow] by (cbn in *; zcases; lia). clearbody u r. clear Hx.
  replace ((c =? 10) || (c =? 13)) with (bool_decide (c ∈ [10; 13])).
  2: { apply Bool.eq_iff_eq_true. rewrite bool_decide_eq_true, orb_true_iff, !Z.eqb_eq, !elem_of_cons, elem_of_nil. tauto. }
  assert (∀ q (v : terminal), shows v q → t_row v <= 24 → (VGA_HEIGHT <=? cursor_y q) = false) as Hfit.
  { intros q v [_ -> _ _ _ _ _ _] Hv. unfold VGA_HEIGHT. apply Z.leb_gt. lia. }
  destruct (bool_decide (c ∈ [10; 13])).
  { cbn [mbind option_bind]. destruct (newline_shows u r Hsh Hrow) as (s' & -> & Hs'). by exists s'. }
  destruct (Z.eqb_spec c 8).
  { pose proof (back_shows u r Hsh) as Hb. destruct (write_shows 32 _ _ Hb) as (s' & -> & Hs').
    1,2: unfold t_back; zcases; cbn; lia.
    cbn [mbind option_bind]. rewrite (Hfit _ _ Hs') by (unfold t_back; cbn; zcases; cbn; lia). by exists s'. }
  destruct (Z.eqb_spec c 9).
  { cbn [mbind option_bind]. rewrite Ex, tab_stop by lia. rewrite Ey.
    assert (shows (t_move (8 * (t_col u / 8 + 1)) (t_row u) u) (set_pos (8 * (t_col u / 8 + 1)) (t_row u) r)) as Hs'
      by (apply move_shows; [done|int_lia|lia]).
    rewrite (Hfit _ _ Hs') by (cbn; lia). by eexists. }
  rewrite printable. destruct (visible c).
  - assert ((VGA_WIDTH <=? cursor_x r) = false) as -> by (apply Z.leb_gt; unfold VGA_WIDTH; lia).
    destruct (write_shows c u r Hsh Hcol ltac:(lia)) as (s' & -> & Hs'). cbn [mbind option_bind].
    pose proof Hs' as [Ex' Ey' _ _ _ _ _ _].
    assert (shows (t_move (t_col u + 1) (t_row u) (t_write c u)) (set_pos (cursor_x s' + 1) (cursor_y s') s')) as Hm.
    { rewrite Ex', Ey'. apply move_shows; [done|cbn; lia..]. }
    rewrite (Hfit _ _ Hm) by (cbn; lia). by eexists.
  - cbn [mbind option_bind]. rewrite (Hfit _ _ Hsh) by done. by eexists.
Qed.

(** A string ended by a NUL *)
Definition text_ok (b : list Z) : Prop := is_Some (cstr b).

Lemma text_split b : text_ok b → ∃ r, b = str b ++ 0 :: r ∧ Forall (λ c, c ≠ 0) (str b).
Proof.
  intros [s Hs]. unfold str in *. rewrite Hs in *. cbn [default from_option id] in *.
  apply cstr_alt in Hs as (r & -> & Hs). by exists r.
Qed.

(** Printing shows the printed terminal; the cursor registers are written
    last, unless nothing was printed. *)
Lemma print_shows b t s w :
  text_ok b → shows t s →
  ∃ s' w', vga_print b s w = Some (s', w') ∧ shows (t_print (str b) t) s' ∧
    (str b = [] ∧ s' = s ∧ w' = w ∨ on_screen (t_print (str b) t) ∧ ∃ v, w' = vga_update_cursor s' v).
Proof.
  intros (r & E & Hb)%text_split. set (l := str b) in *. clearbody l. subst b. revert t s w.
  induction Hb as [|c l Hc Hl IH]; intros t s w Hsh.
  - exists s, w. split; [done|]. split; [exact Hsh|]. by left.
  - cbn [app vga_print]. destruct (Z.eqb_spec c 0); [done|]. cbn [negb].
    destruct (putchar_shows c t s w Hsh) as (s1 & -> & Hs1). cbn [mbind option_bind].
    destruct (IH (t_put c t) s1 (vga_update_cursor s1 w) Hs1) as (s' & w' & -> & Hs' & Hd).
    exists s', w'. split; [done|]. split; [done|]. right. destruct Hd as [(-> & -> & ->)|Hd]; [|exact Hd].
    split; [apply on_screen_put; apply Hsh|by eexists].
Qed.

Lemma clear_shows s w :
  zlen (screen s) = 2000 →
  ∃ s', vga_clear s w = Some (s', vga_update_cursor s' w) ∧
    shows {| t_col := 0; t_row := 0; t_color := current_color s; t_lines := replicate 25 (blank_line (current_color s)) |} s'.
Proof.
  intros Hl. unfold vga_clear. rewrite fill_rows by done. cbn [mbind option_bind]. eexists. split; [done|].
  split; try done; cbn [t_lines]. by apply Forall_replicate.
Qed.

(** ** The hardware cursor

    The registers of the CRT controller after the byte writes [l]: the index
    register and registers 14 and 15, the cursor position. *)
Definition crtc_write (r : Z * Z * Z) (wr : Z * Z) : Z * Z * Z :=
  let '(index, hi, lo) := r in
  let '(port, v) := wr in
  if port =? 0x3D4 then (v, hi, lo)
  else if port =? 0x3D5 then
    if index =? 0x0E then (index, v, lo) else if index =? 0x0F then (index, hi, v) else r
  else r.
Definition crtc_cursor (l : list (Z * Z)) : Z := let '(_, hi, lo) := foldl crtc_write (0, 0, 0) l in 256 * hi + lo.

Context (log : W → list (Z * Z)) `{!PortLog W log}.

Lemma update_cursor_crtc s w :
  crtc_cursor (log (vga_update_cursor s w)) = u16 (cursor_y s * 80 + cursor_x s).
Proof.
  unfold vga_update_cursor, VGA_WIDTH. rewrite !log_outb, <- !app_assoc. unfold crtc_cursor. rewrite foldl_app.
  destruct (foldl crtc_write (0, 0, 0) (log w)) as [[i hi] lo]. cbn [app foldl]. set (p := u16 (_ + _)).
  assert (0 <= p < 65536) by apply u16_range.
  change 0xFF with (Z.ones 8). rewrite !Z.land_ones, Z.shiftr_div_pow2 by lia.
  cbn [crtc_write]. change (u16 0x3D4) with 0x3D4. change (u16 0x3D5) with 0x3D5. cbn [crtc_write Z.eqb Pos.eqb].
  change (u8 14) with 14. change (u8 15) with 15. cbn [crtc_write Z.eqb Pos.eqb]. unfold u8. change (2 ^ 8) with 256.
  change (u16 (cursor_y s * 80 + cursor_x s)) with p. rewrite !Z.mod_mod by lia. Z.div_mod_to_equations. lia.
Qed.

(** The screen shows [t] and the hardware cursor is where it should be. *)
Definition displayed (t : terminal) (s : vga_state) (w : W) : Prop :=
  shows t s ∧ on_screen t ∧ crtc_cursor (log w) = 80 * t_row t + t_col t.

Lemma updated t s w : shows t s → on_screen t → displayed t s (vga_update_cursor s w).
Proof.
  intros Hsh [Hx Hy]. split; [done|]. split; [done|]. rewrite update_cursor_crtc. destruct Hsh as [-> -> _ _ _ _ Hx0 Hy0].
  rewrite u16_id by lia. lia.
Qed.

(** Only the ports 0x3D4 and 0x3D5 move the hardware cursor. *)
Lemma displayed_inb port t v w : displayed t v w → displayed t v (inb port w).2.
Proof. unfold displayed. by rewrite log_inb. Qed.
Lemma displayed_outb port x t v w :
  u16 port ≠ 0x3D4 → u16 port ≠ 0x3D5 → displayed t v w → displayed t v (outb port x w).
Proof.
  intros H4 H5 (Hs & Ho & Hc). split; [done|]. split; [done|]. rewrite log_outb, <- Hc. unfold crtc_cursor. rewrite foldl_app.
  cbn [foldl]. destruct (foldl crtc_write (0, 0, 0) (log w)) as [[i hi] lo]. cbn [crtc_write].
  by rewrite (proj2 (Z.eqb_neq _ _) H4), (proj2 (Z.eqb_neq _ _) H5).
Qed.

(** ** Sequences of calls *)
Inductive vga_call :=
  | Print (text : list Z)
  | PrintAt (text : list Z) (x y : Z)
  | SetColor (fg bg : Z)
  | SetCursor (x y : Z)
  | Clear.

Definition run_call (c : vga_call) (s : vga_state) (w : W) : option (vga_state * W) :=
  match c with
  | Print b => vga_print b s w
  | PrintAt b x y => vga_print_at b x y s w
  | SetColor fg bg => Some (vga_set_color fg bg s, w)
  | SetCursor x y => Some (vga_set_cursor x y s w)
  | Clear => vga_clear s w
  end.
Fixpoint run_calls (cs : list vga_call) (s : vga_state) (w : W) : option (vga_state * W) :=
  match cs with
  | [] => Some (s, w)
  | c :: cs => '(s, w) ← run_call c s w; run_calls cs s w
  end.

Definition t_clear (t : terminal) : terminal :=
  {| t_col := 0; t_row := 0; t_color := t_color t; t_lines := replicate 25 (blank_line (t_color t)) |}.
Definition t_call (c : vga_call) (t : terminal) : terminal :=
  match c with
  | Print b => t_print (str b) t
  | PrintAt b x y => t_move (t_col t) (t_row t) (t_print (str b) (t_move x y t))
  | SetColor fg bg =>
      {| t_col := t_col t; t_row := t_row t; t_color := 16 * (bg mod 16) + fg mod 16; t_lines := t_lines t |}
  | SetCursor x y => if bool_decide (0 <= x < 80 ∧ 0 <= y < 25) then t_move x y t else t
  | Clear => t_clear t
  end.

(** Coordinates that are not negative. *)
Definition call_ok (c : vga_call) : Prop :=
  match c with
  | Print b => text_ok b
  | PrintAt b x y => text_ok b ∧ 0 <= x ∧ 0 <= y
  | _ => True
  end.

Lemma clear_displayed s w :
  zlen (screen s) = 2000 →
  ∃ s' w', vga_clear s w = Some (s', w') ∧
    displayed {| t_col := 0; t_row := 0; t_color := current_color s; t_lines := replicate 25 (blank_line (current_color s)) |} s' w'.
Proof.
  intros Hl. destruct (clear_shows s w Hl) as (s' & E & Hs). eexists _, _. split; [exact E|]. by apply updated.
Qed.

Lemma set_color_value fg bg : u8 (Z.lor (Z.shiftl bg 4) (Z.land fg 0x0F)) = 16 * (bg mod 16) + fg mod 16.
Proof.
  change 0x0F with (Z.ones 4). rewrite Z.land_ones, Z.shiftl_mul_pow2, (Z.mul_comm bg) by lia.
  rewrite lor_aligned by (change (2 ^ 4) with 16; int_lia). change (2 ^ 4) with 16. int_lia.
Qed.

(** The hardware cursor aside, on any machine *)
Lemma call_shows c t s w :
  call_ok c → shows t s → ∃ s' w', run_call c s w = Some (s', w') ∧ shows (t_call c t) s'.
Proof.
  intros Hok Hsh. pose proof Hsh as [Ex Ey Ec Es Hl Hwd Hx0 Hy0]. destruct c as [b|b x y|fg bg|x y|]; cbn [run_call t_call call_ok] in *.
  - destruct (print_shows b t s w Hok Hsh) as (s' & w' & E & Hs' & _). by exists s', w'.
  - destruct Hok as (Hb & Hx & Hy). unfold vga_print_at.
    destruct (print_shows b (t_move x y t) (set_pos x y s) w Hb) as (s' & w' & -> & Hs' & _); [by apply move_shows|].
    cbn [mbind option_bind]. eexists _, _. split; [done|]. rewrite Ex, Ey. by apply move_shows.
  - eexists _, _. split; [done|]. split; try done. cbn. by rewrite set_color_value.
  - unfold vga_set_cursor, VGA_WIDTH, VGA_HEIGHT. case_bool_decide as E.
    + assert (((0 <=? x) && (x <? 80) && (0 <=? y) && (y <? 25)) = true) as -> by (rewrite !andb_true_iff; lia).
      eexists _, _. split; [done|]. apply move_shows; [done|lia..].
    + assert (((0 <=? x) && (x <? 80) && (0 <=? y) && (y <? 25)) = false) as ->.
      { apply not_true_iff_false. rewrite !andb_true_iff. lia. }
      by exists s, w.
  - destruct (clear_shows s w (sh_cells t s Hsh)) as (s' & -> & Hs'). eexists _, _. split; [done|]. by rewrite Ec in Hs'.
Qed.

Lemma call_displayed c t s w :
  call_ok c → displayed t s w →
  ∃ s' w', run_call c s w = Some (s', w') ∧ displayed (t_call c t) s' w'.
Proof.
  intros Hok Hd. pose proof Hd as (Hsh & Hon & Hw). destruct c as [b|b x y|fg bg|x y|]; cbn [run_call t_call call_ok] in *.
  - destruct (print_shows b t s w Hok Hsh) as (s' & w' & E & Hs' & Hw'). exists s', w'. split; [done|].
    destruct Hw' as [(-> & -> & ->)|(Hon' & v & ->)]; [done|by apply updated].
  - destruct Hok as (Hb & Hx & Hy). unfold vga_print_at.
    destruct (print_shows b (t_move x y t) (set_pos x y s) w Hb) as (s' & w' & -> & Hs' & _); [by apply move_shows|].
    cbn [mbind option_bind]. eexists _, _. split; [done|]. destruct Hsh as [-> -> _ _ _ _ Hx0 Hy0].
    apply updated; [by apply move_shows|]. done.
  - eexists _, _. split; [done|]. destruct Hsh as [Ex Ey Ec Es Hl Hwd Hx0 Hy0]. split; [|done]. split; try done.
    cbn. by rewrite set_color_value.
  - unfold vga_set_cursor, VGA_WIDTH, VGA_HEIGHT. case_bool_decide as E.
    + assert ((0 <=? x) && (x <? 80) && (0 <=? y) && (y <? 25) = true) as -> by (rewrite !andb_true_iff; lia).
      eexists _, _. split; [done|]. apply updated; [apply move_shows; [done|lia..]|]. unfold on_screen. cbn. lia.
    + assert ((0 <=? x) && (x <? 80) && (0 <=? y) && (y <? 25) = false) as ->.
      { apply not_true_iff_false. rewrite !andb_true_iff. lia. }
      by exists s, w.
  - destruct (clear_displayed s w (sh_cells t s Hsh)) as (s' & w' & E & Hd'). exists s', w'. split; [done|].
    rewrite (sh_color t s Hsh) in Hd'. exact Hd'.
Qed.

Lemma init_displayed s w :
  zlen (screen s) = 2000 →
  ∃ s' w', vga_init s w = Some (s', w') ∧
    displayed {| t_col := 0; t_row := 0; t_color := 7; t_lines := replicate 25 (blank_line 7) |} s' w'.
Proof.
  intros Hl. unfold vga_init.
  destruct (clear_displayed (vga_set_color VGA_COLOR_LIGHT_GREY VGA_COLOR_BLACK s) (vga_enable_cursor 0 15 w) Hl)
    as (s' & w' & -> & Hd).
  cbn [mbind option_bind]. eexists _, _. split; [done|]. change (current_color _) with 7 in Hd.
  apply updated; apply Hd.
Qed.

Lemma calls_displayed cs t s w :
  Forall call_ok cs → displayed t s w →
  ∃ s' w', run_calls cs s w = Some (s', w') ∧ displayed (foldl (flip t_call) t cs) s' w'.
Proof.
  intros Hok. revert t s w. induction Hok as [|c cs Hc _ IH]; intros t s w Hd; [by exists s, w|].
  cbn [run_calls foldl flip]. destruct (call_displayed c t s w Hc Hd) as (s1 & w1 & -> & Hd1).
  cbn [mbind option_bind]. by apply IH.
Qed.

(** C16. The screen driver implements a terminal of 25 lines of 80 characters:
    after [vga_init] and any sequence of calls that print strings (also at a
    position that is not negative), move the cursor, change the colour or
    clear the screen, no cell outside the screen has been written, the 2000
    cells of video memory are the terminal's lines one after the other, the
    colour and the position are the terminal's, and the cursor registers of
    the CRT controller, computed from all the port writes made, hold
    [80 * row + column]. *)
Theorem vga_terminal_refines (cs : list vga_call) (s : vga_state) (w : W) :
  zlen (screen s) = 2000 → Forall call_ok cs →
  let t0 := {| t_col := 0; t_row := 0; t_color := 7; t_lines := replicate 25 (blank_line 7) |} in
  let t := foldl (flip t_call) t0 cs in
  ∃ s1 w1 s' w', vga_init s w = Some (s1, w1) ∧ run_calls cs s1 w1 = Some (s', w') ∧ screen s' = concat (t_lines t) ∧
    (cursor_x s', cursor_y s', current_color s') = (t_col t, t_row t, t_color t) ∧
    0 <= t_col t <= 80 ∧ 0 <= t_row t <= 24 ∧ crtc_cursor (log w') = 80 * t_row t + t_col t.
Proof.
  intros Hl Hok t0 t. destruct (init_displayed s w Hl) as (s1 & w1 & E1 & Hd1).
  destruct (calls_displayed cs t0 s1 w1 Hok Hd1) as (s' & w' & E & [Ex Ey Ec Es _ _ Hx0 Hy0] & [Hx Hy] & Hw).
  exists s1, w1, s', w'. fold t in Ex, Ey, Ec, Es, Hx0, Hy0, Hx, Hy, Hw. rewrite Ex, Ey, Ec. by repeat (split; [done|]).
Qed.

End shows.

(** ** A line that is too long *)
Lemma t_print_run l t line :
  Forall (λ c, 32 <= c < 128) l → 0 <= t_col t → t_col t + zlen l <= 80 → 0 <= t_row t <= 24 →
  t_lines t !! Z.to_nat (t_row t) = Some line → length line = 80%nat →
  t_print l t = {| t_col := t_col t + zlen l; t_row := t_row t; t_color := t_color t;
    t_lines := <[Z.to_nat (t_row t) := take (Z.to_nat (t_col t)) line ++ ((λ c, cell c (t_color t)) <$> l) ++
                                       drop (Z.to_nat (t_col t + zlen l)) line]> (t_lines t) |}.
Proof.
  intros Hl. revert t line. induction Hl as [|c l Hc _ IH]; intros t line Hx Hlen Hy Hline H80.
  - unfold zlen. cbn [length Z.of_nat fmap list_fmap app t_print foldl]. rewrite Z.add_0_r, take_drop, list_insert_id by done.
    by destruct t.
  - assert (zlen (c :: l) = 1 + zlen l) as Hz by (unfold zlen; cbn [length]; lia). rewrite Hz in *.
    assert (0 <= zlen l) by (unfold zlen; lia).
    assert (t_put c t = {| t_col := t_col t + 1; t_row := t_row t; t_color := t_color t;
      t_lines := <[Z.to_nat (t_row t) := <[Z.to_nat (t_col t) := cell c (t_color t)]> line]> (t_lines t) |}) as Hput.
    { unfold t_put. replace (if 80 <=? t_col t then 0 else t_col t) with (t_col t) by (zcases; lia).
      rewrite Z.min_r by lia. rewrite bool_decide_false by (rewrite !elem_of_cons, elem_of_nil; lia).
      cbn [t_row t_col t_move]. destruct (Z.eqb_spec c 8), (Z.eqb_spec c 9); try lia.
      assert (visible c = true) as -> by (unfold visible; rewrite Z.mod_small, andb_true_iff by lia; lia).
      unfold t_move. cbn [t_color t_lines t_write t_col t_row]. f_equal.
      rewrite list_insert_alter. apply list_alter_ext; [|done]. intros ? E. by simplify_eq. }
    unfold t_print. cbn [foldl flip]. rewrite Hput.
    assert (Z.to_nat (t_row t) < length (t_lines t))%nat as Hrow by by eapply lookup_lt_Some.
    change (foldl (flip t_put) ?u l) with (t_print l u).
    erewrite IH; cbn [t_col t_row t_color t_lines]; [|lia|lia|done|by apply list_lookup_insert_eq|by rewrite length_insert].
    rewrite list_insert_insert_eq. f_equal; [lia|]. f_equal.
    replace (Z.to_nat (t_col t + 1)) with (S (Z.to_nat (t_col t))) by lia.
    rewrite take_S_insert, <- app_assoc, drop_insert_lt by lia. cbn [fmap list_fmap app].
    do 4 f_equal. lia.
Qed.

Lemma row_of_concat (rows : list (list Z)) y line :
  Forall (λ l, length l = 80%nat) rows → rows !! y = Some line → take 80 (drop (80 * y) (concat rows)) = line.
Proof.
  intros Hw. revert y. induction Hw as [|r rows Hr Hw IH]; intros [|y] Hy; try done; cbn [concat].
  - injection Hy as ->. rewrite Nat.mul_0_r, drop_0. by apply take_app_length'.
  - replace (80 * S y)%nat with (80 + 80 * y)%nat by lia. rewrite <- drop_drop, drop_app_length' by done. by apply IH.
Qed.

Lemma lines_exist n (l : list Z) :
  length l = (80 * n)%nat → ∃ rows, concat rows = l ∧ length rows = n ∧ Forall (λ l, length l = 80%nat) rows.
Proof.
  revert l. induction n as [|n IH]; intros l Hl.
  - exists []. destruct l; [done|]. cbn in Hl. lia.
  - destruct (IH (drop 80 l)) as (rows & E & Hn & Hw); [rewrite length_drop; lia|].
    exists (take 80 l :: rows). cbn [concat]. rewrite E, take_drop. split; [done|]. split; [cbn; lia|].
    constructor; [|done]. rewrite length_take. lia.
Qed.

Lemma t_print_app a b t : t_print (a ++ b) t = t_print b (t_print a t).
Proof. apply foldl_app. Qed.

(** At column 80 the next character goes to column 0 of the same line. *)
Lemma t_print_wrap c l t :
  t_col t = 80 → t_row t <= 24 → t_print (c :: l) t = t_print (c :: l) (t_move 0 (t_row t) t).
Proof. intros Hc Hr. unfold t_print. cbn [foldl flip]. f_equal. unfold flip, t_put. cbn [t_col t_row t_move]. by rewrite Hc. Qed.

(** A line longer than the screen is wide does not continue on the next
    line: of a text of [80 + k] printable characters ([1 <= k <= 80]) printed
    from the start of line [y], the last [k] overwrite the first [k] on the
    same line, and the cursor is left at column [k] of line [y]. *)
Theorem vga_long_line_overwrites {W : Type} `{Ports W} (text : list Z) (k y : Z) (s : vga_state) (w : W) :
  zlen (screen s) = 2000 → cursor_x s = 0 → cursor_y s = y → 0 <= y < 25 →
  Forall (λ c, 32 <= c < 128) text → zlen text = 80 + k → 1 <= k <= 80 →
  ∃ s' w', vga_print (text ++ [0]) s w = Some (s', w') ∧ cursor_x s' = k ∧ cursor_y s' = y ∧
    take 80 (drop (Z.to_nat (80 * y)) (screen s')) =
      (λ c, cell c (current_color s)) <$> drop 80 text ++ drop (Z.to_nat k) (take 80 text).
Proof.
  intros Hl Hx Hy Hyr Htext Hlen Hk.
  destruct (lines_exist 25 (screen s)) as (rows & Hrows & Hn & Hw); [unfold zlen in Hl; lia|].
  set (t := {| t_col := 0; t_row := y; t_color := current_color s; t_lines := rows |}).
  assert (shows t s) as Hsh by (split; try done; apply Hyr).
  assert (text_ok (text ++ [0]) ∧ str (text ++ [0]) = text) as [Hok Hstr].
  { assert (cstr (text ++ [0]) = Some text) as E by (apply cstr_app; eapply Forall_impl; [done|]; cbn; lia).
    unfold text_ok, str. rewrite E. by split. }
  destruct (print_shows (text ++ [0]) t s w Hok Hsh) as (s' & w' & E & Hs' & _). rewrite Hstr in Hs'.
  exists s', w'. split; [done|]. clear E Hok Hstr Hsh.
  destruct (lookup_lt_is_Some_2 rows (Z.to_nat y)) as [line Hline]; [rewrite Hn; lia|].
  assert (length line = 80%nat) as H80 by exact (proj1 (Forall_lookup _ _) Hw _ _ Hline).
  assert (t_print text t = {| t_col := k; t_row := y; t_color := current_color s;
    t_lines := <[Z.to_nat y := (λ c, cell c (current_color s)) <$> drop 80 text ++ drop (Z.to_nat k) (take 80 text)]> rows |}) as Et.
  { assert (zlen (take 80 text) = 80 ∧ zlen (drop 80 text) = k) as [Ha Hb].
    { unfold zlen in *. rewrite length_take, length_drop. lia. }
    pose proof (take_drop 80 text) as Esplit. rewrite <- Esplit at 1.
    rewrite <- Esplit in Htext. apply Forall_app in Htext as [Fa Fb]. set (a := take 80 text) in *.
    set (b := drop 80 text) in *. rewrite t_print_app.
    rewrite (t_print_run a t line) by (cbn; lia || done). cbn [t t_col t_row t_color t_lines].
    rewrite Ha. change (Z.to_nat 0) with 0%nat. change (Z.to_nat (0 + 80)) with 80%nat.
    rewrite take_0, (drop_ge line) by lia. rewrite app_nil_r. cbn [app].
    destruct b as [|c b'] eqn:Eb; [unfold zlen in Hb; cbn in Hb; lia|]. rewrite t_print_wrap by (cbn; lia). rewrite <- Eb in *.
    erewrite t_print_run; cbn [t_col t_row t_color t_lines t_move];
      [|done|lia|lia|lia|apply list_lookup_insert_eq; lia|rewrite length_fmap; unfold zlen in Ha; lia].
    rewrite list_insert_insert_eq, Hb. change (Z.to_nat 0) with 0%nat. rewrite take_0, Z.add_0_l, fmap_app, fmap_drop. done. }
  rewrite Et in Hs'. destruct Hs' as [-> -> _ -> _ Hw' _ _]. split; [done|]. split; [done|].
  replace (Z.to_nat (80 * y)) with (80 * Z.to_nat y)%nat by lia. apply row_of_concat; [exact Hw'|].
  apply list_lookup_insert_eq. lia.
Qed.

Definition vga_bss : vga_state := {| cursor_x := 0; cursor_y := 0; current_color := 7; screen := replicate 2000 0 |}.

Lemma vga_terminal_refines_witness :
  let cs := [Print (lit "hello"); SetColor 2 0; PrintAt (lit "x") 79 24; Clear] in
  let t0 := {| t_col := 0; t_row := 0; t_color := 7; t_lines := replicate 25 (blank_line 7) |} in
  let t := foldl (flip t_call) t0 cs in
  ∃ s1 w1 s' w', vga_init vga_bss (constant_machine 0) = Some (s1, w1) ∧ run_calls cs s1 w1 = Some (s', w') ∧
    screen s' = concat (t_lines t) ∧
    (cursor_x s', cursor_y s', current_color s') = (t_col t, t_row t, t_color t) ∧
    0 <= t_col t <= 80 ∧ 0 <= t_row t <= 24 ∧ crtc_cursor (writes w') = 80 * t_row t + t_col t.
Proof.
  apply (vga_terminal_refines writes [Print (lit "hello"); SetColor 2 0; PrintAt (lit "x") 79 24; Clear] vga_bss (constant_machine 0)).
  - vm_compute. reflexivity.
  - repeat constructor; try lia; by eexists.
Defined.

Lemma vga_long_line_overwrites_witness :
  let text := replicate 80 65 ++ [66; 67] in
  ∃ s' w', vga_print (text ++ [0]) vga_bss (constant_machine 0) = Some (s', w') ∧ cursor_x s' = 2 ∧ cursor_y s' = 0 ∧
    take 80 (drop (Z.to_nat (80 * 0)) (screen s')) =
      (λ c, cell c (current_color vga_bss)) <$> drop 80 text ++ drop (Z.to_nat 2) (take 80 text).
Proof.
  apply (vga_long_line_overwrites (replicate 80 65 ++ [66; 67]) 2 0 vga_bss (constant_machine 0)); try (reflexivity || lia).
  apply (bool_decide_unpack _). vm_compute. exact I.
Defined.

End Vga.
