(* ===== verification/Output.v ===== *)
(** * Output: what a sequence of screen calls shows

    Code that only prints is a function on the screen and the machine; [acts]
    and [outputs] say what it does to the terminal of Vga, so that a command's
    text is found by composing the texts of its calls. *)
From S2P Require Import Prelude CString Ports Vga.
Import Vga.

Module Output.

Section output.
Context {W : Type} `{Ports W}.

Definition out : Type := vga_state * W → option (vga_state * W).
Definition then_out (m k : out) : out := λ c, c ← m c; k c.
Definition print (str : list Z) : out := λ '(v, w), vga_print str v w.
Definition putchar (c : Z) : out := λ '(v, w), vga_putchar c v w.
Definition clear : out := λ '(v, w), vga_clear v w.

(** [m] turns every screen that shows [t] into one that shows [f t]. *)
Definition acts (m : out) (f : terminal → terminal) : Prop :=
  ∀ t v w, shows t v → ∃ v' w', m (v, w) = Some (v', w') ∧ shows (f t) v'.
Definition outputs (m : out) (text : list Z) : Prop := acts m (t_print text).

Lemma acts_id : acts Some id.
Proof. intros t v w Hs. by exists v, w. Qed.
Lemma acts_then m k f g : acts m f → acts k g → acts (then_out m k) (λ t, g (f t)).
Proof.
  intros Hm Hk t v w Hs. destruct (Hm t v w Hs) as (v1 & w1 & E & Hs1). destruct (Hk _ v1 w1 Hs1) as (v2 & w2 & E2 & Hs2).
  exists v2, w2. unfold then_out. by rewrite E.
Qed.
Lemma acts_seq m k f g h : acts m f → acts k g → (∀ t, g (f t) = h t) → acts (then_out m k) h.
Proof. intros Hm Hk Hh t v w Hs. rewrite <- Hh. by apply acts_then. Qed.
Lemma outputs_nil : outputs Some [].
Proof. exact acts_id. Qed.
Lemma outputs_then m k a b : outputs m a → outputs k b → outputs (then_out m k) (a ++ b).
Proof.
  intros Hm Hk t v w Hs. rewrite t_print_app. exact (acts_then _ _ _ _ Hm Hk t v w Hs).
Qed.
Lemma outputs_print b : is_Some (cstr b) → outputs (print b) (str b).
Proof. intros Hb t v w Hs. destruct (print_shows b t v w Hb Hs) as (v' & w' & E & Hs' & _). by exists v', w'. Qed.
Lemma outputs_lit x : cstr (lit x) = Some (bytes_of_string x) → outputs (print (lit x)) (bytes_of_string x).
Proof. intros Hx. pose proof (outputs_print (lit x) ltac:(by eexists)) as Hp. unfold str in Hp. by rewrite Hx in Hp. Qed.
Lemma outputs_putchar c : outputs (putchar c) [c].
Proof. intros t v w Hs. destruct (putchar_shows c t v w Hs) as (v' & E & Hs'). by exists v', (vga_update_cursor v' w). Qed.
Lemma acts_color fg bg : acts (λ '(v, w), Some (vga_set_color fg bg v, w)) (t_call (SetColor fg bg)).
Proof.
  intros t v w [Ex Ey Ec Es Hl Hw Hx Hy]. eexists _, _. split; [done|]. split; try done. cbn. by rewrite set_color_value.
Qed.
Lemma acts_clear : acts clear t_clear.
Proof.
  intros t v w Hs. destruct (clear_shows v w) as (v' & E & Hd); [exact (sh_cells _ _ Hs)|].
  exists v', (vga_update_cursor v' w). split; [done|]. unfold t_clear. by destruct Hs as [_ _ <- _ _ _ _ _].
Qed.

End output.
Arguments out W : clear implicits.
Arguments outputs_lit {W _} _%_string_scope _.

End Output.

Notation "m ;; k" := (Output.then_out m k) (at level 100, k at level 200, right associativity).
