(* ===== verification/Idt.v ===== *)
(** * Idt: interrupt descriptors, the PIC and dispatch (kernel/idt.c)

    A handler is a value of [F], the function pointers, that [call] runs on
    the rest of the kernel's state [K] and the hardware [W].  The addresses
    of the assembly stubs ([isr], [irq]) and of the table are parameters. *)
From S2P Require Import Prelude CString Ports Vga.
Import Vga.

Module Idt.

Definition PIC1_CMD : Z := 0x20.
Definition PIC1_DATA : Z := 0x21.
Definition PIC2_CMD : Z := 0xA0.
Definition PIC2_DATA : Z := 0xA1.
Definition VGA_COLOR_WHITE : Z := 15.

(** What the assembly stubs push. *)
Record regs := {
  gs : Z; fs : Z; es : Z; ds : Z;
  edi : Z; esi : Z; ebp : Z; esp_dummy : Z; ebx : Z; edx : Z; ecx : Z; eax : Z;
  int_no : Z; err_code : Z;
  eip : Z; cs : Z; eflags : Z; useresp : Z; ss : Z;
}.

Record idt_entry := { base_lo : Z; sel : Z; always0 : Z; flags : Z; base_hi : Z }.

(** The statics; [idtr] is the register [lidt] loads, (limit, base). *)
Record idt_state (F : Type) := {
  idt : list idt_entry;
  idtp : Z * Z;
  interrupt_handlers : list (option F);
  idtr : Z * Z;
}.
Arguments idt {F}. Arguments idtp {F}. Arguments interrupt_handlers {F}. Arguments idtr {F}.

Definition zero_entry : idt_entry := {| base_lo := 0; sel := 0; always0 := 0; flags := 0; base_hi := 0 |}.

Section idt.
Context {F : Type}.
Implicit Types s : idt_state F.

Definition set_idt (l : list idt_entry) s : idt_state F :=
  {| idt := l; idtp := idtp s; interrupt_handlers := interrupt_handlers s; idtr := idtr s |}.

Definition idt_set_gate (num base selector flg : Z) s : option (idt_state F) :=
  l ← zset (idt s) (u8 num)
        {| base_lo := u16 (Z.land base 0xFFFF); sel := u16 selector; always0 := 0; flags := u8 flg;
           base_hi := u16 (Z.land (Z.shiftr base 16) 0xFFFF) |};
  Some (set_idt l s).

Definition register_interrupt_handler (n : Z) (handler : option F) s : option (idt_state F) :=
  l ← zset (interrupt_handlers s) (u8 n) handler;
  Some {| idt := idt s; idtp := idtp s; interrupt_handlers := l; idtr := idtr s |}.

Context {W : Type} `{Ports W}.

Definition pic_remap (w : W) : W :=
  let w := outb PIC1_CMD 0x11 w in
  let w := outb PIC2_CMD 0x11 w in
  let w := outb PIC1_DATA 0x20 w in
  let w := outb PIC2_DATA 0x28 w in
  let w := outb PIC1_DATA 0x04 w in
  let w := outb PIC2_DATA 0x02 w in
  let w := outb PIC1_DATA 0x01 w in
  let w := outb PIC2_DATA 0x01 w in
  let w := outb PIC1_DATA 0xFB w in
  outb PIC2_DATA 0xFF w.

(** [1 << irq] is an [int]. *)
Definition enable_irq (irq : Z) (w : W) : option W :=
  let '(port, irq) := if irq <? 8 then (PIC1_DATA, irq) else (PIC2_DATA, u8 (irq - 8)) in
  if 31 <=? irq then UB
  else
    let '(v, w) := inb port w in
    Some (outb port (u8 (Z.land v (Z.lnot (Z.shiftl 1 irq)))) w).

(** The addresses of the stubs and of [idt]. *)
Context (isr irq : nat → Z) (idt_addr : Z).

Definition set_gates (first : Z) (stub : nat → Z) (n : nat) s : option (idt_state F) :=
  for_loop n 0 (λ i, idt_set_gate (first + i) (stub (Z.to_nat i)) 0x08 0x8E) s.

Definition idt_init s (w : W) : option (idt_state F * W) :=
  let p := (8 * 256 - 1, idt_addr) in
  let s := {| idt := replicate 256 zero_entry; idtp := p; interrupt_handlers := interrupt_handlers s; idtr := idtr s |} in
  let w := pic_remap w in
  s ← set_gates 0 isr 32 s;
  s ← set_gates 32 irq 16 s;
  Some ({| idt := idt s; idtp := idtp s; interrupt_handlers := interrupt_handlers s; idtr := idtp s |}, w).

(** [buf] is what the local array of 16 bytes holds; the processor halts at
    the end. *)
Definition fault_handler (buf : list Z) (r : regs) (v : vga_state) (w : W) : option (vga_state * W) :=
  let v := vga_set_color VGA_COLOR_WHITE VGA_COLOR_RED v in
  '(v, w) ← vga_print (lit "
*** CPU EXCEPTION: ") v w;
  buf ← itoa (s32 (int_no r)) buf 10;
  '(v, w) ← vga_print buf v w;
  vga_print (lit " ***
") v w.

Context {K : Type} (call : F → regs → K → W → option (K * W)).

Definition irq_handler s (r : regs) (k : K) (w : W) : option (K * W) :=
  let w := if 40 <=? int_no r then outb PIC2_CMD 0x20 w else w in
  let w := outb PIC1_CMD 0x20 w in
  h ← (interrupt_handlers s).[int_no r];
  match h with
  | Some f => call f r k w
  | None => Some (k, w)
  end.
End idt.

(** ** Gates *)

(** The address, selector and flags a gate stands for. *)
Definition gate (e : idt_entry) : Z * Z * Z := (65536 * base_hi e + base_lo e, sel e, flags e).

Definition gate_at {F} (s : idt_state F) (i : Z) : option (Z * Z * Z) := gate <$> (idt s).[i].

Section gates.
Context {F : Type}.
Implicit Types s : idt_state F.

Lemma set_gate_spec num base s :
  zlen (idt s) = 256 → 0 <= num < 256 →
  ∃ s', idt_set_gate num base 0x08 0x8E s = Some s' ∧ zlen (idt s') = 256 ∧
    (idtp s' = idtp s ∧ interrupt_handlers s' = interrupt_handlers s ∧ idtr s' = idtr s) ∧
    ∀ i, gate_at s' i = if i =? num then Some (u32 base, 0x08, 0x8E) else gate_at s i.
Proof.
  intros Hl Hn. unfold idt_set_gate. rewrite u8_id by done.
  destruct (zset (idt s) num _) as [l|] eqn:E; [|by rewrite zset_in in E by lia].
  cbn [mbind option_bind]. eexists. split; [done|]. split; [|split; [done|]].
  - cbn. unfold zlen in *. by rewrite (zset_length _ _ _ _ E).
  - intros i. unfold gate_at. cbn [idt set_idt]. destruct (Z.eqb_spec i num) as [->|Hne].
    + rewrite (zget_zset_eq _ _ _ _ E). cbn [fmap option_fmap option_map]. do 2 f_equal. unfold gate.
      cbn [base_hi base_lo sel flags]. change 0xFFFF with (Z.ones 16). rewrite !Z.land_ones, Z.shiftr_div_pow2 by lia.
      change (2 ^ 16) with 65536. f_equal. f_equal. unfold u16, u32. rewrite !Z.mod_mod by lia.
      change 4294967296 with (65536 * 65536). rewrite Z.rem_mul_r by lia. lia.
    + by rewrite (zget_zset_ne _ _ _ _ _ (not_eq_sym Hne) E).
Qed.

Lemma set_gates_spec first stub n s :
  zlen (idt s) = 256 → 0 <= first → first + Z.of_nat n <= 256 →
  ∃ s', set_gates first stub n s = Some s' ∧ zlen (idt s') = 256 ∧
    (idtp s' = idtp s ∧ interrupt_handlers s' = interrupt_handlers s ∧ idtr s' = idtr s) ∧
    ∀ i, gate_at s' i = if (first <=? i) && (i <? first + Z.of_nat n)
                        then Some (u32 (stub (Z.to_nat (i - first))), 0x08, 0x8E) else gate_at s i.
Proof.
  intros Hl Hf Hn. unfold set_gates.
  destruct (for_loop_inv (λ j t, zlen (idt t) = 256 ∧
    (idtp t = idtp s ∧ interrupt_handlers t = interrupt_handlers s ∧ idtr t = idtr s) ∧
    ∀ i, gate_at t i = if (first <=? i) && (i <? first + j)
                       then Some (u32 (stub (Z.to_nat (i - first))), 0x08, 0x8E) else gate_at s i)
    n 0 (λ i, idt_set_gate (first + i) (stub (Z.to_nat i)) 0x08 0x8E) s) as (s' & E & Hs').
  - split; [done|]. split; [done|]. intros i.
    by replace ((first <=? i) && (i <? first + 0)) with false by (symmetry; apply andb_false_iff; lia).
  - intros j t Hj (Ht & Hkeep & Hg).
    destruct (set_gate_spec (first + j) (stub (Z.to_nat j)) t Ht ltac:(lia)) as (t' & E & Ht' & Hk' & Hg').
    exists t'. split; [done|]. split; [done|]. destruct Hk' as (-> & -> & ->). split; [exact Hkeep|]. intros i. rewrite Hg', Hg.
    destruct (Z.eqb_spec i (first + j)) as [->|].
    + replace (first + j - first) with j by lia.
      by replace ((first <=? first + j) && (first + j <? first + (j + 1))) with true by (symmetry; apply andb_true_iff; lia).
    + replace (i <? first + (j + 1)) with (i <? first + j); [done|].
      destruct (Z.ltb_spec i (first + j)), (Z.ltb_spec i (first + (j + 1))); lia.
  - exists s'. split; [done|]. rewrite Z.add_0_l in Hs'. exact Hs'.
Qed.

(** The interrupt table after [idt_init], whatever was in it before:
    vectors 0 to 31 lead to the exception stubs, 32 to 47 to the IRQ stubs,
    each through the kernel code segment as a present ring 0 interrupt gate,
    and every other vector - also the vector 0x80 of the system calls - is
    empty; the processor's table register points at all 256 entries, and the
    registered handlers are kept. *)
Theorem idt_init_gates {W : Type} `{Ports W} (isr irq : nat → Z) (idt_addr : Z) (s : idt_state F) (w : W) :
  ∃ s' w', idt_init isr irq idt_addr s w = Some (s', w') ∧ w' = pic_remap w ∧
    (∀ i, 0 <= i < 256 → gate_at s' i =
       Some (if i <? 32 then (u32 (isr (Z.to_nat i)), 0x08, 0x8E)
             else if i <? 48 then (u32 (irq (Z.to_nat (i - 32))), 0x08, 0x8E)
             else (0, 0, 0))) ∧
    idtr s' = (2047, idt_addr) ∧ interrupt_handlers s' = interrupt_handlers s.
Proof.
  unfold idt_init. set (s0 := {| idt := replicate 256 zero_entry |}).
  destruct (set_gates_spec 0 isr 32 s0) as (s1 & -> & Hl1 & (Hp1 & Hh1 & Hr1) & Hg1); [done|lia|lia|].
  cbn [mbind option_bind].
  destruct (set_gates_spec 32 irq 16 s1) as (s2 & -> & Hl2 & (Hp2 & Hh2 & Hr2) & Hg2); [done|lia|lia|].
  cbn [mbind option_bind]. eexists _, _. split; [done|]. split; [done|]. cbn [idtr interrupt_handlers idt]. split; [|split].
  - intros i Hi. change (gate_at _ i) with (gate_at s2 i). rewrite Hg2, Hg1. unfold gate_at. cbn [idt s0].
    rewrite Z.sub_0_r, !Z.add_0_l.
    assert ((replicate 256 zero_entry).[i] = Some zero_entry) as ->.
    { unfold zget. destruct (Z.ltb_spec i 0); [lia|]. apply lookup_replicate_2. lia. }
    destruct (Z.ltb_spec i 32), (Z.ltb_spec i 48), (Z.leb_spec 32 i), (Z.leb_spec 0 i), (Z.ltb_spec i (32 + Z.of_nat 16)),
      (Z.ltb_spec i (Z.of_nat 32)); try lia; done.
  - by rewrite Hp2, Hp1.
  - by rewrite Hh2, Hh1.
Qed.
End gates.

(** ** Dispatch *)
Section dispatch.
Context {F : Type}.
Implicit Types s : idt_state F.

Fixpoint register_all (rs : list (Z * option F)) (s : idt_state F) : option (idt_state F) :=
  match rs with
  | [] => Some s
  | (n, h) :: rs => s ← register_interrupt_handler n h s; register_all rs s
  end.

(** The last handler registered for vector [i], [h0] when there is none. *)
Definition latest (i : Z) (rs : list (Z * option F)) (h0 : option F) : option F :=
  foldl (λ h r, if u8 r.1 =? i then r.2 else h) h0 rs.

Lemma handler_registered n h s :
  zlen (interrupt_handlers s) = 256 →
  ∃ s', register_interrupt_handler n h s = Some s' ∧ zlen (interrupt_handlers s') = 256 ∧
    ∀ i, (interrupt_handlers s').[i] = if u8 n =? i then Some h else (interrupt_handlers s).[i].
Proof.
  intros Hl. pose proof (u8_range n). unfold register_interrupt_handler.
  destruct (zset (interrupt_handlers s) (u8 n) h) as [l|] eqn:E; [|by rewrite zset_in in E by lia].
  cbn [mbind option_bind]. eexists. split; [done|]. cbn [interrupt_handlers]. split.
  - unfold zlen in *. by rewrite (zset_length _ _ _ _ E).
  - intros i. destruct (Z.eqb_spec (u8 n) i) as [<-|Hne]; [by apply zget_zset_eq in E|by apply (zget_zset_ne _ _ i) in E].
Qed.

Lemma handlers_registered rs s :
  zlen (interrupt_handlers s) = 256 →
  ∃ s', register_all rs s = Some s' ∧ zlen (interrupt_handlers s') = 256 ∧
    ∀ i h0, (interrupt_handlers s).[i] = Some h0 → (interrupt_handlers s').[i] = Some (latest i rs h0).
Proof.
  revert s. induction rs as [|[n h] rs IH]; intros s Hl; [by exists s|]. cbn [register_all].
  destruct (handler_registered n h s Hl) as (s1 & -> & Hl1 & Hh1). cbn [mbind option_bind].
  destruct (IH s1 Hl1) as (s' & -> & Hl' & Hh'). exists s'. split; [done|]. split; [done|]. intros i h0 Hi.
  apply Hh'. rewrite Hh1. cbn [fst snd]. by destruct (u8 n =? i).
Qed.

Context {W : Type} `{Ports W} (log : W → list (Z * Z)) `{!PortLog W log}.

(** The end-of-interrupt commands for a vector. *)
Definition eoi (n : Z) : list (Z * Z) := if 40 <=? n then [(PIC2_CMD, 0x20); (PIC1_CMD, 0x20)] else [(PIC1_CMD, 0x20)].

(** C21. Dispatch of a hardware interrupt: whatever has been registered since
    the table was empty, the interrupt of vector [n] acknowledges the second
    PIC (for the vectors from 40) and the first one, and then runs the
    handler registered last for [n], once, or nothing when there is none;
    later registrations for other vectors make no difference. *)
Theorem irq_dispatch {K : Type} (call : F → regs → K → W → option (K * W)) (rs : list (Z * option F)) (s : idt_state F)
    (r : regs) (k : K) (w : W) :
  interrupt_handlers s = replicate 256 None → 0 <= int_no r < 256 →
  ∃ s' w1, register_all rs s = Some s' ∧ log w1 = log w ++ eoi (int_no r) ∧
    irq_handler call s' r k w = match latest (int_no r) rs None with
                                | Some f => call f r k w1
                                | None => Some (k, w1)
                                end.
Proof.
  intros Hs Hn. destruct (handlers_registered rs s) as (s' & E & _ & Hh); [by rewrite Hs|].
  assert ((interrupt_handlers s).[int_no r] = Some None) as Hnone.
  { rewrite Hs. unfold zget. destruct (Z.ltb_spec (int_no r) 0); [lia|]. apply lookup_replicate_2. lia. }
  eexists s', _. split; [exact E|]. unfold irq_handler. rewrite (Hh _ _ Hnone). cbn [mbind option_bind].
  split; [|reflexivity].
  unfold eoi. destruct (40 <=? int_no r); rewrite !log_outb, <- ?app_assoc; done.
Qed.
End dispatch.

Definition regs_of (n : Z) : regs :=
  {| gs := 0; fs := 0; es := 0; ds := 0; edi := 0; esi := 0; ebp := 0; esp_dummy := 0; ebx := 0; edx := 0; ecx := 0; eax := 0;
     int_no := n; err_code := 0; eip := 0; cs := 0; eflags := 0; useresp := 0; ss := 0 |}.
Definition empty_idt (F : Type) : idt_state F :=
  {| idt := replicate 256 zero_entry; idtp := (0, 0); interrupt_handlers := replicate 256 None; idtr := (0, 0) |}.

Lemma irq_dispatch_witness :
  let rs := [(33, Some 5); (40, Some 7); (33, Some 9)] in
  let call (f : Z) (r : regs) (k : list Z) (w : machine) := Some (k ++ [f], w) in
  ∃ s' w1, register_all rs (empty_idt Z) = Some s' ∧ writes w1 = [] ++ eoi 33 ∧
    irq_handler call s' (regs_of 33) [] (constant_machine 0) =
      match latest 33 rs None with Some f => call f (regs_of 33) [] w1 | None => Some ([], w1) end.
Proof.
  apply (irq_dispatch writes (λ f r k w, Some (k ++ [f], w)) [(33, Some 5); (40, Some 7); (33, Some 9)] (empty_idt Z) (regs_of 33) []
    (constant_machine 0)); [reflexivity|cbn; lia].
Defined.

(** ** The interrupt controllers

    One controller, as the sequence of writes to its two ports drives it: a
    command with bit 4 set starts the initialisation, the next three data
    writes are the vector offset, the cascade and the mode, and every later
    data write is the interrupt mask. *)
Record pic := { pic_expects : nat; pic_offset : Z; pic_mask : Z }.
Definition pic_write (cmd data : Z) (p : pic) (wr : Z * Z) : pic :=
  let '(port, v) := wr in
  if port =? cmd then if Z.testbit v 4 then {| pic_expects := 3; pic_offset := pic_offset p; pic_mask := 0 |} else p
  else if port =? data then
    match pic_expects p with
    | O => {| pic_expects := 0; pic_offset := pic_offset p; pic_mask := v |}
    | S n => {| pic_expects := n; pic_offset := if bool_decide (n = 2%nat) then v else pic_offset p; pic_mask := pic_mask p |}
    end
  else p.
Definition pic_run (cmd data : Z) (l : list (Z * Z)) : pic :=
  foldl (pic_write cmd data) {| pic_expects := 0; pic_offset := 0; pic_mask := 0 |} l.
Definition pic1 (l : list (Z * Z)) : pic := pic_run PIC1_CMD PIC1_DATA l.
Definition pic2 (l : list (Z * Z)) : pic := pic_run PIC2_CMD PIC2_DATA l.

(** The data ports read back the masks. *)
Class PicReads (W : Type) `{Ports W} (log : W → list (Z * Z)) := {
  pic1_read w : (inb PIC1_DATA w).1 = pic_mask (pic1 (log w));
  pic2_read w : (inb PIC2_DATA w).1 = pic_mask (pic2 (log w));
}.

(** Line [n] of the 16 can interrupt, and arrives at vector [v]. *)
Definition line_open (l : list (Z * Z)) (n v : Z) : Prop :=
  if n <? 8 then Z.testbit (pic_mask (pic1 l)) n = false ∧ pic_offset (pic1 l) + n = v
  else Z.testbit (pic_mask (pic2 l)) (n - 8) = false ∧ pic_offset (pic2 l) + (n - 8) = v.

Section pics.
Context {W : Type} `{Ports W} (log : W → list (Z * Z)) `{!PortLog W log} `{!PicReads W log}.

Fixpoint enable_irqs (irqs : list Z) (w : W) : option W :=
  match irqs with
  | [] => Some w
  | irq :: irqs => w ← enable_irq irq w; enable_irqs irqs w
  end.

(** Both controllers are set up, with these masks. *)
Definition masks (w : W) (m1 m2 : Z) : Prop :=
  pic1 (log w) = {| pic_expects := 0; pic_offset := 0x20; pic_mask := m1 |} ∧
  pic2 (log w) = {| pic_expects := 0; pic_offset := 0x28; pic_mask := m2 |}.

Lemma pic_run_app cmd data a b : pic_run cmd data (a ++ b) = foldl (pic_write cmd data) (pic_run cmd data a) b.
Proof. apply foldl_app. Qed.

Lemma remap_masks w : masks (pic_remap w) 0xFB 0xFF.
Proof.
  unfold masks, pic_remap. rewrite !log_outb, <- !app_assoc. unfold pic1, pic2. rewrite !pic_run_app. cbn [app].
  split; [destruct (pic_run PIC1_CMD PIC1_DATA (log w)) as [e o m]|destruct (pic_run PIC2_CMD PIC2_DATA (log w)) as [e o m]];
    reflexivity.
Qed.

Definition clear_bit (m n : Z) : Z := u8 (Z.land m (Z.lnot (Z.shiftl 1 n))).

Lemma clear_bit_spec m n j :
  0 <= n < 8 → 0 <= j < 8 → Z.testbit (clear_bit m n) j = Z.testbit m j && negb (j =? n).
Proof.
  intros Hn Hj. unfold clear_bit, u8. change 256 with (2 ^ 8). rewrite Z.mod_pow2_bits_low by lia.
  rewrite Z.land_spec, Z.lnot_spec, Z.shiftl_spec by lia. f_equal. f_equal.
  destruct (Z.eqb_spec j n) as [->|]; [by rewrite Z.sub_diag|].
  destruct (Z.lt_ge_cases j n); [by rewrite Z.testbit_neg_r by lia|].
  apply Z.bits_above_log2; [lia|]. cbn. lia.
Qed.

Lemma enable_irq_masks irq w m1 m2 :
  0 <= irq < 16 → masks w m1 m2 →
  ∃ w', enable_irq irq w = Some w' ∧
    masks w' (if irq <? 8 then clear_bit m1 irq else m1) (if irq <? 8 then m2 else clear_bit m2 (irq - 8)).
Proof.
  intros Hr [H1 H2]. unfold enable_irq. destruct (Z.ltb_spec irq 8).
  - destruct (Z.leb_spec 31 irq); [lia|]. pose proof (pic1_read w) as Hv. pose proof (log_inb PIC1_DATA w) as Hlog.
    destruct (inb PIC1_DATA w) as [v w1]. cbn [fst snd] in *. eexists. split; [done|]. unfold masks. rewrite log_outb, Hlog.
    unfold pic1, pic2 in *. rewrite !pic_run_app, H1, H2. rewrite H1 in Hv. cbn [pic_mask] in Hv. subst v. split; [|done].
    cbn [foldl pic_write]. change (u16 PIC1_DATA) with PIC1_DATA. cbn. unfold clear_bit, u8. by rewrite Z.mod_mod by lia.
  - rewrite u8_id by lia. destruct (Z.leb_spec 31 (irq - 8)); [lia|].
    pose proof (pic2_read w) as Hv. pose proof (log_inb PIC2_DATA w) as Hlog.
    destruct (inb PIC2_DATA w) as [v w1]. cbn [fst snd] in *. eexists. split; [done|]. unfold masks. rewrite log_outb, Hlog.
    unfold pic1, pic2 in *. rewrite !pic_run_app, H1, H2. rewrite H2 in Hv. cbn [pic_mask] in Hv. subst v. split; [done|].
    cbn [foldl pic_write]. change (u16 PIC2_DATA) with PIC2_DATA. cbn. unfold clear_bit, u8. by rewrite Z.mod_mod by lia.
Qed.

Lemma enable_irqs_masks irqs w m1 m2 :
  Forall (λ irq, 0 <= irq < 16) irqs → masks w m1 m2 →
  ∃ w' m1' m2', enable_irqs irqs w = Some w' ∧ masks w' m1' m2' ∧
    (∀ j, 0 <= j < 8 → Z.testbit m1' j = Z.testbit m1 j && bool_decide (j ∉ irqs)) ∧
    (∀ j, 0 <= j < 8 → Z.testbit m2' j = Z.testbit m2 j && bool_decide (j + 8 ∉ irqs)).
Proof.
  intros Hr. revert w m1 m2. induction Hr as [|irq irqs Hirq _ IH]; intros w m1 m2 Hm.
  - exists w, m1, m2. split; [done|]. split; [done|]. split; intros j _; rewrite bool_decide_true by apply not_elem_of_nil;
      by rewrite andb_true_r.
  - cbn [enable_irqs]. destruct (enable_irq_masks irq w m1 m2 Hirq Hm) as (w1 & -> & Hm1). cbn [mbind option_bind].
    destruct (IH _ _ _ Hm1) as (w' & m1' & m2' & -> & Hm' & Hb1 & Hb2). exists w', m1', m2'. split; [done|]. split; [done|].
    assert (∀ i, bool_decide (i ∉ irq :: irqs) = negb (i =? irq) && bool_decide (i ∉ irqs)) as Hcons.
    { intros i. destruct (Z.eqb_spec i irq) as [->|]; cbn; [apply bool_decide_false; set_solver|].
      apply bool_decide_ext. set_solver. }
    split; intros j Hj; [rewrite Hb1 by done|rewrite Hb2 by done]; rewrite Hcons; destruct (Z.ltb_spec irq 8).
    + rewrite clear_bit_spec by lia. by rewrite andb_assoc.
    + by destruct (Z.eqb_spec j irq); [lia|].
    + by destruct (Z.eqb_spec (j + 8) irq); [lia|].
    + rewrite clear_bit_spec by lia. replace (j =? irq - 8) with (j + 8 =? irq); [by rewrite andb_assoc|].
      destruct (Z.eqb_spec (j + 8) irq), (Z.eqb_spec j (irq - 8)); lia.
Qed.

(** C20. The interrupt lines after [pic_remap] and any sequence of [enable_irq]
    calls for lines 0 to 15: both controllers are initialised, line [n] can
    interrupt exactly when it was enabled (or is the cascade, line 2), and it
    then arrives at vector [32 + n], the gate [idt_init] gives the stub
    [irq n]. *)
Theorem irq_lines_open (irqs : list Z) (w : W) :
  Forall (λ irq, 0 <= irq < 16) irqs →
  ∃ w', enable_irqs irqs (pic_remap w) = Some w' ∧
    ∀ n v, 0 <= n < 16 → line_open (log w') n v ↔ (n = 2 ∨ n ∈ irqs) ∧ v = 32 + n.
Proof.
  intros Hr. destruct (enable_irqs_masks irqs _ _ _ Hr (remap_masks w)) as (w' & m1 & m2 & E & [H1 H2] & Hb1 & Hb2).
  exists w'. split; [exact E|]. intros n v Hn. unfold line_open. rewrite H1, H2. cbn [pic_mask pic_offset].
  destruct (Z.ltb_spec n 8).
  - rewrite Hb1 by lia. assert (Z.testbit 0xFB n = negb (n =? 2)) as ->.
    { assert (n = 0 ∨ n = 1 ∨ n = 2 ∨ n = 3 ∨ n = 4 ∨ n = 5 ∨ n = 6 ∨ n = 7) as Hcase by lia.
      destruct Hcase as [->|[->|[->|[->|[->|[->|[->| ->]]]]]]]; reflexivity. }
    rewrite andb_false_iff, negb_false_iff, Z.eqb_eq, bool_decide_eq_false. split; [|intros [? ->]].
    + intros [[?|?%dec_stable] ?]; (split; [auto|lia]).
    + split; [tauto|lia].
  - rewrite Hb2 by lia. assert (Z.testbit 0xFF (n - 8) = true) as ->.
    { change 0xFF with (Z.ones 8). apply Z.ones_spec_low. lia. }
    replace (n - 8 + 8) with n by lia. cbn [andb]. rewrite bool_decide_eq_false. split; [|intros [[->|?] ->]; [lia|]].
    + intros [?%dec_stable ?]. split; [auto|lia].
    + split; [tauto|lia].
Qed.
End pics.

(** Two controllers that read back their masks, every other port reading 0. *)
Definition pic_ports : Ports (list (Z * Z)) := {|
  inb port l := (if port =? PIC1_DATA then pic_mask (pic1 l) else if port =? PIC2_DATA then pic_mask (pic2 l) else 0, l);
  outb port v l := l ++ [(u16 port, u8 v)];
  inw port l := (0, l);
  outw port v l := l;
  inl port l := (0, l);
  outl port v l := l;
|}.
Lemma pic_ports_log : @PortLog _ pic_ports id.
Proof. split; done. Qed.
Lemma pic_ports_reads : @PicReads _ pic_ports id.
Proof. split; done. Qed.

Lemma irq_lines_open_witness :
  ∃ w', @enable_irqs _ pic_ports [0; 1; 12] (@pic_remap _ pic_ports []) = Some w' ∧
    ∀ n v, 0 <= n < 16 → line_open w' n v ↔ (n = 2 ∨ n ∈ [0; 1; 12]) ∧ v = 32 + n.
Proof.
  apply (@irq_lines_open _ pic_ports id pic_ports_log pic_ports_reads [0; 1; 12] []).
  repeat (constructor; [lia|]). constructor.
Defined.

End Idt.
