(* ===== verification/Network.v ===== *)
(** * Network: the packet buffer and interface of kernel/network.c

    [network_state] holds the file's static variables.  A pointer argument
    is [None] for NULL, and [Some] of the object it points to otherwise. *)
From S2P Require Import Prelude CString Ring.

Module Network.

Definition NET_BUFFER_SIZE : Z := 1514.
Definition MAX_PACKETS : nat := 32.
#[global] Arguments MAX_PACKETS : simpl never.

Record network_interface := {
  mac : list Z;
  ip : Z;
  netmask : Z;
  gateway : Z;
  active : Z;
}.

Record network_packet := {
  pkt_data : list Z;
  pkt_length : Z;
  pkt_type : Z;
  pkt_src_ip : Z;
  pkt_dst_ip : Z;
}.

Record network_state := {
  netif : network_interface;
  packet_buffer : list network_packet;
  packet_head : nat;
  packet_tail : nat;
  packet_count : nat;
}.

Definition zero_packet : network_packet :=
  {| pkt_data := replicate (Z.to_nat NET_BUFFER_SIZE) 0; pkt_length := 0; pkt_type := 0;
     pkt_src_ip := 0; pkt_dst_ip := 0 |}.

(** The zeroed statics *)
Definition network_bss : network_state :=
  {| netif := {| mac := replicate 6 0; ip := 0; netmask := 0; gateway := 0; active := 0 |};
     packet_buffer := replicate MAX_PACKETS zero_packet;
     packet_head := 0; packet_tail := 0; packet_count := 0 |}.

Definition network_init : network_state :=
  {| netif := {| mac := [0x52; 0x54; 0x00; 0x12; 0x34; 0x56];
                 ip := 0xC0A80164; netmask := 0xFFFFFF00; gateway := 0xC0A80101; active := 1 |};
     packet_buffer := replicate MAX_PACKETS zero_packet;
     packet_head := 0; packet_tail := 0; packet_count := 0 |}.

(** The fields assigned in the slot at [packet_tail], then the payload copy. *)
Definition fill_packet (slot : network_packet) (src dst type : Z) (data : option (list Z))
    (length : Z) : option network_packet :=
  d ← (match data with
       | Some buf => if 0 <? length then memcpy (pkt_data slot) buf (Z.to_nat length) else Some (pkt_data slot)
       | None => Some (pkt_data slot)
       end);
  Some {| pkt_data := d; pkt_length := length; pkt_type := type; pkt_src_ip := src; pkt_dst_ip := dst |}.

Definition network_send_packet (dst_ip type : Z) (data : option (list Z)) (length : Z)
    (s : network_state) : option (Z * network_state) :=
  if (active (netif s) =? 0) || (NET_BUFFER_SIZE <? length)
     || ((0 <? length) && bool_decide (data = None))
  then Some (-1, s)
  else if bool_decide (packet_count s < MAX_PACKETS)%nat then
    slot ← packet_buffer s !! packet_tail s;
    packet ← fill_packet slot (ip (netif s)) dst_ip type data length;
    Some (0, {| netif := netif s;
                packet_buffer := <[packet_tail s := packet]> (packet_buffer s);
                packet_head := packet_head s;
                packet_tail := (packet_tail s + 1) mod MAX_PACKETS;
                packet_count := packet_count s + 1 |})
  else Some (-1, s).

(** The packet written through the output pointer is returned beside the
    status; [out] says whether the pointer is non-NULL. *)
Definition network_receive_packet (out : bool) (s : network_state)
    : option (Z * option network_packet * network_state) :=
  if bool_decide (packet_count s = 0%nat) || negb out then Some (-1, None, s)
  else
    src_packet ← packet_buffer s !! packet_head s;
    Some (0, Some src_packet,
          {| netif := netif s;
             packet_buffer := packet_buffer s;
             packet_head := (packet_head s + 1) mod MAX_PACKETS;
             packet_tail := packet_tail s;
             packet_count := packet_count s - 1 |}).

Definition set_netif (n : network_interface) (s : network_state) : network_state :=
  {| netif := n; packet_buffer := packet_buffer s; packet_head := packet_head s;
     packet_tail := packet_tail s; packet_count := packet_count s |}.

Definition network_set_ip (new_ip : Z) (s : network_state) : option (Z * network_state) :=
  let n := netif s in
  Some (0, set_netif {| mac := mac n; ip := new_ip; netmask := netmask n; gateway := gateway n;
                        active := active n |} s).

Definition network_set_mac (new_mac : option (list Z)) (s : network_state)
    : option (Z * network_state) :=
  match new_mac with
  | Some m =>
      let n := netif s in
      m' ← memcpy (mac n) m 6;
      Some (0, set_netif {| mac := m'; ip := ip n; netmask := netmask n; gateway := gateway n;
                            active := active n |} s)
  | None => Some (-1, s)
  end.

(** ** What a client sees of a packet *)
Record message := { msg_dst : Z; msg_type : Z; msg_payload : list Z }.

Definition message_of (p : network_packet) : message :=
  {| msg_dst := pkt_dst_ip p; msg_type := pkt_type p;
     msg_payload := take (Z.to_nat (pkt_length p)) (pkt_data p) |}.

(** The invariant of the packet buffer. *)
Definition packet_ok (p : network_packet) : Prop := zlen (pkt_data p) = NET_BUFFER_SIZE.

Record packets_ok (s : network_state) : Prop := {
  ok_len : length (packet_buffer s) = MAX_PACKETS;
  ok_head : (packet_head s < MAX_PACKETS)%nat;
  ok_count : (packet_count s ≤ MAX_PACKETS)%nat;
  ok_tail : packet_tail s = ((packet_head s + packet_count s) mod MAX_PACKETS)%nat;
  ok_packets : Forall packet_ok (packet_buffer s);
}.

(** The same once [network_init] has brought the interface up *)
Record network_ok (s : network_state) : Prop := {
  ok_buffer : packets_ok s;
  ok_active : active (netif s) ≠ 0;
}.

Definition queue (s : network_state) : list message :=
  message_of <$> ring_view MAX_PACKETS (packet_buffer s) (packet_head s) (packet_count s).

Lemma network_init_ok : network_ok network_init.
Proof.
  split; [|done]. split; [done|vm_compute; lia|vm_compute; lia|done|by apply Forall_replicate].
Qed.

Lemma network_bss_ok : packets_ok network_bss.
Proof. destruct (ok_buffer _ network_init_ok). by split. Qed.

(** Nothing is sent before [network_init]. *)
Lemma network_bss_sends_nothing dst type data len : network_send_packet dst type data len network_bss = Some (-1, network_bss).
Proof. done. Qed.

Lemma queue_length s : packets_ok s → length (queue s) = packet_count s.
Proof. intros [Hl Hh _ _ _]. unfold queue. rewrite length_fmap. by apply ring_view_length. Qed.

Lemma fill_packet_spec slot src dst type buf :
  packet_ok slot → zlen buf <= NET_BUFFER_SIZE →
  ∃ p, fill_packet slot src dst type (Some buf) (zlen buf) = Some p ∧ packet_ok p ∧
    pkt_src_ip p = src ∧
    message_of p = {| msg_dst := dst; msg_type := type; msg_payload := buf |}.
Proof.
  unfold packet_ok. intros Hslot Hbuf. unfold fill_packet, message_of.
  destruct (Z.ltb_spec 0 (zlen buf)) as [Hpos|Hzero].
  - rewrite memcpy_spec by (unfold zlen in *; lia). simpl. eexists. split; [done|]. simpl.
    assert (Z.to_nat (zlen buf) = length buf) as -> by (unfold zlen; lia).
    split_and!; [|done|].
    + unfold zlen in *. rewrite length_app, length_take, length_drop. lia.
    + f_equal. rewrite take_app_le by (rewrite length_take; lia). by rewrite take_take, Nat.min_id, firstn_all.
  - destruct buf; [|unfold zlen in *; simpl in *; lia]. simpl. eexists. split; [done|]. done.
Qed.

Lemma network_send_spec x s :
  network_ok s → zlen (msg_payload x) <= NET_BUFFER_SIZE →
  ∃ s', network_send_packet (msg_dst x) (msg_type x) (Some (msg_payload x)) (zlen (msg_payload x)) s
      = Some (if bool_decide (length (queue s) < MAX_PACKETS)%nat then 0 else -1, s') ∧
    network_ok s' ∧
    queue s' = if bool_decide (length (queue s) < MAX_PACKETS)%nat then queue s ++ [x] else queue s.
Proof.
  intros Hok Hx. rewrite queue_length by apply Hok. unfold network_send_packet.
  pose proof Hok as [[Hl Hh Hc Ht Hp] Ha].
  destruct (Z.eqb_spec (active (netif s)) 0) as [|_]; [done|].
  destruct (Z.ltb_spec NET_BUFFER_SIZE (zlen (msg_payload x))) as [|_]; [lia|].
  rewrite (bool_decide_eq_false_2 (Some _ = None)) by done. rewrite andb_false_r. cbn [orb].
  case_bool_decide as Hroom; [|by exists s].
  destruct (lookup_lt_is_Some_2 (packet_buffer s) (packet_tail s)) as [slot Hslot].
  { rewrite Hl, Ht. apply mod_lt. lia. }
  rewrite Hslot. cbn [mbind option_bind].
  assert (packet_ok slot) as Hslotok by by eapply Forall_lookup_1.
  destruct (fill_packet_spec slot (ip (netif s)) (msg_dst x) (msg_type x) (msg_payload x) Hslotok Hx)
    as (p & -> & Hpok & _ & Hmsg). cbn [mbind option_bind].
  eexists. split; [done|]. split.
  - split; [|done]. split; simpl; try done; try lia.
    + by rewrite length_insert.
    + rewrite Ht, Nat.Div0.add_mod_idemp_l. f_equal. lia.
    + by apply Forall_insert.
  - unfold queue. simpl. rewrite Nat.add_1_r, Ht, ring_view_push by done.
    rewrite fmap_app. simpl. rewrite Hmsg. by destruct x.
Qed.

(** Any call keeps the invariant, whatever it is asked to send. *)
Lemma network_send_ok dst type data len s :
  packets_ok s → (∀ b, data = Some b → len <= zlen b) →
  ∃ r s', network_send_packet dst type data len s = Some (r, s') ∧ packets_ok s'.
Proof.
  intros Hok Hdata. unfold network_send_packet. pose proof Hok as [Hl Hh Hc Ht Hp].
  destruct ((_ || _) || _) eqn:Eguard; [by eexists _, s|]. apply orb_false_iff in Eguard as [[_ Hlen%Z.ltb_ge]%orb_false_iff _].
  case_bool_decide as Hroom; [|by eexists _, s].
  destruct (lookup_lt_is_Some_2 (packet_buffer s) (packet_tail s)) as [slot Hslot].
  { rewrite Hl, Ht. apply mod_lt. lia. }
  rewrite Hslot. cbn [mbind option_bind].
  assert (packet_ok slot) as Hslotok by by eapply Forall_lookup_1.
  assert (∃ p, fill_packet slot (ip (netif s)) dst type data len = Some p ∧ packet_ok p) as (p & -> & Hpok).
  { unfold fill_packet, packet_ok in *. destruct data as [b|]; [|by eexists]. specialize (Hdata b eq_refl).
    destruct (Z.ltb_spec 0 len); [|by eexists].
    rewrite memcpy_spec by (unfold zlen in *; lia). cbn [mbind option_bind]. eexists. split; [done|]. cbn [pkt_data].
    unfold zlen in *. rewrite length_app, length_take, length_drop. lia. }
  cbn [mbind option_bind]. eexists _, _. split; [done|]. split; simpl; try done; try lia.
  - by rewrite length_insert.
  - rewrite Ht, Nat.Div0.add_mod_idemp_l. f_equal. lia.
  - by apply Forall_insert.
Qed.

Lemma network_receive_spec s :
  packets_ok s →
  ∃ r p s', network_receive_packet true s = Some (r, p, s') ∧ packets_ok s' ∧ netif s' = netif s ∧
    message_of <$> p = head (queue s) ∧ queue s' = tail (queue s) ∧
    (r = 0 ↔ queue s ≠ []).
Proof.
  intros Hok. pose proof Hok as [Hl Hh Hc Ht Hp].
  unfold network_receive_packet.
  destruct (packet_count s) as [|c] eqn:Hcount; simpl.
  - assert (queue s = []) as E by (unfold queue; by rewrite Hcount).
    eexists _, _, s. split; [done|]. rewrite E. by split_and!.
  - destruct (ring_view_pop _ _ _ c Hl Hh) as (p & Hp0 & Hview). rewrite Hp0. simpl.
    assert (queue s = message_of p :: (message_of <$>
      ring_view MAX_PACKETS (packet_buffer s) ((packet_head s + 1) mod MAX_PACKETS) c)) as ->
      by (unfold queue; by rewrite Hcount, Hview).
    eexists _, _, _. split; [done|]. split_and!; try done.
    + split; simpl; try done; try lia; [apply mod_lt; lia|].
      rewrite Ht, Nat.sub_0_r. symmetry. apply mod_mod_add. lia.
    + unfold queue. simpl. by rewrite Nat.sub_0_r.
Qed.

(** ** The packet buffer as a bounded FIFO *)
Definition put_message (x : message) (s : network_state) : option (bool * network_state) :=
  '(r, s) ← network_send_packet (msg_dst x) (msg_type x) (Some (msg_payload x))
              (zlen (msg_payload x)) s;
  Some (r =? 0, s).
Definition get_message (s : network_state) : option (option message * network_state) :=
  '(_, p, s) ← network_receive_packet true s;
  Some (option_map message_of p, s).

#[export] Instance network_fifo : Fifo network_state message := {|
  fifo_ok := network_ok;
  fifo_elem x := zlen (msg_payload x) <= NET_BUFFER_SIZE;
  fifo_view := queue;
  fifo_cap := MAX_PACKETS;
  fifo_put := put_message;
  fifo_get := get_message;
|}.

#[export] Instance network_fifo_laws : FifoLaws network_state message.
Proof.
  split.
  - intros x s Hok Hx. destruct (network_send_spec x s Hok Hx) as (s' & E & Hok' & Hq).
    exists s'. cbn. unfold put_message. rewrite E. cbn. split; [|done]. by case_bool_decide.
  - intros s [Hok Ha]. destruct (network_receive_spec s Hok) as (r & p & s' & E & Hok' & Hif & Hhead & Hq & _).
    rewrite <- Hif in Ha. exists s'. cbn. unfold get_message. rewrite E. cbn. by rewrite <- Hhead.
Qed.

(** C12. The packet buffer is a FIFO of at most 32 packets: for every sequence
    of [network_send_packet] calls (payloads of at most 1514 bytes) and
    [network_receive_packet] calls from [network_init], the acceptance of each
    send and the destination, type and payload each receive delivers are those
    of a list bounded by 32, and no access leaves the buffers. *)
Theorem network_refines_fifo (ops : list (fifo_op message)) :
  Forall (op_elem (Q := network_state)) ops →
  ∃ s', impl_run ops network_init = Some ((spec_run 32 ops []).1, s') ∧
    network_ok s' ∧ queue s' = (spec_run 32 ops []).2.
Proof. exact (fifo_refines ops network_init network_init_ok). Qed.

Definition demo_ops : list (fifo_op message) :=
  [Put {| msg_dst := 0xC0A80101; msg_type := 1; msg_payload := [1; 2; 3] |};
   Put {| msg_dst := 0xC0A80102; msg_type := 6; msg_payload := [] |}; Get; Get; Get].

Lemma network_refines_fifo_witness :
  ∃ s', impl_run demo_ops network_init = Some ((spec_run 32 demo_ops []).1, s') ∧
    network_ok s' ∧ queue s' = (spec_run 32 demo_ops []).2.
Proof. apply (network_refines_fifo demo_ops). repeat constructor; vm_compute; discriminate. Defined.

End Network.
