(* ===== verification/Memory.v ===== *)
(** * Memory: physical pages, page tables and the kernel heap (kernel/memory.c)

    The address the linker gives to [kernel_page_table] is the parameter
    [kpt].  Heap pointers are offsets into [heap]; [None] is NULL. *)
From S2P Require Import Prelude Mem Bitmap.

Module Memory.

Definition PAGE_SIZE : Z := 4096.
Definition PAGE_PRESENT : Z := 0x001.
Definition PAGE_WRITE : Z := 0x002.
Definition PAGE_USER : Z := 0x004.
Definition MAX_PAGES : Z := 1024.
Definition HEAP_SIZE : Z := 0x8000.
(** [total_pages] is initialised and never assigned. *)
Definition total_pages : Z := MAX_PAGES.

Record memory_state := {
  page_bitmap : list Z;
  used_pages : Z;
  heap : mem;
  heap_pos : Z;
  kernel_page_directory : list Z;
  kernel_page_table : list Z;
  paging_enabled : bool;
}.

(** The statics before any initialisation. *)
Definition memory_bss : memory_state :=
  {| page_bitmap := replicate 32 0; used_pages := 0; heap := mem_zero; heap_pos := 0;
     kernel_page_directory := replicate 1024 0; kernel_page_table := replicate 1024 0;
     paging_enabled := false |}.

Definition set_pages (bm : list Z) (used : Z) (s : memory_state) : memory_state :=
  {| page_bitmap := bm; used_pages := used; heap := heap s; heap_pos := heap_pos s;
     kernel_page_directory := kernel_page_directory s; kernel_page_table := kernel_page_table s;
     paging_enabled := paging_enabled s |}.
Definition set_heap (h : mem) (pos : Z) (s : memory_state) : memory_state :=
  {| page_bitmap := page_bitmap s; used_pages := used_pages s; heap := h; heap_pos := pos;
     kernel_page_directory := kernel_page_directory s; kernel_page_table := kernel_page_table s;
     paging_enabled := paging_enabled s |}.
Definition set_tables (dir table : list Z) (on : bool) (s : memory_state) : memory_state :=
  {| page_bitmap := page_bitmap s; used_pages := used_pages s; heap := heap s; heap_pos := heap_pos s;
     kernel_page_directory := dir; kernel_page_table := table; paging_enabled := on |}.

(** ** Physical pages *)

Definition heap_init (s : memory_state) : memory_state := set_heap (heap s) 0 s.

(** [for (i = 0; i < n; i++) page_bitmap[i / 32] |= (1 << (i % 32));] *)
Fixpoint mark_pages (bm : list Z) (ps : list Z) : option (list Z) :=
  match ps with
  | [] => Some bm
  | i :: ps => bm ← bm_set bm i; mark_pages bm ps
  end.

Definition memory_init (s : memory_state) : option memory_state :=
  bm ← mark_pages (replicate 32 0) (seqZ 0 256);
  Some (heap_init (set_pages bm 256 s)).

Definition alloc_page (s : memory_state) : option (Z * memory_state) :=
  r ← find_loop (λ i, b ← bm_test (page_bitmap s) i; Some (negb b)) (seqZ 0 total_pages);
  match r with
  | Some i =>
      bm ← bm_set (page_bitmap s) (Z.of_nat i);
      Some (Z.of_nat i *u PAGE_SIZE, set_pages bm (used_pages s +u 1) s)
  | None => Some (0, s)
  end.

Definition free_page (page_addr : Z) (s : memory_state) : option memory_state :=
  let page_num := page_addr / PAGE_SIZE in
  if page_num <? total_pages then
    bm ← bm_clear (page_bitmap s) page_num;
    Some (set_pages bm (used_pages s -u 1) s)
  else Some s.

(** [memory_stats] with its three output pointers non-NULL *)
Definition memory_stats (s : memory_state) : Z * Z * Z :=
  (total_pages, used_pages s, total_pages -u used_pages s).

(** ** The kernel heap *)

Definition kmalloc (size : Z) (s : memory_state) : option Z * memory_state :=
  if HEAP_SIZE <? heap_pos s +u size then (None, s)
  else (Some (heap_pos s), set_heap (heap s) (heap_pos s +u Z.land (size +u 3) (~u 3)) s).

Definition kfree (ptr : option Z) (s : memory_state) : memory_state := s.

Definition kmalloc_aligned (size alignment : Z) (s : memory_state) : option Z * memory_state :=
  let aligned_pos := Z.land (u32 (heap_pos s + alignment - 1)) (~u (alignment -u 1)) in
  if HEAP_SIZE <? aligned_pos +u size then (None, s)
  else (Some aligned_pos, set_heap (heap s) (aligned_pos +u size) s).

Definition kcalloc (num size : Z) (s : memory_state) : option (option Z * memory_state) :=
  let total_size := num *u size in
  match kmalloc total_size s with
  | (None, s) => Some (None, s)
  | (Some ptr, s) =>
      h ← mem_fill HEAP_SIZE (heap s) ptr 0 total_size;
      Some (Some ptr, set_heap h (heap_pos s) s)
  end.

Definition heap_stats (s : memory_state) : Z * Z := (HEAP_SIZE, heap_pos s).

(** ** Page tables *)
Section paging.
Context (kpt : Z).

Definition table_entry (i : Z) : Z := Z.lor (Z.lor (i *u PAGE_SIZE) PAGE_PRESENT) PAGE_WRITE.

Definition enable_paging (s : memory_state) : memory_state :=
  set_tables (kernel_page_directory s) (kernel_page_table s) true s.

Definition paging_init (s : memory_state) : option memory_state :=
  let table := table_entry <$> seqZ 0 1024 in
  let entry := Z.lor (Z.lor kpt PAGE_PRESENT) PAGE_WRITE in
  dir ← zset (replicate 1024 0) 0 entry;
  dir ← zset dir 768 entry;
  Some (enable_paging (set_tables dir table (paging_enabled s) s)).

Definition page_dir_index (virt_addr : Z) : Z := Z.shiftr virt_addr 22.
Definition page_table_index (virt_addr : Z) : Z := Z.land (Z.shiftr virt_addr 12) 0x3FF.

(** [(page_table_t* )(kernel_page_directory.entries[i] & ~0xFFF)]: the kernel
    has one page table, so any other address is not an object of the program. *)
Definition page_table_at (virt_addr : Z) (s : memory_state) : option (list Z) :=
  e ← (kernel_page_directory s).[page_dir_index virt_addr];
  if Z.land e (~u 0xFFF) =? kpt then Some (kernel_page_table s) else UB.

Definition set_entry (virt_addr entry : Z) (s : memory_state) : option memory_state :=
  table ← page_table_at virt_addr s;
  table ← zset table (page_table_index virt_addr) entry;
  Some (set_tables (kernel_page_directory s) table (paging_enabled s) s).

Definition map_page (virt_addr phys_addr flags : Z) (s : memory_state) : option memory_state :=
  set_entry virt_addr (Z.lor phys_addr flags) s.

Definition unmap_page (virt_addr : Z) (s : memory_state) : option memory_state :=
  set_entry virt_addr 0 s.

Definition get_phys_addr (virt_addr : Z) (s : memory_state) : option Z :=
  let page_offset := Z.land virt_addr 0xFFF in
  table ← page_table_at virt_addr s;
  e ← table.[page_table_index virt_addr];
  Some (Z.land e (~u 0xFFF) +u page_offset).
End paging.

(** ** Invariant of the page allocator *)
Record pages_ok (s : memory_state) : Prop := {
  ok_bitmap : bm_ok MAX_PAGES (page_bitmap s);
  ok_used : used_pages s = bm_count (page_bitmap s) MAX_PAGES;
  ok_reserved : ∀ p, 0 <= p < 256 → bm_bit (page_bitmap s) p = true;
}.

Definition page_used (s : memory_state) (p : Z) : bool := bm_bit (page_bitmap s) p.

Lemma find_seqZ (q : Z → bool) n (i : nat) :
  find_first q (seqZ 0 n) = Some i →
  Z.of_nat i < n ∧ q (Z.of_nat i) = true ∧ ∀ j, 0 <= j < Z.of_nat i → q j = false.
Proof.
  intros [(x & Hx & Hq) Hbefore]%find_first_Some.
  apply lookup_seqZ in Hx as [-> Hi]. simpl in *. split_and!; [done|done|].
  intros j Hj. apply (Hbefore (Z.to_nat j)); [lia|]. apply lookup_seqZ. lia.
Qed.

Lemma mark_pages_spec n ps bm :
  bm_ok n bm → (∀ i, i ∈ ps → 0 <= i < n) → NoDup ps →
  (∀ i, i ∈ ps → bm_bit bm i = false) →
  ∃ bm', mark_pages bm ps = Some bm' ∧ bm_ok n bm' ∧
    bm_count bm' n = bm_count bm n + zlen ps ∧
    ∀ j, 0 <= j → bm_bit bm' j = bool_decide (j ∈ ps) || bm_bit bm j.
Proof.
  revert bm. induction ps as [|i ps IH]; intros bm Hbm His Hnd Hfree.
  - exists bm. split_and!; try done. unfold zlen. simpl. lia.
  - simpl. apply NoDup_cons in Hnd as [Hi Hnd].
    destruct (bm_set_spec n bm Hbm i) as (bm1 & -> & Hbm1 & Hbits); [by apply His; left|]. simpl.
    destruct (IH bm1) as (bm2 & -> & Hbm2 & Hcount & Hbits2); [done| |done| |].
    + intros k Hk. apply His. by right.
    + intros k Hk. rewrite Hbits by (apply (His k); by right).
      rewrite Hfree by by right. destruct (Z.eqb_spec k i); [by subst|done].
    + exists bm2. split; [done|]. split; [done|]. split.
      * rewrite Hcount. rewrite (bm_count_update bm bm1 i n true).
        -- rewrite Hfree by by left. unfold zlen. simpl. lia.
        -- apply His. by left.
        -- intros j Hj. rewrite Hbits by done. by destruct (j =? i).
      * intros j Hj. rewrite Hbits2, Hbits by done.
        destruct (Z.eqb_spec j i) as [->|Hne].
        -- rewrite (bool_decide_eq_true_2 (i ∈ i :: ps)) by by left. by rewrite orb_true_r.
        -- rewrite (bool_decide_ext (j ∈ i :: ps) (j ∈ ps)); [done|].
           rewrite elem_of_cons. split; [by intros [?|?]|by right].
Qed.

Lemma memory_init_ok s :
  ∃ s', memory_init s = Some s' ∧ pages_ok s' ∧ used_pages s' = 256 ∧ heap_pos s' = 0 ∧
    ∀ p, 0 <= p → page_used s' p = (p <? 256).
Proof.
  unfold memory_init.
  assert (∀ j, bm_bit (replicate 32 0) j = false) as Hz.
  { intros j. unfold bm_bit, zget. destruct (_ <? 0); [done|].
    destruct (replicate 32 0 !! Z.to_nat (j / 32)) as [w|] eqn:E; [|done].
    apply lookup_replicate in E as [-> _]. apply Z.testbit_0_l. }
  destruct (mark_pages_spec MAX_PAGES (seqZ 0 256) (replicate 32 0)) as (bm & -> & Hbm & Hcount & Hbits).
  - split; [done|]. by apply Forall_replicate.
  - intros i Hi%elem_of_seqZ. unfold MAX_PAGES. lia.
  - apply NoDup_seqZ.
  - intros. apply Hz.
  - cbn [mbind option_bind].
    assert (∀ p, 0 <= p → bm_bit bm p = (p <? 256)) as Hb.
    { intros p Hp. rewrite Hbits, Hz, orb_false_r by done.
      rewrite (bool_decide_ext _ (p < 256)) by (rewrite elem_of_seqZ; lia).
      destruct (Z.ltb_spec p 256); [by apply bool_decide_eq_true|by apply bool_decide_eq_false; lia]. }
    eexists. split; [reflexivity|].
    split; [split|]; cbn [page_bitmap used_pages heap_init set_heap set_pages heap_pos].
    + exact Hbm.
    + rewrite Hcount. vm_compute. reflexivity.
    + intros p Hp. rewrite Hb by lia. apply Z.ltb_lt. lia.
    + split; [reflexivity|]. split; [reflexivity|]. exact Hb.
Qed.

(** ** What each page operation does *)

Lemma used_pages_range s : pages_ok s → 256 <= used_pages s <= MAX_PAGES.
Proof.
  intros [Hbm Hu Hres]. rewrite Hu. split; [|by apply bm_count_bounds].
  unfold bm_count. change MAX_PAGES with (256 + 768). rewrite seqZ_app by lia.
  rewrite list.filter_app, filter_bits_all.
  - unfold zlen. rewrite length_app, length_seqZ. lia.
  - intros j Hj%elem_of_seqZ. apply Hres. lia.
Qed.

Lemma free_page_exists s :
  pages_ok s → used_pages s < MAX_PAGES → ∃ p, 0 <= p < MAX_PAGES ∧ page_used s p = false.
Proof.
  intros [Hbm Hu Hres] Hlt.
  destruct (find_first (λ i, negb (page_used s i)) (seqZ 0 MAX_PAGES)) as [i|] eqn:E.
  - apply find_seqZ in E as (Hi & Hq & _). exists (Z.of_nat i). split; [lia|]. by destruct (page_used s _).
  - exfalso. rewrite find_first_None in E.
    assert (bm_count (page_bitmap s) MAX_PAGES = MAX_PAGES); [|lia].
    apply bm_count_full; [done|]. intros p Hp.
    assert (p ∈ seqZ 0 MAX_PAGES) as Hin by (apply elem_of_seqZ; lia).
    specialize (E p Hin). unfold page_used in E. by destruct (bm_bit _ p).
Qed.

Lemma alloc_search s :
  pages_ok s →
  find_loop (λ i, b ← bm_test (page_bitmap s) i; Some (negb b)) (seqZ 0 total_pages) =
    Some (find_first (λ i, negb (page_used s i)) (seqZ 0 total_pages)).
Proof.
  intros [Hbm _ _]. apply find_loop_pure. intros p Hp%elem_of_seqZ.
  rewrite (bm_test_spec MAX_PAGES) by (done || unfold total_pages in *; lia). done.
Qed.

(** Marking one free page used. *)
Lemma take_page_ok s p :
  pages_ok s → 0 <= p < MAX_PAGES → page_used s p = false →
  ∃ bm, bm_set (page_bitmap s) p = Some bm ∧
    let s' := set_pages bm (used_pages s +u 1) s in
    pages_ok s' ∧ used_pages s' = used_pages s + 1 ∧
    ∀ j, 0 <= j → page_used s' j = (j =? p) || page_used s j.
Proof.
  intros Hok Hp Hfree. pose proof Hok as [Hbm Hu Hres].
  pose proof (used_pages_range s Hok). unfold MAX_PAGES in *.
  destruct (bm_set_spec _ _ Hbm p Hp) as (bm & -> & Hbm' & Hbits).
  exists bm. split; [done|]. simpl. rewrite u32_id by lia. split; [split; simpl|]; [done| | |].
  - rewrite (bm_count_update (page_bitmap s) bm p _ true); [|done|].
    + unfold page_used in Hfree. rewrite Hfree. unfold MAX_PAGES. simpl. lia.
    + intros j Hj. rewrite Hbits by done. by destruct (j =? p).
  - intros q Hq. rewrite Hbits, Hres by lia. apply orb_true_r.
  - done.
Qed.

(** Marking one used page free. *)
Lemma drop_page_ok s p :
  pages_ok s → 256 <= p < MAX_PAGES → page_used s p = true →
  ∃ s', free_page (p * PAGE_SIZE) s = Some s' ∧
    pages_ok s' ∧ used_pages s' = used_pages s - 1 ∧
    ∀ j, 0 <= j → page_used s' j = negb (j =? p) && page_used s j.
Proof.
  intros Hok Hp Hused. pose proof Hok as [Hbm Hu Hres].
  pose proof (used_pages_range s Hok). unfold MAX_PAGES in *.
  unfold free_page. rewrite Z.div_mul by done.
  destruct (Z.ltb_spec p total_pages) as [_|]; [|unfold total_pages, MAX_PAGES in *; lia].
  destruct (bm_clear_spec _ _ Hbm p ltac:(lia)) as (bm & -> & Hbm' & Hbits).
  eexists. split; [done|]. simpl. rewrite u32_id by lia. split; [split; simpl|]; [done| | |].
  - rewrite (bm_count_update (page_bitmap s) bm p _ false); [|unfold MAX_PAGES; lia|].
    + unfold page_used in Hused. rewrite Hused. unfold c_bool, MAX_PAGES. lia.
    + intros j Hj. rewrite Hbits by done. by destruct (j =? p).
  - intros q Hq. rewrite Hbits, Hres by lia. destruct (Z.eqb_spec q p); [lia|done].
  - done.
Qed.

Lemma alloc_page_first_fit_aux s :
  pages_ok s →
  ∃ a s', alloc_page s = Some (a, s') ∧ pages_ok s' ∧
    (used_pages s = MAX_PAGES ∧ a = 0 ∧ s' = s ∨
     ∃ p, 256 <= p < MAX_PAGES ∧ a = p * PAGE_SIZE ∧
       page_used s p = false ∧ (∀ q, 0 <= q < p → page_used s q = true) ∧
       used_pages s' = used_pages s + 1 ∧
       ∀ j, 0 <= j → page_used s' j = (j =? p) || page_used s j).
Proof.
  intros Hok. unfold alloc_page. rewrite alloc_search by done. cbn [mbind option_bind].
  destruct (find_first (λ i, negb (page_used s i)) (seqZ 0 total_pages)) as [i|] eqn:E.
  - apply find_seqZ in E as (Hi & Hq & Hbefore). unfold total_pages in Hi.
    apply negb_true_iff in Hq.
    destruct (take_page_ok s (Z.of_nat i) Hok ltac:(lia) Hq) as (bm & Hbm & Hok' & Hu' & Hbits).
    rewrite Hbm. eexists _, _. split; [done|]. split; [done|]. right. exists (Z.of_nat i).
    assert (256 <= Z.of_nat i).
    { destruct (Z.lt_ge_cases (Z.of_nat i) 256); [|done].
      pose proof (ok_reserved s Hok (Z.of_nat i) ltac:(lia)). unfold page_used in Hq. congruence. }
    split; [lia|]. split; [|split; [done|split; [|by split]]].
    + apply u32_id. unfold MAX_PAGES, PAGE_SIZE in *. lia.
    + intros q Hq'. specialize (Hbefore q Hq'). by apply negb_false_iff in Hbefore.
  - eexists _, s. split; [done|]. split; [done|]. left. split_and!; try done.
    pose proof (used_pages_range s Hok).
    destruct (Z.lt_ge_cases (used_pages s) MAX_PAGES) as [Hlt|]; [|lia].
    destruct (free_page_exists s Hok Hlt) as (p & Hp & Hfree).
    rewrite find_first_None in E. specialize (E p). rewrite elem_of_seqZ in E.
    unfold total_pages in E. rewrite Hfree in E. by specialize (E ltac:(lia)).
Qed.

(** [alloc_page] is first fit: while a page is free it returns the address
    of the lowest free page (never one of the 256 reserved pages, so never
    0), marks exactly that page used and counts it; when all 1024 pages are
    used it returns 0 and changes nothing.  The bitmap accesses stay in the
    array and the invariant, with [used_pages] the number of set bits, is
    kept. *)
Theorem alloc_page_first_fit s :
  pages_ok s →
  ∃ a s', alloc_page s = Some (a, s') ∧ pages_ok s' ∧
    (used_pages s = MAX_PAGES ∧ a = 0 ∧ s' = s ∨
     ∃ p, 256 <= p < MAX_PAGES ∧ a = p * PAGE_SIZE ∧
       page_used s p = false ∧ (∀ q, 0 <= q < p → page_used s q = true) ∧
       used_pages s' = used_pages s + 1 ∧
       ∀ j, 0 <= j → page_used s' j = (j =? p) || page_used s j).
Proof. exact (alloc_page_first_fit_aux s). Qed.

(** ** Clients of the page allocator

    A client holds the addresses [alloc_page] gave it and frees only those. *)
Inductive page_op : Type :=
| PageAlloc
| PageFree (k : nat).

(** One client step on the held pages; a failed allocation leaves them. *)
Definition page_step (op : page_op) (st : list Z * memory_state) : option (list Z * memory_state) :=
  let '(held, s) := st in
  match op with
  | PageAlloc => '(a, s) ← alloc_page s; Some (if a =? 0 then held else a :: held, s)
  | PageFree k =>
      match held !! k with
      | Some a => s ← free_page a s; Some (delete k held, s)
      | None => Some (held, s)
      end
  end.

Fixpoint page_run (ops : list page_op) (st : list Z * memory_state) : option (list Z * memory_state) :=
  match ops with
  | [] => Some st
  | op :: ops => st ← page_step op st; page_run ops st
  end.

Definition page_number (a : Z) : Z := a / PAGE_SIZE.

(** The held addresses are exactly the used pages above the reserved ones. *)
Record held_ok (held : list Z) (s : memory_state) : Prop := {
  held_pages : pages_ok s;
  held_nodup : NoDup held;
  held_used : ∀ a, a ∈ held ↔ ∃ p, a = p * PAGE_SIZE ∧ 256 <= p < MAX_PAGES ∧ page_used s p = true;
  held_count : used_pages s = 256 + zlen held;
}.

Lemma page_mul_inj p q : p * PAGE_SIZE = q * PAGE_SIZE → p = q.
Proof. unfold PAGE_SIZE. lia. Qed.

Lemma page_step_ok op held s :
  held_ok held s → ∃ held' s', page_step op (held, s) = Some (held', s') ∧ held_ok held' s'.
Proof.
  intros [Hok Hnd Hheld Hcount]. destruct op as [|k]; simpl.
  - destruct (alloc_page_first_fit_aux s Hok) as (a & s' & -> & Hok' & Hcases). simpl.
    destruct Hcases as [(_ & -> & ->)|(p & Hp & -> & Hfree & _ & Hused & Hbits)].
    + eexists _, _. split; [done|]. by split.
    + destruct (Z.eqb_spec (p * PAGE_SIZE) 0) as [E|_]; [unfold PAGE_SIZE in E; lia|].
      eexists _, _. split; [done|]. split; [done| | |].
      * apply NoDup_cons. split; [|done]. rewrite Hheld.
        intros (q & Hq%page_mul_inj & _ & Hu). subst. congruence.
      * intros a. rewrite elem_of_cons, Hheld. split.
        -- intros [->|(q & -> & Hq & Hu)]; eexists; (split; [done|]); (split; [lia|]); rewrite Hbits by lia.
           ++ by rewrite Z.eqb_refl.
           ++ rewrite Hu. apply orb_true_r.
        -- intros (q & -> & Hq & Hu). rewrite Hbits in Hu by lia. apply orb_true_iff in Hu.
           destruct Hu as [->%Z.eqb_eq|Hu]; [by left|right; eauto].
      * rewrite Hused, Hcount. unfold zlen. simpl. lia.
  - destruct (held !! k) as [a|] eqn:Ha; [|eexists _, _; split; [done|by split]].
    pose proof (list_elem_of_lookup_2 _ _ _ Ha) as Hin.
    apply Hheld in Hin as (p & -> & Hp & Hu).
    destruct (drop_page_ok s p Hok Hp Hu) as (s' & -> & Hok' & Hused & Hbits). simpl.
    eexists _, _. split; [done|].
    pose proof (delete_Permutation _ _ _ Ha) as Hperm. split; [done| | |].
    + rewrite Hperm in Hnd. by apply NoDup_cons in Hnd as [_ ?].
    + assert (p * PAGE_SIZE ∉ delete k held) as Hnotin.
      { rewrite Hperm in Hnd. by apply NoDup_cons in Hnd as [? _]. }
      intros a. split.
      * intros Hin. assert (a ∈ held) as Hin' by (rewrite Hperm; by right).
        apply Hheld in Hin' as (q & -> & Hq & Hu'). exists q. split_and!; [done|lia|lia|].
        rewrite Hbits by lia. destruct (Z.eqb_spec q p) as [->|]; done.
      * intros (q & -> & Hq & Hu'). rewrite Hbits in Hu' by lia.
        destruct (Z.eqb_spec q p) as [|Hne]; [done|].
        assert (q * PAGE_SIZE ∈ held) as Hin by (apply Hheld; eauto).
        rewrite Hperm in Hin. apply elem_of_cons in Hin as [E|]; [|done].
        by apply page_mul_inj in E.
    + rewrite Hused, Hcount. apply Permutation_length in Hperm. unfold zlen. simpl in Hperm. lia.
Qed.

(** The two steps as a client uses them. *)
Lemma alloc_page_held held s :
  held_ok held s →
  ∃ a s', alloc_page s = Some (a, s') ∧
    if zlen held <? (MAX_PAGES - 256) then a ≠ 0 ∧ (a ∉ held) ∧ held_ok (a :: held) s'
    else a = 0 ∧ s' = s.
Proof.
  intros Hheld. destruct (page_step_ok PageAlloc held s Hheld) as (held' & s1 & E & Hheld').
  destruct (alloc_page_first_fit_aux s (held_pages _ _ Hheld)) as (a & s' & Ea & Hok' & Hcases).
  cbn [page_step] in E. rewrite Ea in E. cbn [mbind option_bind] in E. injection E as <- <-.
  exists a, s'. split; [done|]. pose proof (held_count _ _ Hheld) as Hc.
  pose proof (used_pages_range s' Hok').
  destruct Hcases as [(Hfull & -> & ->)|(p & Hp & -> & _ & _ & Hu & _)].
  - destruct (Z.ltb_spec (zlen held) (MAX_PAGES - 256)); [lia|done].
  - destruct (Z.eqb_spec (p * PAGE_SIZE) 0) as [E0|Hne]; [unfold PAGE_SIZE in E0; lia|].
    destruct (Z.ltb_spec (zlen held) (MAX_PAGES - 256)); [|lia]. split; [done|]. split; [|done].
    pose proof (held_nodup _ _ Hheld') as Hnd. by apply NoDup_cons in Hnd as [? _].
Qed.

Lemma free_page_held held s k a :
  held_ok held s → held !! k = Some a →
  ∃ s', free_page a s = Some s' ∧ held_ok (delete k held) s'.
Proof.
  intros Hheld Ha. destruct (page_step_ok (PageFree k) held s Hheld) as (held' & s1 & E & Hheld').
  cbn [page_step] in E. rewrite Ha in E. destruct (free_page a s) as [s'|]; [|done].
  injection E as <- <-. eauto.
Qed.

Lemma page_run_ok ops held s :
  held_ok held s → ∃ held' s', page_run ops (held, s) = Some (held', s') ∧ held_ok held' s'.
Proof.
  revert held s. induction ops as [|op ops IH]; intros held s Hok; [by exists held, s|].
  destruct (page_step_ok op held s Hok) as (held1 & s1 & E & Hok1).
  cbn [page_run]. rewrite E. by apply IH.
Qed.

(** C1. Page ownership: from [memory_init], whatever sequence of
    allocations and frees of pages it holds a client performs, no operation
    leaves the bitmap, and the held addresses are distinct and are exactly the
    used pages outside the reserved first megabyte; [used_pages] counts them.
    So no page is handed out twice without being freed, and a freed page can
    be handed out again. *)
Theorem page_ownership (ops : list page_op) (s0 : memory_state) :
  ∃ s held s', memory_init s0 = Some s ∧ page_run ops ([], s) = Some (held, s') ∧ held_ok held s'.
Proof.
  destruct (memory_init_ok s0) as (s & E & Hok & Hu & _ & Hbits).
  destruct (page_run_ok ops [] s) as (held & s' & E' & Hheld);
    [|exists s, held, s'; exact (conj E (conj E' Hheld))].
  clear E. split; [exact Hok|constructor| |exact Hu].
  intros a. rewrite elem_of_nil. split; [done|]. intros (p & _ & Hp & Hused).
  rewrite Hbits in Hused by lia. apply Z.ltb_lt in Hused. lia.
Qed.

(** [free_page] does not look at the bit it clears: freeing a page that
    is not allocated leaves every bit as it was and still decrements
    [used_pages], which from then on is not the number of used pages. *)
Theorem free_page_unallocated s p :
  pages_ok s → 256 <= p < MAX_PAGES → page_used s p = false →
  ∃ s', free_page (p * PAGE_SIZE) s = Some s' ∧
    (∀ j, 0 <= j → page_used s' j = page_used s j) ∧
    used_pages s' = used_pages s - 1 ∧ ¬ pages_ok s'.
Proof.
  intros Hok Hp Hfree. pose proof Hok as [Hbm Hu Hres].
  pose proof (used_pages_range s Hok). unfold MAX_PAGES in *.
  unfold free_page. rewrite Z.div_mul by done.
  destruct (Z.ltb_spec p total_pages) as [_|]; [|unfold total_pages, MAX_PAGES in *; lia].
  destruct (bm_clear_spec _ _ Hbm p ltac:(lia)) as (bm & -> & Hbm' & Hbits).
  assert (∀ j, 0 <= j → bm_bit bm j = bm_bit (page_bitmap s) j) as Hsame.
  { intros j Hj. rewrite Hbits by done. destruct (Z.eqb_spec j p) as [->|]; [|done].
    unfold page_used in Hfree. by rewrite Hfree. }
  eexists. split; [done|]. cbn [used_pages set_pages]. rewrite u32_id by lia.
  split; [done|]. split; [done|]. intros [_ Hu' _]. cbn [used_pages set_pages page_bitmap] in Hu'.
  unfold bm_count in Hu, Hu'. rewrite (filter_bits_ext (page_bitmap s) bm) in Hu'; [unfold MAX_PAGES in *; lia|].
  intros j Hj%elem_of_seqZ. apply Hsame. lia.
Qed.

Lemma free_page_unallocated_witness :
  ∃ s, memory_init memory_bss = Some s ∧ ∃ s', free_page (300 * PAGE_SIZE) s = Some s' ∧
    (∀ j, 0 <= j → page_used s' j = page_used s j) ∧
    used_pages s' = used_pages s - 1 ∧ ¬ pages_ok s'.
Proof.
  destruct (memory_init_ok memory_bss) as (s & E & Hok & Hu & _ & Hbits).
  exists s. split; [exact E|]. apply (free_page_unallocated s 300 Hok).
  - unfold MAX_PAGES. lia.
  - apply (Hbits 300). lia.
Defined.

Lemma alloc_page_first_fit_witness :
  ∃ s, memory_init memory_bss = Some s ∧ ∃ a s', alloc_page s = Some (a, s') ∧ pages_ok s' ∧
    (used_pages s = MAX_PAGES ∧ a = 0 ∧ s' = s ∨
     ∃ p, 256 <= p < MAX_PAGES ∧ a = p * PAGE_SIZE ∧
       page_used s p = false ∧ (∀ q, 0 <= q < p → page_used s q = true) ∧
       used_pages s' = used_pages s + 1 ∧
       ∀ j, 0 <= j → page_used s' j = (j =? p) || page_used s j).
Proof.
  destruct (memory_init_ok memory_bss) as (s & E & Hok & _).
  exists s. split; [exact E|]. exact (alloc_page_first_fit s Hok).
Defined.

(** ** The kernel heap *)

(** The bump pointer may pass the end by the rounding of the last block. *)
Definition heap_ok (s : memory_state) : Prop := 0 <= heap_pos s <= HEAP_SIZE + 3.

Lemma align_up k x :
  0 <= k < 32 → 0 <= x → x + 2 ^ k - 1 < 4294967296 →
  ∃ y, Z.land (u32 (x + 2 ^ k - 1)) (~u (2 ^ k -u 1)) = y ∧ x <= y < x + 2 ^ k ∧ y mod 2 ^ k = 0.
Proof.
  intros Hk Hx Hfit. assert (0 < 2 ^ k) by (apply Z.pow_pos_nonneg; lia).
  rewrite (u32_id (x + _ - 1)), (u32_id (2 ^ k - 1)) by lia.
  replace (2 ^ k - 1) with (Z.ones k) by (rewrite Z.ones_equiv; lia).
  rewrite land_not_ones by lia. eexists. split; [reflexivity|].
  pose proof (Z.div_mod (x + 2 ^ k - 1) (2 ^ k) ltac:(lia)).
  pose proof (Z.mod_pos_bound (x + 2 ^ k - 1) (2 ^ k) ltac:(lia)).
  split; [lia|]. rewrite Z.mul_comm. apply Z.mod_mul. lia.
Qed.

Lemma kmalloc_spec size s :
  heap_ok s → 0 <= size < 2147483648 →
  kmalloc size s =
    if HEAP_SIZE <? heap_pos s + size then (None, s)
    else (Some (heap_pos s), set_heap (heap s) (heap_pos s + 4 * ((size + 3) / 4)) s).
Proof.
  intros Hs Hsize. unfold kmalloc. unfold heap_ok, HEAP_SIZE in *.
  rewrite (u32_id (heap_pos s + size)), (u32_id (size + 3)) by lia.
  destruct (Z.ltb_spec 32768 (heap_pos s + size)); [done|].
  change 3 with (Z.ones 2) at 2. rewrite land_not_ones by lia. change (2 ^ 2) with 4.
  rewrite u32_id; [done|]. Z.div_mod_to_equations. lia.
Qed.

Lemma kmalloc_aligned_spec size k s :
  heap_ok s → 0 <= size < 2147483648 → 0 <= k <= 20 →
  ∃ y, heap_pos s <= y < heap_pos s + 2 ^ k ∧ y mod 2 ^ k = 0 ∧
    kmalloc_aligned size (2 ^ k) s =
      if HEAP_SIZE <? y + size then (None, s) else (Some y, set_heap (heap s) (y + size) s).
Proof.
  intros Hs Hsize Hk. unfold kmalloc_aligned. unfold heap_ok, HEAP_SIZE in *.
  assert (2 ^ k <= 2 ^ 20) by (apply Z.pow_le_mono_r; lia). change (2 ^ 20) with 1048576 in *.
  destruct (align_up k (heap_pos s)) as (y & -> & Hy & Hmod); [lia..|].
  exists y. split; [done|]. split; [done|]. by rewrite u32_id by lia.
Qed.

Lemma kcalloc_spec num size s :
  heap_ok s → 0 <= num → 0 <= size → num * size < 2147483648 →
  kcalloc num size s = Some (
    if HEAP_SIZE <? heap_pos s + num * size then (None, s)
    else (Some (heap_pos s),
          set_heap (λ x, if (heap_pos s <=? x) && (x <? heap_pos s + num * size) then 0 else heap s x)
                   (heap_pos s + 4 * ((num * size + 3) / 4)) s)).
Proof.
  intros Hs Hnum Hsize Hfit. assert (0 <= num * size) by lia. unfold kcalloc.
  rewrite u32_id, kmalloc_spec by (done || lia).
  destruct (Z.ltb_spec HEAP_SIZE (heap_pos s + num * size)); [done|].
  unfold heap_ok in Hs. unfold mem_fill. cbn [heap set_heap].
  destruct (Z.leb_spec 0 (heap_pos s)); [|lia]. destruct (Z.leb_spec 0 (num * size)); [|lia].
  destruct (Z.leb_spec (heap_pos s + num * size) HEAP_SIZE); [|lia]. reflexivity.
Qed.

(** A client's requests and the blocks (offset, size, alignment) it got. *)
Inductive heap_op : Type :=
| Kmalloc (size : Z)
| KmallocAligned (size k : Z)
| Kcalloc (num size : Z).

Definition heap_op_ok (op : heap_op) : Prop :=
  match op with
  | Kmalloc size => 0 <= size < 2147483648
  | KmallocAligned size k => 0 <= size < 2147483648 ∧ 0 <= k <= 20
  | Kcalloc num size => 0 <= num ∧ 0 <= size ∧ num * size < 2147483648
  end.

Definition add_block (r : option Z) (size align : Z) (blocks : list (Z * Z * Z)) : list (Z * Z * Z) :=
  match r with Some p => (p, size, align) :: blocks | None => blocks end.

Definition heap_step (op : heap_op) (st : list (Z * Z * Z) * memory_state)
    : option (list (Z * Z * Z) * memory_state) :=
  let '(blocks, s) := st in
  match op with
  | Kmalloc size => let '(r, s) := kmalloc size s in Some (add_block r size 1 blocks, s)
  | KmallocAligned size k =>
      let '(r, s) := kmalloc_aligned size (2 ^ k) s in Some (add_block r size (2 ^ k) blocks, s)
  | Kcalloc num size => '(r, s) ← kcalloc num size s; Some (add_block r (num * size) 1 blocks, s)
  end.

Fixpoint heap_run (ops : list heap_op) (st : list (Z * Z * Z) * memory_state)
    : option (list (Z * Z * Z) * memory_state) :=
  match ops with
  | [] => Some st
  | op :: ops => st ← heap_step op st; heap_run ops st
  end.

Definition block_in_heap (b : Z * Z * Z) : Prop :=
  let '(p, n, a) := b in 0 <= p ∧ 0 <= n ∧ p + n <= HEAP_SIZE ∧ p mod a = 0.

Definition blocks_disjoint (b c : Z * Z * Z) : Prop :=
  b.1.1 + b.1.2 <= c.1.1 ∨ c.1.1 + c.1.2 <= b.1.1.

(** Newest first: each block starts after the end of every older one. *)
Fixpoint blocks_ok (blocks : list (Z * Z * Z)) (top : Z) : Prop :=
  match blocks with
  | [] => 0 <= top
  | (p, n, a) :: rest => p + n <= top ∧ block_in_heap (p, n, a) ∧ blocks_ok rest p
  end.

Lemma blocks_ok_mono blocks top top' : blocks_ok blocks top → top <= top' → blocks_ok blocks top'.
Proof. destruct blocks as [|[[p n] a] rest]; simpl; [lia|]. intros (? & ? & ?) ?. split; [lia|done]. Qed.

Lemma blocks_ok_below blocks top b : blocks_ok blocks top → b ∈ blocks → block_in_heap b ∧ b.1.1 + b.1.2 <= top.
Proof.
  revert top. induction blocks as [|[[p n] a] rest IH]; intros top H Hin; [by apply not_elem_of_nil in Hin|].
  destruct H as (Hle & Hin_heap & Hrest). apply elem_of_cons in Hin as [->|Hin]; [done|].
  destruct (IH p Hrest Hin). split; [done|]. unfold block_in_heap in Hin_heap. lia.
Qed.

Lemma blocks_ok_disjoint blocks top i j b c :
  blocks_ok blocks top → i ≠ j → blocks !! i = Some b → blocks !! j = Some c → blocks_disjoint b c.
Proof.
  revert top i j. induction blocks as [|[[p n] a] rest IH]; intros top i j H Hne Hi Hj; [done|].
  destruct H as (_ & _ & Hrest). unfold blocks_disjoint. destruct i as [|i], j as [|j]; [done| | |].
  - simplify_eq/=. apply list_elem_of_lookup_2 in Hj.
    destruct (blocks_ok_below _ _ _ Hrest Hj). lia.
  - simplify_eq/=. apply list_elem_of_lookup_2 in Hi.
    destruct (blocks_ok_below _ _ _ Hrest Hi). lia.
  - apply (IH p i j); [done|lia|done|done].
Qed.

Lemma heap_step_ok op blocks s :
  heap_op_ok op → heap_ok s → blocks_ok blocks (heap_pos s) →
  ∃ blocks' s', heap_step op (blocks, s) = Some (blocks', s') ∧ heap_ok s' ∧
    blocks_ok blocks' (heap_pos s').
Proof.
  intros Hop Hs Hb. pose proof Hs as Hs'. unfold heap_ok in Hs'.
  destruct op as [size|size k|num size]; cbn [heap_step heap_op_ok] in *.
  - rewrite kmalloc_spec by done. pose proof (Z.div_mod (size + 3) 4 ltac:(lia)).
    pose proof (Z.mod_pos_bound (size + 3) 4 ltac:(lia)).
    destruct (Z.ltb_spec HEAP_SIZE (heap_pos s + size)); [by eexists _, _|].
    eexists _, _. split; [reflexivity|]. cbn [heap_pos set_heap add_block blocks_ok]. unfold heap_ok, block_in_heap.
    cbn [heap_pos set_heap]. rewrite Z.mod_1_r. split_and!; done || lia.
  - destruct Hop as [Hsize Hk]. destruct (kmalloc_aligned_spec size k s Hs Hsize Hk) as (y & Hy & Hmod & ->).
    destruct (Z.ltb_spec HEAP_SIZE (y + size)); [by eexists _, _|].
    eexists _, _. split; [reflexivity|]. cbn [heap_pos set_heap add_block blocks_ok]. unfold heap_ok, block_in_heap.
    cbn [heap_pos set_heap]. split_and!; try done; try lia.
    apply (blocks_ok_mono _ (heap_pos s)); [done|lia].
  - destruct Hop as (Hnum & Hsize & Hfit). rewrite kcalloc_spec by done. cbn [mbind option_bind].
    assert (0 <= num * size) by lia. pose proof (Z.div_mod (num * size + 3) 4 ltac:(lia)).
    pose proof (Z.mod_pos_bound (num * size + 3) 4 ltac:(lia)).
    destruct (Z.ltb_spec HEAP_SIZE (heap_pos s + num * size)); [by eexists _, _|].
    eexists _, _. split; [reflexivity|]. cbn [heap_pos set_heap add_block blocks_ok]. unfold heap_ok, block_in_heap.
    cbn [heap_pos set_heap]. rewrite Z.mod_1_r. split_and!; done || lia.
Qed.

Lemma heap_run_ok ops blocks s :
  Forall heap_op_ok ops → heap_ok s → blocks_ok blocks (heap_pos s) →
  ∃ blocks' s', heap_run ops (blocks, s) = Some (blocks', s') ∧ heap_ok s' ∧
    blocks_ok blocks' (heap_pos s').
Proof.
  intros Hops. revert blocks s. induction Hops as [|op ops Hop _ IH]; intros blocks s Hs Hb; [by eexists _, _|].
  destruct (heap_step_ok op blocks s Hop Hs Hb) as (blocks1 & s1 & E & Hs1 & Hb1).
  cbn [heap_run]. rewrite E. by apply IH.
Qed.

(** C29. The kernel heap never hands out overlapping memory: for every
    sequence of [kmalloc], [kmalloc_aligned] (power-of-two alignments up to
    2^20) and [kcalloc] requests below 2 GiB after [heap_init], every block
    returned lies in the 32 KiB heap at the alignment asked for, two blocks
    never overlap, and [kcalloc] stays in the heap when it clears its block. *)
Theorem heap_blocks_disjoint (ops : list heap_op) (s : memory_state) :
  Forall heap_op_ok ops →
  ∃ blocks s', heap_run ops ([], heap_init s) = Some (blocks, s') ∧
    (∀ b, b ∈ blocks → block_in_heap b) ∧
    ∀ i j b c, i ≠ j → blocks !! i = Some b → blocks !! j = Some c → blocks_disjoint b c.
Proof.
  intros Hops. destruct (heap_run_ok ops [] (heap_init s) Hops) as (blocks & s' & E & Hs' & Hb).
  - unfold heap_ok, HEAP_SIZE. simpl. lia.
  - simpl. lia.
  - exists blocks, s'. split; [exact E|]. split.
    + intros b Hin. by destruct (blocks_ok_below _ _ _ Hb Hin).
    + intros i j b c. apply (blocks_ok_disjoint _ _ _ _ _ _ Hb).
Qed.

Definition demo_heap_ops : list heap_op :=
  [Kmalloc 10; KmallocAligned 5 4; Kcalloc 3 7; Kmalloc 40000; Kmalloc 1].

Lemma heap_blocks_disjoint_witness :
  ∃ blocks s', heap_run demo_heap_ops ([], heap_init memory_bss) = Some (blocks, s') ∧
    (∀ b, b ∈ blocks → block_in_heap b) ∧
    ∀ i j b c, i ≠ j → blocks !! i = Some b → blocks !! j = Some c → blocks_disjoint b c.
Proof.
  apply (heap_blocks_disjoint demo_heap_ops memory_bss).
  repeat constructor; vm_compute; discriminate.
Defined.

(** The size check of [kmalloc] is done modulo 2^32: once anything is
    allocated, the request that completes the bump pointer to 2^32 bytes
    succeeds, and the pointer is back at 0, so the next request is given the
    block handed out first. *)
Theorem kmalloc_wraps s :
  0 < heap_pos s <= HEAP_SIZE → heap_pos s mod 4 = 0 →
  ∃ s', kmalloc (4294967296 - heap_pos s) s = (Some (heap_pos s), s') ∧ heap_pos s' = 0 ∧
    (kmalloc 4 s').1 = Some 0.
Proof.
  intros Hpos Hmod. unfold HEAP_SIZE in Hpos. unfold kmalloc.
  replace (heap_pos s + (4294967296 - heap_pos s)) with 4294967296 by lia.
  change (HEAP_SIZE <? u32 4294967296) with false. cbv iota.
  assert (heap_pos s +u Z.land (4294967296 - heap_pos s +u 3) (~u 3) = 0) as ->.
  { change 3 with (Z.ones 2) at 2. rewrite land_not_ones by (lia || apply u32_range).
    change (2 ^ 2) with 4. int_lia. }
  eexists. split; [reflexivity|]. split; reflexivity.
Qed.

Lemma kmalloc_wraps_witness :
  let s := set_heap mem_zero 4 memory_bss in
  ∃ s', kmalloc (4294967296 - 4) s = (Some 4, s') ∧ heap_pos s' = 0 ∧ (kmalloc 4 s').1 = Some 0.
Proof.
  apply (kmalloc_wraps (set_heap mem_zero 4 memory_bss));
    cbn [heap_pos set_heap]; unfold HEAP_SIZE; [lia|reflexivity].
Defined.

(** ** Address translation *)
Section translation.
(** The linker places the page table, declared [aligned(PAGE_SIZE)], at a
    page boundary other than 0. *)
Context (kpt : Z) (Hkpt : 0 < kpt < 4294967296) (Haligned : kpt mod 4096 = 0).

Definition table_ref : Z := Z.lor (Z.lor kpt PAGE_PRESENT) PAGE_WRITE.

Record paging_ok (s : memory_state) : Prop := {
  ok_dir : kernel_page_directory s = <[768%nat := table_ref]> (<[0%nat := table_ref]> (replicate 1024 0));
  ok_table : zlen (kernel_page_table s) = 1024;
}.

(** The two 4 MB windows the directory maps, both through the one table. *)
Definition mapped (v : Z) : Prop := 0 <= v < 0x400000 ∨ 0xC0000000 <= v < 0xC0400000.

Lemma frame_mask x : 0 <= x < 4294967296 → Z.land x (~u 0xFFF) = 4096 * (x / 4096).
Proof. intros Hx. change 0xFFF with (Z.ones 12). by rewrite land_not_ones by lia. Qed.

Lemma lor_flags x f : x mod 4096 = 0 → 0 <= f < 4096 → Z.lor x f = x + f.
Proof.
  intros Hx Hf. replace x with (2 ^ 12 * (x / 4096)) by (change (2 ^ 12) with 4096; Z.div_mod_to_equations; lia).
  rewrite lor_aligned by (change (2 ^ 12) with 4096; lia). lia.
Qed.

Lemma table_ref_frame : Z.land table_ref (~u 0xFFF) = kpt.
Proof.
  unfold table_ref, PAGE_PRESENT, PAGE_WRITE. rewrite <- Z.lor_assoc. change (Z.lor 1 2) with 3.
  rewrite lor_flags by (done || lia). rewrite frame_mask by (Z.div_mod_to_equations; lia).
  Z.div_mod_to_equations. lia.
Qed.

Lemma page_dir_index_div v : page_dir_index v = v / 4194304.
Proof. unfold page_dir_index. by rewrite Z.shiftr_div_pow2 by lia. Qed.

Lemma page_table_index_mod v : page_table_index v = (v / 4096) mod 1024.
Proof.
  unfold page_table_index. change 0x3FF with (Z.ones 10).
  rewrite Z.land_ones, Z.shiftr_div_pow2 by lia. done.
Qed.

Lemma page_table_index_range v : 0 <= page_table_index v < 1024.
Proof. rewrite page_table_index_mod. apply Z.mod_pos_bound. lia. Qed.

Lemma page_offset v : Z.land v 0xFFF = v mod 4096.
Proof. change 0xFFF with (Z.ones 12). by rewrite Z.land_ones by lia. Qed.

Lemma page_table_mapped v s : paging_ok s → mapped v → page_table_at kpt v s = Some (kernel_page_table s).
Proof.
  intros [Hdir _] Hv. unfold page_table_at. rewrite Hdir, page_dir_index_div.
  assert (v / 4194304 = 0 ∨ v / 4194304 = 768) as [-> | ->] by (unfold mapped in Hv; Z.div_mod_to_equations; lia);
    unfold zget; cbn [Z.ltb Z.compare].
  - change (Z.to_nat 0) with 0%nat. rewrite list_lookup_insert_ne by done.
    rewrite list_lookup_insert_eq by (rewrite length_replicate; lia).
    cbn [mbind option_bind]. by rewrite table_ref_frame, Z.eqb_refl.
  - change (Z.to_nat 768) with 768%nat.
    rewrite list_lookup_insert_eq by (rewrite length_insert, length_replicate; lia).
    cbn [mbind option_bind]. by rewrite table_ref_frame, Z.eqb_refl.
Qed.

Lemma alloc_page_tables s a s' : alloc_page s = Some (a, s') → paging_ok s → paging_ok s'.
Proof.
  unfold alloc_page. intros ([i|] & _ & E)%bind_Some [Hd Ht].
  - apply bind_Some in E as (bm & _ & [= _ <-]). by split.
  - injection E as _ <-. by split.
Qed.

Lemma page_table_unmapped v s :
  paging_ok s → 0 <= v < 4294967296 → ¬ mapped v → page_table_at kpt v s = None.
Proof.
  intros [Hdir _] Hv Hun. unfold page_table_at. rewrite Hdir, page_dir_index_div.
  assert (0 <= v / 4194304 < 1024 ∧ v / 4194304 ≠ 0 ∧ v / 4194304 ≠ 768) as (Hi & H0 & H768)
    by (unfold mapped in Hun; Z.div_mod_to_equations; lia).
  unfold zget. destruct (Z.ltb_spec (v / 4194304) 0); [lia|].
  rewrite !list_lookup_insert_ne by lia. rewrite lookup_replicate_2 by lia.
  cbn [mbind option_bind]. change (Z.land 0 (~u 0xFFF)) with 0.
  destruct (Z.eqb_spec 0 kpt); [lia|done].
Qed.

(** The address [get_phys_addr] computes from the table entry. *)
Definition entry_addr (e v : Z) : Z := Z.land e (~u 0xFFF) +u v mod 4096.

Lemma get_phys_mapped v s :
  paging_ok s → mapped v →
  get_phys_addr kpt v s = (λ e, entry_addr e v) <$> (kernel_page_table s).[page_table_index v].
Proof.
  intros Hs Hv. unfold get_phys_addr. rewrite page_table_mapped by done. cbn [mbind option_bind].
  rewrite page_offset. by destruct ((kernel_page_table s).[page_table_index v]).
Qed.

Lemma set_entry_mapped v e s :
  paging_ok s → mapped v →
  ∃ s', set_entry kpt v e s = Some s' ∧ paging_ok s' ∧
    (kernel_page_table s').[page_table_index v] = Some e ∧
    ∀ i, i ≠ page_table_index v → (kernel_page_table s').[i] = (kernel_page_table s).[i].
Proof.
  intros Hs Hv. pose proof Hs as [Hdir Hlen]. unfold set_entry.
  rewrite page_table_mapped by done. cbn [mbind option_bind].
  pose proof (page_table_index_range v).
  destruct (zset (kernel_page_table s) (page_table_index v) e) as [table|] eqn:E.
  2: { rewrite zset_in in E by lia. done. }
  eexists. split; [reflexivity|]. cbn [kernel_page_table set_tables]. split_and!.
  - split; [done|]. cbn [kernel_page_table set_tables]. apply zset_length in E. unfold zlen in *. lia.
  - by eapply zget_zset_eq.
  - intros i Hi. by eapply zget_zset_ne.
Qed.

Lemma table_entry_addr v :
  0 <= v < 0x400000 → entry_addr (table_entry (v / 4096)) v = v.
Proof.
  intros Hv. unfold entry_addr, table_entry, PAGE_SIZE, PAGE_PRESENT, PAGE_WRITE.
  rewrite <- Z.lor_assoc. change (Z.lor 1 2) with 3.
  rewrite (u32_id (v / 4096 * 4096)) by (Z.div_mod_to_equations; lia).
  rewrite lor_flags by (lia || (apply Z.mod_mul; lia)).
  rewrite frame_mask by (Z.div_mod_to_equations; lia).
  rewrite u32_id; Z.div_mod_to_equations; lia.
Qed.

Lemma paging_init_ok s :
  ∃ s', paging_init kpt s = Some s' ∧ paging_ok s' ∧ paging_enabled s' = true ∧
    ∀ i, 0 <= i < 1024 → (kernel_page_table s').[i] = Some (table_entry i).
Proof.
  unfold paging_init. rewrite zset_in by (unfold zlen; rewrite length_replicate; lia).
  cbn [mbind option_bind].
  rewrite zset_in by (unfold zlen; rewrite length_insert, length_replicate; lia).
  eexists. split; [reflexivity|]. cbn [enable_paging set_tables kernel_page_table kernel_page_directory paging_enabled].
  split; [split|split]; cbn [enable_paging set_tables kernel_page_table kernel_page_directory].
  - reflexivity.
  - unfold zlen. rewrite length_fmap, length_seqZ. lia.
  - reflexivity.
  - intros i Hi. unfold zget. destruct (Z.ltb_spec i 0); [lia|].
    rewrite list_lookup_fmap, lookup_seqZ_lt by lia. cbn. do 2 f_equal. lia.
Qed.

(** [paging_init] identity-maps the first 4 MB and gives the same frames
    a second window at 0xC0000000: [get_phys_addr] translates every address
    of both windows to its offset in the window. *)
Theorem paging_init_identity s :
  ∃ s', paging_init kpt s = Some s' ∧ paging_enabled s' = true ∧
    ∀ v, 0 <= v < 0x400000 →
      get_phys_addr kpt v s' = Some v ∧ get_phys_addr kpt (0xC0000000 + v) s' = Some v.
Proof.
  destruct (paging_init_ok s) as (s' & E & Hok & Hon & Htable). exists s'.
  split; [exact E|]. split; [exact Hon|]. clear E. intros v Hv.
  assert (page_table_index v = v / 4096) as Hi.
  { rewrite page_table_index_mod. apply Z.mod_small. Z.div_mod_to_equations. lia. }
  assert (page_table_index (0xC0000000 + v) = v / 4096) as Hi'.
  { rewrite page_table_index_mod. Z.div_mod_to_equations. lia. }
  assert (0 <= v / 4096 < 1024) by (Z.div_mod_to_equations; lia).
  rewrite !get_phys_mapped by (done || unfold mapped; lia).
  rewrite Hi, Hi', Htable by done. cbn [fmap option_fmap option_map]. split; f_equal.
  - by apply table_entry_addr.
  - transitivity (entry_addr (table_entry (v / 4096)) v); [|by apply table_entry_addr].
    unfold entry_addr. do 2 f_equal. Z.div_mod_to_equations. lia.
Qed.

(** C31. Round trip of the page tables: after [map_page] of a mapped address
    [v] to frame [phys] (page aligned, flags below 4096), [get_phys_addr]
    sends every address [w] with the same table index to [phys] plus its
    page offset, and every other mapped address where it went before.  Both
    windows share one table, so the remapping shows in both; an address
    outside them has no page table and [map_page] dereferences NULL. *)
Theorem map_page_translation v phys flags s :
  paging_ok s → 0 <= v < 4294967296 → 0 <= phys < 4294967296 → phys mod 4096 = 0 → 0 <= flags < 4096 →
  (mapped v → ∃ s', map_page kpt v phys flags s = Some s' ∧ paging_ok s' ∧
     ∀ w, mapped w →
       get_phys_addr kpt w s' =
         if page_table_index w =? page_table_index v then Some (phys + w mod 4096)
         else get_phys_addr kpt w s) ∧
  (¬ mapped v → map_page kpt v phys flags s = UB).
Proof.
  intros Hs Hv Hphys Halign Hflags. split; intros Hm; unfold map_page.
  - destruct (set_entry_mapped v (Z.lor phys flags) s Hs Hm) as (s' & E & Hs' & Hat & Hother).
    exists s'. split; [exact E|]. split; [exact Hs'|]. intros w Hw.
    rewrite !get_phys_mapped by done.
    destruct (Z.eqb_spec (page_table_index w) (page_table_index v)) as [Hi|Hi].
    + rewrite Hi, Hat. cbn [fmap option_fmap option_map]. f_equal. unfold entry_addr.
      rewrite lor_flags, frame_mask by (done || (Z.div_mod_to_equations; lia)).
      rewrite u32_id; Z.div_mod_to_equations; lia.
    + by rewrite Hother by done.
  - unfold set_entry. by rewrite page_table_unmapped by done.
Qed.

End translation.

Lemma paging_init_identity_witness :
  ∃ s', paging_init 0x109000 memory_bss = Some s' ∧ paging_enabled s' = true ∧
    ∀ v, 0 <= v < 0x400000 →
      get_phys_addr 0x109000 v s' = Some v ∧ get_phys_addr 0x109000 (0xC0000000 + v) s' = Some v.
Proof. apply (paging_init_identity 0x109000 ltac:(lia) eq_refl memory_bss). Defined.

Lemma map_page_translation_witness :
  ∃ s, paging_init 0x109000 memory_bss = Some s ∧
    (mapped 0x201000 → ∃ s', map_page 0x109000 0x201000 0x300000 7 s = Some s' ∧ paging_ok 0x109000 s' ∧
       ∀ w, mapped w →
         get_phys_addr 0x109000 w s' =
           if page_table_index w =? page_table_index 0x201000 then Some (0x300000 + w mod 4096)
           else get_phys_addr 0x109000 w s) ∧
    (¬ mapped 0x201000 → map_page 0x109000 0x201000 0x300000 7 s = UB).
Proof.
  destruct (paging_init_ok 0x109000 memory_bss) as (s & E & Hok & _ & _).
  exists s. split; [exact E|]. clear E.
  apply (map_page_translation 0x109000 ltac:(lia) eq_refl 0x201000 0x300000 7 s Hok); lia || reflexivity.
Defined.

End Memory.
