(* ===== verification/Process.v ===== *)
(** * Process: the process table and the round-robin scheduler (kernel/process.c)

    [stack_base i] is the address of [processes[i].stack], a parameter.  The
    register switch itself ([context_switch], assembly) is the pair of slots
    [schedule] returns. *)
From S2P Require Import Prelude CString.

Module Process.

Definition MAX_PROCESSES : nat := 8.
Definition MAX_PROCESS_NAME : nat := 32.
Definition STACK_SIZE : Z := 4096.
#[global] Arguments MAX_PROCESSES : simpl never.
#[global] Arguments MAX_PROCESS_NAME : simpl never.

Inductive process_state_t : Type :=
| PROCESS_EMPTY
| PROCESS_RUNNING
| PROCESS_READY
| PROCESS_BLOCKED
| PROCESS_ZOMBIE.
#[export] Instance process_state_eq_dec : EqDecision process_state_t.
Proof. solve_decision. Defined.

Record cpu_context_t := {
  ctx_regs : list Z;  (** eax ebx ecx edx esi edi ebp *)
  ctx_esp : Z;
  ctx_eip : Z;
  ctx_eflags : Z;
  ctx_cr3 : Z;
}.

Record process_t := {
  pid : Z;
  pname : list Z;
  pstate : process_state_t;
  priority : Z;
  runtime : Z;
  context : cpu_context_t;
}.

Record process_system := {
  processes : list process_t;
  next_pid : Z;
  current_process : Z;
  scheduler_ticks : Z;
  current_process_ptr : option nat;
}.

(** The statics before [process_init]. *)
Definition zero_context : cpu_context_t :=
  {| ctx_regs := replicate 7 0; ctx_esp := 0; ctx_eip := 0; ctx_eflags := 0; ctx_cr3 := 0 |}.
Definition zero_process : process_t :=
  {| pid := 0; pname := replicate MAX_PROCESS_NAME 0; pstate := PROCESS_EMPTY; priority := 0;
     runtime := 0; context := zero_context |}.
Definition process_bss : process_system :=
  {| processes := replicate MAX_PROCESSES zero_process; next_pid := 0; current_process := 0;
     scheduler_ticks := 0; current_process_ptr := None |}.

Definition set_state (st : process_state_t) (p : process_t) : process_t :=
  {| pid := pid p; pname := pname p; pstate := st; priority := priority p; runtime := runtime p;
     context := context p |}.
Definition set_runtime (r : Z) (p : process_t) : process_t :=
  {| pid := pid p; pname := pname p; pstate := pstate p; priority := priority p; runtime := r;
     context := context p |}.
Definition set_processes (ps : list process_t) (s : process_system) : process_system :=
  {| processes := ps; next_pid := next_pid s; current_process := current_process s;
     scheduler_ticks := scheduler_ticks s; current_process_ptr := current_process_ptr s |}.

(** ** Context set-up (kernel/context_switch.s)

    Ten of the eleven words are cleared, then eip, esp and eflags are set. *)
Definition context_init (c : cpu_context_t) (entry_point stack_top : Z) : cpu_context_t :=
  {| ctx_regs := replicate 7 0; ctx_esp := stack_top; ctx_eip := entry_point; ctx_eflags := 0x202;
     ctx_cr3 := ctx_cr3 c |}.

(** ** The process table *)

Definition process_init (s : process_system) : option process_system :=
  let ps := set_state PROCESS_EMPTY <$> processes s in
  p ← ps !! 0%nat;
  nm ← strncpy (pname p) (lit "kernel") (MAX_PROCESS_NAME - 1);
  let p := {| pid := 0; pname := nm; pstate := PROCESS_RUNNING; priority := 1; runtime := 0;
              context := context p |} in
  Some {| processes := <[0%nat := p]> ps; next_pid := 1; current_process := 0;
          scheduler_ticks := scheduler_ticks s; current_process_ptr := Some 0%nat |}.

Definition slot_free (p : process_t) : bool :=
  bool_decide (pstate p = PROCESS_EMPTY) || bool_decide (pstate p = PROCESS_ZOMBIE).

Section create.
Context (stack_base : Z → Z).

(** [entry_point] is [None] for NULL. *)
Definition process_create (name : list Z) (entry_point : option Z) (s : process_system)
    : option (Z * process_system) :=
  match find_first slot_free (processes s) with
  | None => Some (-1, s)
  | Some i =>
      let pid_to_assign := Z.of_nat i in
      let np := if next_pid s <=? pid_to_assign then pid_to_assign + 1 else next_pid s in
      p ← processes s !! i;
      nm ← memset (pname p) 0 MAX_PROCESS_NAME;
      nm ← strncpy nm name (MAX_PROCESS_NAME - 1);
      let ctx := match entry_point with
                 | Some entry => context_init (context p) entry (stack_base pid_to_assign +u STACK_SIZE)
                 | None => context p
                 end in
      let p := {| pid := pid_to_assign; pname := nm; pstate := PROCESS_READY; priority := 1;
                  runtime := 0; context := ctx |} in
      Some (pid_to_assign,
            {| processes := <[i := p]> (processes s); next_pid := np;
               current_process := current_process s; scheduler_ticks := scheduler_ticks s;
               current_process_ptr := current_process_ptr s |})
  end.
End create.

(** The pointer returned, as a slot number. *)
Definition process_get (p : Z) (s : process_system) : option nat :=
  if (p <? 0) || (Z.of_nat MAX_PROCESSES <=? p) then None else Some (Z.to_nat p).

Definition process_get_current (s : process_system) : option nat := current_process_ptr s.

(** ** The scheduler *)

(** The accounting for the process that was running. *)
Definition demote (s : process_system) : process_system :=
  match current_process_ptr s with
  | Some i =>
      set_processes
        (alter (λ p, let p := set_runtime (runtime p +u 1) p in
                     if bool_decide (pstate p = PROCESS_RUNNING) then set_state PROCESS_READY p else p)
               i (processes s)) s
  | None => s
  end.

(** The [do ... while (attempts < MAX_PROCESSES)] loop: the slot it stops at. *)
Fixpoint next_ready (attempts : nat) (ps : list process_t) (np next : Z) : option (option Z) :=
  match attempts with
  | O => Some None
  | S n =>
      let next := Z.rem (next + 1) np in
      p ← ps.[next];
      if bool_decide (pstate p = PROCESS_READY) then Some (Some next) else next_ready n ps np next
  end.

Definition tick (s : process_system) : process_system :=
  {| processes := processes s; next_pid := next_pid s; current_process := current_process s;
     scheduler_ticks := s32 (scheduler_ticks s + 1); current_process_ptr := current_process_ptr s |}.

(** The chosen slot becomes the running one. *)
Definition dispatch (next : Z) (s : process_system) : process_system :=
  {| processes := alter (set_state PROCESS_RUNNING) (Z.to_nat next) (processes s);
     next_pid := next_pid s; current_process := next;
     scheduler_ticks := scheduler_ticks s; current_process_ptr := Some (Z.to_nat next) |}.

(** No other process is ready: stay with the current one. *)
Definition stay (s : process_system) : process_system :=
  match current_process_ptr s with
  | Some i =>
      set_processes
        (alter (λ p, if bool_decide (pstate p = PROCESS_READY) then set_state PROCESS_RUNNING p else p)
               i (processes s)) s
  | None => s
  end.

(** [schedule] and the context switch it performs (old slot, new slot). *)
Definition schedule (s : process_system) : option (option (nat * nat) * process_system) :=
  let s := tick s in
  if next_pid s <=? 1 then Some (None, s)
  else
    let s := demote s in
    r ← next_ready MAX_PROCESSES (processes s) (next_pid s) (current_process s);
    match r with
    | Some next =>
        Some (match current_process_ptr s with
              | Some old => if bool_decide (old = Z.to_nat next) then None else Some (old, Z.to_nat next)
              | None => None
              end, dispatch next s)
    | None => Some (None, stay s)
    end.

Definition process_exit (status : Z) (s : process_system)
    : option (option (nat * nat) * process_system) :=
  let s := match current_process_ptr s with
           | Some i => set_processes (alter (set_state PROCESS_ZOMBIE) i (processes s)) s
           | None => s
           end in
  schedule s.

(** ** Well-formed process tables *)
Definition state_at (s : process_system) (i : nat) : option process_state_t :=
  pstate <$> processes s !! i.

(** A slot: used slots lie below [next_pid] and hold their own number, only
    the current slot can be running, and it is in use. *)
Record slot_ok (np cur : Z) (i : nat) (p : process_t) : Prop := {
  slot_name : length (pname p) = MAX_PROCESS_NAME;
  slot_used : pstate p ≠ PROCESS_EMPTY → Z.of_nat i < np ∧ pid p = Z.of_nat i;
  slot_running : pstate p = PROCESS_RUNNING → i = Z.to_nat cur;
  slot_current : i = Z.to_nat cur → pstate p ≠ PROCESS_EMPTY;
}.

Record process_ok (s : process_system) : Prop := {
  ok_length : length (processes s) = MAX_PROCESSES;
  ok_next : 1 <= next_pid s <= Z.of_nat MAX_PROCESSES;
  ok_current : 0 <= current_process s < next_pid s;
  ok_ptr : current_process_ptr s = Some (Z.to_nat (current_process s));
  ok_slots : ∀ i p, processes s !! i = Some p → slot_ok (next_pid s) (current_process s) i p;
}.

Lemma state_at_alter f i j ps s :
  state_at (set_processes (alter f i ps) s) j =
    if decide (i = j) then pstate ∘ f <$> ps !! j else pstate <$> ps !! j.
Proof.
  unfold state_at, set_processes. cbn [processes]. destruct (decide (i = j)) as [->|Hne].
  - rewrite list_lookup_alter_eq. by destruct (ps !! j).
  - by rewrite list_lookup_alter_ne.
Qed.

(** ** The scheduling loop *)
Definition ready (ps : list process_t) (j : Z) : Prop := pstate <$> ps.[j] = Some PROCESS_READY.

Lemma next_ready_spec n ps np cur :
  0 <= cur < np → np <= zlen ps →
  ∃ r, next_ready n ps np cur = Some r ∧
    match r with
    | Some j => ∃ k, 1 <= k <= Z.of_nat n ∧ j = (cur + k) mod np ∧ ready ps j ∧
                  ∀ k', 1 <= k' < k → ¬ ready ps ((cur + k') mod np)
    | None => ∀ k, 1 <= k <= Z.of_nat n → ¬ ready ps ((cur + k) mod np)
    end.
Proof.
  revert cur. induction n as [|n IH]; intros cur Hcur Hnp; cbn [next_ready].
  - eexists. split; [done|]. simpl. lia.
  - assert (Z.rem (cur + 1) np = (cur + 1) mod np) as -> by (apply Z.rem_mod_nonneg; lia).
    set (j := (cur + 1) mod np).
    assert (0 <= j < np) as Hj by (apply Z.mod_pos_bound; lia).
    destruct (zget_Some ps j) as [p Hp]; [lia|]. rewrite Hp. cbn [mbind option_bind].
    assert (∀ k, (j + k) mod np = (cur + (k + 1)) mod np) as Hshift.
    { intros k. unfold j. rewrite Z.add_mod_idemp_l by lia. f_equal. lia. }
    case_bool_decide as Hr.
    + eexists. split; [done|]. exists 1. split_and!; [lia|lia|done| |lia].
      unfold ready. by rewrite Hp, <- Hr.
    + assert (¬ ready ps j) as Hnr by (unfold ready; rewrite Hp; intros [= ?]; congruence).
      destruct (IH j Hj Hnp) as (r & -> & H). exists r. split; [done|].
      destruct r as [j'|].
      * destruct H as (k & Hk & -> & Hready & Hbefore). exists (k + 1).
        split_and!; [lia|lia|apply Hshift|done|].
        intros k' Hk'. destruct (decide (k' = 1)) as [->|]; [done|].
        replace k' with (k' - 1 + 1) by lia. rewrite <- Hshift. apply Hbefore. lia.
      * intros k Hk. destruct (decide (k = 1)) as [->|]; [done|].
        replace k with (k - 1 + 1) by lia. rewrite <- Hshift. apply H. lia.
Qed.

(** The state of slot [i] once the running process is back in the queue. *)
Definition queued_state (s : process_system) (i : nat) : option process_state_t :=
  (λ st, if bool_decide (st = PROCESS_RUNNING) then PROCESS_READY else st) <$> state_at s i.

Lemma ok_running s i :
  process_ok s → state_at s i = Some PROCESS_RUNNING → i = Z.to_nat (current_process s).
Proof.
  intros Hok (p & Hp & Hst)%fmap_Some. symmetry in Hst. by eapply slot_running, Hst; apply Hok.
Qed.

Lemma demote_state s i : process_ok s → state_at (demote s) i = queued_state s i.
Proof.
  intros Hok. pose proof (ok_running s i Hok) as Hrun. unfold demote, queued_state.
  rewrite (ok_ptr s Hok), state_at_alter. unfold state_at in *.
  destruct (decide _) as [<-|Hne]; destruct (processes s !! _) as [p|] eqn:E; cbn; try done.
  - by destruct (bool_decide (pstate p = PROCESS_RUNNING)).
  - case_bool_decide as Hst; [|done]. cbn in Hrun. rewrite Hst in Hrun.
    specialize (Hrun eq_refl). congruence.
Qed.

Lemma tick_ok s : process_ok s → process_ok (tick s).
Proof. by intros []. Qed.

(** Changing slots one by one, keeping names and numbers. *)
Lemma alter_ok f i s np' cur' :
  process_ok s → 1 <= np' <= Z.of_nat MAX_PROCESSES → 0 <= cur' < np' →
  (∀ k p, processes s !! k = Some p → slot_ok np' cur' k (if decide (i = k) then f p else p)) →
  process_ok {| processes := alter f i (processes s); next_pid := np'; current_process := cur';
                scheduler_ticks := scheduler_ticks s; current_process_ptr := Some (Z.to_nat cur') |}.
Proof.
  intros Hok Hnp Hcur Hslots. split; cbn; [by rewrite length_alter, ok_length|done|done|done|].
  intros k p. rewrite list_lookup_alter. specialize (Hslots k). destruct (decide (i = k)) as [->|]; [|auto].
  intros (q & Hq & ->)%fmap_Some. by apply Hslots.
Qed.

Lemma demote_ok s : process_ok s → process_ok (demote s).
Proof.
  intros Hok. unfold demote, set_processes. rewrite (ok_ptr s Hok).
  apply alter_ok; [done|apply Hok|apply Hok|]. intros k p Hp.
  pose proof (ok_slots s Hok k p Hp) as [Hname Hused Hrun Hcurrent].
  destruct (decide _); [|by split]. cbn.
  case_bool_decide as Hst; split; cbn; auto; try done.
Qed.

Lemma demote_same s :
  next_pid (demote s) = next_pid s ∧ current_process (demote s) = current_process s.
Proof. unfold demote. by destruct (current_process_ptr s). Qed.

Lemma dispatch_ok s j :
  process_ok s → 0 <= j < next_pid s → state_at s (Z.to_nat j) = Some PROCESS_READY →
  (∀ i, state_at s i ≠ Some PROCESS_RUNNING) → process_ok (dispatch j s).
Proof.
  intros Hok Hj Hready Hnone. apply alter_ok; [done|apply Hok|done|]. intros k p Hp.
  pose proof (ok_slots s Hok k p Hp) as [Hname Hused Hrun Hcurrent].
  destruct (decide (Z.to_nat j = k)) as [<-|Hne]; split; cbn; auto.
  - intros _. apply Hused. unfold state_at in Hready. rewrite Hp in Hready. cbn in Hready. congruence.
  - intros Hst. exfalso. apply (Hnone k). unfold state_at. rewrite Hp. cbn. by rewrite Hst.
Qed.

Lemma dispatch_state s j i :
  is_Some (processes s !! Z.to_nat j) →
  state_at (dispatch j s) i = if decide (i = Z.to_nat j) then Some PROCESS_RUNNING else state_at s i.
Proof.
  intros [p Hp]. unfold state_at, dispatch. cbn [processes]. destruct (decide (i = Z.to_nat j)) as [->|Hne].
  - by rewrite list_lookup_alter_eq, Hp.
  - by rewrite list_lookup_alter_ne.
Qed.

Lemma ready_state s j : 0 <= j → ready (processes s) j ↔ state_at s (Z.to_nat j) = Some PROCESS_READY.
Proof. intros Hj. unfold ready, state_at, zget. by destruct (Z.ltb_spec j 0); [lia|]. Qed.

(** ** What [schedule] does *)

(** [schedule] picks slot [j], the [k]-th after the current one. *)
Definition picks (s : process_system) (k j : Z) : Prop :=
  1 <= k <= next_pid s ∧ j = (current_process s + k) mod next_pid s ∧
  queued_state s (Z.to_nat j) = Some PROCESS_READY ∧
  ∀ k', 1 <= k' < k →
    queued_state s (Z.to_nat ((current_process s + k') mod next_pid s)) ≠ Some PROCESS_READY.

(** No slot is in the queue. *)
Definition queue_empty (s : process_system) : Prop :=
  ∀ i : nat, Z.of_nat i < next_pid s → queued_state s i ≠ Some PROCESS_READY.

Lemma mod_period a k n : 0 < n → ∃ k', 1 <= k' <= n ∧ (a + k) mod n = (a + k') mod n.
Proof.
  intros Hn. exists ((k - 1) mod n + 1). pose proof (Z.mod_pos_bound (k - 1) n Hn). split; [lia|].
  rewrite (Z.add_comm ((k - 1) mod n)), Z.add_assoc, Z.add_mod_idemp_r by lia. f_equal. lia.
Qed.

(** With no other process ready the running one stays. *)
Lemma nothing_ready s :
  process_ok s → 1 < next_pid s → queue_empty s →
  (∀ i, state_at (demote s) i = state_at s i) ∧ stay (demote s) = demote s.
Proof.
  intros Hok Hnp Hempty. pose proof (demote_ok s Hok) as Hd. destruct (demote_same s) as [En Ec].
  pose proof (ok_current s Hok) as Hcur. split.
  - intros i. rewrite demote_state by done. unfold queued_state.
    destruct (state_at s i) as [st|] eqn:Est; [|done]. cbn. case_bool_decide as Hst; [|done]. subst st.
    exfalso. apply (Hempty i); [|unfold queued_state; by rewrite Est]. apply ok_running in Est; [lia|done].
  - unfold stay. rewrite (ok_ptr _ Hd). unfold set_processes. rewrite alter_id; [by destruct (demote s)|]. intros p Hp.
    case_bool_decide as Hst; [|done]. exfalso. apply (Hempty (Z.to_nat (current_process s))); [lia|].
    rewrite <- demote_state by done. unfold state_at. rewrite <- Ec, Hp. cbn. by rewrite Hst.
Qed.

Lemma schedule_cases s :
  process_ok s → 1 < next_pid s →
  ∃ sw s', schedule s = Some (sw, s') ∧ process_ok s' ∧ next_pid s' = next_pid s ∧
    ((∃ k j, picks s k j ∧ current_process s' = j ∧
        sw = (if current_process s =? j then None
              else Some (Z.to_nat (current_process s), Z.to_nat j)) ∧
        (∀ i, state_at s' i = if decide (i = Z.to_nat j) then Some PROCESS_RUNNING else queued_state s i)) ∨
     queue_empty s ∧ sw = None ∧ current_process s' = current_process s ∧
        ∀ i, state_at s' i = state_at s i).
Proof.
  intros Hok%tick_ok Hnp. unfold schedule. change (next_pid s) with (next_pid (tick s)) in *.
  change (current_process s) with (current_process (tick s)).
  change (picks s) with (picks (tick s)). change (queue_empty s) with (queue_empty (tick s)).
  change (queued_state s) with (queued_state (tick s)). change (state_at s) with (state_at (tick s)).
  revert Hok Hnp. generalize (tick s). clear s. intros s Hok Hnp.
  destruct (Z.leb_spec (next_pid s) 1) as [|_]; [lia|].
  pose proof (demote_ok s Hok) as Hd. destruct (demote_same s) as [En Ec].
  pose proof (ok_current s Hok) as Hcur. pose proof (ok_next s Hok) as Hmax.
  assert (next_pid s <= zlen (processes (demote s))) as Hlen by (unfold zlen; rewrite ok_length; lia || done).
  destruct (next_ready_spec MAX_PROCESSES (processes (demote s)) (next_pid s) (current_process s) Hcur Hlen)
    as (r & E & Hr).
  rewrite En, Ec, E. cbn [mbind option_bind].
  assert (∀ k, 0 <= (current_process s + k) mod next_pid s < next_pid s) as Hm
    by (intros; apply Z.mod_pos_bound; lia).
  assert (∀ k, ready (processes (demote s)) ((current_process s + k) mod next_pid s) ↔
      queued_state s (Z.to_nat ((current_process s + k) mod next_pid s)) = Some PROCESS_READY) as Hq.
  { intros k. rewrite ready_state by apply Hm. by rewrite demote_state. }
  destruct r as [j|].
  - destruct Hr as (k & Hk & -> & Hready & Hbefore). apply Hq in Hready.
    set (j := (current_process s + k) mod next_pid s) in *.
    assert (k <= next_pid s) as Hkn.
    { destruct (Z.lt_ge_cases (next_pid s) k) as [Hlt|]; [|done]. exfalso.
      destruct (mod_period (current_process s) k (next_pid s)) as (k' & Hk' & Emod); [lia|].
      apply (Hbefore k'); [lia|]. apply Hq. rewrite <- Emod. done. }
    rewrite (ok_ptr _ Hd), Ec.
    eexists _, _. split; [reflexivity|]. split; [|split; [by cbn; rewrite En|]].
    { apply dispatch_ok; [done|rewrite En; apply Hm|by rewrite demote_state|].
      intros i. rewrite demote_state by done. unfold queued_state.
      destruct (state_at s i) as [[]|]; by cbn. }
    left. exists k, j. split; [split; [lia|]; split; [done|]; split; [done|]|].
    { intros k' Hk'. rewrite <- Hq. by apply Hbefore. }
    split; [done|]. split.
    + pose proof (Hm k). fold j in H. destruct (Z.eqb_spec (current_process s) j) as [->|Hne].
      * by rewrite bool_decide_eq_true_2.
      * by rewrite bool_decide_eq_false_2 by lia.
    + intros i. rewrite dispatch_state; [by rewrite demote_state|].
      apply lookup_lt_is_Some_2. pose proof (Hm k). fold j in H. unfold zlen in Hlen. lia.
  - assert (queue_empty s) as Hempty.
    { intros i Hi Hready.
      destruct (mod_period (current_process s) (Z.of_nat i - current_process s) (next_pid s))
        as (k & Hk & Emod); [lia|].
      apply (Hr k); [unfold MAX_PROCESSES in *; lia|]. apply Hq. rewrite <- Emod.
      replace (current_process s + (Z.of_nat i - current_process s)) with (Z.of_nat i) by lia.
      by rewrite Z.mod_small, Nat2Z.id by lia. }
    destruct (nothing_ready s Hok Hnp Hempty) as [Hsame ->].
    eexists _, _. split; [reflexivity|]. split; [done|]. split; [done|]. right. done.
Qed.

(** ** The other operations keep the table well formed *)

Lemma process_init_ok :
  ∃ s, process_init process_bss = Some s ∧ process_ok s ∧ next_pid s = 1 ∧
    state_at s 0 = Some PROCESS_RUNNING.
Proof.
  eexists. split; [vm_compute; reflexivity|]. split; [|done].
  split; cbn [processes next_pid current_process current_process_ptr]; [done|done|done|done|].
  intros i p Hp. destruct i as [|i]; cbn in Hp.
  - injection Hp as <-. by split.
  - do 7 (destruct i as [|i]; [injection Hp as <-; by split|]). done.
Qed.

Lemma schedule_ok s : process_ok s → ∃ sw s', schedule s = Some (sw, s') ∧ process_ok s'.
Proof.
  intros Hok. destruct (Z.lt_ge_cases 1 (next_pid s)) as [Hlt|Hge].
  - destruct (schedule_cases s Hok Hlt) as (sw & s' & E & Hok' & _). eauto.
  - exists None, (tick s). split; [|by apply tick_ok]. unfold schedule. cbn [next_pid tick].
    by destruct (Z.leb_spec (next_pid s) 1); [|lia].
Qed.

Lemma process_exit_ok st s : process_ok s → ∃ sw s', process_exit st s = Some (sw, s') ∧ process_ok s'.
Proof.
  intros Hok. unfold process_exit. apply schedule_ok. unfold set_processes. rewrite (ok_ptr s Hok).
  apply alter_ok; [done|apply Hok|apply Hok|]. intros k p Hp.
  pose proof (ok_slots s Hok k p Hp) as [Hname Hused Hrun Hcurrent].
  destruct (decide _) as [<-|]; [|by split]. split; cbn; auto.
Qed.

Section create_facts.
Context (stack_base : Z → Z).

(** What [process_create] does: the lowest slot that is empty or a zombie
    becomes a ready process with the (truncated) name; without one nothing
    changes. *)
Lemma process_create_cases name n entry s :
  process_ok s → cstr name = Some n →
  ∃ r s', process_create stack_base name entry s = Some (r, s') ∧ process_ok s' ∧
    ((∃ i p, r = Z.of_nat i ∧ find_first slot_free (processes s) = Some i ∧
        processes s' = <[i := p]> (processes s) ∧ pstate p = PROCESS_READY ∧
        pid p = r ∧ runtime p = 0 ∧ cstr (pname p) = Some (trunc MAX_PROCESS_NAME n) ∧
        (∀ e, entry = Some e → ctx_eip (context p) = e ∧
           ctx_esp (context p) = stack_base r +u STACK_SIZE) ∧
        next_pid s' = Z.max (next_pid s) (r + 1)) ∨
     (∀ i p, processes s !! i = Some p → slot_free p = false) ∧ r = -1 ∧ s' = s).
Proof.
  intros Hok Hn. unfold process_create.
  destruct (find_first slot_free (processes s)) as [i|] eqn:E.
  - apply find_first_Some in E as E'. destruct E' as [(p & Hp & Hfree) Hbefore]. rewrite Hp. cbn [mbind option_bind].
    pose proof (ok_slots s Hok i p Hp) as [Hname Hused Hrun Hcurrent].
    rewrite memset_spec by (rewrite Hname; lia). cbn [mbind option_bind].
    replace (drop MAX_PROCESS_NAME (pname p)) with (@nil Z) by (rewrite drop_ge; [done|rewrite Hname; lia]).
    rewrite app_nil_r, u8_id by lia. rewrite (strncpy_spec _ _ n); [|done|unfold MAX_PROCESS_NAME; simpl; lia].
    cbn [mbind option_bind].
    eexists _, _. split; [reflexivity|].
    pose proof (lookup_lt_Some _ _ _ Hp) as Hi. rewrite ok_length in Hi by done.
    pose proof (ok_next s Hok). pose proof (ok_current s Hok).
    assert ((if next_pid s <=? Z.of_nat i then Z.of_nat i + 1 else next_pid s) =
            Z.max (next_pid s) (Z.of_nat i + 1)) as Enp by (zcases; lia).
    split.
    + split; cbn; [by rewrite length_insert, ok_length|rewrite Enp; lia|rewrite Enp; lia|by apply Hok|].
      intros k q [(<- & <- & _)|[Hne Hq]]%list_lookup_insert_Some.
      * split; cbn; [|rewrite Enp; lia|done|done].
        rewrite length_app, length_take, length_app, length_drop, !length_replicate. unfold MAX_PROCESS_NAME. lia.
      * pose proof (ok_slots s Hok k q Hq) as [Hname' Hused' Hrun' Hcurrent'].
        split; [done| |done|done]. intros Hst. rewrite Enp. specialize (Hused' Hst). lia.
    + left. eexists i, _. split_and!; try reflexivity; cbn; try done.
      * apply cstr_take_replicate; [by apply cstr_nonzero in Hn|unfold MAX_PROCESS_NAME; lia].
      * by intros e ->.
  - eexists _, s. split; [done|]. split; [done|]. right. split; [|done].
    intros i p Hp. rewrite find_first_None in E. apply E. by eapply list_elem_of_lookup_2.
Qed.

(** ** Reachable process tables *)
Inductive proc_step : process_system → process_system → Prop :=
| step_create name n entry r s s' :
    cstr name = Some n → process_create stack_base name entry s = Some (r, s') → proc_step s s'
| step_schedule sw s s' : schedule s = Some (sw, s') → proc_step s s'
| step_exit status sw s s' : process_exit status s = Some (sw, s') → proc_step s s'.

Lemma proc_step_ok s s' : proc_step s s' → process_ok s → process_ok s'.
Proof.
  intros [name n entry r s1 s2 Hn E|sw s1 s2 E|status sw s1 s2 E] Hok.
  - destruct (process_create_cases name n entry s1 Hok Hn) as (r' & s2' & E' & Hok' & _). congruence.
  - destruct (schedule_ok s1 Hok) as (sw' & s2' & E' & Hok'). congruence.
  - destruct (process_exit_ok status s1 Hok) as (sw' & s2' & E' & Hok'). congruence.
Qed.

(** C14. Invariant of the process table: whatever sequence of process
    creations, exits and scheduler calls follows [process_init], used slots
    lie below [next_pid] and hold their own number, at most one process is
    running and it is the one [current_process] names, and each operation
    stays in the table: it returns, from every reachable state. *)
Theorem process_table_invariant s0 s :
  process_init process_bss = Some s0 → rtc proc_step s0 s →
  process_ok s ∧
  (∀ i j, state_at s i = Some PROCESS_RUNNING → state_at s j = Some PROCESS_RUNNING → i = j) ∧
  is_Some (schedule s) ∧ (∀ st, is_Some (process_exit st s)) ∧
  (∀ name n entry, cstr name = Some n → is_Some (process_create stack_base name entry s)).
Proof.
  intros H0 Hsteps. assert (process_ok s0) as Hok.
  { destruct process_init_ok as (s1 & E & Hok & _). congruence. }
  clear H0. induction Hsteps as [s|s s1 s2 Hstep _ IH]; [|by eapply IH, proc_step_ok].
  split; [done|]. split; [|split; [|split]].
  - intros i j Hi%ok_running Hj%ok_running; congruence || done.
  - destruct (schedule_ok s Hok) as (sw & s' & E & _). eauto.
  - intros st. destruct (process_exit_ok st s Hok) as (sw & s' & E & _). eauto.
  - intros name n entry Hn. destruct (process_create_cases name n entry s Hok Hn) as (r & s' & E & _). eauto.
Qed.

(** [process_create] takes the lowest slot that is empty or whose process
    has exited, and returns its number: the new process is ready, has run for
    no ticks, is named by the first 31 characters of [name] and starts at its
    entry point with its stack pointer at the top of its stack.  It returns
    -1 and changes nothing exactly when no slot is free. *)
Theorem process_create_lowest_slot name n entry s :
  process_ok s → cstr name = Some n →
  ∃ r s', process_create stack_base name entry s = Some (r, s') ∧ process_ok s' ∧
    ((∃ i p, r = Z.of_nat i ∧ find_first slot_free (processes s) = Some i ∧
        processes s' = <[i := p]> (processes s) ∧ pstate p = PROCESS_READY ∧
        pid p = r ∧ runtime p = 0 ∧ cstr (pname p) = Some (trunc MAX_PROCESS_NAME n) ∧
        (∀ e, entry = Some e → ctx_eip (context p) = e ∧
           ctx_esp (context p) = stack_base r +u STACK_SIZE) ∧
        next_pid s' = Z.max (next_pid s) (r + 1)) ∨
     (∀ i p, processes s !! i = Some p → slot_free p = false) ∧ r = -1 ∧ s' = s).
Proof. exact (process_create_cases name n entry s). Qed.
End create_facts.

(** C32. [schedule] is round robin: with more than one process, it hands the
    processor to the first slot after the current one, in cyclic order, whose
    process is ready (the running one, back in the queue, comes last), makes
    it the only running one and leaves the state of every other slot; it
    switches contexts exactly when that is another process.  Only when no
    process is ready does it leave every state as it was. *)
Theorem schedule_round_robin s :
  process_ok s → 1 < next_pid s →
  ∃ sw s', schedule s = Some (sw, s') ∧ process_ok s' ∧ next_pid s' = next_pid s ∧
    ((∃ k j, picks s k j ∧ current_process s' = j ∧
        sw = (if current_process s =? j then None
              else Some (Z.to_nat (current_process s), Z.to_nat j)) ∧
        (∀ i, state_at s' i = if decide (i = Z.to_nat j) then Some PROCESS_RUNNING else queued_state s i)) ∨
     queue_empty s ∧ sw = None ∧ current_process s' = current_process s ∧
        ∀ i, state_at s' i = state_at s i).
Proof. exact (schedule_cases s). Qed.

(** ** Fairness *)
Fixpoint schedule_n (n : nat) (s : process_system) : option process_system :=
  match n with
  | O => Some s
  | S n => '(_, s) ← schedule s; schedule_n n s
  end.

(** Slots the scheduler passes before it reaches slot [i]. *)
Definition distance (s : process_system) (i : nat) (d : Z) : Prop :=
  1 <= d <= next_pid s ∧ (current_process s + d) mod next_pid s = Z.of_nat i.

Lemma distance_exists s (i : nat) : process_ok s → Z.of_nat i < next_pid s → ∃ d, distance s i d.
Proof.
  intros Hok Hi. destruct (mod_period (current_process s) (Z.of_nat i - current_process s) (next_pid s))
    as (d & Hd & E); [lia|]. exists d. split; [done|]. rewrite <- E.
  replace (current_process s + (Z.of_nat i - current_process s)) with (Z.of_nat i) by lia.
  apply Z.mod_small. lia.
Qed.

(** One call either runs slot [i] or brings it closer. *)
Lemma schedule_closer s i d :
  process_ok s → 1 < next_pid s → state_at s i = Some PROCESS_READY → distance s i d →
  ∃ sw s', schedule s = Some (sw, s') ∧ process_ok s' ∧ next_pid s' = next_pid s ∧
    (current_process s' = Z.of_nat i ∧ state_at s' i = Some PROCESS_RUNNING ∨
     ∃ d', d' < d ∧ distance s' i d' ∧ state_at s' i = Some PROCESS_READY).
Proof.
  intros Hok Hnp Hready [Hd Hi].
  destruct (schedule_cases s Hok Hnp) as (sw & s' & E & Hok' & Hn' & Hcase).
  exists sw, s'. split; [done|]. split; [done|]. split; [done|].
  assert (queued_state s i = Some PROCESS_READY) as Hq by (unfold queued_state; by rewrite Hready).
  destruct Hcase as [(k & j & (Hk & Hj & Hjr & Hbefore) & Hcur & _ & Hst)|(Hempty & _)].
  2: { exfalso. apply (Hempty i); [|done]. rewrite <- Hi. apply Z.mod_pos_bound. lia. }
  rewrite (Hst i). destruct (Z.lt_trichotomy k d) as [Hlt|[->|Hgt]].
  - destruct (decide (i = Z.to_nat j)) as [->|Hne].
    + left. split; [|done]. rewrite Hcur, Hj. symmetry. apply Z2Nat.id. apply Z.mod_pos_bound. lia.
    + right. exists (d - k). split; [lia|]. split; [|done]. split; [lia|].
      rewrite Hn', Hcur, Hj, Z.add_mod_idemp_l by lia. rewrite <- Hi. f_equal. lia.
  - left. rewrite Hcur, decide_True by lia. split; [lia|done].
  - exfalso. apply (Hbefore d); [lia|]. by rewrite Hi, Nat2Z.id.
Qed.

(** C9. Fairness: a ready process runs within [next_pid] (at most 8) calls of
    [schedule], whatever the other processes' states are. *)
Theorem ready_process_runs s i :
  process_ok s → 1 < next_pid s → state_at s i = Some PROCESS_READY →
  ∃ n s', (1 ≤ n)%nat ∧ Z.of_nat n <= next_pid s ∧ schedule_n n s = Some s' ∧
    current_process s' = Z.of_nat i ∧ state_at s' i = Some PROCESS_RUNNING.
Proof.
  intros Hok Hnp Hready.
  assert (Z.of_nat i < next_pid s) as Hi.
  { unfold state_at in Hready. apply fmap_Some in Hready as (p & Hp & Hst).
    eapply slot_used; [by apply Hok|congruence]. }
  destruct (distance_exists s i Hok Hi) as [d Hd].
  assert (∃ n s', (1 ≤ n)%nat ∧ Z.of_nat n <= d ∧ schedule_n n s = Some s' ∧
    current_process s' = Z.of_nat i ∧ state_at s' i = Some PROCESS_RUNNING) as (n & s' & ? & ? & ? & ? & ?).
  2: { exists n, s'. destruct Hd. split_and!; done || lia. }
  assert (0 <= d) as Hpos by (destruct Hd; lia). clear Hi. revert s Hok Hnp Hready Hd.
  induction d as [d IH] using (well_founded_induction (Z.lt_wf 0)). intros s Hok Hnp Hready Hd.
  destruct (schedule_closer s i d Hok Hnp Hready Hd) as (sw & s1 & E & Hok1 & Hn1 & [[Hc Hr]|(d' & Hlt & Hd' & Hr)]).
  - exists 1%nat, s1. cbn [schedule_n]. rewrite E. destruct Hd. split_and!; done || lia.
  - assert (0 <= d') by (destruct Hd'; lia).
    destruct (IH d' ltac:(lia) ltac:(lia) s1) as (n & s' & ? & ? & En & ? & ?); [done|lia|done|done|].
    exists (S n), s'. cbn [schedule_n]. rewrite E. cbn [mbind option_bind]. split_and!; done || lia.
Qed.

(** ** A concrete table: the kernel and two ready processes *)
Definition demo_stack (i : Z) : Z := 0x110000 + i * 0x2000.

Definition demo_table : option process_system :=
  s ← process_init process_bss;
  '(_, s) ← process_create demo_stack (lit "shell") (Some 0x101000) s;
  '(_, s) ← process_create demo_stack (lit "net") (Some 0x102000) s;
  Some s.

Lemma demo_table_ok :
  ∃ s, demo_table = Some s ∧ process_ok s ∧ next_pid s = 3 ∧ state_at s 2 = Some PROCESS_READY.
Proof.
  eexists. split; [vm_compute; reflexivity|]. split; [|done].
  split; cbn [processes next_pid current_process current_process_ptr]; [done|done|done|done|].
  intros i p Hp. do 8 (destruct i as [|i]; [injection Hp as <-; by split|]). done.
Qed.

Lemma process_table_invariant_witness :
  ∃ s0 s, process_init process_bss = Some s0 ∧ rtc (proc_step demo_stack) s0 s ∧ process_ok s ∧
    (∀ i j, state_at s i = Some PROCESS_RUNNING → state_at s j = Some PROCESS_RUNNING → i = j) ∧
    is_Some (schedule s) ∧ (∀ st, is_Some (process_exit st s)) ∧
    (∀ name n entry, cstr name = Some n → is_Some (process_create demo_stack name entry s)).
Proof.
  destruct process_init_ok as (s0 & E0 & Hok0 & _).
  destruct (schedule_ok s0 Hok0) as (sw & s1 & E1 & _).
  assert (rtc (proc_step demo_stack) s0 s1) as Hs by (eapply rtc_once, step_schedule, E1).
  exists s0, s1. split; [exact E0|]. split; [exact Hs|].
  exact (process_table_invariant demo_stack s0 s1 E0 Hs).
Defined.

Lemma process_create_lowest_slot_witness :
  ∃ s, demo_table = Some s ∧
  ∃ r s', process_create demo_stack (lit "log") (Some 0x103000) s = Some (r, s') ∧ process_ok s' ∧
    ((∃ i p, r = Z.of_nat i ∧ find_first slot_free (processes s) = Some i ∧
        processes s' = <[i := p]> (processes s) ∧ pstate p = PROCESS_READY ∧
        pid p = r ∧ runtime p = 0 ∧
        cstr (pname p) = Some (trunc MAX_PROCESS_NAME (bytes_of_string "log")) ∧
        (∀ e, Some 0x103000 = Some e → ctx_eip (context p) = e ∧
           ctx_esp (context p) = demo_stack r +u STACK_SIZE) ∧
        next_pid s' = Z.max (next_pid s) (r + 1)) ∨
     (∀ i p, processes s !! i = Some p → slot_free p = false) ∧ r = -1 ∧ s' = s).
Proof.
  destruct demo_table_ok as (s & E & Hok & _). exists s. split; [exact E|].
  apply (process_create_lowest_slot demo_stack (lit "log") (bytes_of_string "log") (Some 0x103000) s Hok).
  reflexivity.
Defined.

Lemma schedule_round_robin_witness :
  ∃ s, demo_table = Some s ∧
  ∃ sw s', schedule s = Some (sw, s') ∧ process_ok s' ∧ next_pid s' = next_pid s ∧
    ((∃ k j, picks s k j ∧ current_process s' = j ∧
        sw = (if current_process s =? j then None
              else Some (Z.to_nat (current_process s), Z.to_nat j)) ∧
        (∀ i, state_at s' i = if decide (i = Z.to_nat j) then Some PROCESS_RUNNING else queued_state s i)) ∨
     queue_empty s ∧ sw = None ∧ current_process s' = current_process s ∧
        ∀ i, state_at s' i = state_at s i).
Proof.
  destruct demo_table_ok as (s & E & Hok & Hn & _). exists s. split; [exact E|].
  apply (schedule_round_robin s Hok). rewrite Hn. lia.
Defined.

Lemma ready_process_runs_witness :
  ∃ s, demo_table = Some s ∧
  ∃ n s', (1 ≤ n)%nat ∧ Z.of_nat n <= next_pid s ∧ schedule_n n s = Some s' ∧
    current_process s' = Z.of_nat 2 ∧ state_at s' 2 = Some PROCESS_RUNNING.
Proof.
  destruct demo_table_ok as (s & E & Hok & Hn & Hr). exists s. split; [exact E|].
  apply (ready_process_runs s 2 Hok); [rewrite Hn; lia|exact Hr].
Defined.

End Process.
