(* ===== verification/Context.v ===== *)
(** * Context: registers, stacks and the switch between processes
    (kernel/context_switch.s, kernel/interrupts.s, kernel/context.c)

    The assembly routines as lists of instructions, and the instructions as
    functions on the registers and a memory of 32-bit words.  Every address
    the routines use is a multiple of four, so words do not overlap.  The
    registers that play no part (cs, ss, eip within a routine) are left out. *)
From S2P Require Import Prelude Process Idt.

Module Context.

(** ** The processor *)
Inductive reg : Type := EAX | EBX | ECX | EDX | ESI | EDI | EBP | ESP | DS | ES | FS | GS.

Record regfile := {
  eax : Z; ebx : Z; ecx : Z; edx : Z; esi : Z; edi : Z; ebp : Z; esp : Z; ds : Z; es : Z; fs : Z; gs : Z;
}.
Definition get (x : reg) (f : regfile) : Z :=
  match x with
  | EAX => eax f | EBX => ebx f | ECX => ecx f | EDX => edx f | ESI => esi f | EDI => edi f | EBP => ebp f | ESP => esp f
  | DS => ds f | ES => es f | FS => fs f | GS => gs f
  end.
Definition set (x : reg) (v : Z) (f : regfile) : regfile :=
  let '{| eax := a; ebx := b; ecx := c; edx := d; esi := si; edi := di; ebp := bp; esp := sp; ds := s1; es := s2; fs := s3; gs := s4 |} := f in
  match x with
  | EAX => Build_regfile v b c d si di bp sp s1 s2 s3 s4
  | EBX => Build_regfile a v c d si di bp sp s1 s2 s3 s4
  | ECX => Build_regfile a b v d si di bp sp s1 s2 s3 s4
  | EDX => Build_regfile a b c v si di bp sp s1 s2 s3 s4
  | ESI => Build_regfile a b c d v di bp sp s1 s2 s3 s4
  | EDI => Build_regfile a b c d si v bp sp s1 s2 s3 s4
  | EBP => Build_regfile a b c d si di v sp s1 s2 s3 s4
  | ESP => Build_regfile a b c d si di bp v s1 s2 s3 s4
  | DS => Build_regfile a b c d si di bp sp v s2 s3 s4
  | ES => Build_regfile a b c d si di bp sp s1 v s3 s4
  | FS => Build_regfile a b c d si di bp sp s1 s2 v s4
  | GS => Build_regfile a b c d si di bp sp s1 s2 s3 v
  end.

(** The word at [a] replaced *)
Definition upd (a v : Z) (m : Z → Z) : Z → Z := λ b, if b =? a then v else m b.

(** [eip] is where the routine goes when it ends. *)
Record cpu := { regs : regfile; flags : Z; eip : Z; mem : Z → Z }.

Definition r (c : cpu) (x : reg) : Z := get x (regs c).
Definition set_reg (x : reg) (v : Z) (c : cpu) : cpu := {| regs := set x v (regs c); flags := flags c; eip := eip c; mem := mem c |}.
Definition set_mem (a v : Z) (c : cpu) : cpu := {| regs := regs c; flags := flags c; eip := eip c; mem := upd a v (mem c) |}.
Definition set_flags (v : Z) (c : cpu) : cpu := {| regs := regs c; flags := v; eip := eip c; mem := mem c |}.
Definition jump (v : Z) (c : cpu) : cpu := {| regs := regs c; flags := flags c; eip := v; mem := mem c |}.

Definition push (v : Z) (c : cpu) : cpu :=
  let a := r c ESP -u 4 in set_mem a v (set_reg ESP a c).
Definition top (c : cpu) : Z := mem c (r c ESP).
Definition drop_top (c : cpu) : cpu := set_reg ESP (r c ESP +u 4) c.

(** AT&T operand order: the source first.  [Load off b x] is
    [movl off(%b), %x], [Store x off b] is [movl %x, off(%b)]. *)
Inductive instr : Type :=
| Push (x : reg)
| Pop (x : reg)
| Mov (x y : reg)
| MovImm (v : Z) (y : reg)
| MovAx (v : Z)
| Load (off : Z) (b x : reg)
| Store (x : reg) (off : Z) (b : reg)
| StoreImm (v off : Z) (b : reg)
| PushMem (off : Z) (b : reg)
| PushImm (v : Z)
| Pushf
| Popf
| MovSeg (x : reg)
| AddEsp (v : Z)
| OrImm (v : Z) (x : reg)
| RepStos
| Pusha
| Popa
| Cli
| Sti
| Cld
| Ret
| Iret.

(** [pusha] pushes eax, ecx, edx, ebx, the old esp, ebp, esi and edi; [popa]
    takes them back and throws the esp away. *)
Definition pusha (c : cpu) : cpu :=
  push (r c EDI) (push (r c ESI) (push (r c EBP) (push (r c ESP)
    (push (r c EBX) (push (r c EDX) (push (r c ECX) (push (r c EAX) c))))))).
(** A segment register takes the low half of the word. *)
Definition segment (x : reg) : bool := match x with DS | ES | FS | GS => true | _ => false end.
Definition pop (x : reg) (c : cpu) : cpu := set_reg x (if segment x then u16 (top c) else top c) (drop_top c).
Definition popa (c : cpu) : cpu :=
  pop EAX (pop ECX (pop EDX (pop EBX (drop_top (pop EBP (pop ESI (pop EDI c))))))).

(** [rep stosl] stores eax at edi, ecx times. *)
Fixpoint stos (n : nat) (c : cpu) : cpu :=
  match n with
  | O => c
  | S n => stos n (set_reg ECX (r c ECX -u 1) (set_reg EDI (r c EDI +u 4) (set_mem (r c EDI) (r c EAX) c)))
  end.

Definition IF : Z := 0x200.
Definition DF : Z := 0x400.

Definition exec (i : instr) (c : cpu) : cpu :=
  match i with
  | Push x => push (r c x) c
  | Pop x => pop x c
  | Mov x y => set_reg y (r c x) c
  | MovImm v y => set_reg y v c
  | MovAx v => set_reg EAX (r c EAX - u16 (r c EAX) + v) c
  | Load off b x => set_reg x (mem c (r c b +u off)) c
  | Store x off b => set_mem (r c b +u off) (r c x) c
  | StoreImm v off b => set_mem (r c b +u off) v c
  | PushMem off b => push (mem c (r c b +u off)) c
  | PushImm v => push v c
  | Pushf => push (flags c) c
  | Popf => set_flags (top c) (drop_top c)
  | MovSeg x => set_reg x (u16 (r c EAX)) c
  | AddEsp v => set_reg ESP (r c ESP +u v) c
  | OrImm v x => set_reg x (Z.lor (r c x) v) c
  | RepStos => stos (Z.to_nat (r c ECX)) c
  | Pusha => pusha c
  | Popa => popa c
  | Cli => set_flags (Z.ldiff (flags c) IF) c
  | Sti => set_flags (Z.lor (flags c) IF) c
  | Cld => set_flags (Z.ldiff (flags c) DF) c
  | Ret => jump (top c) (drop_top c)
  | Iret =>
      let '(eip, c) := (top c, drop_top c) in
      let c := drop_top c in
      jump eip (set_flags (top c) (drop_top c))
  end.
Definition run (l : list instr) (c : cpu) : cpu := foldl (λ c i, exec i c) c l.

(** ** kernel/string.c: the interrupt flag *)
Definition enable_interrupts : list instr := [Sti].
Definition disable_interrupts : list instr := [Cli].

Lemma interrupts_enabled c : Z.testbit (flags (run enable_interrupts c)) 9 = true ∧ Z.testbit (flags (run disable_interrupts c)) 9 = false.
Proof.
  unfold run, enable_interrupts, disable_interrupts. cbn [foldl exec set_flags flags].
  by rewrite Z.lor_spec, Z.ldiff_spec, orb_true_r, andb_false_r.
Qed.

(** ** kernel/context_switch.s *)
Definition save_context : list instr :=
  [Push EBP; Mov ESP EBP; Push EAX; Push EBX; Push ECX; Push EDX; Push ESI; Push EDI; Push EBP;
   Load 8 EBP EAX; Store ESP 28 EAX; Load 4 EBP EBX; Store EBX 32 EAX; Pushf; Pop EBX; Store EBX 36 EAX].
Definition load_context : list instr :=
  [Load 12 EBP EAX; Load 28 EAX ESP; PushMem 36 EAX; Popf; PushMem 32 EAX;
   Pop EBP; Pop EDI; Pop ESI; Pop EDX; Pop ECX; Pop EBX; Pop EAX; Pop EBP; Ret].
Definition context_switch : list instr := save_context ++ load_context.

Definition context_init : list instr :=
  [Push EBP; Mov ESP EBP; Load 8 EBP EAX; Load 12 EBP EBX; Load 16 EBP ECX; Push EDI; Push EAX; Mov EAX EDI;
   MovImm 0 EAX; MovImm 10 ECX; RepStos; Pop EAX; Pop EDI; Load 12 EBP EBX; Store EBX 32 EAX;
   Load 16 EBP ECX; Store ECX 28 EAX; StoreImm 0x202 36 EAX; Pop EBP; Ret].

(** ** kernel/interrupts.s *)

(** [irqN] after the processor has pushed the flags, cs and the address of the
    interrupted instruction; then the handler is called, and [stub_exit] *)
Definition irq_entry (num : Z) : list instr :=
  [Cli; PushImm 0; PushImm num; Pusha; Push DS; Push ES; Push FS; Push GS;
   MovAx 0x10; MovSeg DS; MovSeg ES; MovSeg FS; MovSeg GS; Mov ESP EAX; Push EAX].
Definition irq_exit : list instr := [Pop EAX; Pop GS; Pop FS; Pop ES; Pop DS; Popa; AddEsp 8; Iret].

(** ** Contexts in memory *)

(** The structure at [p] holds the context [x]: eax, ebx, ecx, edx, esi, edi,
    ebp, esp, eip, eflags, cr3. *)
Definition words (x : Process.cpu_context_t) : list Z :=
  Process.ctx_regs x ++ [Process.ctx_esp x; Process.ctx_eip x; Process.ctx_eflags x; Process.ctx_cr3 x].
Definition context_at (m : Z → Z) (p : Z) (x : Process.cpu_context_t) : Prop :=
  length (Process.ctx_regs x) = 7%nat ∧ ∀ (i : nat) v, words x !! i = Some v → m (p + 4 * Z.of_nat i) = v.

(** Two ranges of bytes that do not meet, and one inside the address space *)
Definition apart (a n b k : Z) : Prop := a + n <= b ∨ b + k <= a.
Definition inside (a n : Z) : Prop := 0 <= a ∧ a + n <= 4294967296.

(** ** Symbolic execution *)
Lemma run_app l l' c : run (l ++ l') c = run l' (run l c).
Proof. apply foldl_app. Qed.
Lemma run_cons i l c : run (i :: l) c = run l (exec i c).
Proof. done. Qed.

Lemma upd_same a v m b : b = a → upd a v m b = v.
Proof. intros ->. unfold upd. by rewrite Z.eqb_refl. Qed.
Lemma upd_other a v m b : b ≠ a → upd a v m b = m b.
Proof. intros Hne. unfold upd. by rewrite (proj2 (Z.eqb_neq b a) Hne). Qed.

(** Addresses that do not wrap, from the inside out *)
Ltac no_wrap :=
  repeat match goal with |- context [u32 ?x] =>
    lazymatch x with context [u32 _] => fail | context [upd _ _ _ _] => fail | _ => rewrite (u32_id x) by lia end end.
(** A word written before, or another one *)
Ltac read_words :=
  repeat match goal with |- context [upd ?a ?v ?m ?b] =>
    lazymatch b with context [upd _ _ _ _] => fail | _ =>
      first [rewrite (upd_same a v m b) by lia | rewrite (upd_other a v m b) by lia] end end.
(** One offset from a base address *)
Ltac offset s k :=
  lazymatch k with 0 => constr:(s) | Zneg ?p => constr:(s - Zpos p) | _ => constr:(s + k) end.
Ltac is_literal a := lazymatch a with Zpos _ => idtac | Zneg _ => idtac | Z0 => idtac end.
Ltac one_offset :=
  repeat match goal with
  | |- context [?s - ?a - ?b] => is_literal a; is_literal b; let k := eval compute in (- a - b) in
      let t := offset s k in replace (s - a - b) with t by lia
  | |- context [?s - ?a + ?b] => is_literal a; is_literal b; let k := eval compute in (b - a) in
      let t := offset s k in replace (s - a + b) with t by lia
  | |- context [?s + ?a - ?b] => is_literal a; is_literal b; let k := eval compute in (a - b) in
      let t := offset s k in replace (s + a - b) with t by lia
  | |- context [?s + ?a + ?b] => is_literal a; is_literal b; let k := eval compute in (a + b) in
      let t := offset s k in replace (s + a + b) with t by lia
  end.
(** One instruction *)
Ltac evaluate :=
  cbv beta iota zeta delta [exec push pop segment popa pusha top drop_top set_reg set_mem set_flags jump r regs flags eip mem get set
       eax ebx ecx edx esi edi ebp esp ds es fs gs];
  no_wrap; one_offset; read_words;
  repeat match goal with H : ?m ?a = ?v |- context [?m ?a] => rewrite H end;
  no_wrap; one_offset.
Ltac step := rewrite run_cons; evaluate.

Lemma stos_S n c : stos (S n) c = stos n (set_reg ECX (r c ECX -u 1) (set_reg EDI (r c EDI +u 4) (set_mem (r c EDI) (r c EAX) c))).
Proof. done. Qed.
Lemma exec_stos n c : r c ECX = Z.of_nat n → exec RepStos c = stos n c.
Proof. intros E. cbn [exec]. by rewrite E, Nat2Z.id. Qed.

(** ** What [context_switch] saves *)

(** The call [context_switch(old, new)], its stack and the structure [old] *)
Record switch_call (c : cpu) (old new : Z) : Prop := {
  sc_old : mem c (r c ESP + 4) = old;
  sc_new : mem c (r c ESP + 8) = new;
  sc_stack : inside (r c ESP - 36) 48;
  sc_ctx : inside old 44;
  sc_apart : apart old 44 (r c ESP - 36) 48;
}.

(** The registers on the caller's stack, where they end, the return address
    and the flags in the structure *)
Record saved (c : cpu) (old : Z) (m : Z → Z) : Prop := {
  sv_esp : m (old + 28) = r c ESP - 32;
  sv_eip : m (old + 32) = mem c (r c ESP);
  sv_flags : m (old + 36) = flags c;
  sv_regs : m (r c ESP - 32) = r c ESP - 4 ∧ m (r c ESP - 28) = r c EDI ∧ m (r c ESP - 24) = r c ESI ∧
    m (r c ESP - 20) = r c EDX ∧ m (r c ESP - 16) = r c ECX ∧ m (r c ESP - 12) = r c EBX ∧ m (r c ESP - 8) = r c EAX ∧
    m (r c ESP - 4) = r c EBP ∧ m (r c ESP) = mem c (r c ESP);
}.

Lemma save_context_ok c old new :
  switch_call c old new →
  ∃ c', run save_context c = c' ∧ saved c old (mem c') ∧ r c' EBP = r c ESP - 4 ∧ mem c' (r c ESP + 8) = new ∧
    ∀ a, a < r c ESP - 36 ∨ r c ESP <= a → a < old + 28 ∨ old + 40 <= a → mem c' a = mem c a.
Proof.
  intros [H1 H2 H3 H4 H5]. unfold inside, apart in *. destruct c as [[a b x d si di bp sp dd ee ff gg] fl ip m]. cbn [r get regs mem esp] in *.
  eexists. split.
  { unfold save_context.
step.
do 15 step. reflexivity. }
  cbn [run foldl mem r regs get ebp]. split; [split; cbn [r regs get mem flags esp ebp eax ebx ecx edx esi edi]|].
  - by read_words.
  - by read_words.
  - by read_words.
  - split_and!; by read_words.
  - split_and!; [done|by read_words|]. intros y H6 H7. by read_words.
Qed.

(** ** What it loads *)
Lemma load_context_ok c new N fl0 :
  mem c (r c EBP +u 12) = new → mem c (new + 28) = N → mem c (new + 36) = fl0 →
  inside new 44 → inside (N - 4) 40 → N - 4 ≠ new + 32 →
  ∃ c', run load_context c = c' ∧ eip c' = mem c (N + 28) ∧ flags c' = fl0 ∧ r c' ESP = N + 32 ∧ r c' EBP = mem c (N + 24) ∧
    r c' EAX = mem c (N + 20) ∧ r c' EBX = mem c (N + 16) ∧ r c' ECX = mem c (N + 12) ∧ r c' EDX = mem c (N + 8) ∧
    r c' ESI = mem c (N + 4) ∧ r c' EDI = mem c N ∧ ∀ a, a ≠ N - 4 → mem c' a = mem c a.
Proof.
  intros H1 H2 H3 H4 H5 H6. unfold inside in *. destruct c as [[a b x d si di bp sp dd ee ff gg] fl ip m].
  cbn [r get regs mem ebp] in *. eexists. split.
  { unfold load_context. do 14 step. reflexivity. }
  cbn [run foldl mem r regs get flags eip esp ebp eax ebx ecx edx esi edi]. split_and!; try done. intros y Hy. by read_words.
Qed.

(** ** A switch away and back *)

(** C40. [context_switch] does not resume what it saved: when a process is
    switched to again, its stack and its structure being as [context_switch]
    left them, execution goes on at the address that was its caller's frame
    pointer instead of the return address, one word short on the stack, and
    every register holds its neighbour's value, because the instruction pointer
    pushed last is popped as the first register. *)
Theorem context_switch_misreturns (c c2 : cpu) (old new other : Z) :
  switch_call c old new → switch_call c2 other old →
  (∀ a, r c ESP - 32 <= a <= r c ESP ∨ old + 28 <= a < old + 40 → mem c2 a = mem (run save_context c) a) →
  apart (r c2 ESP - 36) 48 (r c ESP - 36) 48 → apart (r c2 ESP - 36) 48 old 44 →
  apart other 44 (r c ESP - 36) 48 → apart other 44 old 44 →
  ∃ c3, run context_switch c2 = c3 ∧
    eip c3 = r c EBP ∧ r c3 ESP = r c ESP ∧ flags c3 = flags c ∧
    r c3 EBP = r c EAX ∧ r c3 EAX = r c EBX ∧ r c3 EBX = r c ECX ∧ r c3 ECX = r c EDX ∧ r c3 EDX = r c ESI ∧
    r c3 ESI = r c EDI ∧ r c3 EDI = r c ESP - 4.
Proof.
  intros H1 H2 Hkept A1 A2 A3 A4. destruct (save_context_ok c old new H1) as (c' & E & Hs & _). rewrite E in Hkept. clear E.
  destruct Hs as [S1 S2 S3 (S4 & S5 & S6 & S7 & S8 & S9 & S10 & S11 & S12)].
  destruct (save_context_ok c2 other old H2) as (c2' & E2 & _ & Hbp & Hnew & Hother). unfold apart, inside in *.
  pose proof H1 as [_ _ [? ?] [? ?] ?]. pose proof H2 as [_ _ [? ?] [? ?] ?]. unfold apart in *.
  assert (∀ a, r c ESP - 32 <= a <= r c ESP ∨ old + 28 <= a < old + 40 → mem c2' a = mem c' a) as Hsame.
  { intros a Ha. rewrite Hother by lia. by apply Hkept. }
  destruct (load_context_ok c2' old (r c ESP - 32) (flags c)) as (c3 & E3 & R1 & R2 & R3 & R4 & R5 & R6 & R7 & R8 & R9 & R10 & _).
  - rewrite Hbp, u32_id by lia. by replace (r c2 ESP - 4 + 12) with (r c2 ESP + 8) by lia.
  - rewrite Hsame by lia. exact S1.
  - rewrite Hsame by lia. exact S3.
  - by split.
  - split; lia.
  - lia.
  - exists c3. split; [unfold context_switch; by rewrite run_app, E2|].
    rewrite R1, R2, R3, R4, R5, R6, R7, R8, R9, R10, !Hsame by lia.
    replace (r c ESP - 32 + 28) with (r c ESP - 4) by lia. replace (r c ESP - 32 + 24) with (r c ESP - 8) by lia.
    replace (r c ESP - 32 + 20) with (r c ESP - 12) by lia. replace (r c ESP - 32 + 16) with (r c ESP - 16) by lia.
    replace (r c ESP - 32 + 12) with (r c ESP - 20) by lia. replace (r c ESP - 32 + 8) with (r c ESP - 24) by lia.
    replace (r c ESP - 32 + 4) with (r c ESP - 28) by lia. split_and!; done || lia.
Qed.

(** ** A new process *)

(** C33. [context_init] in assembly is the [context_init] of Process: called
    with a structure, an entry point and the top of a stack it leaves that
    context in memory, touches no other word above its stack frame and returns
    to the caller with esi, edi and ebp as they were - but with the entry point
    in ebx, a register it should preserve. *)
Theorem context_init_refines (c : cpu) (p entry stack_top : Z) (x : Process.cpu_context_t) :
  mem c (r c ESP + 4) = p → mem c (r c ESP + 8) = entry → mem c (r c ESP + 12) = stack_top →
  inside (r c ESP - 12) 28 → inside p 44 → apart p 44 (r c ESP - 12) 28 → context_at (mem c) p x →
  ∃ c', run context_init c = c' ∧ context_at (mem c') p (Process.context_init x entry stack_top) ∧
    eip c' = mem c (r c ESP) ∧ r c' ESP = r c ESP + 4 ∧ r c' EBP = r c EBP ∧ r c' ESI = r c ESI ∧ r c' EDI = r c EDI ∧
    r c' EBX = entry ∧ ∀ a, a < r c ESP - 12 ∨ r c ESP <= a → a < p ∨ p + 40 <= a → mem c' a = mem c a.
Proof.
  intros H1 H2 H3 H4 H5 H6 [Hl Hx]. unfold inside, apart in *. destruct c as [[a b cx d si di bp sp dd ee ff gg] fl ip m].
  assert (m (p + 40) = Process.ctx_cr3 x) as Hcr3.
  { specialize (Hx 10%nat (Process.ctx_cr3 x)). cbn [mem] in Hx. apply Hx. unfold words.
    rewrite lookup_app_r by (rewrite Hl; lia). by rewrite Hl. }
  clear Hx. cbn [r get regs mem esp] in *. eexists. split.
  { unfold context_init. do 10 step. rewrite run_cons, (exec_stos 10) by done. do 10 (rewrite stos_S; evaluate). cbn [stos].
    do 9 step. reflexivity. }
  cbn [run foldl mem r regs get flags eip esp ebp eax ebx ecx edx esi edi]. split; [split; [done|]|].
  - intros i v Hi. unfold words, Process.context_init in Hi. cbn [Process.ctx_regs Process.ctx_esp Process.ctx_eip Process.ctx_eflags
      Process.ctx_cr3 replicate app] in Hi.
    do 11 (destruct i as [|i]; [injection Hi as <-; rewrite ?Z.add_0_r; read_words; done || (rewrite <- Hcr3; f_equal; lia)|]). done.
  - split_and!; try done. intros y H7 H8. by read_words.
Qed.

(** A new process never reaches its entry point: [process_create] puts the
    top of the stack right below the context in [process_t], so the first
    switch to the process pops the context itself as registers - all zero - and
    jumps to the structure's own address with the stack pointer 32 bytes
    inside it. *)
Theorem new_process_never_starts (c : cpu) (old new entry : Z) (x : Process.cpu_context_t) :
  switch_call c old new → context_at (mem c) new (Process.context_init x entry new) →
  inside (new - 4) 48 → apart new 44 (r c ESP - 36) 48 → apart new 44 old 44 →
  ∃ c', run context_switch c = c' ∧ eip c' = new ∧ r c' ESP = new + 32 ∧ flags c' = 0x202 ∧
    Forall (λ y, r c' y = 0) [EAX; EBX; ECX; EDX; ESI; EDI; EBP].
Proof.
  intros H1 [_ Hx] H3 H4 H5. unfold inside, apart in *.
  destruct (save_context_ok c old new H1) as (c1 & E1 & _ & Hbp & Hnew & Hother).
  pose proof H1 as [_ _ [? ?] [? ?] ?]. unfold apart in *.
  assert (∀ (i : nat) v, words (Process.context_init x entry new) !! i = Some v → mem c1 (new + 4 * Z.of_nat i) = v) as Hw.
  { intros i v Hi. rewrite Hother; [by apply Hx|..]; pose proof (lookup_lt_Some _ _ _ Hi) as Hlen; cbn in Hlen; lia. }
  destruct (load_context_ok c1 new new 0x202) as (c3 & E3 & R1 & R2 & R3 & R4 & R5 & R6 & R7 & R8 & R9 & R10 & _).
  - rewrite Hbp, u32_id by lia. by replace (r c ESP - 4 + 12) with (r c ESP + 8) by lia.
  - by apply (Hw 7%nat).
  - by apply (Hw 9%nat).
  - split; lia.
  - split; lia.
  - lia.
  - exists c3. split; [unfold context_switch; by rewrite run_app, E1|]. rewrite R1, R2, R3. split; [by apply (Hw 7%nat)|].
    split; [done|]. split; [done|]. repeat constructor.
    + rewrite R5. by apply (Hw 5%nat).
    + rewrite R6. by apply (Hw 4%nat).
    + rewrite R7. by apply (Hw 3%nat).
    + rewrite R8. by apply (Hw 2%nat).
    + rewrite R9. by apply (Hw 1%nat).
    + rewrite R10, <- (Z.add_0_r new). by apply (Hw 0%nat).
    + rewrite R4. by apply (Hw 6%nat).
Qed.

(** ** The stubs of the interrupts *)

(** What [struct regs *] at [p] points to *)
Definition frame_at (m : Z → Z) (p : Z) : Idt.regs :=
  {| Idt.gs := m p; Idt.fs := m (p + 4); Idt.es := m (p + 8); Idt.ds := m (p + 12); Idt.edi := m (p + 16); Idt.esi := m (p + 20);
     Idt.ebp := m (p + 24); Idt.esp_dummy := m (p + 28); Idt.ebx := m (p + 32); Idt.edx := m (p + 36); Idt.ecx := m (p + 40);
     Idt.eax := m (p + 44); Idt.int_no := m (p + 48); Idt.err_code := m (p + 52); Idt.eip := m (p + 56); Idt.cs := m (p + 60);
     Idt.eflags := m (p + 64); Idt.useresp := m (p + 68); Idt.ss := m (p + 72) |}.

Lemma irq_frame (c : cpu) (num : Z) :
  let p := r c ESP - 56 in
  inside (p - 4) 76 →
  ∃ c1, run (irq_entry num) c = c1 ∧ r c1 ESP = p - 4 ∧ mem c1 (p - 4) = p ∧ flags c1 = Z.ldiff (flags c) IF ∧
    frame_at (mem c1) p =
      {| Idt.gs := r c GS; Idt.fs := r c FS; Idt.es := r c ES; Idt.ds := r c DS; Idt.edi := r c EDI; Idt.esi := r c ESI;
         Idt.ebp := r c EBP; Idt.esp_dummy := r c ESP - 8; Idt.ebx := r c EBX; Idt.edx := r c EDX; Idt.ecx := r c ECX;
         Idt.eax := r c EAX; Idt.int_no := num; Idt.err_code := 0; Idt.eip := mem c (r c ESP); Idt.cs := mem c (r c ESP + 4);
         Idt.eflags := mem c (r c ESP + 8); Idt.useresp := mem c (r c ESP + 12); Idt.ss := mem c (r c ESP + 16) |} ∧
    (∀ a, r c ESP <= a → mem c1 a = mem c a).
Proof.
  intros p Hp. subst p. unfold inside in Hp. destruct c as [[a b cx d si di bp sp dd ee ff gg] fl ip m].
  cbn [r get regs mem esp] in *. eexists. split.
  { unfold irq_entry. do 15 step. reflexivity. }
  cbn [run foldl mem r regs get flags eip esp ebp eax ebx ecx edx esi edi ds es fs gs].
  split; [lia|]. split; [one_offset; by read_words|]. split; [done|]. split.
  - unfold frame_at. one_offset. by read_words.
  - intros y Hy. by read_words.
Qed.

(** C22. The stub of a hardware interrupt: [irq_handler] is called with a pointer
    to the registers of the interrupted program, with the number of the
    vector, and with interrupts off; no word above the frame has changed.  When
    the handler returns, whatever registers it left and whatever it did to
    memory, the program goes on at the address, with the flags and exactly the
    registers that the structure then holds (of the segment registers the low
    halves, all they have): unchanged if the handler did not write to it. *)
Theorem irq_stub_transparent (c : cpu) (num : Z) :
  let p := r c ESP - 56 in
  inside (p - 4) 76 →
  ∃ c1, run (irq_entry num) c = c1 ∧ r c1 ESP = p - 4 ∧ mem c1 (p - 4) = p ∧ flags c1 = Z.ldiff (flags c) IF ∧
    frame_at (mem c1) p =
      {| Idt.gs := r c GS; Idt.fs := r c FS; Idt.es := r c ES; Idt.ds := r c DS; Idt.edi := r c EDI; Idt.esi := r c ESI;
         Idt.ebp := r c EBP; Idt.esp_dummy := r c ESP - 8; Idt.ebx := r c EBX; Idt.edx := r c EDX; Idt.ecx := r c ECX;
         Idt.eax := r c EAX; Idt.int_no := num; Idt.err_code := 0; Idt.eip := mem c (r c ESP); Idt.cs := mem c (r c ESP + 4);
         Idt.eflags := mem c (r c ESP + 8); Idt.useresp := mem c (r c ESP + 12); Idt.ss := mem c (r c ESP + 16) |} ∧
    (∀ a, r c ESP <= a → mem c1 a = mem c a) ∧
  ∀ c2, r c2 ESP = p - 4 →
    let f := frame_at (mem c2) p in
    run irq_exit c2 =
      {| regs := {| eax := Idt.eax f; ebx := Idt.ebx f; ecx := Idt.ecx f; edx := Idt.edx f; esi := Idt.esi f; edi := Idt.edi f;
                    ebp := Idt.ebp f; esp := r c ESP + 12; ds := u16 (Idt.ds f); es := u16 (Idt.es f);
                    fs := u16 (Idt.fs f); gs := u16 (Idt.gs f) |};
         flags := Idt.eflags f; eip := Idt.eip f; mem := mem c2 |}.
Proof.
  intros p Hp. destruct (irq_frame c num Hp) as (c1 & E & H1 & H2 & H3 & H4 & H5). exists c1.
  split_and!; try done. fold p in H1, H2. clear - Hp. subst p. unfold inside in Hp. set (sp := r c ESP) in *. clearbody sp.
  intros [[a2 b2 c2 d2 si2 di2 bp2 sp2 dd2 ee2 ff2 gg2] fl2 ip2 m2] Hsp. cbn [r get regs esp] in Hsp.
  replace (sp - 56 - 4) with (sp - 60) in Hsp by lia. subst sp2.
  unfold irq_exit. do 8 step. cbn [run foldl]. unfold frame_at. one_offset. cbv zeta. reflexivity.
Qed.

(** The stubs of the exceptions are the same but for the handler, and where the
    processor has pushed an error code itself the stub does not.  Which
    exceptions do is a matter of their number. *)
Definition pushes_code (num : Z) : bool := bool_decide (num ∈ [8; 10; 11; 12; 13; 14; 17]).
Definition isr_entry (num : Z) : list instr :=
  if pushes_code num then
    [Cli; PushImm num; Pusha; Push DS; Push ES; Push FS; Push GS;
     MovAx 0x10; MovSeg DS; MovSeg ES; MovSeg FS; MovSeg GS; Mov ESP EAX; Push EAX]
  else irq_entry num.

(** [fault_handler] gets the number, the error code, or zero, and the registers
    of the program that failed, at the instruction that failed. *)
Lemma isr_frame (c : cpu) (num : Z) :
  let code := pushes_code num in
  let base := if code then r c ESP + 4 else r c ESP in
  let p := base - 56 in
  inside (p - 4) 76 →
  ∃ c1, run (isr_entry num) c = c1 ∧ r c1 ESP = p - 4 ∧ mem c1 (p - 4) = p ∧ flags c1 = Z.ldiff (flags c) IF ∧
    let f := frame_at (mem c1) p in
    Idt.int_no f = num ∧ Idt.err_code f = (if code then mem c (r c ESP) else 0) ∧ Idt.eip f = mem c base ∧
    Idt.eflags f = mem c (base + 8) ∧ Idt.esp_dummy f = base - 8 ∧
    [Idt.eax f; Idt.ebx f; Idt.ecx f; Idt.edx f; Idt.esi f; Idt.edi f; Idt.ebp f; Idt.ds f; Idt.es f; Idt.fs f; Idt.gs f] =
      r c <$> [EAX; EBX; ECX; EDX; ESI; EDI; EBP; DS; ES; FS; GS].
Proof.
  cbv zeta. unfold isr_entry. destruct (pushes_code num); intros Hp.
  - unfold inside in Hp. destruct c as [[a b cx d si di bp sp dd ee ff gg] fl ip m].
    cbn [r get regs mem esp] in *. eexists. split.
    { do 14 step. reflexivity. }
    cbn [run foldl mem r regs get flags eip esp ebp eax ebx ecx edx esi edi ds es fs gs fmap list_fmap]. unfold frame_at.
    cbn [Idt.int_no Idt.err_code Idt.eip Idt.eflags Idt.esp_dummy Idt.eax Idt.ebx Idt.ecx Idt.edx Idt.esi Idt.edi Idt.ebp
      Idt.ds Idt.es Idt.fs Idt.gs]. one_offset. split_and!; by read_words || lia.
  - destruct (irq_frame c num Hp) as (c1 & E1 & H1 & H2 & H3 & Hf & _). exists c1. rewrite E1, Hf.
    cbn. repeat split; done.
Qed.

(** ** kernel/context.c *)

(** The inline assembly of the first switch *)
Definition first_switch (new_context : Z) : list instr :=
  [MovImm new_context ESP; Pop EAX; Pop EBX; Pop ECX; Pop EDX; Pop ESI; Pop EDI; Pop EBP; Ret].

(** [new_context] is [&new_process->context], [None] for a NULL process.  The
    processor when the new process runs, and [current_context] at that time:
    the assignment behind the call of [context_switch] runs only when the old
    process comes back. *)
Definition switch_to_process (return_address : Z) (new_context : option Z) (current_context : Z) (c : cpu) : cpu * Z :=
  match new_context with
  | None => (c, current_context)
  | Some new =>
      if negb (current_context =? 0) then
        (run context_switch (push return_address (push current_context (push new c))), current_context)
      else (run (first_switch new) c, new)
  end.

Definition setup_process_context (stack entry_point : Z) (x : Process.cpu_context_t) : Process.cpu_context_t :=
  Process.context_init x entry_point (stack +u Process.STACK_SIZE).

(** The first switch takes the registers from the structure, but its [ret]
    takes the stack pointer for the address to go to. *)
Lemma first_switch_ok (c : cpu) (new : Z) (x : Process.cpu_context_t) :
  context_at (mem c) new x → inside new 44 →
  eip (run (first_switch new) c) = Process.ctx_esp x ∧ r (run (first_switch new) c) ESP = new + 32.
Proof.
  intros [Hl Hx] Hin. unfold inside in Hin. destruct c as [[a b cx d si di bp sp dd ee ff gg] fl ip m].
  assert (m (new + 28) = Process.ctx_esp x) as He.
  { specialize (Hx 7%nat (Process.ctx_esp x)). cbn [mem] in Hx. apply Hx. unfold words. rewrite lookup_app_r by lia. by rewrite Hl. }
  assert (∃ c', run (first_switch new) {| regs := Build_regfile a b cx d si di bp sp dd ee ff gg; flags := fl; eip := ip; mem := m |} = c' ∧
    eip c' = Process.ctx_esp x ∧ r c' ESP = new + 32) as (c' & -> & H1 & H2); [|done].
  eexists. split; [unfold first_switch; do 9 step; reflexivity|]. cbn [run foldl eip r regs get esp]. done.
Qed.

(** ** Examples *)

(** A process that calls [context_switch(0x3000, 0x4000)], and one that calls it
    the other way round *)
Definition caller : cpu :=
  {| regs := {| eax := 1; ebx := 2; ecx := 3; edx := 4; esi := 5; edi := 6; ebp := 0x2100; esp := 0x2000;
                ds := 16; es := 16; fs := 16; gs := 16 |};
     flags := 0x202; eip := 0; mem := upd 0x2000 0x100 (upd 0x2004 0x3000 (upd 0x2008 0x4000 (λ _, 0))) |}.
Definition other_caller : cpu :=
  {| regs := set ESP 0x5000 (regs caller); flags := 0x202; eip := 0;
     mem := upd 0x5004 0x4000 (upd 0x5008 0x3000 (mem (run save_context caller))) |}.

Lemma caller_call : switch_call caller 0x3000 0x4000.
Proof. split; [reflexivity|reflexivity|by split|by split|right; vm_compute; discriminate]. Qed.
Lemma other_call : switch_call other_caller 0x4000 0x3000.
Proof. split; [reflexivity|reflexivity|by split|by split|left; vm_compute; discriminate]. Qed.

Lemma context_switch_misreturns_witness :
  ∃ c3, run context_switch other_caller = c3 ∧
    eip c3 = r caller EBP ∧ r c3 ESP = r caller ESP ∧ flags c3 = flags caller ∧
    r c3 EBP = r caller EAX ∧ r c3 EAX = r caller EBX ∧ r c3 EBX = r caller ECX ∧ r c3 ECX = r caller EDX ∧
    r c3 EDX = r caller ESI ∧ r c3 ESI = r caller EDI ∧ r c3 EDI = r caller ESP - 4.
Proof.
  apply (context_switch_misreturns caller other_caller 0x3000 0x4000 0x4000 caller_call other_call).
  - intros a Ha. change (r caller ESP) with 8192 in Ha. cbn [other_caller mem]. by rewrite !upd_other by lia.
  - right. vm_compute. discriminate.
  - right. vm_compute. discriminate.
  - right. vm_compute. discriminate.
  - right. vm_compute. discriminate.
Defined.

Definition initialiser : cpu :=
  {| regs := regs caller; flags := 0x202; eip := 0;
     mem := upd 0x2000 0x100 (upd 0x2004 0x6000 (upd 0x2008 0x101000 (upd 0x200C 0x6000 (λ _, 0)))) |}.

Lemma zero_context_at m p : (∀ a, p <= a < p + 44 → m a = 0) → context_at m p Process.zero_context.
Proof.
  intros Hm. split; [done|]. intros i v Hi. pose proof (lookup_lt_Some _ _ _ Hi) as Hlen. cbn in Hlen. rewrite Hm by lia.
  do 11 (destruct i as [|i]; [by injection Hi as <-|]). done.
Qed.

Lemma context_init_refines_witness :
  ∃ c', run context_init initialiser = c' ∧
    context_at (mem c') 0x6000 (Process.context_init Process.zero_context 0x101000 0x6000) ∧
    eip c' = mem initialiser (r initialiser ESP) ∧ r c' ESP = r initialiser ESP + 4 ∧ r c' EBP = r initialiser EBP ∧
    r c' ESI = r initialiser ESI ∧ r c' EDI = r initialiser EDI ∧ r c' EBX = 0x101000 ∧
    ∀ a, a < r initialiser ESP - 12 ∨ r initialiser ESP <= a → a < 0x6000 ∨ 0x6000 + 40 <= a → mem c' a = mem initialiser a.
Proof.
  apply (context_init_refines initialiser 0x6000 0x101000 0x6000 Process.zero_context);
    [reflexivity|reflexivity|reflexivity|by split|by split|right; vm_compute; discriminate|].
  apply zero_context_at. intros a Ha. cbn [initialiser mem]. by rewrite !upd_other by lia.
Defined.

(** The structure just initialised, at the address 0x4000 *)
Definition starter : cpu :=
  {| regs := regs caller; flags := 0x202; eip := 0;
     mem := upd 0x401C 0x4000 (upd 0x4020 0x101000 (upd 0x4024 0x202 (mem caller))) |}.

Lemma new_process_never_starts_witness :
  ∃ c', run context_switch starter = c' ∧ eip c' = 0x4000 ∧ r c' ESP = 0x4000 + 32 ∧ flags c' = 0x202 ∧
    Forall (λ y, r c' y = 0) [EAX; EBX; ECX; EDX; ESI; EDI; EBP].
Proof.
  apply (new_process_never_starts starter 0x3000 0x4000 0x101000 Process.zero_context).
  - split; [reflexivity|reflexivity|by split|by split|right; vm_compute; discriminate].
  - split; [done|]. intros i v Hi. do 11 (destruct i as [|i]; [by injection Hi as <-|]). done.
  - by split.
  - right. vm_compute. discriminate.
  - right. vm_compute. discriminate.
Defined.

Lemma irq_stub_transparent_witness :
  let p := r caller ESP - 56 in
  ∃ c1, run (irq_entry 33) caller = c1 ∧ r c1 ESP = p - 4 ∧ mem c1 (p - 4) = p ∧ flags c1 = Z.ldiff (flags caller) IF ∧
    frame_at (mem c1) p =
      {| Idt.gs := r caller GS; Idt.fs := r caller FS; Idt.es := r caller ES; Idt.ds := r caller DS; Idt.edi := r caller EDI;
         Idt.esi := r caller ESI; Idt.ebp := r caller EBP; Idt.esp_dummy := r caller ESP - 8; Idt.ebx := r caller EBX;
         Idt.edx := r caller EDX; Idt.ecx := r caller ECX; Idt.eax := r caller EAX; Idt.int_no := 33; Idt.err_code := 0;
         Idt.eip := mem caller (r caller ESP); Idt.cs := mem caller (r caller ESP + 4);
         Idt.eflags := mem caller (r caller ESP + 8); Idt.useresp := mem caller (r caller ESP + 12);
         Idt.ss := mem caller (r caller ESP + 16) |} ∧
    (∀ a, r caller ESP <= a → mem c1 a = mem caller a) ∧
  ∀ c2, r c2 ESP = p - 4 →
    let f := frame_at (mem c2) p in
    run irq_exit c2 =
      {| regs := {| eax := Idt.eax f; ebx := Idt.ebx f; ecx := Idt.ecx f; edx := Idt.edx f; esi := Idt.esi f; edi := Idt.edi f;
                    ebp := Idt.ebp f; esp := r caller ESP + 12; ds := u16 (Idt.ds f); es := u16 (Idt.es f);
                    fs := u16 (Idt.fs f); gs := u16 (Idt.gs f) |};
         flags := Idt.eflags f; eip := Idt.eip f; mem := mem c2 |}.
Proof. apply (irq_stub_transparent caller 33). by split. Defined.

End Context.
