(* ===== verification/Segments.v ===== *)
(** * Segments: the descriptor table and the entry of the kernel
    (boot/debug_boot.asm, kernel/entry.s)

    The processor's check of the selectors that are loaded into the data
    segment registers, against the table the boot loader sets up, and runs of
    instructions that such a load can stop. *)
From S2P Require Import Prelude Context.

Module Segments.

(** A descriptor table is a list of bytes.  A data segment register takes a
    null selector, or one whose descriptor lies inside the table, is present,
    a readable segment, and not more privileged than the code (which runs in
    ring 0) and the selector ask for.  The local table (bit 2 of a selector)
    is never loaded. *)
Definition gdt : list Z :=
  replicate 8 0 ++ [0xFF; 0xFF; 0; 0; 0; 0x9A; 0xCF; 0] ++ [0xFF; 0xFF; 0; 0; 0; 0x92; 0xCF; 0].

Definition loads (table : list Z) (sel : Z) : bool :=
  (sel / 4 =? 0) ||
  ((sel / 4 mod 2 =? 0) &&
   match table.[8 * (sel / 8) + 5], table.[8 * (sel / 8) + 7] with
   | Some access, Some _ =>
       Z.testbit access 7 && Z.testbit access 4 && (negb (Z.testbit access 3) || Z.testbit access 1) &&
       (sel mod 4 <=? Z.shiftr access 5 mod 4)
   | _, _ => false
   end).

(** A run ends, or is stopped by the processor at the instruction that faults,
    with the instructions still to come. *)
Inductive outcome : Type :=
| Ran (c : Context.cpu)
| Fault (rest : list Context.instr) (c : Context.cpu).

Fixpoint run (table : list Z) (l : list Context.instr) (c : Context.cpu) : outcome :=
  match l with
  | [] => Ran c
  | Context.MovSeg x :: l' =>
      if loads table (u16 (Context.r c Context.EAX)) then run table l' (Context.exec (Context.MovSeg x) c) else Fault l c
  | i :: l' => run table l' (Context.exec i c)
  end.

Lemma ax_loaded a v : 0 <= v < 65536 → u16 (a - u16 a + v) = v.
Proof. unfold u16. intros Hv. Z.div_mod_to_equations. lia. Qed.

Definition loads_segment (i : Context.instr) : bool := match i with Context.MovSeg _ => true | _ => false end.

Lemma run_plain table l c : forallb (λ i, negb (loads_segment i)) l = true → run table l c = Ran (Context.run l c).
Proof.
  revert c. induction l as [|i l IH]; intros c Hl; [done|]. cbn [forallb] in Hl. apply andb_true_iff in Hl as [Hi Hl].
  rewrite Context.run_cons, <- IH by done. by destruct i.
Qed.
Lemma run_segment table x l c :
  loads table (u16 (Context.r c Context.EAX)) = true →
  run table (Context.MovSeg x :: l) c = run table l (Context.exec (Context.MovSeg x) c).
Proof. intros E. cbn [run]. by rewrite E. Qed.
Lemma segment_keeps_ax x c :
  x ≠ Context.EAX → Context.r (Context.exec (Context.MovSeg x) c) Context.EAX = Context.r c Context.EAX.
Proof. destruct c as [[] ? ? ?]. by destruct x. Qed.

(** The four data segments, by way of ax *)
Definition load_segments (v : Z) : list Context.instr :=
  [Context.MovAx v; Context.MovSeg Context.DS; Context.MovSeg Context.ES; Context.MovSeg Context.FS; Context.MovSeg Context.GS].

Lemma run_load_segments table v l c :
  loads table v = true → 0 <= v < 65536 →
  run table (load_segments v ++ l) c = run table l (Context.run (load_segments v) c).
Proof.
  intros Hv Hr. unfold load_segments. cbn [app]. rewrite !Context.run_cons.
  change (run table (?i :: ?l) c) with (run table l (Context.exec i c)). set (c1 := Context.exec (Context.MovAx v) c).
  assert (loads table (u16 (Context.r c1 Context.EAX)) = true) as E.
  { assert (u16 (Context.r c1 Context.EAX) = v) as ->; [|done]. subst c1. destruct c as [[] ? ? ?]. by apply ax_loaded. }
  by do 4 (rewrite run_segment by (by rewrite ?segment_keeps_ax)).
Qed.

(** ** kernel/entry.s

    Up to the call of [kmain]; the load of ss is left out with that register.
    The BSS section, which the image on disk does not contain, is not
    cleared. *)
Definition entry (stack_top : Z) : list Context.instr :=
  Context.Cli :: load_segments 0x10 ++ [Context.MovImm stack_top Context.ESP; Context.Cld].

(** Under the boot loader's table the entry runs to the call: the kernel
    starts on its own stack, with its data segments, with interrupts and the
    direction flag off, and memory as the boot loader left it. *)
Lemma entry_ok stack_top c :
  ∃ c', run gdt (entry stack_top) c = Ran c' ∧ Context.r c' Context.ESP = stack_top ∧
    Forall (λ s, Context.r c' s = 0x10) [Context.DS; Context.ES; Context.FS; Context.GS] ∧
    Context.flags c' = Z.ldiff (Z.ldiff (Context.flags c) Context.IF) Context.DF ∧ Context.mem c' = Context.mem c.
Proof.
  unfold entry. change (run gdt (Context.Cli :: ?l) c) with (run gdt l (Context.exec Context.Cli c)).
  rewrite run_load_segments by done. rewrite run_plain by done. eexists. split; [done|].
  destruct c as [[a] fl ip m]. cbn -[u16 Z.ldiff]. split; [done|]. split; [|done]. repeat constructor; cbn -[u16]; by apply ax_loaded.
Qed.

End Segments.
