(* ===== verification/Ipc.v ===== *)
(** * Ipc: the kernel message queue (kernel/ipc.c)

    The sender and the receiver are the process [process_get_current] returns
    (file Process); dereferencing it when there is none is undefined. *)
From S2P Require Import Prelude CString Ring Process.
Import Process.

Module Ipc.

Definition MAX_MSG_SIZE : Z := 256.
Definition MAX_MESSAGES : nat := 16.
#[global] Arguments MAX_MESSAGES : simpl never.

Record ipc_msg_t := {
  msg_sender : Z;
  msg_receiver : Z;
  msg_type : Z;
  msg_length : Z;
  msg_data : list Z;
}.

Record ipc_state := {
  message_queue : list ipc_msg_t;
  queue_head : nat;
  queue_tail : nat;
  queue_count : nat;
}.

Definition zero_msg : ipc_msg_t :=
  {| msg_sender := 0; msg_receiver := 0; msg_type := 0; msg_length := 0;
     msg_data := replicate (Z.to_nat MAX_MSG_SIZE) 0 |}.

Definition ipc_bss : ipc_state :=
  {| message_queue := replicate MAX_MESSAGES zero_msg; queue_head := 0; queue_tail := 0; queue_count := 0 |}.

Definition ipc_init (s : ipc_state) : ipc_state :=
  {| message_queue := message_queue s; queue_head := 0; queue_tail := 0; queue_count := 0 |}.

(** [process_get_current()->pid] *)
Definition current_pid (ps : process_system) : option Z :=
  i ← process_get_current ps; p ← processes ps !! i; Some (pid p).

(** The slot at [queue_tail] after its fields are assigned. *)
Definition fill_msg (slot : ipc_msg_t) (sender receiver type : Z) (data : option (list Z)) (len : Z)
    : option ipc_msg_t :=
  d ← (match data with
       | Some buf => if 0 <? len then memcpy (msg_data slot) buf (Z.to_nat len) else Some (msg_data slot)
       | None => Some (msg_data slot)
       end);
  Some {| msg_sender := sender; msg_receiver := receiver; msg_type := type; msg_length := len;
          msg_data := d |}.

Definition ipc_send (receiver type : Z) (data : option (list Z)) (len : Z)
    (ps : process_system) (s : ipc_state) : option (Z * ipc_state) :=
  if bool_decide (MAX_MESSAGES ≤ queue_count s)%nat then Some (-1, s)
  else if MAX_MSG_SIZE <? len then Some (-2, s)
  else
    slot ← message_queue s !! queue_tail s;
    sender ← current_pid ps;
    msg ← fill_msg slot sender receiver type data len;
    Some (0, {| message_queue := <[queue_tail s := msg]> (message_queue s);
                queue_head := queue_head s;
                queue_tail := (queue_tail s + 1) mod MAX_MESSAGES;
                queue_count := queue_count s + 1 |}).

Definition msg_matches (current sender : Z) (candidate : ipc_msg_t) : bool :=
  (msg_receiver candidate =? current) && ((sender =? 0) || (msg_sender candidate =? sender)).

(** The search loop over [i < queue_count]. *)
Fixpoint ipc_search (n i : nat) (current sender : Z) (s : ipc_state) : option (option (nat * ipc_msg_t)) :=
  match n with
  | O => Some None
  | S n =>
      candidate ← message_queue s !! ((queue_head s + i) mod MAX_MESSAGES)%nat;
      if msg_matches current sender candidate then Some (Some (i, candidate))
      else ipc_search n (S i) current sender s
  end.

(** [for (j = i; j < queue_count - 1; j++) message_queue[dst] = message_queue[src];] *)
Fixpoint ipc_shift (n j head : nat) (q : list ipc_msg_t) : option (list ipc_msg_t) :=
  match n with
  | O => Some q
  | S n =>
      m ← q !! ((head + j + 1) mod MAX_MESSAGES)%nat;
      ipc_shift n (S j) head (<[((head + j) mod MAX_MESSAGES)%nat := m]> q)
  end.

(** The message copied through the output pointer is returned beside the status. *)
Definition ipc_receive (sender : Z) (ps : process_system) (s : ipc_state)
    : option (Z * option ipc_msg_t * ipc_state) :=
  if bool_decide (queue_count s = 0%nat) then Some (-1, None, s)
  else
    current ← current_pid ps;
    r ← ipc_search (queue_count s) 0 current sender s;
    match r with
    | Some (i, msg) =>
        q ← ipc_shift (queue_count s - 1 - i) i (queue_head s) (message_queue s);
        Some (0, Some msg, {| message_queue := q; queue_head := queue_head s;
                              queue_tail := queue_tail s; queue_count := queue_count s - 1 |})
    | None => Some (-1, None, s)
    end.

(** ** The messages queued

    [queue_head] is 0 at all times: the queue is the first [queue_count]
    slots of the array. *)
Record ipc_ok (s : ipc_state) : Prop := {
  ok_len : length (message_queue s) = MAX_MESSAGES;
  ok_head : queue_head s = 0%nat;
  ok_tail : (queue_tail s < MAX_MESSAGES)%nat;
  ok_count : (queue_count s ≤ MAX_MESSAGES)%nat;
  ok_data : Forall (λ m, zlen (msg_data m) = MAX_MSG_SIZE) (message_queue s);
}.

Definition pending (s : ipc_state) : list ipc_msg_t := take (queue_count s) (message_queue s).

(** [queue_tail] points just behind the last message: true while nothing has
    been received. *)
Definition tail_in_place (s : ipc_state) : Prop := queue_tail s = (queue_count s mod MAX_MESSAGES)%nat.

Section facts.
Context (ps : process_system) (me : Z) (Hme : current_pid ps = Some me).

Lemma ipc_search_spec n i sender s :
  ipc_ok s → (i + n = queue_count s)%nat →
  ipc_search n i me sender s =
    Some (match find_first (msg_matches me sender) (drop i (pending s)) with
          | Some k => (λ m, ((i + k)%nat, m)) <$> pending s !! (i + k)%nat
          | None => None
          end).
Proof.
  intros Hok. revert i. induction n as [|n IH]; intros i Hi; cbn [ipc_search].
  - rewrite drop_ge; [done|]. unfold pending. rewrite length_take. lia.
  - rewrite (ok_head s Hok), Nat.add_0_l, Nat.mod_small by (pose proof (ok_count s Hok); lia).
    destruct (lookup_lt_is_Some_2 (message_queue s) i) as [m Hm].
    { rewrite (ok_len s Hok). pose proof (ok_count s Hok). lia. }
    rewrite Hm. cbn [mbind option_bind].
    assert (pending s !! i = Some m) as Hp by (unfold pending; rewrite lookup_take_lt by lia; done).
    rewrite (drop_S _ m) by done. cbn [find_first]. destruct (msg_matches me sender m).
    + cbn. rewrite Nat.add_0_r, Hp. done.
    + rewrite IH by lia. f_equal. destruct (find_first _ _) as [k|]; [|done]. cbn.
      by rewrite Nat.add_succ_r.
Qed.

(** The shift loop deletes slot [j] of the first [j + n + 1] and leaves the
    slots from [j + n] on. *)
Lemma ipc_shift_spec n j q :
  length q = MAX_MESSAGES → (j + n < MAX_MESSAGES)%nat →
  ∃ q', ipc_shift n j 0 q = Some q' ∧ length q' = MAX_MESSAGES ∧
    ∀ k, q' !! k = if decide (j ≤ k < j + n)%nat then q !! S k else q !! k.
Proof.
  revert j q. induction n as [|n IH]; intros j q Hq Hj; cbn [ipc_shift].
  - exists q. split_and!; try done. intros k. by rewrite decide_False by lia.
  - rewrite !Nat.add_0_l, !Nat.mod_small by lia.
    destruct (lookup_lt_is_Some_2 q (j + 1)) as [m Hm]; [lia|]. rewrite Hm. cbn [mbind option_bind].
    destruct (IH (S j) (<[j := m]> q)) as (q' & E & Hl & Hk); [by rewrite length_insert|lia|].
    exists q'. split; [done|]. split; [done|]. intros k. rewrite Hk.
    destruct (decide (k = j)) as [->|Hne].
    + rewrite decide_False, decide_True by lia. rewrite list_lookup_insert_eq by lia.
      by rewrite <- Hm, Nat.add_1_r.
    + destruct (decide (S j ≤ k < S j + n)%nat); destruct (decide (j ≤ k < j + S n)%nat); try lia;
        by rewrite list_lookup_insert_ne by lia.
Qed.

(** The oldest message for this process from [sender] (0: from anyone). *)
Lemma ipc_receive_cases sender s :
  ipc_ok s →
  match find_first (msg_matches me sender) (pending s) with
  | Some i => ∃ m s', pending s !! i = Some m ∧ ipc_receive sender ps s = Some (0, Some m, s') ∧
      ipc_ok s' ∧ pending s' = delete i (pending s) ∧ queue_tail s' = queue_tail s ∧
      S (queue_count s') = queue_count s ∧
      message_queue s' !! queue_count s' = message_queue s !! queue_count s'
  | None => ipc_receive sender ps s = Some (-1, None, s)
  end.
Proof.
  intros Hok. unfold ipc_receive. rewrite Hme. cbn [mbind option_bind].
  pose proof (ipc_search_spec (queue_count s) 0 sender s Hok eq_refl) as E. rewrite drop_0 in E.
  pose proof (ok_len s Hok) as Hlen. pose proof (ok_count s Hok) as Hcount.
  assert (length (pending s) = queue_count s) as Hpl by (unfold pending; rewrite length_take; lia).
  destruct (find_first (msg_matches me sender) (pending s)) as [i|] eqn:Hi.
  2: { rewrite E. cbn. by case_bool_decide. }
  apply find_first_lt in Hi. rewrite (bool_decide_eq_false_2 (queue_count s = 0%nat)) by lia.
  destruct (lookup_lt_is_Some_2 (pending s) i Hi) as [m Hm].
  rewrite E. cbn [mbind option_bind]. rewrite Nat.add_0_l, Hm. cbn [fmap option_fmap option_map].
  rewrite (ok_head s Hok).
  destruct (ipc_shift_spec (queue_count s - 1 - i) i (message_queue s)) as (q & -> & Hq & Hk); [done|lia|].
  cbn [mbind option_bind]. exists m. eexists. split; [done|]. split; [reflexivity|].
  split; [split; cbn; [done|done|apply Hok|lia|]|].
  - apply Forall_lookup_2. intros k m'. rewrite Hk.
    destruct (decide _); intros Hm'; eapply Forall_lookup_1 in Hm'; try apply Hok; done.
  - unfold pending. cbn [queue_count message_queue queue_tail]. split_and!; [|done|lia|].
    + apply list_eq. intros k.
      destruct (decide (k < queue_count s - 1)%nat) as [Hkc|Hkc].
      * rewrite lookup_take_lt, Hk by lia. destruct (decide (k < i)%nat) as [Hki|Hki].
        -- rewrite decide_False by lia. rewrite list_lookup_delete_lt, lookup_take_lt by lia. done.
        -- rewrite decide_True by lia. rewrite list_lookup_delete_ge, lookup_take_lt by lia. done.
      * rewrite !lookup_ge_None_2; [done| |].
        -- rewrite length_delete, length_take; [lia|]. apply lookup_lt_is_Some_2. rewrite length_take. lia.
        -- rewrite length_take. lia.
    + rewrite Hk, decide_False by lia. done.
Qed.

(** [ipc_send] of a message that fits. *)
Lemma ipc_send_cases receiver type buf s :
  ipc_ok s → zlen buf <= MAX_MSG_SIZE →
  if bool_decide (queue_count s < MAX_MESSAGES)%nat
  then ∃ msg s', ipc_send receiver type (Some buf) (zlen buf) ps s = Some (0, s') ∧ ipc_ok s' ∧
      queue_count s' = S (queue_count s) ∧
      queue_tail s' = ((queue_tail s + 1) mod MAX_MESSAGES)%nat ∧
      message_queue s' = <[queue_tail s := msg]> (message_queue s) ∧
      msg_sender msg = me ∧ msg_receiver msg = receiver ∧ msg_type msg = type ∧
      msg_length msg = zlen buf ∧ take (length buf) (msg_data msg) = buf
  else ipc_send receiver type (Some buf) (zlen buf) ps s = Some (-1, s).
Proof.
  intros Hok Hbuf. unfold ipc_send. pose proof (ok_len s Hok) as Hlen. pose proof (ok_tail s Hok) as Htail.
  destruct (decide (queue_count s < MAX_MESSAGES)%nat) as [Hc|Hc].
  2: { rewrite (bool_decide_eq_false_2 _ Hc). by rewrite bool_decide_eq_true_2 by lia. }
  rewrite (bool_decide_eq_true_2 _ Hc), bool_decide_eq_false_2 by lia.
  destruct (Z.ltb_spec MAX_MSG_SIZE (zlen buf)) as [|_]; [lia|].
  destruct (lookup_lt_is_Some_2 (message_queue s) (queue_tail s)) as [slot Hslot]; [lia|].
  rewrite Hslot, Hme. cbn [mbind option_bind]. unfold fill_msg.
  assert (length (msg_data slot) = Z.to_nat MAX_MSG_SIZE) as Hd.
  { pose proof (Forall_lookup_1 _ _ _ _ (ok_data s Hok) Hslot) as H. unfold zlen in H. lia. }
  assert (∃ d, (if 0 <? zlen buf then memcpy (msg_data slot) buf (Z.to_nat (zlen buf)) else Some (msg_data slot))
      = Some d ∧ zlen d = MAX_MSG_SIZE ∧ take (length buf) d = buf) as (d & -> & Hdl & Hdt).
  { destruct (Z.ltb_spec 0 (zlen buf)) as [Hpos|Hz].
    - unfold zlen in *. rewrite memcpy_spec by lia. eexists. split; [done|]. rewrite Nat2Z.id, firstn_all.
      split; [rewrite length_app, length_drop; lia|]. by rewrite take_app_length.
    - destruct buf; [|unfold zlen in Hz; simpl in Hz; lia]. eexists. split; [done|]. split; [unfold zlen, MAX_MSG_SIZE in *; lia|done]. }
  cbn [mbind option_bind]. eexists _, _. split; [reflexivity|]. cbn [message_queue queue_count queue_tail].
  split; [|split_and!; [lia|done|reflexivity|done..]].
  split; cbn; [by rewrite length_insert|apply Hok|apply mod_lt; unfold MAX_MESSAGES; lia|lia|].
  apply Forall_insert; [apply Hok|done].
Qed.

(** While the tail is in place a send appends. *)
Lemma ipc_send_append receiver type buf s :
  ipc_ok s → tail_in_place s → zlen buf <= MAX_MSG_SIZE → (queue_count s < MAX_MESSAGES)%nat →
  ∃ msg s', ipc_send receiver type (Some buf) (zlen buf) ps s = Some (0, s') ∧ ipc_ok s' ∧
    tail_in_place s' ∧ pending s' = pending s ++ [msg] ∧
    msg_sender msg = me ∧ msg_receiver msg = receiver ∧ msg_type msg = type ∧
    msg_length msg = zlen buf ∧ take (length buf) (msg_data msg) = buf.
Proof.
  intros Hok Htail Hbuf Hc. pose proof (ipc_send_cases receiver type buf s Hok Hbuf) as H.
  rewrite bool_decide_eq_true_2 in H by done.
  destruct H as (msg & s' & E & Hok' & Hc' & Ht' & Hq & Hfields). exists msg, s'.
  unfold tail_in_place in *. rewrite Nat.mod_small in Htail by done.
  split; [done|]. split; [done|]. split; [|split; [|done]].
  - rewrite Ht', Htail, Hc'. by rewrite Nat.add_1_r.
  - unfold pending. rewrite Hc', Hq, Htail. apply take_S_insert. rewrite (ok_len s Hok). done.
Qed.

(** ** Sends only: a bounded FIFO *)
Record request := { req_receiver : Z; req_type : Z; req_data : list Z }.

Definition request_of (m : ipc_msg_t) : request :=
  {| req_receiver := msg_receiver m; req_type := msg_type m;
     req_data := take (Z.to_nat (msg_length m)) (msg_data m) |}.

(** The requests sent one after the other, and the statuses returned. *)
Fixpoint send_all (rs : list request) (s : ipc_state) : option (list Z * ipc_state) :=
  match rs with
  | [] => Some ([], s)
  | r :: rs =>
      '(st, s) ← ipc_send (req_receiver r) (req_type r) (Some (req_data r)) (zlen (req_data r)) ps s;
      '(sts, s) ← send_all rs s;
      Some (st :: sts, s)
  end.

Lemma send_all_ok rs s :
  ipc_ok s → tail_in_place s → Forall (λ r, zlen (req_data r) <= MAX_MSG_SIZE) rs →
  ∃ sts s', send_all rs s = Some (sts, s') ∧ ipc_ok s' ∧ tail_in_place s' ∧
    request_of <$> pending s' = take MAX_MESSAGES ((request_of <$> pending s) ++ rs) ∧
    sts = (λ i, if bool_decide (queue_count s + i < MAX_MESSAGES)%nat then 0 else -1) <$> seq 0 (length rs) ∧
    Forall (λ m, m ∈ pending s ∨ msg_sender m = me) (pending s').
Proof.
  intros Hok Htail Hrs. revert s Hok Htail. induction Hrs as [|r rs Hr Hrs IH]; intros s Hok Htail.
  { exists [], s. split_and!; try done.
    - rewrite app_nil_r, take_ge; [done|]. rewrite length_fmap. unfold pending. rewrite length_take.
      pose proof (ok_count s Hok). lia.
    - apply Forall_forall. by left. }
  cbn [send_all]. pose proof (ok_count s Hok) as Hc. pose proof (ok_len s Hok) as Hl.
  assert (length (request_of <$> pending s) = queue_count s) as Hpl
    by (rewrite length_fmap; unfold pending; rewrite length_take; lia).
  destruct (decide (queue_count s < MAX_MESSAGES)%nat) as [Hroom|Hfull].
  - destruct (ipc_send_append (req_receiver r) (req_type r) (req_data r) s Hok Htail Hr Hroom)
      as (msg & s1 & -> & Hok1 & Htail1 & Hp1 & Hsender & Hrcv & Hty & Hlen & Hdata).
    cbn [mbind option_bind].
    destruct (IH s1 Hok1 Htail1) as (sts & s' & -> & Hok' & Htail' & Hp' & Hsts & Hall). cbn [mbind option_bind].
    assert (request_of msg = r) as Hreq.
    { unfold request_of. rewrite Hrcv, Hty, Hlen. unfold zlen. rewrite Nat2Z.id, Hdata. by destruct r. }
    assert (queue_count s1 = S (queue_count s)) as Hc1.
    { apply (f_equal length) in Hp1. unfold pending in Hp1.
      rewrite length_app, !length_take, (ok_len s1 Hok1), Hl in Hp1. pose proof (ok_count s1 Hok1). simpl in Hp1. lia. }
    eexists _, s'. split; [reflexivity|]. split_and!; [done|done| | |].
    + rewrite Hp', Hp1, fmap_app, <- app_assoc. cbn. by rewrite Hreq.
    + cbn [length seq fmap list_fmap]. rewrite Nat.add_0_r, bool_decide_eq_true_2 by done. f_equal.
      rewrite Hsts, <- fmap_S_seq, <- list_fmap_compose. apply list_fmap_ext. intros i x _. cbn.
      by rewrite Hc1, Nat.add_succ_r.
    + eapply Forall_impl; [exact Hall|]. cbn. rewrite Hp1. intros m [Hm|]; [|by right].
      apply elem_of_app in Hm as [|Hm]; [by left|right]. by apply list_elem_of_singleton in Hm as ->.
  - pose proof (ipc_send_cases (req_receiver r) (req_type r) (req_data r) s Hok Hr) as H.
    rewrite bool_decide_eq_false_2 in H by done. rewrite H. cbn [mbind option_bind].
    destruct (IH s Hok Htail) as (sts & s' & -> & Hok' & Htail' & Hp' & Hsts & Hall). cbn [mbind option_bind].
    eexists _, s'. split; [reflexivity|]. split_and!; [done|done| | |done].
    + rewrite Hp', !take_app_le by lia. done.
    + cbn [length seq fmap list_fmap]. rewrite Nat.add_0_r, bool_decide_eq_false_2 by done. f_equal.
      rewrite Hsts, <- fmap_S_seq, <- list_fmap_compose. apply list_fmap_ext. intros i x _. cbn.
      by rewrite !bool_decide_eq_false_2 by lia.
Qed.

(** Senders see a bounded FIFO: any sequence of [ipc_send]s (payloads of
    at most 256 bytes) on a fresh queue leaves the first 16 requests queued in
    order, each with its receiver, type, payload and the pid of the sending
    process, and returns 0 for those and -1 for the others. *)
Theorem ipc_send_fifo rs :
  Forall (λ r, zlen (req_data r) <= MAX_MSG_SIZE) rs →
  ∃ sts s', send_all rs (ipc_init ipc_bss) = Some (sts, s') ∧
    request_of <$> pending s' = take 16 rs ∧
    Forall (λ m, msg_sender m = me) (pending s') ∧
    sts = (λ i, if bool_decide (i < 16)%nat then 0 else -1) <$> seq 0 (length rs).
Proof.
  intros Hrs. destruct (send_all_ok rs (ipc_init ipc_bss)) as (sts & s' & E & _ & _ & Hp & Hsts & Hall).
  - split; cbn; [done|done|unfold MAX_MESSAGES; lia|lia|by apply Forall_replicate].
  - done.
  - done.
  - exists sts, s'. split; [exact E|]. split; [exact Hp|]. split; [|exact Hsts].
    eapply Forall_impl; [exact Hall|]. intros m [H|H]; [|done]. by apply not_elem_of_nil in H.
Qed.

(** C37. [ipc_receive] delivers the oldest message addressed to the current
    process and sent by [sender] (anyone when [sender] is 0), removes exactly
    that message and keeps the others in order; without one it returns -1 and
    changes nothing. *)
Theorem ipc_receive_oldest_match sender s :
  ipc_ok s →
  match find_first (msg_matches me sender) (pending s) with
  | Some i => ∃ m s', pending s !! i = Some m ∧ ipc_receive sender ps s = Some (0, Some m, s') ∧
      ipc_ok s' ∧ pending s' = delete i (pending s)
  | None => ipc_receive sender ps s = Some (-1, None, s)
  end.
Proof.
  intros Hok. pose proof (ipc_receive_cases sender s Hok) as H.
  destruct (find_first _ _) as [i|]; [|done].
  destruct H as (m & s' & ? & ? & ? & ? & _). by exists m, s'.
Qed.

(** [ipc_receive] does not move [queue_tail] back.  So after a successful
    receive from a queue whose tail was in place and that was not full, the
    next send writes its message one slot too far: what is appended to the
    queue is the message that was last before the receive, again, and the
    new message is not queued at that position. *)
Theorem ipc_send_after_receive_stale sender receiver type buf s m s1 :
  ipc_ok s → tail_in_place s → (queue_count s < MAX_MESSAGES)%nat → zlen buf <= MAX_MSG_SIZE →
  ipc_receive sender ps s = Some (0, Some m, s1) →
  ∃ s2, ipc_send receiver type (Some buf) (zlen buf) ps s1 = Some (0, s2) ∧
    pending s2 = pending s1 ++ option_list (last (pending s)).
Proof.
  intros Hok Htail Hc Hbuf E. pose proof (ipc_receive_cases sender s Hok) as H.
  destruct (find_first _ _) as [i|]; [|congruence].
  destruct H as (m' & s1' & Hm & E' & Hok1 & Hp1 & Ht1 & Hc1 & Hstale).
  rewrite E in E'. injection E' as <- <-.
  pose proof (ipc_send_cases receiver type buf s1 Hok1 Hbuf) as H.
  rewrite bool_decide_eq_true_2 in H by lia.
  destruct H as (msg & s2 & E2 & Hok2 & Hc2 & _ & Hq & _). exists s2. split; [done|].
  pose proof (ok_len s Hok) as Hl. pose proof (ok_len s1 Hok1) as Hl1.
  destruct (lookup_lt_is_Some_2 (message_queue s) (queue_count s1)) as [old Hold]; [lia|].
  assert (last (pending s) = Some old) as ->.
  { unfold pending. rewrite last_lookup, length_take. replace (Nat.pred _) with (queue_count s1) by lia.
    rewrite lookup_take_lt by lia. done. }
  rewrite Hold in Hstale. unfold pending. rewrite Hc2, Hq, Ht1.
  unfold tail_in_place in Htail. rewrite Nat.mod_small in Htail by done.
  rewrite take_insert_ge by lia. by rewrite (take_S_r _ _ old).
Qed.
End facts.

(** ** Concrete instances: the kernel process (pid 0) sends to itself *)
Definition demo_ps : process_system := set_processes [zero_process]
  {| processes := []; next_pid := 1; current_process := 0; scheduler_ticks := 0;
     current_process_ptr := Some 0%nat |}.

Definition demo_requests : list request :=
  [{| req_receiver := 0; req_type := 1; req_data := [65] |};
   {| req_receiver := 3; req_type := 2; req_data := [] |}].

Lemma ipc_send_fifo_witness :
  ∃ sts s', send_all demo_ps demo_requests (ipc_init ipc_bss) = Some (sts, s') ∧
    request_of <$> pending s' = take 16 demo_requests ∧
    Forall (λ m, msg_sender m = 0) (pending s') ∧
    sts = (λ i, if bool_decide (i < 16)%nat then 0 else -1) <$> seq 0 (length demo_requests).
Proof. apply (ipc_send_fifo demo_ps 0 eq_refl). repeat constructor; vm_compute; discriminate. Defined.

(** One message for pid 0, of type 7. *)
Definition demo_msg : ipc_msg_t :=
  {| msg_sender := 0; msg_receiver := 0; msg_type := 7; msg_length := 0; msg_data := replicate 256 0 |}.
Definition demo_state : ipc_state :=
  {| message_queue := demo_msg :: replicate 15 zero_msg; queue_head := 0; queue_tail := 1; queue_count := 1 |}.

Lemma demo_state_ok : ipc_ok demo_state.
Proof.
  split; cbn; [done|done|unfold MAX_MESSAGES; lia|unfold MAX_MESSAGES; lia|].
  apply Forall_cons. split; [done|]. repeat (apply Forall_cons; split; [done|]). done.
Qed.

Lemma ipc_receive_oldest_match_witness :
  match find_first (msg_matches 0 0) (pending demo_state) with
  | Some i => ∃ m s', pending demo_state !! i = Some m ∧
      ipc_receive 0 demo_ps demo_state = Some (0, Some m, s') ∧
      ipc_ok s' ∧ pending s' = delete i (pending demo_state)
  | None => ipc_receive 0 demo_ps demo_state = Some (-1, None, demo_state)
  end.
Proof. exact (ipc_receive_oldest_match demo_ps 0 eq_refl 0 demo_state demo_state_ok). Defined.

Lemma ipc_send_after_receive_stale_witness :
  ∃ s1, ipc_receive 0 demo_ps demo_state = Some (0, Some demo_msg, s1) ∧
  ∃ s2, ipc_send 0 9 (Some [66]) (zlen [66]) demo_ps s1 = Some (0, s2) ∧
    pending s2 = pending s1 ++ option_list (last (pending demo_state)).
Proof.
  eexists. split; [reflexivity|].
  apply (ipc_send_after_receive_stale demo_ps 0 eq_refl 0 0 9 [66] demo_state demo_msg).
  - exact demo_state_ok.
  - reflexivity.
  - unfold MAX_MESSAGES. cbn. lia.
  - vm_compute. discriminate.
  - reflexivity.
Defined.

End Ipc.
