(* ===== verification/Device.v ===== *)
(** * Device: the device registry (kernel/device.c)

    A device record occupies a page of its own, obtained from [alloc_page]
    (file Memory); [dev_at] is what those pages hold and [device_list] the
    address of the first record (0 is NULL).  The function pointers of a
    driver are the fields of [device_ops], over the state [D] of the drivers. *)
From stdpp Require Import gmap.
From S2P Require Import Prelude CString Bitmap Mem Memory.
Import Memory.

Module Device.

Definition DEV_TYPE_BLOCK : Z := 1.
Definition DEV_TYPE_CHAR : Z := 2.
Definition NAME_SIZE : nat := 32.
#[global] Arguments NAME_SIZE : simpl never.

Section device.
Context {D : Type}.

(** [None] is a NULL function pointer; a buffer argument [None] is NULL. *)
Record device_ops := {
  op_open : option (D → option (Z * D));
  op_close : option (D → option (Z * D));
  op_read : option (option (list Z) → Z → D → option (Z * option (list Z) * D));
  op_write : option (option (list Z) → Z → D → option (Z * D));
  op_ioctl : option (Z → option Z → D → option (Z * option Z * D));
}.

Record device_t := {
  dev_name : list Z;
  dev_type : Z;
  dev_major : Z;
  dev_minor : Z;
  dev_ops : option device_ops;
  dev_private_data : Z;
  dev_next : Z;
}.

Record device_state := {
  device_list : Z;
  dev_at : gmap Z device_t;
  dev_mem : memory_state;
}.

Definition device_init (s : device_state) : device_state :=
  {| device_list := 0; dev_at := dev_at s; dev_mem := dev_mem s |}.

(** The bytes a page holds where the name field goes, before it is written. *)
Context (page_bytes : Z → list Z).

Definition device_register (name : list Z) (type major minor : Z) (ops : option device_ops)
    (s : device_state) : option (Z * device_state) :=
  '(dev, m) ← alloc_page (dev_mem s);
  if dev =? 0 then Some (-1, {| device_list := device_list s; dev_at := dev_at s; dev_mem := m |})
  else
    nm ← copy_name (page_bytes dev) name NAME_SIZE;
    let d := {| dev_name := nm; dev_type := type; dev_major := major; dev_minor := minor;
                dev_ops := ops; dev_private_data := 0; dev_next := device_list s |} in
    Some (0, {| device_list := dev; dev_at := <[dev := d]> (dev_at s); dev_mem := m |}).

(** The loop [while (current) { if (test) return; current = current->next; }]:
    the previous record's address (0 for none), the one found and its record. *)
Fixpoint walk (fuel : nat) (nodes : gmap Z device_t) (test : device_t → option bool)
    (prev current : Z) : option (option (Z * Z * device_t)) :=
  match fuel with
  | O => None
  | S fuel =>
      if current =? 0 then Some None
      else
        d ← nodes !! current;
        b ← test d;
        if (b : bool) then Some (Some (prev, current, d))
        else walk fuel nodes test current (dev_next d)
  end.

(** More steps than there are records. *)
Definition walk_fuel (s : device_state) : nat := S (size (dev_at s)).

(** [prev->next = next] *)
Definition set_next (next : Z) (p : device_t) : device_t :=
  {| dev_name := dev_name p; dev_type := dev_type p; dev_major := dev_major p; dev_minor := dev_minor p;
     dev_ops := dev_ops p; dev_private_data := dev_private_data p; dev_next := next |}.

Definition device_unregister (name : list Z) (s : device_state) : option (Z * device_state) :=
  r ← walk (walk_fuel s) (dev_at s) (λ d, streq (dev_name d) name) 0 (device_list s);
  match r with
  | Some (prev, current, d) =>
      nodes ← (if prev =? 0 then Some (dev_at s)
               else p ← dev_at s !! prev;
                    Some (<[prev := set_next (dev_next d) p]> (dev_at s)));
      m ← free_page current (dev_mem s);
      Some (0, {| device_list := if prev =? 0 then dev_next d else device_list s;
                  dev_at := delete current nodes; dev_mem := m |})
  | None => Some (-1, s)
  end.

Definition device_find (name : list Z) (s : device_state) : option (option device_t) :=
  r ← walk (walk_fuel s) (dev_at s) (λ d, streq (dev_name d) name) 0 (device_list s);
  Some (option_map snd r).

Definition device_find_by_number (major minor : Z) (s : device_state) : option (option device_t) :=
  r ← walk (walk_fuel s) (dev_at s)
        (λ d, Some ((dev_major d =? major) && (dev_minor d =? minor))) 0 (device_list s);
  Some (option_map snd r).

(** [!dev || !dev->ops || !dev->ops->op]: the function to call, if any. *)
Definition device_op {F} (op : device_ops → option F) (name : list Z) (s : device_state)
    : option (option F) :=
  dev ← device_find name s;
  Some (match dev with
        | Some d => match dev_ops d with Some ops => op ops | None => None end
        | None => None
        end).

Definition device_open (name : list Z) (s : device_state) (w : D) : option (Z * D) :=
  f ← device_op op_open name s;
  match f with Some open => open w | None => Some (-1, w) end.

Definition device_close (name : list Z) (s : device_state) (w : D) : option (Z * D) :=
  f ← device_op op_close name s;
  match f with Some close => close w | None => Some (-1, w) end.

Definition device_read (name : list Z) (buffer : option (list Z)) (size : Z) (s : device_state) (w : D)
    : option (Z * option (list Z) * D) :=
  f ← device_op op_read name s;
  match f with Some read => read buffer size w | None => Some (-1, buffer, w) end.

Definition device_write (name : list Z) (buffer : option (list Z)) (size : Z) (s : device_state) (w : D)
    : option (Z * D) :=
  f ← device_op op_write name s;
  match f with Some write => write buffer size w | None => Some (-1, w) end.

Definition device_ioctl (name : list Z) (cmd : Z) (arg : option Z) (s : device_state) (w : D)
    : option (Z * option Z * D) :=
  f ← device_op op_ioctl name s;
  match f with Some ioctl => ioctl cmd arg w | None => Some (-1, arg, w) end.

(** ** The registered devices as a list, newest first *)

Fixpoint chain (nodes : gmap Z device_t) (p : Z) (l : list (Z * device_t)) : Prop :=
  match l with
  | [] => p = 0
  | (a, d) :: l => p = a ∧ a ≠ 0 ∧ nodes !! a = Some d ∧ chain nodes (dev_next d) l
  end.

(** What a client sees of a device. *)
Record entry := {
  ent_name : list Z;
  ent_type : Z;
  ent_major : Z;
  ent_minor : Z;
  ent_ops : option device_ops;
}.

Definition entry_of (d : device_t) (e : entry) : Prop :=
  cstr (dev_name d) = Some (ent_name e) ∧ length (dev_name d) = NAME_SIZE ∧
  dev_type d = ent_type e ∧ dev_major d = ent_major e ∧ dev_minor d = ent_minor e ∧ dev_ops d = ent_ops e.

(** The representation: the list hangs together, holds exactly the pages the
    page allocator has handed out, and shows the entries [es]. *)
Definition rep (s : device_state) (l : list (Z * device_t)) (es : list entry) : Prop :=
  chain (dev_at s) (device_list s) l ∧ Forall2 entry_of l.*2 es ∧
  length l = size (dev_at s) ∧ (∀ a, dev_at s !! a = None ∨ a ∈ l.*1) ∧ held_ok l.*1 (dev_mem s).
Definition devices_rep (s : device_state) (es : list entry) : Prop := ∃ l, rep s l es.

(** The specification of the registry. *)
Definition named (n : list Z) (e : entry) : bool := bool_decide (ent_name e = n).
Definition spec_find (n : list Z) (es : list entry) : option entry :=
  i ← find_first (named n) es; es !! i.
Definition spec_unregister (n : list Z) (es : list entry) : list entry :=
  match find_first (named n) es with Some i => delete i es | None => es end.

Definition last_addr (prev : Z) (l : list (Z * device_t)) : Z := default prev (last l.*1).

Lemma walk_spec nodes test q fuel prev p l :
  chain nodes p l → (length l < fuel)%nat → (∀ a d, (a, d) ∈ l → test d = Some (q d)) →
  walk fuel nodes test prev p =
    Some (match find_first q l.*2 with
          | Some i => '(a, d) ← l !! i; Some (last_addr prev (take i l), a, d)
          | None => None
          end).
Proof.
  revert prev p l. induction fuel as [|fuel IH]; intros prev p l Hc Hf Hq; [lia|].
  destruct l as [|[a d] l]; cbn in Hc; cbn [walk].
  - by subst p.
  - destruct Hc as (-> & Ha & Hd & Hc). destruct (Z.eqb_spec a 0) as [|_]; [done|].
    rewrite Hd. cbn [mbind option_bind]. rewrite (Hq a d) by by left. cbn [mbind option_bind fmap list_fmap].
    cbn [find_first snd]. destruct (q d); [done|].
    rewrite (IH a (dev_next d) l); [|done|simpl in Hf; lia|by intros a' d' Hin; apply (Hq a'); right].
    f_equal. destruct (find_first q l.*2) as [i|]; [|done]. cbn [fmap option_fmap option_map].
    cbn. destruct (l !! i) as [[a' d']|] eqn:E; [|done]. cbn. do 3 f_equal.
    unfold last_addr. cbn [fmap list_fmap]. destruct (take i l) as [|x l']; [done|].
    cbn [fmap list_fmap]. rewrite last_cons_cons. by destruct (last (_ :: _)) eqn:E'; [|apply last_None in E'].
Qed.

Lemma find_first_entries n l es :
  Forall2 entry_of l es → ∀ name, cstr name = Some n →
  (∀ d, d ∈ l → streq (dev_name d) name = Some (default false (streq (dev_name d) name))) ∧
  find_first (λ d, default false (streq (dev_name d) name)) l = find_first (named n) es.
Proof.
  intros H name Hn. induction H as [|d e l es (Hname & _) H IH]; [split; [|done]; intros d Hd; by apply not_elem_of_nil in Hd|].
  destruct IH as [IH1 IH2].
  assert (streq (dev_name d) name = Some (named n e)) as E by by apply streq_spec.
  split.
  - intros d' [->|Hd]%elem_of_cons; [by rewrite E|by apply IH1].
  - cbn [find_first]. rewrite E, IH2. done.
Qed.

Lemma spec_find_head n e es : ent_name e = n → spec_find n (e :: es) = Some e.
Proof. intros E. unfold spec_find. cbn [find_first]. unfold named. by rewrite bool_decide_eq_true_2. Qed.

(** ** Each operation implements its specification *)

Lemma device_find_ok s es name n :
  devices_rep s es → cstr name = Some n →
  ∃ r, device_find name s = Some r ∧
    match r, spec_find n es with
    | Some d, Some e => entry_of d e
    | None, None => True
    | _, _ => False
    end.
Proof.
  intros (l & Hchain & Hents & Hsize & _ & _) Hn. unfold device_find, spec_find.
  destruct (find_first_entries n _ _ Hents name Hn) as [Htest Hfind].
  rewrite (walk_spec _ _ (λ d, default false (streq (dev_name d) name)) _ 0 _ l Hchain).
  - rewrite Hfind. cbn [mbind option_bind]. eexists. split; [reflexivity|].
    destruct (find_first (named n) es) as [i|] eqn:Ei; [|done]. cbn [mbind option_bind].
    apply find_first_lt in Ei. destruct (lookup_lt_is_Some_2 es i Ei) as [e He]. rewrite He.
    destruct (Forall2_lookup_r _ _ _ _ _ Hents He) as (d & Hd & Hent).
    rewrite list_lookup_fmap in Hd. destruct (l !! i) as [[a d']|]; [|done]. cbn in *. by simplify_eq.
  - unfold walk_fuel. lia.
  - intros a d Hin. apply Htest. apply list_elem_of_fmap. by exists (a, d).
Qed.

Lemma chain_ext nodes nodes' p l :
  chain nodes p l → (∀ a d, (a, d) ∈ l → nodes' !! a = Some d) → chain nodes' p l.
Proof.
  revert p. induction l as [|[a d] l IH]; intros p Hc H; [done|]. destruct Hc as (-> & Ha & _ & Hc). cbn.
  split_and!; [done|done|apply H; by left|]. apply IH; [done|]. intros a' d' Hin. apply H. by right.
Qed.

Lemma chain_lookup nodes p l a d : chain nodes p l → (a, d) ∈ l → nodes !! a = Some d ∧ a ≠ 0.
Proof.
  revert p. induction l as [|[a' d'] l IH]; intros p Hc Hin; [by apply not_elem_of_nil in Hin|].
  destruct Hc as (-> & Ha & Hd & Hc). apply elem_of_cons in Hin as [[= -> ->]|Hin]; eauto.
Qed.

Lemma chain_replace_last nodes nodes' p l1 ap dp dp' rest rest' :
  chain nodes p (l1 ++ (ap, dp) :: rest) → (∀ a d, (a, d) ∈ l1 → nodes' !! a = Some d) →
  nodes' !! ap = Some dp' → chain nodes' (dev_next dp') rest' →
  chain nodes' p (l1 ++ (ap, dp') :: rest').
Proof.
  revert p. induction l1 as [|[a d] l1 IH]; intros p Hc Hl1 Hap Hrest.
  - destruct Hc as (-> & Ha & _). by split_and!.
  - destruct Hc as (-> & Ha & _ & Hc). cbn. split_and!; [done|done|apply Hl1; by left|].
    apply IH; [done| |done|done]. intros a' d' Hin. apply Hl1. by right.
Qed.

Lemma chain_tail nodes p l1 a d l2 : chain nodes p (l1 ++ (a, d) :: l2) → chain nodes (dev_next d) l2.
Proof.
  revert p. induction l1 as [|[a' d'] l1 IH]; intros p; cbn; [by intros (_ & _ & _ & H)|].
  intros (_ & _ & _ & H). eauto.
Qed.

Hypothesis Hbytes : ∀ a, length (page_bytes a) = NAME_SIZE.

Lemma device_register_ok s es name n type major minor ops :
  devices_rep s es → cstr name = Some n →
  ∃ s', device_register name type major minor ops s =
      Some (if zlen es <? (MAX_PAGES - 256) then 0 else -1, s') ∧
    devices_rep s' (if zlen es <? (MAX_PAGES - 256)
                    then {| ent_name := trunc NAME_SIZE n; ent_type := type; ent_major := major;
                            ent_minor := minor; ent_ops := ops |} :: es
                    else es).
Proof.
  intros (l & Hchain & Hents & Hsize & Hdom & Hheld) Hn. unfold device_register.
  destruct (alloc_page_held _ _ Hheld) as (a & m & -> & Hcase). cbn [mbind option_bind].
  assert (zlen l.*1 = zlen es) as El.
  { unfold zlen. apply Forall2_length in Hents. rewrite !length_fmap in *. lia. }
  rewrite El in Hcase. destruct (zlen es <? (MAX_PAGES - 256)).
  - destruct Hcase as (Hne & Hnew & Hheld'). destruct (Z.eqb_spec a 0) as [|_]; [done|].
    destruct (copy_name_spec (page_bytes a) name n NAME_SIZE Hn) as (nm & -> & Hlen & Hnm);
      [unfold NAME_SIZE; lia|apply Hbytes|]. cbn [mbind option_bind].
    eexists. split; [reflexivity|].
    set (d := {| dev_name := nm; dev_type := type; dev_major := major; dev_minor := minor;
                 dev_ops := ops; dev_private_data := 0; dev_next := device_list s |}).
    assert (∀ d', (a, d') ∉ l) as Hnotin.
    { intros d' Hin. apply Hnew. apply list_elem_of_fmap. by exists (a, d'). }
    exists ((a, d) :: l). unfold rep. cbn [dev_at device_list dev_mem]. split_and!.
    + cbn. split_and!; [done|done|apply lookup_insert_eq|]. eapply chain_ext; [done|].
      intros a' d' Hin. rewrite lookup_insert_ne; [by eapply chain_lookup|].
      intros ->. by apply (Hnotin d').
    + cbn. constructor; [|done]. by split_and!.
    + rewrite map_size_insert_None; [cbn; lia|]. by destruct (Hdom a).
    + intros b. cbn. rewrite elem_of_cons. destruct (decide (b = a)) as [->|Hb]; [by right; left|].
      rewrite lookup_insert_ne by done. destruct (Hdom b); auto.
    + done.
  - destruct Hcase as [-> ->]. eexists. split; [reflexivity|]. by exists l.
Qed.

(** Unlinking record [i]. *)
Lemma unlink_chain nodes p l1 a d l2 :
  chain nodes p (l1 ++ (a, d) :: l2) → NoDup (l1 ++ (a, d) :: l2).*1 →
  ∃ nodes' l1', 
    (if last_addr 0 l1 =? 0 then Some nodes
     else q ← nodes !! last_addr 0 l1; Some (<[last_addr 0 l1 := set_next (dev_next d) q]> nodes)) = Some nodes' ∧
    chain (delete a nodes') (if last_addr 0 l1 =? 0 then dev_next d else p) (l1' ++ l2) ∧
    l1'.*1 = l1.*1 ∧ size nodes' = size nodes ∧ (∀ b, nodes' !! b = None ↔ nodes !! b = None) ∧
    (∀ es, Forall2 entry_of l1.*2 es → Forall2 entry_of l1'.*2 es).
Proof.
  intros Hchain Hnd. pose proof (chain_tail _ _ _ _ _ _ Hchain) as Htail.
  rewrite fmap_app, fmap_cons in Hnd. apply NoDup_app in Hnd as (Hnd1 & Hdis & Hnd2).
  apply NoDup_cons in Hnd2 as [Ha2 Hnd2]. cbn in Ha2, Hdis.
  assert (∀ x e, (x, e) ∈ l2 → nodes !! x = Some e ∧ x ≠ a ∧ x ∉ l1.*1) as Hl2.
  { intros x e Hin. assert (x ∈ l2.*1) as Hx by (apply list_elem_of_fmap; by exists (x, e)).
    split; [eapply chain_lookup; [exact Htail|done]|]. split; [by intros ->|].
    intros Hx1. apply (Hdis x Hx1). by right. }
  destruct (decide (l1 = [])) as [->|Hne].
  - cbn in *. exists nodes, []. split_and!; try done.
    eapply chain_ext; [exact Htail|]. intros x e Hin. destruct (Hl2 x e Hin) as (? & ? & _).
    by rewrite lookup_delete_ne.
  - destruct (exists_last Hne) as (l0 & [ap dp] & ->).
    assert (last_addr 0 (l0 ++ [(ap, dp)]) = ap) as -> by (unfold last_addr; rewrite fmap_app; cbn; by rewrite last_snoc).
    rewrite <- app_assoc in Hchain. cbn [app] in Hchain.
    destruct (chain_lookup _ _ _ ap dp Hchain) as [Hap Hap0]; [by apply elem_of_app; right; left|].
    destruct (Z.eqb_spec ap 0) as [|_]; [done|]. rewrite Hap. cbn [mbind option_bind].
    rewrite fmap_app in Hnd1, Hdis, Hl2. apply NoDup_app in Hnd1 as (Hnd0 & Hdis0 & _). cbn in Hdis0, Hdis, Hl2.
    assert (ap ≠ a) as Hapa by (intros ->; apply (Hdis a); [apply elem_of_app; right; by left|by left]).
    exists (<[ap := set_next (dev_next d) dp]> nodes), (l0 ++ [(ap, set_next (dev_next d) dp)]).
    split; [done|]. split; [|split; [|split; [|split]]].
    + rewrite <- app_assoc. cbn [app]. eapply chain_replace_last; [exact Hchain| | |].
      * intros x e Hin. assert (x ∈ l0.*1) as Hx by (apply list_elem_of_fmap; by exists (x, e)).
        rewrite lookup_delete_ne.
        2: { intros ->. apply (Hdis x); [apply elem_of_app; by left|by left]. }
        rewrite lookup_insert_ne.
        2: { intros ->. apply (Hdis0 x Hx). by left. }
        eapply chain_lookup; [exact Hchain|]. apply elem_of_app. by left.
      * rewrite lookup_delete_ne by done. apply lookup_insert_eq.
      * cbn [dev_next set_next]. eapply chain_ext; [exact Htail|]. intros x e Hin.
        destruct (Hl2 x e Hin) as (? & ? & Hx). rewrite lookup_delete_ne by done.
        rewrite lookup_insert_ne; [done|]. intros ->. apply Hx. apply elem_of_app. right. by left.
    + by rewrite !fmap_app.
    + apply map_size_insert_Some. by rewrite Hap.
    + intros b. destruct (decide (b = ap)) as [->|Hb]; [by rewrite lookup_insert_eq, Hap|].
      by rewrite lookup_insert_ne.
    + intros es. rewrite !fmap_app. intros (es1 & es2 & H1 & H2 & ->)%Forall2_app_inv_l.
      apply Forall2_app; [done|]. cbn in *. inversion H2 as [|? e ? ? He H3]; subst. by constructor.
Qed.

Lemma device_unregister_ok s es name n :
  devices_rep s es → cstr name = Some n →
  ∃ s', device_unregister name s = Some (if bool_decide (is_Some (spec_find n es)) then 0 else -1, s') ∧
    devices_rep s' (spec_unregister n es).
Proof.
  intros (l & Hchain & Hents & Hsize & Hdom & Hheld) Hn. unfold device_unregister.
  destruct (find_first_entries n _ _ Hents name Hn) as [Htest Hfind].
  rewrite (walk_spec _ _ (λ d, default false (streq (dev_name d) name)) _ 0 _ l Hchain);
    [|unfold walk_fuel; lia|intros a d Hin; apply Htest; apply list_elem_of_fmap; by exists (a, d)].
  rewrite Hfind. unfold spec_unregister, spec_find. cbn [mbind option_bind].
  destruct (find_first (named n) es) as [i|] eqn:Ei; [|eexists; split; [reflexivity|by exists l]].
  cbn [mbind option_bind]. apply find_first_lt in Ei. destruct (lookup_lt_is_Some_2 es i Ei) as [e He].
  rewrite bool_decide_eq_true_2 by by rewrite He.
  destruct (lookup_lt_is_Some_2 l i) as [[a d] Hi].
  { apply Forall2_length in Hents. rewrite length_fmap in Hents. lia. }
  rewrite Hi. cbn [mbind option_bind]. pose proof (take_drop_middle l i (a, d) Hi) as Hsplit.
  pose proof (held_nodup _ _ Hheld) as Hnd. rewrite <- Hsplit in Hchain, Hnd.
  destruct (unlink_chain _ _ _ _ _ _ Hchain Hnd) as (nodes' & l1' & E & Hchain' & Hl1 & Hsize' & Hdom' & Hents').
  rewrite E. cbn [mbind option_bind].
  destruct (free_page_held _ _ i a Hheld) as (m & -> & Hheld'); [by rewrite list_lookup_fmap, Hi|].
  cbn [mbind option_bind]. eexists. split; [reflexivity|].
  exists (l1' ++ drop (S i) l). unfold rep. cbn [dev_at device_list dev_mem].
  assert ((l1' ++ drop (S i) l).*1 = delete i l.*1) as Haddr.
  { rewrite fmap_app, Hl1, delete_take_drop, fmap_take, fmap_drop. done. }
  split; [exact Hchain'|]. split; [|split; [|split]].
  - rewrite fmap_app, delete_take_drop. apply Forall2_app.
    + apply Hents'. rewrite fmap_take. by apply Forall2_take.
    + rewrite fmap_drop. by apply Forall2_drop.
  - assert (is_Some (nodes' !! a)) as Hsome.
    { destruct (nodes' !! a) eqn:Ea; [done|]. apply Hdom' in Ea.
      destruct (chain_lookup _ _ _ a d Hchain) as [Ha _]; [apply elem_of_app; right; by left|congruence]. }
    rewrite map_size_delete. destruct (nodes' !! a) as [x|]; [|by destruct Hsome].
    apply (f_equal length) in Hl1. rewrite !length_fmap, length_take in Hl1. rewrite length_app, length_drop.
    apply lookup_lt_Some in Hi. lia.
  - intros b. destruct (decide (b = a)) as [->|Hb]; [left; apply lookup_delete_eq|].
    rewrite lookup_delete_ne by done. rewrite Hdom'. destruct (Hdom b) as [|Hin]; [by left|right].
    rewrite Haddr. rewrite <- Hsplit, fmap_app, fmap_cons in Hin. rewrite delete_take_drop, <- fmap_take, <- fmap_drop.
    apply elem_of_app in Hin as [|[|]%elem_of_cons]; [by apply elem_of_app; left|done|by apply elem_of_app; right].
  - by rewrite Haddr.
Qed.


(** ** What the kernel promises a driver, and expects from it *)

(** The buffer of a transfer is NULL or holds [size] bytes. *)
Definition covers (buffer : option (list Z)) (size : Z) : Prop :=
  0 <= size ∧ ∀ b, buffer = Some b → size <= zlen b.
(** The word an [ioctl] is given *)
Definition word_arg (arg : option Z) : Prop := ∀ v, arg = Some v → 0 <= v < 4294967296.

(** [inv] is the driver's own invariant and [fits size] says that a transfer of
    [size] bytes stays inside the device.  Every function the driver has then
    returns and keeps the invariant, and [ioctl] writes a word only through
    the pointer it was given. *)
Class Driver (inv : D → Prop) (fits : Z → D → Prop) (ops : device_ops) : Prop := {
  driver_open f w : op_open ops = Some f → inv w → ∃ r w', f w = Some (r, w') ∧ inv w';
  driver_close f w : op_close ops = Some f → inv w → ∃ r w', f w = Some (r, w') ∧ inv w';
  driver_read f b size w : op_read ops = Some f → inv w → fits size w → covers b size →
    ∃ r b' w', f b size w = Some (r, b', w') ∧ inv w';
  driver_write f b size w : op_write ops = Some f → inv w → fits size w → covers b size →
    ∃ r w', f b size w = Some (r, w') ∧ inv w';
  driver_ioctl f cmd arg w : op_ioctl ops = Some f → inv w → word_arg arg →
    ∃ r arg' w', f cmd arg w = Some (r, arg', w') ∧ inv w' ∧ (is_Some arg' → is_Some arg);
}.

(** The function a call dispatches to is one of a registered driver. *)
Lemma device_op_ok {F} (op : device_ops → option F) s es name n :
  devices_rep s es → cstr name = Some n →
  ∃ f, device_op op name s = Some f ∧
    ∀ g, f = Some g → ∃ d e ops, device_find name s = Some (Some d) ∧ e ∈ es ∧
      dev_ops d = Some ops ∧ ent_ops e = Some ops ∧ op ops = Some g.
Proof.
  intros Hrep Hn. destruct (device_find_ok s es name n Hrep Hn) as (r & E & Hr). unfold device_op. rewrite E.
  cbn [mbind option_bind]. eexists. split; [reflexivity|]. intros g Hg. destruct r as [d|]; [|done].
  destruct (dev_ops d) as [ops|] eqn:Ed; [|done].
  destruct (spec_find n es) as [e|] eqn:Ee; [|done]. destruct Hr as (_ & _ & _ & _ & _ & Eo).
  exists d, e, ops. split_and!; [done| |done|congruence|done].
  unfold spec_find in Ee. apply bind_Some in Ee as (i & _ & Hi). by eapply list_elem_of_lookup_2.
Qed.

(** ** Traces of registry operations *)
Inductive reg_op : Type :=
| Register (name : list Z) (type major minor : Z) (ops : option device_ops)
| Unregister (name : list Z)
| Find (name : list Z).

Inductive reg_out : Type :=
| Status (r : Z)
| Found (e : option entry).

Definition reg_op_ok (op : reg_op) : Prop :=
  match op with
  | Register name _ _ _ _ | Unregister name | Find name => Forall (λ c, c ≠ 0) name
  end.

Definition entry_view (d : device_t) : entry :=
  {| ent_name := default [] (cstr (dev_name d)); ent_type := dev_type d; ent_major := dev_major d;
     ent_minor := dev_minor d; ent_ops := dev_ops d |}.

(** The registry of the code: names are passed NUL-terminated. *)
Definition reg_step (op : reg_op) (s : device_state) : option (reg_out * device_state) :=
  match op with
  | Register name type major minor ops =>
      '(r, s) ← device_register (name ++ [0]) type major minor ops s; Some (Status r, s)
  | Unregister name => '(r, s) ← device_unregister (name ++ [0]) s; Some (Status r, s)
  | Find name => d ← device_find (name ++ [0]) s; Some (Found (option_map entry_view d), s)
  end.

Fixpoint reg_run (ops : list reg_op) (s : device_state) : option (list reg_out * device_state) :=
  match ops with
  | [] => Some ([], s)
  | op :: ops => '(o, s) ← reg_step op s; '(os, s) ← reg_run ops s; Some (o :: os, s)
  end.

(** The specification: a list of at most 768 entries, newest first. *)
Definition spec_step (op : reg_op) (es : list entry) : reg_out * list entry :=
  match op with
  | Register name type major minor ops =>
      if zlen es <? 768
      then (Status 0, {| ent_name := trunc NAME_SIZE name; ent_type := type; ent_major := major;
                         ent_minor := minor; ent_ops := ops |} :: es)
      else (Status (-1), es)
  | Unregister name =>
      (Status (if bool_decide (is_Some (spec_find name es)) then 0 else -1), spec_unregister name es)
  | Find name => (Found (spec_find name es), es)
  end.

Fixpoint spec_reg_run (ops : list reg_op) (es : list entry) : list reg_out * list entry :=
  match ops with
  | [] => ([], es)
  | op :: ops =>
      let '(o, es) := spec_step op es in
      let '(os, es) := spec_reg_run ops es in (o :: os, es)
  end.

Lemma entry_of_view d e : entry_of d e → entry_view d = e.
Proof. intros (Hn & _ & E1 & E2 & E3 & E4). unfold entry_view. rewrite Hn, E1, E2, E3, E4. by destruct e. Qed.

Lemma reg_step_ok op s es :
  devices_rep s es → reg_op_ok op →
  ∃ s', reg_step op s = Some ((spec_step op es).1, s') ∧ devices_rep s' (spec_step op es).2.
Proof.
  intros Hrep Hop. destruct op as [name type major minor ops|name|name]; cbn [reg_step reg_op_ok] in *;
    pose proof (cstr_app name [] Hop) as Hn.
  - destruct (device_register_ok s es (name ++ [0]) name type major minor ops Hrep Hn) as (s' & -> & Hrep').
    exists s'. cbn [spec_step]. change (MAX_PAGES - 256) with 768 in *. by destruct (zlen es <? 768).
  - destruct (device_unregister_ok s es (name ++ [0]) name Hrep Hn) as (s' & -> & Hrep'). by exists s'.
  - destruct (device_find_ok s es (name ++ [0]) name Hrep Hn) as (r & -> & Hr). exists s. cbn. split; [|done].
    destruct r as [d|], (spec_find name es) as [e|]; try done. cbn. by rewrite (entry_of_view d e).
Qed.

Lemma reg_run_ok ops s es :
  devices_rep s es → Forall reg_op_ok ops →
  ∃ s', reg_run ops s = Some ((spec_reg_run ops es).1, s') ∧ devices_rep s' (spec_reg_run ops es).2.
Proof.
  intros Hrep Hops. revert s es Hrep. induction Hops as [|op ops Hop _ IH]; intros s es Hrep; [by exists s|].
  destruct (reg_step_ok op s es Hrep Hop) as (s1 & E & Hrep1). cbn [reg_run spec_reg_run]. rewrite E.
  cbn [mbind option_bind]. destruct (spec_step op es) as [o es1]. cbn in Hrep1.
  destruct (IH s1 es1 Hrep1) as (s2 & E2 & Hrep2). rewrite E2. cbn [mbind option_bind].
  destruct (spec_reg_run ops es1) as [os es2]. by exists s2.
Qed.

(** The registry after [memory_init] and [device_init]. *)
Definition boot_devices (m : memory_state) : option device_state :=
  m ← memory_init m; Some (device_init {| device_list := 0; dev_at := ∅; dev_mem := m |}).

Lemma boot_devices_ok m : ∃ s, boot_devices m = Some s ∧ devices_rep s [].
Proof.
  unfold boot_devices. destruct (memory_init_ok m) as (s & -> & Hok & Hu & _ & Hbits).
  eexists. split; [reflexivity|]. exists []. unfold rep. cbn. split_and!; [done|done|done|by left|].
  split; [done|constructor| |done].
  intros a. rewrite elem_of_nil. split; [done|]. intros (p & _ & Hp & Hused).
  rewrite Hbits in Hused by lia. apply Z.ltb_lt in Hused. lia.
Qed.

(** C10. The device registry refines a list of entries, newest first: after
    any sequence of registrations, unregistrations and searches on the freshly
    initialised memory, each call returns what the list gives.
    [device_register] puts an entry (its name cut to 31 characters) in front
    and fails only when 768 devices fill the free pages; [device_find]
    returns the newest device of that name; [device_unregister] removes it,
    frees its page and returns 0, or -1 when there is none.  Every list walk
    ends and no record is read after its page was freed. *)
Theorem device_registry_refines (ops : list reg_op) (m : memory_state) :
  Forall reg_op_ok ops →
  ∃ s s', boot_devices m = Some s ∧ reg_run ops s = Some ((spec_reg_run ops []).1, s') ∧
    devices_rep s' (spec_reg_run ops []).2.
Proof.
  intros Hops. destruct (boot_devices_ok m) as (s & E & Hrep). exists s.
  destruct (reg_run_ok ops s [] Hrep Hops) as (s' & E' & Hrep'). exists s'.
  exact (conj E (conj E' Hrep')).
Qed.

End device.
Definition demo_reg_ops : list (reg_op (D := unit)) :=
  [Register (bytes_of_string "char0") DEV_TYPE_CHAR 2 0 None; Find (bytes_of_string "char0");
   Unregister (bytes_of_string "disk"); Unregister (bytes_of_string "char0");
   Find (bytes_of_string "char0")].

Lemma device_registry_refines_witness :
  ∃ s s', boot_devices memory_bss = Some s ∧
    reg_run (λ _, replicate NAME_SIZE 0) demo_reg_ops s = Some ((spec_reg_run demo_reg_ops []).1, s') ∧
    devices_rep s' (spec_reg_run demo_reg_ops []).2.
Proof.
  apply (device_registry_refines (λ _, replicate NAME_SIZE 0) (λ _, eq_refl) demo_reg_ops memory_bss).
  repeat constructor; discriminate.
Defined.

End Device.
