(* ===== verification/CharDevice.v ===== *)
(** * CharDevice: the character device (drivers/char_device.c)

    A byte FIFO of 1024 bytes behind the operations table of the device
    registry (file Device). *)
From stdpp Require Import gmap.
From S2P Require Import Prelude CString Ring Bitmap Mem Memory Device.
Import Memory Device.

Module CharDevice.

Definition CHAR_BUFFER_SIZE : nat := 1024.
#[global] Arguments CHAR_BUFFER_SIZE : simpl never.

Record char_device_t := {
  buffer : list Z;
  read_pos : nat;
  write_pos : nat;
  count : nat;
}.

Definition char_reset (c : char_device_t) : char_device_t :=
  {| buffer := buffer c; read_pos := 0; write_pos := 0; count := 0 |}.

Definition char_open (c : char_device_t) : option (Z * char_device_t) := Some (0, char_reset c).

Definition char_close (c : char_device_t) : option (Z * char_device_t) := Some (0, c).

(** One turn of the read loop: the byte at [read_pos]. *)
Definition char_get (c : char_device_t) : option (Z * char_device_t) :=
  b ← buffer c !! read_pos c;
  Some (b, {| buffer := buffer c; read_pos := (read_pos c + 1) mod CHAR_BUFFER_SIZE;
              write_pos := write_pos c; count := count c - 1 |}).

(** [while (bytes_read < size && char_dev.count > 0)], [n] turns left. *)
Fixpoint char_read_loop (n : nat) (buf : list Z) (bytes_read : nat) (c : char_device_t)
    : option (Z * list Z * char_device_t) :=
  match n with
  | O => Some (Z.of_nat bytes_read, buf, c)
  | S n =>
      if bool_decide (0 < count c)%nat then
        '(b, c) ← char_get c;
        buf ← zset buf (Z.of_nat bytes_read) b;
        char_read_loop n buf (S bytes_read) c
      else Some (Z.of_nat bytes_read, buf, c)
  end.

Definition char_read (buffer : option (list Z)) (size : Z) (c : char_device_t)
    : option (Z * option (list Z) * char_device_t) :=
  match buffer with
  | None => Some (-1, None, c)
  | Some buf => '(r, buf, c) ← char_read_loop (Z.to_nat size) buf 0 c; Some (r, Some buf, c)
  end.

(** One turn of the write loop. *)
Definition char_put (b : Z) (c : char_device_t) : char_device_t :=
  {| buffer := <[write_pos c := b]> (buffer c); read_pos := read_pos c;
     write_pos := (write_pos c + 1) mod CHAR_BUFFER_SIZE; count := count c + 1 |}.

Fixpoint char_write_loop (n : nat) (buf : list Z) (bytes_written : nat) (c : char_device_t)
    : option (Z * char_device_t) :=
  match n with
  | O => Some (Z.of_nat bytes_written, c)
  | S n =>
      if bool_decide (count c < CHAR_BUFFER_SIZE)%nat then
        b ← buf !! bytes_written;
        char_write_loop n buf (S bytes_written) (char_put b c)
      else Some (Z.of_nat bytes_written, c)
  end.

Definition char_write (buffer : option (list Z)) (size : Z) (c : char_device_t)
    : option (Z * char_device_t) :=
  match buffer with
  | None => Some (-1, c)
  | Some buf => char_write_loop (Z.to_nat size) buf 0 c
  end.

(** The word [arg] points to, if it is not NULL, is returned updated. *)
Definition char_ioctl (cmd : Z) (arg : option Z) (c : char_device_t)
    : option (Z * option Z * char_device_t) :=
  if cmd =? 0 then Some (0, arg, char_reset c)
  else if cmd =? 1 then
    Some (match arg with Some _ => (0, Some (Z.of_nat (count c)), c) | None => (-1, None, c) end)
  else if cmd =? 2 then
    Some (match arg with Some _ => (0, Some (Z.of_nat CHAR_BUFFER_SIZE), c) | None => (-1, None, c) end)
  else Some (-1, arg, c).

Definition char_ops : device_ops (D := char_device_t) :=
  {| op_open := Some char_open; op_close := Some char_close; op_read := Some char_read;
     op_write := Some char_write; op_ioctl := Some char_ioctl |}.

Definition char_device_init (page_bytes : Z → list Z) (s : device_state) (c : char_device_t)
    : option (device_state * char_device_t) :=
  '(_, s) ← device_register page_bytes (lit "char0") DEV_TYPE_CHAR 2 0 (Some char_ops) s;
  Some (s, char_reset c).

(** ** The bytes waiting in the device *)
Record char_ok (c : char_device_t) : Prop := {
  ok_buffer : length (buffer c) = CHAR_BUFFER_SIZE;
  ok_read : (read_pos c < CHAR_BUFFER_SIZE)%nat;
  ok_count : (count c ≤ CHAR_BUFFER_SIZE)%nat;
  ok_write : write_pos c = ((read_pos c + count c) mod CHAR_BUFFER_SIZE)%nat;
}.

Definition contents (c : char_device_t) : list Z :=
  ring_view CHAR_BUFFER_SIZE (buffer c) (read_pos c) (count c).

Lemma contents_length c : char_ok c → length (contents c) = count c.
Proof. intros []. by apply ring_view_length. Qed.

Lemma char_reset_ok c : length (buffer c) = CHAR_BUFFER_SIZE → char_ok (char_reset c).
Proof. intros. split; cbn; [done|unfold CHAR_BUFFER_SIZE; lia|lia|done]. Qed.

Lemma char_put_ok b c :
  char_ok c → (count c < CHAR_BUFFER_SIZE)%nat →
  char_ok (char_put b c) ∧ contents (char_put b c) = contents c ++ [b].
Proof.
  intros [Hb Hr Hc Hw] Hroom. split.
  - split; cbn; [by rewrite length_insert|done|lia|].
    rewrite Hw, Nat.Div0.add_mod_idemp_l. f_equal. lia.
  - unfold contents. cbn [buffer read_pos count char_put]. rewrite Nat.add_1_r, Hw.
    by apply ring_view_push.
Qed.

Lemma char_get_ok c :
  char_ok c → (0 < count c)%nat →
  ∃ b c', char_get c = Some (b, c') ∧ char_ok c' ∧ contents c = b :: contents c' ∧ count c' = (count c - 1)%nat.
Proof.
  intros [Hb Hr Hc Hw] Hpos. destruct (count c) as [|k] eqn:E; [lia|].
  destruct (ring_view_pop CHAR_BUFFER_SIZE (buffer c) (read_pos c) k Hb Hr) as (b & Hget & Hview).
  unfold char_get. rewrite Hget. cbn [mbind option_bind]. eexists b, _. split; [reflexivity|].
  rewrite E. unfold contents. cbn [buffer read_pos count write_pos]. rewrite E, Hview. cbn [Nat.sub].
  rewrite Nat.sub_0_r. split; [|done]. split; cbn; [done|apply mod_lt; lia|lia|].
  rewrite Hw. symmetry. apply mod_mod_add. lia.
Qed.

Lemma char_write_loop_ok n buf w c :
  char_ok c → (w + n ≤ length buf)%nat →
  ∃ c', char_write_loop n buf w c = Some (Z.of_nat (w + Nat.min n (CHAR_BUFFER_SIZE - count c)), c') ∧
    char_ok c' ∧ contents c' = contents c ++ take (CHAR_BUFFER_SIZE - count c) (take n (drop w buf)).
Proof.
  revert w c. induction n as [|n IH]; intros w c Hok Hn; cbn [char_write_loop].
  - exists c. rewrite take_0, take_nil, app_nil_r. cbn [Nat.min]. by rewrite Nat.add_0_r.
  - case_bool_decide as Hroom.
    + destruct (lookup_lt_is_Some_2 buf w) as [b Hb]; [lia|]. rewrite Hb. cbn [mbind option_bind].
      destruct (char_put_ok b c Hok Hroom) as [Hok1 Hv1].
      destruct (IH (S w) (char_put b c) Hok1) as (c' & -> & Hok' & Hv'); [lia|].
      exists c'. cbn [count char_put]. split; [do 2 f_equal; lia|]. split; [done|].
      rewrite Hv', Hv1, <- app_assoc. f_equal. cbn [count char_put].
      rewrite (drop_S _ b w) by done. replace (CHAR_BUFFER_SIZE - count c)%nat
        with (S (CHAR_BUFFER_SIZE - (count c + 1))) by lia. done.
    + exists c. replace (CHAR_BUFFER_SIZE - count c)%nat with 0%nat by lia.
      rewrite Nat.min_0_r, Nat.add_0_r, take_0, app_nil_r. done.
Qed.

Lemma char_read_loop_ok n buf r c :
  char_ok c → (r + n ≤ length buf)%nat →
  ∃ c', char_read_loop n buf r c =
      Some (Z.of_nat (r + Nat.min n (count c)),
            take r buf ++ take n (contents c) ++ drop (r + Nat.min n (count c)) buf, c') ∧
    char_ok c' ∧ contents c' = drop n (contents c).
Proof.
  revert buf r c. induction n as [|n IH]; intros buf r c Hok Hn; cbn [char_read_loop].
  - exists c. cbn [Nat.min]. rewrite Nat.add_0_r, take_0, app_nil_l, take_drop. done.
  - case_bool_decide as Hpos.
    + destruct (char_get_ok c Hok Hpos) as (b & c1 & -> & Hok1 & Hv1 & Hc1). cbn [mbind option_bind].
      rewrite zset_in by (unfold zlen; lia). cbn [mbind option_bind]. rewrite Nat2Z.id.
      destruct (IH (<[r := b]> buf) (S r) c1 Hok1) as (c' & -> & Hok' & Hv'); [rewrite length_insert; lia|].
      exists c'. rewrite Hc1, Hv1. cbn [take drop]. split; [|done].
      assert (S r + n `min` (count c - 1) = r + S n `min` count c)%nat as -> by lia.
      rewrite take_S_insert, drop_insert_lt, <- app_assoc by lia. done.
    + exists c. assert (count c = 0%nat) as E by lia. rewrite E, Nat.min_0_r, Nat.add_0_r.
      assert (contents c = []) as -> by (unfold contents; by rewrite E).
      rewrite take_nil, drop_nil, app_nil_l, take_drop. done.
Qed.

(** The character device is a byte FIFO of capacity 1024:
    [char_write] appends the bytes that fit and returns how many those are,
    [char_read] moves the oldest bytes into the caller's buffer, as many as
    are asked for and present, leaves the rest of the buffer alone and
    returns their number.  Neither leaves the device buffer, for any sizes
    the caller's own buffers cover. *)
Theorem char_device_fifo c :
  char_ok c →
  (∀ buf size, 0 <= size <= zlen buf →
    ∃ c', char_write (Some buf) size c = Some (Z.min size (1024 - zlen (contents c)), c') ∧ char_ok c' ∧
      contents c' = contents c ++ take (1024 - length (contents c)) (take (Z.to_nat size) buf)) ∧
  (∀ buf size, 0 <= size <= zlen buf →
    let got := take (Z.to_nat size) (contents c) in
    ∃ c', char_read (Some buf) size c = Some (zlen got, Some (got ++ drop (length got) buf), c') ∧ char_ok c' ∧
      contents c' = drop (Z.to_nat size) (contents c)).
Proof.
  intros Hok. pose proof (contents_length c Hok) as Hlen. pose proof (ok_count c Hok) as Hc. split.
  - intros buf size Hsize. unfold char_write.
    destruct (char_write_loop_ok (Z.to_nat size) buf 0 c Hok) as (c' & -> & Hok' & Hv');
      [unfold zlen in *; lia|].
    exists c'. rewrite Hlen in *. unfold zlen. rewrite Hlen. rewrite drop_0 in Hv'. split; [|done].
    do 2 f_equal. unfold CHAR_BUFFER_SIZE in *. lia.
  - intros buf size Hsize got. unfold char_read.
    destruct (char_read_loop_ok (Z.to_nat size) buf 0 c Hok) as (c' & -> & Hok' & Hv');
      [unfold zlen in *; lia|].
    assert (length got = (0 + Z.to_nat size `min` count c)%nat) as Hg by (unfold got; rewrite length_take; lia).
    exists c'. cbn [mbind option_bind]. rewrite <- Hg. by split.
Qed.

Definition fresh_char : char_device_t :=
  {| buffer := replicate CHAR_BUFFER_SIZE 0; read_pos := 0; write_pos := 0; count := 0 |}.

Lemma fresh_char_ok : char_ok fresh_char.
Proof. by apply (char_reset_ok fresh_char). Qed.

Lemma char_device_fifo_witness :
  (∀ buf size, 0 <= size <= zlen buf →
    ∃ c', char_write (Some buf) size fresh_char = Some (Z.min size (1024 - zlen (contents fresh_char)), c') ∧ char_ok c' ∧
      contents c' = contents fresh_char ++ take (1024 - length (contents fresh_char)) (take (Z.to_nat size) buf)) ∧
  (∀ buf size, 0 <= size <= zlen buf →
    let got := take (Z.to_nat size) (contents fresh_char) in
    ∃ c', char_read (Some buf) size fresh_char = Some (zlen got, Some (got ++ drop (length got) buf), c') ∧ char_ok c' ∧
      contents c' = drop (Z.to_nat size) (contents fresh_char)).
Proof. exact (char_device_fifo fresh_char fresh_char_ok). Defined.

#[export] Instance char_driver : Driver char_ok (λ _ _, True) char_ops.
Proof.
  split; cbn [char_ops op_open op_close op_read op_write op_ioctl].
  - intros f c [= <-] Hc. eexists _, _. split; [reflexivity|]. by apply char_reset_ok, Hc.
  - intros f c [= <-] Hc. by eexists _, _.
  - intros f [b|] size c [= <-] Hc _ [Hs Hb]; [|by eexists _, _, _].
    destruct (char_read_loop_ok (Z.to_nat size) b 0 c Hc) as (c' & E & Hc' & _); [specialize (Hb b eq_refl); unfold zlen in Hb; lia|].
    unfold char_read. rewrite E. by eexists _, _, _.
  - intros f [b|] size c [= <-] Hc _ [Hs Hb]; [|by eexists _, _].
    destruct (char_write_loop_ok (Z.to_nat size) b 0 c Hc) as (c' & E & Hc' & _); [specialize (Hb b eq_refl); unfold zlen in Hb; lia|].
    unfold char_write. rewrite E. by eexists _, _.
  - intros f cmd arg c [= <-] Hc _. unfold char_ioctl. pose proof (char_reset_ok c (ok_buffer c Hc)) as Hr.
    destruct (cmd =? 0); [by eexists _, _, _|]. destruct (cmd =? 1); [destruct arg; by eexists _, _, _|].
    destruct (cmd =? 2); [destruct arg; by eexists _, _, _|]. by eexists _, _, _.
Qed.

(** ** The device behind the registry *)
Section registry.
Context (page_bytes : Z → list Z) (Hbytes : ∀ a, length (page_bytes a) = NAME_SIZE).

(** The entry of the device in the registry *)
Definition char0 : entry :=
  {| ent_name := bytes_of_string "char0"; ent_type := DEV_TYPE_CHAR; ent_major := 2; ent_minor := 0; ent_ops := Some char_ops |}.

Lemma char_device_registered m c :
  ∃ s0 s, boot_devices m = Some s0 ∧
    char_device_init page_bytes s0 c = Some (s, char_reset c) ∧ devices_rep s [char0].
Proof.
  destruct (boot_devices_ok (D := char_device_t) m) as (s0 & E0 & Hrep0).
  assert (cstr (lit "char0") = Some (bytes_of_string "char0")) as Hn by reflexivity.
  destruct (device_register_ok page_bytes Hbytes s0 [] _ _ DEV_TYPE_CHAR 2 0 (Some char_ops) Hrep0 Hn)
    as (s & E & Hrep).
  exists s0, s. split; [exact E0|]. clear E0. unfold char_device_init. rewrite E. by split.
Qed.

Lemma char_device_init_ok m c :
  ∃ s0 s, boot_devices m = Some s0 ∧
    char_device_init page_bytes s0 c = Some (s, char_reset c) ∧
    ∃ d, device_find (lit "char0") s = Some (Some d) ∧ dev_ops d = Some char_ops.
Proof.
  destruct (char_device_registered m c) as (s0 & s & E0 & E & Hrep).
  exists s0, s. split; [exact E0|]. split; [exact E|]. clear E0 E.
  assert (cstr (lit "char0") = Some (bytes_of_string "char0")) as Hn by reflexivity.
  destruct (device_find_ok s [char0] (lit "char0") _ Hrep Hn) as (r & Hr & Hmatch).
  rewrite spec_find_head in Hmatch by reflexivity. destruct r as [d|]; [|done].
  exists d. split; [done|]. by destruct Hmatch as (_ & _ & _ & _ & _ & ->).
Qed.

(** C28. The driver behind the registry: after [device_init] and
    [char_device_init], bytes written with [device_write] to "char0" (at most
    1024) come back from [device_read] in order, and the device is empty
    again. *)
Theorem char0_write_read_roundtrip m c buf :
  length (buffer c) = CHAR_BUFFER_SIZE → zlen buf <= 1024 →
  ∃ s0 s c0 c1 c2, boot_devices m = Some s0 ∧ char_device_init page_bytes s0 c = Some (s, c0) ∧
    device_write (lit "char0") (Some buf) (zlen buf) s c0 = Some (zlen buf, c1) ∧
    device_read (lit "char0") (Some (replicate (length buf) 0)) (zlen buf) s c1 = Some (zlen buf, Some buf, c2) ∧
    contents c2 = [].
Proof.
  intros Hc Hbuf. destruct (char_device_init_ok m c) as (s0 & s & E0 & E & d & Hd & Hops).
  pose proof (char_reset_ok c Hc) as Hok0.
  destruct (char_write_loop_ok (length buf) buf 0 (char_reset c) Hok0) as (c1 & Ew & Hok1 & Hv1); [lia|].
  cbn [count char_reset] in Ew, Hv1. assert (contents (char_reset c) = []) as Hv0 by done.
  assert (contents c1 = buf) as Hc1.
  { rewrite Hv1, Hv0, drop_0, firstn_all, take_ge; [done|]. unfold CHAR_BUFFER_SIZE. unfold zlen in Hbuf. lia. }
  destruct (char_read_loop_ok (length buf) (replicate (length buf) 0) 0 c1 Hok1) as (c2 & Er & _ & Hv2);
    [rewrite length_replicate; lia|].
  exists s0, s, (char_reset c), c1, c2. split; [exact E0|]. split; [exact E|]. clear E0 E.
  pose proof (contents_length c1 Hok1) as Hlen. rewrite Hc1 in Hlen, Er, Hv2.
  rewrite <- Hlen, Nat.min_id, firstn_all, drop_replicate in Er. cbn in Er.
  split; [|split].
  - unfold device_write, device_op. rewrite Hd. cbn [mbind option_bind]. rewrite Hops. cbn [op_write char_ops].
    unfold char_write, zlen. rewrite Nat2Z.id, Ew. do 3 f_equal.
    unfold CHAR_BUFFER_SIZE. unfold zlen in Hbuf. lia.
  - unfold device_read, device_op. rewrite Hd. cbn [mbind option_bind]. rewrite Hops. cbn [op_read char_ops].
    unfold char_read, zlen. rewrite Nat2Z.id, Er. cbn. by rewrite Nat.sub_diag, app_nil_r.
  - by rewrite Hv2, drop_all.
Qed.
End registry.

Lemma char0_write_read_roundtrip_witness :
  ∃ s0 s c0 c1 c2, boot_devices memory_bss = Some s0 ∧
    char_device_init (λ _, replicate NAME_SIZE 0) s0 fresh_char = Some (s, c0) ∧
    device_write (lit "char0") (Some [104; 105]) (zlen [104; 105]) s c0 = Some (zlen [104; 105], c1) ∧
    device_read (lit "char0") (Some (replicate (length [104; 105]) 0)) (zlen [104; 105]) s c1
      = Some (zlen [104; 105], Some [104; 105], c2) ∧
    contents c2 = [].
Proof.
  apply (char0_write_read_roundtrip (λ _, replicate NAME_SIZE 0) (λ _, eq_refl) memory_bss fresh_char [104; 105]).
  - reflexivity.
  - unfold zlen. cbn. lia.
Defined.

End CharDevice.
