(* ===== verification/BlockDevice.v ===== *)
(** * BlockDevice: the memory block device (drivers/block_device.c)

    The device's storage is the one page [block_open] allocates; an access
    past that page is outside the object ([None]). *)
From stdpp Require Import gmap.
From S2P Require Import Prelude CString Bitmap Mem Memory Device.
Import Memory Device.

Module BlockDevice.

Definition BLOCK_SIZE : Z := 512.
Definition NUM_BLOCKS : Z := 1024.
Definition DEVICE_SIZE : Z := BLOCK_SIZE * NUM_BLOCKS.

(** [block_dev], the contents of its page, and the page allocator. *)
Record block_device_t := {
  data : option Z;
  block_count : Z;
  current_block : Z;
  page : mem;
  alloc : memory_state;
}.

Definition block_open (b : block_device_t) : option (Z * block_device_t) :=
  match data b with
  | Some _ => Some (0, b)
  | None =>
      let pages_needed := (DEVICE_SIZE + PAGE_SIZE - 1) / PAGE_SIZE in
      '(first_page, m) ← alloc_page (alloc b);
      if first_page =? 0 then
        Some (-1, {| data := None; block_count := block_count b; current_block := current_block b;
                     page := page b; alloc := m |})
      else
        p ← mem_fill PAGE_SIZE (page b) 0 0 PAGE_SIZE;
        Some (0, {| data := Some first_page;
                    block_count := if 1 <? pages_needed then PAGE_SIZE / BLOCK_SIZE else NUM_BLOCKS;
                    current_block := 0; page := p; alloc := m |})
  end.

Definition block_close (b : block_device_t) : option (Z * block_device_t) := Some (0, b).

(** Byte offset of the current block and the length kept of a request. *)
Definition block_offset (b : block_device_t) : Z := current_block b *u BLOCK_SIZE.
Definition block_clip (offset size : Z) : Z :=
  if DEVICE_SIZE <? offset +u size then DEVICE_SIZE -u offset else size.

Definition block_read (buffer : option (list Z)) (size : Z) (b : block_device_t)
    : option (Z * option (list Z) * block_device_t) :=
  match data b, buffer with
  | Some _, Some buf =>
      let bytes_to_read := block_clip (block_offset b) size in
      bs ← mem_load PAGE_SIZE (page b) (block_offset b) bytes_to_read (zlen buf);
      Some (s32 bytes_to_read, Some (bs ++ drop (Z.to_nat bytes_to_read) buf), b)
  | _, _ => Some (-1, buffer, b)
  end.

Definition block_write (buffer : option (list Z)) (size : Z) (b : block_device_t)
    : option (Z * block_device_t) :=
  match data b, buffer with
  | Some _, Some buf =>
      let bytes_to_write := block_clip (block_offset b) size in
      p ← mem_store PAGE_SIZE (page b) (block_offset b) buf bytes_to_write;
      Some (s32 bytes_to_write, {| data := data b; block_count := block_count b;
                                   current_block := current_block b; page := p; alloc := alloc b |})
  | _, _ => Some (-1, b)
  end.

Definition set_current (n : Z) (b : block_device_t) : block_device_t :=
  {| data := data b; block_count := block_count b; current_block := n; page := page b; alloc := alloc b |}.

Definition block_ioctl (cmd : Z) (arg : option Z) (b : block_device_t)
    : option (Z * option Z * block_device_t) :=
  if cmd =? 0 then
    Some (match arg with
          | Some block => if block <? block_count b then (0, arg, set_current block b) else (-1, arg, b)
          | None => (-1, None, b)
          end)
  else if cmd =? 1 then
    Some (match arg with Some _ => (0, Some (block_count b), b) | None => (-1, None, b) end)
  else if cmd =? 2 then
    Some (match arg with Some _ => (0, Some (current_block b), b) | None => (-1, None, b) end)
  else Some (-1, arg, b).

Definition block_ops : device_ops (D := block_device_t) :=
  {| op_open := Some block_open; op_close := Some block_close; op_read := Some block_read;
     op_write := Some block_write; op_ioctl := Some block_ioctl |}.

Definition block_device_init (page_bytes : Z → list Z) (s : device_state) (b : block_device_t)
    : option (device_state * block_device_t) :=
  '(_, s) ← device_register page_bytes (lit "block0") DEV_TYPE_BLOCK 1 0 (Some block_ops) s;
  Some (s, {| data := None; block_count := 0; current_block := 0; page := page b; alloc := alloc b |}).

(** ** An opened device *)
Record block_ok (b : block_device_t) : Prop := {
  ok_data : is_Some (data b);
  ok_blocks : block_count b = 8;
  ok_current : 0 <= current_block b < 8;
}.

Lemma block_open_ok b :
  data b = None → pages_ok (alloc b) → used_pages (alloc b) < MAX_PAGES →
  ∃ b', block_open b = Some (0, b') ∧ block_ok b' ∧ pages_ok (alloc b') ∧
    ∀ i, 0 <= i < PAGE_SIZE → page b' i = 0.
Proof.
  intros Hd Hm Hfree. unfold block_open. rewrite Hd.
  destruct (alloc_page_first_fit_aux (alloc b) Hm) as (a & m & -> & Hm' & [(Hfull & _)|(p & Hp & -> & _)]); [lia|].
  cbn [mbind option_bind]. destruct (Z.eqb_spec (p * PAGE_SIZE) 0) as [E|_]; [unfold PAGE_SIZE in E; lia|].
  eexists. split; [reflexivity|]. split; [by split|]. split; [done|].
  cbn [page]. intros i Hi. destruct (Z.leb_spec 0 i); [|lia]. by destruct (Z.ltb_spec i (0 + PAGE_SIZE)); [|lia].
Qed.

Lemma block_offset_val b : block_ok b → block_offset b = current_block b * 512 ∧ 0 <= block_offset b <= 3584.
Proof. intros [_ _ Hc]. unfold block_offset, BLOCK_SIZE. rewrite u32_id; lia. Qed.

(** What the block device does in its one page: a write of [size] bytes at
    the current block and a read of as many give them back, when they end
    inside the page; the bytes before and after are untouched.  The size
    check allows 512 KiB, though: any longer request that it lets through
    runs past the page. *)
Theorem block_write_read buf b :
  block_ok b →
  (block_offset b + zlen buf <= PAGE_SIZE →
   ∃ b', block_write (Some buf) (zlen buf) b = Some (zlen buf, b') ∧ block_ok b' ∧
     (∀ i, i < block_offset b ∨ block_offset b + zlen buf <= i → page b' i = page b i) ∧
     block_read (Some (replicate (length buf) 0)) (zlen buf) b' = Some (zlen buf, Some buf, b')) ∧
  (PAGE_SIZE < block_offset b + zlen buf <= DEVICE_SIZE → block_write (Some buf) (zlen buf) b = UB).
Proof.
  intros Hok. destruct (block_offset_val b Hok) as [Hoff Hrange]. pose proof Hok as [[a Hd] Hb Hc].
  assert (block_offset b + zlen buf <= DEVICE_SIZE → block_clip (block_offset b) (zlen buf) = zlen buf) as Hclip.
  { intros Hfit. unfold block_clip, DEVICE_SIZE, BLOCK_SIZE, NUM_BLOCKS in *. unfold zlen in *.
    rewrite u32_id by lia. by destruct (Z.ltb_spec (512 * 1024) (block_offset b + Z.of_nat (length buf))); [lia|]. }
  unfold block_write, PAGE_SIZE, DEVICE_SIZE, BLOCK_SIZE, NUM_BLOCKS in *. rewrite Hd. split; intros Hfit.
  - rewrite Hclip by lia. unfold zlen in *. rewrite mem_store_Some by (unfold zlen; lia). cbn [mbind option_bind].
    rewrite s32_id, Nat2Z.id, firstn_all by lia. eexists. split; [reflexivity|]. split; [by split|].
    split; [intros i Hi; apply mem_write_out; unfold zlen; lia|].
    unfold block_read. cbn [data]. change (block_offset {| data := Some a; block_count := block_count b;
      current_block := current_block b; page := mem_write (page b) (block_offset b) buf; alloc := alloc b |})
      with (block_offset b).
    rewrite Hclip by lia. unfold PAGE_SIZE. rewrite mem_load_Some by (unfold zlen; rewrite ?length_replicate; lia).
    cbn [mbind option_bind page]. rewrite Nat2Z.id, drop_replicate, Nat.sub_diag, app_nil_r.
    rewrite (mem_read_write_same _ _ buf), s32_id by lia. done.
  - rewrite Hclip by lia. unfold PAGE_SIZE. by rewrite mem_store_overrun by lia.
Qed.

(** The driver, opened or not; a transfer must end inside the one page. *)
Definition block_inv (b : block_device_t) : Prop := pages_ok (alloc b) ∧ (data b = None ∨ block_ok b).
Definition block_fits (size : Z) (b : block_device_t) : Prop := block_offset b + size <= PAGE_SIZE.

Lemma block_clip_fits b size : block_ok b → 0 <= size → block_fits size b → block_clip (block_offset b) size = size.
Proof.
  intros Hok Hs Hf. destruct (block_offset_val b Hok) as [_ Hr]. unfold block_fits, PAGE_SIZE in Hf.
  unfold block_clip, DEVICE_SIZE, BLOCK_SIZE, NUM_BLOCKS. rewrite u32_id by lia.
  by destruct (Z.ltb_spec (512 * 1024) (block_offset b + size)); [lia|].
Qed.

#[export] Instance block_driver : Driver block_inv block_fits block_ops.
Proof.
  split; cbn [block_ops op_open op_close op_read op_write op_ioctl].
  - intros f b [= <-] [Hm Hd]. unfold block_open. destruct (data b) as [a|] eqn:Ed; [eexists _, _; split; [reflexivity|by split; [|right; destruct Hd]]|].
    destruct (alloc_page_first_fit_aux (alloc b) Hm) as (a & m & -> & Hm' & _). cbn [mbind option_bind].
    destruct (a =? 0); [eexists _, _; split; [reflexivity|]; split; [done|by left]|].
    eexists _, _. split; [reflexivity|]. split; [done|]. right. by split.
  - intros f b [= <-] Hb. by eexists _, _.
  - intros f [buf|] size b [= <-] Hinv Hf [Hs Hb]; unfold block_read; destruct (data b) as [a|] eqn:Ed;
      try (by eexists _, _, _).
    destruct Hinv as [Hm [|Hok]]; [congruence|]. specialize (Hb buf eq_refl). destruct (block_offset_val b Hok) as [_ Hr].
    rewrite block_clip_fits by done. rewrite mem_load_Some by (unfold block_fits in Hf; lia).
    eexists _, _, _. split; [reflexivity|]. split; [done|]. by right.
  - intros f [buf|] size b [= <-] Hinv Hf [Hs Hb]; unfold block_write; destruct (data b) as [a|] eqn:Ed;
      try (by eexists _, _).
    destruct Hinv as [Hm [|Hok]]; [congruence|]. specialize (Hb buf eq_refl). destruct (block_offset_val b Hok) as [_ Hr].
    rewrite block_clip_fits by done. rewrite mem_store_Some by (unfold block_fits in Hf; lia).
    eexists _, _. split; [reflexivity|]. split; [done|]. right. destruct Hok. by split.
  - intros f cmd arg b [= <-] [Hm Hd] Ha. unfold block_ioctl.
    destruct (cmd =? 0).
    + destruct arg as [v|]; [|by eexists _, _, _]. destruct (Z.ltb_spec v (block_count b)) as [Hv|]; [|by eexists _, _, _].
      eexists _, _, _. split; [reflexivity|]. split; [|done]. split; [done|]. destruct Hd as [Hd|[H1 H2 H3]]; [by left|right].
      specialize (Ha v eq_refl). split; cbn; [done|done|lia].
    + destruct (cmd =? 1); [destruct arg; by eexists _, _, _|]. destruct (cmd =? 2); [destruct arg; by eexists _, _, _|].
      by eexists _, _, _.
Qed.

Definition opened : block_device_t :=
  {| data := Some 0x100000; block_count := 8; current_block := 2; page := mem_zero; alloc := memory_bss |}.

Lemma block_write_read_witness :
  (block_offset opened + zlen [1; 2; 3] <= PAGE_SIZE →
   ∃ b', block_write (Some [1; 2; 3]) (zlen [1; 2; 3]) opened = Some (zlen [1; 2; 3], b') ∧ block_ok b' ∧
     (∀ i, i < block_offset opened ∨ block_offset opened + zlen [1; 2; 3] <= i → page b' i = page opened i) ∧
     block_read (Some (replicate (length [1; 2; 3]) 0)) (zlen [1; 2; 3]) b' = Some (zlen [1; 2; 3], Some [1; 2; 3], b')) ∧
  (PAGE_SIZE < block_offset opened + zlen [1; 2; 3] <= DEVICE_SIZE →
   block_write (Some [1; 2; 3]) (zlen [1; 2; 3]) opened = UB).
Proof. apply (block_write_read [1; 2; 3] opened). split; cbn; [by eexists|reflexivity|lia]. Defined.

End BlockDevice.
