(* ===== verification/Keyboard.v ===== *)
(** * Keyboard: the PS/2 keyboard driver (drivers/keyboard.c)

    The interrupt handler takes the scancode it reads from port 0x60;
    [keyboard_init] polls the controller, at most [rounds] times for each of
    its unbounded waits. *)
From Stdlib Require Import ZifyNat.
From S2P Require Import Prelude CString Ring Ports Idt.

Module Keyboard.

(** Character codes of the two tables. *)
Definition scancode_to_ascii_us : list Z :=
  [0; 0; 38; 101; 34; 39; 40; 45; 101; 95; 99; 97; 41; 61; 8; 9;
   97; 122; 101; 114; 116; 121; 117; 105; 111; 112; 94; 36; 10; 0; 113; 115;
   100; 102; 103; 104; 106; 107; 108; 109; 117; 42; 0; 60; 119; 120; 99; 118;
   98; 110; 44; 59; 58; 33; 0; 42; 0; 32].
Definition scancode_to_ascii_us_shift : list Z :=
  [0; 0; 49; 50; 51; 52; 53; 54; 55; 56; 57; 48; 111; 43; 8; 9;
   65; 90; 69; 82; 84; 89; 85; 73; 79; 80; 46; 36; 10; 0; 81; 83;
   68; 70; 71; 72; 74; 75; 76; 77; 37; 117; 0; 62; 87; 88; 67; 86;
   66; 78; 63; 46; 47; 33; 0; 42; 0; 32].

Definition KB_BUFFER_SIZE : nat := 256.
#[global] Arguments KB_BUFFER_SIZE : simpl never.
Definition KEYBOARD_DATA_PORT : Z := 0x60.
Definition KEYBOARD_STATUS_PORT : Z := 0x64.

Record modifiers := {
  shift_pressed : Z;
  ctrl_pressed : Z;
  alt_pressed : Z;
  caps_lock : Z;
  num_lock : Z;
  scroll_lock : Z;
}.

Record kb_state := {
  mods : modifiers;
  kb_buffer : list Z;
  kb_write_ptr : nat;
  kb_read_ptr : nat;
}.

Definition no_mods : modifiers :=
  {| shift_pressed := 0; ctrl_pressed := 0; alt_pressed := 0; caps_lock := 0; num_lock := 0; scroll_lock := 0 |}.
Definition kb_bss : kb_state :=
  {| mods := no_mods; kb_buffer := replicate KB_BUFFER_SIZE 0; kb_write_ptr := 0; kb_read_ptr := 0 |}.

(** ** Initialisation *)

Section init.
Context {W F : Type} `{Ports W}.

(** The loop that drops at most [n] pending bytes *)
Fixpoint kb_drain (n : nat) (w : W) : W :=
  match n with
  | O => w
  | S n =>
      let '(st, w) := inb KEYBOARD_STATUS_PORT w in
      if Z.land st 0x01 =? 0 then w else kb_drain n (inb KEYBOARD_DATA_PORT w).2
  end.

(** [while (cond(inb(STATUS)));] *)
Fixpoint kb_poll (cond : Z → bool) (rounds : nat) (w : W) : option W :=
  match rounds with
  | O => None
  | S n => let '(st, w) := inb KEYBOARD_STATUS_PORT w in if cond st then kb_poll cond n w else Some w
  end.

(** [handler] is the address of [keyboard_interrupt_handler]. *)
Definition keyboard_init (rounds : nat) (handler : F) (s : kb_state) (idt : Idt.idt_state F) (w : W)
    : option (kb_state * Idt.idt_state F * W) :=
  let s := {| mods := mods s; kb_buffer := kb_buffer s; kb_write_ptr := 0; kb_read_ptr := 0 |} in
  let w := kb_drain 10 w in
  idt ← Idt.register_interrupt_handler 33 (Some handler) idt;
  let w := outb KEYBOARD_STATUS_PORT 0x20 w in
  w ← kb_poll (λ st, Z.land st 0x01 =? 0) rounds w;
  let '(cb, w) := inb KEYBOARD_DATA_PORT w in
  let cb := Z.lor (Z.lor cb 0x01) 0x40 in
  let w := outb KEYBOARD_STATUS_PORT 0x60 w in
  w ← kb_poll (λ st, negb (Z.land st 0x02 =? 0)) rounds w;
  let w := outb KEYBOARD_DATA_PORT cb w in
  Some (s, idt, outb KEYBOARD_DATA_PORT 0xF4 w).
End init.

Definition keyboard_available (status : Z) : Z := Z.land status 0x01.

(** ** The interrupt handler *)

Definition kb_enqueue (c : Z) (s : kb_state) : option kb_state :=
  let next_write := ((kb_write_ptr s + 1) mod KB_BUFFER_SIZE)%nat in
  if negb (bool_decide (next_write = kb_read_ptr s)) then
    buf ← zset (kb_buffer s) (Z.of_nat (kb_write_ptr s)) c;
    Some {| mods := mods s; kb_buffer := buf; kb_write_ptr := next_write; kb_read_ptr := kb_read_ptr s |}
  else Some s.

(** The [switch] on modifier scancodes: the new modifiers, if it is one. *)
Definition modifier_key (scancode : Z) (m : modifiers) : option modifiers :=
  let '(shift, ctrl, alt, caps, num, scroll) :=
    (shift_pressed m, ctrl_pressed m, alt_pressed m, caps_lock m, num_lock m, scroll_lock m) in
  let mk sh ct al ca nu sc := Some {| shift_pressed := sh; ctrl_pressed := ct; alt_pressed := al;
                                      caps_lock := ca; num_lock := nu; scroll_lock := sc |} in
  if (scancode =? 0x2A) || (scancode =? 0x36) then mk 1 ctrl alt caps num scroll
  else if (scancode =? 0xAA) || (scancode =? 0xB6) then mk 0 ctrl alt caps num scroll
  else if scancode =? 0x1D then mk shift 1 alt caps num scroll
  else if scancode =? 0x9D then mk shift 0 alt caps num scroll
  else if scancode =? 0x38 then mk shift ctrl 1 caps num scroll
  else if scancode =? 0xB8 then mk shift ctrl 0 caps num scroll
  else if scancode =? 0x3A then mk shift ctrl alt (c_bool (caps =? 0)) num scroll
  else if scancode =? 0x45 then mk shift ctrl alt caps (c_bool (num =? 0)) scroll
  else if scancode =? 0x46 then mk shift ctrl alt caps num (c_bool (scroll =? 0))
  else None.

(** Caps lock on a character. *)
Definition apply_caps (caps c : Z) : Z :=
  if negb (caps =? 0) && (97 <=? c) && (c <=? 122) then c - 32
  else if negb (caps =? 0) && (65 <=? c) && (c <=? 90) then c + 32
  else c.

Definition keyboard_handler (scancode : Z) (s : kb_state) : option kb_state :=
  if scancode =? 0x0E then kb_enqueue 8 s
  else
    match modifier_key scancode (mods s) with
    | Some m => Some {| mods := m; kb_buffer := kb_buffer s; kb_write_ptr := kb_write_ptr s;
                        kb_read_ptr := kb_read_ptr s |}
    | None =>
        if negb (Z.land scancode 0x80 =? 0) then Some s
        else if scancode <? zlen scancode_to_ascii_us then
          base_char ← (if negb (shift_pressed (mods s) =? 0)
                       then scancode_to_ascii_us_shift.[scancode]
                       else scancode_to_ascii_us.[scancode]);
          let base_char := apply_caps (caps_lock (mods s)) base_char in
          if negb (base_char =? 0) then kb_enqueue base_char s else Some s
        else Some s
    end.

Definition keyboard_getchar (s : kb_state) : option (Z * kb_state) :=
  if bool_decide (kb_read_ptr s = kb_write_ptr s) then Some (0, s)
  else
    c ← (kb_buffer s).[Z.of_nat (kb_read_ptr s)];
    Some (c, {| mods := mods s; kb_buffer := kb_buffer s; kb_write_ptr := kb_write_ptr s;
                kb_read_ptr := (kb_read_ptr s + 1) mod KB_BUFFER_SIZE |}).

Definition keyboard_is_pressed (data scancode : Z) : Z := c_bool (data =? scancode).

Definition keyboard_get_status (s : kb_state) : Z * Z * Z * Z * Z * Z :=
  let m := mods s in
  (shift_pressed m, ctrl_pressed m, alt_pressed m, caps_lock m, num_lock m, scroll_lock m).

(** ** The keys waiting *)
Definition kb_count (s : kb_state) : nat :=
  ((kb_write_ptr s + (KB_BUFFER_SIZE - kb_read_ptr s)) mod KB_BUFFER_SIZE)%nat.

Definition pending (s : kb_state) : list Z :=
  ring_view KB_BUFFER_SIZE (kb_buffer s) (kb_read_ptr s) (kb_count s).

Record kb_ok (s : kb_state) : Prop := {
  ok_buffer : length (kb_buffer s) = KB_BUFFER_SIZE;
  ok_write : (kb_write_ptr s < KB_BUFFER_SIZE)%nat;
  ok_read : (kb_read_ptr s < KB_BUFFER_SIZE)%nat;
  ok_chars : Forall (λ c, c ≠ 0) (pending s);
}.

(** Index arithmetic modulo the buffer size. *)
Ltac mod_lia := unfold KB_BUFFER_SIZE in *; zify; Z.div_mod_to_equations; lia.

Section indices.
Context (w r : nat) (Hw : (w < KB_BUFFER_SIZE)%nat) (Hr : (r < KB_BUFFER_SIZE)%nat).
Let count := ((w + (KB_BUFFER_SIZE - r)) mod KB_BUFFER_SIZE)%nat.

Lemma index_full : ((w + 1) mod KB_BUFFER_SIZE)%nat = r ↔ ¬ (count < 255)%nat.
Proof. unfold count. split; mod_lia. Qed.

Lemma index_empty : r = w ↔ count = 0%nat.
Proof. unfold count. split; mod_lia. Qed.

Lemma index_push :
  (count < 255)%nat → (((w + 1) mod KB_BUFFER_SIZE + (KB_BUFFER_SIZE - r)) mod KB_BUFFER_SIZE)%nat = S count.
Proof. unfold count. mod_lia. Qed.

Lemma index_pop k :
  count = S k → ((w + (KB_BUFFER_SIZE - (r + 1) mod KB_BUFFER_SIZE)) mod KB_BUFFER_SIZE)%nat = k.
Proof. unfold count. mod_lia. Qed.
End indices.

Lemma pending_length s : kb_ok s → length (pending s) = kb_count s.
Proof. intros []. by apply ring_view_length. Qed.

Lemma write_ptr_pos s :
  kb_ok s → kb_write_ptr s = ((kb_read_ptr s + kb_count s) mod KB_BUFFER_SIZE)%nat.
Proof.
  intros [_ Hw Hr _]. unfold kb_count. rewrite Nat.Div0.add_mod_idemp_r.
  replace (kb_read_ptr s + (kb_write_ptr s + (KB_BUFFER_SIZE - kb_read_ptr s)))%nat
    with (kb_write_ptr s + 1 * KB_BUFFER_SIZE)%nat by lia.
  rewrite Nat.Div0.mod_add. symmetry. by apply Nat.mod_small.
Qed.

(** The buffer takes 255 keys and drops the rest. *)
Lemma kb_enqueue_ok c s :
  kb_ok s → c ≠ 0 →
  ∃ s', kb_enqueue c s = Some s' ∧ kb_ok s' ∧ mods s' = mods s ∧
    pending s' = if bool_decide (length (pending s) < 255)%nat then pending s ++ [c] else pending s.
Proof.
  intros Hok Hc. rewrite pending_length by done. pose proof (write_ptr_pos s Hok) as Hwp.
  pose proof Hok as [Hb Hw Hr Hch].
  pose proof (index_full _ _ Hw Hr) as Hfull. fold (kb_count s) in Hfull.
  unfold kb_enqueue. destruct (decide (kb_count s < 255)%nat) as [Hroom|Hroom].
  - rewrite (bool_decide_eq_false_2 (_ = _)) by (rewrite Hfull; auto). cbn [negb].
    rewrite bool_decide_eq_true_2 by done. rewrite zset_in by (unfold zlen; lia). cbn [mbind option_bind].
    rewrite Nat2Z.id. eexists. split; [reflexivity|].
    assert (kb_count {| mods := mods s; kb_buffer := <[kb_write_ptr s := c]> (kb_buffer s);
        kb_write_ptr := (kb_write_ptr s + 1) mod KB_BUFFER_SIZE; kb_read_ptr := kb_read_ptr s |} = S (kb_count s)) as Hcount.
    { by apply (index_push _ _ Hw Hr). }
    assert (pending {| mods := mods s; kb_buffer := <[kb_write_ptr s := c]> (kb_buffer s);
        kb_write_ptr := (kb_write_ptr s + 1) mod KB_BUFFER_SIZE; kb_read_ptr := kb_read_ptr s |} = pending s ++ [c]) as Hp.
    { unfold pending. rewrite Hcount. cbn [kb_buffer kb_read_ptr]. rewrite Hwp at 1.
      apply ring_view_push; [done|done|unfold KB_BUFFER_SIZE; lia]. }
    split; [|done]. split; cbn; [by rewrite length_insert|apply mod_lt; lia|done|].
    change (Forall (λ c, c ≠ 0) (pending {| mods := mods s; kb_buffer := <[kb_write_ptr s := c]> (kb_buffer s);
        kb_write_ptr := (kb_write_ptr s + 1) mod KB_BUFFER_SIZE; kb_read_ptr := kb_read_ptr s |})).
    rewrite Hp. apply Forall_app. split; [done|]. by constructor.
  - rewrite bool_decide_eq_true_2 by by apply Hfull. cbn [negb].
    rewrite bool_decide_eq_false_2 by done. by exists s.
Qed.

Lemma keyboard_getchar_ok s :
  kb_ok s →
  ∃ s', keyboard_getchar s = Some (default 0 (head (pending s)), s') ∧ kb_ok s' ∧ mods s' = mods s ∧
    pending s' = tail (pending s).
Proof.
  intros Hok. pose proof Hok as [Hb Hw Hr Hch]. unfold keyboard_getchar.
  pose proof (index_empty _ _ Hw Hr) as Hempty. fold (kb_count s) in Hempty.
  case_bool_decide as E.
  - assert (pending s = []) as Ep by (unfold pending; by rewrite (proj1 Hempty E)). exists s. by rewrite Ep.
  - rewrite zget_nat. destruct (kb_count s) as [|k] eqn:Hk; [by rewrite (proj2 Hempty eq_refl) in E|].
    destruct (ring_view_pop KB_BUFFER_SIZE (kb_buffer s) (kb_read_ptr s) k Hb Hr) as (c & Hc & Hview).
    rewrite Hc. cbn [mbind option_bind].
    assert (pending s = c :: ring_view KB_BUFFER_SIZE (kb_buffer s) ((kb_read_ptr s + 1) mod KB_BUFFER_SIZE) k) as Hp
      by (unfold pending; rewrite Hk; exact Hview).
    eexists. rewrite Hp. cbn [head tail default]. split; [reflexivity|].
    assert (kb_count {| mods := mods s; kb_buffer := kb_buffer s; kb_write_ptr := kb_write_ptr s;
        kb_read_ptr := (kb_read_ptr s + 1) mod KB_BUFFER_SIZE |} = k) as Hcount.
    { by apply (index_pop _ _ Hw Hr). }
    assert (pending {| mods := mods s; kb_buffer := kb_buffer s; kb_write_ptr := kb_write_ptr s;
        kb_read_ptr := (kb_read_ptr s + 1) mod KB_BUFFER_SIZE |} = tail (pending s)) as Hp'.
    { rewrite Hp. unfold pending. rewrite Hcount. done. }
    rewrite Hp in Hp'. split; [|done]. split; [done|done|cbn; apply mod_lt; lia|].
    rewrite Hp'. rewrite Hp in Hch. by inversion Hch.
Qed.

(** After [keyboard_init], once the controller answers, no key is pending. *)
Lemma keyboard_init_ok {W F} `{Ports W} rounds (handler : F) s (idt : Idt.idt_state F) w :
  (∀ w', is_Some (kb_poll (λ st, Z.land st 0x01 =? 0) rounds w')) →
  (∀ w', is_Some (kb_poll (λ st, negb (Z.land st 0x02 =? 0)) rounds w')) →
  length (kb_buffer s) = KB_BUFFER_SIZE → zlen (Idt.interrupt_handlers idt) = 256 →
  ∃ s' idt' w', keyboard_init rounds handler s idt w = Some (s', idt', w') ∧ kb_ok s' ∧ pending s' = [] ∧ mods s' = mods s ∧
    Idt.register_interrupt_handler 33 (Some handler) idt = Some idt'.
Proof.
  intros Hout Hin Hb Hi. unfold keyboard_init.
  destruct (Idt.handler_registered 33 (Some handler) idt Hi) as (idt' & E & _). rewrite E. cbn [mbind option_bind].
  destruct (Hout (outb KEYBOARD_STATUS_PORT 0x20 (kb_drain 10 w))) as [w1 ->]. cbn [mbind option_bind].
  destruct (inb KEYBOARD_DATA_PORT w1) as [cb w2].
  destruct (Hin (outb KEYBOARD_STATUS_PORT 0x60 w2)) as [w3 ->]. cbn [mbind option_bind].
  eexists _, idt', _. split; [reflexivity|]. split; [|done]. split; [done|cbn; unfold KB_BUFFER_SIZE; lia..|by constructor].
Qed.

(** ** What a scancode means

    The reference does not use the driver's tables and cases: it has the rows
    of an AZERTY keyboard, as the characters from a first scancode on, without
    shift and with it, and the keys that set, clear or flip a state. *)
Definition rows (shift : bool) : list (Z * list Z) :=
  [(14, [8]); (15, [9]); (28, [10]); (55, bytes_of_string "*"); (57, bytes_of_string " ")] ++
  if shift then
    [(2, bytes_of_string "1234567890o+"); (16, bytes_of_string "AZERTYUIOP.$"); (30, bytes_of_string "QSDFGHJKLM%u");
     (43, bytes_of_string ">WXCVBN?./!")]
  else
    [(2, bytes_of_string "&e" ++ [34] ++ bytes_of_string "'(-e_ca)="); (16, bytes_of_string "azertyuiop^$");
     (30, bytes_of_string "qsdfghjklmu*"); (43, bytes_of_string "<wxcvbn,;:!")].

Definition on_key (shift : bool) (scancode : Z) : option Z :=
  head (omap (λ '(first, keys), (keys : list Z).[scancode - first]) (rows shift)).

Definition swap_case (c : Z) : Z :=
  if bool_decide (97 <= c <= 122) then c - 32 else if bool_decide (65 <= c <= 90) then c + 32 else c.

(** The character a key press enters under the modifiers [m], if any. *)
Definition key_char (m : modifiers) (scancode : Z) : option Z :=
  c ← on_key (negb (shift_pressed m =? 0)) scancode; Some (if caps_lock m =? 0 then c else swap_case c).

(** The modifiers after it: a key that is held, and one that flips *)
Definition held (down up : list Z) (scancode old : Z) : Z :=
  if bool_decide (scancode ∈ down) then 1 else if bool_decide (scancode ∈ up) then 0 else old.
Definition flipped (key scancode old : Z) : Z := if scancode =? key then c_bool (old =? 0) else old.
Definition key_mods (m : modifiers) (scancode : Z) : modifiers :=
  {| shift_pressed := held [0x2A; 0x36] [0xAA; 0xB6] scancode (shift_pressed m);
     ctrl_pressed := held [0x1D] [0x9D] scancode (ctrl_pressed m);
     alt_pressed := held [0x38] [0xB8] scancode (alt_pressed m);
     caps_lock := flipped 0x3A scancode (caps_lock m);
     num_lock := flipped 0x45 scancode (num_lock m);
     scroll_lock := flipped 0x46 scancode (scroll_lock m) |}.

(** The character the driver's cases and tables give *)
Definition driver_char (m : modifiers) (scancode : Z) : option Z :=
  if scancode =? 0x0E then Some 8
  else
    match modifier_key scancode m with
    | Some _ => None
    | None =>
        if 0x80 <=? scancode then None
        else
          c ← (if shift_pressed m =? 0 then scancode_to_ascii_us else scancode_to_ascii_us_shift).[scancode];
          let c := apply_caps (caps_lock m) c in
          if c =? 0 then None else Some c
    end.
Definition driver_mods (m : modifiers) (scancode : Z) : modifiers :=
  if scancode =? 0x0E then m else default m (modifier_key scancode m).

(** A statement about every scancode, case by case *)
Lemma scancodes (P : Z → Prop) : Forall P (seqZ 0 256) → ∀ scancode, 0 <= scancode < 256 → P scancode.
Proof. rewrite Forall_forall. intros H scancode Hs. apply H, elem_of_seqZ. lia. Qed.

Lemma driver_char_eq m scancode : 0 <= scancode < 256 → driver_char m scancode = key_char m scancode.
Proof.
  revert scancode. destruct m as [shift ctrl alt caps num scroll]. apply scancodes.
  unfold driver_char, key_char, apply_caps. cbn [shift_pressed caps_lock].
  destruct (shift =? 0), (caps =? 0); repeat (constructor; [reflexivity|]); constructor.
Qed.

Lemma driver_mods_eq m scancode : 0 <= scancode < 256 → driver_mods m scancode = key_mods m scancode.
Proof.
  revert scancode. destruct m as [shift ctrl alt caps num scroll]. apply scancodes.
  repeat (constructor; [reflexivity|]); constructor.
Qed.

Lemma high_bit scancode :
  0 <= scancode < 256 → (Z.land scancode 0x80 =? 0) = negb (0x80 <=? scancode).
Proof.
  intros H.
  assert (forallb (λ z, bool_decide ((Z.land z 0x80 =? 0) = negb (0x80 <=? z))) (seqZ 0 256) = true) as Hall
    by (vm_compute; reflexivity).
  rewrite forallb_forall in Hall. specialize (Hall scancode).
  rewrite <- list_elem_of_In, elem_of_seqZ in Hall. by apply bool_decide_eq_true in Hall; [|lia].
Qed.

Lemma keyboard_handler_ok scancode s :
  kb_ok s → 0 <= scancode < 256 →
  ∃ s', keyboard_handler scancode s = Some s' ∧ kb_ok s' ∧ mods s' = key_mods (mods s) scancode ∧
    pending s' =
      match key_char (mods s) scancode with
      | Some c => if bool_decide (length (pending s) < 255)%nat then pending s ++ [c] else pending s
      | None => pending s
      end.
Proof.
  intros Hok Hsc. rewrite <- driver_char_eq, <- driver_mods_eq by done. unfold keyboard_handler, driver_char, driver_mods.
  destruct (Z.eqb_spec scancode 0x0E) as [_|_]; [by apply kb_enqueue_ok|].
  destruct (modifier_key scancode (mods s)) as [m|].
  { eexists. split; [reflexivity|]. split; [|done]. by destruct Hok. }
  rewrite high_bit, negb_involutive by done.
  destruct (Z.leb_spec 0x80 scancode) as [_|Hlow]; [by exists s|].
  destruct (Z.ltb_spec scancode (zlen scancode_to_ascii_us)) as [Hin|Hout].
  - assert (is_Some ((if negb (shift_pressed (mods s) =? 0) then scancode_to_ascii_us_shift.[scancode]
        else scancode_to_ascii_us.[scancode]))) as [c Hc].
    { destruct (negb _); apply zget_Some; [change (zlen scancode_to_ascii_us_shift) with (zlen scancode_to_ascii_us)|]; lia. }
    assert ((if shift_pressed (mods s) =? 0 then scancode_to_ascii_us else scancode_to_ascii_us_shift).[scancode] = Some c) as ->
      by by destruct (shift_pressed (mods s) =? 0).
    rewrite Hc. cbn [mbind option_bind]. destruct (Z.eqb_spec (apply_caps (caps_lock (mods s)) c) 0); [by exists s|].
    by apply kb_enqueue_ok.
  - exists s. split; [done|]. split; [done|]. split; [done|].
    assert ((if shift_pressed (mods s) =? 0 then scancode_to_ascii_us else scancode_to_ascii_us_shift).[scancode] = None) as ->; [|done].
    unfold zget. destruct (Z.ltb_spec scancode 0); [lia|]. apply lookup_ge_None.
    destruct (_ =? 0); unfold zlen in Hout; [|change (length scancode_to_ascii_us_shift) with (length scancode_to_ascii_us)]; lia.
Qed.

(** ** Interrupts and reads, interleaved *)
Inductive kb_event : Type :=
| Interrupt (scancode : Z)
| GetChar.

Definition event_ok (e : kb_event) : Prop :=
  match e with Interrupt scancode => 0 <= scancode < 256 | GetChar => True end.

(** The characters the [GetChar]s return. *)
Fixpoint kb_run (es : list kb_event) (s : kb_state) : option (list Z * kb_state) :=
  match es with
  | [] => Some ([], s)
  | Interrupt scancode :: es => s ← keyboard_handler scancode s; kb_run es s
  | GetChar :: es => '(c, s) ← keyboard_getchar s; '(cs, s) ← kb_run es s; Some (c :: cs, s)
  end.

(** The specification: modifiers and a list of at most 255 characters. *)
Fixpoint spec_kb_run (es : list kb_event) (m : modifiers) (l : list Z) : list Z * (modifiers * list Z) :=
  match es with
  | [] => ([], (m, l))
  | Interrupt scancode :: es =>
      spec_kb_run es (key_mods m scancode)
        (match key_char m scancode with
         | Some c => if bool_decide (length l < 255)%nat then l ++ [c] else l
         | None => l
         end)
  | GetChar :: es =>
      let '(cs, r) := spec_kb_run es m (tail l) in (default 0 (head l) :: cs, r)
  end.

Lemma kb_run_ok es s :
  kb_ok s → Forall event_ok es →
  ∃ s', kb_run es s = Some ((spec_kb_run es (mods s) (pending s)).1, s') ∧ kb_ok s' ∧
    (mods s', pending s') = (spec_kb_run es (mods s) (pending s)).2.
Proof.
  intros Hok Hes. revert s Hok. induction Hes as [|[scancode|] es He _ IH]; intros s Hok; [by exists s| |];
    cbn [kb_run spec_kb_run].
  - destruct (keyboard_handler_ok scancode s Hok He) as (s1 & -> & Hok1 & Hm1 & Hp1). cbn [mbind option_bind].
    destruct (IH s1 Hok1) as (s' & E & Hok' & Hfinal). rewrite Hm1, Hp1 in *. by exists s'.
  - destruct (keyboard_getchar_ok s Hok) as (s1 & -> & Hok1 & Hm1 & Hp1). cbn [mbind option_bind].
    destruct (IH s1 Hok1) as (s' & -> & Hok' & Hfinal). rewrite Hm1, Hp1 in *. cbn [mbind option_bind].
    destruct (spec_kb_run es (mods s) (tail (pending s))) as [cs r]. by exists s'.
Qed.

(** C27. The keyboard driver: for every interleaving of keyboard interrupts
    and [keyboard_getchar] calls from the initial state, the reader gets the
    characters of the keys pressed (by the modifiers of the moment: shift,
    caps lock), in order, each once; keys pressed while 255 wait are dropped,
    a read with none waiting gives 0, and no access leaves the buffer or the
    scancode tables. *)
Theorem keyboard_events_fifo (es : list kb_event) :
  Forall event_ok es →
  ∃ s', kb_run es kb_bss = Some ((spec_kb_run es no_mods []).1, s') ∧ kb_ok s' ∧
    (mods s', pending s') = (spec_kb_run es no_mods []).2.
Proof.
  apply (kb_run_ok es kb_bss). split; [done|cbn; unfold KB_BUFFER_SIZE; lia..|by constructor].
Qed.

(** Shift down, 'a' key, shift up, caps lock, 'z' key, backspace, four reads. *)
Definition demo_events : list kb_event :=
  [Interrupt 0x2A; Interrupt 0x10; Interrupt 0xAA; Interrupt 0x3A; Interrupt 0x11; Interrupt 0x0E;
   GetChar; GetChar; GetChar; GetChar].

Example demo_events_out : (spec_kb_run demo_events no_mods []).1 = [65; 90; 8; 0].
Proof. reflexivity. Qed.

Lemma keyboard_events_fifo_witness :
  ∃ s', kb_run demo_events kb_bss = Some ((spec_kb_run demo_events no_mods []).1, s') ∧ kb_ok s' ∧
    (mods s', pending s') = (spec_kb_run demo_events no_mods []).2.
Proof. apply (keyboard_events_fifo demo_events). repeat constructor; discriminate. Defined.

End Keyboard.
