(* ===== verification/Preempt.v ===== *)
(** * Preempt: the key buffer under interrupts in the middle of a read

    [keyboard_getchar] runs with interrupts on: the keyboard handler may run
    between any two of its accesses to the volatile indices.  Here the function
    is cut into these accesses, in the order the compiler may choose, and the
    handler - which an interrupt gate runs with interrupts off - steps in
    between.  The system still behaves like a bounded queue read at one moment
    between call and return.  A second reader in between is another matter. *)
From S2P Require Import Prelude Ring Traces Keyboard.
Import Keyboard.

Module Preempt.

(** ** The accesses of [keyboard_getchar] *)
Inductive reader : Type :=
| Outside
| Entered
| GotRead (r : nat)
| GotWrite (w : nat)
| Nonempty
| Fetched (c : Z)
| Returning (c : Z).

Definition compared (r w : nat) : reader := if bool_decide (r = w) then Returning 0 else Nonempty.

Definition advance (s : kb_state) : kb_state :=
  {| mods := mods s; kb_buffer := kb_buffer s; kb_write_ptr := kb_write_ptr s;
     kb_read_ptr := (kb_read_ptr s + 1) mod KB_BUFFER_SIZE |}.

(** One access; [write_first] is the order in which the comparison loads its
    operands. *)
Definition getchar_step (write_first : bool) (s : kb_state) (pc : reader) : option (kb_state * reader) :=
  match pc with
  | Entered => Some (s, if write_first then GotWrite (kb_write_ptr s) else GotRead (kb_read_ptr s))
  | GotRead r => Some (s, compared r (kb_write_ptr s))
  | GotWrite w => Some (s, compared (kb_read_ptr s) w)
  | Nonempty => c ← (kb_buffer s).[Z.of_nat (kb_read_ptr s)]; Some (s, Fetched c)
  | Fetched c => Some (advance s, Returning c)
  | Outside | Returning _ => None
  end.

Definition inside (pc : reader) : bool := match pc with Outside | Returning _ => false | _ => true end.

(** Left alone, the accesses are [keyboard_getchar]. *)
Fixpoint run_reader (fuel : nat) (write_first : bool) (s : kb_state) (pc : reader) : option (Z * kb_state) :=
  match pc, fuel with
  | Returning c, _ => Some (c, s)
  | _, O => None
  | _, S n => '(s, pc) ← getchar_step write_first s pc; run_reader n write_first s pc
  end.

Lemma run_reader_alone write_first s : run_reader 5 write_first s Entered = keyboard_getchar s.
Proof.
  unfold keyboard_getchar. destruct write_first; cbn [run_reader getchar_step mbind option_bind]; unfold compared;
    case_bool_decide; cbn [run_reader getchar_step mbind option_bind]; try done;
    by destruct ((kb_buffer s).[Z.of_nat (kb_read_ptr s)]).
Qed.

(** ** The system: one reader and the interrupts *)
Inductive label : Type :=
| Call
| Return (c : Z)
| Irq (scancode : Z).

Definition conf : Type := kb_state * reader.

Inductive kstep : conf → option label → conf → Prop :=
| k_call s : kstep (s, Outside) (Some Call) (s, Entered)
| k_access b s pc s' pc' : getchar_step b s pc = Some (s', pc') → kstep (s, pc) None (s', pc')
| k_return s c : kstep (s, Returning c) (Some (Return c)) (s, Outside)
| k_irq scancode s pc s' :
    0 <= scancode < 256 → keyboard_handler scancode s = Some s' → kstep (s, pc) (Some (Irq scancode)) (s', pc).

(** ** The specification: the read happens in one step *)
Inductive caller : Type :=
| Idle
| Waiting
| Has (c : Z).

Definition press (scancode : Z) (m : modifiers) (l : list Z) : list Z :=
  match key_char m scancode with
  | Some c => if bool_decide (length l < 255)%nat then l ++ [c] else l
  | None => l
  end.

Definition queue : Type := modifiers * list Z * caller.

Inductive qstep : queue → option label → queue → Prop :=
| q_call m l : qstep (m, l, Idle) (Some Call) (m, l, Waiting)
| q_take m l : qstep (m, l, Waiting) None (m, tail l, Has (default 0 (head l)))
| q_return m l c : qstep (m, l, Has c) (Some (Return c)) (m, l, Idle)
| q_irq scancode m l p : qstep (m, l, p) (Some (Irq scancode)) (key_mods m scancode, press scancode m l, p).

(** ** The simulation *)

(** Where the read stands in the specification: already done when an empty
    buffer has been seen through the write index. *)
Definition matches (s : kb_state) (pc : reader) (p : caller) : Prop :=
  match pc with
  | Outside => p = Idle
  | Entered => p = Waiting
  | GotRead r => p = Waiting ∧ r = kb_read_ptr s
  | GotWrite w => if bool_decide (kb_read_ptr s = w) then p = Has 0 else p = Waiting ∧ pending s ≠ []
  | Nonempty => p = Waiting ∧ pending s ≠ []
  | Fetched c => p = Waiting ∧ head (pending s) = Some c
  | Returning c => p = Has c
  end.

Definition related (k : conf) (q : queue) : Prop :=
  kb_ok k.1 ∧ q.1 = (mods k.1, pending k.1) ∧ matches k.1 k.2 q.2.

Lemma enqueue_read_ptr c s s' : kb_enqueue c s = Some s' → kb_read_ptr s' = kb_read_ptr s.
Proof.
  unfold kb_enqueue. destruct (negb _); [|by intros [= <-]]. intros (buf & _ & [= <-])%bind_Some. done.
Qed.

Lemma handler_read_ptr scancode s s' : keyboard_handler scancode s = Some s' → kb_read_ptr s' = kb_read_ptr s.
Proof.
  unfold keyboard_handler. destruct (scancode =? 0x0E); [apply enqueue_read_ptr|].
  destruct (modifier_key _ _); [by intros [= <-]|]. destruct (negb _); [by intros [= <-]|].
  destruct (_ <? _); [|by intros [= <-]]. intros (c & _ & H)%bind_Some.
  destruct (negb _); [by eapply enqueue_read_ptr|by injection H as <-].
Qed.

Lemma empty_iff s : kb_ok s → kb_read_ptr s = kb_write_ptr s ↔ pending s = [].
Proof.
  intros Hok. pose proof Hok as [_ Hw Hr _]. rewrite (index_empty _ _ Hw Hr). fold (kb_count s).
  rewrite <- pending_length by done. destruct (pending s); naive_solver.
Qed.

(** The oldest key is where the read index points. *)
Lemma fetch_ok s c l :
  kb_ok s → pending s = c :: l →
  (kb_buffer s).[Z.of_nat (kb_read_ptr s)] = Some c ∧ kb_ok (advance s) ∧ pending (advance s) = l.
Proof.
  intros Hok Hp. destruct (keyboard_getchar_ok s Hok) as (s' & E & Hok' & _ & Hp').
  unfold keyboard_getchar in E. rewrite bool_decide_eq_false_2 in E by (rewrite empty_iff by done; by rewrite Hp).
  fold (advance s) in E. destruct (_.[_]) as [d|]; [|done]. cbn [mbind option_bind] in E. rewrite Hp in *. by simplify_eq/=.
Qed.

Lemma press_head scancode m l c : head l = Some c → head (press scancode m l) = Some c.
Proof. intros H. unfold press. destruct (key_char m scancode); [|done]. case_bool_decide; [|done]. by destruct l. Qed.
Lemma press_nonempty scancode m l : l ≠ [] → press scancode m l ≠ [].
Proof. intros H. unfold press. destruct (key_char m scancode); [|done]. case_bool_decide; [|done]. by destruct l. Qed.

Lemma sim_irq scancode s pc s' m l p :
  0 <= scancode < 256 → keyboard_handler scancode s = Some s' → related (s, pc) (m, l, p) →
  related (s', pc) (key_mods m scancode, press scancode m l, p).
Proof.
  intros Hsc E (Hok & Hq & Hm). cbn in Hok, Hq, Hm. injection Hq as -> ->.
  destruct (keyboard_handler_ok scancode s Hok Hsc) as (s1 & E1 & Hok' & Hm' & Hp'). rewrite E in E1. injection E1 as <-.
  change (pending s' = press scancode (mods s) (pending s)) in Hp'. pose proof (handler_read_ptr _ _ _ E) as Hr.
  split; [done|]. split; [cbn; by rewrite Hm', Hp'|]. destruct pc as [| |r|w| |c|c]; cbn in *; rewrite ?Hp', ?Hr; try done.
  - case_bool_decide; [done|]. destruct Hm. split; [done|]. by apply press_nonempty.
  - destruct Hm. split; [done|]. by apply press_nonempty.
  - destruct Hm. split; [done|]. by apply press_head.
Qed.

(** An access is one step of the specification or none. *)
Lemma sim_access b s pc s' pc' q :
  getchar_step b s pc = Some (s', pc') → related (s, pc) q →
  ∃ q', trace qstep q [] q' ∧ related (s', pc') q'.
Proof.
  intros E (Hok & Hq & Hm). destruct q as [[m l] p]. cbn in Hok, Hq, Hm. injection Hq as -> ->.
  assert (pending s = [] → trace qstep (mods s, pending s, Waiting) [] (mods s, pending s, Has 0)) as Htake.
  { intros He. rewrite He. apply (trace_one qstep _ None), q_take. }
  assert (∀ p, trace qstep (mods s, pending s, p) [] (mods s, pending s, p)) as Hstay by constructor.
  pose proof (empty_iff s Hok) as He.
  destruct pc as [| |r|w| |c|c]; try discriminate E; cbn [getchar_step] in E.
  - injection E as <- <-. cbn in Hm. subst p. destruct b; [|by eexists (_, _, _)].
    destruct (decide (kb_read_ptr s = kb_write_ptr s)) as [H0|H0]; eexists (_, _, _).
    + split; [apply Htake; tauto|]. split; [done|]. split; [done|]. cbn. by rewrite bool_decide_eq_true_2.
    + split; [apply Hstay|]. split; [done|]. split; [done|]. cbn. rewrite bool_decide_eq_false_2 by done. tauto.
  - injection E as <- <-. destruct Hm as [-> ->]. unfold compared. case_bool_decide as H0; eexists (_, _, _).
    + split; [apply Htake; tauto|]. by split.
    + split; [apply Hstay|]. split; [done|]. split; [done|]. cbn. tauto.
  - injection E as <- <-. cbn in Hm. unfold compared. exists (mods s, pending s, p). split; [apply Hstay|].
    split; [done|]. split; [done|]. by case_bool_decide.
  - destruct Hm as [-> Hne]. destruct (pending s) as [|c l] eqn:Hp; [done|].
    destruct (fetch_ok s c l Hok Hp) as (Hc & _). rewrite Hc in E. injection E as <- <-.
    exists (mods s, pending s, Waiting). rewrite <- Hp in *. split; [apply Hstay|]. split; [done|]. split; [done|]. cbn.
    by rewrite Hp.
  - injection E as <- <-. destruct Hm as [-> Hc]. destruct (pending s) as [|d l] eqn:Hp; [done|]. injection Hc as ->.
    destruct (fetch_ok s c l Hok Hp) as (_ & Hok' & Hp'). exists (mods s, l, Has c).
    split; [apply (trace_one qstep _ None), (q_take (mods s) (c :: l))|]. split; [done|]. split; [cbn; by rewrite Hp'|done].
Qed.

Lemma sim_step k q o k' :
  related k q → kstep k o k' → ∃ q', trace qstep q (shown o) q' ∧ related k' q'.
Proof.
  intros HR Hs. destruct Hs as [s|b s pc s' pc' E|s c|scancode s pc s' Hsc E].
  - destruct q as [[m l] p]. destruct HR as (Hok & Hq & Hm). cbn in Hm. subst p.
    exists (m, l, Waiting). split; [apply trace_one, q_call|by split].
  - by eapply sim_access.
  - destruct q as [[m l] p]. destruct HR as (Hok & Hq & Hm). cbn in Hm. subst p.
    exists (m, l, Idle). split; [apply trace_one, q_return|by split].
  - destruct q as [[m l] p]. eexists. split; [apply trace_one, q_irq|]. by eapply sim_irq.
Qed.

Lemma access_defined b s pc q : related (s, pc) q → inside pc = true → is_Some (getchar_step b s pc).
Proof.
  intros (Hok & _ & Hm) Hin. destruct pc as [| |r|w| |c|c]; try discriminate Hin; try by eexists.
  cbn in Hm. destruct Hm as [_ Hne]. destruct (pending s) as [|c l] eqn:Hp; [done|].
  destruct (fetch_ok s c l Hok Hp) as (Hc & _). cbn [getchar_step]. rewrite Hc. by eexists.
Qed.

Lemma kb_bss_related : related (kb_bss, Outside) (no_mods, [], Idle).
Proof. split; [|done]. split; [done|cbn; unfold KB_BUFFER_SIZE; lia..|by constructor]. Qed.

(** C15. The key buffer under preemption: let the keyboard interrupt arrive
    between any two accesses of [keyboard_getchar], in whatever order the
    comparison loads the two indices.  Every history of calls, returns and
    scancodes is one of the bounded queue from which each call takes the
    oldest key, or 0, in a single step between its call and its return; the
    keys waiting are those of the queue; and no step is ever stuck: the
    handler and the next access of the read are always defined. *)
Theorem getchar_linearizable (ls : list label) (s : kb_state) (pc : reader) :
  trace kstep (kb_bss, Outside) ls (s, pc) →
  (∃ p, trace qstep (no_mods, [], Idle) ls (mods s, pending s, p)) ∧
  (∀ scancode, 0 <= scancode < 256 → is_Some (keyboard_handler scancode s)) ∧
  (inside pc = true → ∀ write_first, is_Some (getchar_step write_first s pc)).
Proof.
  intros H. destruct (simulation_traces kstep qstep related _ _ _ _ (λ k q o k', sim_step k q o k') kb_bss_related H)
    as ([[m l] p] & Hq & HR).
  pose proof HR as (Hok & Hv & _). cbn in Hv, Hok. injection Hv as -> ->. split; [by exists p|]. split.
  - intros scancode Hsc. destruct (keyboard_handler_ok scancode s Hok Hsc) as (s' & -> & _). by eexists.
  - intros Hin b. by eapply access_defined.
Qed.

(** The 'a' key arrives after the write index was loaded: the call returns 0
    and the key waits for the next one. *)
Definition pressed_a : kb_state :=
  {| mods := no_mods; kb_buffer := <[0%nat := 97]> (kb_buffer kb_bss); kb_write_ptr := 1; kb_read_ptr := 0 |}.
Lemma pressed_a_eq : keyboard_handler 0x10 kb_bss = Some pressed_a.
Proof. reflexivity. Qed.

Lemma late_key_trace : trace kstep (kb_bss, Outside) [Call; Irq 0x10; Return 0] (pressed_a, Outside).
Proof.
  apply (trace_step kstep _ (Some Call) (kb_bss, Entered) [Irq 0x10; Return 0]); [constructor|].
  apply (trace_step kstep _ None (kb_bss, GotWrite 0) [Irq 0x10; Return 0]); [by apply (k_access true)|].
  apply (trace_step kstep _ (Some (Irq 0x10)) (pressed_a, GotWrite 0) [Return 0]); [by constructor|].
  apply (trace_step kstep _ None (pressed_a, Returning 0) [Return 0]); [by apply (k_access true)|].
  apply (trace_one kstep _ (Some (Return 0))). constructor.
Qed.

Lemma getchar_linearizable_witness :
  (∃ p, trace qstep (no_mods, [], Idle) [Call; Irq 0x10; Return 0] (mods pressed_a, pending pressed_a, p)) ∧
  (∀ scancode, 0 <= scancode < 256 → is_Some (keyboard_handler scancode pressed_a)) ∧
  (inside Outside = true → ∀ write_first, is_Some (getchar_step write_first pressed_a Outside)).
Proof. exact (getchar_linearizable [Call; Irq 0x10; Return 0] pressed_a Outside late_key_trace). Defined.

(** ** A second reader *)

(** Another process reads while the first is preempted; its own read is taken
    whole. *)
Inductive kstep2 : conf → option (label + Z) → conf → Prop :=
| k2_step k o k' : kstep k o k' → kstep2 k (inl <$> o) k'
| k2_other s pc c s' : keyboard_getchar s = Some (c, s') → kstep2 (s, pc) (Some (inr c)) (s', pc).

(** Nothing typed reaches the buffer any more. *)
Definition deaf (s : kb_state) : Prop :=
  ∀ scancode, 0 <= scancode < 256 → ∃ s', keyboard_handler scancode s = Some s' ∧
    kb_buffer s' = kb_buffer s ∧ kb_write_ptr s' = kb_write_ptr s ∧ kb_read_ptr s' = kb_read_ptr s.

Lemma enqueue_full c s :
  ((kb_write_ptr s + 1) mod KB_BUFFER_SIZE)%nat = kb_read_ptr s → kb_enqueue c s = Some s.
Proof. intros H. unfold kb_enqueue. by rewrite bool_decide_eq_true_2. Qed.

Lemma full_deaf s :
  ((kb_write_ptr s + 1) mod KB_BUFFER_SIZE)%nat = kb_read_ptr s → deaf s.
Proof.
  intros Hf scancode Hsc. unfold keyboard_handler. pose proof (λ c, enqueue_full c s Hf) as Henq.
  destruct (scancode =? 0x0E); [rewrite Henq; by exists s|].
  destruct (modifier_key _ _); [by eexists|]. destruct (negb (Z.land _ _ =? 0)); [by exists s|].
  destruct (Z.ltb_spec scancode (zlen scancode_to_ascii_us)) as [Hin|]; [|by exists s].
  assert (is_Some (if negb (shift_pressed (mods s) =? 0) then scancode_to_ascii_us_shift.[scancode]
    else scancode_to_ascii_us.[scancode])) as [c ->].
  { destruct (negb _); apply zget_Some; [change (zlen scancode_to_ascii_us_shift) with (zlen scancode_to_ascii_us)|]; lia. }
  cbn [mbind option_bind]. destruct (negb _); [rewrite Henq|]; by exists s.
Qed.

(** C38. [keyboard_getchar] is not reentrant: when one key waits and a second
    reader takes it after the first has found the buffer not empty, the first
    returns whatever the next slot holds and moves the read index past the
    write index; the empty buffer then counts as full, and every further key is
    dropped until stale slots have been read. *)
Theorem getchar_not_reentrant (s : kb_state) (c : Z) :
  kb_ok s → pending s = [c] →
  ∃ d s', trace kstep2 (s, Outside) [inl Call; inr c; inl (Return d)] (s', Outside) ∧
    (kb_buffer s).[Z.of_nat ((kb_read_ptr s + 1) mod KB_BUFFER_SIZE)] = Some d ∧ kb_count s' = 255%nat ∧ deaf s'.
Proof.
  intros Hok Hp. destruct (fetch_ok s c [] Hok Hp) as (Hc & Hok1 & Hp1). pose proof Hok1 as [Hb1 Hw1 Hr1 _].
  pose proof (proj2 (empty_iff _ Hok1) Hp1) as Hrw. cbn in Hrw.
  destruct (lookup_lt_is_Some_2 (kb_buffer s) (kb_read_ptr (advance s))) as [d Hd]; [cbn in *; lia|].
  assert (keyboard_getchar s = Some (c, advance s)) as Eg.
  { unfold keyboard_getchar. rewrite bool_decide_eq_false_2 by (rewrite empty_iff by done; by rewrite Hp). by rewrite Hc. }
  assert (((kb_write_ptr s + 1) mod KB_BUFFER_SIZE)%nat = kb_read_ptr (advance (advance s))) as Hfull.
  { cbn. by rewrite Hrw. }
  exists d, (advance (advance s)). split_and!.
  - apply (trace_step kstep2 _ (Some (inl Call)) (s, Entered) [inr c; inl (Return d)]); [apply (k2_step _ (Some Call)), k_call|].
    apply (trace_step kstep2 _ None (s, GotRead (kb_read_ptr s)) [inr c; inl (Return d)]);
      [by apply (k2_step _ None), (k_access false)|].
    apply (trace_step kstep2 _ None (s, Nonempty) [inr c; inl (Return d)]).
    { apply (k2_step _ None), (k_access false). cbn. unfold compared.
      by rewrite bool_decide_eq_false_2 by (rewrite empty_iff by done; by rewrite Hp). }
    apply (trace_step kstep2 _ (Some (inr c)) (advance s, Nonempty) [inl (Return d)]); [by constructor|].
    apply (trace_step kstep2 _ None (advance s, Fetched d) [inl (Return d)]).
    { apply (k2_step _ None), (k_access false). cbn [getchar_step]. rewrite zget_nat. change (kb_buffer (advance s)) with (kb_buffer s).
      by rewrite Hd. }
    apply (trace_step kstep2 _ None (advance (advance s), Returning d) [inl (Return d)]);
      [by apply (k2_step _ None), (k_access false)|].
    apply (trace_one kstep2 _ (Some (inl (Return d)))), (k2_step _ (Some (Return d))), k_return.
  - by rewrite zget_nat.
  - unfold kb_count. rewrite <- Hfull. cbn [kb_write_ptr advance]. pose proof Hok as [_ Hw _ _]. mod_lia.
  - by apply full_deaf.
Qed.

Lemma getchar_not_reentrant_witness :
  ∃ d s', trace kstep2 (pressed_a, Outside) [inl Call; inr 97; inl (Return d)] (s', Outside) ∧
    (kb_buffer pressed_a).[Z.of_nat ((kb_read_ptr pressed_a + 1) mod KB_BUFFER_SIZE)] = Some d ∧ kb_count s' = 255%nat ∧ deaf s'.
Proof.
  apply (getchar_not_reentrant pressed_a 97); [|reflexivity].
  split; [done|cbn; unfold KB_BUFFER_SIZE; lia..|by repeat constructor].
Defined.

End Preempt.
