(* ===== verification/Security.v ===== *)
(** * Security: users, permissions and access control (kernel/security.c)

    A [char *] argument is [None] for NULL, else the buffer it points into. *)
From S2P Require Import Prelude CString.

Module Security.

Definition ROOT_UID : Z := 0.
Definition PERM_READ : Z := 0x001.
Definition PERM_WRITE : Z := 0x002.
Definition PERM_EXECUTE : Z := 0x004.
Definition PERM_DELETE : Z := 0x008.
Definition PERM_ADMIN : Z := 0x800.
Definition MAX_USERS : nat := 16.
Definition MAX_ACL : nat := 64.
Definition NAME_SIZE : nat := 32.
Definition RESOURCE_SIZE : nat := 64.
#[global] Arguments MAX_USERS : simpl never.
#[global] Arguments MAX_ACL : simpl never.
#[global] Arguments NAME_SIZE : simpl never.
#[global] Arguments RESOURCE_SIZE : simpl never.

Record security_context_t := {
  ctx_uid : Z;
  ctx_gid : Z;
  ctx_euid : Z;
  ctx_egid : Z;
  ctx_permissions : Z;
}.

Record user_entry_t := {
  username : list Z;
  usr_uid : Z;
  usr_gid : Z;
  password : list Z;
  usr_active : Z;
}.

Record acl_entry_t := {
  resource : list Z;
  acl_uid : Z;
  acl_gid : Z;
  acl_permissions : Z;
}.

Record security_state := {
  current_context : security_context_t;
  user_db : list user_entry_t;
  user_count : nat;
  acl_table : list acl_entry_t;
  acl_count : nat;
}.

Definition zero_user : user_entry_t :=
  {| username := replicate NAME_SIZE 0; usr_uid := 0; usr_gid := 0; password := replicate NAME_SIZE 0;
     usr_active := 0 |}.
Definition zero_acl : acl_entry_t :=
  {| resource := replicate RESOURCE_SIZE 0; acl_uid := 0; acl_gid := 0; acl_permissions := 0 |}.

(** The zeroed statics *)
Definition security_bss : security_state :=
  {| current_context := {| ctx_uid := 0; ctx_gid := 0; ctx_euid := 0; ctx_egid := 0; ctx_permissions := 0 |};
     user_db := replicate MAX_USERS zero_user; user_count := 0; acl_table := replicate MAX_ACL zero_acl; acl_count := 0 |}.

Definition set_ctx (c : security_context_t) (s : security_state) : security_state :=
  {| current_context := c; user_db := user_db s; user_count := user_count s; acl_table := acl_table s;
     acl_count := acl_count s |}.
Definition set_users (db : list user_entry_t) (n : nat) (s : security_state) : security_state :=
  {| current_context := current_context s; user_db := db; user_count := n; acl_table := acl_table s;
     acl_count := acl_count s |}.
Definition set_acl (t : list acl_entry_t) (n : nat) (s : security_state) : security_state :=
  {| current_context := current_context s; user_db := user_db s; user_count := user_count s; acl_table := t;
     acl_count := n |}.

Definition is_root (s : security_state) : bool := ctx_uid (current_context s) =? ROOT_UID.

(** ** The security context *)

Definition context_permissions (uid : Z) : Z :=
  if uid =? ROOT_UID
  then Z.lor (Z.lor (Z.lor (Z.lor PERM_READ PERM_WRITE) PERM_EXECUTE) PERM_DELETE) PERM_ADMIN
  else Z.lor PERM_READ PERM_EXECUTE.

Definition security_set_context (uid gid : Z) (s : security_state) : Z * security_state :=
  if negb (is_root s) then (-1, s)
  else (0, set_ctx {| ctx_uid := uid; ctx_gid := gid; ctx_euid := uid; ctx_egid := gid;
                      ctx_permissions := context_permissions uid |} s).

(** The context copied through the output pointer, [None] for NULL. *)
Definition security_get_context (out : bool) (s : security_state) : Z * option security_context_t :=
  if negb out then (-1, None) else (0, Some (current_context s)).

Definition has_permission (permissions required_perm : Z) : Z :=
  if Z.land permissions required_perm =? required_perm then 0 else -1.

Definition security_check_permission (required_perm : Z) (s : security_state) : Z :=
  has_permission (ctx_permissions (current_context s)) required_perm.

Definition security_check_file_access (filename : option (list Z)) (required_perm : Z) (s : security_state)
    : option Z :=
  match filename with
  | None => Some (-1)
  | Some filename =>
      r ← find_loop (λ e, b ← streq (resource e) filename;
                          Some (b && ((acl_uid e =? ctx_uid (current_context s)) ||
                                      (acl_gid e =? ctx_gid (current_context s)) ||
                                      (acl_uid e =? ROOT_UID))))
                    (take (acl_count s) (acl_table s));
      match r with
      | Some i => e ← acl_table s !! i; Some (has_permission (acl_permissions e) required_perm)
      | None => Some (security_check_permission required_perm s)
      end
  end.

Definition security_check_device_access (devname : option (list Z)) (required_perm : Z) (s : security_state) : Z :=
  match devname with
  | None => -1
  | Some _ => if negb (is_root s) then -1 else security_check_permission required_perm s
  end.

(** ** The access control list *)

(** [strcmp(e.resource, name) == 0 && e.uid == uid && e.gid == gid] *)
Definition acl_match (name : list Z) (uid gid : Z) (e : acl_entry_t) : option bool :=
  b ← streq (resource e) name; Some (b && (acl_uid e =? uid) && (acl_gid e =? gid)).

Definition security_set_permission (res : option (list Z)) (uid gid perm : Z) (s : security_state)
    : option (Z * security_state) :=
  match res with
  | None => Some (-1, s)
  | Some res =>
      if bool_decide (MAX_ACL ≤ acl_count s)%nat then Some (-1, s)
      else if negb (is_root s) then Some (-1, s)
      else
        r ← find_loop (acl_match res uid gid) (take (acl_count s) (acl_table s));
        match r with
        | Some i =>
            e ← acl_table s !! i;
            Some (0, set_acl (<[i := {| resource := resource e; acl_uid := acl_uid e; acl_gid := acl_gid e;
                                        acl_permissions := perm |}]> (acl_table s)) (acl_count s) s)
        | None =>
            slot ← acl_table s !! acl_count s;
            nm ← copy_name (resource slot) res RESOURCE_SIZE;
            Some (0, set_acl (<[acl_count s := {| resource := nm; acl_uid := uid; acl_gid := gid;
                                                  acl_permissions := perm |}]> (acl_table s))
                             (acl_count s + 1) s)
        end
  end.

(** The value stored through [perm], when it is not NULL. *)
Definition security_get_permission (res : option (list Z)) (uid gid : Z) (perm : bool) (s : security_state)
    : option (Z * option Z) :=
  match res with
  | None => Some (-1, None)
  | Some res =>
      if negb perm then Some (-1, None)
      else
        r ← find_loop (acl_match res uid gid) (take (acl_count s) (acl_table s));
        match r with
        | Some i => e ← acl_table s !! i; Some (0, Some (acl_permissions e))
        | None => Some (-1, None)
        end
  end.

(** ** Users *)

Definition security_create_user (name : option (list Z)) (uid gid : Z) (s : security_state)
    : option (Z * security_state) :=
  match name with
  | None => Some (-1, s)
  | Some name =>
      if bool_decide (MAX_USERS ≤ user_count s)%nat then Some (-1, s)
      else if negb (is_root s) then Some (-1, s)
      else
        r ← find_loop (λ u, streq (username u) name) (take (user_count s) (user_db s));
        match r with
        | Some _ => Some (-1, s)
        | None =>
            slot ← user_db s !! user_count s;
            nm ← copy_name (username slot) name NAME_SIZE;
            pw ← zset (password slot) 0 0;
            Some (0, set_users (<[user_count s := {| username := nm; usr_uid := uid; usr_gid := gid;
                                                     password := pw; usr_active := 1 |}]> (user_db s))
                               (user_count s + 1) s)
        end
  end.

Definition set_active (a : Z) (u : user_entry_t) : user_entry_t :=
  {| username := username u; usr_uid := usr_uid u; usr_gid := usr_gid u; password := password u; usr_active := a |}.
Definition set_password (p : list Z) (u : user_entry_t) : user_entry_t :=
  {| username := username u; usr_uid := usr_uid u; usr_gid := usr_gid u; password := p; usr_active := usr_active u |}.

Definition security_delete_user (uid : Z) (s : security_state) : Z * security_state :=
  if negb (is_root s) then (-1, s)
  else if uid =? ROOT_UID then (-1, s)
  else
    match find_first (λ u, usr_uid u =? uid) (take (user_count s) (user_db s)) with
    | Some i => (0, set_users (alter (set_active 0) i (user_db s)) (user_count s) s)
    | None => (-1, s)
    end.

Definition security_set_user_password (uid : Z) (pass : option (list Z)) (s : security_state)
    : option (Z * security_state) :=
  match pass with
  | None => Some (-1, s)
  | Some pass =>
      if negb (is_root s) && negb (ctx_uid (current_context s) =? uid) then Some (-1, s)
      else
        match find_first (λ u, (usr_uid u =? uid) && negb (usr_active u =? 0)) (take (user_count s) (user_db s)) with
        | Some i =>
            u ← user_db s !! i;
            pw ← copy_name (password u) pass NAME_SIZE;
            Some (0, set_users (<[i := set_password pw u]> (user_db s)) (user_count s) s)
        | None => Some (-1, s)
        end
  end.

Definition security_authenticate_user (name pass : option (list Z)) (s : security_state)
    : option (Z * security_state) :=
  match name, pass with
  | Some name, Some pass =>
      r ← find_loop (λ u, if usr_active u =? 0 then Some false
                          else b ← streq (username u) name;
                               if (b : bool) then streq (password u) pass else Some false)
                    (take (user_count s) (user_db s));
      match r with
      | Some i => u ← user_db s !! i; Some (0, (security_set_context (usr_uid u) (usr_gid u) s).2)
      | None => Some (-1, s)
      end
  | _, _ => Some (-1, s)
  end.

(** ** Initialisation *)
Definition security_init : option security_state :=
  let s := {| current_context := {| ctx_uid := ROOT_UID; ctx_gid := ROOT_UID; ctx_euid := ROOT_UID;
                                    ctx_egid := ROOT_UID; ctx_permissions := context_permissions ROOT_UID |};
              user_db := replicate MAX_USERS zero_user; user_count := 0;
              acl_table := replicate MAX_ACL zero_acl; acl_count := 0 |} in
  '(_, s) ← security_create_user (Some (lit "root")) ROOT_UID ROOT_UID s;
  '(_, s) ← security_set_permission (Some (lit "/dev")) ROOT_UID ROOT_UID
              (Z.lor (Z.lor PERM_READ PERM_WRITE) PERM_ADMIN) s;
  '(_, s) ← security_set_permission (Some (lit "/proc")) ROOT_UID ROOT_UID (Z.lor PERM_READ PERM_ADMIN) s;
  '(_, s) ← security_set_permission (Some (lit "/sys")) ROOT_UID ROOT_UID (Z.lor PERM_READ PERM_ADMIN) s;
  Some s.

(** ** Well-formed state *)
Record security_ok (s : security_state) : Prop := {
  ok_users : length (user_db s) = MAX_USERS;
  ok_user_count : (user_count s ≤ MAX_USERS)%nat;
  ok_user_names : Forall (λ u, name_ok NAME_SIZE (username u) ∧ name_ok NAME_SIZE (password u)) (user_db s);
  ok_acl : length (acl_table s) = MAX_ACL;
  ok_acl_count : (acl_count s ≤ MAX_ACL)%nat;
  ok_acl_names : Forall (λ e, name_ok RESOURCE_SIZE (resource e)) (acl_table s);
}.

(** The tests of the search loops, on well-formed names. *)
Definition acl_is (n : list Z) (uid gid : Z) (e : acl_entry_t) : bool :=
  bool_decide (str (resource e) = n) && (acl_uid e =? uid) && (acl_gid e =? gid).
Definition user_is (n p : list Z) (u : user_entry_t) : bool :=
  negb (usr_active u =? 0) && bool_decide (str (username u) = n) && bool_decide (str (password u) = p).

Section searches.
Context (s : security_state) (Hok : security_ok s).

Lemma acl_entry_ok i e : acl_table s !! i = Some e → name_ok RESOURCE_SIZE (resource e).
Proof. intros H. by eapply (Forall_lookup_1 _ _ _ _ (ok_acl_names s Hok)). Qed.
Lemma user_entry_ok i u :
  user_db s !! i = Some u → name_ok NAME_SIZE (username u) ∧ name_ok NAME_SIZE (password u).
Proof. intros H. by eapply (Forall_lookup_1 _ _ _ _ (ok_user_names s Hok)) in H. Qed.

Lemma acl_search res n uid gid :
  cstr res = Some n →
  find_loop (acl_match res uid gid) (take (acl_count s) (acl_table s)) =
    Some (find_first (acl_is n uid gid) (take (acl_count s) (acl_table s))).
Proof.
  intros Hn. apply find_loop_pure. intros e [i Hi]%list_elem_of_lookup.
  apply lookup_take_Some in Hi as [Hi _]. apply acl_entry_ok in Hi.
  unfold acl_match, acl_is. by rewrite (streq_spec _ _ _ _ (name_ok_str _ _ Hi) Hn).
Qed.

Lemma user_name_search name n :
  cstr name = Some n →
  find_loop (λ u, streq (username u) name) (take (user_count s) (user_db s)) =
    Some (find_first (λ u, bool_decide (str (username u) = n)) (take (user_count s) (user_db s))).
Proof.
  intros Hn. apply find_loop_pure. intros u [i Hi]%list_elem_of_lookup.
  apply lookup_take_Some in Hi as [Hi _]. apply user_entry_ok in Hi as [Hi _].
  by rewrite (streq_spec _ _ _ _ (name_ok_str _ _ Hi) Hn).
Qed.

Lemma auth_search name n pass p :
  cstr name = Some n → cstr pass = Some p →
  find_loop (λ u, if usr_active u =? 0 then Some false
                  else b ← streq (username u) name;
                       if (b : bool) then streq (password u) pass else Some false)
            (take (user_count s) (user_db s)) =
    Some (find_first (user_is n p) (take (user_count s) (user_db s))).
Proof.
  intros Hn Hp. apply find_loop_pure. intros u [i Hi]%list_elem_of_lookup.
  apply lookup_take_Some in Hi as [Hi _]. apply user_entry_ok in Hi as [Hname Hpass].
  unfold user_is. destruct (usr_active u =? 0); [done|].
  rewrite (streq_spec _ _ _ _ (name_ok_str _ _ Hname) Hn). cbn [mbind option_bind negb andb].
  case_bool_decide; cbn [andb]; [|done]. by rewrite (streq_spec _ _ _ _ (name_ok_str _ _ Hpass) Hp).
Qed.

Lemma acl_found_lookup q i : find_first q (take (acl_count s) (acl_table s)) = Some i →
  (i < acl_count s)%nat ∧ ∃ e, acl_table s !! i = Some e ∧ q e = true.
Proof.
  intros [(e & He & Hq) _]%find_first_Some. apply lookup_take_Some in He as [He Hi]. eauto.
Qed.
Lemma user_found_lookup q i : find_first q (take (user_count s) (user_db s)) = Some i →
  (i < user_count s)%nat ∧ ∃ u, user_db s !! i = Some u ∧ q u = true.
Proof.
  intros [(u & Hu & Hq) _]%find_first_Some. apply lookup_take_Some in Hu as [Hu Hi]. eauto.
Qed.
End searches.

(** ** The access control list as a finite map *)

(** The permissions recorded for a resource, user and group. *)
Definition acl_perm (n : list Z) (uid gid : Z) (s : security_state) : option Z :=
  i ← find_first (acl_is n uid gid) (take (acl_count s) (acl_table s));
  e ← acl_table s !! i; Some (acl_permissions e).

Lemma get_permission_spec s res n uid gid :
  security_ok s → cstr res = Some n →
  security_get_permission (Some res) uid gid true s =
    Some (match acl_perm n uid gid s with Some p => (0, Some p) | None => (-1, None) end).
Proof.
  intros Hok Hn. unfold security_get_permission, acl_perm. cbn [negb]. rewrite (acl_search s Hok res n) by done.
  cbn [mbind option_bind].
  destruct (find_first _ _) as [i|] eqn:E; [|done]. apply acl_found_lookup in E as (_ & e & He & _). cbn [mbind option_bind]. by rewrite He.
Qed.

(** Entry [k] replaced, or added behind the others. *)
Lemma find_first_insert q (l : list acl_entry_t) k e e' :
  l !! k = Some e → q e' = q e → find_first q (<[k := e']> l) = find_first q l.
Proof.
  revert k. induction l as [|x l IH]; intros [|k] Hk Hq; try done; simpl in *.
  - simplify_eq. by rewrite Hq.
  - destruct (q x); [done|]. by rewrite (IH k).
Qed.

Lemma find_first_snoc (q : acl_entry_t → bool) l e :
  find_first q (l ++ [e]) =
    match find_first q l with Some i => Some i | None => if q e then Some (length l) else None end.
Proof.
  induction l as [|x l IH]; cbn; [by destruct (q e)|]. destruct (q x); [done|]. rewrite IH.
  destruct (find_first q l); [done|]. by destruct (q e).
Qed.

(** An entry answers to one key only. *)
Lemma acl_is_inj n uid gid n' uid' gid' e :
  acl_is n uid gid e = true → acl_is n' uid' gid' e = true → (n', uid', gid') = (n, uid, gid).
Proof.
  unfold acl_is. rewrite !andb_true_iff, !bool_decide_eq_true, !Z.eqb_eq. intros [[-> ->] ->] [[-> ->] ->]. done.
Qed.

(** Any name keeps the tables well formed; only root changes anything. *)
Lemma set_permission_ok res uid gid perm s :
  security_ok s → (∀ b, res = Some b → is_Some (cstr b)) →
  ∃ r s', security_set_permission res uid gid perm s = Some (r, s') ∧ security_ok s' ∧ (is_root s = false → s' = s).
Proof.
  intros Hok Hres. unfold security_set_permission. destruct res as [res|]; [|by eexists _, s].
  destruct (Hres res eq_refl) as [n Hn]. pose proof (ok_acl s Hok) as Hl.
  case_bool_decide as Hfull; [by eexists _, s|]. destruct (is_root s); cbn [negb]; [|by eexists _, s].
  rewrite (acl_search s Hok res n) by done. cbn [mbind option_bind].
  destruct (find_first (acl_is n uid gid) _) as [i|] eqn:E.
  - apply acl_found_lookup in E as (Hi & e & He & _). rewrite He. cbn [mbind option_bind].
    eexists _, _. split; [reflexivity|]. split; [|done].
    split; cbn; try apply Hok; [by rewrite length_insert|]. apply Forall_insert; [apply Hok|]. by apply (acl_entry_ok s Hok i e).
  - destruct (lookup_lt_is_Some_2 (acl_table s) (acl_count s)) as [slot Hslot]; [lia|]. rewrite Hslot.
    cbn [mbind option_bind]. destruct (acl_entry_ok s Hok _ _ Hslot) as [Hsl _].
    destruct (copy_name_ok (resource slot) res n RESOURCE_SIZE Hn) as (nm & -> & Hnm & _); [unfold RESOURCE_SIZE; lia|done|].
    cbn [mbind option_bind]. eexists _, _. split; [reflexivity|]. split; [|done].
    split; cbn; try apply Hok; [by rewrite length_insert|lia|]. by apply Forall_insert; [apply Hok|].
Qed.

Lemma set_context_ok uid gid s :
  security_ok s → security_ok (security_set_context uid gid s).2 ∧ (is_root s = false → (security_set_context uid gid s).2 = s).
Proof. intros Hok. unfold security_set_context. destruct (is_root s); cbn [negb snd]; [|done]. split; [|done]. by destruct Hok; split. Qed.

(** An entry of the list in use given other permissions *)
Lemma acl_perm_overwrite s i e n uid gid perm :
  security_ok s → find_first (acl_is n uid gid) (take (acl_count s) (acl_table s)) = Some i →
  (i < acl_count s)%nat → acl_table s !! i = Some e → acl_is n uid gid e = true →
  let e' := {| resource := resource e; acl_uid := acl_uid e; acl_gid := acl_gid e; acl_permissions := perm |} in
  ∀ n' uid' gid', acl_perm n' uid' gid' (set_acl (<[i := e']> (acl_table s)) (acl_count s) s) =
    if bool_decide ((n', uid', gid') = (n, uid, gid)) then Some perm else acl_perm n' uid' gid' s.
Proof.
  intros Hok E Hi He Hmatch e' n' uid' gid'. assert (take (acl_count s) (acl_table s) !! i = Some e) as Htake by by rewrite lookup_take_lt.
  unfold acl_perm. cbn [acl_count acl_table set_acl].
  rewrite take_insert_lt by done. rewrite (find_first_insert _ _ i e e') by done.
  case_bool_decide as Hkey.
  - injection Hkey as -> -> ->. rewrite E. cbn [mbind option_bind].
    by rewrite list_lookup_insert_eq by (apply lookup_lt_Some in He; lia).
  - destruct (find_first (acl_is n' uid' gid') _) as [j|] eqn:Ej; [|done]. cbn [mbind option_bind].
    apply acl_found_lookup in Ej as (_ & ej & Hej & Hmj).
    rewrite list_lookup_insert_ne; [done|]. intros <-. simplify_eq. by apply Hkey, (acl_is_inj n uid gid _ _ _ e).
Qed.

(** An entry added behind it *)
Lemma acl_perm_append s nm n uid gid perm :
  (acl_count s < length (acl_table s))%nat → find_first (acl_is n uid gid) (take (acl_count s) (acl_table s)) = None → str nm = n →
  let e' := {| resource := nm; acl_uid := uid; acl_gid := gid; acl_permissions := perm |} in
  ∀ n' uid' gid', acl_perm n' uid' gid' (set_acl (<[acl_count s := e']> (acl_table s)) (acl_count s + 1)%nat s) =
    if bool_decide ((n', uid', gid') = (n, uid, gid)) then Some perm else acl_perm n' uid' gid' s.
Proof.
  intros Hlt E Hstrn e' n' uid' gid'. unfold acl_perm. cbn [acl_count acl_table set_acl].
  rewrite Nat.add_1_r, take_S_insert by lia. rewrite find_first_snoc, length_take.
  replace (acl_count s `min` length (acl_table s))%nat with (acl_count s) by lia.
  case_bool_decide as Hkey.
  - injection Hkey as -> -> ->. rewrite E.
    assert (acl_is n uid gid e' = true) as -> by (unfold acl_is; cbn; rewrite bool_decide_eq_true_2, !Z.eqb_refl by done; done).
    cbn [mbind option_bind]. by rewrite list_lookup_insert_eq by lia.
  - destruct (find_first (acl_is n' uid' gid') _) as [j|] eqn:Ej; cbn [mbind option_bind].
    + apply acl_found_lookup in Ej as (Hj & _). by rewrite list_lookup_insert_ne by lia.
    + destruct (acl_is n' uid' gid' e') eqn:Em; [|done]. exfalso. apply Hkey.
      unfold acl_is, e' in Em. cbn [resource acl_uid acl_gid] in Em.
      rewrite !andb_true_iff, bool_decide_eq_true, !Z.eqb_eq in Em. destruct Em as [[<- ->] ->]. by rewrite Hstrn.
Qed.

Lemma set_permission_cases s res n uid gid perm :
  security_ok s → cstr res = Some n → (length n < RESOURCE_SIZE)%nat →
  ∃ r s', security_set_permission (Some res) uid gid perm s = Some (r, s') ∧ security_ok s' ∧
    current_context s' = current_context s ∧ user_db s' = user_db s ∧ user_count s' = user_count s ∧
    (r = -1 ∧ s' = s ∧ (is_root s = false ∨ acl_count s = MAX_ACL) ∨
     r = 0 ∧ is_root s = true ∧
     ∀ n' uid' gid', acl_perm n' uid' gid' s' =
       if bool_decide ((n', uid', gid') = (n, uid, gid)) then Some perm else acl_perm n' uid' gid' s).
Proof.
  intros Hok Hn Hlen. unfold security_set_permission.
  pose proof (ok_acl s Hok) as Hl. pose proof (ok_acl_count s Hok) as Hc.
  case_bool_decide as Hfull.
  { exists (-1), s. split_and!; try done. left. split_and!; try done. right. lia. }
  destruct (is_root s) eqn:Hroot; cbn [negb].
  2: { exists (-1), s. split_and!; try done. left. split_and!; try done. by left. }
  rewrite (acl_search s Hok res n) by done. cbn [mbind option_bind].
  destruct (find_first (acl_is n uid gid) (take (acl_count s) (acl_table s))) as [i|] eqn:E.
  - pose proof E as E'. apply acl_found_lookup in E' as (Hi & e & He & Hmatch). rewrite He. cbn [mbind option_bind].
    eexists _, _. split; [reflexivity|].
    set (e' := {| resource := resource e; acl_uid := acl_uid e; acl_gid := acl_gid e; acl_permissions := perm |}).
    split; [split; cbn; try apply Hok; [by rewrite length_insert|]|split_and!; try done].
    { apply Forall_insert; [apply Hok|]. by apply (acl_entry_ok s Hok i e). }
    right. split_and!; try done. by apply (acl_perm_overwrite s i e).
  - destruct (lookup_lt_is_Some_2 (acl_table s) (acl_count s)) as [slot Hslot]; [lia|]. rewrite Hslot.
    cbn [mbind option_bind]. destruct (acl_entry_ok s Hok _ _ Hslot) as [Hsl _].
    destruct (copy_name_ok (resource slot) res n RESOURCE_SIZE Hn) as (nm & -> & Hnm & Hstr);
      [unfold RESOURCE_SIZE; lia|done|]. cbn [mbind option_bind].
    assert (str nm = n) as Hstrn by (rewrite Hstr; unfold trunc; rewrite take_ge; [done|lia]).
    eexists _, _. split; [reflexivity|].
    set (e' := {| resource := nm; acl_uid := uid; acl_gid := gid; acl_permissions := perm |}).
    split; [split; cbn; try apply Hok; [by rewrite length_insert|lia|]|split_and!; try done].
    { apply Forall_insert; [apply Hok|done]. }
    right. split_and!; try done. apply acl_perm_append; [lia|done|done].
Qed.

(** The access control list behaves as a map from (resource, user, group)
    to permissions, for resource names of at most 63 characters:
    [security_set_permission] fails exactly for a caller that is not root or
    a full table, changing nothing; otherwise [security_get_permission] then
    returns the new permissions for that key and the old answer for every
    other. *)
Theorem acl_set_then_get s res n uid gid perm :
  security_ok s → cstr res = Some n → (length n < 64)%nat →
  ∃ r s', security_set_permission (Some res) uid gid perm s = Some (r, s') ∧ security_ok s' ∧
    (r = -1 ∧ s' = s ∧ (is_root s = false ∨ acl_count s = 64%nat) ∨
     r = 0 ∧ is_root s = true ∧
     security_get_permission (Some res) uid gid true s' = Some (0, Some perm) ∧
     ∀ res' n' uid' gid', cstr res' = Some n' → (n', uid', gid') ≠ (n, uid, gid) →
       security_get_permission (Some res') uid' gid' true s' = security_get_permission (Some res') uid' gid' true s).
Proof.
  intros Hok Hn Hlen.
  destruct (set_permission_cases s res n uid gid perm Hok Hn Hlen) as (r & s' & E & Hok' & _ & _ & _ & Hcase).
  exists r, s'. split; [exact E|]. split; [exact Hok'|]. destruct Hcase as [|(-> & Hroot & Hmap)]; [by left|right].
  split; [done|]. split; [done|]. split.
  - by rewrite (get_permission_spec _ _ n), Hmap, bool_decide_eq_true_2.
  - intros res' n' uid' gid' Hn' Hne. rewrite !(get_permission_spec _ _ n') by done.
    by rewrite Hmap, bool_decide_eq_false_2.
Qed.

(** ** What a user who is not root can do *)
Inductive sec_op : Type :=
| SetContext (uid gid : Z)
| SetPermission (res : list Z) (uid gid perm : Z)
| CreateUser (name : list Z) (uid gid : Z)
| DeleteUser (uid : Z)
| SetPassword (uid : Z) (pass : list Z)
| Authenticate (name pass : list Z).

(** The strings are NUL-terminated. *)
Definition sec_op_ok (op : sec_op) : Prop :=
  match op with
  | SetContext _ _ | DeleteUser _ => True
  | SetPermission b _ _ _ | CreateUser b _ _ | SetPassword _ b => is_Some (cstr b)
  | Authenticate n p => is_Some (cstr n) ∧ is_Some (cstr p)
  end.

Definition sec_step (op : sec_op) (s : security_state) : option (Z * security_state) :=
  match op with
  | SetContext uid gid => Some (security_set_context uid gid s)
  | SetPermission res uid gid perm => security_set_permission (Some res) uid gid perm s
  | CreateUser name uid gid => security_create_user (Some name) uid gid s
  | DeleteUser uid => Some (security_delete_user uid s)
  | SetPassword uid pass => security_set_user_password uid (Some pass) s
  | Authenticate name pass => security_authenticate_user (Some name) (Some pass) s
  end.

Fixpoint sec_run (ops : list sec_op) (s : security_state) : option security_state :=
  match ops with
  | [] => Some s
  | op :: ops => '(_, s) ← sec_step op s; sec_run ops s
  end.

(** Only passwords of the entries of user [me] may differ. *)
Record confined (me : Z) (s s' : security_state) : Prop := {
  same_context : current_context s' = current_context s;
  same_acl : acl_table s' = acl_table s ∧ acl_count s' = acl_count s;
  same_count : user_count s' = user_count s;
  same_length : length (user_db s') = length (user_db s);
  same_users : ∀ i u, user_db s !! i = Some u →
    ∃ u', user_db s' !! i = Some u' ∧ (u' = u ∨ usr_uid u = me ∧ u' = set_password (password u') u);
}.

Lemma confined_refl me s : confined me s s.
Proof. split; [done|done|done|done|]. intros i u Hu. exists u. split; [done|by left]. Qed.

Lemma confined_trans me s1 s2 s3 : confined me s1 s2 → confined me s2 s3 → confined me s1 s3.
Proof.
  intros [C1 [A1 A1'] N1 L1 U1] [C2 [A2 A2'] N2 L2 U2].
  split; [congruence|split; congruence|congruence|congruence|].
  intros i u1 Hu1. destruct (U1 i u1 Hu1) as (u2 & Hu2 & H12). destruct (U2 i u2 Hu2) as (u3 & Hu3 & H23).
  exists u3. split; [done|]. destruct H12 as [->|[Hu E2]]; [done|].
  destruct H23 as [->|[Hv E3]]; [by right|]. right. split; [done|]. rewrite E3, E2. done.
Qed.

Lemma sec_step_confined op s :
  security_ok s → is_root s = false → sec_op_ok op →
  ∃ r s', sec_step op s = Some (r, s') ∧ security_ok s' ∧ confined (ctx_uid (current_context s)) s s'.
Proof.
  intros Hok Hroot Hop.
  destruct op as [uid gid|res uid gid perm|name uid gid|uid|uid pass|name pass]; cbn [sec_step sec_op_ok] in *.
  - unfold security_set_context. rewrite Hroot. eexists _, s. split; [done|]. split; [done|apply confined_refl].
  - unfold security_set_permission. rewrite Hroot. eexists _, s.
    split; [by case_bool_decide|]. split; [done|apply confined_refl].
  - unfold security_create_user. rewrite Hroot. eexists _, s.
    split; [by case_bool_decide|]. split; [done|apply confined_refl].
  - unfold security_delete_user. rewrite Hroot. eexists _, s. split; [done|]. split; [done|apply confined_refl].
  - unfold security_set_user_password. rewrite Hroot. cbn [negb andb].
    destruct (Z.eqb_spec (ctx_uid (current_context s)) uid) as [Heq|_]; cbn [negb].
    2: { eexists _, s. split; [done|]. split; [done|apply confined_refl]. }
    destruct (find_first _ _) as [i|] eqn:E.
    2: { eexists _, s. split; [done|]. split; [done|apply confined_refl]. }
    apply user_found_lookup in E as (Hi & u & Hu & Hq). rewrite Hu. cbn [mbind option_bind].
    apply andb_true_iff in Hq as [Huid%Z.eqb_eq _].
    destruct Hop as [p Hp]. destruct (user_entry_ok s Hok i u Hu) as [Hun [Hpl _]].
    destruct (copy_name_ok (password u) pass p NAME_SIZE Hp) as (pw & -> & Hpw & _);
      [unfold NAME_SIZE; lia|done|]. cbn [mbind option_bind].
    eexists _, _. split; [reflexivity|]. split.
    + split; cbn; try apply Hok; [by rewrite length_insert, ok_users|].
      apply Forall_insert; [apply Hok|]. by split.
    + split; cbn; [done|done|done|by rewrite length_insert|].
      intros j v Hv. destruct (decide (i = j)) as [<-|Hne].
      * exists (set_password pw u). simplify_eq. split; [|by right].
        apply list_lookup_insert_eq. by apply lookup_lt_Some in Hu.
      * exists v. rewrite list_lookup_insert_ne by done. split; [done|by left].
  - destruct Hop as [[n Hn] [p Hp]]. unfold security_authenticate_user.
    rewrite (auth_search s Hok name n pass p Hn Hp). cbn [mbind option_bind].
    destruct (find_first _ _) as [i|] eqn:E; [|eexists _, s; split; [done|]; split; [done|apply confined_refl]].
    apply user_found_lookup in E as (Hi & u & -> & Hq). cbn [mbind option_bind].
    unfold security_set_context. rewrite Hroot. cbn [negb snd].
    eexists _, s. split; [done|]. split; [done|apply confined_refl].
Qed.

(** C11. Confinement: whatever a user who is not root calls (any sequence of
    context changes, permission settings, user creations and deletions,
    password settings and authentications), the calls return, and its
    security context, the access control list and the user table stay as
    they were, but for the passwords of entries with its own uid.  In
    particular it never becomes root. *)
Theorem non_root_confined (ops : list sec_op) s :
  security_ok s → is_root s = false → Forall sec_op_ok ops →
  ∃ s', sec_run ops s = Some s' ∧ security_ok s' ∧ confined (ctx_uid (current_context s)) s s'.
Proof.
  intros Hok Hroot Hops. revert s Hok Hroot. induction Hops as [|op ops Hop _ IH]; intros s Hok Hroot.
  { exists s. split; [done|]. split; [done|apply confined_refl]. }
  destruct (sec_step_confined op s Hok Hroot Hop) as (r & s1 & E & Hok1 & Hc1).
  pose proof (same_context _ _ _ Hc1) as Hctx.
  destruct (IH s1 Hok1) as (s2 & E2 & Hok2 & Hc2); [unfold is_root; by rewrite Hctx|].
  exists s2. cbn [sec_run]. rewrite E. split; [exact E2|]. split; [done|].
  rewrite Hctx in Hc2. by eapply confined_trans.
Qed.

(** [security_authenticate_user] returns 0 exactly when an active user has
    that name and that password.  The context becomes that user's only when
    the caller is root; for any other caller it returns 0 and stays as it
    was, although the user was "authenticated". *)
Theorem authenticate_result s name n pass p :
  security_ok s → cstr name = Some n → cstr pass = Some p →
  ∃ r s', security_authenticate_user (Some name) (Some pass) s = Some (r, s') ∧
    (r = 0 ↔ ∃ i u, (i < user_count s)%nat ∧ user_db s !! i = Some u ∧ user_is n p u = true) ∧
    (r = 0 ∨ r = -1) ∧
    (is_root s = false → s' = s) ∧
    (is_root s = true → r = 0 → ∃ u, u ∈ user_db s ∧ user_is n p u = true ∧
       ctx_uid (current_context s') = usr_uid u ∧ ctx_gid (current_context s') = usr_gid u ∧
       ctx_permissions (current_context s') = context_permissions (usr_uid u)).
Proof.
  intros Hok Hn Hp. unfold security_authenticate_user. rewrite (auth_search s Hok name n pass p Hn Hp).
  cbn [mbind option_bind]. destruct (find_first _ _) as [i|] eqn:E.
  - pose proof E as E'. apply user_found_lookup in E' as (Hi & u & Hu & Hq). rewrite Hu. cbn [mbind option_bind].
    eexists _, _. split; [reflexivity|]. split; [split; [eauto|done]|]. split; [by left|].
    unfold security_set_context. split.
    + intros ->. done.
    + intros -> _. exists u. split; [by eapply list_elem_of_lookup_2|]. done.
  - exists (-1), s. split; [done|]. split; [|split; [by right|split; [done|by intros _ [=]]]].
    split; [done|]. intros (i & u & Hi & Hu & Hq). exfalso.
    rewrite find_first_None in E. rewrite (E u) in Hq; [done|].
    apply list_elem_of_lookup. exists i. by rewrite lookup_take_lt.
Qed.

(** After [security_init] the default entries for "/dev", "/proc" and
    "/sys" are owned by uid 0, and [security_check_file_access] lets an entry
    owned by uid 0 speak for every caller: once root has given up its
    context, any user passes the check for reading, writing and
    administrating "/dev", while its own permissions do not include writing. *)
Theorem default_acl_open_to_all uid gid :
  uid ≠ ROOT_UID →
  ∃ s0 s, security_init = Some s0 ∧ security_set_context uid gid s0 = (0, s) ∧
    security_check_file_access (Some (lit "/dev")) (Z.lor (Z.lor PERM_READ PERM_WRITE) PERM_ADMIN) s = Some 0 ∧
    security_check_permission PERM_WRITE s = -1 ∧
    security_check_device_access (Some (lit "/dev")) PERM_READ s = -1.
Proof.
  intros Hne. eexists _, _. split; [vm_compute; reflexivity|]. split; [reflexivity|].
  apply Z.eqb_neq in Hne as E. split; [|split].
  - cbn. unfold ROOT_UID in *. rewrite !orb_true_r. reflexivity.
  - unfold security_check_permission. cbn [current_context set_ctx ctx_permissions]. unfold context_permissions.
    by rewrite E.
  - unfold security_check_device_access, is_root. cbn [current_context set_ctx ctx_uid]. by rewrite E.
Qed.

(** ** Concrete states *)
Lemma security_init_ok : ∃ s, security_init = Some s ∧ security_ok s ∧ is_root s = true.
Proof.
  eexists. split; [vm_compute; reflexivity|]. split; [|reflexivity].
  split; cbn [user_db user_count acl_table acl_count current_context]; [reflexivity|unfold MAX_USERS; lia| |
    reflexivity|unfold MAX_ACL; lia|].
  - apply (bool_decide_unpack _). vm_compute. exact I.
  - apply (bool_decide_unpack _). vm_compute. exact I.
Qed.

Lemma security_bss_ok : security_ok security_bss ∧ is_root security_bss = true.
Proof.
  split; [|reflexivity]. split; cbn [security_bss user_db user_count acl_table acl_count]; [reflexivity|lia| |reflexivity|lia|].
  - apply Forall_replicate. split; (split; [reflexivity|by eexists]).
  - apply Forall_replicate. split; [reflexivity|by eexists].
Qed.

Lemma acl_set_then_get_witness :
  ∃ s, security_init = Some s ∧
  ∃ r s', security_set_permission (Some (lit "/home")) 5 5 PERM_READ s = Some (r, s') ∧ security_ok s' ∧
    (r = -1 ∧ s' = s ∧ (is_root s = false ∨ acl_count s = 64%nat) ∨
     r = 0 ∧ is_root s = true ∧
     security_get_permission (Some (lit "/home")) 5 5 true s' = Some (0, Some PERM_READ) ∧
     ∀ res' n' uid' gid', cstr res' = Some n' → (n', uid', gid') ≠ (bytes_of_string "/home", 5, 5) →
       security_get_permission (Some res') uid' gid' true s' = security_get_permission (Some res') uid' gid' true s).
Proof.
  destruct security_init_ok as (s & E & Hok & _). exists s. split; [exact E|].
  apply (acl_set_then_get s (lit "/home") (bytes_of_string "/home") 5 5 PERM_READ Hok); [reflexivity|cbn; lia].
Defined.

(** Root becomes user 5: a state that is not root's. *)
Definition as_user (s : security_state) : security_state := (security_set_context 5 5 s).2.

Lemma as_user_ok s : security_ok s → is_root s = true → security_ok (as_user s) ∧ is_root (as_user s) = false.
Proof.
  intros Hok Hroot. unfold as_user, security_set_context. rewrite Hroot. cbn [negb snd].
  split; [|done]. split; try apply Hok.
Qed.

Lemma non_root_confined_witness :
  ∃ s, security_init = Some s ∧
  ∃ s', sec_run [SetContext 0 0; CreateUser (lit "eve") 0 0; SetPassword 5 (lit "x")] (as_user s) = Some s' ∧
    security_ok s' ∧ confined (ctx_uid (current_context (as_user s))) (as_user s) s'.
Proof.
  destruct security_init_ok as (s & E & Hok & Hroot). exists s. split; [exact E|].
  destruct (as_user_ok s Hok Hroot) as [Hok' Hroot'].
  apply (non_root_confined _ (as_user s) Hok' Hroot').
  repeat (apply Forall_cons; split; [cbn; first [exact I|by eexists]|]). apply Forall_nil_2.
Defined.

Lemma authenticate_result_witness :
  ∃ s, security_init = Some s ∧
  ∃ r s', security_authenticate_user (Some (lit "root")) (Some (lit "")) s = Some (r, s') ∧
    (r = 0 ↔ ∃ i u, (i < user_count s)%nat ∧ user_db s !! i = Some u ∧ user_is (bytes_of_string "root") [] u = true) ∧
    (r = 0 ∨ r = -1) ∧
    (is_root s = false → s' = s) ∧
    (is_root s = true → r = 0 → ∃ u, u ∈ user_db s ∧ user_is (bytes_of_string "root") [] u = true ∧
       ctx_uid (current_context s') = usr_uid u ∧ ctx_gid (current_context s') = usr_gid u ∧
       ctx_permissions (current_context s') = context_permissions (usr_uid u)).
Proof.
  destruct security_init_ok as (s & E & Hok & _). exists s. split; [exact E|].
  apply (authenticate_result s (lit "root") (bytes_of_string "root") (lit "") [] Hok); reflexivity.
Defined.

Lemma default_acl_open_to_all_witness :
  ∃ s0 s, security_init = Some s0 ∧ security_set_context 5 5 s0 = (0, s) ∧
    security_check_file_access (Some (lit "/dev")) (Z.lor (Z.lor PERM_READ PERM_WRITE) PERM_ADMIN) s = Some 0 ∧
    security_check_permission PERM_WRITE s = -1 ∧
    security_check_device_access (Some (lit "/dev")) PERM_READ s = -1.
Proof. apply (default_acl_open_to_all 5 5). discriminate. Defined.

End Security.
