(* ===== verification/Power.v ===== *)
(** * Power: power states, battery and thermal simulation (kernel/power.c) *)
From S2P Require Import Prelude.

Module Power.

Definition POWER_STATE_ON : Z := 0.
Definition POWER_STATE_SLEEP : Z := 1.
Definition POWER_STATE_HIBERNATE : Z := 2.
Definition POWER_STATE_OFF : Z := 3.
Definition S0_STATE : Z := 0.
Definition S1_STATE : Z := 1.
Definition S3_STATE : Z := 3.
Definition S4_STATE : Z := 4.
Definition S5_STATE : Z := 5.
Definition POWER_EVENT_SLEEP : Z := 1.
Definition POWER_EVENT_WAKE : Z := 2.
Definition POWER_EVENT_BATTERY_LOW : Z := 3.
Definition POWER_EVENT_CRITICAL : Z := 4.

Record battery_status_t := {
  present : Z;
  charging : Z;
  percentage : Z;
  remaining_time : Z;
  voltage : Z;
  current : Z;
}.

Record power_stats_t := {
  uptime_seconds : Z;
  sleep_time_seconds : Z;
  power_consumption : Z;
  st_thermal_state : Z;
  st_cpu_frequency : Z;
  st_fan_speed : Z;
}.

(** The statics of the file, the counters local to functions included. *)
Record power_state := {
  current_power_state : Z;
  battery_status : battery_status_t;
  power_stats : power_stats_t;
  cpu_frequency : Z;
  thermal_state : Z;
  fan_speed : Z;
  discharge_counter : Z;
  charge_counter : Z;
  thermal_counter : Z;
}.

Definition zero_stats : power_stats_t :=
  {| uptime_seconds := 0; sleep_time_seconds := 0; power_consumption := 0; st_thermal_state := 0;
     st_cpu_frequency := 0; st_fan_speed := 0 |}.
Definition zero_battery : battery_status_t :=
  {| present := 0; charging := 0; percentage := 0; remaining_time := 0; voltage := 0; current := 0 |}.

Definition power_bss : power_state :=
  {| current_power_state := POWER_STATE_ON; battery_status := zero_battery; power_stats := zero_stats;
     cpu_frequency := 1000; thermal_state := 45; fan_speed := 2000;
     discharge_counter := 0; charge_counter := 0; thermal_counter := 0 |}.

Definition power_init (s : power_state) : power_state :=
  {| current_power_state := POWER_STATE_ON;
     battery_status := {| present := 1; charging := 0; percentage := 75; remaining_time := 180;
                          voltage := 3700; current := 500 |};
     power_stats := {| uptime_seconds := 0; sleep_time_seconds := 0; power_consumption := 5000;
                       st_thermal_state := thermal_state s; st_cpu_frequency := cpu_frequency s;
                       st_fan_speed := fan_speed s |};
     cpu_frequency := cpu_frequency s; thermal_state := thermal_state s; fan_speed := fan_speed s;
     discharge_counter := discharge_counter s; charge_counter := charge_counter s;
     thermal_counter := thermal_counter s |}.

Definition set_stats (st : power_stats_t) (s : power_state) : power_state :=
  {| current_power_state := current_power_state s; battery_status := battery_status s; power_stats := st;
     cpu_frequency := cpu_frequency s; thermal_state := thermal_state s; fan_speed := fan_speed s;
     discharge_counter := discharge_counter s; charge_counter := charge_counter s;
     thermal_counter := thermal_counter s |}.
Definition set_knobs (st cpu therm fan : Z) (s : power_state) : power_state :=
  {| current_power_state := st; battery_status := battery_status s; power_stats := power_stats s;
     cpu_frequency := cpu; thermal_state := therm; fan_speed := fan;
     discharge_counter := discharge_counter s; charge_counter := charge_counter s;
     thermal_counter := thermal_counter s |}.
Definition set_battery (b : battery_status_t) (dc cc : Z) (s : power_state) : power_state :=
  {| current_power_state := current_power_state s; battery_status := b; power_stats := power_stats s;
     cpu_frequency := cpu_frequency s; thermal_state := thermal_state s; fan_speed := fan_speed s;
     discharge_counter := dc; charge_counter := cc; thermal_counter := thermal_counter s |}.

(** [power_stats.cpu_frequency = ...; power_stats.fan_speed = ...;] *)
Definition stats_knobs (cpu fan : Z) (st : power_stats_t) : power_stats_t :=
  {| uptime_seconds := uptime_seconds st; sleep_time_seconds := sleep_time_seconds st;
     power_consumption := power_consumption st; st_thermal_state := st_thermal_state st;
     st_cpu_frequency := cpu; st_fan_speed := fan |}.

(** ** Power states *)

Definition power_set_state (state : Z) (s : power_state) : Z * power_state :=
  if POWER_STATE_OFF <? state then (-1, s)
  else
    let s :=
      if state =? POWER_STATE_ON then set_knobs POWER_STATE_ON 1000 (thermal_state s) 2000 s
      else if state =? POWER_STATE_SLEEP then set_knobs POWER_STATE_SLEEP 100 (thermal_state s) 1000 s
      else if state =? POWER_STATE_HIBERNATE
      then set_knobs POWER_STATE_HIBERNATE (cpu_frequency s) (thermal_state s) (fan_speed s) s
      else set_knobs POWER_STATE_OFF (cpu_frequency s) (thermal_state s) (fan_speed s) s in
    (0, set_stats (stats_knobs (cpu_frequency s) (fan_speed s) (power_stats s)) s).

Definition power_get_state (s : power_state) : Z := current_power_state s.

Definition power_request_sleep (sleep_state : Z) (s : power_state) : Z * power_state :=
  if S5_STATE <? sleep_state then (-1, s)
  else if sleep_state =? S0_STATE then power_set_state POWER_STATE_ON s
  else if (sleep_state =? S1_STATE) || (sleep_state =? S3_STATE) then power_set_state POWER_STATE_SLEEP s
  else if sleep_state =? S4_STATE then power_set_state POWER_STATE_HIBERNATE s
  else if sleep_state =? S5_STATE then power_set_state POWER_STATE_OFF s
  else (-1, s).

Definition power_request_wake (s : power_state) : Z * power_state :=
  if (current_power_state s =? POWER_STATE_SLEEP) || (current_power_state s =? POWER_STATE_HIBERNATE)
  then power_set_state POWER_STATE_ON s
  else (-1, s).

Definition power_set_cpu_frequency (frequency_mhz : Z) (s : power_state) : Z * power_state :=
  if (frequency_mhz <? 100) || (2000 <? frequency_mhz) then (-1, s)
  else
    let s := set_knobs (current_power_state s) frequency_mhz (thermal_state s) (fan_speed s) s in
    (0, set_stats (stats_knobs frequency_mhz (st_fan_speed (power_stats s)) (power_stats s)) s).

Definition power_get_cpu_frequency (s : power_state) : Z := cpu_frequency s.

Definition power_throttle_cpu (percentage : Z) (s : power_state) : Z * power_state :=
  if 100 <? percentage then (-1, s)
  else power_set_cpu_frequency ((1000 *u percentage) / 100) s.

Definition power_handle_event (event : Z) (s : power_state) : Z * power_state :=
  if event =? POWER_EVENT_SLEEP then power_request_sleep S3_STATE s
  else if event =? POWER_EVENT_WAKE then power_request_wake s
  else if event =? POWER_EVENT_BATTERY_LOW then (0, (power_throttle_cpu 50 s).2)
  else if event =? POWER_EVENT_CRITICAL then power_request_sleep S4_STATE s
  else (-1, s).

(** ** Battery *)

Definition with_charge (p t : Z) (b : battery_status_t) : battery_status_t :=
  {| present := present b; charging := charging b; percentage := p; remaining_time := t;
     voltage := voltage b; current := current b |}.

(** One step of the simulated discharge. *)
Definition discharge (s : power_state) : power_state :=
  let b := battery_status s in
  if negb (present b =? 0) && (charging b =? 0) then
    let dc := discharge_counter s +u 1 in
    if 100 <=? dc then
      let b := if 0 <? percentage b
               then with_charge (percentage b -u 1)
                      (if 0 <? remaining_time b then remaining_time b -u 1 else remaining_time b) b
               else b in
      set_battery b 0 (charge_counter s) s
    else set_battery b dc (charge_counter s) s
  else s.

(** One step of the simulated charge. *)
Definition charge (s : power_state) : power_state :=
  let b := battery_status s in
  if negb (charging b =? 0) && (percentage b <? 100) then
    let cc := charge_counter s +u 1 in
    if 50 <=? cc then set_battery (with_charge (percentage b +u 1) 240 b) (discharge_counter s) 0 s
    else set_battery b (discharge_counter s) cc s
  else s.

(** The status copied through the output pointer, when it is not NULL. *)
Definition power_get_battery_status (out : bool) (s : power_state) : Z * option battery_status_t * power_state :=
  if negb out then (-1, None, s)
  else let s := charge (discharge s) in (0, Some (battery_status s), s).

Definition power_get_battery_percentage (s : power_state) : option (Z * power_state) :=
  let '(_, st, s) := power_get_battery_status true s in b ← st; Some (s32 (percentage b), s).
Definition power_is_battery_charging (s : power_state) : option (Z * power_state) :=
  let '(_, st, s) := power_get_battery_status true s in b ← st; Some (s32 (charging b), s).
Definition power_estimate_remaining_time (s : power_state) : option (Z * power_state) :=
  let '(_, st, s) := power_get_battery_status true s in b ← st; Some (s32 (remaining_time b), s).

(** ** Statistics, thermal and fan *)

Definition power_update_statistics (s : power_state) : power_state :=
  let st := power_stats s in
  let on := current_power_state s =? POWER_STATE_ON in
  let asleep := current_power_state s =? POWER_STATE_SLEEP in
  let up := if on then uptime_seconds st +u 1 else uptime_seconds st in
  let sl := if negb on && asleep then sleep_time_seconds st +u 1 else sleep_time_seconds st in
  let tc := thermal_counter s +u 1 in
  let hot := cpu_frequency s >? 800 in
  let therm := if 100 <=? tc
               then if hot then (if thermal_state s <? 80 then thermal_state s +u 1 else 80)
                    else (if 30 <? thermal_state s then thermal_state s -u 1 else 30)
               else thermal_state s in
  let st_therm := if 100 <=? tc then therm else st_thermal_state st in
  let fan := if 60 <? therm then 3000 else if 40 <? therm then 2000 else 1000 in
  let use := if on then 3000 +u (cpu_frequency s / 100) *u 200 else if asleep then 500 else 100 in
  {| current_power_state := current_power_state s; battery_status := battery_status s;
     power_stats := {| uptime_seconds := up; sleep_time_seconds := sl; power_consumption := use;
                       st_thermal_state := st_therm; st_cpu_frequency := st_cpu_frequency st;
                       st_fan_speed := fan |};
     cpu_frequency := cpu_frequency s; thermal_state := therm; fan_speed := fan;
     discharge_counter := discharge_counter s; charge_counter := charge_counter s;
     thermal_counter := if 100 <=? tc then 0 else tc |}.

Definition power_get_statistics (out : bool) (s : power_state) : Z * option power_stats_t * power_state :=
  if negb out then (-1, None, s)
  else let s := power_update_statistics s in (0, Some (power_stats s), s).

Definition power_reset_statistics (s : power_state) : power_state :=
  set_stats {| uptime_seconds := 0; sleep_time_seconds := 0; power_consumption := 0;
               st_thermal_state := thermal_state s; st_cpu_frequency := cpu_frequency s;
               st_fan_speed := fan_speed s |} s.

Definition power_get_thermal_state (s : power_state) : Z := s32 (thermal_state s).

Definition power_set_fan_speed (speed_rpm : Z) (s : power_state) : Z * power_state :=
  if (speed_rpm <? 500) || (5000 <? speed_rpm) then (-1, s)
  else
    let s := set_knobs (current_power_state s) (cpu_frequency s) (thermal_state s) speed_rpm s in
    (0, set_stats (stats_knobs (st_cpu_frequency (power_stats s)) speed_rpm (power_stats s)) s).

Definition power_get_fan_speed (s : power_state) : Z := fan_speed s.

(** ** The operations as a step function *)
Inductive power_op : Type :=
| SetState (state : Z)
| RequestSleep (sleep_state : Z)
| RequestWake
| HandleEvent (event : Z)
| BatteryStatus
| GetStatistics
| ResetStatistics
| SetCpuFrequency (mhz : Z)
| ThrottleCpu (percentage : Z)
| SetFanSpeed (rpm : Z).

(** The arguments are [uint32_t]. *)
Definition power_op_ok (op : power_op) : Prop :=
  match op with
  | SetState x | RequestSleep x | HandleEvent x | SetCpuFrequency x | ThrottleCpu x | SetFanSpeed x =>
      0 <= x < 4294967296
  | _ => True
  end.

Definition power_step (op : power_op) (s : power_state) : power_state :=
  match op with
  | SetState x => (power_set_state x s).2
  | RequestSleep x => (power_request_sleep x s).2
  | RequestWake => (power_request_wake s).2
  | HandleEvent x => (power_handle_event x s).2
  | BatteryStatus => (power_get_battery_status true s).2
  | GetStatistics => (power_get_statistics true s).2
  | ResetStatistics => power_reset_statistics s
  | SetCpuFrequency x => (power_set_cpu_frequency x s).2
  | ThrottleCpu x => (power_throttle_cpu x s).2
  | SetFanSpeed x => (power_set_fan_speed x s).2
  end.

(** Every quantity within its physical range, and the statistics in step with
    the frequency and the fan. *)
Record power_ok (s : power_state) : Prop := {
  ok_state : 0 <= current_power_state s <= 3;
  ok_percentage : 0 <= percentage (battery_status s) <= 100;
  ok_time : 0 <= remaining_time (battery_status s) <= 240;
  ok_cpu : 100 <= cpu_frequency s <= 2000;
  ok_thermal : 30 <= thermal_state s <= 80;
  ok_fan : 500 <= fan_speed s <= 5000;
  ok_stat_cpu : st_cpu_frequency (power_stats s) = cpu_frequency s;
  ok_stat_fan : st_fan_speed (power_stats s) = fan_speed s;
  ok_counters : 0 <= discharge_counter s < 100 ∧ 0 <= charge_counter s < 50 ∧ 0 <= thermal_counter s < 100;
}.

Create HintDb power.

Ltac power_solve :=
  repeat match goal with
  | H : power_ok _ |- _ => destruct H
  | H : _ ∧ _ |- _ => destruct H
  end;
  split; cbn -[Z.div Z.mul Z.add] in *; (done || lia || (unfold POWER_STATE_ON, POWER_STATE_SLEEP, POWER_STATE_HIBERNATE, POWER_STATE_OFF; lia)).

Lemma set_state_ok x s : power_ok s → power_ok (power_set_state x s).2.
Proof.
  intros Hok. unfold power_set_state. destruct (POWER_STATE_OFF <? x); [done|].
  destruct (x =? POWER_STATE_ON); [power_solve|]. destruct (x =? POWER_STATE_SLEEP); [power_solve|].
  destruct (x =? POWER_STATE_HIBERNATE); power_solve.
Qed.

Lemma request_sleep_ok x s : power_ok s → power_ok (power_request_sleep x s).2.
Proof.
  intros Hok. unfold power_request_sleep.
  repeat match goal with |- context [if ?b then _ else _] => destruct b end; auto using set_state_ok.
Qed.

Lemma request_wake_ok s : power_ok s → power_ok (power_request_wake s).2.
Proof. intros Hok. unfold power_request_wake. destruct (_ || _); auto using set_state_ok. Qed.

Lemma set_cpu_ok x s : power_ok s → power_ok (power_set_cpu_frequency x s).2.
Proof.
  intros Hok. unfold power_set_cpu_frequency.
  destruct (Z.ltb_spec x 100); [done|]. destruct (Z.ltb_spec 2000 x); [done|]. cbn [orb]. power_solve.
Qed.

Lemma throttle_ok x s : power_ok s → power_ok (power_throttle_cpu x s).2.
Proof. intros Hok. unfold power_throttle_cpu. destruct (100 <? x); auto using set_cpu_ok. Qed.

Lemma set_fan_ok x s : power_ok s → power_ok (power_set_fan_speed x s).2.
Proof.
  intros Hok. unfold power_set_fan_speed.
  destruct (Z.ltb_spec x 500); [done|]. destruct (Z.ltb_spec 5000 x); [done|]. cbn [orb]. power_solve.
Qed.

Lemma handle_event_ok x s : power_ok s → power_ok (power_handle_event x s).2.
Proof.
  intros Hok. unfold power_handle_event.
  repeat match goal with |- context [if ?b then _ else _] => destruct b end;
    auto using request_sleep_ok, request_wake_ok, throttle_ok.
  by apply (throttle_ok 50).
Qed.

Lemma discharge_ok s : power_ok s → power_ok (discharge s).
Proof.
  intros Hok. unfold discharge. destruct (negb _ && _); [|done].
  pose proof (ok_counters s Hok) as (Hd & _). pose proof (ok_percentage s Hok). pose proof (ok_time s Hok).
  rewrite (u32_id (discharge_counter s + 1)) by lia.
  destruct (Z.leb_spec 100 (discharge_counter s + 1)); [|power_solve].
  destruct (Z.ltb_spec 0 (percentage (battery_status s))); [|power_solve].
  rewrite (u32_id (percentage (battery_status s) - 1)) by lia.
  destruct (Z.ltb_spec 0 (remaining_time (battery_status s))); [|power_solve].
  rewrite (u32_id (remaining_time (battery_status s) - 1)) by lia. power_solve.
Qed.

Lemma charge_ok s : power_ok s → power_ok (charge s).
Proof.
  intros Hok. unfold charge. pose proof (ok_percentage s Hok). pose proof (ok_counters s Hok) as (_ & Hc & _).
  destruct (negb _); [cbn [andb]|done]. destruct (Z.ltb_spec (percentage (battery_status s)) 100); [|done].
  rewrite (u32_id (charge_counter s + 1)), (u32_id (percentage (battery_status s) + 1)) by lia.
  destruct (Z.leb_spec 50 (charge_counter s + 1)); power_solve.
Qed.

Lemma update_statistics_ok s : power_ok s → power_ok (power_update_statistics s).
Proof.
  intros Hok. pose proof (ok_counters s Hok) as (_ & _ & Ht). pose proof (ok_thermal s Hok).
  unfold power_update_statistics. rewrite (u32_id (thermal_counter s + 1)) by lia.
  destruct (Z.leb_spec 100 (thermal_counter s + 1)).
  - destruct (Z.ltb_spec (thermal_state s) 80), (Z.ltb_spec 30 (thermal_state s)), (cpu_frequency s >? 800);
      rewrite ?(u32_id (thermal_state s + 1)), ?(u32_id (thermal_state s - 1)) by lia;
      repeat match goal with |- context [if 60 <? ?t then _ else _] => destruct (60 <? t) | |- context [if 40 <? ?t then _ else _] => destruct (40 <? t) end;
      power_solve.
  - repeat match goal with |- context [if 60 <? ?t then _ else _] => destruct (60 <? t) | |- context [if 40 <? ?t then _ else _] => destruct (40 <? t) end;
      power_solve.
Qed.

Lemma power_step_ok op s : power_ok s → power_ok (power_step op s).
Proof.
  intros Hok. destruct op; cbn [power_step];
    auto using set_state_ok, request_sleep_ok, request_wake_ok, handle_event_ok, set_cpu_ok, throttle_ok, set_fan_ok.
  - apply charge_ok, discharge_ok, Hok.
  - apply update_statistics_ok, Hok.
  - unfold power_reset_statistics. power_solve.
Qed.

Lemma power_init_ok : power_ok (power_init power_bss).
Proof. split; cbn; lia || done. Qed.

Definition power_run (ops : list power_op) (s : power_state) : power_state :=
  fold_left (λ s op, power_step op s) ops s.

Lemma power_run_ok ops s : power_ok s → power_ok (power_run ops s).
Proof. revert s. induction ops as [|op ops IH]; intros s Hok; [done|]. by apply IH, power_step_ok. Qed.

(** C35. Invariant of the power manager: after [power_init], whatever sequence
    of state changes, events, battery queries, statistics updates, frequency,
    throttle and fan requests follows (any 32-bit arguments), the battery is
    between 0 and 100 percent, the CPU between 100 and 2000 MHz, the
    temperature between 30 and 80, the fan between 500 and 5000 RPM, no
    counter overflows, and the reported frequency and fan speed are the
    actual ones. *)
Theorem power_ranges_invariant (ops : list power_op) :
  power_ok (power_run ops (power_init power_bss)).
Proof. apply power_run_ok, power_init_ok. Qed.

(** ** The battery *)
Definition is_battery_query (op : power_op) : Prop := op = BatteryStatus.
#[export] Instance is_battery_query_dec op : Decision (is_battery_query op).
Proof. unfold is_battery_query. destruct op; (by left) || (right; discriminate). Defined.

(** After [n] queries. *)
Record drained (n : Z) (s : power_state) : Prop := {
  dr_present : present (battery_status s) = 1;
  dr_charging : charging (battery_status s) = 0;
  dr_counter : discharge_counter s = n mod 100;
  dr_percentage : percentage (battery_status s) = Z.max 0 (75 - n / 100);
}.

Lemma other_op_battery op s :
  op ≠ BatteryStatus →
  battery_status (power_step op s) = battery_status s ∧ discharge_counter (power_step op s) = discharge_counter s.
Proof.
  intros Hop. destruct op; try done; cbn [power_step];
    unfold power_set_state, power_request_sleep, power_request_wake, power_handle_event, power_throttle_cpu,
      power_set_cpu_frequency, power_set_fan_speed, power_request_sleep, power_request_wake, power_set_state;
    repeat match goal with |- context [if ?b then _ else _] => destruct b end; done.
Qed.

Lemma query_drains n s : 0 <= n → drained n s → drained (n + 1) (power_step BatteryStatus s).
Proof.
  intros Hn [Hp Hc Hd Hpct]. cbn [power_step power_get_battery_status negb snd].
  assert (0 <= n mod 100 < 100) as Hm by (apply Z.mod_pos_bound; lia).
  unfold discharge. rewrite Hp, Hc. cbn [Z.eqb negb andb]. rewrite Hd, (u32_id (n mod 100 + 1)) by lia.
  destruct (Z.leb_spec 100 (n mod 100 + 1)) as [Hwrap|Hno].
  - assert ((n + 1) mod 100 = 0 ∧ (n + 1) / 100 = n / 100 + 1) as [E1 E2] by (Z.div_mod_to_equations; lia).
    assert (0 <= n / 100) by (apply Z.div_pos; lia).
    destruct (Z.ltb_spec 0 (percentage (battery_status s))) as [Hpos|Hzero].
    + rewrite (u32_id (percentage (battery_status s) - 1)) by lia.
      unfold charge. cbn [set_battery battery_status with_charge charging]. rewrite Hc. cbn [Z.eqb negb andb].
      split; cbn; [done|done|by rewrite E1|rewrite E2; lia].
    + unfold charge. cbn [set_battery battery_status charging]. rewrite Hc. cbn [Z.eqb negb andb].
      split; cbn; [done|done|by rewrite E1|rewrite E2; lia].
  - assert ((n + 1) mod 100 = n mod 100 + 1 ∧ (n + 1) / 100 = n / 100) as [E1 E2] by (Z.div_mod_to_equations; lia).
    unfold charge. cbn [set_battery battery_status charging]. rewrite Hc. cbn [Z.eqb negb andb].
    split; cbn; [done|done|by rewrite E1|by rewrite E2].
Qed.

(** The simulated battery only drains: after [power_init] and any
    sequence of operations, it has lost one percent for every 100 battery
    queries among them, down to 0 and never below; nothing ever starts
    charging it. *)
Theorem battery_drains (ops : list power_op) :
  percentage (battery_status (power_run ops (power_init power_bss))) =
    Z.max 0 (75 - zlen (filter is_battery_query ops) / 100) ∧
  charging (battery_status (power_run ops (power_init power_bss))) = 0.
Proof.
  enough (∀ ops s n, 0 <= n → drained n s → drained (n + zlen (filter is_battery_query ops)) (power_run ops s)) as H.
  { destruct (H ops (power_init power_bss) 0) as [_ Hc _ Hp]; [done|by split|]. by rewrite Hp. }
  clear ops. intros ops. induction ops as [|op ops IH]; intros s n Hn Hs.
  - unfold zlen. cbn. by rewrite Z.add_0_r.
  - rewrite filter_cons. cbn [power_run fold_left]. destruct (decide (is_battery_query op)) as [->|Hne].
    + unfold zlen. rewrite length_cons.
      replace (n + Z.of_nat (S (length (filter is_battery_query ops)))) with (n + 1 + zlen (filter is_battery_query ops))
        by (unfold zlen; lia).
      apply IH; [lia|]. by apply query_drains.
    + apply IH; [done|]. destruct (other_op_battery op s Hne) as [Eb Ed]. destruct Hs. split; congruence.
Qed.

(** ** Transitions between power states *)
Definition next_power_state (op : power_op) (st : Z) : Z :=
  match op with
  | SetState x => if bool_decide (x <= 3) then x else st
  | RequestSleep x =>
      if bool_decide (x = 0) then POWER_STATE_ON
      else if bool_decide (x = 1 ∨ x = 3) then POWER_STATE_SLEEP
      else if bool_decide (x = 4) then POWER_STATE_HIBERNATE
      else if bool_decide (x = 5) then POWER_STATE_OFF else st
  | RequestWake | HandleEvent 2 => if bool_decide (st = 1 ∨ st = 2) then POWER_STATE_ON else st
  | HandleEvent 1 => POWER_STATE_SLEEP
  | HandleEvent 4 => POWER_STATE_HIBERNATE
  | _ => st
  end.

Lemma set_state_transition x s :
  0 <= x → current_power_state (power_set_state x s).2 = if bool_decide (x <= 3) then x else current_power_state s.
Proof.
  intros Hx. unfold power_set_state, POWER_STATE_OFF, POWER_STATE_ON, POWER_STATE_SLEEP, POWER_STATE_HIBERNATE.
  destruct (Z.ltb_spec 3 x); [by rewrite bool_decide_eq_false_2 by lia|]. rewrite bool_decide_eq_true_2 by lia.
  cbn [snd]. destruct (Z.eqb_spec x 0) as [->|]; [done|]. destruct (Z.eqb_spec x 1) as [->|]; [done|].
  destruct (Z.eqb_spec x 2) as [->|]; [done|]. cbn. lia.
Qed.

Lemma discharge_state s : current_power_state (discharge s) = current_power_state s.
Proof. unfold discharge. destruct (_ && _); [|done]. by destruct (100 <=? _). Qed.

Lemma charge_state s : current_power_state (charge s) = current_power_state s.
Proof. unfold charge. destruct (_ && _); [|done]. by destruct (50 <=? _). Qed.

(** The power states form this machine: each operation moves to the state
    [next_power_state] names and to no other.  Waking works from sleep and
    hibernation only, yet "off" is not final: requesting S0, or setting the
    state, leaves it. *)
Theorem power_transitions op s :
  power_op_ok op → 0 <= current_power_state s <= 3 →
  current_power_state (power_step op s) = next_power_state op (current_power_state s).
Proof.
  intros Hop Hst. destruct op as [x|x| |x| | | |x|x|x]; cbn [power_step next_power_state power_op_ok] in *; try done.
  - apply set_state_transition. lia.
  - unfold power_request_sleep, S5_STATE, S0_STATE, S1_STATE, S3_STATE, S4_STATE.
    destruct (Z.ltb_spec 5 x); [by rewrite !bool_decide_eq_false_2 by lia|].
    destruct (Z.eqb_spec x 0); [by subst|]. rewrite (bool_decide_eq_false_2 (x = 0)) by done.
    destruct (Z.eqb_spec x 1); [by subst|]. destruct (Z.eqb_spec x 3); [by subst|]. cbn [orb].
    rewrite (bool_decide_eq_false_2 (x = 1 ∨ x = 3)) by lia.
    destruct (Z.eqb_spec x 4); [by subst|]. rewrite (bool_decide_eq_false_2 (x = 4)) by done.
    destruct (Z.eqb_spec x 5); [by subst|]. by rewrite (bool_decide_eq_false_2 (x = 5)).
  - unfold power_request_wake, POWER_STATE_SLEEP, POWER_STATE_HIBERNATE.
    destruct (Z.eqb_spec (current_power_state s) 1), (Z.eqb_spec (current_power_state s) 2); cbn [orb];
      rewrite ?(bool_decide_eq_true_2 (_ ∨ _)), ?(bool_decide_eq_false_2 (_ ∨ _)) by lia; done.
  - unfold power_handle_event, POWER_EVENT_SLEEP, POWER_EVENT_WAKE, POWER_EVENT_BATTERY_LOW, POWER_EVENT_CRITICAL.
    destruct (Z.eqb_spec x 1) as [->|]; [done|]. destruct (Z.eqb_spec x 2) as [->|].
    { unfold power_request_wake, POWER_STATE_SLEEP, POWER_STATE_HIBERNATE.
      destruct (Z.eqb_spec (current_power_state s) 1), (Z.eqb_spec (current_power_state s) 2); cbn [orb];
        rewrite ?(bool_decide_eq_true_2 (_ ∨ _)), ?(bool_decide_eq_false_2 (_ ∨ _)) by lia; done. }
    destruct (Z.eqb_spec x 3) as [->|]; [done|]. destruct (Z.eqb_spec x 4) as [->|]; [done|]. cbn [snd].
    destruct x as [|[[|[]|]|[[]|[]|]|]|]; done || lia.
  - cbn [power_get_battery_status negb snd]. by rewrite charge_state, discharge_state.
  - unfold power_set_cpu_frequency. destruct (_ || _); done.
  - unfold power_throttle_cpu, power_set_cpu_frequency.
    destruct (100 <? x); [done|]. destruct (_ || _); done.
  - unfold power_set_fan_speed. destruct (_ || _); done.
Qed.

Lemma power_transitions_witness :
  let off := (power_set_state POWER_STATE_OFF (power_init power_bss)).2 in
  (power_request_wake off).1 = -1 ∧
  current_power_state (power_step (RequestSleep 0) off) = next_power_state (RequestSleep 0) (current_power_state off).
Proof. split; [reflexivity|]. apply (power_transitions (RequestSleep 0)).
  - unfold power_op_ok. lia.
  - change (current_power_state _) with 3. lia.
Defined.

End Power.
