(* ===== verification/Monitor.v ===== *)
(** * Monitor: the system log, statistics and timers (kernel/monitor.c)

    [None] is an access outside an array or a division by zero. *)
From S2P Require Import Prelude CString.

Module Monitor.

Definition LOG_BUFFER_SIZE : Z := 256.
Definition MSG_SIZE : nat := 256.
Definition MAX_TIMERS : nat := 16.
Definition NAME_SIZE : nat := 32.
#[global] Arguments MSG_SIZE : simpl never.
#[global] Arguments MAX_TIMERS : simpl never.
#[global] Arguments NAME_SIZE : simpl never.
Definition LOG_LEVEL_INFO : Z := 1.
Definition LOG_SOURCE_KERNEL : Z := 0.

Record log_entry_t := {
  le_timestamp : Z;
  le_level : Z;
  le_source : Z;
  le_length : Z;
  le_message : list Z;
}.

Record system_stats_t := {
  total_processes : Z;
  running_processes : Z;
  sleeping_processes : Z;
  total_memory : Z;
  used_memory : Z;
  free_memory : Z;
  total_cpu_time : Z;
  idle_cpu_time : Z;
  system_calls_count : Z;
  interrupts_count : Z;
}.

Record performance_metrics_t := {
  cpu_usage_percent : Z;
  memory_usage_percent : Z;
  process_count : Z;
  pm_uptime_seconds : Z;
  context_switches : Z;
  page_faults : Z;
}.

Record timer_entry_t := {
  tm_name : list Z;
  tm_start_time : Z;
  tm_total_time : Z;
  tm_active : Z;
}.

Record monitor_state := {
  log_buffer : list log_entry_t;
  log_index : Z;
  log_count : Z;
  system_stats : system_stats_t;
  performance_metrics : performance_metrics_t;
  timers : list timer_entry_t;
  uptime_seconds : Z;
  timestamp_counter : Z;
}.

Definition zero_entry : log_entry_t :=
  {| le_timestamp := 0; le_level := 0; le_source := 0; le_length := 0; le_message := replicate MSG_SIZE 0 |}.
Definition zero_timer : timer_entry_t :=
  {| tm_name := replicate NAME_SIZE 0; tm_start_time := 0; tm_total_time := 0; tm_active := 0 |}.
Definition zero_metrics : performance_metrics_t :=
  {| cpu_usage_percent := 0; memory_usage_percent := 0; process_count := 0; pm_uptime_seconds := 0;
     context_switches := 0; page_faults := 0 |}.

(** ** The log *)

Definition count_call (st : system_stats_t) : system_stats_t :=
  {| total_processes := total_processes st; running_processes := running_processes st;
     sleeping_processes := sleeping_processes st; total_memory := total_memory st;
     used_memory := used_memory st; free_memory := free_memory st; total_cpu_time := total_cpu_time st;
     idle_cpu_time := idle_cpu_time st; system_calls_count := system_calls_count st +u 1;
     interrupts_count := interrupts_count st |}.

Definition monitor_log (level source : Z) (message : option (list Z)) (s : monitor_state)
    : option monitor_state :=
  match message with
  | None => Some s
  | Some message =>
      let ts := timestamp_counter s +u 1 in
      entry ← (log_buffer s).[log_index s];
      len ← strlen message;
      let msg_len := if 255 <? len then 255 else len in
      m ← strncpy (le_message entry) message (Z.to_nat msg_len);
      m ← zset m msg_len 0;
      buf ← zset (log_buffer s) (log_index s)
              {| le_timestamp := ts; le_level := level; le_source := source; le_length := msg_len; le_message := m |};
      Some {| log_buffer := buf; log_index := (log_index s +u 1) mod LOG_BUFFER_SIZE;
              log_count := if log_count s <? LOG_BUFFER_SIZE then log_count s +u 1 else log_count s;
              system_stats := count_call (system_stats s); performance_metrics := performance_metrics s;
              timers := timers s; uptime_seconds := uptime_seconds s; timestamp_counter := ts |}
  end.

Definition monitor_log_printf (level source : Z) (format : option (list Z)) (s : monitor_state)
    : option monitor_state := monitor_log level source format s.

Definition monitor_init (s : monitor_state) : option monitor_state :=
  let total := 1024 * 1024 in
  monitor_log LOG_LEVEL_INFO LOG_SOURCE_KERNEL (Some (lit "Monitoring system initialized"))
    {| log_buffer := replicate (Z.to_nat LOG_BUFFER_SIZE) zero_entry; log_index := 0; log_count := 0;
       system_stats := {| total_processes := 0; running_processes := 0; sleeping_processes := 0;
                          total_memory := total; used_memory := 0; free_memory := total; total_cpu_time := 0;
                          idle_cpu_time := 0; system_calls_count := 0; interrupts_count := 0 |};
       performance_metrics := zero_metrics; timers := replicate MAX_TIMERS zero_timer;
       uptime_seconds := uptime_seconds s; timestamp_counter := timestamp_counter s |}.

(** The entry copied through the output pointer, when it is not NULL. *)
Definition monitor_get_log_entry (index : Z) (out : bool) (s : monitor_state) : option (Z * option log_entry_t) :=
  if negb out || (log_count s <=? index) then Some (-1, None)
  else
    let actual_index := ((log_index s -u log_count s) +u index) mod LOG_BUFFER_SIZE in
    e ← (log_buffer s).[actual_index]; Some (0, Some e).

(** ** Statistics *)

(** Unsigned division; dividing by zero is undefined. *)
Definition udiv (a b : Z) : option Z := if b =? 0 then UB else Some (a / b).

Definition monitor_update_stats (s : monitor_state) : option monitor_state :=
  let st := system_stats s in
  let up := uptime_seconds s +u 1 in
  let used := total_memory st -u free_memory st in
  let cpu := up *u 100 in
  let idle := cpu / 4 in
  cpu_pct ← udiv ((cpu -u idle) *u 100) (cpu +u 1);
  mem_pct ← udiv (used *u 100) (total_memory st);
  Some {| log_buffer := log_buffer s; log_index := log_index s; log_count := log_count s;
          system_stats := {| total_processes := 8; running_processes := 3; sleeping_processes := 5;
                             total_memory := total_memory st; used_memory := used;
                             free_memory := free_memory st; total_cpu_time := cpu; idle_cpu_time := idle;
                             system_calls_count := system_calls_count st;
                             interrupts_count := interrupts_count st |};
          performance_metrics := {| cpu_usage_percent := cpu_pct; memory_usage_percent := mem_pct;
                                    process_count := 8; pm_uptime_seconds := up;
                                    context_switches := system_calls_count st / 10;
                                    page_faults := interrupts_count st / 20 |};
          timers := timers s; uptime_seconds := up; timestamp_counter := timestamp_counter s |}.

Definition monitor_get_system_stats (out : bool) (s : monitor_state)
    : option (Z * option system_stats_t * monitor_state) :=
  if negb out then Some (-1, None, s)
  else s ← monitor_update_stats s; Some (0, Some (system_stats s), s).

Definition monitor_get_performance_metrics (out : bool) (s : monitor_state)
    : option (Z * option performance_metrics_t * monitor_state) :=
  if negb out then Some (-1, None, s)
  else s ← monitor_update_stats s; Some (0, Some (performance_metrics s), s).

(** ** Dumping the log *)

(** The file's own [snprintf]: it copies the format string, arguments and all
    conversions ignored. *)
Fixpoint copy_format (n : nat) (format : list Z) : option (list Z) :=
  match n with
  | O => Some []
  | S n =>
      match format with
      | c :: f => if c =? 0 then Some [] else r ← copy_format n f; Some (c :: r)
      | [] => UB
      end
  end.
Definition snprintf (size : nat) (format : list Z) : option (list Z) :=
  if bool_decide (size = 0%nat) then Some [] else copy_format (size - 1) format.

(** A literal that ends in a newline. *)
Definition line_lit (s : Strings.String.string) : list Z := bytes_of_string s ++ [10; 0].
#[local] Arguments line_lit _%_string_scope.

Fixpoint dump_lines (n : nat) (i : Z) (s : monitor_state) : option (list (list Z)) :=
  match n with
  | O => Some []
  | S n =>
      '(r, _) ← monitor_get_log_entry i true s;
      line ← (if r =? 0
              then l ← snprintf 300 (line_lit "[%u] Level:%d Source:%d - %s"); Some [l]
              else Some []);
      rest ← dump_lines n (i + 1) s;
      Some (line ++ rest)
  end.

(** The strings written, one per [SYS_WRITE] call. *)
Definition monitor_dump_logs (s : monitor_state) : option (list (list Z)) :=
  lines ← dump_lines (Z.to_nat (log_count s)) 0 s;
  Some ((bytes_of_string "=== SYSTEM LOG DUMP ===" ++ [10]) :: lines
        ++ [bytes_of_string "=== END LOG DUMP ===" ++ [10]]).

Definition monitor_dump_stats (s : monitor_state) : option (list (list Z) * monitor_state) :=
  s ← monitor_update_stats s;
  l1 ← snprintf 200 (line_lit "Processes: %d total, %d running, %d sleeping");
  l2 ← snprintf 200 (line_lit "Memory: %d KB total, %d KB used, %d KB free");
  l3 ← snprintf 200 (line_lit "CPU: %d%% usage, %d syscalls, %d interrupts");
  l4 ← snprintf 200 (line_lit "Uptime: %d seconds, %d context switches");
  Some ([bytes_of_string "=== SYSTEM STATISTICS ===" ++ [10]; l1; l2; l3; l4;
         bytes_of_string "=== END STATISTICS ===" ++ [10]], s).

(** ** Timers *)

Definition set_timers (ts : list timer_entry_t) (s : monitor_state) : monitor_state :=
  {| log_buffer := log_buffer s; log_index := log_index s; log_count := log_count s;
     system_stats := system_stats s; performance_metrics := performance_metrics s; timers := ts;
     uptime_seconds := uptime_seconds s; timestamp_counter := timestamp_counter s |}.

Definition monitor_start_timer (name : option (list Z)) (s : monitor_state) : option monitor_state :=
  match name with
  | None => Some s
  | Some name =>
      r ← find_loop (λ t, c ← tm_name t !! 0%nat; if c =? 0 then Some true else streq (tm_name t) name) (timers s);
      match r with
      | Some i =>
          t ← timers s !! i;
          nm ← copy_name (tm_name t) name NAME_SIZE;
          Some (set_timers (<[i := {| tm_name := nm; tm_start_time := timestamp_counter s;
                                      tm_total_time := tm_total_time t; tm_active := 1 |}]> (timers s)) s)
      | None => Some s
      end
  end.

Definition monitor_end_timer (name : option (list Z)) (s : monitor_state) : option monitor_state :=
  match name with
  | None => Some s
  | Some name =>
      r ← find_loop (λ t, if tm_active t =? 0 then Some false else streq (tm_name t) name) (timers s);
      match r with
      | Some i =>
          t ← timers s !! i;
          let elapsed := timestamp_counter s -u tm_start_time t in
          Some (set_timers (<[i := {| tm_name := tm_name t; tm_start_time := tm_start_time t;
                                      tm_total_time := tm_total_time t +u elapsed; tm_active := 0 |}]> (timers s)) s)
      | None => Some s
      end
  end.

Definition monitor_get_timer_value (name : option (list Z)) (s : monitor_state) : option Z :=
  match name with
  | None => Some 0
  | Some name =>
      r ← find_loop (λ t, streq (tm_name t) name) (timers s);
      match r with Some i => t ← timers s !! i; Some (tm_total_time t) | None => Some 0 end
  end.

(** ** The messages logged so far *)
Record logged := { lg_timestamp : Z; lg_level : Z; lg_source : Z; lg_text : list Z }.

(** The slot [e] holds the message [m]. *)
Definition holds (e : log_entry_t) (m : logged) : Prop :=
  le_timestamp e = lg_timestamp m ∧ le_level e = lg_level m ∧ le_source e = lg_source m ∧
  cstr (le_message e) = Some (lg_text m) ∧ le_length e = zlen (lg_text m).

(** [h] is everything logged since [monitor_init], oldest first: the array
    holds the last 256 of it, message number [j] in slot [j mod 256]. *)
Record log_ok (h : list logged) (s : monitor_state) : Prop := {
  ok_length : zlen (log_buffer s) = LOG_BUFFER_SIZE;
  ok_sizes : Forall (λ e, length (le_message e) = MSG_SIZE) (log_buffer s);
  ok_index : log_index s = zlen h mod LOG_BUFFER_SIZE;
  ok_count : log_count s = Z.min (zlen h) LOG_BUFFER_SIZE;
  ok_held : ∀ j m, zlen h - LOG_BUFFER_SIZE <= j → h.[j] = Some m →
    ∃ e, (log_buffer s).[j mod LOG_BUFFER_SIZE] = Some e ∧ holds e m;
}.

(** The message [monitor_log] records. *)
Definition record (ts level source : Z) (text : list Z) : logged :=
  {| lg_timestamp := ts; lg_level := level; lg_source := source; lg_text := take 255 text |}.

Lemma fill_message old message n :
  cstr message = Some n → length old = MSG_SIZE →
  let len := Z.min (zlen n) 255 in
  ∃ m1 m2, strncpy old message (Z.to_nat len) = Some m1 ∧ zset m1 len 0 = Some m2 ∧
    length m2 = MSG_SIZE ∧ cstr m2 = Some (take 255 n).
Proof.
  intros Hn Hold len. assert (0 <= len <= 255) as Hlen by (unfold len, zlen; lia).
  rewrite (strncpy_spec _ _ n) by (done || (rewrite Hold; unfold MSG_SIZE; lia)).
  assert (Z.to_nat len ≤ length n)%nat as Hle by (unfold len, zlen; lia).
  rewrite take_app_le by done.
  assert (length (take (Z.to_nat len) n ++ drop (Z.to_nat len) old) = MSG_SIZE) as Hl.
  { rewrite length_app, length_take, length_drop, Hold. unfold MSG_SIZE. lia. }
  eexists _, _. split; [reflexivity|]. rewrite zset_in by (unfold zlen; rewrite Hl; unfold MSG_SIZE; lia).
  split; [reflexivity|]. split; [by rewrite length_insert|].
  assert (take 255 n = take (Z.to_nat len) n) as ->.
  { unfold len, zlen. destruct (decide (length n ≤ 255)%nat); [rewrite !take_ge by lia; done|].
    f_equal. lia. }
  replace (Z.to_nat len) with (length (take (Z.to_nat len) n) + 0)%nat at 1 by (rewrite length_take; lia).
  rewrite insert_app_r. destruct (drop (Z.to_nat len) old) as [|x rest] eqn:Ed.
  { apply (f_equal length) in Ed. rewrite length_drop, Hold in Ed. unfold MSG_SIZE in Ed. simpl in Ed. lia. }
  cbn. apply cstr_app. apply Forall_take. by eapply cstr_nonzero.
Qed.

Lemma zget_app_l {A} (l k : list A) j : j < zlen l → (l ++ k).[j] = l.[j].
Proof. intros Hj. unfold zget, zlen in *. destruct (Z.ltb_spec j 0); [done|]. apply lookup_app_l. lia. Qed.
Lemma zget_snoc {A} (l : list A) x : (l ++ [x]).[zlen l] = Some x.
Proof. unfold zlen. rewrite zget_nat. apply list_lookup_middle. done. Qed.

Lemma monitor_log_ok h level source message n s :
  log_ok h s → cstr message = Some n →
  ∃ s', monitor_log level source (Some message) s = Some s' ∧
    timestamp_counter s' = timestamp_counter s +u 1 ∧
    system_stats s' = count_call (system_stats s) ∧ uptime_seconds s' = uptime_seconds s ∧
    log_ok (h ++ [record (timestamp_counter s +u 1) level source n]) s'.
Proof.
  intros [Hl Hsz Hi Hc Hheld] Hn. unfold monitor_log.
  assert (0 <= zlen h) as Hh by (unfold zlen; lia).
  assert (0 <= log_index s < LOG_BUFFER_SIZE) as Hidx by (rewrite Hi; apply Z.mod_pos_bound; done).
  destruct (zget_Some (log_buffer s) (log_index s)) as [old Hold]; [lia|]. rewrite Hold. cbn [mbind option_bind].
  rewrite (strlen_cstr _ _ Hn). cbn [mbind option_bind].
  assert (length (le_message old) = MSG_SIZE) as Hol.
  { unfold zget in Hold. destruct (_ <? 0); [done|]. by eapply (Forall_lookup_1 _ _ _ _ Hsz). }
  replace (if 255 <? zlen n then 255 else zlen n) with (Z.min (zlen n) 255) by (zcases; lia).
  destruct (fill_message (le_message old) message n Hn Hol) as (m1 & m2 & -> & Hz & Hl2 & Hcstr).
  cbn [mbind option_bind]. rewrite Hz. cbn [mbind option_bind]. rewrite zset_in by lia. cbn [mbind option_bind].
  eexists. split; [reflexivity|]. split; [done|]. split; [done|]. split; [done|].
  unfold LOG_BUFFER_SIZE in *.
  split; cbn [log_buffer log_index log_count]; unfold LOG_BUFFER_SIZE.
  - unfold zlen in *. by rewrite length_insert.
  - by apply Forall_insert.
  - rewrite Hi. rewrite u32_id by (pose proof (Z.mod_pos_bound (zlen h) 256); lia).
    unfold zlen. rewrite length_app. cbn [length]. rewrite Zplus_mod_idemp_l. f_equal. lia.
  - unfold zlen in *. rewrite length_app. cbn [length]. destruct (Z.ltb_spec (log_count s) 256); [rewrite u32_id|]; lia.
  - assert (zlen (h ++ [record (timestamp_counter s +u 1) level source n]) = zlen h + 1) as Hlen
      by (unfold zlen; rewrite length_app; cbn [length]; lia).
    intros j m Hj Hm. pose proof (zget_range _ _ _ Hm) as Hr. rewrite Hlen in Hj, Hr.
    destruct (decide (j = zlen h)) as [->|Hne].
    + rewrite zget_snoc in Hm. injection Hm as <-. eexists. split.
      * rewrite <- Hi. eapply zget_zset_eq. by apply zset_in; lia.
      * split_and!; try done. cbn [le_length record lg_text]. unfold zlen. rewrite length_take. lia.
    + rewrite zget_app_l in Hm by lia. destruct (Hheld j m) as (e & He & Hholds); [lia|done|].
      exists e. split; [|done]. rewrite <- He. eapply zget_zset_ne; [|by apply zset_in; lia].
      rewrite Hi. intros E. Z.div_mod_to_equations. lia.
Qed.

(** ** The log a reader sees *)

Lemma get_log_entry_ok h s i :
  log_ok h s → 0 <= i < 4294967296 →
  if i <? Z.min (zlen h) 256
  then ∃ e m, monitor_get_log_entry i true s = Some (0, Some e) ∧
         h.[zlen h - Z.min (zlen h) 256 + i] = Some m ∧ holds e m
  else monitor_get_log_entry i true s = Some (-1, None).
Proof.
  intros [Hl Hsz Hi Hc Hheld] Hir. unfold monitor_get_log_entry, LOG_BUFFER_SIZE in *. cbn [negb orb].
  assert (0 <= zlen h) as Hh by (unfold zlen; lia). rewrite Hc.
  destruct (Z.ltb_spec i (Z.min (zlen h) 256)) as [Hlt|Hge], (Z.leb_spec (Z.min (zlen h) 256) i); try lia; [|done].
  assert (((log_index s -u Z.min (zlen h) 256) +u i) mod 256 = (zlen h - Z.min (zlen h) 256 + i) mod 256) as ->.
  { rewrite Hi. unfold u32. rewrite Zplus_mod_idemp_l.
    rewrite Z.mod_mod_divide by (exists 16777216; done).
    replace (zlen h mod 256 - Z.min (zlen h) 256 + i) with (zlen h mod 256 + (i - Z.min (zlen h) 256)) by lia.
    rewrite Zplus_mod_idemp_l. f_equal. lia. }
  destruct (zget_Some h (zlen h - Z.min (zlen h) 256 + i)) as [m Hm]; [lia|].
  destruct (Hheld _ m (ltac:(lia) : zlen h - 256 <= zlen h - Z.min (zlen h) 256 + i) Hm) as (e & -> & Hholds).
  by exists e, m.
Qed.

(** Messages logged one after the other: level, source, text. *)
Fixpoint log_all (ms : list (Z * Z * list Z)) (s : monitor_state) : option monitor_state :=
  match ms with
  | [] => Some s
  | (level, source, text) :: ms => s ← monitor_log level source (Some (text ++ [0])) s; log_all ms s
  end.

(** What they are on record as, from timestamp [ts] on. *)
Fixpoint records (ts : Z) (ms : list (Z * Z * list Z)) : list logged :=
  match ms with
  | [] => []
  | (level, source, text) :: ms => record (ts +u 1) level source text :: records (ts +u 1) ms
  end.

Lemma log_all_ok ms h s :
  log_ok h s → Forall (λ m, Forall (λ c, c ≠ 0) m.2) ms →
  ∃ s', log_all ms s = Some s' ∧ log_ok (h ++ records (timestamp_counter s) ms) s'.
Proof.
  intros Hok Hms. revert h s Hok. induction Hms as [|[[level source] text] ms Htext _ IH]; intros h s Hok.
  - exists s. cbn. by rewrite app_nil_r.
  - cbn [log_all records].
    destruct (monitor_log_ok h level source (text ++ [0]) text s Hok (cstr_app _ _ Htext))
      as (s1 & -> & Hts & _ & _ & Hok1). cbn [mbind option_bind].
    destruct (IH _ s1 Hok1) as (s' & E & Hok'). exists s'. split; [done|]. rewrite Hts in Hok'.
    by rewrite <- app_assoc in Hok'.
Qed.

Definition init_text : list Z := bytes_of_string "Monitoring system initialized".

(** No message yet: the state of the zeroed statics and of [monitor_init] *)
Lemma empty_log_ok s :
  log_buffer s = replicate (Z.to_nat LOG_BUFFER_SIZE) zero_entry → log_index s = 0 → log_count s = 0 → log_ok [] s.
Proof.
  intros Hb Hi Hc. split; rewrite ?Hb, ?Hi, ?Hc; [|by apply Forall_replicate|done|done|].
  - unfold zlen. rewrite length_replicate. done.
  - intros j m _ Hm. apply zget_range in Hm. unfold zlen in Hm. cbn in Hm. lia.
Qed.

Lemma monitor_init_ok s :
  ∃ s', monitor_init s = Some s' ∧ timestamp_counter s' = timestamp_counter s +u 1 ∧
    total_memory (system_stats s') = 1048576 ∧ free_memory (system_stats s') = 1048576 ∧
    uptime_seconds s' = uptime_seconds s ∧
    log_ok [record (timestamp_counter s +u 1) LOG_LEVEL_INFO LOG_SOURCE_KERNEL init_text] s'.
Proof.
  unfold monitor_init.
  match goal with |- context [monitor_log _ _ _ ?st] => set (s0 := st) end.
  assert (log_ok [] s0) as Hok by by apply empty_log_ok.
  destruct (monitor_log_ok [] LOG_LEVEL_INFO LOG_SOURCE_KERNEL (lit "Monitoring system initialized") init_text s0 Hok)
    as (s' & E & Hts & Hst & Hup & Hok'); [reflexivity|].
  exists s'. split; [exact E|]. rewrite Hts, Hst, Hup. by split_and!.
Qed.

(** C30. The system log keeps the last 256 messages: after [monitor_init] and
    any messages, [monitor_get_log_entry i] returns, for every [i] below the
    number kept, the [i]-th of the newest 256 messages in the order logged
    (level, source, timestamp, and the text cut to 255 characters), and -1
    for every other 32-bit [i]; the unsigned index arithmetic never leaves
    the array. *)
Theorem monitor_log_last_256 (ms : list (Z * Z * list Z)) (s0 : monitor_state) :
  Forall (λ m, Forall (λ c, c ≠ 0) m.2) ms →
  let h := record (timestamp_counter s0 +u 1) LOG_LEVEL_INFO LOG_SOURCE_KERNEL init_text
           :: records (timestamp_counter s0 +u 1) ms in
  ∃ s1 s, monitor_init s0 = Some s1 ∧ log_all ms s1 = Some s ∧
    ∀ i, 0 <= i < 4294967296 →
      if i <? Z.min (zlen h) 256
      then ∃ e m, monitor_get_log_entry i true s = Some (0, Some e) ∧
             h.[zlen h - Z.min (zlen h) 256 + i] = Some m ∧ holds e m
      else monitor_get_log_entry i true s = Some (-1, None).
Proof.
  intros Hms h. destruct (monitor_init_ok s0) as (s1 & E1 & Hts & _ & _ & _ & Hok1).
  destruct (log_all_ok ms _ s1 Hok1 Hms) as (s & E & Hok). rewrite Hts in Hok.
  exists s1, s. split; [exact E1|]. split; [exact E|]. clear E1 E.
  intros i. by apply get_log_entry_ok.
Qed.

Definition monitor_bss : monitor_state :=
  {| log_buffer := replicate (Z.to_nat LOG_BUFFER_SIZE) zero_entry; log_index := 0; log_count := 0;
     system_stats := {| total_processes := 0; running_processes := 0; sleeping_processes := 0;
                        total_memory := 0; used_memory := 0; free_memory := 0; total_cpu_time := 0;
                        idle_cpu_time := 0; system_calls_count := 0; interrupts_count := 0 |};
     performance_metrics := zero_metrics; timers := replicate MAX_TIMERS zero_timer;
     uptime_seconds := 0; timestamp_counter := 0 |}.

Lemma monitor_log_last_256_witness :
  let h := record (timestamp_counter monitor_bss +u 1) LOG_LEVEL_INFO LOG_SOURCE_KERNEL init_text
           :: records (timestamp_counter monitor_bss +u 1) [(2, 3, [65; 66])] in
  ∃ s1 s, monitor_init monitor_bss = Some s1 ∧ log_all [(2, 3, [65; 66])] s1 = Some s ∧
    ∀ i, 0 <= i < 4294967296 →
      if i <? Z.min (zlen h) 256
      then ∃ e m, monitor_get_log_entry i true s = Some (0, Some e) ∧
             h.[zlen h - Z.min (zlen h) 256 + i] = Some m ∧ holds e m
      else monitor_get_log_entry i true s = Some (-1, None).
Proof.
  apply (monitor_log_last_256 [(2, 3, [65; 66])] monitor_bss).
  repeat constructor; discriminate.
Defined.

(** ** Statistics never divide by zero *)
Fixpoint update_n (n : nat) (s : monitor_state) : option monitor_state :=
  match n with O => Some s | S n => s ← monitor_update_stats s; update_n n s end.

(** The memory figures [monitor_init] sets. *)
Record stats_ok (s : monitor_state) : Prop := {
  sk_total : total_memory (system_stats s) = 1048576;
  sk_free : free_memory (system_stats s) = 1048576;
}.

Lemma update_stats_log h s s' : monitor_update_stats s = Some s' → log_ok h s → log_ok h s'.
Proof.
  intros E [H1 H2 H3 H4 H5]. apply bind_Some in E as (a & _ & E). apply bind_Some in E as (b & _ & [= <-]). by split.
Qed.

Lemma monitor_dump_logs_ok h s : log_ok h s → is_Some (monitor_dump_logs s).
Proof.
  intros Hok. unfold monitor_dump_logs.
  assert (∀ n i, 0 <= i → i + Z.of_nat n < 4294967296 → is_Some (dump_lines n i s)) as Hdump.
  { induction n as [|n IH]; intros i Hi Hn; [by eexists|]. cbn [dump_lines].
    pose proof (get_log_entry_ok h s i Hok ltac:(lia)) as Hget.
    assert (∃ r e, monitor_get_log_entry i true s = Some (r, e)) as (r & e & ->).
    { destruct (_ <? _); [destruct Hget as (e & m & -> & _)|rewrite Hget]; by eexists _, _. }
    cbn [mbind option_bind]. destruct (IH (i + 1)) as [rest ->]; [lia..|].
    assert (is_Some (snprintf 300 (line_lit "[%u] Level:%d Source:%d - %s"))) as [l ->] by (vm_compute; by eexists).
    destruct (r =? 0); cbn [mbind option_bind]; by eexists. }
  pose proof (ok_count _ _ Hok) as Hcount. destruct (Hdump (Z.to_nat (log_count s)) 0) as [l ->]; [lia| |].
  - unfold LOG_BUFFER_SIZE, zlen in *. lia.
  - by eexists.
Qed.

Lemma update_stats_ok s :
  stats_ok s →
  ∃ s', monitor_update_stats s = Some s' ∧ stats_ok s' ∧
    uptime_seconds s' = uptime_seconds s +u 1 ∧
    memory_usage_percent (performance_metrics s') = 0 ∧
    (0 <= uptime_seconds s < 400000 → 0 <= cpu_usage_percent (performance_metrics s') <= 75).
Proof.
  intros [Ht Hf]. unfold monitor_update_stats. rewrite Ht, Hf. unfold udiv.
  set (up := uptime_seconds s +u 1). set (cpu := up *u 100).
  assert ((cpu +u 1 =? 0) = false) as ->.
  { apply Z.eqb_neq. unfold cpu, u32. Z.div_mod_to_equations. lia. }
  cbn [mbind option_bind]. change (1048576 =? 0) with false. cbn [mbind option_bind].
  eexists. split; [reflexivity|]. split; [by split|]. split; [done|]. split; [reflexivity|].
  cbn [performance_metrics cpu_usage_percent]. intros Hup.
  assert (up = uptime_seconds s + 1) as Eup by (apply u32_id; lia).
  assert (cpu = 100 * (uptime_seconds s + 1)) as Ecpu by (unfold cpu; rewrite Eup, u32_id; lia).
  assert (0 <= cpu / 4 <= cpu) by (Z.div_mod_to_equations; lia).
  rewrite (u32_id (cpu - cpu / 4)), (u32_id (cpu + 1)) by lia.
  assert (cpu - cpu / 4 = 75 * (uptime_seconds s + 1)) as -> by (Z.div_mod_to_equations; lia).
  rewrite u32_id by lia. split; [apply Z.div_pos; lia|]. apply Z.div_le_upper_bound; lia.
Qed.

(** After [monitor_init] the statistics can be updated any number of
    times: the divisions in [monitor_update_stats] never divide by zero (the
    CPU time is a multiple of 100 modulo 2^32), the memory usage reported is
    0 percent, and within the first 400000 updates the CPU usage is at most
    75 percent. *)
Theorem monitor_stats_total (n : nat) (s0 : monitor_state) :
  uptime_seconds s0 = 0 →
  ∃ s1 s, monitor_init s0 = Some s1 ∧ update_n (S n) s1 = Some s ∧
    memory_usage_percent (performance_metrics s) = 0 ∧
    (Z.of_nat n < 400000 → 0 <= cpu_usage_percent (performance_metrics s) <= 75).
Proof.
  intros Hup. destruct (monitor_init_ok s0) as (s1 & E1 & _ & Ht & Hf & Hu & _). rewrite Hup in Hu.
  assert (∀ k s, stats_ok s → 0 <= uptime_seconds s →
    ∃ s', update_n (S k) s = Some s' ∧ memory_usage_percent (performance_metrics s') = 0 ∧
      (uptime_seconds s + Z.of_nat k < 400000 → 0 <= cpu_usage_percent (performance_metrics s') <= 75)) as H.
  { induction k as [|k IH]; intros s Hs Hpos; cbn [update_n];
      destruct (update_stats_ok s Hs) as (s' & -> & Hs' & Hup' & Hmem & Hcpu); cbn [mbind option_bind].
    - exists s'. split; [done|]. split; [done|]. intros. apply Hcpu. lia.
    - destruct (IH s' Hs') as (s'' & E & Hm & Hc); [rewrite Hup'; apply u32_range|].
      exists s''. split; [exact E|]. split; [done|]. intros Hlt. apply Hc. rewrite Hup', u32_id by lia. lia. }
  destruct (H n s1) as (s & E & Hm & Hc); [by split|lia|].
  exists s1, s. split; [exact E1|]. split; [exact E|]. split; [exact Hm|]. intros. apply Hc. lia.
Qed.

Lemma monitor_stats_total_witness :
  ∃ s1 s, monitor_init monitor_bss = Some s1 ∧ update_n 3 s1 = Some s ∧
    memory_usage_percent (performance_metrics s) = 0 ∧
    (Z.of_nat 2 < 400000 → 0 <= cpu_usage_percent (performance_metrics s) <= 75).
Proof. apply (monitor_stats_total 2 monitor_bss). reflexivity. Defined.

End Monitor.
