(* ===== verification/VfsSimple.v ===== *)
(** * VfsSimple: the file descriptors of the linked VFS (fs/vfs_simple.c)

    The state is the array [file_descriptors].  The read and write function pointers of a descriptor are never set nor
    called; log and screen messages are not modelled. *)
From S2P Require Import Prelude CString.

Module VfsSimple.

Definition MAX_OPEN_FILES : nat := 16.
#[global] Arguments MAX_OPEN_FILES : simpl never.
Definition VFS_TYPE_FILE : Z := 1.

Record simple_fd_t := { inode : Z; offset : Z; in_use : Z }.

Definition set_offset (o : Z) (d : simple_fd_t) : simple_fd_t :=
  {| inode := inode d; offset := o; in_use := in_use d |}.
Definition set_in_use (u : Z) (d : simple_fd_t) : simple_fd_t :=
  {| inode := inode d; offset := offset d; in_use := u |}.

Definition fs_init (s : list simple_fd_t) : (list simple_fd_t) := (λ _, {| inode := 0; offset := 0; in_use := 0 |}) <$> s.

Definition fd_free (d : simple_fd_t) : bool := in_use d =? 0.

(** [path] and [flags] are not looked at. *)
Definition fs_open (s : list simple_fd_t) : Z * list simple_fd_t :=
  match find_first fd_free s with
  | None => (-1, s)
  | Some fd => (Z.of_nat fd, <[fd := {| inode := 1; offset := 0; in_use := 1 |}]> s)
  end.

(** [fd < 0 || fd >= MAX_OPEN_FILES || !file_descriptors[fd].in_use] fails *)
Definition open_fd (fd : Z) (s : list simple_fd_t) : option (option simple_fd_t) :=
  if (fd <? 0) || (Z.of_nat MAX_OPEN_FILES <=? fd) then Some None
  else d ← s.[fd]; Some (if in_use d =? 0 then None else Some d).

Definition fs_close (fd : Z) (s : list simple_fd_t) : option (Z * list simple_fd_t) :=
  r ← open_fd fd s;
  match r with
  | None => Some (-1, s)
  | Some d => s ← zset s fd (set_in_use 0 d); Some (0, s)
  end.

Definition fs_seek (fd off : Z) (s : list simple_fd_t) : option (Z * list simple_fd_t) :=
  r ← open_fd fd s;
  match r with
  | None => Some (-1, s)
  | Some d => s ← zset s fd (set_offset off d); Some (s32 off, s)
  end.

Definition sample_data : list Z := lit "Hello from VFS!
".

(** [buffer] is what the pointer can reach; the result is the buffer after
    the call. *)
Definition fs_read (fd : Z) (buffer : list Z) (count : Z) (s : list simple_fd_t) : option (Z * list Z * list simple_fd_t) :=
  r ← open_fd fd s;
  match r with
  | None => Some (-1, buffer, s)
  | Some d =>
      data_len ← strlen sample_data;
      if data_len <=? offset d then Some (0, buffer, s)
      else
        let to_read := if data_len <? offset d +u count then data_len -u offset d else count in
        buffer ← memcpy buffer (drop (Z.to_nat (offset d)) sample_data) (Z.to_nat to_read);
        s ← zset s fd (set_offset (offset d +u to_read) d);
        Some (s32 to_read, buffer, s)
  end.

Definition fs_write (fd : Z) (count : Z) (s : list simple_fd_t) : option (Z * list simple_fd_t) :=
  r ← open_fd fd s;
  match r with
  | None => Some (-1, s)
  | Some d => s ← zset s fd (set_offset (offset d +u count) d); Some (s32 count, s)
  end.

(** The fields [inode], [size], [mode] and [type] stored through [stat]. *)
Definition fs_stat (path stat : bool) : Z * option (Z * Z * Z * Z) :=
  if negb path || negb stat then (-1, None) else (0, Some (1, 16, 420, VFS_TYPE_FILE)).

(** Every argument is ignored. *)
Definition fs_mount : Z := 1.

Definition listing : list Z := lit "root
tmp
".

Definition fs_list_dir (path : bool) (buffer : option (list Z)) (buffer_size : Z) : option (Z * option (list Z)) :=
  match buffer with
  | Some buf =>
      if negb path || (buffer_size =? 0) then Some (-1, buffer)
      else
        len ← strlen listing;
        let len := if buffer_size <=? len then buffer_size -u 1 else len in
        buf ← memcpy buf listing (Z.to_nat len);
        buf ← zset buf len 0;
        Some (s32 len, Some buf)
  | None => Some (-1, None)
  end.

(** ** The descriptor table *)
Definition vfs_ok (s : list simple_fd_t) : Prop :=
  length s = MAX_OPEN_FILES ∧ Forall (λ d, 0 <= offset d < 4294967296) s.

(** The offset of every open descriptor. *)
Definition fd_offset (d : simple_fd_t) : option Z := if in_use d =? 0 then None else Some (offset d).
Definition fd_view (s : list simple_fd_t) : list (option Z) :=
  fd_offset <$> s.

Lemma open_fd_spec fd s :
  vfs_ok s →
  open_fd fd s = Some (if (0 <=? fd) && (fd <? 16)
                       then d ← s !! Z.to_nat fd; if in_use d =? 0 then None else Some d else None).
Proof.
  intros [Hl _]. unfold open_fd, MAX_OPEN_FILES in *. change (Z.of_nat 16) with 16.
  destruct (Z.ltb_spec fd 0), (Z.leb_spec 0 fd); try lia; [done|].
  destruct (Z.leb_spec 16 fd), (Z.ltb_spec fd 16); try lia; [done|]. cbn [orb andb].
  unfold zget. destruct (Z.ltb_spec fd 0); [lia|].
  destruct (lookup_lt_is_Some_2 s (Z.to_nat fd)) as [d Hd]; [lia|]. by rewrite Hd.
Qed.

(** An open descriptor, and the table with its entry changed. *)
Lemma open_fd_at s fd d :
  vfs_ok s → s !! fd = Some d → in_use d ≠ 0 →
  open_fd (Z.of_nat fd) s = Some (Some d) ∧
  ∀ d', 0 <= offset d' < 4294967296 → zset s (Z.of_nat fd) d' = Some (<[fd := d']> s) ∧ vfs_ok (<[fd := d']> s).
Proof.
  intros Hok Hd Hu. pose proof (lookup_lt_Some _ _ _ Hd) as Hlt. destruct Hok as [Hl Hr].
  assert (vfs_ok s) as Hok by done. unfold MAX_OPEN_FILES in Hl. split.
  - rewrite open_fd_spec by done. destruct (Z.leb_spec 0 (Z.of_nat fd)), (Z.ltb_spec (Z.of_nat fd) 16); try lia.
    cbn [andb]. rewrite Nat2Z.id, Hd. cbn [mbind option_bind]. by destruct (Z.eqb_spec (in_use d) 0).
  - intros d' Hd'. rewrite zset_in by (unfold zlen; lia). rewrite Nat2Z.id. split; [done|].
    split; [by rewrite length_insert|]. by apply Forall_insert.
Qed.

Lemma strlen_sample : strlen sample_data = Some 16.
Proof. reflexivity. Qed.
Lemma sample_length : length sample_data = 17%nat.
Proof. reflexivity. Qed.
#[global] Arguments sample_data : simpl never.

(** ** Reading *)

(** One read of [count] bytes at offset [o] of the sample. *)
Lemma fs_read_spec s fd d buf count :
  vfs_ok s → s !! fd = Some d → in_use d ≠ 0 → 0 <= count → offset d + count < 4294967296 → count <= zlen buf →
  let n := Z.min count (Z.max 0 (16 - offset d)) in
  ∃ s', fs_read (Z.of_nat fd) buf count s =
      Some (n, take (Z.to_nat n) (drop (Z.to_nat (offset d)) sample_data) ++ drop (Z.to_nat n) buf, s') ∧
    vfs_ok s' ∧ s' = <[fd := set_offset (offset d + n) d]> s.
Proof.
  intros Hok Hd Hu Hc Hw Hb n. destruct (open_fd_at s fd d Hok Hd Hu) as [Ho Hset].
  assert (0 <= offset d) as Hpos by (destruct Hok as [_ Hr]; apply (Forall_lookup_1 _ _ _ _ Hr Hd)).
  unfold fs_read. rewrite Ho. cbn [mbind option_bind]. rewrite strlen_sample. cbn [mbind option_bind].
  destruct (Z.leb_spec 16 (offset d)) as [Hge|Hlt].
  - assert (n = 0) as -> by lia. exists s. split_and!; [done|done|].
    rewrite Z.add_0_r. symmetry. apply list_insert_id. by destruct d.
  - rewrite (u32_id (offset d + count)) by lia.
    assert ((if 16 <? offset d + count then 16 -u offset d else count) = n) as ->.
    { unfold n. destruct (Z.ltb_spec 16 (offset d + count)); [rewrite u32_id|]; lia. }
    assert (0 <= n <= count ∧ n <= 16 - offset d) as Hn by lia. unfold zlen in Hb.
    rewrite memcpy_spec by (rewrite ?length_drop, ?sample_length; lia). cbn [mbind option_bind].
    rewrite (u32_id (offset d + n)), (s32_id n) by lia.
    destruct (Hset (set_offset (offset d + n) d)) as [-> Hok']; [cbn; lia|]. cbn [mbind option_bind].
    by eexists.
Qed.

(** Reads of the given sizes one after the other, into a buffer of that size
    each, and the bytes they deliver. *)
Fixpoint read_all (fd : Z) (counts : list Z) (s : list simple_fd_t) : option (list Z * list simple_fd_t) :=
  match counts with
  | [] => Some ([], s)
  | c :: cs =>
      '(n, buf, s) ← fs_read fd (replicate (Z.to_nat c) 0) c s;
      '(bs, s) ← read_all fd cs s;
      Some (take (Z.to_nat n) buf ++ bs, s)
  end.

Definition total (counts : list Z) : Z := foldr Z.add 0 counts.

Lemma total_nonneg counts : Forall (λ c, 0 <= c) counts → 0 <= total counts.
Proof. induction 1; cbn; [lia|]. unfold total in *. lia. Qed.

Lemma read_all_spec fd counts s d :
  vfs_ok s → s !! fd = Some d → in_use d ≠ 0 → Forall (λ c, 0 <= c) counts →
  offset d + total counts < 4294967296 →
  ∃ s', read_all (Z.of_nat fd) counts s =
    Some (take (Z.to_nat (Z.min (total counts) (Z.max 0 (16 - offset d)))) (drop (Z.to_nat (offset d)) sample_data), s').
Proof.
  intros Hok Hd Hu Hcs. revert s d Hok Hd Hu. induction Hcs as [|c cs Hc Hcs IH]; intros s d Hok Hd Hu Hw.
  - exists s. cbn. by replace (Z.min 0 (Z.max 0 (16 - offset d))) with 0 by lia.
  - cbn [read_all total foldr] in *. fold (total cs) in *. pose proof (total_nonneg cs Hcs).
    assert (0 <= offset d) as Hpos by (destruct Hok as [_ Hr]; apply (Forall_lookup_1 _ _ _ _ Hr Hd)).
    destruct (fs_read_spec s fd d (replicate (Z.to_nat c) 0) c) as (s1 & -> & Hok1 & ->);
      [done..|lia|unfold zlen; rewrite length_replicate; lia|].
    cbn [mbind option_bind]. set (n := Z.min c (Z.max 0 (16 - offset d))).
    destruct (IH (<[fd := set_offset (offset d + n) d]> s) (set_offset (offset d + n) d)) as (s' & ->);
      [done|apply list_lookup_insert_eq; by eapply lookup_lt_Some|done|cbn; lia|].
    cbn [mbind option_bind]. exists s'. do 2 f_equal. cbn [set_offset offset].
    assert (length (take (Z.to_nat n) (drop (Z.to_nat (offset d)) sample_data)) = Z.to_nat n) as Hlen.
    { rewrite length_take, length_drop, sample_length. lia. }
    rewrite <- Hlen at 1. rewrite take_app_length.
    replace (Z.to_nat (offset d + n)) with (Z.to_nat (offset d) + Z.to_nat n)%nat by lia.
    rewrite <- drop_drop, take_take_drop. f_equal. lia.
Qed.

(** Reading through a descriptor in pieces of any sizes delivers, piece
    after piece, exactly the bytes of the sample file from the descriptor's
    offset on, as far as the sizes reach, and then end of file (0 bytes). *)
Theorem vfs_reads_concatenate (fd : nat) (counts : list Z) (s : list simple_fd_t) (d : simple_fd_t) :
  vfs_ok s → s !! fd = Some d → in_use d ≠ 0 → Forall (λ c, 0 <= c) counts →
  offset d + total counts < 4294967296 →
  ∃ s', read_all (Z.of_nat fd) counts s =
    Some (take (Z.to_nat (total counts)) (drop (Z.to_nat (offset d)) (bytes_of_string "Hello from VFS!
")), s').
Proof.
  intros Hok Hd Hu Hcs Hw. destruct (read_all_spec fd counts s d Hok Hd Hu Hcs Hw) as (s' & ->). exists s'.
  do 2 f_equal. pose proof (total_nonneg counts Hcs).
  assert (0 <= offset d) as Hpos by (destruct Hok as [_ Hr]; apply (Forall_lookup_1 _ _ _ _ Hr Hd)).
  unfold sample_data, lit. set (b := bytes_of_string _).
  assert (length b = 16%nat) as Hb by reflexivity. clearbody b.
  destruct (Z.le_gt_cases 16 (offset d)) as [Hge|Hlt].
  - rewrite (Z.max_l 0), Z.min_r by lia. rewrite (drop_ge b) by lia. by rewrite take_nil.
  - rewrite drop_app_le, take_app_le by (rewrite ?length_drop; lia).
    destruct (Z.le_gt_cases (total counts) (16 - offset d)); [f_equal; lia|].
    rewrite !take_ge by (rewrite length_drop; lia). done.
Qed.

Definition fds_after_open : list simple_fd_t :=
  (fs_open (replicate 16 {| inode := 0; offset := 0; in_use := 0 |})).2.

Lemma fds_after_open_ok : vfs_ok fds_after_open.
Proof. apply (bool_decide_unpack _). vm_compute. exact I. Qed.

Lemma vfs_reads_concatenate_witness :
  ∃ s', read_all 0 [5; 3; 20] fds_after_open =
    Some (take 28 (bytes_of_string "Hello from VFS!
"), s').
Proof.
  apply (vfs_reads_concatenate 0 [5; 3; 20] fds_after_open {| inode := 1; offset := 0; in_use := 1 |});
    [exact fds_after_open_ok|reflexivity|discriminate|repeat constructor; lia|reflexivity].
Defined.

(** ** Opening and closing *)
Inductive fd_op := Open | Close (fd : Z) | Seek (fd off : Z) | Write (fd count : Z).

Definition fd_step (o : fd_op) (s : list simple_fd_t) : option (Z * list simple_fd_t) :=
  match o with
  | Open => Some (fs_open s)
  | Close fd => fs_close fd s
  | Seek fd off => fs_seek fd off s
  | Write fd count => fs_write fd count s
  end.

(** The specification: 16 optional offsets. *)
Definition spec_update (fd : Z) (f : Z → Z * option Z) (v : list (option Z)) : Z * list (option Z) :=
  if (0 <=? fd) && (fd <? 16) then
    match v !! Z.to_nat fd with
    | Some (Some o) => ((f o).1, <[Z.to_nat fd := (f o).2]> v)
    | _ => (-1, v)
    end
  else (-1, v).
Definition spec_step (o : fd_op) (v : list (option Z)) : Z * list (option Z) :=
  match o with
  | Open => match find_first (λ x : option Z, bool_decide (x = None)) v with
            | Some fd => (Z.of_nat fd, <[fd := Some 0]> v)
            | None => (-1, v)
            end
  | Close fd => spec_update fd (λ _, (0, None)) v
  | Seek fd off => spec_update fd (λ _, (s32 off, Some off)) v
  | Write fd count => spec_update fd (λ o, (s32 count, Some (o +u count))) v
  end.

Definition op_ok (o : fd_op) : Prop :=
  match o with Seek _ off => 0 <= off < 4294967296 | _ => True end.

Lemma find_first_fmap {A B} (f : A → B) p l : find_first p (f <$> l) = find_first (p ∘ f) l.
Proof. induction l as [|x l IH]; [done|]. cbn. by rewrite IH. Qed.
Lemma find_first_ext {A} (p q : A → bool) l : (∀ x, p x = q x) → find_first p l = find_first q l.
Proof. intros H. induction l as [|x l IH]; [done|]. cbn. by rewrite H, IH. Qed.

(** The descriptor operations that change one open entry. *)
Lemma update_refines fd s (new : simple_fd_t → simple_fd_t) (ret : simple_fd_t → Z) f :
  vfs_ok s →
  (∀ d, in_use d ≠ 0 → 0 <= offset d < 4294967296 → f (offset d) = (ret d, fd_offset (new d)) ∧ 0 <= offset (new d) < 4294967296) →
  ∃ s', (r ← open_fd fd s;
         match r with
         | None => Some (-1, s)
         | Some d => s ← zset s fd (new d); Some (ret d, s)
         end) = Some ((spec_update fd f (fd_view s)).1, s') ∧
    vfs_ok s' ∧ fd_view s' = (spec_update fd f (fd_view s)).2.
Proof.
  intros Hok Hf. pose proof Hok as [Hl Hr]. rewrite open_fd_spec by done. cbn [mbind option_bind].
  unfold spec_update. destruct (Z.leb_spec 0 fd); cbn [andb]; [|by exists s].
  destruct (Z.ltb_spec fd 16); [|by exists s]. unfold MAX_OPEN_FILES in Hl.
  destruct (lookup_lt_is_Some_2 s (Z.to_nat fd)) as [d Hd]; [lia|].
  assert (fd_view s !! Z.to_nat fd = Some (fd_offset d)) as -> by (unfold fd_view; by rewrite list_lookup_fmap, Hd).
  rewrite Hd. cbn [mbind option_bind]. unfold fd_offset at 1 2.
  destruct (Z.eqb_spec (in_use d) 0) as [E|E]; [by exists s|].
  destruct (Hf d E) as [-> Hrange]; [by apply (Forall_lookup_1 _ _ _ _ Hr Hd)|]. cbn [fst snd].
  rewrite zset_in by (unfold zlen; lia). cbn [mbind option_bind]. eexists. split; [done|]. split.
  - split; [by rewrite length_insert|]. by apply Forall_insert.
  - unfold fd_view. by rewrite list_fmap_insert.
Qed.

Lemma fd_step_refines o s :
  vfs_ok s → op_ok o →
  ∃ s', fd_step o s = Some ((spec_step o (fd_view s)).1, s') ∧ vfs_ok s' ∧ fd_view s' = (spec_step o (fd_view s)).2.
Proof.
  intros Hok Ho. destruct o as [|fd|fd off|fd count]; cbn [fd_step spec_step].
  - assert (find_first (λ x : option Z, bool_decide (x = None)) (fd_view s) = find_first fd_free s) as ->.
    { unfold fd_view. rewrite find_first_fmap. apply find_first_ext. intros d.
      unfold fd_free, fd_offset, compose. by destruct (in_use d =? 0). }
    unfold fs_open.
    destruct (find_first fd_free s) as [i|]; [|exists s; split_and!; done]. eexists. split; [done|].
    destruct Hok as [Hl Hr]. split.
    + split; [by rewrite length_insert|]. apply Forall_insert; [done|]. cbn. lia.
    + unfold fd_view. by rewrite list_fmap_insert.
  - apply (update_refines fd s _ (λ _, 0)); [done|]. done.
  - apply (update_refines fd s _ (λ _, s32 off)); [done|]. intros d Hu Hd. cbn. unfold fd_offset. cbn.
    by destruct (Z.eqb_spec (in_use d) 0).
  - apply (update_refines fd s _ (λ _, s32 count)); [done|]. intros d Hu Hd. cbn. unfold fd_offset. cbn.
    destruct (Z.eqb_spec (in_use d) 0); [done|]. split; [done|]. apply u32_range.
Qed.

Fixpoint run (ops : list fd_op) (s : list simple_fd_t) : option (list Z * list simple_fd_t) :=
  match ops with
  | [] => Some ([], s)
  | o :: ops => '(r, s) ← fd_step o s; '(rs, s) ← run ops s; Some (r :: rs, s)
  end.
Fixpoint spec_run (ops : list fd_op) (v : list (option Z)) : list Z :=
  match ops with
  | [] => []
  | o :: ops => (spec_step o v).1 :: spec_run ops (spec_step o v).2
  end.

(** After [fs_init] no descriptor is open. *)
Lemma fs_init_view s0 :
  length s0 = MAX_OPEN_FILES → vfs_ok (fs_init s0) ∧ fd_view (fs_init s0) = replicate 16 None.
Proof.
  intros Hl. unfold fs_init, fd_view. rewrite <- list_fmap_compose. split.
  - split; [by rewrite length_fmap|]. apply Forall_fmap, Forall_true. intros x. cbn. lia.
  - change 16%nat with MAX_OPEN_FILES. rewrite <- Hl. clear. induction s0; [done|]. cbn. by f_equal.
Qed.

(** From [fs_init], every sequence of opens, closes, seeks and writes (on
    any descriptor numbers, valid or not) stays inside the table and returns
    what a table of 16 optional offsets returns: open takes the lowest free
    descriptor at offset 0 or fails when all are used, close, seek and write
    fail exactly on descriptors that are not open. *)
Theorem vfs_descriptors_refine (ops : list fd_op) (s0 : list simple_fd_t) :
  length s0 = MAX_OPEN_FILES → Forall op_ok ops →
  ∃ s, run ops (fs_init s0) = Some (spec_run ops (replicate 16 None), s) ∧ length s = MAX_OPEN_FILES.
Proof.
  intros Hl Hops.
  assert (∀ s, vfs_ok s → ∃ s', run ops s = Some (spec_run ops (fd_view s), s') ∧ vfs_ok s') as H.
  { induction Hops as [|o ops Ho _ IH]; intros s Hok; [by exists s|]. cbn [run spec_run].
    destruct (fd_step_refines o s Hok Ho) as (s1 & -> & Hok1 & Hv). cbn [mbind option_bind].
    destruct (IH s1 Hok1) as (s2 & -> & Hok2). cbn [mbind option_bind]. exists s2. by rewrite Hv. }
  destruct (fs_init_view s0 Hl) as [Hok Hv].
  destruct (H (fs_init s0) Hok) as (s & E & Hs). rewrite Hv in E. exists s. split; [exact E|]. apply Hs.
Qed.

Lemma vfs_descriptors_refine_witness :
  ∃ s, run [Open; Open; Seek 1 7; Write 1 5; Close 0; Open; Close 9]
         (fs_init (replicate 16 {| inode := 9; offset := 9; in_use := 9 |})) =
       Some (spec_run [Open; Open; Seek 1 7; Write 1 5; Close 0; Open; Close 9] (replicate 16 None), s) ∧
    length s = MAX_OPEN_FILES.
Proof.
  apply (vfs_descriptors_refine [Open; Open; Seek 1 7; Write 1 5; Close 0; Open; Close 9]
           (replicate 16 {| inode := 9; offset := 9; in_use := 9 |})); [reflexivity|].
  repeat (constructor; [cbn; lia|]). constructor.
Defined.

(** The bound test of [fs_read] wraps: a count near 2^32 at a positive offset
    is copied as it is. *)
Lemma fs_read_wraps s fd d buf count :
  vfs_ok s → s !! fd = Some d → in_use d ≠ 0 → 0 < offset d < 16 →
  4294967296 - offset d <= count < 4294967296 → fs_read (Z.of_nat fd) buf count s = UB.
Proof.
  intros Hok Hd Hu Ho Hc. destruct (open_fd_at s fd d Hok Hd Hu) as [E _].
  unfold fs_read. rewrite E. cbn [mbind option_bind]. rewrite strlen_sample. cbn [mbind option_bind].
  destruct (Z.leb_spec 16 (offset d)); [lia|].
  destruct (Z.ltb_spec 16 (offset d +u count)) as [Hlt|]; [unfold u32 in Hlt; Z.div_mod_to_equations; lia|].
  rewrite memcpy_overrun by (rewrite length_drop, sample_length; lia). done.
Qed.

End VfsSimple.
