(* ===== verification/RamFs.v ===== *)
(** * RamFs: the RAM file system (fs/ramfs.c)

    The structure behind the pointer [ramfs] is [None] while the pointer is
    NULL.  [file_data] is the data block ([None] for NULL); an access through
    NULL or past the block is undefined ([None]).  What [kmalloc] leaves in
    the two blocks is the parameter [fresh] and [fresh_data].  [char *] and
    [void *] arguments are [None] for NULL. *)
From stdpp Require Import gmap.
From S2P Require Import Prelude CString Mem Bitmap Memory VfsSimple.
Import Memory.

Module RamFs.

Definition MAX_FILES : nat := 64.
Definition MAX_FILE_SIZE : Z := 4096.
Definition MAX_FILENAME_LEN : nat := 256.
Definition RAMFS_MAGIC : Z := 0x52414D46.
#[global] Arguments MAX_FILES : simpl never.
#[global] Arguments MAX_FILENAME_LEN : simpl never.
Definition O_CREAT : Z := 0x40.
(** [MAX_FILES * MAX_FILE_SIZE], the size of [file_data] *)
Definition FILE_DATA_SIZE : Z := 262144.
(** [sizeof(ramfs_t)]: 64 files of 272 bytes, the magic and the pointer *)
Definition SIZEOF_RAMFS : Z := 17416.

Record ramfs_file_t := {
  name : list Z;
  size : Z;
  data : Z;
  in_use : Z;
  mode : Z;
}.

Record ramfs_t := {
  magic : Z;
  files : list ramfs_file_t;
  file_data : option mem;
}.

(** The pointer [ramfs] *)
Definition ramfs_ptr : Type := option ramfs_t.

Definition set_files (fs : list ramfs_file_t) (r : ramfs_t) : ramfs_t :=
  {| magic := magic r; files := fs; file_data := file_data r |}.
Definition set_data (d : option mem) (r : ramfs_t) : ramfs_t :=
  {| magic := magic r; files := files r; file_data := d |}.
Definition set_size (n : Z) (f : ramfs_file_t) : ramfs_file_t :=
  {| name := name f; size := n; data := data f; in_use := in_use f; mode := mode f |}.

Definition file_used (f : ramfs_file_t) : bool := negb (in_use f =? 0).

(** The index of the file found, [None] for NULL. *)
Definition ramfs_find_file (nm : option (list Z)) (p : ramfs_ptr) : option (option nat) :=
  match p, nm with
  | Some r, Some nm => find_loop (λ f, if file_used f then streq (name f) nm else Some false) (files r)
  | _, _ => Some None
  end.

Definition ramfs_find_free_slot (p : ramfs_ptr) : option nat :=
  match p with
  | Some r => find_first (λ f, negb (file_used f)) (files r)
  | None => None
  end.

(** [memcpy(file_data + at, src, n)] *)
Definition store_data (at_ : Z) (src : list Z) (n : Z) (r : ramfs_t) : option ramfs_t :=
  m ← file_data r; m ← mem_store FILE_DATA_SIZE m at_ src n; Some (set_data (Some m) r).

Definition ramfs_create_file (nm dat : option (list Z)) (sz : Z) (p : ramfs_ptr) : option (Z * ramfs_ptr) :=
  match p, nm with
  | Some r, Some n =>
      if MAX_FILE_SIZE <? sz then Some (-1, p)
      else
        found ← ramfs_find_file nm p;
        match found, ramfs_find_free_slot p with
        | Some _, _ | None, None => Some (-1, p)
        | None, Some i =>
            let data_offset := Z.of_nat i *u MAX_FILE_SIZE in
            f ← files r !! i;
            fname ← copy_name (name f) n MAX_FILENAME_LEN;
            let f := {| name := fname; size := sz; data := data_offset; in_use := 1; mode := 420 |} in
            let r := set_files (<[i := f]> (files r)) r in
            match dat with
            | Some src => if 0 <? sz then r ← store_data data_offset src sz r; Some (0, Some r)
                          else Some (0, Some r)
            | None => Some (0, Some r)
            end
        end
  | _, _ => Some (-1, p)
  end.

Definition ramfs_open (path : option (list Z)) (flags : Z) (p : ramfs_ptr) : option (Z * ramfs_ptr) :=
  match p, path with
  | Some _, Some _ =>
      file ← ramfs_find_file path p;
      match file with
      | Some i => Some (Z.of_nat i + 1, p)
      | None =>
          if negb (Z.land flags O_CREAT =? 0) then
            '(rc, p) ← ramfs_create_file path None 0 p;
            file ← (if rc =? 0 then ramfs_find_file path p else Some None);
            Some (match file with Some i => Z.of_nat i + 1 | None => -1 end, p)
          else Some (-1, p)
      end
  | _, _ => Some (-1, p)
  end.

(** [!ramfs || inode == 0 || inode > MAX_FILES] *)
Definition bad_inode (inode : Z) : bool := (inode =? 0) || (Z.of_nat MAX_FILES <? inode).

Definition ramfs_close (inode : Z) (p : ramfs_ptr) : Z :=
  match p with
  | Some _ => if bad_inode inode then -1 else 0
  | None => -1
  end.

(** The result and the buffer after the call. *)
Definition ramfs_read (inode : Z) (buffer : option (list Z)) (count offset : Z) (p : ramfs_ptr)
    : option (Z * option (list Z)) :=
  match p, buffer with
  | Some r, Some buf =>
      if bad_inode inode then Some (-1, buffer)
      else
        f ← (files r).[inode - 1];
        if negb (file_used f) then Some (-1, buffer)
        else if size f <=? offset then Some (0, buffer)
        else
          let n := if size f <? offset +u count then size f -u offset else count in
          m ← file_data r;
          bs ← mem_load FILE_DATA_SIZE m (data f + offset) n (zlen buf);
          Some (s32 n, Some (bs ++ drop (Z.to_nat n) buf))
  | _, _ => Some (-1, buffer)
  end.

Definition ramfs_write (inode : Z) (buffer : option (list Z)) (count offset : Z) (p : ramfs_ptr)
    : option (Z * ramfs_ptr) :=
  match p, buffer with
  | Some r, Some buf =>
      if bad_inode inode then Some (-1, p)
      else
        f ← (files r).[inode - 1];
        if negb (file_used f) then Some (-1, p)
        else if MAX_FILE_SIZE <=? offset then Some (-1, p)
        else
          let n := if MAX_FILE_SIZE <? offset +u count then MAX_FILE_SIZE -u offset else count in
          r ← store_data (data f + offset) buf n r;
          fs ← (if size f <? offset +u n then zset (files r) (inode - 1) (set_size (offset +u n) f)
                else Some (files r));
          Some (s32 n, Some (set_files fs r))
  | _, _ => Some (-1, p)
  end.

(** The fields [inode], [size], [mode] and [type] stored through [stat]. *)
Definition ramfs_stat (path : option (list Z)) (stat : bool) (p : ramfs_ptr)
    : option (Z * option (Z * Z * Z * Z)) :=
  match p, path with
  | Some r, Some _ =>
      if negb stat then Some (-1, None)
      else
        file ← ramfs_find_file path p;
        match file with
        | None => Some (-1, None)
        | Some i => f ← files r !! i; Some (0, Some (Z.of_nat i + 1, size f, mode f, VfsSimple.VFS_TYPE_FILE))
        end
  | _, _ => Some (-1, None)
  end.

(** The body of the loop that clears the slots. *)
Definition clear_file (f : ramfs_file_t) : option ramfs_file_t :=
  nm ← zset (name f) 0 0;
  Some {| name := nm; size := 0; data := 0; in_use := 0; mode := 420 |}.

(** [ramfs_init] from the magic on, once both blocks are there. *)
Definition ramfs_format (r : ramfs_t) : option ramfs_ptr :=
  fs ← mapM clear_file (files r);
  let p := Some {| magic := RAMFS_MAGIC; files := fs; file_data := file_data r |} in
  '(_, p) ← ramfs_create_file (Some (lit "hello.txt")) (Some (lit "Hello, World!
")) 14 p;
  '(_, p) ← ramfs_create_file (Some (lit "kernel.txt")) (Some (lit "Minimalist OS Kernel v1.0
")) 26 p;
  '(_, p) ← ramfs_create_file (Some (lit "readme.txt")) (Some (lit "This is a RAM-based filesystem.
")) 33 p;
  Some p.

Section init.
Context (fresh : ramfs_t) (fresh_data : mem).

Definition ramfs_init (p : ramfs_ptr) (k : memory_state) : option (Z * ramfs_ptr * memory_state) :=
  match p with
  | Some _ => Some (0, p, k)
  | None =>
      match kmalloc SIZEOF_RAMFS k with
      | (None, k) => Some (-1, None, k)
      | (Some a, k) =>
          match kmalloc FILE_DATA_SIZE k with
          | (None, k) => Some (-1, Some (set_data None fresh), kfree (Some a) k)
          | (Some _, k) => p ← ramfs_format (set_data (Some fresh_data) fresh); Some (0, p, k)
          end
      end
  end.

Definition ramfs_mount (p : ramfs_ptr) (k : memory_state) : option (Z * ramfs_ptr * memory_state) :=
  '(rc, p, k) ← ramfs_init p k;
  if negb (rc =? 0) then Some (-1, p, k) else Some (VfsSimple.fs_mount, p, k).
End init.


(** ** The abstract file system

    The files of an initialised file system as a map from names to contents. *)
Definition data_of (r : ramfs_t) : mem := default mem_zero (file_data r).

(** The contents of a slot. *)
Definition contents (m : mem) (f : ramfs_file_t) : list Z := mem_read m (data f) (size f).

Definition Used (f : ramfs_file_t) : Prop := file_used f = true.
#[export] Instance Used_dec f : Decision (Used f).
Proof. unfold Used. apply _. Defined.

Record ramfs_ok (r : ramfs_t) : Prop := {
  ok_length : length (files r) = MAX_FILES;
  ok_names : Forall (λ f, name_ok MAX_FILENAME_LEN (name f)) (files r);
  ok_slots : ∀ i f, files r !! i = Some f → Used f →
    data f = Z.of_nat i * MAX_FILE_SIZE ∧ 0 <= size f <= MAX_FILE_SIZE;
  ok_distinct : ∀ i j f g, files r !! i = Some f → files r !! j = Some g → Used f → Used g →
    str (name f) = str (name g) → i = j;
  ok_data : is_Some (file_data r);
}.

Record rep (r : ramfs_t) (fs : gmap (list Z) (list Z)) : Prop := {
  rep_ok : ramfs_ok r;
  rep_files : ∀ n c, fs !! n = Some c ↔
    ∃ i f, files r !! i = Some f ∧ Used f ∧ str (name f) = n ∧ c = contents (data_of r) f;
  rep_count : base.size fs = length (filter Used (files r));
}.

(** Filling or rewriting slot [i] with the used record [f'] and data that
    changes only the slot's 4096 bytes. *)
Section update.
Context (r : ramfs_t) (fs : gmap (list Z) (list Z)) (i : nat) (f f' : ramfs_file_t) (m : mem).
Context (Hrep : rep r fs) (Hi : files r !! i = Some f) (Hu : Used f').
Context (Hdata : data f' = Z.of_nat i * MAX_FILE_SIZE) (Hsize : 0 <= size f' <= MAX_FILE_SIZE).
Context (Hname : name_ok MAX_FILENAME_LEN (name f')).
Context (Hm : ∀ x, x < Z.of_nat i * MAX_FILE_SIZE ∨ (Z.of_nat i + 1) * MAX_FILE_SIZE <= x → m x = data_of r x).
Context (Hnew : Used f ∧ str (name f') = str (name f) ∨ ¬ Used f ∧ fs !! str (name f') = None).

Definition updated : ramfs_t := set_data (Some m) (set_files (<[i := f']> (files r)) r).

Lemma other_slot j g : files r !! j = Some g → Used g → str (name g) = str (name f') → j = i.
Proof.
  intros Hj Hg Hs. destruct Hnew as [[Hf Hs']|[Hf Hnone]].
  - eapply (ok_distinct r (rep_ok _ _ Hrep) j i g f); congruence.
  - assert (fs !! str (name f') = Some (contents (data_of r) g)) as E; [|congruence].
    apply (rep_files _ _ Hrep). by exists j, g.
Qed.

Lemma updated_lookup j g :
  files updated !! j = Some g ↔ (j = i ∧ g = f') ∨ (j ≠ i ∧ files r !! j = Some g).
Proof.
  cbn [files updated set_data set_files]. destruct (decide (j = i)) as [->|Hne].
  - rewrite list_lookup_insert_eq by by eapply lookup_lt_Some. split; [intros [= <-]; by left|intros [[_ ->]|[? _]]; done].
  - rewrite list_lookup_insert_ne by done. split; [intros; by right|intros [[? _]|[_ ?]]; done].
Qed.

Lemma updated_contents j g :
  files r !! j = Some g → Used g → j ≠ i → contents m g = contents (data_of r) g.
Proof.
  intros Hj Hg Hne. destruct (ok_slots r (rep_ok _ _ Hrep) j g Hj Hg) as [Hd Hs].
  apply mem_read_ext. rewrite Hd. unfold MAX_FILE_SIZE in *. intros x Hx. apply Hm. nia.
Qed.

Lemma updated_ok : ramfs_ok updated.
Proof.
  pose proof (rep_ok _ _ Hrep) as [Hl Hn Hs Hd Hdat]. split.
  - cbn. by rewrite length_insert.
  - cbn. by apply Forall_insert.
  - intros j g [[-> ->]|[Hne Hj]]%updated_lookup Hg; [done|]. by apply Hs.
  - intros j k g h [[-> ->]|[Hne Hj]]%updated_lookup [[-> ->]|[Hne' Hk]]%updated_lookup Hg Hh Heq.
    + done.
    + symmetry. by eapply other_slot.
    + by eapply other_slot.
    + by eapply Hd.
  - by eexists.
Qed.

Lemma updated_rep : rep updated (<[str (name f') := contents m f']> fs).
Proof.
  split; [exact updated_ok| |].
  - intros n c. change (data_of updated) with m. destruct (decide (n = str (name f'))) as [->|Hne].
    + rewrite lookup_insert_eq. split.
      * intros [= <-]. exists i, f'. split; [|done]. apply updated_lookup. by left.
      * intros (j & g & [[-> ->]|[Hji Hj]]%updated_lookup & Hg & Hs & ->); [done|].
        by destruct Hji; eapply other_slot.
    + rewrite lookup_insert_ne by done. rewrite (rep_files _ _ Hrep). split.
      * intros (j & g & Hj & Hg & Hs & ->). assert (j ≠ i) as Hji.
        { intros ->. rewrite Hi in Hj. injection Hj as ->. destruct Hnew as [[_ ?]|[? _]]; congruence. }
        exists j, g. split; [apply updated_lookup; by right|]. split; [done|]. split; [done|].
        symmetry. by eapply updated_contents.
      * intros (j & g & [[-> ->]|[Hji Hj]]%updated_lookup & Hg & Hs & ->); [done|].
        exists j, g. split; [done|]. split; [done|]. split; [done|]. by eapply updated_contents.
  - pose proof (filter_insert_length Used (files r) i f f' Hi) as Hc. cbn [files updated set_data set_files].
    rewrite (decide_True _ _ Hu) in Hc. pose proof (rep_count _ _ Hrep) as Hsz.
    destruct Hnew as [[Hf Hs]|[Hf Hnone]].
    + rewrite decide_True in Hc by done. rewrite Hs.
      assert (is_Some (fs !! str (name f))) as Hsome.
      { eexists. apply (rep_files _ _ Hrep). exists i, f. done. }
      rewrite map_size_insert_Some by done. lia.
    + rewrite decide_False in Hc by done. rewrite map_size_insert_None by done. lia.
Qed.
End update.

(** ** Searching *)
Section find.
Context (r : ramfs_t) (fs : gmap (list Z) (list Z)) (Hrep : rep r fs).

Lemma find_ok nm n :
  cstr nm = Some n →
  ramfs_find_file (Some nm) (Some r) =
    Some (find_first (λ f, file_used f && bool_decide (str (name f) = n)) (files r)).
Proof.
  intros Hn. apply find_loop_pure. intros f Hf.
  assert (name_ok MAX_FILENAME_LEN (name f)) as Hname by by apply (proj1 (Forall_forall _ _) (ok_names r (rep_ok _ _ Hrep))).
  destruct (file_used f); [|done]. cbn [andb]. by rewrite (streq_spec _ _ _ _ (name_ok_str _ _ Hname) Hn).
Qed.

Lemma find_cases nm n :
  cstr nm = Some n →
  (fs !! n = None ∧ ramfs_find_file (Some nm) (Some r) = Some None) ∨
  ∃ i f, ramfs_find_file (Some nm) (Some r) = Some (Some i) ∧ files r !! i = Some f ∧ Used f ∧
    str (name f) = n ∧ fs !! n = Some (contents (data_of r) f).
Proof.
  intros Hn. rewrite (find_ok nm n Hn).
  destruct (find_first _ (files r)) as [i|] eqn:E.
  - right. apply find_first_Some in E as [(f & Hf & [Hu Hs]%andb_true_iff) _]. apply bool_decide_eq_true in Hs.
    exists i, f. split_and!; try done. apply (rep_files _ _ Hrep). by exists i, f.
  - left. split; [|done]. destruct (fs !! n) as [c|] eqn:Ec; [|done].
    apply (rep_files _ _ Hrep) in Ec as (i & f & Hf & Hu & Hs & _).
    rewrite find_first_None in E. specialize (E f (list_elem_of_lookup_2 _ _ _ Hf)). cbn in E.
    rewrite Hu, bool_decide_true in E by done. done.
Qed.

(** A free slot is found exactly while there are fewer than 64 files. *)
Lemma free_cases :
  (base.size fs = 64%nat ∧ ramfs_find_free_slot (Some r) = None) ∨
  (base.size fs < 64)%nat ∧
  ∃ i f, ramfs_find_free_slot (Some r) = Some i ∧ files r !! i = Some f ∧ ¬ Used f ∧ (i < 64)%nat.
Proof.
  pose proof (ok_length r (rep_ok _ _ Hrep)) as Hl. unfold MAX_FILES in Hl. rewrite (rep_count _ _ Hrep).
  cbn [ramfs_find_free_slot]. destruct (find_first _ (files r)) as [i|] eqn:E.
  - right. pose proof (find_first_lt _ _ _ E) as Hlt.
    apply find_first_Some in E as [(f & Hf & Hu%negb_true_iff) _].
    assert (¬ Used f) as Hnu by (unfold Used; congruence). split; [|exists i, f; split_and!; try done; lia].
    pose proof (filter_insert_length Used (files r) i f f Hf) as H1.
    apply (Nat.lt_le_trans _ (length (files r))); [|lia].
    rewrite <- (take_drop_middle _ _ _ Hf), list.filter_app, filter_cons_False, !length_app, length_cons by done.
    pose proof (length_filter Used (take i (files r))). pose proof (length_filter Used (drop (S i) (files r))). lia.
  - left. rewrite find_first_None in E. split; [|done]. rewrite <- Hl. f_equal. apply filter_all.
    intros f Hf. specialize (E f Hf). by apply negb_false_iff in E.
Qed.
End find.


(** ** Operations by name

    What the callers do: create a file, create it through [ramfs_open],
    read and write at an offset, ask for the size. *)
Inductive ramfs_op :=
| Create (n d : list Z)
| Touch (n : list Z)
| Write (n : list Z) (off : Z) (bs : list Z)
| Read (n : list Z) (off count : Z)
| Stat (n : list Z).

Definition path (n : list Z) : option (list Z) := Some (n ++ [0]).

(** The result and the bytes read. *)
Definition ramfs_step (o : ramfs_op) (p : ramfs_ptr) : option (Z * list Z * ramfs_ptr) :=
  match o with
  | Create n d => '(rc, p) ← ramfs_create_file (path n) (Some d) (zlen d) p; Some (rc, [], p)
  | Touch n => '(ino, p) ← ramfs_open (path n) O_CREAT p; Some (if ino <? 0 then -1 else 0, [], p)
  | Write n off bs =>
      '(ino, p) ← ramfs_open (path n) 0 p;
      if ino <? 0 then Some (-1, [], p)
      else '(rc, p) ← ramfs_write ino (Some bs) (zlen bs) off p; Some (rc, [], p)
  | Read n off count =>
      '(ino, p) ← ramfs_open (path n) 0 p;
      if ino <? 0 then Some (-1, [], p)
      else
        '(rc, buf) ← ramfs_read ino (Some (replicate (Z.to_nat count) 0)) count off p;
        Some (rc, take (Z.to_nat rc) (default [] buf), p)
  | Stat n =>
      '(rc, st) ← ramfs_stat (path n) true p;
      Some (match st with Some (_, sz, _, _) => sz | None => rc end, [], p)
  end.

(** The specification, on a map from names to contents.  [None]: a write that
    starts past the end of the file, where the source leaves whatever bytes
    were there. *)
Definition spec_create (n d : list Z) (fs : gmap (list Z) (list Z)) : Z * list Z * gmap (list Z) (list Z) :=
  if (MAX_FILE_SIZE <? zlen d) || bool_decide (is_Some (fs !! n)) || bool_decide (64 ≤ base.size fs)%nat
  then (-1, [], fs) else (0, [], <[n := d]> fs).

Definition spec_step (o : ramfs_op) (fs : gmap (list Z) (list Z)) : option (Z * list Z * gmap (list Z) (list Z)) :=
  match o with
  | Create n d => Some (spec_create n d fs)
  | Touch n => match fs !! n with Some _ => Some (0, [], fs) | None => Some (spec_create n [] fs) end
  | Write n off bs =>
      match fs !! n with
      | None => Some (-1, [], fs)
      | Some c =>
          if MAX_FILE_SIZE <=? off then Some (-1, [], fs)
          else if zlen c <? off then None
          else
            let bs := take (Z.to_nat (MAX_FILE_SIZE - off)) bs in
            Some (zlen bs, [], <[n := take (Z.to_nat off) c ++ bs ++ drop (Z.to_nat (off + zlen bs)) c]> fs)
      end
  | Read n off count =>
      match fs !! n with
      | None => Some (-1, [], fs)
      | Some c => let bs := take (Z.to_nat count) (drop (Z.to_nat off) c) in Some (zlen bs, bs, fs)
      end
  | Stat n => Some (match fs !! n with Some c => zlen c | None => -1 end, [], fs)
  end.

(** Names of up to 255 characters, offsets of 32 bits, and lengths for which
    the 32-bit sum of offset and length cannot wrap. *)
Definition name_fits (n : list Z) : Prop := Forall (λ c, c ≠ 0) n ∧ (length n ≤ 255)%nat.
Definition op_ok (o : ramfs_op) : Prop :=
  match o with
  | Create n d => name_fits n ∧ zlen d < 4294967296
  | Touch n | Stat n => name_fits n
  | Write n off bs => name_fits n ∧ 0 <= off < 4294967296 ∧ zlen bs < 2147483648
  | Read n off count => name_fits n ∧ 0 <= off < 4294967296 ∧ 0 <= count < 2147483648
  end.

Lemma path_cstr n : name_fits n → cstr (n ++ [0]) = Some n.
Proof. intros [Hn _]. by apply cstr_app. Qed.

Lemma name_fits_trunc n : name_fits n → trunc MAX_FILENAME_LEN n = n.
Proof. intros [_ Hn]. unfold trunc, MAX_FILENAME_LEN. by apply take_ge. Qed.

(** File [n] is in slot [i]; a file never moves. *)
Definition slot (r : ramfs_t) (i : nat) (n : list Z) : Prop :=
  ∃ f, files r !! i = Some f ∧ Used f ∧ str (name f) = n.
Definition keeps_slots (r r' : ramfs_t) : Prop := ∀ i n, slot r i n → slot r' i n.
Lemma keeps_slots_refl r : keeps_slots r r.
Proof. by intros i n. Qed.
#[local] Hint Resolve keeps_slots_refl : core.

Lemma updated_slots r i f f' m :
  files r !! i = Some f → ¬ Used f ∨ Used f' ∧ str (name f') = str (name f) → keeps_slots r (updated r i f' m).
Proof.
  intros Hi Hf j n (g & Hj & Hg & Hn). unfold slot. setoid_rewrite (updated_lookup r i f f' m Hi).
  destruct (decide (j = i)) as [->|Hne]; [|exists g; by auto]. rewrite Hi in Hj. injection Hj as ->.
  destruct Hf as [|[Hu Hs]]; [done|]. exists f'. split; [by left|]. split; [done|]. by rewrite Hs.
Qed.

Section operations.
Context (r : ramfs_t) (fs : gmap (list Z) (list Z)) (Hrep : rep r fs).

Lemma data_mem : file_data r = Some (data_of r).
Proof. destruct (ok_data r (rep_ok _ _ Hrep)) as [m Hm]. unfold data_of. by rewrite Hm. Qed.

Lemma slot_range i f : files r !! i = Some f → (i < 64)%nat.
Proof. intros Hi%lookup_lt_Some. pose proof (ok_length r (rep_ok _ _ Hrep)) as Hl. unfold MAX_FILES in Hl. lia. Qed.

Lemma create_refines nm n src sz :
  cstr nm = Some n → name_fits n → 0 <= sz <= zlen src →
  let d := take (Z.to_nat sz) src in
  ∃ r', ramfs_create_file (Some nm) (Some src) sz (Some r) = Some ((spec_create n d fs).1.1, Some r') ∧
    rep r' (spec_create n d fs).2 ∧ keeps_slots r r'.
Proof.
  intros Hnm Hn Hsz d. assert (zlen d = sz) as Hd by by apply zlen_take.
  assert (take (Z.to_nat (zlen d)) src = d) as Etake by by rewrite Hd. clearbody d. subst sz.
  unfold ramfs_create_file, spec_create.
  destruct (Z.ltb_spec MAX_FILE_SIZE (zlen d)) as [|Hle]; [by exists r|]. cbn [orb].
  destruct (find_cases r fs Hrep _ _ Hnm) as [[Hnone ->]|(i & f & -> & _ & _ & _ & Hsome)];
    cbn [mbind option_bind]; [|rewrite Hsome, bool_decide_true by done; by exists r].
  rewrite Hnone, bool_decide_false by by intros []. cbn [orb].
  destruct (free_cases r fs Hrep) as [[Hfull ->]|(Hlt & i & f & -> & Hi & Hfree & Hi64)].
  { rewrite bool_decide_true by lia. by exists r. }
  rewrite bool_decide_false by lia. rewrite Hi. cbn [mbind option_bind].
  pose proof (proj1 (Forall_lookup _ _) (ok_names r (rep_ok _ _ Hrep)) i f Hi) as [Hlen _].
  destruct (copy_name_ok (name f) nm n MAX_FILENAME_LEN Hnm) as (fname & -> & Hok & Hstr);
    [unfold MAX_FILENAME_LEN; lia|done|]. cbn [mbind option_bind]. rewrite (name_fits_trunc n Hn) in Hstr.
  rewrite u32_id by (unfold MAX_FILE_SIZE; lia).
  set (f' := {| name := fname; size := zlen d; data := Z.of_nat i * MAX_FILE_SIZE; in_use := 1; mode := 420 |}).
  assert (∀ m, (∀ x, x < Z.of_nat i * MAX_FILE_SIZE ∨ (Z.of_nat i + 1) * MAX_FILE_SIZE <= x → m x = data_of r x) →
            contents m f' = d → rep (updated r i f' m) (<[n := d]> fs) ∧ keeps_slots r (updated r i f' m)) as Hnew.
  { intros m Hm Hc. split; [|apply updated_slots with f; [done|by left]]. pose proof (updated_rep r fs i f f' m) as H. rewrite Hc in H. cbn [name f'] in H.
    rewrite Hstr in H. apply H; try done; [|by right]. cbn. split; [unfold zlen; lia|done]. }
  destruct (Z.ltb_spec 0 (zlen d)) as [Hpos|Hzero].
  - unfold store_data. cbn [file_data set_files]. rewrite data_mem. cbn [mbind option_bind].
    rewrite mem_store_Some by (unfold MAX_FILE_SIZE, FILE_DATA_SIZE in *; lia). cbn [mbind option_bind].
    eexists. split; [done|].
    rewrite Etake.
    apply Hnew.
    + intros x Hx. apply mem_write_out. unfold MAX_FILE_SIZE in *. lia.
    + apply mem_read_write_same.
  - destruct d as [|x d'] eqn:Ed; [|unfold zlen in Hzero; cbn in Hzero; lia]. clear Ed.
    eexists. split; [done|]. pose proof (Hnew (data_of r) (λ _ _, eq_refl) eq_refl) as H.
    unfold updated, set_data, set_files in *. cbn in *. by rewrite data_mem.
Qed.

Lemma inode_ok i : (i < 64)%nat → bad_inode (Z.of_nat i + 1) = false ∧ (Z.of_nat i + 1 <? 0) = false.
Proof. intros Hi. unfold bad_inode, MAX_FILES. zcases; cbn; done || lia. Qed.

(** What is in a slot *)
Lemma slot_contents i n :
  slot r i n → ∃ f, files r !! i = Some f ∧ Used f ∧ str (name f) = n ∧ (i < 64)%nat ∧
    fs !! n = Some (contents (data_of r) f) ∧ data f = Z.of_nat i * MAX_FILE_SIZE ∧ 0 <= size f <= MAX_FILE_SIZE.
Proof.
  intros (f & Hf & Hu & Hn). exists f. split; [done|]. split; [done|]. split; [done|]. split; [by eapply slot_range|].
  split; [apply (rep_files _ _ Hrep); by exists i, f|]. by eapply (ok_slots r (rep_ok _ _ Hrep)).
Qed.

(** [ramfs_open]: the slot of the file, made if the flags ask for it. *)
Lemma open_existing nm n c flags :
  cstr nm = Some n → fs !! n = Some c →
  ∃ i, ramfs_open (Some nm) flags (Some r) = Some (Z.of_nat i + 1, Some r) ∧ slot r i n.
Proof.
  intros Hnm Hc. destruct (find_cases r fs Hrep _ _ Hnm) as [[Hnone _]|(i & f & E & Hi & Hu & Hs & _)]; [congruence|].
  exists i. unfold ramfs_open. rewrite E. cbn [mbind option_bind]. split; [done|]. by exists f.
Qed.

Lemma open_missing nm n flags :
  cstr nm = Some n → fs !! n = None → Z.land flags O_CREAT = 0 → ramfs_open (Some nm) flags (Some r) = Some (-1, Some r).
Proof.
  intros Hnm Hnone Hfl. destruct (find_cases r fs Hrep _ _ Hnm) as [[_ E]|(i & f & _ & _ & _ & _ & Hc)]; [|congruence].
  unfold ramfs_open. rewrite E. cbn [mbind option_bind]. by rewrite Hfl.
Qed.
End operations.

Lemma open_create r fs nm n flags :
  rep r fs → cstr nm = Some n → name_fits n → fs !! n = None → Z.land flags O_CREAT ≠ 0 →
  ∃ r', rep r' (spec_create n [] fs).2 ∧ keeps_slots r r' ∧
    ((spec_create n [] fs).1.1 = 0 ∧
       (∃ i, ramfs_open (Some nm) flags (Some r) = Some (Z.of_nat i + 1, Some r') ∧ slot r' i n) ∨
     (spec_create n [] fs).1.1 = -1 ∧ ramfs_open (Some nm) flags (Some r) = Some (-1, Some r')).
Proof.
  intros Hrep Hnm Hn Hnone Hfl. destruct (create_refines r fs Hrep nm n [] 0 Hnm Hn ltac:(done)) as (r' & E & Hrep' & Hk).
  assert (ramfs_create_file (Some nm) None 0 (Some r) = ramfs_create_file (Some nm) (Some []) 0 (Some r)) as Ec by reflexivity.
  exists r'. change (take _ []) with (@nil Z) in *. split; [done|]. split; [done|].
  destruct (find_cases r fs Hrep _ _ Hnm) as [[_ Ef]|(i & f & _ & _ & _ & _ & Hc)]; [|congruence].
  unfold ramfs_open. rewrite Ef. cbn [mbind option_bind]. destruct (Z.eqb_spec (Z.land flags O_CREAT) 0); [done|].
  cbn [negb]. rewrite Ec, E. cbn [mbind option_bind]. unfold spec_create in *.
  destruct (_ || _); cbn [fst snd] in *; [by right|left]. split; [done|].
  destruct (find_cases r' _ Hrep' _ _ Hnm) as [[Hn' _]|(i & f & E2 & Hi & Hu & Hs & _)].
  { by rewrite lookup_insert_eq in Hn'. }
  exists i. change (0 =? 0) with true. rewrite E2. cbn [mbind option_bind]. split; [done|]. by exists f.
Qed.

Section operations.
Context (r : ramfs_t) (fs : gmap (list Z) (list Z)) (Hrep : rep r fs).

Lemma touch_refines n :
  name_fits n →
  ∃ res r', ramfs_step (Touch n) (Some r) = Some (res, [], Some r') ∧
    ∃ fs', spec_step (Touch n) fs = Some (res, [], fs') ∧ rep r' fs'.
Proof.
  intros Hn. cbn [ramfs_step spec_step]. unfold path. pose proof (path_cstr n Hn) as Hp.
  destruct (fs !! n) as [c|] eqn:Hc.
  - destruct (open_existing r fs Hrep _ n c O_CREAT Hp Hc) as (i & -> & f & Hi & _). apply (slot_range r fs Hrep) in Hi.
    cbn [mbind option_bind]. destruct (inode_ok i Hi) as [_ ->]. eexists _, r. split; [done|]. by exists fs.
  - destruct (open_create r fs _ n O_CREAT Hrep Hp Hn Hc ltac:(done)) as (r' & Hrep' & _ & H).
    unfold spec_create in *. destruct H as [(H0 & i & -> & f & Hi & _)|[H1 ->]]; destruct (_ || _); try done; cbn [fst snd mbind option_bind] in *.
    + apply (slot_range r' _ Hrep') in Hi. destruct (inode_ok i Hi) as [_ ->]. eexists _, r'. split; [done|]. by eexists.
    + eexists _, r'. split; [done|]. by exists fs.
Qed.

(** Reading and writing by inode *)
Lemma read_slot i n c buf off count :
  slot r i n → fs !! n = Some c → 0 <= off < 4294967296 → 0 <= count < 2147483648 → count <= zlen buf →
  let bs := take (Z.to_nat count) (drop (Z.to_nat off) c) in
  ramfs_read (Z.of_nat i + 1) (Some buf) count off (Some r) = Some (zlen bs, Some (bs ++ drop (length bs) buf)).
Proof.
  intros Hsl Hc Ho Hcount Hbuf bs. destruct (slot_contents r fs Hrep i n Hsl) as (f & Hf & Hu & _ & Hi & Hcont & Hd & Hs).
  rewrite Hc in Hcont. injection Hcont as Hcont. destruct (inode_ok i Hi) as [Hb _]. unfold ramfs_read. rewrite Hb.
  replace (Z.of_nat i + 1 - 1) with (Z.of_nat i) by lia. rewrite zget_nat, Hf. cbn [mbind option_bind].
  unfold Used in Hu. rewrite Hu. cbn [negb]. unfold contents in Hcont.
  pose proof (mem_read_length (data_of r) (data f) (size f) ltac:(lia)) as Hlen.
  unfold MAX_FILE_SIZE in *. destruct (Z.leb_spec (size f) off) as [Hge|Hlt].
  { unfold bs. rewrite Hcont, (drop_ge (mem_read _ _ _)) by (unfold zlen in *; lia). by rewrite take_nil. }
  rewrite (u32_id (off + count)) by lia. rewrite (data_mem r fs Hrep). cbn [mbind option_bind].
  set (k := if size f <? off + count then size f -u off else count).
  assert (0 <= k ∧ k = Z.min count (size f - off)) as [Hk0 Hk].
  { unfold k. destruct (Z.ltb_spec (size f) (off + count)); [rewrite u32_id|]; lia. }
  rewrite mem_load_Some by (unfold FILE_DATA_SIZE; lia). cbn [mbind option_bind].
  rewrite s32_id by lia. pose proof (mem_read_length (data_of r) (data f + off) k Hk0) as Hlk.
  assert (bs = mem_read (data_of r) (data f + off) k) as ->.
  { unfold bs. rewrite Hcont, mem_read_drop by lia. destruct (Z.le_gt_cases count (size f - off)) as [Hle|Hgt].
    - rewrite mem_read_take by lia. f_equal. lia.
    - rewrite take_ge; [f_equal; lia|]. pose proof (mem_read_length (data_of r) (data f + off) (size f - off)).
      unfold zlen in *. lia. }
  rewrite Hlk. unfold zlen in Hlk. by replace (Z.to_nat k) with (length (mem_read (data_of r) (data f + off) k)) by lia.
Qed.

(** The contents after a write at [off] of the bytes that fit *)
Definition fitting (off : Z) (bs : list Z) : list Z := take (Z.to_nat (MAX_FILE_SIZE - off)) bs.
Definition overwrite (off : Z) (bs c : list Z) : list Z :=
  take (Z.to_nat off) c ++ bs ++ drop (Z.to_nat (off + zlen bs)) c.

Lemma read_refines n off count :
  op_ok (Read n off count) →
  ∃ res bs, ramfs_step (Read n off count) (Some r) = Some (res, bs, Some r) ∧
    spec_step (Read n off count) fs = Some (res, bs, fs).
Proof.
  intros (Hn & Ho & Hc). cbn [ramfs_step spec_step]. unfold path. pose proof (path_cstr n Hn) as Hp.
  destruct (fs !! n) as [c|] eqn:Hcont; [|rewrite (open_missing r fs Hrep _ n 0 Hp Hcont) by done; by eexists _, _].
  destruct (open_existing r fs Hrep _ n c 0 Hp Hcont) as (i & -> & Hs). cbn [mbind option_bind].
  destruct (slot_contents r fs Hrep i n Hs) as (_ & _ & _ & _ & Hi & _). destruct (inode_ok i Hi) as [_ ->].
  rewrite (read_slot i n c) by (done || unfold zlen; rewrite ?length_replicate; lia). cbn [mbind option_bind default]. unfold id.
  replace (Z.to_nat (zlen _)) with (length (take (Z.to_nat count) (drop (Z.to_nat off) c))) by (unfold zlen; lia).
  rewrite take_app_length. by eexists _, _.
Qed.

Lemma stat_refines n :
  name_fits n →
  ∃ res, ramfs_step (Stat n) (Some r) = Some (res, [], Some r) ∧ spec_step (Stat n) fs = Some (res, [], fs).
Proof.
  intros Hn. cbn [ramfs_step spec_step]. unfold ramfs_stat, path. cbn [negb].
  destruct (find_cases r fs Hrep _ _ (path_cstr n Hn)) as [[Hnone ->]|(i & f & -> & Hi & Hu & _ & Hc)];
    cbn [mbind option_bind].
  - rewrite Hnone. by eexists.
  - rewrite Hi, Hc. cbn [mbind option_bind]. eexists. split; [done|]. unfold contents.
    rewrite mem_read_length; [done|]. by apply (ok_slots r (rep_ok _ _ Hrep) i f).
Qed.

Lemma write_slot i n c off bs :
  slot r i n → fs !! n = Some c → 0 <= off < MAX_FILE_SIZE → off <= zlen c → zlen bs < 2147483648 →
  ∃ r', ramfs_write (Z.of_nat i + 1) (Some bs) (zlen bs) off (Some r) = Some (zlen (fitting off bs), Some r') ∧
    rep r' (<[n := overwrite off (fitting off bs) c]> fs) ∧ keeps_slots r r'.
Proof.
  intros Hsl Hc Ho Hgap Hb. destruct (slot_contents r fs Hrep i n Hsl) as (f & Hf & Hu & Hname & Hi & Hcont & Hd & Hs).
  rewrite Hc in Hcont. injection Hcont as Hcont. destruct (inode_ok i Hi) as [Hbad _]. unfold ramfs_write. rewrite Hbad.
  replace (Z.of_nat i + 1 - 1) with (Z.of_nat i) by lia. rewrite zget_nat, Hf. cbn [mbind option_bind].
  pose proof Hu as Hu'. unfold Used in Hu'. rewrite Hu'. cbn [negb].
  destruct (Z.leb_spec MAX_FILE_SIZE off) as [|Hoff]; [lia|].
  rewrite Hcont in Hgap. unfold contents in Hgap. rewrite mem_read_length in Hgap by lia. unfold fitting.
  set (k := take (Z.to_nat (MAX_FILE_SIZE - off)) bs).
  assert (zlen k = Z.min (MAX_FILE_SIZE - off) (zlen bs)) as Hk.
  { unfold k, zlen. rewrite length_take. unfold MAX_FILE_SIZE in *. lia. }
  assert ((if MAX_FILE_SIZE <? off +u zlen bs then MAX_FILE_SIZE -u off else zlen bs) = zlen k) as ->.
  { assert (0 <= zlen bs) by (unfold zlen; lia). unfold MAX_FILE_SIZE in *.
    rewrite (u32_id (off + zlen bs)) by lia.
    destruct (Z.ltb_spec 4096 (off + zlen bs)); [rewrite u32_id|]; lia. }
  assert (0 <= zlen k <= MAX_FILE_SIZE) by (unfold zlen in *; unfold MAX_FILE_SIZE in *; lia).
  unfold store_data. rewrite (data_mem r fs Hrep). cbn [mbind option_bind].
  rewrite mem_store_Some by (unfold MAX_FILE_SIZE, FILE_DATA_SIZE in *; lia). cbn [mbind option_bind].
  assert (take (Z.to_nat (zlen k)) bs = k) as ->.
  { unfold k, zlen. rewrite Nat2Z.id, length_take. destruct (Nat.le_ge_cases (Z.to_nat (MAX_FILE_SIZE - off)) (length bs)).
    - by rewrite Nat.min_l. - rewrite Nat.min_r by done. by rewrite !take_ge. }
  rewrite (u32_id (off + zlen k)), (s32_id (zlen k)) by (unfold MAX_FILE_SIZE in *; lia).
  set (f' := set_size (Z.max (size f) (off + zlen k)) f). set (m := mem_write (data_of r) (data f + off) k).
  assert ((if size f <? off + zlen k then zset (files r) (Z.of_nat i) (set_size (off + zlen k) f) else Some (files r)) =
          Some (<[i := f']> (files r))) as E.
  { unfold f'. destruct (Z.ltb_spec (size f) (off + zlen k)).
    - rewrite zset_in, Nat2Z.id, Z.max_r by (apply lookup_lt_Some in Hf; unfold zlen in *; lia). done.
    - rewrite Z.max_l by lia. rewrite list_insert_id; [done|]. rewrite Hf. by destruct f. }
  cbn [files set_data]. rewrite E. cbn [mbind option_bind].
  exists (updated r i f' m). split; [done|]. split; [|apply updated_slots with f; [done|right; by split]].
  pose proof (updated_rep r fs i f f' m) as H'. unfold contents in H'. cbn [name f' set_size data size] in H'.
  unfold m in H' at 3. rewrite mem_read_splice, Hname in H' by lia. rewrite Hcont. apply H'; try done.
  - unfold MAX_FILE_SIZE in *. lia.
  - by apply (Forall_lookup_1 _ _ _ _ (ok_names r (rep_ok _ _ Hrep)) Hf).
  - intros x Hx. unfold m. apply mem_write_out. unfold MAX_FILE_SIZE in *. lia.
  - by left.
Qed.

Lemma write_slot_past i n c off bs :
  slot r i n → fs !! n = Some c → MAX_FILE_SIZE <= off →
  ramfs_write (Z.of_nat i + 1) (Some bs) (zlen bs) off (Some r) = Some (-1, Some r).
Proof.
  intros Hsl Hc Ho. destruct (slot_contents r fs Hrep i n Hsl) as (f & Hf & Hu & _ & Hi & _).
  destruct (inode_ok i Hi) as [Hbad _]. unfold ramfs_write. rewrite Hbad.
  replace (Z.of_nat i + 1 - 1) with (Z.of_nat i) by lia. rewrite zget_nat, Hf. cbn [mbind option_bind].
  unfold Used in Hu. rewrite Hu. cbn [negb]. destruct (Z.leb_spec MAX_FILE_SIZE off); [done|lia].
Qed.

Lemma write_refines n off bs fs' res out :
  op_ok (Write n off bs) → spec_step (Write n off bs) fs = Some (res, out, fs') →
  ∃ r', ramfs_step (Write n off bs) (Some r) = Some (res, out, Some r') ∧ rep r' fs'.
Proof.
  intros (Hn & Ho & Hb). cbn [ramfs_step spec_step]. unfold path. pose proof (path_cstr n Hn) as Hp.
  destruct (fs !! n) as [c|] eqn:Hc.
  2: { rewrite (open_missing r fs Hrep _ n 0 Hp Hc) by done. intros [= <- <- <-]. by exists r. }
  destruct (open_existing r fs Hrep _ n c 0 Hp Hc) as (i & -> & Hs). cbn [mbind option_bind].
  destruct (slot_contents r fs Hrep i n Hs) as (_ & _ & _ & _ & Hi & _). destruct (inode_ok i Hi) as [_ ->].
  destruct (Z.leb_spec MAX_FILE_SIZE off) as [Hpast|Hoff].
  { rewrite (write_slot_past i n c) by done. intros [= <- <- <-]. by exists r. }
  destruct (Z.ltb_spec (zlen c) off) as [|Hgap]; [done|]. intros [= <- <- <-].
  destruct (write_slot i n c off bs) as (r' & -> & Hr & _); try done || lia. by exists r'.
Qed.

Lemma step_refines o fs' res out :
  op_ok o → spec_step o fs = Some (res, out, fs') →
  ∃ r', ramfs_step o (Some r) = Some (res, out, Some r') ∧ rep r' fs'.
Proof.
  intros Ho Hs. destruct o as [n d|n|n off bs|n off count|n].
  - destruct Ho as [Hn Hd]. destruct (create_refines r fs Hrep _ n d (zlen d) (path_cstr n Hn) Hn) as (r' & E & Hr & _); [unfold zlen; lia|].
    unfold zlen in E, Hr. rewrite Nat2Z.id, firstn_all in E, Hr. injection Hs as Hs. rewrite Hs in E, Hr.
    cbn [ramfs_step]. unfold zlen, path. rewrite E. cbn. exists r'.
    assert (out = []) as ->; [|done]. unfold spec_create in Hs. by destruct (_ || _); injection Hs as _ <- _.
  - destruct (touch_refines n Ho) as (res' & r' & E & fs'' & Hs' & Hr). rewrite Hs in Hs'.
    injection Hs' as -> -> ->. by exists r'.
  - by apply write_refines.
  - destruct (read_refines n off count Ho) as (res' & bs & E & Hs'). rewrite Hs in Hs'.
    injection Hs' as -> -> ->. by exists r.
  - destruct (stat_refines n Ho) as (res' & E & Hs'). rewrite Hs in Hs'. injection Hs' as -> -> ->. by exists r.
Qed.
End operations.

Fixpoint run (ops : list ramfs_op) (p : ramfs_ptr) : option (list (Z * list Z) * ramfs_ptr) :=
  match ops with
  | [] => Some ([], p)
  | o :: ops => '(res, out, p) ← ramfs_step o p; '(rs, p) ← run ops p; Some ((res, out) :: rs, p)
  end.
Fixpoint spec_run (ops : list ramfs_op) (fs : gmap (list Z) (list Z)) : option (list (Z * list Z)) :=
  match ops with
  | [] => Some []
  | o :: ops => '(res, out, fs) ← spec_step o fs; rs ← spec_run ops fs; Some ((res, out) :: rs)
  end.

Lemma run_refines ops r fs rs :
  rep r fs → Forall op_ok ops → spec_run ops fs = Some rs → ∃ r', run ops (Some r) = Some (rs, Some r').
Proof.
  intros Hrep Hops. revert r fs rs Hrep. induction Hops as [|o ops Ho _ IH]; intros r fs rs Hrep Hs.
  { injection Hs as <-. by exists r. }
  cbn [spec_run] in Hs. destruct (spec_step o fs) as [[[res out] fs']|] eqn:E; [|done].
  cbn [mbind option_bind] in Hs. destruct (spec_run ops fs') as [rs'|] eqn:E'; [|done]. injection Hs as <-.
  destruct (step_refines r fs Hrep o fs' res out Ho E) as (r1 & E1 & Hrep1). cbn [run]. rewrite E1.
  cbn [mbind option_bind]. destruct (IH r1 fs' rs' Hrep1 E') as (r' & ->). by exists r'.
Qed.

(** ** The file system [ramfs_format] makes *)
Definition initial_files : gmap (list Z) (list Z) :=
  <[bytes_of_string "readme.txt" := lit "This is a RAM-based filesystem.
"]> (<[bytes_of_string "kernel.txt" := bytes_of_string "Minimalist OS Kernel v1.0
"]> (<[bytes_of_string "hello.txt" := bytes_of_string "Hello, World!
"]> ∅)).

(** The two blocks as [kmalloc] returns them, whatever they contain. *)
Definition block_ok (r : ramfs_t) : Prop :=
  length (files r) = MAX_FILES ∧ Forall (λ f, length (name f) = MAX_FILENAME_LEN) (files r) ∧ is_Some (file_data r).

Lemma clear_file_ok f :
  length (name f) = MAX_FILENAME_LEN →
  ∃ g, clear_file f = Some g ∧ name_ok MAX_FILENAME_LEN (name g) ∧ ¬ Used g.
Proof.
  intros Hf. unfold clear_file. destruct f as [[|x n] s d u mo]; [done|]. cbn [name] in *.
  eexists. split; [reflexivity|]. split; [|done]. split; [done|]. by eexists.
Qed.

Lemma clear_files l :
  Forall (λ f, length (name f) = MAX_FILENAME_LEN) l →
  ∃ fs, mapM clear_file l = Some fs ∧ length fs = length l ∧
    Forall (λ f, name_ok MAX_FILENAME_LEN (name f) ∧ ¬ Used f) fs.
Proof.
  intros Hl. destruct (mapM_is_Some_2 clear_file l) as [fs E].
  { eapply List.Forall_impl; [|exact Hl]. intros f Hf. destruct (clear_file_ok f Hf) as (g & E & _). by exists g. }
  exists fs. split; [done|]. apply mapM_Some_1 in E. split; [symmetry; by eapply Forall2_length|].
  clear -E Hl. induction E as [|f g l fs Hg _ IH]; [constructor|]. inversion Hl; subst. constructor; [|by apply IH].
  destruct (clear_file_ok f) as (g' & Hg' & H'); [done|]. congruence.
Qed.

Lemma cleared_rep r fs :
  length fs = length (files r) → block_ok r → Forall (λ f, name_ok MAX_FILENAME_LEN (name f) ∧ ¬ Used f) fs →
  rep {| magic := RAMFS_MAGIC; files := fs; file_data := file_data r |} ∅.
Proof.
  intros Hl (Hr & _ & Hd) Hfs.
  assert (∀ i f, fs !! i = Some f → ¬ Used f) as Hu by (intros i f Hf; by apply (Forall_lookup_1 _ _ _ _ Hfs Hf)).
  split.
  - split; cbn [files file_data]; [congruence| | | |done].
    + eapply List.Forall_impl; [|exact Hfs]. by intros f [? _].
    + intros i f Hf Huf. by destruct (Hu i f Hf).
    + intros i j f g Hf _ Huf. by destruct (Hu i f Hf).
  - intros n c. rewrite lookup_empty. split; [done|]. intros (i & f & Hf & Huf & _). by destruct (Hu i f Hf).
  - cbn [files]. rewrite map_size_empty. symmetry. rewrite filter_none; [done|].
    intros f [i Hf]%list_elem_of_lookup. by eapply Hu.
Qed.


Lemma format_rep r :
  block_ok r → ∃ r', ramfs_format r = Some (Some r') ∧ rep r' initial_files.
Proof.
  intros Hr. destruct (clear_files (files r)) as (fs & E & Hl & Hfs); [apply Hr|].
  pose proof (cleared_rep r fs Hl Hr Hfs) as H0. unfold ramfs_format. rewrite E. cbn [mbind option_bind]. clear E.
  destruct (create_refines _ _ H0 (lit "hello.txt") (bytes_of_string "hello.txt") (lit "Hello, World!
") 14 eq_refl) as (r1 & E1 & H1 & _);
    [apply (bool_decide_unpack _); vm_compute; exact I|done|].
  destruct (create_refines _ _ H1 (lit "kernel.txt") (bytes_of_string "kernel.txt") (lit "Minimalist OS Kernel v1.0
") 26 eq_refl) as (r2 & E2 & H2 & _);
    [apply (bool_decide_unpack _); vm_compute; exact I|done|].
  destruct (create_refines _ _ H2 (lit "readme.txt") (bytes_of_string "readme.txt") (lit "This is a RAM-based filesystem.
") 33 eq_refl) as (r3 & E3 & H3 & _);
    [apply (bool_decide_unpack _); vm_compute; exact I|done|].
  rewrite E1. cbn [mbind option_bind]. rewrite E2. cbn [mbind option_bind]. rewrite E3. cbn [mbind option_bind].
  exists r3. split; [reflexivity|]. clear E1 E2 E3.
  assert ((spec_create (bytes_of_string "readme.txt") (take (Z.to_nat 33) (lit "This is a RAM-based filesystem.
")) (spec_create (bytes_of_string "kernel.txt") (take (Z.to_nat 26) (lit "Minimalist OS Kernel v1.0
")) (spec_create (bytes_of_string "hello.txt") (take (Z.to_nat 14) (lit "Hello, World!
")) ∅).2).2).2 = initial_files) as <- by (vm_compute; reflexivity). exact H3.
Qed.

(** C4. The RAM file system is a map from names to contents: once
    [ramfs_format] has made the initial files (whatever the two heap blocks
    contained), every sequence of creations, opens with O_CREAT, writes,
    reads and stats by name - with names of up to 255 characters, writes that
    do not start past the end of the file, and no wrap of offset plus length
    - returns what a map of at most 64 files of at most 4096 bytes returns.
    In particular what is written is read back, no operation disturbs
    another file, and no access leaves the data block. *)
Theorem ramfs_refines_map (ops : list ramfs_op) (r : ramfs_t) (rs : list (Z * list Z)) :
  block_ok r → Forall op_ok ops → spec_run ops initial_files = Some rs →
  ∃ p p', ramfs_format r = Some p ∧ run ops p = Some (rs, p').
Proof.
  intros Hr Hops Hs. destruct (format_rep r Hr) as (r1 & E & Hrep).
  destruct (run_refines ops r1 initial_files rs Hrep Hops Hs) as (r2 & E2).
  exists (Some r1), (Some r2). split; [exact E|exact E2].
Qed.

Definition zero_file : ramfs_file_t :=
  {| name := replicate 256 0; size := 0; data := 0; in_use := 0; mode := 0 |}.
(** A block of zeros, as the heap is before anything is written to it *)
Definition zero_block : ramfs_t :=
  {| magic := 0; files := replicate 64 zero_file; file_data := None |}.

Definition demo_ops : list ramfs_op :=
  [Create [97] [1; 2; 3]; Write [97] 1 [7; 8; 9]; Read [97] 0 10; Touch [98]; Create [98] [4];
   Stat (bytes_of_string "readme.txt"); Read [99] 0 1].

Lemma ramfs_refines_map_witness :
  ∃ p p', ramfs_format (set_data (Some mem_zero) zero_block) = Some p ∧
    run demo_ops p = Some ([(0, []); (3, []); (4, [1; 7; 8; 9]); (0, []); (-1, []); (33, []); (-1, [])], p').
Proof.
  apply (ramfs_refines_map demo_ops (set_data (Some mem_zero) zero_block)).
  - split; [reflexivity|]. split; [by apply Forall_replicate|]. by eexists.
  - repeat (constructor; [apply (bool_decide_unpack _); vm_compute; exact I|]). constructor.
  - vm_compute. reflexivity.
Defined.

(** ** What [ramfs_mount] does in this kernel *)
Lemma find_none_zero nm n :
  cstr nm = Some n → ramfs_find_file (Some nm) (Some (set_data None zero_block)) = Some None.
Proof. intros _. reflexivity. Qed.

(** With the 32 KiB kernel heap [ramfs_mount] never succeeds: the 256 KiB
    of file data cannot be allocated, so it returns -1.  When the 17416 bytes
    of the structure could be allocated the pointer stays set, though: a
    second mount reports success, and creating any non-empty file then
    copies its data through a NULL pointer. *)
Theorem ramfs_mount_fails (fresh_data : mem) (k : memory_state) :
  0 <= heap_pos k <= HEAP_SIZE →
  ∃ p k', ramfs_mount zero_block fresh_data None k = Some (-1, p, k') ∧
    (HEAP_SIZE < heap_pos k + SIZEOF_RAMFS → p = None) ∧
    (heap_pos k + SIZEOF_RAMFS <= HEAP_SIZE →
     ramfs_mount zero_block fresh_data p k' = Some (1, p, k') ∧
     ∀ n d, name_fits n → 0 < zlen d <= MAX_FILE_SIZE → ramfs_create_file (path n) (Some d) (zlen d) p = UB).
Proof.
  intros Hk. unfold ramfs_mount, ramfs_init, kmalloc, SIZEOF_RAMFS, FILE_DATA_SIZE, HEAP_SIZE in *.
  rewrite (u32_id (heap_pos k + 17416)) by lia. destruct (Z.ltb_spec 0x8000 (heap_pos k + 17416)) as [Hlt|Hge].
  { exists None, k. split; [done|]. split; [done|]. lia. }
  change (Z.land (17416 +u 3) (~u 3)) with 17416. cbn [set_heap heap_pos].
  rewrite (u32_id (heap_pos k + 17416)) by lia. rewrite (u32_id (heap_pos k + 17416 + 262144)) by lia.
  destruct (Z.ltb_spec 0x8000 (heap_pos k + 17416 + 262144)); [|lia].
  eexists _, _. split; [reflexivity|]. split; [lia|]. intros _. split; [reflexivity|].
  intros n d Hn [Hpos Hmax]. unfold ramfs_create_file, path.
  destruct (Z.ltb_spec MAX_FILE_SIZE (zlen d)); [lia|]. rewrite (find_none_zero _ n) by by apply path_cstr.
  cbn [mbind option_bind]. change (ramfs_find_free_slot _) with (Some 0%nat). cbv beta iota.
  change (files _ !! 0%nat) with (Some zero_file). cbn [mbind option_bind].
  destruct (copy_name_ok (name zero_file) (n ++ [0]) n MAX_FILENAME_LEN (path_cstr n Hn)) as (fname & -> & _);
    [unfold MAX_FILENAME_LEN; lia|reflexivity|]. cbn [mbind option_bind].
  destruct (Z.ltb_spec 0 (zlen d)); [|lia]. reflexivity.
Qed.

Lemma ramfs_mount_fails_witness :
  ∃ p k', ramfs_mount zero_block mem_zero None memory_bss = Some (-1, p, k') ∧
    (HEAP_SIZE < heap_pos memory_bss + SIZEOF_RAMFS → p = None) ∧
    (heap_pos memory_bss + SIZEOF_RAMFS <= HEAP_SIZE →
     ramfs_mount zero_block mem_zero p k' = Some (1, p, k') ∧
     ∀ n d, name_fits n → 0 < zlen d <= MAX_FILE_SIZE → ramfs_create_file (path n) (Some d) (zlen d) p = UB).
Proof. apply (ramfs_mount_fails mem_zero memory_bss). cbn. unfold HEAP_SIZE. lia. Defined.

(** The clipping test of [ramfs_write] wraps: a length near 2^32 at a
    positive offset is copied as it is. *)
Lemma ramfs_write_wraps r fs i f buf off count :
  rep r fs → files r !! i = Some f → Used f → 0 < off < MAX_FILE_SIZE →
  4294967296 - off <= count < 4294967296 →
  ramfs_write (Z.of_nat i + 1) (Some buf) count off (Some r) = UB.
Proof.
  intros Hrep Hf Hu Ho Hc. pose proof (slot_range r fs Hrep i f Hf) as Hi. destruct (inode_ok i Hi) as [Hbad _].
  destruct (ok_slots r (rep_ok _ _ Hrep) i f Hf Hu) as [Hd _].
  unfold ramfs_write. rewrite Hbad. replace (Z.of_nat i + 1 - 1) with (Z.of_nat i) by lia.
  rewrite zget_nat, Hf. cbn [mbind option_bind]. unfold Used in Hu. rewrite Hu. cbn [negb].
  unfold MAX_FILE_SIZE in *. destruct (Z.leb_spec 4096 off); [lia|].
  destruct (Z.ltb_spec 4096 (off +u count)) as [Hlt|]; [unfold u32 in Hlt; Z.div_mod_to_equations; lia|].
  unfold store_data. rewrite (data_mem r fs Hrep). cbn [mbind option_bind].
  rewrite mem_store_overrun by (unfold FILE_DATA_SIZE; lia). done.
Qed.

End RamFs.
