(* ===== verification/Vfs.v ===== *)
(** * Vfs: the mount table and descriptors of fs/vfs.c

    The file is disabled by the preprocessor in favour of the descriptor table
    of VfsSimple; it is the layer that would connect the mounted file systems
    to descriptors.  A mounted file system is a record of functions on a state
    [B], NULL where the mount gave none.  Log and screen messages are not
    modelled.  [filesystem_t] lacks the [fs_id] member the functions use; the
    model has it. *)
From stdpp Require Import gmap.
From S2P Require Import Prelude CString Mem VfsSimple RamFs.

Module Vfs.

Definition MAX_OPEN_FILES : nat := 32.
Definition MAX_FILESYSTEMS : nat := 8.
Definition MAX_PATH_LEN : nat := 256.
#[global] Arguments MAX_OPEN_FILES : simpl never.
#[global] Arguments MAX_FILESYSTEMS : simpl never.
#[global] Arguments MAX_PATH_LEN : simpl never.

Record file_descriptor_t := {
  d_fs_id : Z;
  d_inode : Z;
  d_offset : Z;
  d_flags : Z;
  d_in_use : Z;
}.

Section vfs.
Context {B : Type}.

(** Results, and what is stored through a pointer argument; [None] stands for
    a NULL buffer, [false] for a NULL [stat]. *)
Definition read_func : Type := Z → option (list Z) → Z → Z → B → option (Z * option (list Z) * B).
Definition write_func : Type := Z → option (list Z) → Z → Z → B → option (Z * B).
Definition open_func : Type := list Z → Z → B → option (Z * B).
Definition close_func : Type := Z → B → option (Z * B).
Definition stat_func : Type := list Z → bool → B → option (Z * option (Z * Z * Z * Z) * B).

Record filesystem_t := {
  in_use : Z;
  fs_id : Z;
  mount_point : list Z;
  fs_data : Z;
  read : option read_func;
  write : option write_func;
  open : option open_func;
  close : option close_func;
  stat : option stat_func;
}.

Record vfs_state := {
  file_descriptors : list file_descriptor_t;
  filesystems : list filesystem_t;
  next_fs_id : Z;
}.

Definition set_fds (l : list file_descriptor_t) (s : vfs_state) : vfs_state :=
  {| file_descriptors := l; filesystems := filesystems s; next_fs_id := next_fs_id s |}.
Definition advance (n : Z) (d : file_descriptor_t) : file_descriptor_t :=
  {| d_fs_id := d_fs_id d; d_inode := d_inode d; d_offset := d_offset d +u n; d_flags := d_flags d; d_in_use := d_in_use d |}.
Definition release (d : file_descriptor_t) : file_descriptor_t :=
  {| d_fs_id := d_fs_id d; d_inode := d_inode d; d_offset := d_offset d; d_flags := d_flags d; d_in_use := 0 |}.

Definition free_fd : file_descriptor_t := {| d_fs_id := 0; d_inode := 0; d_offset := 0; d_flags := 0; d_in_use := 0 |}.

(** The body of the second loop; only the first byte of the name is cleared. *)
Definition clear_fs (f : filesystem_t) : option filesystem_t :=
  mp ← zset (mount_point f) 0 0;
  Some {| in_use := 0; fs_id := fs_id f; mount_point := mp; fs_data := 0;
          read := None; write := None; open := None; close := None; stat := None |}.

Definition vfs_init (s : vfs_state) : option vfs_state :=
  fs ← mapM clear_fs (filesystems s);
  Some {| file_descriptors := (λ _, free_fd) <$> file_descriptors s; filesystems := fs; next_fs_id := next_fs_id s |}.

Definition vfs_mount (mp : list Z) (data : Z) (rd : option read_func) (wr : option write_func) (op : option open_func)
    (cl : option close_func) (st : option stat_func) (s : vfs_state) : option (Z * vfs_state) :=
  match find_first (λ f, in_use f =? 0) (filesystems s) with
  | None => Some (-1, s)
  | Some slot =>
      f ← filesystems s !! slot;
      name ← copy_name (mount_point f) mp MAX_PATH_LEN;
      let id := next_fs_id s in
      let f := {| in_use := 1; fs_id := id; mount_point := name; fs_data := data;
                  read := rd; write := wr; open := op; close := cl; stat := st |} in
      Some (s32 id, {| file_descriptors := file_descriptors s; filesystems := <[slot := f]> (filesystems s);
                       next_fs_id := id +u 1 |})
  end.

(** The loop over the mount table: the best slot so far and the length of its
    mount point. *)
Fixpoint best_match (path : list Z) (l : list filesystem_t) (i : nat) (best : option nat * Z) : option (option nat * Z) :=
  match l with
  | [] => Some best
  | f :: l =>
      if negb (in_use f =? 0) then
        mount_len ← strlen (mount_point f);
        r ← strncmp path (mount_point f) (Z.to_nat mount_len);
        best_match path l (S i) (if (r =? 0) && (best.2 <? mount_len) then (Some i, mount_len) else best)
      else best_match path l (S i) best
  end.

(** The slot found, and the buffer [relative_path] after the call.  The copy
    of a string one place down within a buffer, byte by byte from the front,
    is [strcpy] from its tail. *)
Definition find_filesystem (path : list Z) (relative_path : option (list Z)) (s : vfs_state)
    : option (option nat * option (list Z)) :=
  '(best_fs, best_len) ← best_match path (filesystems s) 0 (None, 0);
  match best_fs, relative_path with
  | Some _, Some rel =>
      rel ← (if 0 <? best_len then
               rel ← strcpy rel (drop (Z.to_nat best_len) path);
               c ← rel.[0];
               if c =? 47 then strcpy rel (tail rel) else Some rel
             else strcpy rel path);
      Some (best_fs, Some rel)
  | _, _ => Some (best_fs, relative_path)
  end.

(** [stack] is what the local [relative_path] contains before it is set. *)
Definition vfs_open (stack : list Z) (path : list Z) (flags : Z) (s : vfs_state) (b : B) : option (Z * vfs_state * B) :=
  match find_first (λ d, d_in_use d =? 0) (file_descriptors s) with
  | None => Some (-1, s, b)
  | Some fd =>
      '(fs, rel) ← find_filesystem path (Some stack) s;
      match fs, rel with
      | Some i, Some relative_path =>
          f ← filesystems s !! i;
          op ← open f;
          '(inode, b) ← op relative_path flags b;
          if inode <? 0 then Some (-1, s, b)
          else
            let d := {| d_fs_id := fs_id f; d_inode := u32 inode; d_offset := 0; d_flags := u32 flags; d_in_use := 1 |} in
            Some (Z.of_nat fd, set_fds (<[fd := d]> (file_descriptors s)) s, b)
      | _, _ => Some (-1, s, b)
      end
  end.

(** [fd < 0 || fd >= MAX_OPEN_FILES || !file_descriptors[fd].in_use] fails *)
Definition open_fd (fd : Z) (s : vfs_state) : option (option file_descriptor_t) :=
  if (fd <? 0) || (Z.of_nat MAX_OPEN_FILES <=? fd) then Some None
  else d ← (file_descriptors s).[fd]; Some (if d_in_use d =? 0 then None else Some d).

(** The file system a descriptor belongs to *)
Definition fs_of (d : file_descriptor_t) (s : vfs_state) : option filesystem_t :=
  i ← find_first (λ f, negb (in_use f =? 0) && (fs_id f =? d_fs_id d)) (filesystems s); filesystems s !! i.

Definition vfs_close (fd : Z) (s : vfs_state) (b : B) : option (Z * vfs_state * B) :=
  r ← open_fd fd s;
  match r with
  | None => Some (-1, s, b)
  | Some d =>
      match fs_of d s with
      | None => Some (-1, s, b)
      | Some f =>
          cl ← close f;
          '(_, b) ← cl (d_inode d) b;
          fds ← zset (file_descriptors s) fd (release d);
          Some (0, set_fds fds s, b)
      end
  end.

(** [if (n > 0) file_descriptors[fd].offset += n;] *)
Definition move_on (fd n : Z) (d : file_descriptor_t) (s : vfs_state) : option vfs_state :=
  if 0 <? n then fds ← zset (file_descriptors s) fd (advance n d); Some (set_fds fds s) else Some s.

Definition vfs_read (fd : Z) (buffer : option (list Z)) (count : Z) (s : vfs_state) (b : B)
    : option (Z * option (list Z) * vfs_state * B) :=
  r ← open_fd fd s;
  match r with
  | None => Some (-1, buffer, s, b)
  | Some d =>
      match (f ← fs_of d s; read f) with
      | None => Some (-1, buffer, s, b)
      | Some rd =>
          '(bytes_read, buffer, b) ← rd (d_inode d) buffer count (d_offset d) b;
          s ← move_on fd bytes_read d s;
          Some (bytes_read, buffer, s, b)
      end
  end.

Definition vfs_write (fd : Z) (buffer : option (list Z)) (count : Z) (s : vfs_state) (b : B) : option (Z * vfs_state * B) :=
  r ← open_fd fd s;
  match r with
  | None => Some (-1, s, b)
  | Some d =>
      match (f ← fs_of d s; write f) with
      | None => Some (-1, s, b)
      | Some wr =>
          '(bytes_written, b) ← wr (d_inode d) buffer count (d_offset d) b;
          s ← move_on fd bytes_written d s;
          Some (bytes_written, s, b)
      end
  end.

Definition vfs_stat (stack : list Z) (path : list Z) (st : bool) (s : vfs_state) (b : B)
    : option (Z * option (Z * Z * Z * Z) * B) :=
  '(fs, rel) ← find_filesystem path (Some stack) s;
  match (i ← fs; f ← filesystems s !! i; stat f), rel with
  | Some st_func, Some relative_path => st_func relative_path st b
  | _, _ => Some (-1, None, b)
  end.

(** The size of the buffer is not looked at. *)
Definition vfs_list_dir (buffer : list Z) (buffer_size : Z) : option (Z * list Z) :=
  buffer ← strcpy buffer (lit "root
");
  buffer ← strcat buffer (lit "dev
");
  buffer ← strcat buffer (lit "tmp
");
  len ← strlen buffer; Some (s32 len, buffer).
End vfs.
Arguments filesystem_t B : clear implicits.
Arguments vfs_state B : clear implicits.

(** ** Which file system a path belongs to *)
Section find.
Context {B : Type}.
Implicit Types (f g : filesystem_t B) (s : vfs_state B) (p path : list Z).

Definition mounted f : Prop := in_use f ≠ 0.
Definition mount_string f : list Z := str (mount_point f).
(** [f] is mounted at a prefix of [p]. *)
Definition covers p f : Prop := mounted f ∧ mount_string f `prefix_of` p.

Record vfs_ok s : Prop := {
  ok_fds : length (file_descriptors s) = MAX_OPEN_FILES;
  ok_fs : length (filesystems s) = MAX_FILESYSTEMS;
  ok_points : Forall (λ f, name_ok MAX_PATH_LEN (mount_point f)) (filesystems s);
}.

(** The best slot among [l] and the length of its mount point *)
Definition best_of p (l : list (filesystem_t B)) (o : option nat) (len : Z) : Prop :=
  (∀ j g, l !! j = Some g → covers p g → zlen (mount_string g) <= len ∧
     (zlen (mount_string g) = len → 0 < len → ∃ i, o = Some i ∧ (i ≤ j)%nat)) ∧
  match o with
  | None => len = 0
  | Some i => 0 < len ∧ ∃ f, l !! i = Some f ∧ covers p f ∧ zlen (mount_string f) = len
  end.

Lemma best_of_better p l f o len :
  best_of p l o len → covers p f → len < zlen (mount_string f) →
  best_of p (l ++ [f]) (Some (length l)) (zlen (mount_string f)).
Proof.
  intros [H1 H2] Hf Hlen. assert (0 <= len) by (destruct o; lia). split.
  - intros j g [Hj|[-> <-]]%lookup_snoc_Some Hg; [|split; [lia|by exists (length l)]].
    destruct Hj as [Hjl Hj]. destruct (H1 j g Hj Hg) as [Hle _]. split; [lia|]. lia.
  - split; [lia|]. exists f. split; [|done]. apply lookup_snoc_Some. by right.
Qed.

Lemma best_of_same p l f o len :
  best_of p l o len → (covers p f → zlen (mount_string f) <= len) → best_of p (l ++ [f]) o len.
Proof.
  intros [H1 H2] Hf. split.
  - intros j g [[Hjl Hj]|[-> <-]]%lookup_snoc_Some Hg; [by apply (H1 j g)|]. split; [by apply Hf|].
    intros _ Hpos. destruct o as [i|]; [|lia]. destruct H2 as (_ & h & Hh%lookup_lt_Some & _). exists i. split; [done|lia].
  - destruct o as [i|]; [|done]. destruct H2 as (Hpos & h & Hh & Hc). split; [done|]. exists h.
    split; [by apply lookup_app_l_Some|done].
Qed.

Lemma best_match_ok path p l done_ o len :
  cstr path = Some p → Forall (λ f, name_ok MAX_PATH_LEN (mount_point f)) l → best_of p done_ o len →
  ∃ o' len', best_match path l (length done_) (o, len) = Some (o', len') ∧ best_of p (done_ ++ l) o' len'.
Proof.
  intros Hp Hl. revert done_ o len. induction Hl as [|f l Hf _ IH]; intros done_ o len Hb.
  { exists o, len. by rewrite app_nil_r. }
  cbn [best_match]. pose proof (name_ok_str _ _ Hf) as Hc. fold (mount_string f) in Hc.
  replace (done_ ++ f :: l) with ((done_ ++ [f]) ++ l) by by rewrite <- app_assoc.
  replace (S (length done_)) with (length (done_ ++ [f])) by (rewrite length_app; cbn; lia).
  destruct (Z.eqb_spec (in_use f) 0) as [Hu|Hu]; cbn [negb].
  { apply IH, best_of_same; [done|]. by intros [? _]. }
  rewrite (strlen_cstr _ _ Hc). cbn [mbind option_bind]. rewrite to_nat_zlen.
  destruct (strncmp_prefix path (mount_point f) p (mount_string f) Hp Hc) as (r & -> & Hr). cbn [mbind option_bind].
  destruct (Z.eqb_spec r 0) as [H0|H0]; cbn [andb snd].
  - destruct (Z.ltb_spec len (zlen (mount_string f))); apply IH.
    + by apply best_of_better with o len; [|split; [|apply Hr]|].
    + by apply best_of_same.
  - apply IH, best_of_same; [done|]. intros [_ Hpre]. by apply Hr in Hpre.
Qed.

(** The rest of a path behind its mount point, without one leading slash *)
Definition strip (p : list Z) : list Z := match p with 47 :: r => r | _ => p end.

Lemma relative_ok (rel path p m r : list Z) :
  cstr path = Some p → p = m ++ r → (length p < length rel)%nat →
  ∃ rel1 rel', strcpy rel (drop (length m) path) = Some rel1 ∧
    (c ← rel1.[0]; if c =? 47 then strcpy rel1 (tail rel1) else Some rel1) = Some rel' ∧
    cstr rel' = Some (strip r) ∧ length rel' = length rel.
Proof.
  intros Hp Hm Hlen. pose proof (cstr_nonzero _ _ Hp) as Hnz. rewrite Hm in Hnz. apply Forall_app in Hnz as [_ Hnz].
  assert (cstr (drop (length m) path) = Some r) as Hr.
  { apply cstr_alt in Hp as (q & -> & _). rewrite Hm, <- app_assoc, drop_app_length. by apply cstr_app. }
  rewrite Hm, length_app in Hlen. rewrite (strcpy_spec rel _ r Hr) by lia.
  set (rest := drop (S (length r)) rel). assert (length rest = (length rel - S (length r))%nat) as Hrest by apply length_drop.
  eexists _. destruct r as [|c r].
  { eexists. split; [reflexivity|]. split; [reflexivity|]. split; [done|]. cbn [app length] in *. lia. }
  inversion Hnz as [|? ? Hc Hnz']; subst. cbn [app] in *. change ((c :: r ++ 0 :: rest).[0]) with (Some c).
  cbn [mbind option_bind tail strip]. destruct (Z.eqb_spec c 47) as [->|Hne].
  - rewrite (strcpy_spec _ _ r) by (apply cstr_app || (cbn; rewrite length_app; cbn; lia); done).
    eexists. split; [reflexivity|]. split; [reflexivity|]. split; [by apply cstr_app|].
    cbn [length] in *. rewrite !length_app. cbn [length]. rewrite length_drop. cbn [length]. rewrite length_app. cbn [length]. lia.
  - eexists. split; [reflexivity|]. split; [reflexivity|]. split.
    + change (cstr ((c :: r) ++ 0 :: rest) = Some (strip (c :: r))). rewrite cstr_app by done. f_equal. unfold strip.
      repeat match goal with |- context [match ?x with _ => _ end] => destruct x; try done end.
    + cbn [length] in *. rewrite length_app. cbn [length]. lia.
Qed.

(** What [find_filesystem] finds for [p] *)
Definition resolves s p (o : option nat) (rel rel' : list Z) : Prop :=
  match o with
  | None => rel' = rel ∧ ∀ f, f ∈ filesystems s → covers p f → mount_string f = []
  | Some i => ∃ f r, filesystems s !! i = Some f ∧ mounted f ∧ mount_string f ≠ [] ∧ p = mount_string f ++ r ∧
      cstr rel' = Some (strip r) ∧ length rel' = length rel ∧
      ∀ j g, filesystems s !! j = Some g → covers p g →
        (length (mount_string g) ≤ length (mount_string f))%nat ∧
        (length (mount_string g) = length (mount_string f) → (i ≤ j)%nat)
  end.

Lemma find_resolves s path p rel :
  vfs_ok s → cstr path = Some p → (length p < length rel)%nat →
  ∃ o rel', find_filesystem path (Some rel) s = Some (o, Some rel') ∧ resolves s p o rel rel'.
Proof.
  intros [_ _ Hpts] Hp Hlen. unfold find_filesystem.
  destruct (best_match_ok path p (filesystems s) [] None 0 Hp Hpts) as (o & len & E & Hb).
  { split; [|done]. intros j g Hj. by rewrite lookup_nil in Hj. }
  cbn [length app] in E, Hb. rewrite E. cbn [mbind option_bind]. destruct Hb as [H1 H2]. destruct o as [i|].
  - destruct H2 as (Hpos & f & Hf & [Hm [r Hr]] & Hlf). destruct (Z.ltb_spec 0 len); [|lia].
    destruct (relative_ok rel path p (mount_string f) r Hp Hr Hlen) as (rel1 & rel' & E1 & E2 & Hrel & Hl).
    rewrite <- Hlf, to_nat_zlen, E1. cbn [mbind option_bind]. rewrite E2. cbn [mbind option_bind].
    exists (Some i), rel'. split; [done|]. exists f, r. split; [done|]. split; [done|]. split.
    { intros H0. rewrite H0 in Hlf. change (0 = len) in Hlf. lia. }
    split; [done|]. split; [done|]. split; [done|]. intros j g Hj Hg. destruct (H1 j g Hj Hg) as [Hle Heq].
    unfold zlen in *. split; [lia|]. intros Hlg. destruct (Heq ltac:(lia) Hpos) as (i' & [= <-] & Hij). done.
  - exists None, rel. split; [done|]. split; [done|]. intros f [j Hj]%list_elem_of_lookup Hf.
    destruct (H1 j f Hj Hf) as [Hle _]. subst len. apply nil_length_inv. unfold zlen in Hle. lia.
Qed.

(** C26. Path resolution: among the mounted file systems whose mount point is
    a prefix of the path, [find_filesystem] picks the one with the longest
    mount point, the first slot if several have it, and leaves in the caller's
    buffer the rest of the path without one leading slash; it finds none
    exactly when only empty mount points match.  A prefix of the characters is
    enough: a path that goes on with no slash behind the mount point is
    resolved too. *)
Theorem find_filesystem_longest s path p rel :
  vfs_ok s → cstr path = Some p → (length p < length rel)%nat →
  ∃ o rel', find_filesystem path (Some rel) s = Some (o, Some rel') ∧ resolves s p o rel rel'.
Proof. apply find_resolves. Qed.

End find.

(** ** The RAM file system behind the mount table *)
Definition ram_read : read_func := λ ino buf count off p, '(n, buf) ← RamFs.ramfs_read ino buf count off p; Some (n, buf, p).
Definition ram_write : write_func := RamFs.ramfs_write.
Definition ram_open : open_func := λ path flags p, RamFs.ramfs_open (Some path) flags p.
Definition ram_close : close_func := λ ino p, Some (RamFs.ramfs_close ino p, p).
Definition ram_stat : stat_func := λ path st p, '(rc, r) ← RamFs.ramfs_stat (Some path) st p; Some (rc, r, p).

Definition mount_ram (s : vfs_state RamFs.ramfs_ptr) : option (Z * vfs_state RamFs.ramfs_ptr) :=
  vfs_mount (lit "/ram") 1 (Some ram_read) (Some ram_write) (Some ram_open) (Some ram_close) (Some ram_stat) s.

(** What programs do: open, close, read and write descriptors, ask for a
    size; the results and the bytes read.  [stack] is the uninitialised local
    of [vfs_open] and [vfs_stat]. *)
Inductive vfs_op : Type :=
| Open (n : list Z) (flags : Z)
| Close (fd : Z)
| Read (fd count : Z)
| Write (fd : Z) (bs : list Z)
| Stat (n : list Z).

Definition ram_path (n : list Z) : list Z := bytes_of_string "/ram/" ++ n ++ [0].

Section session.
Context (stack : list Z) (Hstack : length stack = MAX_PATH_LEN).
Definition vfs : Type := vfs_state RamFs.ramfs_ptr.

Definition vfs_step (o : vfs_op) (s : vfs) (b : RamFs.ramfs_ptr) : option (Z * list Z * vfs * RamFs.ramfs_ptr) :=
  match o with
  | Open n flags => '(r, s, b) ← vfs_open stack (ram_path n) flags s b; Some (r, [], s, b)
  | Close fd => '(r, s, b) ← vfs_close fd s b; Some (r, [], s, b)
  | Read fd count =>
      '(r, buf, s, b) ← vfs_read fd (Some (replicate (Z.to_nat count) 0)) count s b;
      Some (r, take (Z.to_nat r) (default [] buf), s, b)
  | Write fd bs => '(r, s, b) ← vfs_write fd (Some bs) (zlen bs) s b; Some (r, [], s, b)
  | Stat n =>
      '(r, st, b) ← vfs_stat stack (ram_path n) true s b;
      Some (match st with Some (_, sz, _, _) => sz | None => r end, [], s, b)
  end.

(** The specification: files by name, and for each of the 32 descriptors the
    name and position it is open at. *)
Definition handle : Type := list Z * Z.
Definition posix : Type := gmap (list Z) (list Z) * list (option handle).

Definition is_free (h : option handle) : bool := match h with None => true | Some _ => false end.
Definition handle_at (fd : Z) (hs : list (option handle)) : option handle :=
  if (0 <=? fd) && (fd <? 32) then default None (hs !! Z.to_nat fd) else None.

Definition spec_open (n : list Z) (flags : Z) (st : posix) : Z * posix :=
  match find_first is_free st.2 with
  | None => (-1, st)
  | Some fd =>
      match st.1 !! n with
      | Some _ => (Z.of_nat fd, (st.1, <[fd := Some (n, 0)]> st.2))
      | None =>
          if (Z.land flags RamFs.O_CREAT =? 0) || bool_decide (64 ≤ base.size st.1)%nat then (-1, st)
          else (Z.of_nat fd, (<[n := []]> st.1, <[fd := Some (n, 0)]> st.2))
      end
  end.

Definition spec_step (o : vfs_op) (st : posix) : Z * list Z * posix :=
  match o with
  | Open n flags => let '(r, st) := spec_open n flags st in (r, [], st)
  | Close fd =>
      match handle_at fd st.2 with
      | None => (-1, [], st)
      | Some _ => (0, [], (st.1, <[Z.to_nat fd := None]> st.2))
      end
  | Read fd count =>
      match handle_at fd st.2 with
      | None => (-1, [], st)
      | Some (n, pos) =>
          let bs := take (Z.to_nat count) (drop (Z.to_nat pos) (default [] (st.1 !! n))) in
          (zlen bs, bs, (st.1, <[Z.to_nat fd := Some (n, pos + zlen bs)]> st.2))
      end
  | Write fd bs =>
      match handle_at fd st.2 with
      | None => (-1, [], st)
      | Some (n, pos) =>
          if RamFs.MAX_FILE_SIZE <=? pos then (-1, [], st)
          else
            let bs := RamFs.fitting pos bs in
            (zlen bs, [], (<[n := RamFs.overwrite pos bs (default [] (st.1 !! n))]> st.1,
                           <[Z.to_nat fd := Some (n, pos + zlen bs)]> st.2))
      end
  | Stat n => (match st.1 !! n with Some c => zlen c | None => -1 end, [], st)
  end.

(** Names whose path fits the buffer, and lengths of a C [int] *)
Definition op_ok (o : vfs_op) : Prop :=
  match o with
  | Open n _ | Stat n => Forall (λ c, c ≠ 0) n ∧ (length n ≤ 250)%nat
  | Close fd => True
  | Read fd count => 0 <= count < 2147483648
  | Write fd bs => zlen bs < 2147483648
  end.

(** ** The descriptors of the specification *)
Section state.
Context (f : filesystem_t RamFs.ramfs_ptr).

(** [f] is the mounted RAM disk, alone in slot 0. *)
Record ram_mount (s : vfs) : Prop := {
  rm_ok : vfs_ok s;
  rm_slots : ∃ l, filesystems s = f :: l ∧ Forall (λ g, ¬ mounted g) l;
  rm_mounted : mounted f;
  rm_point : mount_string f = bytes_of_string "/ram";
  rm_read : read f = Some ram_read;
  rm_write : write f = Some ram_write;
  rm_open : open f = Some ram_open;
  rm_close : close f = Some ram_close;
  rm_stat : stat f = Some ram_stat;
}.

Definition handle_rel (r : RamFs.ramfs_t) (files : gmap (list Z) (list Z)) (d : file_descriptor_t) (h : option handle) : Prop :=
  match h with
  | None => d_in_use d = 0
  | Some (n, pos) => d_in_use d ≠ 0 ∧ d_fs_id d = fs_id f ∧ d_offset d = pos ∧
      (∃ i, RamFs.slot r i n ∧ d_inode d = Z.of_nat i + 1) ∧ ∃ c, files !! n = Some c ∧ 0 <= pos <= zlen c
  end.

Record session_ok (s : vfs) (b : RamFs.ramfs_ptr) (st : posix) : Prop := {
  ss_mount : ram_mount s;
  ss_rep : ∃ r, b = Some r ∧ RamFs.rep r st.1 ∧ Forall2 (handle_rel r st.1) (file_descriptors s) st.2;
}.

Lemma find_first_Forall2 {A C} (R : A → C → Prop) (p : A → bool) (q : C → bool) l k :
  Forall2 R l k → (∀ x y, R x y → p x = q y) → find_first p l = find_first q k.
Proof. intros H Hpq. induction H as [|x y l k Hxy _ IH]; [done|]. cbn. by rewrite (Hpq x y Hxy), IH. Qed.

(** A path under the mount point leads to the RAM disk and the name. *)
Lemma ram_resolves s n :
  ram_mount s → Forall (λ c, c ≠ 0) n → (length n ≤ 250)%nat →
  ∃ rel, find_filesystem (ram_path n) (Some stack) s = Some (Some 0%nat, Some rel) ∧ cstr rel = Some n.
Proof.
  intros Hs Hn Hl. pose proof Hs as [Hok (l & Hfs & Hnone) Hm Hp _ _ _ _ _]. set (p := bytes_of_string "/ram/" ++ n).
  assert (cstr (ram_path n) = Some p) as Hc.
  { unfold ram_path, p. rewrite app_assoc. apply cstr_app. by repeat constructor. }
  destruct (find_resolves s (ram_path n) p stack Hok Hc) as (o & rel & E & Hr).
  { rewrite Hstack. unfold p, MAX_PATH_LEN. cbn. lia. }
  assert (covers p f) as Hcov by (split; [done|]; rewrite Hp; by exists (47 :: n)).
  destruct o as [[|i]|].
  - destruct Hr as (g & r & Hg & _ & _ & Hpr & Hrel & _). rewrite Hfs in Hg. injection Hg as <-.
    exists rel. split; [exact E|]. rewrite Hp in Hpr. unfold p in Hpr. injection Hpr as <-. exact Hrel.
  - destruct Hr as (g & r & Hg & Hmg & _). rewrite Hfs in Hg. cbn in Hg.
    rewrite Forall_lookup in Hnone. by destruct (Hnone _ _ Hg).
  - destruct Hr as [_ Hr]. assert (mount_string f = []) as H0; [|by rewrite Hp in H0].
    apply Hr; [|done]. rewrite Hfs. by left.
Qed.

Lemma ram_fs_of s d : ram_mount s → d_fs_id d = fs_id f → fs_of d s = Some f.
Proof.
  intros [_ (l & Hfs & _) Hm _ _ _ _ _ _] Hd. unfold fs_of. rewrite Hfs. cbn [find_first].
  unfold mounted in Hm. destruct (Z.eqb_spec (in_use f) 0); [done|]. rewrite Hd, Z.eqb_refl. done.
Qed.

Lemma set_fds_mount s fds : ram_mount s → length fds = length (file_descriptors s) → ram_mount (set_fds fds s).
Proof. intros [[] ? ? ? ? ? ? ? ?] Hl. split; try done. split; [cbn; congruence|done..]. Qed.

(** The descriptor at [fd] and its entry in the specification *)
Lemma handle_cases s b st fd r :
  session_ok s b st → Forall2 (handle_rel r st.1) (file_descriptors s) st.2 →
  (handle_at fd st.2 = None ∧ open_fd fd s = Some None) ∨
  ∃ n pos d, handle_at fd st.2 = Some (n, pos) ∧ open_fd fd s = Some (Some d) ∧ handle_rel r st.1 d (Some (n, pos)) ∧
    0 <= fd < 32 ∧ file_descriptors s !! Z.to_nat fd = Some d.
Proof.
  intros [Hm _] Hfds. pose proof (ok_fds s (rm_ok s Hm)) as Hl. unfold open_fd, handle_at, MAX_OPEN_FILES in *.
  destruct (Z.ltb_spec fd 0), (Z.leb_spec 0 fd); try lia; [by left|].
  change (Z.of_nat 32) with 32. destruct (Z.leb_spec 32 fd), (Z.ltb_spec fd 32); try lia; [by left|]. cbn [orb andb].
  destruct (lookup_lt_is_Some_2 (file_descriptors s) (Z.to_nat fd)) as [d Hd]; [lia|].
  destruct (Forall2_lookup_l _ _ _ _ _ Hfds Hd) as (h & Hh & Hrel). rewrite Hh.
  unfold zget. destruct (Z.ltb_spec fd 0); [lia|]. rewrite Hd. cbn [mbind option_bind default from_option id].
  destruct h as [[n pos]|].
  - right. destruct (Z.eqb_spec (d_in_use d) 0); [by destruct Hrel|]. exists n, pos, d. by split_and!.
  - left. cbn in Hrel. by rewrite Hrel.
Qed.

(** Files grow and keep their slots. *)
Definition grows (files files' : gmap (list Z) (list Z)) : Prop :=
  ∀ n c, files !! n = Some c → ∃ c', files' !! n = Some c' ∧ zlen c <= zlen c'.

Lemma grows_refl files : grows files files.
Proof. intros n c Hc. by exists c. Qed.

Lemma grows_insert files n c : (∀ c0, files !! n = Some c0 → zlen c0 <= zlen c) → grows files (<[n := c]> files).
Proof.
  intros H m c0 Hc0. destruct (decide (n = m)) as [<-|Hne].
  - exists c. rewrite lookup_insert_eq. split; [done|]. by apply H.
  - exists c0. by rewrite lookup_insert_ne.
Qed.

Lemma handle_grows r r' files files' d h :
  RamFs.keeps_slots r r' → grows files files' → handle_rel r files d h → handle_rel r' files' d h.
Proof.
  intros Hk Hg. destruct h as [[n pos]|]; [|done]. intros (Hu & Hid & Hpos & (i & Hi & Hino) & c & Hc & Hr).
  destruct (Hg n c Hc) as (c' & Hc' & Hle). split_and!; try done.
  - exists i. split; [by apply Hk|done].
  - exists c'. split; [done|lia].
Qed.

(** One descriptor changes, and perhaps the files. *)
Lemma session_update s b st r r' files' i d h :
  session_ok s b st → Forall2 (handle_rel r st.1) (file_descriptors s) st.2 →
  RamFs.rep r' files' → RamFs.keeps_slots r r' → grows st.1 files' → handle_rel r' files' d h →
  session_ok (set_fds (<[i := d]> (file_descriptors s)) s) (Some r') (files', <[i := h]> st.2).
Proof.
  intros [Hm _] Hfds Hrep Hk Hg Hd. split; [apply set_fds_mount; [done|apply length_insert]|].
  exists r'. split; [done|]. split; [done|]. cbn. apply Forall2_insert; [|done].
  eapply Forall2_impl; [exact Hfds|]. intros. by eapply handle_grows.
Qed.

Lemma content_bound r files n i c :
  RamFs.rep r files → RamFs.slot r i n → files !! n = Some c → zlen c <= 4096 ∧ (i < 64)%nat.
Proof.
  intros Hrep Hs Hc. destruct (RamFs.slot_contents r files Hrep i n Hs) as (g & _ & _ & _ & Hi & Hcont & _ & Hsz).
  rewrite Hc in Hcont. injection Hcont as ->. unfold RamFs.contents, RamFs.MAX_FILE_SIZE in *.
  rewrite mem_read_length by lia. split; [lia|done].
Qed.

(** [vfs_step] and [spec_step] agree on [o]. *)
Definition agrees (o : vfs_op) (s : vfs) (b : RamFs.ramfs_ptr) (st : posix) : Prop :=
  ∃ s' b', vfs_step o s b = Some ((spec_step o st).1, s', b') ∧ session_ok s' b' (spec_step o st).2.

Lemma open_agrees n flags s b st : op_ok (Open n flags) → session_ok s b st → agrees (Open n flags) s b st.
Proof.
  intros [Hn Hl] Hs. pose proof Hs as [Hm (r & -> & Hrep & Hfds)]. destruct st as [files hs]. cbn [fst snd] in *.
  assert (find_first (λ d, d_in_use d =? 0) (file_descriptors s) = find_first is_free hs) as Hfree.
  { eapply find_first_Forall2; [exact Hfds|]. intros d [[m pos]|] Hd; cbn in Hd |- *; [|by rewrite Hd].
    by destruct (Z.eqb_spec (d_in_use d) 0); [destruct Hd|]. }
  unfold agrees. cbn [vfs_step spec_step]. unfold vfs_open, spec_open. cbn [fst snd]. rewrite Hfree.
  destruct (find_first is_free hs) as [fd|]; [|by exists s, (Some r)].
  destruct (ram_resolves s n Hm Hn Hl) as (rel & -> & Hrel). cbn [mbind option_bind].
  destruct (rm_slots s Hm) as (l & Hfs & _). rewrite Hfs. cbn [lookup list_lookup mbind option_bind].
  rewrite (rm_open s Hm). cbn [mbind option_bind]. unfold ram_open.
  assert (RamFs.name_fits n) as Hfits by (split; [done|lia]).
  assert (∀ r' i, RamFs.slot r' i n → (i < 64)%nat → ∀ files' c, files' !! n = Some c → handle_rel r' files'
    {| d_fs_id := fs_id f; d_inode := u32 (Z.of_nat i + 1); d_offset := 0; d_flags := u32 flags; d_in_use := 1 |} (Some (n, 0))) as Hnew.
  { intros r' i Hi Hlt files' c Hc. split_and!; try done.
    - exists i. split; [done|]. cbn. rewrite u32_id; lia.
    - exists c. split; [done|]. unfold zlen. lia. }
  destruct (files !! n) as [c|] eqn:Hc.
  - destruct (RamFs.open_existing r files Hrep rel n c flags Hrel Hc) as (i & -> & Hi). cbn [mbind option_bind].
    destruct (content_bound r files n i c Hrep Hi Hc) as [_ Hi64]. destruct (Z.ltb_spec (Z.of_nat i + 1) 0); [lia|].
    eexists _, _. split; [reflexivity|]. eapply (session_update s (Some r) (files, hs)); [done|done|done|apply RamFs.keeps_slots_refl|apply grows_refl|by eapply Hnew].
  - destruct (Z.eqb_spec (Z.land flags RamFs.O_CREAT) 0) as [H0|H0]; cbn [orb].
    { rewrite (RamFs.open_missing r files Hrep rel n flags Hrel Hc H0). by exists s, (Some r). }
    destruct (RamFs.open_create r files rel n flags Hrep Hrel Hfits Hc H0) as (r' & Hrep' & Hk & Ho).
    unfold RamFs.spec_create in Hrep', Ho. rewrite Hc in Hrep', Ho.
    rewrite (bool_decide_eq_false_2 (is_Some None)) in Hrep', Ho by by intros [].
    change (RamFs.MAX_FILE_SIZE <? zlen []) with false in *. cbn [orb] in *.
    destruct (bool_decide (64 ≤ base.size files)%nat); cbn [fst snd] in *;
      (destruct Ho as [(Hz & i & -> & Hi)|[Hz ->]]; try discriminate Hz); cbn [mbind option_bind].
    + exists s, (Some r'). split; [done|]. split; [done|]. exists r'. split; [done|]. split; [done|].
      eapply Forall2_impl; [exact Hfds|]. intros. eapply handle_grows; [done|apply grows_refl|done].
    + destruct (content_bound r' _ n i [] Hrep' Hi) as [_ Hi64]; [by rewrite lookup_insert_eq|].
      destruct (Z.ltb_spec (Z.of_nat i + 1) 0); [lia|]. eexists _, _. split; [reflexivity|].
      eapply (session_update s (Some r) (files, hs)); [done|done|done|done|apply grows_insert; cbn; by rewrite Hc|].
      eapply Hnew; [done|done|by rewrite lookup_insert_eq].
Qed.

Lemma close_agrees fd s b st : session_ok s b st → agrees (Close fd) s b st.
Proof.
  intros Hs. pose proof Hs as [Hm (r & -> & Hrep & Hfds)]. unfold agrees. cbn [vfs_step spec_step]. unfold vfs_close.
  destruct (handle_cases s _ st fd r Hs Hfds) as [[-> ->]|(n & pos & d & -> & -> & Hd & Hfd & Hl)]; [by exists s, (Some r)|].
  cbn [mbind option_bind]. rewrite (ram_fs_of s d Hm) by apply Hd. rewrite (rm_close s Hm). cbn [mbind option_bind ram_close].
  rewrite zset_in by (apply lookup_lt_Some in Hl; unfold zlen; lia). cbn [mbind option_bind].
  eexists _, _. split; [reflexivity|]. by eapply session_update; [done|done|done|apply RamFs.keeps_slots_refl|apply grows_refl|].
Qed.

Lemma stat_agrees n s b st : op_ok (Stat n) → session_ok s b st → agrees (Stat n) s b st.
Proof.
  intros [Hn Hl] Hs. pose proof Hs as [Hm (r & -> & Hrep & Hfds)]. unfold agrees. cbn [vfs_step spec_step]. unfold vfs_stat.
  destruct (ram_resolves s n Hm Hn Hl) as (rel & -> & Hrel). cbn [mbind option_bind].
  destruct (rm_slots s Hm) as (l & Hfs & _). rewrite Hfs. cbn [lookup list_lookup mbind option_bind].
  rewrite (rm_stat s Hm). unfold ram_stat, RamFs.ramfs_stat. cbn [negb].
  destruct (RamFs.find_cases r st.1 Hrep rel n Hrel) as [[-> ->]|(i & g & -> & Hi & Hu & _ & ->)]; cbn [mbind option_bind].
  - by exists s, (Some r).
  - rewrite Hi. cbn [mbind option_bind]. exists s, (Some r). split; [|done]. cbn [fst]. unfold RamFs.contents.
    rewrite mem_read_length; [done|]. by apply (RamFs.ok_slots r (RamFs.rep_ok _ _ Hrep) i g Hi Hu).
Qed.

(** The descriptor advances by what was transferred. *)
Lemma advance_ok s b st r d n pos k fd r' files' :
  session_ok s b st → Forall2 (handle_rel r st.1) (file_descriptors s) st.2 → 0 <= fd < 32 →
  file_descriptors s !! Z.to_nat fd = Some d → handle_rel r st.1 d (Some (n, pos)) →
  RamFs.rep r' files' → RamFs.keeps_slots r r' → grows st.1 files' → 0 <= k →
  (∃ c, files' !! n = Some c ∧ pos + k <= zlen c) →
  ∃ s', move_on fd k d s = Some s' ∧
    session_ok s' (Some r') (files', <[Z.to_nat fd := Some (n, pos + k)]> st.2).
Proof.
  intros Hs Hfds Hfd Hl Hd Hrep Hk Hg Hk0 (c & Hc & Hle). pose proof Hd as (Hu & Hid & Hpos & (i & Hi & Hino) & c0 & Hc0 & Hr).
  destruct (content_bound r' files' n i c Hrep (Hk _ _ Hi) Hc) as [Hcb _].
  assert (handle_rel r' files' (advance k d) (Some (n, pos + k))) as Hnew.
  { split_and!; try done.
    - cbn. rewrite Hpos. apply u32_id. lia.
    - exists i. split; [by apply Hk|done].
    - exists c. split; [done|lia]. }
  unfold move_on. destruct (Z.ltb_spec 0 k).
  - rewrite zset_in by (apply lookup_lt_Some in Hl; unfold zlen; lia). cbn [mbind option_bind].
    eexists. split; [reflexivity|]. by eapply session_update.
  - exists s. split; [done|]. replace s with (set_fds (<[Z.to_nat fd := d]> (file_descriptors s)) s).
    + eapply session_update; try done. replace (pos + k) with pos by lia. by eapply handle_grows.
    + rewrite list_insert_id by done. by destruct s.
Qed.

Lemma read_agrees fd count s b st : op_ok (Read fd count) → session_ok s b st → agrees (Read fd count) s b st.
Proof.
  intros Hcount Hs. pose proof Hs as [Hm (r & -> & Hrep & Hfds)]. unfold agrees. cbn [vfs_step spec_step op_ok] in *. unfold vfs_read.
  destruct (handle_cases s _ st fd r Hs Hfds) as [[-> ->]|(n & pos & d & -> & -> & Hd & Hfd & Hl)];
    [by exists s, (Some r)|]. cbn [mbind option_bind].
  rewrite (ram_fs_of s d Hm) by apply Hd. cbn [mbind option_bind]. rewrite (rm_read s Hm). unfold ram_read.
  pose proof Hd as (_ & _ & Hpos & (i & Hi & ->) & c & Hc & Hr). rewrite Hpos, Hc. cbn [default from_option id].
  destruct (content_bound r st.1 n i c Hrep Hi Hc) as [Hcb _].
  rewrite (RamFs.read_slot r st.1 Hrep i n c) by (done || unfold zlen in *; rewrite ?length_replicate; lia).
  set (bs := take (Z.to_nat count) (drop (Z.to_nat pos) c)). cbn [mbind option_bind].
  assert (pos + zlen bs <= zlen c) as Hle by (unfold bs, zlen in *; rewrite length_take, length_drop; lia).
  destruct (advance_ok s _ st r d n pos (zlen bs) fd r st.1 Hs Hfds Hfd Hl Hd Hrep) as (s' & -> & Hs').
  - apply RamFs.keeps_slots_refl.
  - apply grows_refl.
  - unfold zlen. lia.
  - by exists c.
  - cbn [mbind option_bind default from_option id]. rewrite to_nat_zlen. unfold id. rewrite take_app_length. by exists s', (Some r).
Qed.

Lemma overwrite_length pos bs c :
  0 <= pos <= zlen c → zlen c <= zlen (RamFs.overwrite pos bs c) ∧ pos + zlen bs <= zlen (RamFs.overwrite pos bs c).
Proof.
  intros Hp. unfold RamFs.overwrite, zlen in *. rewrite !length_app, length_take, length_drop. lia.
Qed.

Lemma write_agrees fd bs s b st : op_ok (Write fd bs) → session_ok s b st → agrees (Write fd bs) s b st.
Proof.
  intros Hbs Hs. pose proof Hs as [Hm (r & -> & Hrep & Hfds)]. unfold agrees. cbn [vfs_step spec_step op_ok] in *. unfold vfs_write.
  destruct (handle_cases s _ st fd r Hs Hfds) as [[-> ->]|(n & pos & d & -> & -> & Hd & Hfd & Hl)];
    [by exists s, (Some r)|]. cbn [mbind option_bind].
  rewrite (ram_fs_of s d Hm) by apply Hd. cbn [mbind option_bind]. rewrite (rm_write s Hm). unfold ram_write.
  pose proof Hd as (_ & _ & Hpos & (i & Hi & ->) & c & Hc & Hr). rewrite Hpos, Hc. cbn [default from_option id].
  destruct (content_bound r st.1 n i c Hrep Hi Hc) as [Hcb _].
  destruct (Z.leb_spec RamFs.MAX_FILE_SIZE pos) as [Hpast|Hin].
  { rewrite (RamFs.write_slot_past r st.1 Hrep i n c) by done. by exists s, (Some r). }
  destruct (RamFs.write_slot r st.1 Hrep i n c pos bs) as (r' & -> & Hrep' & Hk); try done || lia.
  cbn [mbind option_bind]. set (w := RamFs.fitting pos bs) in *. destruct (overwrite_length pos w c Hr) as [Hg Hle].
  destruct (advance_ok s _ st r d n pos (zlen w) fd r' (<[n := RamFs.overwrite pos w c]> st.1) Hs Hfds Hfd Hl Hd Hrep' Hk) as (s' & -> & Hs').
  - apply grows_insert. rewrite Hc. by intros ? [= <-].
  - unfold zlen. lia.
  - exists (RamFs.overwrite pos w c). by rewrite lookup_insert_eq.
  - by exists s', (Some r').
Qed.

Lemma step_agrees o s b st : op_ok o → session_ok s b st → agrees o s b st.
Proof.
  intros Ho Hs. destruct o.
  - by apply open_agrees.
  - by apply close_agrees.
  - by apply read_agrees.
  - by apply write_agrees.
  - by apply stat_agrees.
Qed.

End state.

(** ** Sequences of calls *)
Fixpoint run (ops : list vfs_op) (s : vfs) (b : RamFs.ramfs_ptr) : option (list (Z * list Z)) :=
  match ops with
  | [] => Some []
  | o :: ops => '(res, s, b) ← vfs_step o s b; rs ← run ops s b; Some (res :: rs)
  end.
Fixpoint spec_run (ops : list vfs_op) (st : posix) : list (Z * list Z) :=
  match ops with
  | [] => []
  | o :: ops => let '(res, st) := spec_step o st in res :: spec_run ops st
  end.

Lemma run_agrees f ops s b st : Forall op_ok ops → session_ok f s b st → run ops s b = Some (spec_run ops st).
Proof.
  intros Hops. revert s b st. induction Hops as [|o ops Ho _ IH]; intros s b st Hs; [done|]. cbn [run spec_run].
  destruct (step_agrees f o s b st Ho Hs) as (s' & b' & -> & Hs'). destruct (spec_step o st) as [res st'].
  cbn [mbind option_bind fst snd] in *. by rewrite (IH _ _ _ Hs').
Qed.
End session.

(** The tables as the loader leaves them: of the right sizes, names ended. *)
Definition tables_ok (s : vfs) : Prop :=
  length (file_descriptors s) = MAX_OPEN_FILES ∧ length (filesystems s) = MAX_FILESYSTEMS ∧
  Forall (λ f, length (mount_point f) = MAX_PATH_LEN) (filesystems s).

Lemma clear_fs_ok {B} (l : list (filesystem_t B)) :
  Forall (λ f, length (mount_point f) = MAX_PATH_LEN) l →
  ∃ l', mapM clear_fs l = Some l' ∧ length l' = length l ∧
    Forall (λ f, in_use f = 0 ∧ name_ok MAX_PATH_LEN (mount_point f)) l'.
Proof.
  intros H. induction H as [|f l Hf _ (l' & E & Hl & Hok)]; [by exists []|].
  assert (∃ g, clear_fs f = Some g ∧ in_use g = 0 ∧ name_ok MAX_PATH_LEN (mount_point g)) as (g & Eg & Hg).
  { unfold clear_fs. rewrite zset_in by (unfold zlen, MAX_PATH_LEN in *; lia). eexists. split; [reflexivity|].
    split; [done|]. split; [by cbn; rewrite length_insert|]. destruct (mount_point f); [done|by eexists]. }
  exists (g :: l'). cbn. rewrite Eg. cbn [mbind option_bind]. rewrite E. split; [done|].
  split; [by rewrite Hl|by constructor].
Qed.

Definition no_handles : list (option handle) := replicate 32 None.

Lemma mounted_session s r files :
  tables_ok s → RamFs.rep r files → 0 <= next_fs_id s < 2147483648 →
  ∃ s1 s2 f, vfs_init s = Some s1 ∧ mount_ram s1 = Some (next_fs_id s, s2) ∧ session_ok f s2 (Some r) (files, no_handles).
Proof.
  intros (Hfd & Hfs & Hpts) Hrep Hid. unfold vfs_init. destruct (clear_fs_ok _ Hpts) as (l & -> & Hl & Hcl).
  cbn [mbind option_bind]. eexists _. unfold mount_ram, vfs_mount. cbn [filesystems next_fs_id file_descriptors].
  rewrite Hfs in Hl. destruct l as [|f l]; [done|]. apply Forall_cons in Hcl as [[Hf0 Hfn] Hcl].
  destruct (copy_name_ok (mount_point f) (lit "/ram") (bytes_of_string "/ram") MAX_PATH_LEN) as (nm & E & Hnm & Hstr);
    [done|unfold MAX_PATH_LEN; lia|apply Hfn|].
  eexists _, _. split; [reflexivity|]. cbn [find_first filesystems next_fs_id file_descriptors]. rewrite Hf0. cbn [Z.eqb lookup list_lookup mbind option_bind].
  rewrite E. cbn [mbind option_bind insert list_insert]. rewrite s32_id by lia. split; [reflexivity|].
  split; [|exists r; split; [done|]; split; [done|]].
  - split; [|exists l; split; [reflexivity|]|done|exact Hstr|reflexivity..].
    + split; [by cbn; rewrite length_fmap|done|]. constructor; [done|].
      eapply List.Forall_impl; [|exact Hcl]. by intros g [_ ?].
    + eapply List.Forall_impl; [|exact Hcl]. intros g [Hg _] Hm. by destruct Hm.
  - cbn [file_descriptors fst snd]. unfold no_handles, MAX_OPEN_FILES in *. rewrite <- Hfd. clear.
    generalize (file_descriptors s). intros k. induction k as [|d k IH]; constructor; done.
Qed.

(** C5. The layers together: after [vfs_init] and a mount of the RAM disk at
    /ram, every sequence of opens (with O_CREAT or without), reads, writes,
    closes and stats through descriptors returns what a POSIX-like file
    interface returns: 32 descriptors, the lowest free one given out, each
    with its own position in a named file; up to 64 files of up to 4096
    bytes; a write at the end is cut there; several descriptors on one file
    see each other's writes.  No call is undefined, whatever the stack or the
    tables contained before. *)
Theorem vfs_files_refine (ops : list vfs_op) (stack : list Z) (s : vfs) (r : RamFs.ramfs_t) (files : gmap (list Z) (list Z)) :
  length stack = MAX_PATH_LEN → tables_ok s → 0 <= next_fs_id s < 2147483648 → RamFs.rep r files → Forall op_ok ops →
  ∃ s1 s2, vfs_init s = Some s1 ∧ mount_ram s1 = Some (next_fs_id s, s2) ∧
    run stack ops s2 (Some r) = Some (spec_run ops (files, no_handles)).
Proof.
  intros Hst Hs Hid Hrep Hops. destruct (mounted_session s r files Hs Hrep Hid) as (s1 & s2 & f & E1 & E2 & Hss).
  exists s1, s2. split; [done|]. split; [done|]. by eapply run_agrees.
Qed.

(** The tables before anything runs *)
Definition vfs_bss : vfs :=
  {| file_descriptors := replicate 32 free_fd;
     filesystems := replicate 8 {| in_use := 0; fs_id := 0; mount_point := replicate 256 0; fs_data := 0;
                                   read := None; write := None; open := None; close := None; stat := None |};
     next_fs_id := 1 |}.

(** Two descriptors on a new file, and the file the RAM disk starts with *)
Definition demo_ops : list vfs_op :=
  [Open [97] RamFs.O_CREAT; Write 0 [1; 2; 3]; Open [97] 0; Read 1 2; Write 1 [9]; Write 0 [4]; Read 1 5; Close 0;
   Read 0 1; Open (bytes_of_string "hello.txt") 0; Read 0 5; Stat [97]; Open [98] 0; Close 32].

Example demo_ops_results :
  spec_run demo_ops (RamFs.initial_files, no_handles) =
  [(0, []); (3, []); (1, []); (2, [1; 2]); (1, []); (1, []); (1, [4]); (0, []);
   (-1, []); (0, []); (5, bytes_of_string "Hello"); (4, []); (-1, []); (-1, [])].
Proof. vm_compute. reflexivity. Qed.

Lemma vfs_files_refine_witness :
  ∃ r s1 s2, vfs_init vfs_bss = Some s1 ∧ mount_ram s1 = Some (1, s2) ∧
    run (replicate 256 170) demo_ops s2 (Some r) = Some (spec_run demo_ops (RamFs.initial_files, no_handles)).
Proof.
  destruct (RamFs.format_rep (RamFs.set_data (Some mem_zero) RamFs.zero_block)) as (r & _ & Hr).
  { split; [reflexivity|]. split; [by apply Forall_replicate|]. by eexists. }
  exists r. apply (vfs_files_refine demo_ops (replicate 256 170) vfs_bss r RamFs.initial_files).
  - reflexivity.
  - split; [reflexivity|]. split; [reflexivity|]. by apply Forall_replicate.
  - done.
  - exact Hr.
  - repeat (constructor; [apply (bool_decide_unpack _); vm_compute; exact I|]). constructor.
Defined.

(** /ramdisk is taken for a file of /ram: what follows the mount point need
    not start with a slash. *)
Definition ram_table : vfs := default vfs_bss (s ← vfs_init vfs_bss; snd <$> mount_ram s).

Lemma find_filesystem_longest_witness :
  ∃ o rel', find_filesystem (lit "/ramdisk/x") (Some (replicate 256 170)) ram_table = Some (o, Some rel') ∧
    resolves ram_table (bytes_of_string "/ramdisk/x") o (replicate 256 170) rel'.
Proof.
  apply (find_filesystem_longest ram_table (lit "/ramdisk/x")).
  - split; [reflexivity|reflexivity|]. apply (bool_decide_unpack _). vm_compute. exact I.
  - reflexivity.
  - cbn. lia.
Defined.

Example ramhello_resolved :
  (λ x, x.1.1) <$> vfs_open (replicate 256 170) (lit "/ramhello.txt") 0 ram_table
     (default None (RamFs.ramfs_format (RamFs.set_data (Some mem_zero) RamFs.zero_block))) = Some 0.
Proof. vm_compute. reflexivity. Qed.

End Vfs.
