(* ===== verification/FsEnhanced.v ===== *)
(** * FsEnhanced: the block file system (fs/filesystem_enhanced.c)

    [fs.data] is a byte array of 1 MiB; an access outside it, or outside the
    64 file entries, is undefined ([None]).  [fs.next_block] is never used
    and left out. *)
From S2P Require Import Prelude CString Mem Bitmap.

Module FsEnhanced.

Definition FS_SIZE : Z := 1048576.
Definition BLOCK_SIZE : Z := 512.
Definition MAX_FILES : Z := 64.
Definition MAX_FILENAME_LEN : nat := 256.
#[global] Arguments MAX_FILENAME_LEN : simpl never.
Definition FILE_TYPE_REGULAR : Z := 1.
Definition FILE_TYPE_DIR : Z := 2.
Definition FILE_CREATE : Z := 0x08.
(** [FS_SIZE / BLOCK_SIZE / 32] *)
Definition BITMAP_WORDS : Z := FS_SIZE / BLOCK_SIZE / 32.

Record file_entry_t := {
  filename : list Z;
  size : Z;
  start_block : Z;
  type : Z;
  flags : Z;
  creation_time : Z;
  modify_time : Z;
}.

Record filesystem_t := {
  data : mem;
  bitmap : list Z;
  files : list file_entry_t;
  file_count : Z;
}.

Definition set_data (d : mem) (s : filesystem_t) : filesystem_t :=
  {| data := d; bitmap := bitmap s; files := files s; file_count := file_count s |}.
Definition set_bitmap (bm : list Z) (s : filesystem_t) : filesystem_t :=
  {| data := data s; bitmap := bm; files := files s; file_count := file_count s |}.
Definition set_files (fs : list file_entry_t) (n : Z) (s : filesystem_t) : filesystem_t :=
  {| data := data s; bitmap := bitmap s; files := fs; file_count := n |}.

(** ** Blocks *)

(** The two nested loops: full words are skipped, in any other word the bits
    are tried in order. *)
Fixpoint scan_words (i : Z) (ws : list Z) : option Z :=
  match ws with
  | [] => None
  | w :: ws =>
      if negb (w =? 0xFFFFFFFF) then
        match find_first (λ j, Z.land w (bit_mask j) =? 0) (seqZ 0 32) with
        | Some j => Some (i * 32 + Z.of_nat j)
        | None => scan_words (i + 1) ws
        end
      else scan_words (i + 1) ws
  end.

Definition alloc_block (s : filesystem_t) : option (Z * filesystem_t) :=
  match scan_words 0 (bitmap s) with
  | Some b => bm ← bm_set (bitmap s) b; Some (b, set_bitmap bm s)
  | None => Some (0, s)
  end.

Definition free_block (block : Z) (s : filesystem_t) : option filesystem_t :=
  if block / 32 <? BITMAP_WORDS then bm ← bm_clear (bitmap s) block; Some (set_bitmap bm s)
  else Some s.

(** ** Files *)
Definition find_file (name : list Z) (s : filesystem_t) : option (option nat) :=
  find_loop (λ f, streq (filename f) name) (take (Z.to_nat (file_count s)) (files s)).

Definition fs_create (name : list Z) (ty : Z) (s : filesystem_t) : option (Z * filesystem_t) :=
  if MAX_FILES <=? file_count s then Some (-1, s)
  else
    found ← find_file name s;
    match found with
    | Some _ => Some (-1, s)
    | None =>
        f ← (files s).[file_count s];
        nm ← copy_name (filename f) name MAX_FILENAME_LEN;
        '(b, s) ← alloc_block s;
        fs ← zset (files s) (file_count s)
               {| filename := nm; size := 0; start_block := b; type := u8 ty; flags := 0;
                  creation_time := 0; modify_time := 0 |};
        if b =? 0 then Some (-1, set_files fs (file_count s) s)
        else Some (s32 (file_count s), set_files fs (file_count s +u 1) s)
    end.

(** Number of blocks of [n] bytes. *)
Definition blocks (n : Z) : Z := (u32 (n + BLOCK_SIZE - 1)) / BLOCK_SIZE.

(** [for (i = 0; i < n; i++) free_block(b + i);] *)
Fixpoint free_blocks (n : nat) (b : Z) (s : filesystem_t) : option filesystem_t :=
  match n with
  | O => Some s
  | S n => s ← free_block b s; free_blocks n (b +u 1) s
  end.

(** [for (i = index; i < file_count - 1; i++) files[i] = files[i + 1];] *)
Fixpoint shift_files (n : nat) (i : Z) (fs : list file_entry_t) : option (list file_entry_t) :=
  match n with
  | O => Some fs
  | S n => f ← fs.[i + 1]; fs ← zset fs i f; shift_files n (i + 1) fs
  end.

Definition fs_delete (name : list Z) (s : filesystem_t) : option (Z * filesystem_t) :=
  found ← find_file name s;
  match found with
  | None => Some (-1, s)
  | Some index =>
      f ← files s !! index;
      s ← free_blocks (Z.to_nat (blocks (size f))) (start_block f) s;
      fs ← shift_files (Z.to_nat (file_count s - 1) - index) (Z.of_nat index) (files s);
      Some (0, set_files fs (file_count s -u 1) s)
  end.

Definition fs_open (name : list Z) (mode : Z) (s : filesystem_t) : option (Z * filesystem_t) :=
  found ← find_file name s;
  match found with
  | Some i => Some (Z.of_nat i, s)
  | None =>
      if negb (Z.land mode FILE_CREATE =? 0) then
        '(fd, s) ← fs_create name FILE_TYPE_REGULAR s;
        Some (if fd <? 0 then -1 else fd, s)
      else Some (-1, s)
  end.

Definition fs_close (fd : Z) : Z := 0.

(** The bytes read go to a buffer of [room] bytes. *)
Definition fs_read (fd room count : Z) (s : filesystem_t) : option (Z * list Z) :=
  if s32 (file_count s) <=? fd then Some (-1, [])
  else
    f ← (files s).[fd];
    let n := if size f <? count then size f else count in
    bs ← mem_load FS_SIZE (data s) (start_block f *u BLOCK_SIZE) n room;
    Some (s32 n, bs).

(** Blocks are allocated, and their numbers dropped; [false] when there is
    none left. *)
Fixpoint alloc_blocks (n : nat) (s : filesystem_t) : option (bool * filesystem_t) :=
  match n with
  | O => Some (true, s)
  | S n => '(b, s) ← alloc_block s; if b =? 0 then Some (false, s) else alloc_blocks n s
  end.

Definition fs_write (fd : Z) (buffer : list Z) (count : Z) (s : filesystem_t) : option (Z * filesystem_t) :=
  if s32 (file_count s) <=? fd then Some (-1, s)
  else
    f ← (files s).[fd];
    let needed_blocks := blocks (size f + count) in
    let current_blocks := blocks (size f) in
    '(ok, s) ← alloc_blocks (Z.to_nat (needed_blocks - current_blocks)) s;
    if negb (ok : bool) then Some (-1, s)
    else
      d ← mem_store FS_SIZE (data s) (start_block f *u BLOCK_SIZE + size f) buffer count;
      fs ← zset (files s) fd
             {| filename := filename f; size := size f +u count; start_block := start_block f;
                type := type f; flags := flags f; creation_time := creation_time f; modify_time := 0 |};
      Some (s32 count, set_files fs (file_count s) (set_data d s)).

Definition fs_seek (fd position : Z) (s : filesystem_t) : option Z :=
  if s32 (file_count s) <=? fd then Some (-1)
  else f ← (files s).[fd]; Some (if size f <? position then -1 else s32 position).

Definition fs_list : Z := 0.

Definition get_file_size (name : list Z) (s : filesystem_t) : option Z :=
  found ← find_file name s;
  match found with
  | Some i => f ← files s !! i; Some (size f)
  | None => Some 0
  end.

Definition zero_entry : file_entry_t :=
  {| filename := replicate MAX_FILENAME_LEN 0; size := 0; start_block := 0; type := 0; flags := 0;
     creation_time := 0; modify_time := 0 |}.

Definition test_data : list Z := lit "Hello, File System!
This is a test file.
".
Definition welcome : list Z := lit "Welcome to the OS File System!
".

(** A file made and filled by [fs_init]. *)
Definition create_with (name text : list Z) (s : filesystem_t) : option filesystem_t :=
  '(fd, s) ← fs_create name FILE_TYPE_REGULAR s;
  if 0 <=? fd then
    n ← strlen text;
    '(_, s) ← fs_write fd text n s;
    Some s
  else Some s.

(** The [memset] clears the whole structure. *)
Definition fs_init : option filesystem_t :=
  bm ← zset (replicate (Z.to_nat BITMAP_WORDS) 0) 0 0x0000000F;
  let s := {| data := mem_zero; bitmap := bm; files := replicate (Z.to_nat MAX_FILES) zero_entry; file_count := 0 |} in
  '(_, s) ← fs_create (lit "/") FILE_TYPE_DIR s;
  s ← create_with (lit "test.txt") test_data s;
  create_with (lit "welcome.txt") welcome s.

(** ** Well-formed file systems *)
Definition NUM_BLOCKS : Z := 2048.

(** Where a file's bytes are. *)
Definition base (f : file_entry_t) : Z := start_block f * BLOCK_SIZE.
Definition contents (s : filesystem_t) (f : file_entry_t) : list Z := mem_read (data s) (base f) (size f).

Record entry_ok (f : file_entry_t) : Prop := {
  ok_name : name_ok MAX_FILENAME_LEN (filename f);
  ok_block : 0 <= start_block f < NUM_BLOCKS;
  ok_size : 0 <= size f;
  ok_extent : base f + size f <= FS_SIZE;
}.

Record fs_ok (s : filesystem_t) : Prop := {
  ok_bitmap : bm_ok NUM_BLOCKS (bitmap s);
  ok_block0 : bm_bit (bitmap s) 0 = true;
  ok_length : zlen (files s) = MAX_FILES;
  ok_count : 0 <= file_count s <= MAX_FILES;
  ok_entries : Forall entry_ok (files s);
}.

(** ** Allocation *)

(** The word-wise scan finds the first clear bit. *)
Lemma scan_words_spec ws i :
  Forall word_ok ws →
  match scan_words i ws with
  | Some b => i * 32 <= b < (i + zlen ws) * 32 ∧ bm_bit ws (b - i * 32) = false ∧
                ∀ j, i * 32 <= j < b → bm_bit ws (j - i * 32) = true
  | None => ∀ j, 0 <= j < zlen ws * 32 → bm_bit ws j = true
  end.
Proof.
  intros Hws. revert i. induction Hws as [|w ws Hw Hws IH]; intros i; [unfold zlen; cbn; lia|].
  assert (∀ j, 32 <= j → bm_bit (w :: ws) j = bm_bit ws (j - 32)) as Hskip.
  { intros j Hj. unfold bm_bit. replace ((j - 32) / 32) with (j / 32 - 1) by (Z.div_mod_to_equations; lia).
    replace ((j - 32) mod 32) with (j mod 32) by (Z.div_mod_to_equations; lia).
    assert (1 <= j / 32) by (Z.div_mod_to_equations; lia). unfold zget.
    destruct (Z.ltb_spec (j / 32) 0), (Z.ltb_spec (j / 32 - 1) 0); try lia.
    by replace (Z.to_nat (j / 32)) with (S (Z.to_nat (j / 32 - 1))) by lia. }
  assert (∀ j, 0 <= j < 32 → bm_bit (w :: ws) j = Z.testbit w j) as Hword.
  { intros j Hj. unfold bm_bit. by rewrite Z.div_small, Z.mod_small by lia. }
  assert (zlen (w :: ws) = 1 + zlen ws) as -> by (unfold zlen; rewrite length_cons; lia).
  assert ((∀ j, 0 <= j < 32 → Z.testbit w j = true) →
    match scan_words (i + 1) ws with
    | Some b => i * 32 <= b < (i + (1 + zlen ws)) * 32 ∧ bm_bit (w :: ws) (b - i * 32) = false ∧
                  ∀ j, i * 32 <= j < b → bm_bit (w :: ws) (j - i * 32) = true
    | None => ∀ j, 0 <= j < (1 + zlen ws) * 32 → bm_bit (w :: ws) j = true
    end) as Hnext.
  { intros Hfull. specialize (IH (i + 1)). destruct (scan_words (i + 1) ws) as [b|].
    - destruct IH as (Hb & Hclear & Hbefore). split; [lia|]. split.
      + rewrite Hskip by lia. rewrite <- Hclear. f_equal. lia.
      + intros j Hj. destruct (Z.lt_ge_cases (j - i * 32) 32); [rewrite Hword by lia; apply Hfull; lia|].
        rewrite Hskip by lia. rewrite <- (Hbefore j) by lia. f_equal. lia.
    - intros j Hj. destruct (Z.lt_ge_cases j 32); [rewrite Hword by lia; apply Hfull; lia|].
      rewrite Hskip by lia. apply IH. lia. }
  cbn [scan_words]. destruct (Z.eqb_spec w 0xFFFFFFFF) as [->|Hne]; cbn [negb].
  { apply Hnext. intros j Hj. change 0xFFFFFFFF with (Z.ones 32). apply Z.ones_spec_low. lia. }
  destruct (find_first _ (seqZ 0 32)) as [j|] eqn:E.
  - apply find_first_Some in E as [(x & Hx & Hz) Hbefore]. apply lookup_seqZ in Hx as [-> Hj]. cbn in Hj.
    rewrite land_mask_zero in Hz. apply negb_true_iff in Hz. rewrite Z.add_0_l in Hz.
    rewrite Z.mod_small in Hz by lia.
    split; [unfold zlen; lia|]. replace (i * 32 + Z.of_nat j - i * 32) with (Z.of_nat j) by lia.
    rewrite Hword by lia. split; [done|]. intros k Hk. rewrite Hword by lia.
    specialize (Hbefore (Z.to_nat (k - i * 32)) (k - i * 32) ltac:(lia)).
    rewrite land_mask_zero, Z.mod_small in Hbefore by lia.
    apply negb_false_iff, Hbefore. apply lookup_seqZ. lia.
  - apply Hnext. intros j Hj. rewrite find_first_None in E. specialize (E j).
    rewrite land_mask_zero, Z.mod_small in E by lia. apply negb_false_iff, E. apply elem_of_seqZ. lia.
Qed.

Definition block_used (s : filesystem_t) (b : Z) : bool := bm_bit (bitmap s) b.
Definition free_count (s : filesystem_t) : Z := NUM_BLOCKS - bm_count (bitmap s) NUM_BLOCKS.

Lemma set_bitmap_ok bm s :
  fs_ok s → bm_ok NUM_BLOCKS bm → bm_bit bm 0 = true → fs_ok (set_bitmap bm s).
Proof. intros [] ? ?. by split. Qed.

Lemma alloc_block_cases s :
  fs_ok s →
  (∃ b bm, alloc_block s = Some (b, set_bitmap bm s) ∧ 0 < b < NUM_BLOCKS ∧
     block_used s b = false ∧ (∀ q, 0 <= q < b → block_used s q = true) ∧
     fs_ok (set_bitmap bm s) ∧ free_count (set_bitmap bm s) = free_count s - 1 ∧
     ∀ q, 0 <= q → block_used (set_bitmap bm s) q = (q =? b) || block_used s q) ∨
  (alloc_block s = Some (0, s) ∧ free_count s = 0).
Proof.
  intros Hok. pose proof Hok as [[Hl Hw] H0 _ _ _]. pose proof (scan_words_spec (bitmap s) 0 Hw) as Hscan.
  unfold alloc_block. destruct (scan_words 0 (bitmap s)) as [b|].
  - left. destruct Hscan as (Hb & Hclear & Hbefore). rewrite Z.sub_0_r in Hclear.
    assert (b ≠ 0) by (intros ->; congruence). unfold NUM_BLOCKS in *.
    destruct (bm_set_spec 2048 (bitmap s) (conj Hl Hw) b ltac:(lia)) as (bm & -> & Hbm & Hbits).
    cbn [mbind option_bind]. exists b, bm. split; [done|]. split; [lia|]. split; [done|]. split.
    { intros q Hq. rewrite <- (Z.sub_0_r q). apply Hbefore. lia. }
    split; [|split].
    + apply set_bitmap_ok; [done|done|]. by rewrite Hbits, H0, orb_true_r by lia.
    + unfold free_count, NUM_BLOCKS. cbn [bitmap set_bitmap].
      rewrite (bm_count_update (bitmap s) bm b 2048 true) by (try lia; intros j Hj; rewrite Hbits by done; by destruct (j =? b)).
      rewrite Hclear. cbn [c_bool]. lia.
    + done.
  - right. split; [done|]. unfold free_count, NUM_BLOCKS in *.
    assert (bm_count (bitmap s) 2048 = 2048); [|lia]. apply bm_count_full; [lia|]. intros i Hi. apply Hscan. lia.
Qed.

(** C34. [alloc_block] is first fit although it skips full words 32 blocks at a
    time: it takes the lowest-numbered free block of the 2048, marks exactly
    that one used, and returns 0 with nothing changed only when every block
    is used (block 0 is reserved, so 0 is never a block it hands out). *)
Theorem alloc_block_first_fit (s : filesystem_t) :
  fs_ok s →
  ∃ b s', alloc_block s = Some (b, s') ∧ fs_ok s' ∧
    match find_first (λ q, negb (block_used s q)) (seqZ 0 NUM_BLOCKS) with
    | Some i => b = Z.of_nat i ∧ b ≠ 0 ∧ free_count s' = free_count s - 1 ∧
                ∀ q, 0 <= q → block_used s' q = (q =? b) || block_used s q
    | None => b = 0 ∧ s' = s
    end.
Proof.
  intros Hok. destruct (alloc_block_cases s Hok) as [(b & bm & E & Hb & Hfree & Hbefore & Hok' & Hc & Hbits)|[E Hfull]].
  - exists b, (set_bitmap bm s). split; [done|]. split; [done|].
    assert (find_first (λ q, negb (block_used s q)) (seqZ 0 NUM_BLOCKS) = Some (Z.to_nat b)) as ->.
    { apply find_first_Some. split.
      - exists b. rewrite lookup_seqZ_lt by lia. split; [f_equal; lia|]. by rewrite Hfree.
      - intros j x Hj [-> Hx]%lookup_seqZ. by rewrite Hbefore by lia. }
    split; [lia|]. split; [lia|]. done.
  - exists 0, s. split; [done|]. split; [done|].
    assert (find_first (λ q, negb (block_used s q)) (seqZ 0 NUM_BLOCKS) = None) as ->; [|done].
    apply find_first_None. intros q Hq%elem_of_seqZ. apply negb_false_iff.
    unfold free_count in Hfull. apply (bm_count_full (bitmap s) NUM_BLOCKS); [done|lia|lia].
Qed.

Lemma alloc_blocks_spec n s :
  fs_ok s →
  ∃ bm, let s' := set_bitmap bm s in fs_ok s' ∧
    if Z.of_nat n <=? free_count s
    then alloc_blocks n s = Some (true, s') ∧ free_count s' = free_count s - Z.of_nat n
    else alloc_blocks n s = Some (false, s') ∧ free_count s' = 0.
Proof.
  revert s. induction n as [|n IH]; intros s Hok.
  - exists (bitmap s). replace (set_bitmap (bitmap s) s) with s by by destruct s. split; [done|].
    assert (0 <= free_count s).
    { pose proof (bm_count_bounds (bitmap s) NUM_BLOCKS ltac:(done)). unfold free_count. lia. }
    destruct (Z.leb_spec (Z.of_nat 0) (free_count s)); [|lia]. split; [done|]. lia.
  - cbn [alloc_blocks].
    destruct (alloc_block_cases s Hok) as [(b & bm & -> & Hb & _ & _ & Hok' & Hc & _)|[-> Hfull]]; cbn [mbind option_bind].
    + destruct (Z.eqb_spec b 0); [lia|]. destruct (IH _ Hok') as (bm' & Hok'' & H).
      exists bm'. change (set_bitmap bm' (set_bitmap bm s)) with (set_bitmap bm' s) in *. split; [done|].
      rewrite Hc in H. destruct (Z.leb_spec (Z.of_nat n) (free_count s - 1)), (Z.leb_spec (Z.of_nat (S n)) (free_count s));
        try lia; destruct H as [-> H]; (split; [done|lia]).
    + exists (bitmap s). replace (set_bitmap (bitmap s) s) with s by by destruct s. split; [done|].
      cbn [Z.eqb]. destruct (Z.leb_spec (Z.of_nat (S n)) (free_count s)); [lia|]. done.
Qed.

(** ** Reading and writing *)
Section write.
Context (s : filesystem_t) (Hok : fs_ok s).

Lemma fd_entry fd f : (files s).[fd] = Some f → 0 <= fd < MAX_FILES ∧ entry_ok f.
Proof.
  intros Hf. pose proof (zget_range _ _ _ Hf). rewrite (ok_length s Hok) in *. split; [done|].
  unfold zget in Hf. destruct (_ <? 0); [done|]. by apply (Forall_lookup_1 _ _ _ _ (ok_entries s Hok) Hf).
Qed.

Lemma fd_valid fd : fd < file_count s → (s32 (file_count s) <=? fd) = false.
Proof.
  intros Hfd. pose proof (ok_count s Hok). unfold MAX_FILES in *. rewrite s32_id by lia. by apply Z.leb_gt.
Qed.

Lemma start_offset f : entry_ok f → start_block f *u BLOCK_SIZE = base f.
Proof.
  intros [_ Hb _ _]. apply u32_id.
  unfold base, NUM_BLOCKS, BLOCK_SIZE in *. lia.
Qed.

Lemma enhanced_read_spec fd f room count :
  (files s).[fd] = Some f → fd < file_count s → 0 <= count <= room → room < 2147483648 →
  fs_read fd room count s = Some (Z.min count (size f), take (Z.to_nat count) (contents s f)).
Proof.
  intros Hf Hfd Hc Hr. destruct (fd_entry fd f Hf) as [_ He]. pose proof He as [_ Hb Hs Hx].
  assert (0 <= base f) by (unfold base, BLOCK_SIZE; lia).
  unfold fs_read. rewrite (fd_valid fd Hfd), Hf. cbn [mbind option_bind]. rewrite start_offset by done.
  unfold FS_SIZE in *.
  destruct (Z.ltb_spec (size f) count).
  - rewrite mem_load_Some by (unfold FS_SIZE; lia). cbn [mbind option_bind]. rewrite s32_id, Z.min_r by lia. do 2 f_equal.
    symmetry. apply take_ge. pose proof (mem_read_length (data s) (base f) (size f)). unfold zlen, contents in *. lia.
  - rewrite mem_load_Some by (unfold FS_SIZE; lia). cbn [mbind option_bind]. rewrite s32_id, Z.min_l by lia. do 2 f_equal.
    unfold contents. by rewrite mem_read_take by lia.
Qed.

Definition grown (f : file_entry_t) (n : Z) : file_entry_t :=
  {| filename := filename f; size := size f + n; start_block := start_block f; type := type f; flags := flags f;
     creation_time := creation_time f; modify_time := 0 |}.

(** Blocks [fs_write] asks for to append [n] bytes to a file of [size f]. *)
Definition extra_blocks (f : file_entry_t) (n : Z) : Z := blocks (size f + n) - blocks (size f).

Lemma blocks_div n : 0 <= n < 4294966784 → blocks n = (n + 511) / 512.
Proof. intros Hn. unfold blocks, BLOCK_SIZE. rewrite u32_id by lia. f_equal. lia. Qed.

Lemma extra_blocks_pos f n : 0 <= size f → 0 <= n → size f + n <= FS_SIZE → 0 <= extra_blocks f n.
Proof.
  intros. unfold extra_blocks, FS_SIZE in *. rewrite !blocks_div by lia. Z.div_mod_to_equations. lia.
Qed.

Lemma fs_write_spec fd f buf :
  (files s).[fd] = Some f → fd < file_count s → base f + size f + zlen buf <= FS_SIZE →
  ∃ bm, fs_ok (set_bitmap bm s) ∧
    if extra_blocks f (zlen buf) <=? free_count s then
      let s' := set_files (<[Z.to_nat fd := grown f (zlen buf)]> (files s)) (file_count s)
                  (set_data (mem_write (data s) (base f + size f) buf) (set_bitmap bm s)) in
      fs_write fd buf (zlen buf) s = Some (zlen buf, s') ∧ fs_ok s' ∧
      free_count s' = free_count s - extra_blocks f (zlen buf)
    else fs_write fd buf (zlen buf) s = Some (-1, set_bitmap bm s) ∧ free_count (set_bitmap bm s) = 0.
Proof.
  intros Hf Hfd Hfit. destruct (fd_entry fd f Hf) as [Hr He]. pose proof He as [Hn Hb Hs Hx].
  assert (0 <= zlen buf) as Hz by (unfold zlen; lia).
  assert (0 <= base f) by (unfold base, BLOCK_SIZE; lia).
  assert (0 <= extra_blocks f (zlen buf)) as Hextra by (apply extra_blocks_pos; lia).
  destruct (alloc_blocks_spec (Z.to_nat (extra_blocks f (zlen buf))) s Hok) as (bm & Hok' & Hal).
  exists bm. split; [done|]. rewrite Z2Nat.id in Hal by done.
  unfold fs_write. rewrite (fd_valid fd Hfd), Hf. cbn [mbind option_bind]. unfold extra_blocks in *.
  destruct (Z.leb_spec (blocks (size f + zlen buf) - blocks (size f)) (free_count s)); destruct Hal as [-> Hal];
    cbn [mbind option_bind negb]; [|done].
  cbn [data files set_bitmap]. rewrite start_offset by done. unfold FS_SIZE in *.
  rewrite mem_store_Some by (unfold FS_SIZE; lia). cbn [mbind option_bind].
  rewrite zset_in by (rewrite (ok_length s Hok); done). cbn [mbind option_bind].
  rewrite (u32_id (size f + zlen buf)), (s32_id (zlen buf)) by lia.
  assert (take (Z.to_nat (zlen buf)) buf = buf) as -> by (unfold zlen; by rewrite Nat2Z.id, firstn_all).
  split; [done|]. split; [|done].
  destruct Hok' as [Hok1 Hok2 Hok3 Hok4 Hok5]. split; try done.
  - cbn. unfold zlen. rewrite length_insert. exact Hok3.
  - cbn. apply Forall_insert; [done|]. unfold FS_SIZE in *.
    split; cbn [filename start_block size grown]; [done|done|lia|]. change (base (grown f (zlen buf))) with (base f).
    unfold FS_SIZE. lia.
Qed.
End write.

(** C13. Writing to a file of the block file system appends: when the [extra]
    blocks it asks for are free and the end stays inside the 1 MiB of data,
    [fs_write] returns the count, the file's contents become the old ones
    followed by the new bytes, the blocks are accounted, and every other file
    is untouched unless it lies in the way - the bytes go right behind the
    file's first block, not into the blocks just allocated.  Otherwise it
    returns -1, has used up all the free blocks, and changed no file. *)
Theorem fs_write_appends (s : filesystem_t) (fd : Z) (f : file_entry_t) (buf : list Z) :
  fs_ok s → (files s).[fd] = Some f → fd < file_count s → base f + size f + zlen buf <= FS_SIZE →
  let extra := (size f + zlen buf + 511) / 512 - (size f + 511) / 512 in
  ∃ rc s', fs_write fd buf (zlen buf) s = Some (rc, s') ∧ fs_ok s' ∧
    if extra <=? free_count s then
      rc = zlen buf ∧ free_count s' = free_count s - extra ∧
      (∃ f', (files s').[fd] = Some f' ∧ contents s' f' = contents s f ++ buf ∧ filename f' = filename f) ∧
      ∀ i g, i ≠ fd → (files s).[i] = Some g →
        (files s').[i] = Some g ∧
        (base g + size g <= base f + size f ∨ base f + size f + zlen buf <= base g →
         contents s' g = contents s g)
    else rc = -1 ∧ free_count s' = 0 ∧ files s' = files s ∧ data s' = data s.
Proof.
  intros Hok Hf Hfd Hfit extra. destruct (fd_entry s Hok fd f Hf) as [Hr He]. pose proof He as [_ Hb Hs _].
  assert (extra = extra_blocks f (zlen buf)) as ->.
  { assert (0 <= zlen buf) by (unfold zlen; lia). assert (0 <= base f) by (unfold base, BLOCK_SIZE; lia).
    unfold extra_blocks, FS_SIZE in *. by rewrite !blocks_div by lia. }
  destruct (fs_write_spec s Hok fd f buf Hf Hfd Hfit) as (bm & Hok' & H). cbv zeta in H.
  destruct (extra_blocks f (zlen buf) <=? free_count s).
  2: { destruct H as [-> H]. eexists _, _. by split_and!. }
  destruct H as (-> & Hok'' & Hc). eexists _, _. split; [reflexivity|]. split; [exact Hok''|]. split; [done|]. split; [exact Hc|].
  cbn [files set_files]. pose proof (ok_length s Hok) as Hl. split.
  - exists (grown f (zlen buf)). split; [|split; [|done]].
    + eapply zget_zset_eq. apply zset_in. rewrite Hl. done.
    + unfold contents, grown, base. cbn [data size start_block set_files set_data].
      rewrite mem_read_app by (unfold zlen; lia). rewrite mem_read_write_out by lia. by rewrite mem_read_write_same.
  - intros i g Hi Hg. split.
    + rewrite <- Hg. eapply zget_zset_ne; [done|]. apply zset_in. rewrite Hl. done.
    + intros Hout. unfold contents. cbn [data set_files set_data]. apply mem_read_write_out. lia.
Qed.


(** ** The file system [fs_init] makes *)
#[export] Instance entry_ok_dec f : Decision (entry_ok f).
Proof.
  destruct (decide (name_ok MAX_FILENAME_LEN (filename f) ∧ 0 <= start_block f < NUM_BLOCKS ∧
                           0 <= size f ∧ base f + size f <= FS_SIZE)) as [Hd|Hd]; [left|right].
  - destruct Hd as (H1 & H2 & H3 & H4). by split.
  - intros [H1 H2 H3 H4]. by apply Hd.
Defined.
#[export] Instance fs_ok_dec s : Decision (fs_ok s).
Proof.
  destruct (decide ((zlen (bitmap s) * 32 = NUM_BLOCKS ∧ Forall (λ w, 0 <= w < 4294967296) (bitmap s)) ∧
                           bm_bit (bitmap s) 0 = true ∧ zlen (files s) = MAX_FILES ∧
                           0 <= file_count s <= MAX_FILES ∧ Forall entry_ok (files s))) as [Hd|Hd]; [left|right].
  - destruct Hd as (H1 & H2 & H3 & H4 & H5). by split.
  - intros [H1 H2 H3 H4 H5]. by apply Hd.
Defined.

(** The entries [fs_init] leaves for test.txt (41 bytes from block 5) and
    welcome.txt (31 bytes from block 7). *)
Definition initial_entry (name : list Z) (n b : Z) : file_entry_t :=
  {| filename := name ++ replicate (256 - length name) 0; size := n; start_block := b;
     type := FILE_TYPE_REGULAR; flags := 0; creation_time := 0; modify_time := 0 |}.
Definition test_entry : file_entry_t := initial_entry (bytes_of_string "test.txt") 41 5.
Definition welcome_entry : file_entry_t := initial_entry (bytes_of_string "welcome.txt") 31 7.

Definition fields (f : file_entry_t) : list Z :=
  [size f; start_block f; type f; flags f; creation_time f; modify_time f].

Lemma entry_eq f g : filename f = filename g → fields f = fields g → f = g.
Proof. destruct f, g. unfold fields. cbn. intros -> H. injection H as -> -> -> -> -> ->. reflexivity. Qed.

(** The facts about the initial state, as one decidable proposition. *)
Definition entry_at (s : filesystem_t) (fd : Z) (e : file_entry_t) : Prop :=
  (λ f, (filename f, fields f)) <$> (files s).[fd] = Some (filename e, fields e).
Definition init_facts (s : filesystem_t) : Prop :=
  fs_ok s ∧ file_count s = 3 ∧ free_count s = 2039 ∧ entry_at s 1 test_entry ∧ entry_at s 2 welcome_entry ∧
  contents s test_entry = bytes_of_string "Hello, File System!
This is a test file.
" ∧ contents s welcome_entry = bytes_of_string "Welcome to the OS File System!
".
#[export] Instance init_facts_dec s : Decision (init_facts s).
Proof. unfold init_facts, entry_at. apply _. Defined.

Lemma fs_init_check : match fs_init with Some s => bool_decide (init_facts s) | None => false end = true.
Proof. vm_compute. reflexivity. Qed.

Lemma entry_at_lookup s fd e : entry_at s fd e → (files s).[fd] = Some e.
Proof.
  unfold entry_at. destruct ((files s).[fd]) as [f|]; [|done]. cbn. intros [= H1 H2].
  f_equal. apply entry_eq; [done|]. unfold fields. congruence.
Qed.

Lemma fs_init_ok : ∃ s, fs_init = Some s ∧ init_facts s.
Proof.
  pose proof fs_init_check as H. destruct fs_init as [s|]; [|done]. exists s. split; [done|].
  by apply bool_decide_eq_true in H.
Qed.

(** Two files of the initial file system collide: appending to test.txt is
    harmless while its 41 bytes and the new ones fit two blocks, but the
    byte after those 1024 is the first byte of welcome.txt, so reading
    welcome.txt afterwards gives the tail of the data written to test.txt
    and only then what is left of its own text. *)
Theorem fs_growth_overwrites (buf : list Z) :
  41 + zlen buf <= 1044480 →
  ∃ s s', fs_init = Some s ∧ fs_write 1 buf (zlen buf) s = Some (zlen buf, s') ∧
    fs_read 2 31 31 s' =
      Some (31, take 31 (drop 983 buf ++ drop (length buf - 983) (bytes_of_string "Welcome to the OS File System!
"))).
Proof.
  intros Hlen. destruct fs_init_ok as (s & E & Hok & Hcount & Hfree & H1%entry_at_lookup & H2%entry_at_lookup & _ & Hw).
  destruct (fs_write_spec s Hok 1 test_entry buf H1) as (bm & _ & H); [lia|change (base test_entry) with 2560; unfold FS_SIZE; change (size test_entry) with 41; lia|].
  cbv zeta in H. assert (0 <= zlen buf) by (unfold zlen; lia).
  assert (extra_blocks test_entry (zlen buf) <= 2039) as Hx.
  { unfold extra_blocks. change (size test_entry) with 41. rewrite !blocks_div by lia. Z.div_mod_to_equations. lia. }
  rewrite Hfree in H. destruct (Z.leb_spec (extra_blocks test_entry (zlen buf)) 2039); [|lia].
  destruct H as (Ew & Hok' & _). exists s. eexists. split; [exact E|]. split; [exact Ew|]. clear E Ew.
  rewrite (enhanced_read_spec _ Hok' 2 welcome_entry); [|rewrite <- H2; eapply (zget_zset_ne _ 1); [lia|apply zset_in; by rewrite (ok_length s Hok)]
     |cbn; lia|lia|lia].
  change (Z.min 31 (size welcome_entry)) with 31. do 2 f_equal.
  unfold contents. cbn [data set_files set_data set_bitmap]. change (base welcome_entry) with 3584.
  change (base test_entry + size test_entry) with 2601. change (size welcome_entry) with 31.
  rewrite mem_read_overrun by lia. change (Z.to_nat (3584 - 2601)) with 983%nat.
  unfold contents in Hw. change (base welcome_entry) with 3584 in Hw. change (size welcome_entry) with 31 in Hw.
  rewrite Hw. change (Z.to_nat 31) with 31%nat. rewrite take_take. done.
Qed.

Lemma fs_growth_overwrites_witness :
  ∃ s s', fs_init = Some s ∧ fs_write 1 (replicate 1000 65) (zlen (replicate 1000 65)) s = Some (zlen (replicate 1000 65), s') ∧
    fs_read 2 31 31 s' =
      Some (31, take 31 (drop 983 (replicate 1000 65) ++
                         drop (length (replicate 1000 65) - 983) (bytes_of_string "Welcome to the OS File System!
"))).
Proof. apply (fs_growth_overwrites (replicate 1000 65)). vm_compute. discriminate. Defined.

Lemma alloc_block_first_fit_witness :
  ∃ s0, fs_init = Some s0 ∧
  ∃ b s', alloc_block s0 = Some (b, s') ∧ fs_ok s' ∧
    match find_first (λ q, negb (block_used s0 q)) (seqZ 0 NUM_BLOCKS) with
    | Some i => b = Z.of_nat i ∧ b ≠ 0 ∧ free_count s' = free_count s0 - 1 ∧
                ∀ q, 0 <= q → block_used s' q = (q =? b) || block_used s0 q
    | None => b = 0 ∧ s' = s0
    end.
Proof.
  destruct fs_init_ok as (s & E & Hok & _). exists s. split; [exact E|]. apply (alloc_block_first_fit s Hok).
Defined.

Lemma fs_write_appends_witness :
  ∃ s, fs_init = Some s ∧
  let extra := (size welcome_entry + zlen [1; 2; 3] + 511) / 512 - (size welcome_entry + 511) / 512 in
  ∃ rc s', fs_write 2 [1; 2; 3] (zlen [1; 2; 3]) s = Some (rc, s') ∧ fs_ok s' ∧
    if extra <=? free_count s then
      rc = zlen [1; 2; 3] ∧ free_count s' = free_count s - extra ∧
      (∃ f', (files s').[2] = Some f' ∧ contents s' f' = contents s welcome_entry ++ [1; 2; 3] ∧
             filename f' = filename welcome_entry) ∧
      ∀ i g, i ≠ 2 → (files s).[i] = Some g →
        (files s').[i] = Some g ∧
        (base g + size g <= base welcome_entry + size welcome_entry ∨
         base welcome_entry + size welcome_entry + zlen [1; 2; 3] <= base g → contents s' g = contents s g)
    else rc = -1 ∧ free_count s' = 0 ∧ files s' = files s ∧ data s' = data s.
Proof.
  destruct fs_init_ok as (s & E & Hok & Hcount & _ & _ & H2%entry_at_lookup & _). exists s. split; [exact E|].
  apply (fs_write_appends s 2 welcome_entry [1; 2; 3] Hok H2); [rewrite Hcount; lia|].
  vm_compute. discriminate.
Defined.

End FsEnhanced.
