(* ===== verification/ProgramLoader.v ===== *)
(** * ProgramLoader: loading ELF programs (kernel/program_loader.c)

    The loader's client view of the file system is the class [FileSystem];
    the linked fs/vfs_simple.c is an instance.  Pointers into
    [program_memory] are offsets; [None] as a pointer is NULL.  What the
    stack holds in the uninitialised [header] is the parameter [garbage]. *)
From S2P Require Import Prelude CString Mem Process VfsSimple.
Import Process.

Module ProgramLoader.

Definition ELF_MAGIC : Z := 0x464C457F.
Definition ELF_CLASS_32 : Z := 1.
Definition ELF_DATA_LSB : Z := 1.
Definition ELF_TYPE_EXEC : Z := 2.
Definition ELF_MACHINE_386 : Z := 3.
Definition PT_LOAD : Z := 1.
Definition MAX_PROGRAM_SIZE : Z := 1048576.
(** [sizeof(elf32_header_t)] and [sizeof(elf32_phdr_t)] *)
Definition SIZEOF_HEADER : Z := 52.
Definition SIZEOF_PHDR : Z := 32.

(** The fields of the packed structures the loader looks at. *)
Record elf32_header_t := {
  e_magic : Z; e_class : Z; e_data : Z; e_type : Z; e_machine : Z; e_entry : Z; e_phoff : Z;
  e_phentsize : Z; e_phnum : Z;
}.
Record elf32_phdr_t := { p_type : Z; p_offset : Z; p_vaddr : Z; p_filesz : Z; p_memsz : Z }.

(** Little-endian fields at a byte offset. *)
Definition le8 (b : list Z) (o : Z) : option Z := b.[o].
Definition le16 (b : list Z) (o : Z) : option Z := x ← b.[o]; y ← b.[o + 1]; Some (x + 256 * y).
Definition le32 (b : list Z) (o : Z) : option Z := x ← le16 b o; y ← le16 b (o + 2); Some (x + 65536 * y).

Definition read_header (b : list Z) : option elf32_header_t :=
  magic ← le32 b 0; class ← le8 b 4; dat ← le8 b 5; ty ← le16 b 16; machine ← le16 b 18;
  entry ← le32 b 24; phoff ← le32 b 28; phentsize ← le16 b 42; phnum ← le16 b 44;
  Some {| e_magic := magic; e_class := class; e_data := dat; e_type := ty; e_machine := machine;
          e_entry := entry; e_phoff := phoff; e_phentsize := phentsize; e_phnum := phnum |}.

Definition read_phdr (b : list Z) : option elf32_phdr_t :=
  ty ← le32 b 0; off ← le32 b 4; vaddr ← le32 b 8; filesz ← le32 b 16; memsz ← le32 b 20;
  Some {| p_type := ty; p_offset := off; p_vaddr := vaddr; p_filesz := filesz; p_memsz := memsz |}.

Record program_info_t := {
  entry_point : Z;
  base_address : Z;
  size : Z;
  stack_size : Z;
  is_loaded : Z;
}.

Record loader_state := { program_memory : mem; program_memory_used : Z }.

Definition set_memory (m : mem) (l : loader_state) : loader_state :=
  {| program_memory := m; program_memory_used := program_memory_used l |}.
Definition set_used (u : Z) (l : loader_state) : loader_state :=
  {| program_memory := program_memory l; program_memory_used := u |}.

Definition program_loader_init (l : loader_state) : Z * loader_state := (0, set_used 0 l).

Definition program_validate_elf (header : elf32_header_t) : Z :=
  if negb (e_magic header =? ELF_MAGIC) then -1
  else if negb (e_class header =? ELF_CLASS_32) then -1
  else if negb (e_data header =? ELF_DATA_LSB) then -1
  else if negb (e_type header =? ELF_TYPE_EXEC) then -1
  else if negb (e_machine header =? ELF_MACHINE_386) then -1
  else 0.

Definition program_alloc_memory (sz alignment : Z) (l : loader_state) : option Z * loader_state :=
  let aligned_addr := Z.land (u32 (program_memory_used l + alignment - 1)) (~u (alignment -u 1)) in
  if MAX_PROGRAM_SIZE <? aligned_addr +u sz then (None, l)
  else (Some aligned_addr, set_used (aligned_addr +u sz) l).

Definition program_free_memory (ptr sz : Z) (l : loader_state) : loader_state :=
  if ptr +u sz =? program_memory_used l then set_used (program_memory_used l -u sz) l else l.

(** ** The file system the loader calls

    [fs_read fd room count]: [room] bytes are reachable at the buffer; the
    bytes stored at its beginning are returned. *)
Class FileSystem (S : Type) := {
  fs_open : list Z → Z → S → option (Z * S);
  fs_close : Z → S → option (Z * S);
  fs_seek : Z → Z → S → option (Z * S);
  fs_read : Z → Z → Z → S → option (Z * list Z * S);
}.

(** The linked implementation. *)
#[export] Instance linked_fs : FileSystem (list VfsSimple.simple_fd_t) := {|
  fs_open _ _ s := Some (VfsSimple.fs_open s);
  fs_close := VfsSimple.fs_close;
  fs_seek := VfsSimple.fs_seek;
  fs_read fd room count s :=
    '(rc, buf, s) ← VfsSimple.fs_read fd (replicate (Z.to_nat room) 0) count s;
    Some (rc, take (Z.to_nat rc) buf, s);
|}.

Section loader.
Context {S : Type} `{FileSystem S} (garbage : list Z).

(** Base address and size, as the loop keeps them. *)
Definition note_segment (ph : elf32_phdr_t) (info : program_info_t) : program_info_t :=
  let base := if p_vaddr ph <? base_address info then p_vaddr ph else base_address info in
  let top := p_vaddr ph +u p_memsz ph in
  {| entry_point := entry_point info; base_address := base;
     size := if base +u size info <? top then top -u base else size info;
     stack_size := stack_size info; is_loaded := is_loaded info |}.

(** [fs_read(fd, program_memory + at, count)] *)
Definition read_into (fd at_ count : Z) (l : loader_state) (s : S) : option (Z * loader_state * S) :=
  '(rc, bs, s) ← fs_read fd (MAX_PROGRAM_SIZE - at_) count s;
  Some (rc, set_memory (mem_write (program_memory l) at_ bs) l, s).

(** One round of the loop over the program headers; [false] when it fails. *)
Definition load_segment (fd : Z) (ph : elf32_phdr_t) (info : program_info_t) (l : loader_state) (s : S)
    : option (bool * program_info_t * loader_state * S) :=
  if p_type ph =? PT_LOAD then
    let info := note_segment ph info in
    match program_alloc_memory (p_vaddr ph +u p_memsz ph) 4096 l with
    | (None, l) => Some (false, info, l, s)
    | (Some segment_ptr, l) =>
        '(ok, l, s) ←
          (if 0 <? p_filesz ph then
             '(_, s) ← fs_seek fd (p_offset ph) s;
             '(rc, l, s) ← read_into fd (segment_ptr + p_vaddr ph) (p_filesz ph) l s;
             Some (u32 rc =? p_filesz ph, l, s)
           else Some (true, l, s));
        if negb (ok : bool) then Some (false, info, l, s)
        else if p_filesz ph <? p_memsz ph then
          m ← mem_fill MAX_PROGRAM_SIZE (program_memory l) (segment_ptr + p_vaddr ph + p_filesz ph) 0
                (p_memsz ph - p_filesz ph);
          Some (true, info, set_memory m l, s)
        else Some (true, info, l, s)
    end
  else Some (true, info, l, s).

(** [phdrs[i]], in program memory *)
Definition phdr_at (phdrs i : Z) (l : loader_state) : option elf32_phdr_t :=
  bs ← mem_load MAX_PROGRAM_SIZE (program_memory l) (phdrs + i * SIZEOF_PHDR) SIZEOF_PHDR SIZEOF_PHDR;
  read_phdr bs.

Fixpoint load_segments (n : nat) (i phdrs fd : Z) (info : program_info_t) (l : loader_state) (s : S)
    : option (bool * program_info_t * loader_state * S) :=
  match n with
  | O => Some (true, info, l, s)
  | Datatypes.S n =>
      ph ← phdr_at phdrs i l;
      '(ok, info, l, s) ← load_segment fd ph info l s;
      if (ok : bool) then load_segments n (i + 1) phdrs fd info l s else Some (false, info, l, s)
  end.

(** Failure after the descriptor has been opened. *)
Definition fail (fd : Z) (info : program_info_t) (l : loader_state) (s : S)
    : option (Z * program_info_t * loader_state * S) :=
  '(_, s) ← fs_close fd s; Some (-1, info, l, s).

(** [program_load] once both pointers are known not to be NULL. *)
Definition load_program (filename : list Z) (info : program_info_t) (l : loader_state) (s : S)
    : option (Z * program_info_t * loader_state * S) :=
  '(fd, s) ← fs_open filename 0 s;
  if fd <? 0 then Some (-1, info, l, s)
  else
    '(_, s) ← fs_seek fd 0 s;
    '(rc, bs, s) ← fs_read fd SIZEOF_HEADER SIZEOF_HEADER s;
    if negb (u32 rc =? SIZEOF_HEADER) then fail fd info l s
    else
      header ← read_header (bs ++ drop (length bs) garbage);
      if negb (program_validate_elf header =? 0) then fail fd info l s
      else
        let ph_size := e_phentsize header *u e_phnum header in
        match program_alloc_memory ph_size 4 l with
        | (None, l) => fail fd info l s
        | (Some phdrs, l) =>
            '(_, s) ← fs_seek fd (e_phoff header) s;
            '(bytes_read, l, s) ← read_into fd phdrs ph_size l s;
            if (bytes_read <? 0) || negb (bytes_read =? ph_size)
            then fail fd info (program_free_memory phdrs ph_size l) s
            else
              let info := {| entry_point := e_entry header; base_address := 0xFFFFFFFF; size := 0;
                             stack_size := 8192; is_loaded := 0 |} in
              '(ok, info, l, s) ← load_segments (Z.to_nat (e_phnum header)) 0 phdrs fd info l s;
              let l := program_free_memory phdrs ph_size l in
              if negb (ok : bool) then fail fd info l s
              else
                '(_, s) ← fs_close fd s;
                Some (0, {| entry_point := entry_point info; base_address := base_address info;
                            size := size info; stack_size := stack_size info; is_loaded := 1 |}, l, s)
        end.

(** NULL pointers are [None]. *)
Definition program_load (filename : option (list Z)) (prog_info : option program_info_t) (l : loader_state) (s : S)
    : option (Z * option program_info_t * loader_state * S) :=
  match filename, prog_info with
  | Some name, Some info => '(rc, info, l, s) ← load_program name info l s; Some (rc, Some info, l, s)
  | _, _ => Some (-1, prog_info, l, s)
  end.

(** [process_create]'s state and the addresses of the process stacks. *)
Context (stack_base : Z → Z).

Definition program_execute_from_info (prog_info : option program_info_t) (l : loader_state) (ps : process_system)
    : option (Z * loader_state * process_system) :=
  match prog_info with
  | None => Some (-1, l, ps)
  | Some info =>
    if is_loaded info =? 0 then Some (-1, l, ps)
    else match program_alloc_memory (stack_size info) 4 l with
    | (None, l) => Some (-1, l, ps)
    | (Some stack_ptr, l) =>
        '(pid, ps) ← process_create stack_base (lit "user_program")
                       (if entry_point info =? 0 then None else Some (entry_point info)) ps;
        if pid <? 0 then Some (-1, program_free_memory stack_ptr (stack_size info) l, ps)
        else Some (pid, l, ps)
    end
  end.

Definition program_cleanup (prog_info : option program_info_t) (l : loader_state) : loader_state :=
  match prog_info with
  | Some info => if is_loaded info =? 0 then l else set_used 0 l
  | None => l
  end.

(** [info] is the uninitialised [prog_info] on the stack. *)
Definition program_execute (filename : option (list Z)) (info : program_info_t) (l : loader_state) (ps : process_system)
    (s : S) : option (Z * loader_state * process_system * S) :=
  '(rc, prog_info, l, s) ← program_load filename (Some info) l s;
  if negb (rc =? 0) then Some (-1, l, ps, s)
  else
    '(result, l, ps) ← program_execute_from_info prog_info l ps;
    Some (result, program_cleanup prog_info l, ps, s).
End loader.

(** ** The linked file system never yields a program *)

Lemma open_slot s i :
  VfsSimple.vfs_ok s → find_first VfsSimple.fd_free s = Some i →
  VfsSimple.vfs_ok (VfsSimple.fs_open s).2 ∧
  (VfsSimple.fs_open s).2 !! i = Some {| VfsSimple.inode := 1; VfsSimple.offset := 0; VfsSimple.in_use := 1 |}.
Proof.
  intros [Hl Hr] Hi. pose proof (find_first_lt _ _ _ Hi). unfold VfsSimple.fs_open. rewrite Hi. cbn [snd]. split.
  - split; [by rewrite length_insert|]. apply Forall_insert; [done|]. cbn. lia.
  - by apply list_lookup_insert_eq.
Qed.

(** With the file system the kernel links, no program can be executed:
    whatever the file name, [program_execute] returns -1 and leaves the
    program memory and the process table as they were, because the 16 bytes
    every file yields are shorter than an ELF header; the descriptor it
    used is closed again. *)
Theorem program_execute_never_loads (garbage : list Z) (filename : option (list Z)) (stack_base : Z → Z) (info : program_info_t)
    (l : loader_state) (ps : process_system) (s : list VfsSimple.simple_fd_t) :
  VfsSimple.vfs_ok s →
  ∃ s', program_execute garbage stack_base filename info l ps s = Some (-1, l, ps, s') ∧
    VfsSimple.fd_view s' = VfsSimple.fd_view s ∧ VfsSimple.vfs_ok s'.
Proof.
  intros Hok. unfold program_execute, program_load. destruct filename as [name|]; [|by exists s].
  unfold load_program. cbn [linked_fs fs_open fs_seek fs_read].
  destruct (find_first VfsSimple.fd_free s) as [i|] eqn:Ei.
  2: { unfold VfsSimple.fs_open. rewrite Ei. cbn. by exists s. }
  destruct (open_slot s i Hok Ei) as [Hok1 Hi].
  assert (VfsSimple.fs_open s = (Z.of_nat i, (VfsSimple.fs_open s).2)) as Eo.
  { unfold VfsSimple.fs_open. by rewrite Ei. }
  rewrite Eo. cbn [mbind option_bind]. destruct (Z.ltb_spec (Z.of_nat i) 0); [lia|].
  set (s1 := (VfsSimple.fs_open s).2) in *. set (d := {| VfsSimple.inode := 1; VfsSimple.offset := 0; VfsSimple.in_use := 1 |}) in *.
  destruct (VfsSimple.open_fd_at s1 i d Hok1 Hi ltac:(done)) as [Ef Hset].
  assert (VfsSimple.fs_seek (Z.of_nat i) 0 s1 = Some (0, s1)) as ->.
  { unfold VfsSimple.fs_seek. rewrite Ef. cbn [mbind option_bind].
    destruct (Hset (VfsSimple.set_offset 0 d)) as [-> _]; [cbn; lia|]. cbn [mbind option_bind].
    by rewrite list_insert_id. }
  cbn [mbind option_bind].
  destruct (VfsSimple.fs_read_spec s1 i d (replicate (Z.to_nat SIZEOF_HEADER) 0) SIZEOF_HEADER Hok1 Hi) as (s2 & -> & Hok2 & ->);
    [done|done|done|unfold zlen; rewrite length_replicate; done|].
  cbn [mbind option_bind]. change (u32 _ =? SIZEOF_HEADER) with false. cbn [negb]. unfold fail. cbn [linked_fs fs_close].
  set (d2 := VfsSimple.set_offset _ d) in *. pose proof (lookup_lt_Some _ _ _ Hi) as Hlt.
  assert (<[i := d2]> s1 !! i = Some d2) as Hi2 by by apply list_lookup_insert_eq.
  destruct (VfsSimple.open_fd_at _ i d2 Hok2 Hi2 ltac:(done)) as [Ef2 Hset2].
  unfold VfsSimple.fs_close. rewrite Ef2. cbn [mbind option_bind].
  destruct (Hset2 (VfsSimple.set_in_use 0 d2)) as [-> Hok3]; [by vm_compute|]. cbn [mbind option_bind].
  eexists. split; [reflexivity|]. split; [|exact Hok3].
  unfold s1, VfsSimple.fs_open, VfsSimple.fd_view. rewrite Ei. cbn [snd]. rewrite !list_insert_insert_eq.
  rewrite list_fmap_insert. apply list_insert_id. rewrite list_lookup_fmap.
  apply find_first_Some in Ei as [(x & -> & Hx) _]. cbn. unfold VfsSimple.fd_offset, VfsSimple.fd_free in *. by rewrite Hx.
Qed.


(** ** What a file system promises the loader

    Files hold the bytes [file]: [closed s] when a descriptor can be opened,
    [at_ s fd p] when [fd] is open at position [p]. *)
Class FileLaws {S : Type} `{FileSystem S} (file : list Z) (closed : S → Prop) (at_ : S → Z → Z → Prop) := {
  law_open name s : closed s → ∃ fd s', fs_open name 0 s = Some (fd, s') ∧ 0 <= fd ∧ at_ s' fd 0;
  law_seek fd p off s : at_ s fd p → 0 <= off < 4294967296 → ∃ rc s', fs_seek fd off s = Some (rc, s') ∧ at_ s' fd off;
  law_read fd p room count s :
    at_ s fd p → 0 <= count <= room → 0 <= p → p + count < 4294967296 → count < 2147483648 →
    let n := Z.min count (Z.max 0 (zlen file - p)) in
    ∃ s', fs_read fd room count s = Some (n, take (Z.to_nat n) (drop (Z.to_nat p) file), s') ∧ at_ s' fd (p + n);
  law_close fd p s : at_ s fd p → ∃ rc s', fs_close fd s = Some (rc, s') ∧ closed s';
}.

(** The linked file system keeps the promise for its 16-byte sample. *)
Definition linked_closed (s : list VfsSimple.simple_fd_t) : Prop :=
  VfsSimple.vfs_ok s ∧ is_Some (find_first VfsSimple.fd_free s).
Definition linked_at (s : list VfsSimple.simple_fd_t) (fd p : Z) : Prop :=
  VfsSimple.vfs_ok s ∧ ∃ i d, fd = Z.of_nat i ∧ s !! i = Some d ∧ VfsSimple.in_use d ≠ 0 ∧ VfsSimple.offset d = p.

Lemma fd_update s i d d' :
  VfsSimple.vfs_ok s → s !! i = Some d → VfsSimple.in_use d ≠ 0 → VfsSimple.in_use d' ≠ 0 →
  0 <= VfsSimple.offset d' < 4294967296 →
  VfsSimple.open_fd (Z.of_nat i) s = Some (Some d) ∧ zset s (Z.of_nat i) d' = Some (<[i := d']> s) ∧
  linked_at (<[i := d']> s) (Z.of_nat i) (VfsSimple.offset d').
Proof.
  intros Hok Hi Hu Hu' Ho. destruct (VfsSimple.open_fd_at s i d Hok Hi Hu) as [E Hset].
  destruct (Hset d' Ho) as [Ez Hok']. split; [done|]. split; [done|]. split; [done|]. exists i, d'.
  split; [done|]. split; [|done]. apply list_lookup_insert_eq. by eapply lookup_lt_Some.
Qed.

#[export] Instance linked_laws : FileLaws (bytes_of_string "Hello from VFS!
") linked_closed linked_at.
Proof.
  split.
  - intros name s [Hok [i Hi]]. destruct (open_slot s i Hok Hi) as [Hok1 Hlook].
    exists (Z.of_nat i), (VfsSimple.fs_open s).2. cbn [linked_fs fs_open]. split.
    { unfold VfsSimple.fs_open. by rewrite Hi. }
    split; [lia|]. split; [done|]. by eexists i, _.
  - intros fd p off s (Hok & i & d & -> & Hi & Hu & Hp) Hoff.
    destruct (fd_update s i d (VfsSimple.set_offset off d) Hok Hi Hu Hu Hoff) as (E & Ez & Hat).
    cbn [linked_fs fs_seek]. unfold VfsSimple.fs_seek. rewrite E. cbn [mbind option_bind]. rewrite Ez. by eexists _, _.
  - intros fd p room count s (Hok & i & d & -> & Hi & Hu & <-) Hc Hpos Hw Hc' n. cbn [linked_fs fs_read].
    destruct (VfsSimple.fs_read_spec s i d (replicate (Z.to_nat room) 0) count Hok Hi Hu) as (s' & -> & Hok' & ->);
      [lia|lia|unfold zlen; rewrite length_replicate; lia|]. cbn [mbind option_bind].
    change (zlen (bytes_of_string _)) with 16 in n. fold n. eexists. split.
    + do 2 f_equal. rewrite take_app_length'.
      2: { rewrite length_take, length_drop, VfsSimple.sample_length. lia. }
      unfold VfsSimple.sample_data, lit.
      destruct (Z.le_gt_cases 16 (VfsSimple.offset d)); [replace n with 0 by lia; reflexivity|].
      rewrite drop_app_le by (change (length (bytes_of_string _)) with 16%nat; lia).
      f_equal. apply take_app_le. rewrite length_drop. change (length (bytes_of_string _)) with 16%nat. lia.
    + destruct (fd_update s i d (VfsSimple.set_offset (VfsSimple.offset d + n) d) Hok Hi Hu Hu) as (_ & _ & Hat);
        [cbn; lia|exact Hat].
  - intros fd p s (Hok & i & d & -> & Hi & Hu & <-). destruct (VfsSimple.open_fd_at s i d Hok Hi Hu) as [E Hset].
    cbn [linked_fs fs_close]. unfold VfsSimple.fs_close. rewrite E. cbn [mbind option_bind].
    destruct (Hset (VfsSimple.set_in_use 0 d)) as [-> Hok'].
    { destruct Hok as [_ Hr]. apply (Forall_lookup_1 _ _ _ _ Hr Hi). }
    cbn [mbind option_bind]. eexists _, _. split; [done|]. split; [done|].
    destruct (find_first VfsSimple.fd_free _) as [j|] eqn:Ej; [by eexists|]. exfalso.
    rewrite find_first_None in Ej. specialize (Ej (VfsSimple.set_in_use 0 d)). discriminate Ej.
    apply (list_elem_of_lookup_2 _ i). apply list_lookup_insert_eq. by eapply lookup_lt_Some.
Qed.

(** ** Loading a well-formed program *)
Definition align (k u : Z) : Z := 2 ^ k * ((u + 2 ^ k - 1) / 2 ^ k).

Lemma align_bounds k u : 0 <= k → u <= align k u < u + 2 ^ k.
Proof. intros Hk. unfold align. assert (0 < 2 ^ k) by (apply Z.pow_pos_nonneg; lia). Z.div_mod_to_equations. nia. Qed.

Lemma program_alloc_ok k sz l :
  k = 2 ∨ k = 12 → 0 <= program_memory_used l → 0 <= sz → align k (program_memory_used l) + sz <= MAX_PROGRAM_SIZE →
  program_alloc_memory sz (2 ^ k) l =
    (Some (align k (program_memory_used l)), set_used (align k (program_memory_used l) + sz) l).
Proof.
  intros Hk Hu Hsz Hfit. pose proof (align_bounds k (program_memory_used l) ltac:(lia)) as Ha.
  assert (0 < 2 ^ k <= 4096) as Hp by (destruct Hk as [->| ->]; cbn; lia).
  unfold program_alloc_memory. unfold MAX_PROGRAM_SIZE in *.
  rewrite (u32_id (program_memory_used l + 2 ^ k - 1)) by lia.
  assert (2 ^ k -u 1 = Z.ones k) as -> by (rewrite u32_id by lia; rewrite Z.ones_equiv; lia).
  rewrite land_not_ones by lia. fold (align k (program_memory_used l)).
  rewrite u32_id by lia. by destruct (Z.ltb_spec 1048576 (align k (program_memory_used l) + sz)); [lia|].
Qed.

Section correct.
Context {S : Type} {HS : FileSystem S} (file : list Z) (closed : S → Prop) (at_ : S → Z → Z → Prop).
Context {Hlaws : FileLaws file closed at_} (Hlen : zlen file < 2147483648).

(** The bytes a segment must have in memory. *)
Definition image (ph : elf32_phdr_t) : list Z :=
  take (Z.to_nat (p_filesz ph)) (drop (Z.to_nat (p_offset ph)) file) ++
  replicate (Z.to_nat (p_memsz ph - p_filesz ph)) 0.

(** A loadable segment lies inside the file and has room from [u] on. *)
Definition segment_ok (u : Z) (ph : elf32_phdr_t) : Prop :=
  0 <= p_vaddr ph ∧ 0 <= p_filesz ph <= p_memsz ph ∧ 0 <= p_offset ph ∧ p_offset ph + p_filesz ph <= zlen file ∧
  align 12 u + p_vaddr ph + p_memsz ph <= MAX_PROGRAM_SIZE.
Definition segment_end (u : Z) (ph : elf32_phdr_t) : Z := align 12 u + p_vaddr ph + p_memsz ph.

(** The segments one after the other from [u] on: they fit; they are there. *)
Fixpoint fits (u : Z) (phs : list elf32_phdr_t) : Prop :=
  match phs with
  | [] => True
  | ph :: phs => if p_type ph =? PT_LOAD then segment_ok u ph ∧ fits (segment_end u ph) phs else fits u phs
  end.
Fixpoint placed (m : mem) (u : Z) (phs : list elf32_phdr_t) : Prop :=
  match phs with
  | [] => True
  | ph :: phs =>
      if p_type ph =? PT_LOAD
      then mem_read m (align 12 u + p_vaddr ph) (p_memsz ph) = image ph ∧ placed m (segment_end u ph) phs
      else placed m u phs
  end.

(** Reading [count] bytes of the file at the current position into memory. *)
Lemma read_into_ok fd p a count l s :
  at_ s fd p → 0 <= p → 0 <= count → p + count <= zlen file → a + count <= MAX_PROGRAM_SIZE →
  ∃ l' s', read_into fd a count l s = Some (count, l', s') ∧ at_ s' fd (p + count) ∧
    program_memory_used l' = program_memory_used l ∧
    mem_read (program_memory l') a count = take (Z.to_nat count) (drop (Z.to_nat p) file) ∧
    ∀ x, x < a ∨ a + count <= x → program_memory l' x = program_memory l x.
Proof.
  intros Hat Hp Hc Hf Ha. unfold read_into.
  destruct (law_read fd p (MAX_PROGRAM_SIZE - a) count s Hat) as (s' & -> & Hat'); [lia..|].
  rewrite Z.max_r, Z.min_l in * by lia. cbn [mbind option_bind].
  set (bs := take (Z.to_nat count) (drop (Z.to_nat p) file)).
  assert (zlen bs = count) as Hbs by (unfold bs, zlen in *; rewrite length_take, length_drop; lia).
  eexists _, s'. split; [reflexivity|]. split; [done|]. split; [done|]. cbn [program_memory set_memory]. split.
  - rewrite <- Hbs. apply mem_read_write_same.
  - intros x Hx. apply mem_write_out. lia.
Qed.

Lemma load_segment_ok fd p ph info l s :
  at_ s fd p → 0 <= program_memory_used l → p_type ph = PT_LOAD → segment_ok (program_memory_used l) ph →
  ∃ info' l' s' p', load_segment fd ph info l s = Some (true, info', l', s') ∧ at_ s' fd p' ∧
    entry_point info' = entry_point info ∧
    program_memory_used l' = segment_end (program_memory_used l) ph ∧
    mem_read (program_memory l') (align 12 (program_memory_used l) + p_vaddr ph) (p_memsz ph) = image ph ∧
    ∀ x, x < program_memory_used l → program_memory l' x = program_memory l x.
Proof.
  intros Hat Hu Ht (Hv & Hsz & Ho & Hin & Hfit). pose proof (align_bounds 12 (program_memory_used l) ltac:(lia)) as Ha.
  unfold load_segment. rewrite Ht, Z.eqb_refl. unfold MAX_PROGRAM_SIZE in Hfit.
  rewrite (u32_id (p_vaddr ph + p_memsz ph)) by lia. change 4096 with (2 ^ 12).
  rewrite program_alloc_ok by (unfold MAX_PROGRAM_SIZE; lia || by right).
  set (a := align 12 (program_memory_used l)) in *. set (l1 := set_used (a + (p_vaddr ph + p_memsz ph)) l).
  assert (∃ l2 s' p', (if 0 <? p_filesz ph
      then '(_, s) ← fs_seek fd (p_offset ph) s; '(rc, l, s) ← read_into fd (a + p_vaddr ph) (p_filesz ph) l1 s;
           Some (u32 rc =? p_filesz ph, l, s)
      else Some (true, l1, s)) = Some (true, l2, s') ∧ at_ s' fd p' ∧
      program_memory_used l2 = segment_end (program_memory_used l) ph ∧
      mem_read (program_memory l2) (a + p_vaddr ph) (p_filesz ph) =
        take (Z.to_nat (p_filesz ph)) (drop (Z.to_nat (p_offset ph)) file) ∧
      ∀ x, x < program_memory_used l → program_memory l2 x = program_memory l x) as (l2 & s2 & p2 & -> & Hat2 & Hu2 & Hread & Hold).
  { destruct (Z.ltb_spec 0 (p_filesz ph)) as [Hpos|Hzero].
    - destruct (law_seek fd p (p_offset ph) s Hat) as (rc & s1 & -> & Hat1); [lia|]. cbn [mbind option_bind].
      destruct (read_into_ok fd (p_offset ph) (a + p_vaddr ph) (p_filesz ph) l1 s1 Hat1) as (l2 & s2 & -> & Hat2 & Hu2 & Hr & Hx);
        [lia..|unfold MAX_PROGRAM_SIZE; lia|]. cbn [mbind option_bind]. rewrite u32_id, Z.eqb_refl by lia.
      eexists l2, s2, _. split; [done|]. split; [done|]. split; [rewrite Hu2; unfold segment_end; cbn; lia|].
      split; [done|]. intros x Hlt. rewrite Hx by lia. done.
    - assert (p_filesz ph = 0) as -> by lia. exists l1, s, p. split; [done|]. split; [done|].
      split; [unfold segment_end; cbn; lia|]. done. }
  cbn [mbind option_bind negb]. unfold image.
  destruct (Z.ltb_spec (p_filesz ph) (p_memsz ph)) as [Hbss|Hfull].
  - destruct (mem_fill_spec MAX_PROGRAM_SIZE (program_memory l2) (a + p_vaddr ph + p_filesz ph) 0
      (p_memsz ph - p_filesz ph)) as (m' & -> & Hfill & Hout); [lia|lia|unfold MAX_PROGRAM_SIZE; lia|].
    cbn [mbind option_bind]. eexists _, _, s2, p2. split; [reflexivity|]. split; [done|]. split; [done|].
    split; [done|]. cbn [program_memory set_memory]. split; [|intros x Hx; rewrite Hout by lia; by apply Hold].
    replace (p_memsz ph) with (p_filesz ph + (p_memsz ph - p_filesz ph)) at 1 by lia.
    rewrite mem_read_app by lia. rewrite Hfill. f_equal. rewrite <- Hread. apply mem_read_ext. intros x Hx.
    apply Hout. lia.
  - eexists _, l2, s2, p2. split; [reflexivity|]. split; [done|]. split; [done|]. split; [done|]. split; [|done].
    assert (p_memsz ph = p_filesz ph) as -> by lia. rewrite Z.sub_diag, app_nil_r. exact Hread.
Qed.

(** The program headers [phs] stand in memory from header number [i] on. *)
Definition table (m : mem) (phdrs i : Z) (phs : list elf32_phdr_t) : Prop :=
  ∀ (j : nat) ph, phs !! j = Some ph → read_phdr (mem_read m (phdrs + (i + Z.of_nat j) * SIZEOF_PHDR) SIZEOF_PHDR) = Some ph.

Lemma placed_ext m m' u phs : 0 <= u → fits u phs → (∀ x, u <= x → m' x = m x) → placed m u phs → placed m' u phs.
Proof.
  revert u. induction phs as [|ph phs IH]; intros u Hu Hf Hm Hp; [done|]. cbn [fits placed] in *.
  destruct (p_type ph =? PT_LOAD); [|by apply IH].
  destruct Hf as [(Hv & Hsz & _) Hf]. pose proof (align_bounds 12 u ltac:(lia)). destruct Hp as [Hr Hp]. split.
  - rewrite <- Hr. apply mem_read_ext. intros x Hx. apply Hm. lia.
  - apply IH; [unfold segment_end; lia|done| |done]. intros x Hx. apply Hm. unfold segment_end in Hx. lia.
Qed.

Lemma load_segments_ok phs i phdrs fd p info l s :
  at_ s fd p → 0 <= phdrs → 0 <= i → phdrs + (i + zlen phs) * SIZEOF_PHDR <= program_memory_used l →
  program_memory_used l <= MAX_PROGRAM_SIZE →
  table (program_memory l) phdrs i phs → fits (program_memory_used l) phs →
  ∃ info' l' s' p', load_segments (length phs) i phdrs fd info l s = Some (true, info', l', s') ∧ at_ s' fd p' ∧
    entry_point info' = entry_point info ∧ placed (program_memory l') (program_memory_used l) phs ∧
    ∀ x, x < program_memory_used l → program_memory l' x = program_memory l x.
Proof.
  revert i p info l s. induction phs as [|ph phs IH]; intros i p info l s Hat Hph Hi Hend Hmax Htab Hfits.
  { exists info, l, s, p. by split_and!. }
  assert (zlen (ph :: phs) = zlen phs + 1) as Hz by (unfold zlen; rewrite length_cons; lia). rewrite Hz in Hend.
  assert (0 <= zlen phs) by (unfold zlen; lia). unfold SIZEOF_PHDR in *.
  cbn [load_segments length]. unfold phdr_at, SIZEOF_PHDR. rewrite mem_load_Some by lia. cbn [mbind option_bind].
  pose proof (Htab 0%nat ph eq_refl) as H0. unfold SIZEOF_PHDR in H0. rewrite Z.add_0_r in H0. rewrite H0. clear H0.
  cbn [mbind option_bind fits placed] in *. destruct (Z.eqb_spec (p_type ph) PT_LOAD) as [Ht|Ht].
  - destruct Hfits as [Hseg Hfits].
    destruct (load_segment_ok fd p ph info l s Hat ltac:(lia) Ht Hseg) as (info1 & l1 & s1 & p1 & -> & Hat1 & He1 & Hu1 & Himg & Hold).
    cbn [mbind option_bind]. pose proof Hseg as (Hv & Hsz & _ & _ & Hfit).
    pose proof (align_bounds 12 (program_memory_used l) ltac:(lia)) as Ha.
    assert (program_memory_used l <= program_memory_used l1) as Hgrow by (rewrite Hu1; unfold segment_end; lia).
    destruct (IH (i + 1) p1 info1 l1 s1) as (info2 & l2 & s2 & p2 & -> & Hat2 & He2 & Hp2 & Hold2); try done; try lia.
    + rewrite Hu1. exact Hfit.
    + intros j ph' Hj. rewrite <- (Htab (Datatypes.S j) ph' Hj). f_equal.
      replace (i + 1 + Z.of_nat j) with (i + Z.of_nat (Datatypes.S j)) by lia. apply lookup_lt_Some in Hj.
      apply mem_read_ext. intros x Hx. apply Hold. unfold SIZEOF_PHDR, zlen in *. lia.
    + by rewrite Hu1.
    + exists info2, l2, s2, p2. split; [done|]. split; [done|]. split; [congruence|]. split; [|].
      * rewrite <- Hu1. split; [|done]. rewrite <- Himg. apply mem_read_ext. intros x Hx. apply Hold2.
        rewrite Hu1. unfold segment_end. lia.
      * intros x Hx. rewrite Hold2 by lia. by apply Hold.
  - unfold load_segment. destruct (Z.eqb_spec (p_type ph) PT_LOAD); [done|]. cbn [mbind option_bind].
    apply IH with (p := p); try done; try lia.
    intros j ph' Hj. rewrite <- (Htab (Datatypes.S j) ph' Hj). do 2 f_equal. lia.
Qed.

Lemma phdr_slice m a n (i : nat) (k off : Z) :
  0 <= off → 0 <= k → (Z.of_nat i + 1) * k <= n → off + n <= zlen file →
  mem_read m a n = take (Z.to_nat n) (drop (Z.to_nat off) file) →
  mem_read m (a + Z.of_nat i * k) k = take (Z.to_nat k) (drop (Z.to_nat (off + Z.of_nat i * k)) file).
Proof.
  intros Ho Hk Hn Hlen' E.
  rewrite <- (mem_read_take m (a + Z.of_nat i * k) (n - Z.of_nat i * k) k) by nia.
  rewrite <- (mem_read_drop m a n (Z.of_nat i * k)) by nia. rewrite E, skipn_firstn_comm, take_take, drop_drop.
  f_equal; [nia|]. f_equal. nia.
Qed.

(** C6. Over any file system that keeps its promise, [program_load] loads a
    well-formed ELF file: it returns 0 with the entry point of the header,
    and every loadable segment stands in program memory behind the previous
    one (page aligned, at its virtual address from there) with its bytes
    from the file followed by zeros up to its memory size; the descriptor is
    closed and program memory below the old mark is untouched. *)
Theorem program_load_correct (garbage name : list Z) (info : program_info_t) (l : loader_state) (s : S)
    (h : elf32_header_t) (phs : list elf32_phdr_t) :
  closed s → length garbage = 52%nat → 0 <= program_memory_used l → SIZEOF_HEADER <= zlen file →
  read_header (take 52 file) = Some h → program_validate_elf h = 0 →
  e_phentsize h = SIZEOF_PHDR → e_phnum h = zlen phs → 0 <= e_phoff h →
  e_phoff h + zlen phs * SIZEOF_PHDR <= zlen file →
  (∀ (j : nat) ph, phs !! j = Some ph →
     read_phdr (take 32 (drop (Z.to_nat (e_phoff h + Z.of_nat j * SIZEOF_PHDR)) file)) = Some ph) →
  let start := align 2 (program_memory_used l) + zlen phs * SIZEOF_PHDR in
  start <= MAX_PROGRAM_SIZE → fits start phs →
  ∃ info' l' s', program_load garbage (Some name) (Some info) l s = Some (0, Some info', l', s') ∧ closed s' ∧
    entry_point info' = e_entry h ∧ is_loaded info' = 1 ∧ placed (program_memory l') start phs ∧
    ∀ x, x < program_memory_used l → program_memory l' x = program_memory l x.
Proof.
  intros Hcl Hg Hu Hsz Hh Hv Hent Hnum Hoff Hin Hphs start Hstart Hfits. unfold program_load, load_program.
  assert (0 <= zlen phs) by (unfold zlen; lia). pose proof (align_bounds 2 (program_memory_used l) ltac:(lia)) as Ha.
  destruct (law_open name s Hcl) as (fd & s1 & -> & Hfd & Hat1). cbn [mbind option_bind].
  destruct (Z.ltb_spec fd 0); [lia|].
  destruct (law_seek fd 0 0 s1 Hat1) as (rc & s2 & -> & Hat2); [lia|]. cbn [mbind option_bind].
  unfold SIZEOF_HEADER, SIZEOF_PHDR in *.
  destruct (law_read fd 0 52 52 s2 Hat2) as (s3 & -> & Hat3); [lia..|]. cbn [mbind option_bind].
  rewrite Z.sub_0_r, Z.max_r, Z.min_l in * by lia. change (u32 52 =? 52) with true. cbn [negb].
  assert (read_header (take (Z.to_nat 52) (drop (Z.to_nat 0) file) ++
            drop (length (take (Z.to_nat 52) (drop (Z.to_nat 0) file))) garbage) = Some h) as ->.
  { change (Z.to_nat 52) with 52%nat. change (drop (Z.to_nat 0) file) with file.
    rewrite (drop_ge garbage), app_nil_r; [done|]. rewrite length_take. unfold zlen in *. lia. }
  cbn [mbind option_bind]. rewrite Hv. cbn [Z.eqb negb]. rewrite Hent, Hnum.
  unfold start, MAX_PROGRAM_SIZE in *. rewrite (u32_id (32 * zlen phs)) by lia. change 4 with (2 ^ 2).
  rewrite program_alloc_ok by (unfold MAX_PROGRAM_SIZE; lia || by left).
  set (a := align 2 (program_memory_used l)) in *.
  destruct (law_seek fd (0 + 52) (e_phoff h) s3 Hat3) as (rc' & s4 & -> & Hat4); [lia|]. cbn [mbind option_bind].
  destruct (read_into_ok fd (e_phoff h) a (32 * zlen phs) (set_used (a + 32 * zlen phs) l) s4 Hat4)
    as (l1 & s5 & -> & Hat5 & Hu1 & Hread & Hold); [lia..|unfold MAX_PROGRAM_SIZE; lia|]. cbn [mbind option_bind].
  destruct (Z.ltb_spec (32 * zlen phs) 0); [lia|]. rewrite Z.eqb_refl. cbn [orb negb].
  set (info0 := Build_program_info_t _ _ _ _ _). cbn [program_memory_used set_used program_memory] in Hu1, Hold.
  replace (Z.to_nat (zlen phs)) with (length phs) by (unfold zlen; lia).
  destruct (load_segments_ok phs 0 a fd (e_phoff h + 32 * zlen phs) info0 l1 s5 Hat5)
    as (info1 & l2 & s6 & p6 & -> & Hat6 & He & Hp & Hold2); [lia|lia|unfold SIZEOF_PHDR; lia|unfold MAX_PROGRAM_SIZE; lia| | |].
  { intros j ph Hj. rewrite <- (Hphs j ph Hj). f_equal. pose proof (lookup_lt_Some _ _ _ Hj).
    unfold SIZEOF_PHDR. rewrite Z.add_0_l. apply (phdr_slice _ a (32 * zlen phs)); unfold zlen in *; try lia. exact Hread. }
  { by replace (program_memory_used l1) with (a + zlen phs * 32) by lia. }
  cbn [mbind option_bind negb]. destruct (law_close fd p6 s6 Hat6) as (rc6 & s7 & -> & Hcl7). cbn [mbind option_bind].
  eexists _, _, s7. split; [reflexivity|]. split; [done|]. split; [exact He|]. split; [done|].
  assert (program_memory (program_free_memory a (32 * zlen phs) l2) = program_memory l2) as ->.
  { unfold program_free_memory. by destruct (_ =? _). }
  rewrite Hu1 in *. split; [by replace (a + zlen phs * 32) with (a + 32 * zlen phs) by lia|].
  intros x Hx. rewrite Hold2, Hold by lia. done.
Qed.
End correct.

(** ** A one-file file system, as a concrete instance *)
Definition one_file_read (file : list Z) (fd room count : Z) (s : option Z) : option (Z * list Z * option Z) :=
  match s with
  | Some p =>
      let bs := take (Z.to_nat count) (drop (Z.to_nat p) file) in
      Some (zlen bs, bs, Some (p + zlen bs))
  | None => Some (-1, [], s)
  end.
Definition one_file_fs (file : list Z) : FileSystem (option Z) := {|
  fs_open _ _ s := Some (0, Some 0);
  fs_close _ s := Some (0, None);
  fs_seek _ off s := Some (s32 off, Some off);
  fs_read := one_file_read file;
|}.

Lemma one_file_laws file :
  zlen file < 2147483648 →
  @FileLaws (option Z) (one_file_fs file) file (λ s, s = None) (λ s fd p, s = Some p ∧ 0 <= p ∧ fd = 0).
Proof.
  intros Hlen. split; cbn [one_file_fs fs_open fs_close fs_seek fs_read].
  - intros name s _. exists 0, (Some 0). done.
  - intros fd p off s (-> & Hp & ->) Hoff. eexists _, (Some off). split; [done|]. split; [done|]. lia.
  - intros fd p room count s (-> & Hp & ->) Hc _ Hw Hc'. set (n := count `min` (0 `max` (zlen file - p))). unfold one_file_read.
    assert (zlen (take (Z.to_nat count) (drop (Z.to_nat p) file)) = n) as ->.
    { unfold n, zlen. rewrite length_take, length_drop. lia. }
    exists (Some (p + n)). split; [|split; [done|lia]]. do 3 f_equal. unfold n.
    destruct (Z.le_gt_cases count (Z.max 0 (zlen file - p))); [f_equal; lia|].
    rewrite !take_ge; [done|rewrite length_drop; unfold zlen in *; lia..].
  - intros fd p s (-> & _ & ->). by eexists _, None.
Qed.

(** A file with one loadable segment: 4 bytes of code and 4 of zeros. *)
Definition demo_elf : list Z :=
  [127; 69; 76; 70; 1; 1; 1; 0; 0] ++ replicate 7 0 ++ [2; 0; 3; 0; 1; 0; 0; 0] ++ [16; 0; 0; 0] ++ [52; 0; 0; 0] ++
  replicate 8 0 ++ [52; 0; 32; 0; 1; 0] ++ replicate 6 0 ++
  [1; 0; 0; 0] ++ [84; 0; 0; 0] ++ [16; 0; 0; 0] ++ replicate 4 0 ++ [4; 0; 0; 0] ++ [8; 0; 0; 0] ++ replicate 8 0 ++
  [144; 144; 235; 254].
Definition demo_header : elf32_header_t :=
  {| e_magic := ELF_MAGIC; e_class := 1; e_data := 1; e_type := 2; e_machine := 3; e_entry := 16; e_phoff := 52;
     e_phentsize := 32; e_phnum := 1 |}.
Definition demo_phdr : elf32_phdr_t := {| p_type := 1; p_offset := 84; p_vaddr := 16; p_filesz := 4; p_memsz := 8 |}.
Definition demo_info : program_info_t :=
  {| entry_point := 0; base_address := 0; size := 0; stack_size := 0; is_loaded := 0 |}.
Definition demo_loader : loader_state := {| program_memory := mem_zero; program_memory_used := 0 |}.

Lemma program_load_correct_witness :
  ∃ info' l' s', @program_load _ (one_file_fs demo_elf) (replicate 52 0) (Some []) (Some demo_info) demo_loader None = Some (0, Some info', l', s') ∧
    s' = None ∧ entry_point info' = 16 ∧ is_loaded info' = 1 ∧
    placed demo_elf (program_memory l') 32 [demo_phdr] ∧
    ∀ x, x < 0 → program_memory l' x = program_memory demo_loader x.
Proof.
  assert (zlen demo_elf < 2147483648) as Hlen by reflexivity.
  apply (@program_load_correct _ (one_file_fs demo_elf) demo_elf (λ s, s = None) (λ s fd p, s = Some p ∧ 0 <= p ∧ fd = 0)
           (one_file_laws demo_elf Hlen) Hlen (replicate 52 0) [] demo_info demo_loader None demo_header [demo_phdr]);
    try reflexivity; try (vm_compute; discriminate).
  - intros [|j] ph Hj; [|done]. injection Hj as <-. reflexivity.
  - vm_compute. repeat split; discriminate.
Defined.

Lemma program_execute_never_loads_witness :
  ∃ s', program_execute (replicate 52 0) (λ i, 0x200000 + i * 4096) (Some (lit "shell")) demo_info demo_loader process_bss
          VfsSimple.fds_after_open = Some (-1, demo_loader, process_bss, s') ∧
    VfsSimple.fd_view s' = VfsSimple.fd_view VfsSimple.fds_after_open ∧ VfsSimple.vfs_ok s'.
Proof.
  apply (program_execute_never_loads (replicate 52 0) (Some (lit "shell")) (λ i, 0x200000 + i * 4096) demo_info demo_loader
           process_bss VfsSimple.fds_after_open VfsSimple.fds_after_open_ok).
Defined.

End ProgramLoader.
