(* ===== verification/Log.v ===== *)
(** * Log: formatted kernel messages (kernel/log.c)

    A [va_list] is the list of the arguments still to be read; reading one at
    another type than it was passed with is undefined.  [stack n] is what a
    local array of [n] bytes holds before it is written. *)
From S2P Require Import Prelude CString Ports Vga.
Import Vga.

Module Log.

Definition LOG_DEBUG : Z := 0.
Definition LOG_INFO : Z := 1.
Definition LOG_WARN : Z := 2.
Definition LOG_ERROR : Z := 3.
Definition LOG_CRITICAL : Z := 4.

(** Light grey, green, brown, light red, white. *)
Definition LOG_COLORS : list Z := [7; 2; 6; 12; 15].

Inductive va_arg := VInt (v : Z) | VStr (s : option (list Z)).

Definition va_int (args : list va_arg) : option (Z * list va_arg) :=
  match args with VInt v :: args => Some (v, args) | _ => UB end.
Definition va_str (args : list va_arg) : option (option (list Z) * list va_arg) :=
  match args with VStr s :: args => Some (s, args) | _ => UB end.

Section vsnprintf.
Context (stack : nat → list Z).

(** Copy [src] up to its NUL through [f], while [i < size - 1]. *)
Fixpoint copy_out (f : Z → Z) (src : list Z) (size i : Z) (buf : list Z) : option (Z * list Z) :=
  match src with
  | [] => UB
  | c :: src =>
      if negb (c =? 0) && (i <? size - 1) then
        buf ← zset buf i (f c); copy_out f src size (i + 1) buf
      else Some (i, buf)
  end.

Definition upper (c : Z) : Z := if (97 <=? c) && (c <=? 102) then c - 97 + 65 else c.

(** The case of the switch for [spec], which is not NUL, at position [i] of
    the buffer. *)
Definition format_one (spec size i : Z) (buf : list Z) (args : list va_arg) : option (Z * list Z * list va_arg) :=
  if (spec =? 100) || (spec =? 117) then (* 'd', 'u' *)
    '(num, args) ← va_int args;
    num_str ← itoa (s32 num) (stack 12) 10;
    '(i, buf) ← copy_out id num_str size i buf; Some (i, buf, args)
  else if (spec =? 120) || (spec =? 88) then (* 'x', 'X' *)
    '(num, args) ← va_int args;
    num_str ← itoa (s32 num) (stack 9) 16;
    '(i, buf) ← copy_out (if spec =? 88 then upper else id) num_str size i buf; Some (i, buf, args)
  else if spec =? 115 then (* 's' *)
    '(str, args) ← va_str args;
    '(i, buf) ← copy_out id (default (lit "(null)") str) size i buf; Some (i, buf, args)
  else if spec =? 99 then (* 'c' *)
    '(c, args) ← va_int args;
    buf ← zset buf i (u8 c); Some (i + 1, buf, args)
  else if spec =? 37 then (* '%' *)
    buf ← zset buf i 37; Some (i + 1, buf, args)
  else
    buf ← zset buf i 37;
    let i := i + 1 in
    if i <? size - 1 then buf ← zset buf i spec; Some (i + 1, buf, args) else Some (i, buf, args).

(** The loop over the format, [while] [*p] is not NUL and [i < size - 1]. *)
Fixpoint format_loop (p : list Z) (size i : Z) (buf : list Z) (args : list va_arg) : option (Z * list Z) :=
  match p with
  | [] => UB
  | c :: p =>
      if negb (c =? 0) && (i <? size - 1) then
        if negb (c =? 37) then buf ← zset buf i c; format_loop p size (i + 1) buf args
        else
          match p with
          | [] => UB
          | spec :: p =>
              if spec =? 0 then Some (i, buf) (* the loop ends at this NUL *)
              else '(i, buf, args) ← format_one spec size i buf args; format_loop p size i buf args
          end
      else Some (i, buf)
  end.

(** [buf] is [None] for NULL; the result is the length. *)
Definition vsnprintf (buf : option (list Z)) (size : Z) (format : list Z) (args : list va_arg) : option (Z * option (list Z)) :=
  match buf with
  | None => Some (0, None)
  | Some b =>
      if size =? 0 then Some (0, Some b)
      else
        '(i, b) ← format_loop format size 0 b args;
        b ← zset b i 0;
        Some (s32 i, Some b)
  end.

Section screen.
Context {W : Type} `{Ports W}.

Definition print_log_prefix (level : Z) (s : vga_state) (w : W) : option (vga_state * W) :=
  if level =? LOG_DEBUG then
    color ← LOG_COLORS.[level]; vga_print (lit "[DEBUG] ") (vga_set_color color VGA_COLOR_BLACK s) w
  else if level =? LOG_INFO then
    color ← LOG_COLORS.[level]; vga_print (lit "[INFO]  ") (vga_set_color color VGA_COLOR_BLACK s) w
  else if level =? LOG_WARN then
    color ← LOG_COLORS.[level]; vga_print (lit "[WARN]  ") (vga_set_color color VGA_COLOR_BLACK s) w
  else if level =? LOG_ERROR then
    color ← LOG_COLORS.[level]; vga_print (lit "[ERROR] ") (vga_set_color color VGA_COLOR_BLACK s) w
  else if level =? LOG_CRITICAL then
    color ← LOG_COLORS.[level]; vga_print (lit "[CRIT]  ") (vga_set_color color VGA_COLOR_RED s) w
  else vga_print (lit "[LOG]   ") s w.

(** [cur] is [current_log_level]. *)
Definition log_vprintf (cur level : Z) (format : list Z) (args : list va_arg) (s : vga_state) (w : W) : option (vga_state * W) :=
  if level <? cur then Some (s, w)
  else
    '(s, w) ← print_log_prefix level s w;
    '(_, buffer) ← vsnprintf (Some (stack 256)) 256 format args;
    buffer ← buffer;
    '(s, w) ← vga_print buffer s w;
    vga_print (lit "
") s w.

Definition log_printf (cur level : Z) (format : list Z) (args : list va_arg) (s : vga_state) (w : W) : option (vga_state * W) :=
  log_vprintf cur level format args s w.
Definition log_debug cur format args s (w : W) := log_vprintf cur LOG_DEBUG format args s w.
Definition log_info cur format args s (w : W) := log_vprintf cur LOG_INFO format args s w.
Definition log_warn cur format args s (w : W) := log_vprintf cur LOG_WARN format args s w.
Definition log_error cur format args s (w : W) := log_vprintf cur LOG_ERROR format args s w.
Definition log_critical cur format args s (w : W) := log_vprintf cur LOG_CRITICAL format args s w.

Definition log_set_level (level cur : Z) : Z := level.

Definition log_init (cur : Z) (s : vga_state) (w : W) : option (vga_state * W) :=
  '(s, w) ← vga_init s w;
  '(s, w) ← vga_clear s w;
  log_info cur (lit "Kernel logging system initialized") [] s w.
End screen.
End vsnprintf.

(** ** Reference: the text a format stands for *)
Definition numeral (n base : Z) : list Z :=
  (if (n <? 0) && (base =? 10) then [45] else []) ++ rev (itoa_digit <$> digits itoa_fuel (Z.abs n) base).

(** The text of one conversion and the arguments left; unsigned values are
    read as signed ones. *)
Definition conversion (spec : Z) (args : list va_arg) : option (list Z * list va_arg) :=
  if (spec =? 100) || (spec =? 117) then '(n, args) ← va_int args; Some (numeral (s32 n) 10, args)
  else if spec =? 120 then '(n, args) ← va_int args; Some (numeral (s32 n) 16, args)
  else if spec =? 88 then '(n, args) ← va_int args; Some (upper <$> numeral (s32 n) 16, args)
  else if spec =? 115 then '(s, args) ← va_str args; t ← cstr (default (lit "(null)") s); Some (t, args)
  else if spec =? 99 then '(n, args) ← va_int args; Some ([u8 n], args)
  else if spec =? 37 then Some ([37], args)
  else Some ([37; spec], args).

(** [fmt] without its NUL; a single [%] at its end stands for nothing. *)
Fixpoint expand (fmt : list Z) (args : list va_arg) : option (list Z) :=
  match fmt with
  | [] => Some []
  | c :: fmt =>
      if c =? 37 then
        match fmt with
        | [] => Some []
        | spec :: fmt => '(t, args) ← conversion spec args; r ← expand fmt args; Some (t ++ r)
        end
      else cons c <$> expand fmt args
  end.

(** ** Writing a buffer from its start *)
Section buffer.
Context (b0 : list Z) (n : nat) (Hn : (n < length b0)%nat).

(** [b0] after [pre] has been written to it. *)
Definition wrote (pre : list Z) : list Z := pre ++ drop (length pre) b0.

Lemma put pre c : (length pre < n)%nat → zset (wrote pre) (zlen pre) c = Some (wrote (pre ++ [c])).
Proof.
  intros Hl. unfold wrote. destruct (drop (length pre) b0) as [|x r] eqn:E.
  { apply (f_equal length) in E. rewrite length_drop in E. cbn in E. lia. }
  rewrite zset_middle by done. f_equal. rewrite <- app_assoc, length_app. cbn [app length].
  rewrite <- drop_drop, E. done.
Qed.

Lemma zlen_snoc (pre : list Z) c : zlen (pre ++ [c]) = zlen pre + 1.
Proof. unfold zlen. rewrite length_app. cbn. lia. Qed.

Lemma room (pre : list Z) : (zlen pre <? Z.of_nat (S n) - 1) = bool_decide (length pre < n)%nat.
Proof. unfold zlen. case_bool_decide; [apply Z.ltb_lt|apply Z.ltb_ge]; lia. Qed.

Lemma take_take_app {A} (l k : list A) : take n (take n l ++ k) = take n (l ++ k).
Proof.
  destruct (decide (length l <= n)%nat); [by rewrite (take_ge l)|].
  rewrite (take_app_le l), take_app_le, take_take by (rewrite ?length_take; lia). by rewrite Nat.min_id.
Qed.

Lemma copy_out_spec f src t pre :
  cstr src = Some t → (length pre ≤ n)%nat →
  copy_out f src (Z.of_nat (S n)) (zlen pre) (wrote pre) =
    Some (zlen (take n (pre ++ (f <$> t))), wrote (take n (pre ++ (f <$> t)))).
Proof.
  intros (r & -> & Ht)%cstr_alt. revert pre. induction Ht as [|c t Hc _ IH]; intros pre Hp.
  - cbn. rewrite app_nil_r, take_ge by lia. done.
  - cbn [app copy_out fmap list_fmap]. destruct (Z.eqb_spec c 0); [done|]. cbn [negb andb]. rewrite room.
    case_bool_decide as Hlt.
    + rewrite put by done. cbn [mbind option_bind]. rewrite <- zlen_snoc with (c := f c), IH.
      * rewrite <- app_assoc. done.
      * rewrite length_app. cbn. lia.
    + rewrite take_app_le, take_ge by lia. done.
Qed.

Variable stack : nat → list Z.
Hypothesis stack_size : ∀ k, length (stack k) = k.

Lemma numeral_nonzero m base : 2 <= base <= 36 → Forall (λ c, c ≠ 0 ∧ 0 <= c < 128) (numeral m base).
Proof using Type. clear Hn b0 n.
  intros Hb. unfold numeral. apply Forall_app. split; [destruct (_ && _); repeat constructor; lia|].
  apply Forall_rev, Forall_fmap. eapply Forall_impl; [apply (digits_range base Hb); lia|].
  intros d Hd. cbn. pose proof (itoa_digit_range base Hb d Hd). lia.
Qed.

(** What [itoa] leaves in a local array of [k] bytes. *)
Lemma itoa_numeral m base k :
  2 <= base <= 36 → -2147483648 <= m < 2147483648 → (length (numeral m base) < k)%nat →
  ∃ b, itoa m (stack k) base = Some b ∧ cstr b = Some (numeral m base).
Proof using stack_size. clear Hn b0 n.
  intros Hb Hm Hk. unfold numeral in Hk. rewrite length_app, length_rev, length_fmap in Hk.
  rewrite (itoa_spec m (stack k) base _ _ Hb Hm eq_refl eq_refl) by (rewrite stack_size; lia).
  eexists. split; [done|]. rewrite app_assoc. apply cstr_app. eapply Forall_impl; [by apply numeral_nonzero|].
  cbn. tauto.
Qed.

Lemma numeral_length m base j :
  2 <= base <= 36 → Z.abs m < base ^ Z.of_nat j → (0 < j)%nat →
  (length (numeral m base) ≤ (if (base =? 10)%Z then 1 else 0) + j)%nat.
Proof using Type. clear Hn b0 n.
  intros Hb Hm Hj. unfold numeral. rewrite length_app, length_rev, length_fmap.
  pose proof (digits_length base Hb itoa_fuel (Z.abs m) j ltac:(lia) Hj) as Hd.
  set (d := length (digits itoa_fuel (Z.abs m) base)) in *. clearbody d.
  destruct (base =? 10); [|rewrite andb_false_r; cbn; lia]. destruct (m <? 0); cbn; lia.
Qed.

Lemma format_one_spec spec args t args' pre :
  conversion spec args = Some (t, args') → (length pre < n)%nat →
  format_one stack spec (Z.of_nat (S n)) (zlen pre) (wrote pre) args =
    Some (zlen (take n (pre ++ t)), wrote (take n (pre ++ t)), args').
Proof.
  intros Hc Hp. unfold conversion in Hc. unfold format_one.
  assert (∀ m, ∃ b, itoa (s32 m) (stack 12) 10 = Some b ∧ cstr b = Some (numeral (s32 m) 10)) as Hdec.
  { intros m. pose proof (s32_range m). apply itoa_numeral; [lia|done|].
    pose proof (numeral_length (s32 m) 10 10 ltac:(lia) ltac:(cbn; lia) ltac:(lia)). cbn in *. lia. }
  assert (∀ m, ∃ b, itoa (s32 m) (stack 9) 16 = Some b ∧ cstr b = Some (numeral (s32 m) 16)) as Hhex.
  { intros m. pose proof (s32_range m). apply itoa_numeral; [lia|done|].
    pose proof (numeral_length (s32 m) 16 8 ltac:(lia) ltac:(cbn; lia) ltac:(lia)). cbn in *. lia. }
  assert (∀ c, (length pre < n)%nat → take n (pre ++ [c]) = pre ++ [c]) as Hone
    by (intros; apply take_ge; rewrite length_app; cbn; lia).
  destruct ((spec =? 100) || (spec =? 117)).
  { destruct args as [|[m|] args1]; try done. cbn [va_int va_str mbind option_bind] in Hc |- *. injection Hc as <- <-.
    destruct (Hdec m) as (b & -> & Hb). cbn [mbind option_bind]. erewrite copy_out_spec by (done || lia).
    by rewrite list_fmap_id. }
  destruct (spec =? 120) eqn:Ex; [|destruct (spec =? 88) eqn:EX].
  1,2: cbn [orb]; destruct args as [|[m|] args1]; try done; cbn [va_int va_str mbind option_bind] in Hc |- *; injection Hc as <- <-;
    destruct (Hhex m) as (b & -> & Hb); cbn [mbind option_bind]; erewrite copy_out_spec by (done || lia).
  - apply Z.eqb_eq in Ex as ->. cbn [Z.eqb Pos.eqb]. by rewrite list_fmap_id.
  - done.
  - cbn [orb]. destruct (spec =? 115).
    { destruct args as [|[|s] args1]; try done. cbn [va_int va_str mbind option_bind] in Hc |- *. destruct (cstr (default _ s)) as [u|] eqn:Eu; [|done].
      cbn in Hc. injection Hc as <- <-. erewrite copy_out_spec by (done || lia). by rewrite list_fmap_id. }
    destruct (spec =? 99).
    { destruct args as [|[m|] args1]; try done. cbn [va_int va_str mbind option_bind] in Hc |- *. injection Hc as <- <-. rewrite put by done.
      cbn [mbind option_bind]. by rewrite Hone, zlen_snoc. }
    destruct (spec =? 37); injection Hc as <- <-.
    + rewrite put by done. cbn [mbind option_bind]. by rewrite Hone, zlen_snoc.
    + rewrite put by done. cbn [mbind option_bind]. rewrite <- zlen_snoc with (c := 37), room.
      replace (pre ++ [37; spec]) with ((pre ++ [37]) ++ [spec]) by (by rewrite <- app_assoc).
      case_bool_decide as Hlt.
      * rewrite put by done. cbn [mbind option_bind]. rewrite take_ge by (rewrite length_app; cbn; lia).
        by rewrite (zlen_snoc (pre ++ [37])).
      * rewrite take_app_le, take_ge by (rewrite length_app in *; cbn in *; lia). done.
Qed.

Lemma format_loop_spec fmt r args out pre :
  Forall (λ c, c ≠ 0) fmt → expand fmt args = Some out → (length pre ≤ n)%nat →
  format_loop stack (fmt ++ 0 :: r) (Z.of_nat (S n)) (zlen pre) (wrote pre) args =
    Some (zlen (take n (pre ++ out)), wrote (take n (pre ++ out))).
Proof.
  remember (length fmt) as m eqn:Em. revert fmt args out pre Em.
  induction (lt_wf m) as [m _ IH]. intros fmt args out pre -> Hf Hex Hp.
  destruct Hf as [|c fmt Hc Hf].
  { injection Hex as <-. cbn. rewrite app_nil_r, take_ge by lia. done. }
  cbn [app format_loop expand] in *. destruct (Z.eqb_spec c 0); [done|]. cbn [negb andb]. rewrite room.
  case_bool_decide as Hlt; [|rewrite take_app_le, take_ge by lia; done].
  destruct (Z.eqb_spec c 37) as [->|Hne]; cbn [negb].
  - destruct Hf as [|spec fmt Hs Hf]; cbn [app].
    { injection Hex as <-. cbn. rewrite app_nil_r, take_ge by lia. done. }
    destruct (Z.eqb_spec spec 0); [done|].
    destruct (conversion spec args) as [[t args']|] eqn:Et; [|done]. cbn [mbind option_bind] in Hex.
    destruct (expand fmt args') as [out'|] eqn:Eo; [|done]. injection Hex as <-.
    rewrite (format_one_spec _ _ _ _ _ Et Hlt). cbn [mbind option_bind].
    rewrite (IH (length fmt)) with (out := out') by (done || (cbn; lia) || (rewrite length_take; lia)).
    by rewrite take_take_app, <- app_assoc.
  - destruct (expand fmt args) as [out'|] eqn:Eo; [|done]. injection Hex as <-.
    rewrite put by done. cbn [mbind option_bind]. rewrite <- zlen_snoc with (c := c).
    rewrite (IH (length fmt)) with (out := out') by (done || (cbn; lia) || (rewrite length_app; cbn; lia)).
    by rewrite <- app_assoc.
Qed.

End buffer.

Lemma vsnprintf_spec (stack : nat → list Z) (buf : list Z) (size : Z) (format fmt : list Z) (args : list va_arg) (out : list Z) :
  (∀ k, length (stack k) = k) → 0 < size <= zlen buf → size <= 2147483648 →
  cstr format = Some fmt → expand fmt args = Some out →
  let t := take (Z.to_nat (size - 1)) out in
  vsnprintf stack (Some buf) size format args = Some (zlen t, Some (t ++ 0 :: drop (S (length t)) buf)).
Proof.
  intros Hst Hsize Hint (r & -> & Hf)%cstr_alt Hex t. unfold vsnprintf. destruct (Z.eqb_spec size 0) as [|Hne]; [lia|].
  set (n := Z.to_nat (size - 1)) in *. assert (n < length buf)%nat as Hn by (unfold zlen in Hsize; lia).
  replace size with (Z.of_nat (S n)) by lia.
  pose proof (format_loop_spec buf n Hn stack Hst fmt r args out [] Hf Hex ltac:(cbn; lia)) as E.
  change (wrote buf []) with buf in E. change (zlen []) with 0 in E. change ([] ++ out) with out in E. rewrite E.
  cbn [mbind option_bind]. fold t. clear E.
  assert (length t ≤ n)%nat by (unfold t; rewrite length_take; lia). unfold wrote.
  destruct (drop (length t) buf) as [|x q] eqn:Eq.
  { apply (f_equal length) in Eq. rewrite length_drop in Eq. cbn in Eq. lia. }
  rewrite zset_middle by done. cbn [mbind option_bind]. rewrite s32_id by (unfold zlen; lia). do 4 f_equal.
  rewrite <- Nat.add_1_r, <- drop_drop, Eq. done.
Qed.

(** C19. [vsnprintf] never writes past the size it is given and computes the
    truncation of what the format stands for: with a buffer of at least
    [size > 0] bytes and arguments that fit the format, the buffer holds the
    first [size - 1] characters of the expanded text, then a NUL, then what it
    held before, and the length is returned.  The numbers are converted in
    local arrays of 12 and 9 bytes that are large enough; [%u] and [%x] expand
    to the numeral of the signed value (so [%u] of 2^31 starts with a minus
    sign), and what follows an unknown conversion such as the [4x] of [%04x]
    is copied literally. *)
Theorem vsnprintf_truncates (stack : nat → list Z) (buf : list Z) (size : Z) (format fmt : list Z) (args : list va_arg) (out : list Z) :
  (∀ k, length (stack k) = k) → 0 < size <= zlen buf → size <= 2147483648 →
  cstr format = Some fmt → expand fmt args = Some out →
  let t := take (Z.to_nat (size - 1)) out in
  vsnprintf stack (Some buf) size format args = Some (zlen t, Some (t ++ 0 :: drop (S (length t)) buf)).
Proof. apply vsnprintf_spec. Qed.

(** Local arrays that hold the byte 170 everywhere. *)
Definition junk (k : nat) : list Z := replicate k 170.

Lemma vsnprintf_truncates_witness :
  let args := [VInt 4000000000; VStr None] in
  let out := bytes_of_string "v=%04x c=-294967296 (null)" in
  expand (bytes_of_string "v=%04x c=%u %s") args = Some out ∧
  let t := take 19 out in
  vsnprintf junk (Some (replicate 24 1)) 20 (lit "v=%04x c=%u %s") args =
    Some (zlen t, Some (t ++ 0 :: drop (S (length t)) (replicate 24 1))).
Proof.
  cbv zeta. split; [vm_compute; reflexivity|].
  apply (vsnprintf_truncates junk (replicate 24 1) 20 (lit "v=%04x c=%u %s") (bytes_of_string "v=%04x c=%u %s") [VInt 4000000000; VStr None]
    (bytes_of_string "v=%04x c=-294967296 (null)")).
  - intros k. apply length_replicate.
  - vm_compute. split; [reflexivity|discriminate].
  - lia.
  - reflexivity.
  - vm_compute. reflexivity.
Defined.

(** ** A message on the screen *)
Definition level_text (level : Z) : list Z :=
  match list_lookup (Z.to_nat level) [lit "[DEBUG] "; lit "[INFO]  "; lit "[WARN]  "; lit "[ERROR] "; lit "[CRIT]  "] with
  | Some b => b
  | None => lit "[LOG]   "
  end.

(** The colours of the levels; other levels keep the current one. *)
Definition level_color (level : Z) (t : terminal) : terminal :=
  match list_lookup (Z.to_nat level) [(7, 0); (2, 0); (6, 0); (12, 0); (15, 4)] with
  | Some (fg, bg) => t_call (SetColor fg bg) t
  | None => t
  end.

(** The prefix, the first 255 characters of the text, up to a NUL that [%c]
    may have put there, and a newline. *)
Definition logged (cur level : Z) (out : list Z) (t : terminal) : terminal :=
  if level <? cur then t
  else t_put 10 (t_print (str (take 255 out ++ [0])) (t_print (str (level_text level)) (level_color level t))).

Section message.
Context {W : Type} `{Ports W} (R : terminal → vga_state → W → Prop).

(** [R] is a relation the calls of the screen driver keep: [shows], or
    [displayed] with the hardware cursor. *)
Hypothesis call_keeps : ∀ c t s w, call_ok c → R t s w → ∃ s' w', run_call c s w = Some (s', w') ∧ R (t_call c t) s' w'.

Lemma print_keeps b t s w :
  text_ok b → R t s w → ∃ s' w', vga_print b s w = Some (s', w') ∧ R (t_print (str b) t) s' w'.
Proof. apply (call_keeps (Print b)). Qed.

Lemma prefix_keeps level t s w :
  0 <= level → R t s w →
  ∃ s' w', print_log_prefix level s w = Some (s', w') ∧ R (t_print (str (level_text level)) (level_color level t)) s' w'.
Proof.
  intros Hl Hd. unfold print_log_prefix, LOG_DEBUG, LOG_INFO, LOG_WARN, LOG_ERROR, LOG_CRITICAL.
  assert (∀ fg bg b, text_ok b → ∃ s' w', vga_print b (vga_set_color fg bg s) w = Some (s', w') ∧
    R (t_print (str b) (t_call (SetColor fg bg) t)) s' w') as Hcol.
  { intros fg bg b Hb. destruct (call_keeps (SetColor fg bg) t s w I Hd) as (s1 & w1 & [= <- <-] & Hd1).
    by apply print_keeps. }
  do 5 match goal with
  | |- context [level =? ?k] => destruct (Z.eqb_spec level k) as [->|?]; [apply Hcol; by eexists|]
  end.
  assert (∃ j, Z.to_nat level = 5 + j)%nat as [j E] by (exists (Z.to_nat level - 5)%nat; lia).
  unfold level_text, level_color. rewrite E. cbn [Nat.add list_lookup lookup]. apply print_keeps; [by eexists|done].
Qed.

(** What a log call does to the screen *)
Lemma log_keeps (stack : nat → list Z) (cur level : Z) (format fmt : list Z) (args : list va_arg) (out : list Z)
    (t : terminal) (s : vga_state) (w : W) :
  (∀ k, length (stack k) = k) → 0 <= level → cstr format = Some fmt → expand fmt args = Some out → R t s w →
  ∃ s' w', log_vprintf stack cur level format args s w = Some (s', w') ∧ R (logged cur level out t) s' w'.
Proof.
  intros Hst Hl Hf Hex Hd. unfold log_vprintf, logged. destruct (level <? cur); [by exists s, w|].
  destruct (prefix_keeps level t s w Hl Hd) as (s1 & w1 & -> & Hd1). cbn [mbind option_bind].
  rewrite (vsnprintf_spec stack (stack 256%nat) 256 format fmt args out) by (done || (unfold zlen; rewrite ?Hst; lia)).
  cbn [mbind option_bind]. change (Z.to_nat (256 - 1)) with 255%nat.
  set (b := take 255 out ++ 0 :: _). set (u := take 255 out ++ [0]).
  assert (is_Some (cstr u) ∧ cstr b = cstr u) as [Hu Hb].
  { unfold u, b. generalize (drop (S (length (take 255 out))) (stack 256%nat)). generalize (take 255 out). clear. intros l r. induction l as [|c l [[x Hx] IH]]; [by split|].
    cbn [app cstr]. destruct (c =? 0); [done|]. rewrite IH, Hx. split; [by eexists|done]. }
  assert (text_ok b) as Hok by (unfold text_ok; by rewrite Hb).
  destruct (print_keeps b _ s1 w1 Hok Hd1) as (s2 & w2 & -> & Hd2). cbn [mbind option_bind].
  destruct (print_keeps [10; 0] _ s2 w2 ltac:(by eexists) Hd2) as (s3 & w3 & E3 & Hd3).
  exists s3, w3. split; [exact E3|]. unfold str in Hd3 at 2. rewrite Hb in Hd3. exact Hd3.
Qed.
End message.

Section display.
Context {W : Type} `{Ports W}.

Lemma log_shows stack cur level format fmt args out t s (w : W) :
  (∀ k, length (stack k) = k) → 0 <= level → cstr format = Some fmt → expand fmt args = Some out → shows t s →
  ∃ s' w', log_vprintf stack cur level format args s w = Some (s', w') ∧ shows (logged cur level out t) s'.
Proof. apply (log_keeps (λ t s _, shows t s)). exact call_shows. Qed.

Context (log : W → list (Z * Z)) `{!PortLog W log}.

Lemma print_displayed b t s w :
  text_ok b → displayed log t s w →
  ∃ s' w', vga_print b s w = Some (s', w') ∧ displayed log (t_print (str b) t) s' w'.
Proof. apply (call_displayed log (Print b)). Qed.

(** What a log call shows: on a screen that shows the terminal [t], a
    message below the current level changes nothing; any other one is
    appended as the level's prefix in the level's colour, the first 255
    characters of the expanded text and a newline, and the screen is again
    that terminal, hardware cursor included. *)
Theorem log_prints_line (stack : nat → list Z) (cur level : Z) (format fmt : list Z) (args : list va_arg) (out : list Z)
    (t : terminal) (s : vga_state) (w : W) :
  (∀ k, length (stack k) = k) → 0 <= level → cstr format = Some fmt → expand fmt args = Some out →
  displayed log t s w →
  ∃ s' w', log_vprintf stack cur level format args s w = Some (s', w') ∧ displayed log (logged cur level out t) s' w'.
Proof. apply (log_keeps (displayed log)). exact (call_displayed log). Qed.
End display.

(** A blank screen. *)
Definition blank_terminal : terminal :=
  {| t_col := 0; t_row := 0; t_color := 7; t_lines := replicate 25 (blank_line 7) |}.
Definition blank_screen : vga_state :=
  {| cursor_x := 0; cursor_y := 0; current_color := 7; screen := concat (replicate 25 (blank_line 7)) |}.

Lemma blank_displayed : displayed writes blank_terminal blank_screen (constant_machine 0).
Proof. split; [|by repeat split]. split; try done. cbn [t_lines blank_terminal]. by apply Forall_replicate. Qed.

Lemma log_prints_line_witness :
  ∃ s' w', log_vprintf junk LOG_INFO LOG_WARN (lit "irq %d") [VInt 7] blank_screen (constant_machine 0) = Some (s', w') ∧
    displayed writes (logged LOG_INFO LOG_WARN (bytes_of_string "irq 7") blank_terminal) s' w'.
Proof.
  apply (log_prints_line writes junk LOG_INFO LOG_WARN (lit "irq %d") (bytes_of_string "irq %d") [VInt 7] (bytes_of_string "irq 7")).
  - intros k. apply length_replicate.
  - unfold LOG_WARN. lia.
  - reflexivity.
  - vm_compute. reflexivity.
  - apply blank_displayed.
Defined.

End Log.
