(* ===== verification/KeyboardIntl.v ===== *)
(** * KeyboardIntl: the polling keyboard driver with layouts (drivers/keyboard_intl.c)

    The driver polls the controller at its ports, at most [rounds] times for
    each of its unbounded waits; its messages go to the log and the screen.
    [stack] and [cur] are the stack of the log functions and the log level. *)
From S2P Require Import Prelude CString Ports Vga Log Keyboard.

Module KeyboardIntl.

(** A [char[128]] initialiser: the rest of the array is zero.  Characters
    outside ASCII are the last byte of their encoding, as a signed [char]. *)
Definition table (vals : list Z) : list Z := vals ++ replicate (128 - length vals) 0.

Definition us_qwerty : list Z := table
  [0; 0; 49; 50; 51; 52; 53; 54; 55; 56; 57; 48; 45; 61; 8; 9;
   113; 119; 101; 114; 116; 121; 117; 105; 111; 112; 91; 93; 10; 0; 97; 115;
   100; 102; 103; 104; 106; 107; 108; 59; 39; 96; 0; 92; 122; 120; 99; 118;
   98; 110; 109; 44; 46; 47; 0; 42; 0; 32; 0; 0; 0; 0; 0; 0;
   0; 0; 0; 0; 0; 0; 0; 45; 0; 0; 0; 43; 0; 0; 0; 0;
   0; 0; 0; 0; 0; 0; 0].
Definition us_qwerty_shift : list Z := table
  [0; 0; 33; 64; 35; 36; 37; 94; 38; 42; 40; 41; 95; 43; 8; 9;
   81; 87; 69; 82; 84; 89; 85; 73; 79; 80; 123; 125; 10; 0; 65; 83;
   68; 70; 71; 72; 74; 75; 76; 58; 34; 126; 0; 124; 90; 88; 67; 86;
   66; 78; 77; 60; 62; 63; 0; 42; 0; 32; 0; 0; 0; 0; 0; 0;
   0; 0; 0; 0; 0; 0; 0; 45; 0; 0; 0; 43; 0; 0; 0; 0;
   0; 0; 0; 0; 0; 0; 0].
Definition de_qwertz : list Z := table
  [0; 0; 49; 50; 51; 52; 53; 54; 55; 56; 57; 48; 39; 8; 9; 113;
   119; 101; 114; 116; 122; 117; 105; 111; 112; 39; 35; 10; 0; 97; 115; 100;
   102; 103; 104; 106; 107; 108; 59; 94; 96; 0; 60; 121; 120; 99; 118; 98;
   110; 109; 44; 46; 45; 0; 42; 0; 32; 0; 0; 0; 0; 0; 0; 0;
   0; 0; 0; 0; 0; 0; 45; 0; 0; 0; 43; 0; 0; 0; 0; 0;
   0; 0; 0; 0; 0; 0].
Definition de_qwertz_shift : list Z := table
  [0; 0; 33; 34; 36; 37; 38; 47; 40; 41; 61; 63; 8; 9; 81; 87;
   69; 82; 84; 90; 85; 73; 79; 80; 34; 42; 10; 0; 65; 83; 68; 70;
   71; 72; 74; 75; 76; 59; 39; 96; 0; 62; 89; 88; 67; 86; 66; 78;
   77; 59; 58; 95; 0; 42; 0; 32; 0; 0; 0; 0; 0; 0; 0; 0;
   0; 0; 0; 0; 0; 45; 0; 0; 0; 43; 0; 0; 0; 0; 0; 0;
   0; 0; 0; 0; 0].
Definition de_qwertz_altgr : list Z := table
  [0; 0; 50; 51; 123; 91; 93; 125; 92; 8; 9; 64; 0; 0; 0; 0;
   0; 0; 0; 0; 0; 126; 8; 0; 0; 0; 0; 0; 0; 0; 0; 0;
   0; 0; 96; 0; 124; 0; 0; 0; 0; 0; 0; 0; 0; 0; 0; 42;
   0; 32; 0; 0; 0; 0; 0; 0; 0; 0; 0; 0; 0; 0; 0; 45;
   0; 0; 0; 43; 0; 0; 0; 0; 0; 0; 0; 0; 0; 0; 0].
Definition fr_azerty : list Z := table
  [0; 0; 38; 101; 34; 39; 40; 45; 101; 95; 99; 97; 41; 61; 8; 9;
   97; 122; 101; 114; 116; 121; 117; 105; 111; 112; 94; 36; 10; 0; 113; 115;
   100; 102; 103; 104; 106; 107; 108; 109; 117; 42; 0; 60; 119; 120; 99; 118;
   98; 110; 44; 59; 58; 33; 0; 42; 0; 32; 0; 0; 0; 0; 0; 0;
   0; 0; 0; 0; 0; 0; 0; 45; 0; 0; 0; 43; 0; 0; 0; 0;
   0; 0; 0; 0; 0; 0; 0].
Definition fr_azerty_shift : list Z := table
  [0; 0; 49; 50; 51; 52; 53; 54; 55; 56; 57; 48; (-80); 43; 8; 9;
   65; 90; 69; 82; 84; 89; 85; 73; 79; 80; (-88); (-93); 10; 0; 81; 83;
   68; 70; 71; 72; 74; 75; 76; 77; 37; (-75); 0; 62; 87; 88; 67; 86;
   66; 78; 63; 46; 47; (-89); 0; 42; 0; 32; 0; 0; 0; 0; 0; 0;
   0; 0; 0; 0; 0; 0; 0; 45; 0; 0; 0; 43; 0; 0; 0; 0;
   0; 0; 0; 0; 0; 0; 0].

Record keyboard_layout_t := {
  layout_name : list Z;
  scancode_to_ascii : list Z;
  scancode_to_ascii_shift : list Z;
  scancode_to_ascii_altgr : option (list Z);
}.

Definition keyboard_layouts : list keyboard_layout_t :=
  [{| layout_name := lit "US QWERTY"; scancode_to_ascii := us_qwerty;
      scancode_to_ascii_shift := us_qwerty_shift; scancode_to_ascii_altgr := None |};
   {| layout_name := lit "German QWERTZ"; scancode_to_ascii := de_qwertz;
      scancode_to_ascii_shift := de_qwertz_shift; scancode_to_ascii_altgr := Some de_qwertz_altgr |};
   {| layout_name := lit "French AZERTY"; scancode_to_ascii := fr_azerty;
      scancode_to_ascii_shift := fr_azerty_shift; scancode_to_ascii_altgr := None |}].

Definition num_layouts : Z := zlen keyboard_layouts.

Record intl_state := {
  current_layout : Z;
  shift_pressed : Z;
  ctrl_pressed : Z;
  alt_pressed : Z;
  altgr_pressed : Z;
  caps_lock : Z;
  num_lock : Z;
  scroll_lock : Z;
}.

Definition KEYBOARD_ENABLE_SCANNING : Z := 0xF4.
Definition KEYBOARD_SET_LEDS : Z := 0xED.

Definition set_mods (sh ct al ag ca nu sc : Z) (s : intl_state) : intl_state :=
  {| current_layout := current_layout s; shift_pressed := sh; ctrl_pressed := ct; alt_pressed := al;
     altgr_pressed := ag; caps_lock := ca; num_lock := nu; scroll_lock := sc |}.

Definition keyboard_intl_get_layout_name (s : intl_state) : option (list Z) :=
  l ← keyboard_layouts.[current_layout s]; Some (layout_name l).

Definition keyboard_intl_get_layout_count : Z := num_layouts.

(** The inner [option] is the pointer returned. *)
Definition keyboard_intl_get_layout_name_by_index (index : Z) : option (option (list Z)) :=
  if (index <? 0) || (num_layouts <=? index) then Some None
  else l ← keyboard_layouts.[index]; Some (Some (layout_name l)).

Definition leds (s : intl_state) : Z :=
  let l := 0 in
  let l := if negb (caps_lock s =? 0) then Z.lor l 0x04 else l in
  let l := if negb (num_lock s =? 0) then Z.lor l 0x02 else l in
  if negb (scroll_lock s =? 0) then Z.lor l 0x01 else l.

Definition set_layout (l : Z) (s : intl_state) : intl_state :=
  {| current_layout := l; shift_pressed := shift_pressed s; ctrl_pressed := ctrl_pressed s;
     alt_pressed := alt_pressed s; altgr_pressed := altgr_pressed s; caps_lock := caps_lock s;
     num_lock := num_lock s; scroll_lock := scroll_lock s |}.

(** The fields stored through the pointer, if it is not NULL: [keyboard_state_t]
    has those of the driver's own state. *)
Definition keyboard_intl_get_state (state : bool) (s : intl_state) : option intl_state :=
  if negb state then None
  else Some {| current_layout := current_layout s; shift_pressed := shift_pressed s; ctrl_pressed := ctrl_pressed s;
               alt_pressed := alt_pressed s; altgr_pressed := altgr_pressed s; caps_lock := caps_lock s;
               num_lock := num_lock s; scroll_lock := scroll_lock s |}.

(** The table the modifiers select. *)
Definition char_map (layout : keyboard_layout_t) (s : intl_state) : list Z :=
  match scancode_to_ascii_altgr layout with
  | Some altgr =>
      if negb (altgr_pressed s =? 0) then altgr
      else if negb (shift_pressed s =? 0) then scancode_to_ascii_shift layout else scancode_to_ascii layout
  | None => if negb (shift_pressed s =? 0) then scancode_to_ascii_shift layout else scancode_to_ascii layout
  end.

Section driver.
Context {W : Type} `{Ports W} (stack : nat → list Z) (cur : Z) (rounds : nat).
Implicit Types (s : intl_state) (v : Vga.vga_state) (w : W).

(** The state after the reset *)
Definition reset_state : intl_state :=
  {| current_layout := 0; shift_pressed := 0; ctrl_pressed := 0; alt_pressed := 0; altgr_pressed := 0;
     caps_lock := 0; num_lock := 0; scroll_lock := 0 |}.

Definition keyboard_intl_init v w : option (Z * intl_state * Vga.vga_state * W) :=
  let w := outb 0x60 KEYBOARD_ENABLE_SCANNING w in
  '(v, w) ← Log.log_info stack cur (lit "International keyboard driver initialized") [] v w;
  '(v, w) ← Vga.vga_print (lit "Keyboard INTL: OK
") v w;
  Some (0, reset_state, v, w).

Definition keyboard_intl_set_layout (layout_index : Z) s v w : option (Z * intl_state * Vga.vga_state * W) :=
  if (layout_index <? 0) || (num_layouts <=? layout_index) then Some (-1, s, v, w)
  else
    '(v, w) ← Log.log_info stack cur (lit "Keyboard layout changed") [] v w;
    Some (0, set_layout layout_index s, v, w).

Definition keyboard_update_leds s w : option W :=
  let l := leds s in
  let w := outb 0x60 KEYBOARD_SET_LEDS w in
  w ← Keyboard.kb_poll (λ st, negb (Z.land st 0x02 =? 0)) rounds w;
  Some (outb 0x60 l w).

(** Both handlers return the [char] 0 on every path. *)
Definition handle_extended_keys s w : intl_state * W :=
  let '(extended_scancode, w) := inb 0x60 w in
  let alt_gr ag := set_mods (shift_pressed s) (ctrl_pressed s) (alt_pressed s) ag (caps_lock s) (num_lock s) (scroll_lock s) s in
  (if extended_scancode =? 0x38 then alt_gr 1 else if extended_scancode =? 0xB8 then alt_gr 0 else s, w).

Definition handle_special_keys (scancode : Z) s w : option (intl_state * W) :=
  let '(sh, ct, al, ag) := (shift_pressed s, ctrl_pressed s, alt_pressed s, altgr_pressed s) in
  let '(ca, nu, sc) := (caps_lock s, num_lock s, scroll_lock s) in
  let with_leds s := w ← keyboard_update_leds s w; Some (s, w) in
  if (scancode =? 0x2A) || (scancode =? 0x36) then Some (set_mods 1 ct al ag ca nu sc s, w)
  else if (scancode =? 0xAA) || (scancode =? 0xB6) then Some (set_mods 0 ct al ag ca nu sc s, w)
  else if scancode =? 0x1D then Some (set_mods sh 1 al ag ca nu sc s, w)
  else if scancode =? 0x9D then Some (set_mods sh 0 al ag ca nu sc s, w)
  else if scancode =? 0x38 then Some (set_mods sh ct 1 ag ca nu sc s, w)
  else if scancode =? 0xB8 then Some (set_mods sh ct 0 ag ca nu sc s, w)
  else if scancode =? 0xE0 then Some (handle_extended_keys s w)
  else if scancode =? 0x3A then with_leds (set_mods sh ct al ag (c_bool (ca =? 0)) nu sc s)
  else if scancode =? 0x45 then with_leds (set_mods sh ct al ag ca (c_bool (nu =? 0)) sc s)
  else if scancode =? 0x46 then with_leds (set_mods sh ct al ag ca nu (c_bool (sc =? 0)) s)
  else Some (s, w).

Definition keyboard_intl_available w : Z * W :=
  let '(st, w) := inb 0x64 w in (Z.land st 0x01, w).

(** [while (!keyboard_intl_available());] *)
Fixpoint wait_key (n : nat) w : option W :=
  match n with
  | O => None
  | S n => let '(a, w) := keyboard_intl_available w in if a =? 0 then wait_key n w else Some w
  end.

Definition keyboard_intl_getchar s w : option (Z * intl_state * W) :=
  w ← wait_key rounds w;
  let '(scancode, w) := inb 0x60 w in
  '(s, w) ← handle_special_keys scancode s w;
  if negb (Z.land scancode 0x80 =? 0) then Some (0, s, w)
  else if 128 <=? scancode then Some (0, s, w)
  else
    layout ← keyboard_layouts.[current_layout s];
    base_char ← (char_map layout s).[scancode];
    Some (Keyboard.apply_caps (caps_lock s) base_char, s, w).

Definition keyboard_intl_set_leds (caps num scroll : Z) s w : option (intl_state * W) :=
  let s := set_mods (shift_pressed s) (ctrl_pressed s) (alt_pressed s) (altgr_pressed s) caps num scroll s in
  w ← keyboard_update_leds s w; Some (s, w).
End driver.

(** ** Every key of every layout is in its table *)
Definition layout_ok (s : intl_state) : Prop := 0 <= current_layout s < 3.

Lemma tables_full l s : l ∈ keyboard_layouts → zlen (char_map l s) = 128.
Proof.
  unfold keyboard_layouts. rewrite !elem_of_cons, elem_of_nil.
  intros [->|[->|[->|[]]]]; unfold char_map; cbn [scancode_to_ascii_altgr scancode_to_ascii_shift scancode_to_ascii];
    repeat match goal with |- context [if ?b then _ else _] => destruct b end; reflexivity.
Qed.

Section tables.
Context {W : Type} `{Ports W} (rounds : nat).
(** The controller takes a command within [rounds] polls. *)
Hypothesis accepts : ∀ w : W, is_Some (Keyboard.kb_poll (λ st, negb (Z.land st 0x02 =? 0)) rounds w).

Lemma special_ok scancode s (w : W) :
  ∃ s' w', handle_special_keys rounds scancode s w = Some (s', w') ∧ current_layout s' = current_layout s.
Proof.
  assert (∀ s1, current_layout s1 = current_layout s →
    ∃ s' w', (w ← keyboard_update_leds rounds s1 w; Some (s1, w)) = Some (s', w') ∧ current_layout s' = current_layout s) as Hleds.
  { intros s1 Hs1. unfold keyboard_update_leds. destruct (accepts (outb 0x60 KEYBOARD_SET_LEDS w)) as [w' ->].
    cbn [mbind option_bind]. by eexists _, _. }
  unfold handle_special_keys, handle_extended_keys. destruct (inb 0x60 w) as [x w'].
  repeat match goal with |- context [if ?b then _ else _] => destruct b end; try (by eexists _, _); by apply Hleds.
Qed.

(** [keyboard_intl_getchar] stays in the tables: with a layout that
    [keyboard_intl_set_layout] accepts, once a key has come, it returns the
    character of the table the modifiers select with caps lock applied, or 0
    for a release, and keeps the layout. *)
Theorem intl_getchar_in_tables (s : intl_state) (w w1 w2 : W) (scancode : Z) :
  layout_ok s → wait_key rounds w = Some w1 → inb 0x60 w1 = (scancode, w2) → 0 <= scancode < 256 →
  ∃ c s' w', keyboard_intl_getchar rounds s w = Some (c, s', w') ∧ current_layout s' = current_layout s ∧
    (128 <= scancode → c = 0) ∧
    (scancode < 128 → ∃ layout b, keyboard_layouts.[current_layout s] = Some layout ∧
       (char_map layout s').[scancode] = Some b ∧ c = Keyboard.apply_caps (caps_lock s') b).
Proof.
  intros Hs Ew Ei Hsc. destruct (special_ok scancode s w2) as (s1 & w3 & E & Hl). unfold layout_ok in *.
  unfold keyboard_intl_getchar. rewrite Ew. cbn [mbind option_bind]. rewrite Ei, E. cbn [mbind option_bind].
  rewrite Keyboard.high_bit, negb_involutive, Hl by done.
  change 0x80 with 128. destruct (Z.leb_spec 128 scancode) as [Hhigh|Hlow].
  - exists 0, s1, w3. split; [done|]. split; [done|]. split; [done|lia].
  - destruct (zget_Some keyboard_layouts (current_layout s)) as [layout Hlay]; [done|].
    assert (zlen (char_map layout s1) = 128) as Hfull.
    { apply tables_full. unfold zget in Hlay. destruct (_ <? 0); [done|]. by eapply list_elem_of_lookup_2. }
    destruct (zget_Some (char_map layout s1) scancode) as [b Hb]; [lia|].
    rewrite Hlay. cbn [mbind option_bind]. rewrite Hb. cbn [mbind option_bind].
    eexists _, _, _. split; [reflexivity|]. split; [done|]. split; [lia|]. intros _. by exists layout, b.
Qed.
End tables.

(** Messages apart, changing the layout: a valid index takes effect, another
    one is refused. *)
Lemma set_layout_ok {W} `{Ports W} stack cur i s v (w : W) t :
  (∀ k, length (stack k) = k) → Vga.shows t v →
  ∃ v' w', keyboard_intl_set_layout stack cur i s v w =
      Some (if bool_decide (0 <= i < 3) then 0 else -1, if bool_decide (0 <= i < 3) then set_layout i s else s, v', w') ∧
    Vga.shows (if bool_decide (0 <= i < 3) then Log.logged cur Log.LOG_INFO (bytes_of_string "Keyboard layout changed") t else t) v'.
Proof.
  intros Hst Ht. unfold keyboard_intl_set_layout. change num_layouts with 3. case_bool_decide as Hi.
  - destruct (Z.ltb_spec i 0), (Z.leb_spec 3 i); try lia. cbn [orb].
    destruct (Log.log_shows stack cur Log.LOG_INFO (lit "Keyboard layout changed") (bytes_of_string "Keyboard layout changed") []
      (bytes_of_string "Keyboard layout changed") t v w Hst) as (v' & w' & E & Hv); try done.
    unfold Log.log_info. rewrite E. cbn [mbind option_bind]. by exists v', w'.
  - destruct (Z.ltb_spec i 0), (Z.leb_spec 3 i); try lia; by exists v, w.
Qed.

(** A machine whose reads come from a list, and then return 0. *)
Definition scripted (l : list Z) : machine := {| reads := λ n _, nth n l 0; clock := 0; writes := []; word_writes := []; long_writes := [] |}.
Definition typed_char (s : intl_state) (scancode : Z) : option Z :=
  (λ r, r.1.1) <$> keyboard_intl_getchar 2 s (scripted [1; scancode]).

(** A controller that always has the Enter key. *)
Definition enter_port : Ports unit :=
  {| inb port w := (if port =? 0x60 then 0x1C else 1, w); outb _ _ w := w; inw _ w := (0, w); outw _ _ w := w; inl _ w := (0, w); outl _ _ w := w |}.

Lemma intl_getchar_in_tables_witness :
  ∃ c s' w', @keyboard_intl_getchar unit enter_port 1 reset_state tt = Some (c, s', w') ∧
    current_layout s' = current_layout reset_state ∧
    (128 <= 0x1C → c = 0) ∧
    (0x1C < 128 → ∃ layout b, keyboard_layouts.[current_layout reset_state] = Some layout ∧
       (char_map layout s').[0x1C] = Some b ∧ c = Keyboard.apply_caps (caps_lock s') b).
Proof.
  apply (@intl_getchar_in_tables unit enter_port 1 ltac:(intros w; by eexists) reset_state tt tt tt 0x1C);
    [unfold layout_ok; cbn; lia|reflexivity|reflexivity|lia].
Defined.

(** The German tables are one and two entries short before the tab key:
    Enter (scancode 0x1C) types nothing, Backspace (0x0E) types a tab, and
    pressing the left shift key (0x2A) itself types a 'Y', while the US table
    gives newline, backspace and nothing. *)
Theorem german_layout_shifted :
  typed_char reset_state <$> [0x1C; 0x0E; 0x2A] = [Some 10; Some 8; Some 0] ∧
  typed_char (set_layout 1 reset_state) <$> [0x1C; 0x0E; 0x2A] = [Some 0; Some 9; Some 89].
Proof. split; vm_compute; reflexivity. Qed.

End KeyboardIntl.
