(* ===== verification/Serial.v ===== *)
(** * Serial: the serial port driver (drivers/serial.c)

    A [char] is its byte 0..255.  The wait loops read the line status until
    the port is ready or their timeout is over, whatever the hardware says. *)
From S2P Require Import Prelude CString Ports.

Module Serial.

Definition SERIAL_COM1_BASE : Z := 0x3F8.
Definition SERIAL_DATA_PORT (base : Z) : Z := base.
Definition SERIAL_FIFO_CMD_PORT (base : Z) : Z := base + 2.
Definition SERIAL_LINE_CMD_PORT (base : Z) : Z := base + 3.
Definition SERIAL_MODEM_CMD_PORT (base : Z) : Z := base + 4.
Definition SERIAL_LINE_STATUS_PORT (base : Z) : Z := base + 5.
Definition SERIAL_LINE_ENABLE_DLAB : Z := 0x80.
Definition SERIAL_BAUD_DIVISOR : Z := 3.
(** [timeout] in [serial_putchar] *)
Definition PUTCHAR_TIMEOUT : nat := Z.to_nat 100000.
#[global] Arguments PUTCHAR_TIMEOUT : simpl never.
#[global] Opaque PUTCHAR_TIMEOUT.

Section serial.
Context {W : Type} `{Ports W}.

Definition serial_init (w : W) : Z * W :=
  let w := outb (SERIAL_COM1_BASE + 1) 0x00 w in
  let w := outb (SERIAL_LINE_CMD_PORT SERIAL_COM1_BASE) SERIAL_LINE_ENABLE_DLAB w in
  let w := outb (SERIAL_DATA_PORT SERIAL_COM1_BASE) (Z.land SERIAL_BAUD_DIVISOR 0xFF) w in
  let w := outb (SERIAL_COM1_BASE + 1) (Z.land (Z.shiftr SERIAL_BAUD_DIVISOR 8) 0xFF) w in
  let w := outb (SERIAL_LINE_CMD_PORT SERIAL_COM1_BASE) 0x03 w in
  let w := outb (SERIAL_FIFO_CMD_PORT SERIAL_COM1_BASE) 0xC7 w in
  let w := outb (SERIAL_MODEM_CMD_PORT SERIAL_COM1_BASE) 0x0B w in
  (1, w).

Definition serial_is_transmit_empty (com : Z) (w : W) : Z * W :=
  let '(st, w) := inb (SERIAL_LINE_STATUS_PORT com) w in (Z.land st 0x20, w).

(** [while (!empty) { if (timeout-- <= 0) break; }] *)
Fixpoint wait_transmit (timeout : nat) (com : Z) (w : W) : W :=
  let '(e, w) := serial_is_transmit_empty com w in
  if negb (e =? 0) then w
  else match timeout with O => w | S t => wait_transmit t com w end.

Definition serial_putchar (com c : Z) (w : W) : W :=
  outb (SERIAL_DATA_PORT com) c (wait_transmit PUTCHAR_TIMEOUT com w).

Fixpoint serial_write (com : Z) (str : list Z) (w : W) : option W :=
  match str with
  | [] => UB
  | c :: str =>
      if c =? 0 then Some w
      else
        let w := if c =? 10 then serial_putchar com 13 w else w in
        serial_write com str (serial_putchar com c w)
  end.

Definition serial_is_data_ready (com : Z) (w : W) : Z * W :=
  let '(st, w) := inb (SERIAL_LINE_STATUS_PORT com) w in (Z.land st 0x01, w).

(** [serial_getchar] waits without a bound; [None] while nothing has come
    after [patience] status reads. *)
Fixpoint serial_getchar (patience : nat) (com : Z) (w : W) : option (Z * W) :=
  match patience with
  | O => None
  | S n =>
      let '(ready, w) := serial_is_data_ready com w in
      if ready =? 0 then serial_getchar n com w else Some (inb (SERIAL_DATA_PORT com) w)
  end.

(** [serial_debug], [serial_info] and [serial_error] *)
Definition serial_message (prefix message : list Z) (w : W) : option W :=
  w ← serial_write SERIAL_COM1_BASE prefix w;
  w ← serial_write SERIAL_COM1_BASE message w;
  Some (serial_putchar SERIAL_COM1_BASE 10 w).
Definition serial_debug (message : list Z) (w : W) : option W := serial_message (lit "[DEBUG] ") message w.
Definition serial_info (message : list Z) (w : W) : option W := serial_message (lit "[INFO] ") message w.
Definition serial_error (message : list Z) (w : W) : option W := serial_message (lit "[ERROR] ") message w.

Definition hex_chars : list Z := lit "0123456789ABCDEF".

(** [for (i = n - 1; i >= 0; i--)], most significant nibble first *)
Fixpoint hex_nibbles (n : nat) (com value : Z) (w : W) : option W :=
  match n with
  | O => Some w
  | S i =>
      c ← hex_chars.[Z.land (Z.shiftr value (Z.of_nat i * 4)) 0xF];
      hex_nibbles i com value (serial_putchar com c w)
  end.

Definition serial_hex (com value : Z) (w : W) : option W :=
  hex_nibbles 8 com value (serial_putchar com 120 (serial_putchar com 48 w)).

(** [while (value > 0) { buffer[i++] = value % 10 + '0'; value /= 10; }] *)
Fixpoint decimal_digits (fuel : nat) (value i : Z) (buffer : list Z) : option (Z * list Z) :=
  match fuel with
  | O => None
  | S fuel =>
      if 0 <? value then
        buffer ← zset buffer i (value mod 10 + 48);
        decimal_digits fuel (value / 10) (i + 1) buffer
      else Some (i, buffer)
  end.

(** [for (j = n - 1; j >= 0; j--) serial_putchar(com, buffer[j]);] *)
Fixpoint put_reversed (n : nat) (com : Z) (buffer : list Z) (w : W) : option W :=
  match n with
  | O => Some w
  | S j => c ← buffer !! j; put_reversed j com buffer (serial_putchar com c w)
  end.

(** [buffer] is uninitialised; a 32-bit value has at most 10 digits. *)
Definition serial_decimal (com value : Z) (buffer : list Z) (w : W) : option W :=
  if value =? 0 then Some (serial_putchar com 48 w)
  else
    '(i, buffer) ← decimal_digits 11 value 0 buffer;
    put_reversed (Z.to_nat i) com buffer w.

(** The loop that polls the port at most 1000 times. *)
Fixpoint flush (n : nat) (w : W) : W :=
  match n with
  | O => w
  | S n =>
      let '(e, w) := serial_is_transmit_empty SERIAL_COM1_BASE w in
      if negb (e =? 0) then w else flush n w
  end.

Definition serial_panic (message : list Z) (w : W) : option W :=
  w ← serial_write SERIAL_COM1_BASE (lit "
=== KERNEL PANIC ===
") w;
  w ← serial_write SERIAL_COM1_BASE message w;
  w ← serial_write SERIAL_COM1_BASE (lit "
System halted.
") w;
  Some (flush 1000 w).

(** ** What goes out on the line *)
Context (log : W → list (Z * Z)) `{!PortLog W log}.

(** The bytes [bs] sent to port [com], each as one write. *)
Definition sent (com : Z) (bs : list Z) : list (Z * Z) := (λ b, (u16 com, u8 b)) <$> bs.

Lemma log_status com w : log (serial_is_transmit_empty com w).2 = log w.
Proof.
  unfold serial_is_transmit_empty. pose proof (log_inb (SERIAL_LINE_STATUS_PORT com) w) as H0.
  by destruct (inb _ w).
Qed.

Lemma log_wait n com w : log (wait_transmit n com w) = log w.
Proof.
  revert w. induction n as [|n IH]; intros w; cbn [wait_transmit];
    pose proof (log_status com w) as Hs; destruct (serial_is_transmit_empty com w) as [e w1]; cbn [snd] in Hs;
    destruct (negb (e =? 0)); try done. by rewrite IH.
Qed.

Lemma log_putchar com c w : log (serial_putchar com c w) = log w ++ sent com [c].
Proof. unfold serial_putchar. by rewrite log_outb, log_wait. Qed.

Lemma sent_app com a b : sent com (a ++ b) = sent com a ++ sent com b.
Proof. apply fmap_app. Qed.

(** Carriage returns are put before newlines. *)
Definition crlf (s : list Z) : list Z := s ≫= λ c, if c =? 10 then [13; 10] else [c].

Lemma serial_write_spec com str s w :
  cstr str = Some s → ∃ w', serial_write com str w = Some w' ∧ log w' = log w ++ sent com (crlf s).
Proof.
  intros (r & -> & Hs)%cstr_alt. revert w. induction Hs as [|c s Hc Hs IH]; intros w.
  - exists w. cbn. by rewrite app_nil_r.
  - cbn [app serial_write]. destruct (Z.eqb_spec c 0); [done|].
    destruct (IH (serial_putchar com c (if c =? 10 then serial_putchar com 13 w else w))) as (w' & -> & Hw).
    exists w'. split; [done|]. rewrite Hw. unfold crlf. cbn [mbind list_bind]. fold (crlf s). unfold crlf.
    rewrite sent_app, log_putchar. destruct (Z.eqb_spec c 10) as [->|]; rewrite ?log_putchar, <- ?app_assoc; done.
Qed.

(** ** Numbers on the line *)
Definition nibbles (n : nat) (value : Z) : list Z := (λ i : nat, (value / 16 ^ Z.of_nat i) mod 16) <$> rev (seq 0 n).

Lemma nibbles_value n value : 0 <= value → foldl (λ a d, 16 * a + d) 0 (nibbles n value) = value mod 16 ^ Z.of_nat n.
Proof.
  intros Hv. assert (∀ k a, foldl (λ a d, 16 * a + d) a (nibbles k value) = a * 16 ^ Z.of_nat k + value mod 16 ^ Z.of_nat k) as Hk.
  { induction k as [|k IH]; intros a; [cbn; rewrite Z.mod_1_r; lia|].
    unfold nibbles. rewrite seq_S, rev_app_distr. cbn [rev app fmap list_fmap foldl]. fold (nibbles k value).
    rewrite IH, Nat.add_0_l, Nat2Z.inj_succ, Z.pow_succ_r by lia.
    assert (0 < 16 ^ Z.of_nat k) by (apply Z.pow_pos_nonneg; lia).
    rewrite (Z.mul_comm 16 (16 ^ Z.of_nat k)), Z.rem_mul_r by lia. lia. }
  by rewrite Hk.
Qed.

Lemma hex_char d : 0 <= d < 16 → hex_chars.[d] = Some (if d <? 10 then d + 48 else d + 55).
Proof.
  intros Hd. assert (Forall (λ d, hex_chars.[d] = Some (if d <? 10 then d + 48 else d + 55)) (seqZ 0 16)) as H0.
  { apply (bool_decide_unpack _). vm_compute. exact I. }
  apply (proj1 (Forall_forall _ _) H0). apply elem_of_seqZ. lia.
Qed.

Lemma hex_nibbles_spec n com value w :
  0 <= value →
  ∃ w', hex_nibbles n com value w = Some w' ∧
    log w' = log w ++ sent com ((λ d, if d <? 10 then d + 48 else d + 55) <$> nibbles n value).
Proof.
  intros Hv. revert w. induction n as [|n IH]; intros w; cbn [hex_nibbles].
  - exists w. unfold nibbles. cbn. by rewrite app_nil_r.
  - assert (Z.land (Z.shiftr value (Z.of_nat n * 4)) 0xF = (value / 16 ^ Z.of_nat n) mod 16) as ->.
    { change 0xF with (Z.ones 4). rewrite Z.land_ones, Z.shiftr_div_pow2, (Z.mul_comm _ 4), Z.pow_mul_r by lia. done. }
    rewrite hex_char by (apply Z.mod_pos_bound; lia). cbn [mbind option_bind].
    destruct (IH (serial_putchar com (if (value / 16 ^ Z.of_nat n) mod 16 <? 10 then (value / 16 ^ Z.of_nat n) mod 16 + 48
      else (value / 16 ^ Z.of_nat n) mod 16 + 55) w)) as (w' & -> & Hw).
    exists w'. split; [done|]. rewrite Hw, log_putchar, <- app_assoc, <- sent_app. do 2 f_equal.
    unfold nibbles. by rewrite seq_S, rev_app_distr.
Qed.

Lemma decimal_digits_spec fuel value done_ rest :
  0 <= value < 10 ^ (Z.of_nat fuel - 1) → (0 < fuel)%nat → (fuel - 1 ≤ length rest)%nat →
  ∃ ds rest', decimal_digits fuel value (zlen done_) (done_ ++ rest) = Some (zlen (done_ ++ ds), (done_ ++ ds) ++ rest') ∧
    numeral_value 10 (rev ds) = value ∧ (length ds ≤ length rest)%nat ∧
    (value = 0 → ds = []) ∧ (0 < value → ∃ ds' c, ds = ds' ++ [c] ∧ 49 <= c <= 57).
Proof.
  revert value done_ rest. induction fuel as [|fuel IH]; intros value don rest Hv Hf Hl; [lia|].
  cbn [decimal_digits]. destruct (Z.ltb_spec 0 value) as [Hpos|Hz].
  2: { exists [], rest. rewrite app_nil_r. split; [done|]. split; [cbn; lia|]. split; [cbn; lia|]. split; [done|lia]. }
  replace (Z.of_nat (S fuel) - 1) with (Z.of_nat fuel) in Hv by lia.
  destruct fuel as [|fuel]; [cbn in Hv; lia|]. destruct rest as [|x rest]; [cbn in Hl; lia|].
  rewrite zset_in by (unfold zlen; rewrite length_app; cbn; lia).
  replace (Z.to_nat (zlen don)) with (length don + 0)%nat by (unfold zlen; lia).
  rewrite insert_app_r. cbn [mbind option_bind insert list_insert].
  replace (don ++ value mod 10 + 48 :: rest) with ((don ++ [value mod 10 + 48]) ++ rest) by by rewrite <- app_assoc.
  replace (zlen don + 1) with (zlen (don ++ [value mod 10 + 48])) by (unfold zlen; rewrite length_app; cbn; lia).
  assert (0 <= value / 10 < 10 ^ (Z.of_nat (S fuel) - 1)).
  { split; [apply Z.div_pos; lia|]. apply Z.div_lt_upper_bound; [lia|].
    rewrite <- Z.pow_succ_r by lia. replace (Z.succ (Z.of_nat (S fuel) - 1)) with (Z.of_nat (S fuel)) by lia. lia. }
  destruct (IH (value / 10) (don ++ [value mod 10 + 48]) rest) as (ds & rest' & -> & Hval & Hlen & Hz & Hlast);
    [done|lia|cbn in Hl; lia|].
  pose proof (Z.mod_pos_bound value 10 ltac:(lia)) as Hm.
  exists (value mod 10 + 48 :: ds), rest'. rewrite <- !app_assoc. cbn [app]. split; [done|]. split; [|split; [|split]].
  - cbn [rev]. rewrite numeral_value_app, Hval. unfold digit_value.
    destruct (Z.leb_spec (value mod 10 + 48) 57); [|lia]. Z.div_mod_to_equations. lia.
  - cbn. lia.
  - lia.
  - intros _. destruct (Z.lt_ge_cases 0 (value / 10)) as [Hp|Hp].
    + destruct (Hlast Hp) as (ds' & c & -> & Hc). by exists (value mod 10 + 48 :: ds'), c.
    + rewrite Hz by lia. exists [], (value mod 10 + 48). split; [done|]. Z.div_mod_to_equations. lia.
Qed.

Lemma put_reversed_spec n com buffer w :
  (n ≤ length buffer)%nat →
  ∃ w', put_reversed n com buffer w = Some w' ∧ log w' = log w ++ sent com (rev (take n buffer)).
Proof.
  revert w. induction n as [|n IH]; intros w Hn; cbn [put_reversed].
  - exists w. cbn. by rewrite app_nil_r.
  - destruct (lookup_lt_is_Some_2 buffer n) as [c Hc]; [lia|]. rewrite Hc. cbn [mbind option_bind].
    destruct (IH (serial_putchar com c w)) as (w' & -> & Hw); [lia|]. exists w'. split; [done|].
    rewrite Hw, log_putchar, <- app_assoc, <- sent_app. by rewrite (take_S_r _ _ c Hc), rev_app_distr.
Qed.

(** Whatever the line status reads, printing any 32-bit number on the
    serial port terminates inside the 16-byte buffer and sends exactly its
    numeral: [serial_decimal] the decimal digits without a leading zero,
    [serial_hex] 0x and eight digits, most significant first. *)
Theorem serial_numbers com value buffer w :
  0 <= value < 4294967296 → length buffer = 16%nat →
  (∃ w' s, serial_decimal com value buffer w = Some w' ∧ log w' = log w ++ sent com s ∧
     numeral_value 10 s = value ∧ (head s = Some 48 → value = 0)) ∧
  (∃ w' ds, serial_hex com value w = Some w' ∧ length ds = 8%nat ∧ foldl (λ a d, 16 * a + d) 0 ds = value ∧
     log w' = log w ++ sent com ([48; 120] ++ ((λ d, if d <? 10 then d + 48 else d + 55) <$> ds))).
Proof.
  intros Hv Hb. split.
  - unfold serial_decimal. destruct (Z.eqb_spec value 0) as [->|Hne].
    { exists (serial_putchar com 48 w), [48]. split; [done|]. split; [apply log_putchar|]. done. }
    destruct (decimal_digits_spec 11 value [] buffer) as (ds & rest' & E & Hval & Hlen & _ & Hlast); [lia|lia|lia|].
    cbn [app] in E. change (zlen []) with 0 in E. rewrite E. cbn [mbind option_bind]. clear E.
    destruct (put_reversed_spec (Z.to_nat (zlen ds)) com (ds ++ rest') w) as (w' & -> & Hw).
    { unfold zlen. rewrite length_app. lia. }
    exists w', (rev ds). split; [done|]. rewrite Hw. unfold zlen. rewrite Nat2Z.id, take_app_length.
    split; [done|]. split; [done|]. destruct Hlast as (ds' & c & -> & Hc); [lia|].
    rewrite rev_app_distr. intros [= ->]. lia.
  - unfold serial_hex. destruct (hex_nibbles_spec 8 com value (serial_putchar com 120 (serial_putchar com 48 w)))
      as (w' & -> & Hw); [lia|]. exists w', (nibbles 8 value). split; [done|]. split; [done|]. split.
    + rewrite nibbles_value by lia. apply Z.mod_small. change (16 ^ Z.of_nat 8) with 4294967296. lia.
    + rewrite Hw, !log_putchar, <- !app_assoc. done.
Qed.
End serial.

Lemma serial_numbers_witness :
  (∃ w' s, serial_decimal SERIAL_COM1_BASE 4294967295 (replicate 16 170) (constant_machine 0) = Some w' ∧
     writes w' = writes (constant_machine 0) ++ sent SERIAL_COM1_BASE s ∧
     numeral_value 10 s = 4294967295 ∧ (head s = Some 48 → 4294967295 = 0)) ∧
  (∃ w' ds, serial_hex SERIAL_COM1_BASE 4294967295 (constant_machine 0) = Some w' ∧ length ds = 8%nat ∧
     foldl (λ a d, 16 * a + d) 0 ds = 4294967295 ∧
     writes w' = writes (constant_machine 0) ++
       sent SERIAL_COM1_BASE ([48; 120] ++ ((λ d, if d <? 10 then d + 48 else d + 55) <$> ds))).
Proof. apply (serial_numbers writes SERIAL_COM1_BASE 4294967295 (replicate 16 170) (constant_machine 0)); [lia|reflexivity]. Defined.

End Serial.
