(* ===== verification/Pci.v ===== *)
(** * Pci: configuration space access and device search (kernel/pci.c)

    The bus is reached through [inl] and [outl]; what a read of the data port
    returns is the class [PciBus].  Log messages are not modelled. *)
From S2P Require Import Prelude Ports.

Module Pci.

Definition PCI_CONFIG_ADDRESS : Z := 0xCF8.
Definition PCI_CONFIG_DATA : Z := 0xCFC.

Record pci_device := {
  bus : Z;
  slot : Z;
  function : Z;
  vendor_id : Z;
  device_id : Z;
  bar0 : Z;
  irq_line : Z;
}.

Definition pci_config_address (bus slot func offset : Z) : Z :=
  Z.lor (Z.lor (Z.lor (Z.lor (u32 (Z.shiftl 1 31)) (u32 (Z.shiftl bus 16))) (u32 (Z.shiftl slot 11)))
               (u32 (Z.shiftl func 8))) (Z.land offset 0xFC).

Section pci.
Context {W : Type} `{Ports W}.

Definition pci_read_config_dword (bus slot func offset : Z) (w : W) : Z * W :=
  inl PCI_CONFIG_DATA (outl PCI_CONFIG_ADDRESS (pci_config_address bus slot func offset) w).

Definition pci_read_config_word (bus slot func offset : Z) (w : W) : Z * W :=
  let '(data, w) := inl PCI_CONFIG_DATA (outl PCI_CONFIG_ADDRESS (pci_config_address bus slot func offset) w) in
  (if negb (Z.land offset 2 =? 0) then u16 (Z.shiftr data 16) else u16 (Z.land data 0xFFFF), w).

(** The device found at [slot] and [func]. *)
Definition fill_device (vendor device slot func : Z) (w : W) : pci_device * W :=
  let '(bar0, w) := pci_read_config_dword 0 slot func 0x10 w in
  let '(irq_data, w) := pci_read_config_dword 0 slot func 0x3C w in
  ({| bus := 0; slot := slot; function := func; vendor_id := vendor; device_id := device; bar0 := bar0;
      irq_line := u8 (Z.land irq_data 0xFF) |}, w).

(** The inner loop, over the [n] functions from [func] on. *)
Fixpoint find_func (n : nat) (vendor device slot func : Z) (w : W) : option pci_device * W :=
  match n with
  | O => (None, w)
  | S n =>
      let '(v, w) := pci_read_config_word 0 slot func 0x00 w in
      if v =? 0xFFFF then
        if func =? 0 then (None, w) else find_func n vendor device slot (func + 1) w
      else
        let '(d, w) := pci_read_config_word 0 slot func 0x02 w in
        if (v =? vendor) && (d =? device) then
          let '(dev, w) := fill_device v d slot func w in (Some dev, w)
        else find_func n vendor device slot (func + 1) w
  end.

(** The outer loop, over the [n] slots from [slot] on. *)
Fixpoint find_slot (n : nat) (vendor device slot : Z) (w : W) : option pci_device * W :=
  match n with
  | O => (None, w)
  | S n =>
      match find_func 8 vendor device slot 0 w with
      | (Some dev, w) => (Some dev, w)
      | (None, w) => find_slot n vendor device (slot + 1) w
      end
  end.

(** [out] tells whether the output pointer is not NULL; the structure stored
    through it is returned. *)
Definition pci_find_device (vendor device : Z) (out : bool) (w : W) : Z * option pci_device * W :=
  if negb out then (-1, None, w)
  else
    match find_slot 32 vendor device 0 w with
    | (Some dev, w) => (0, Some dev, w)
    | (None, w) => (-1, None, w)
    end.

(** The lines logged: slot, vendor, device. *)
Fixpoint dump_slots (n : nat) (slot : Z) (w : W) : list (Z * Z * Z) * W :=
  match n with
  | O => ([], w)
  | S n =>
      let '(v, w) := pci_read_config_word 0 slot 0 0x00 w in
      if v =? 0xFFFF then dump_slots n (slot + 1) w
      else
        let '(d, w) := pci_read_config_word 0 slot 0 0x02 w in
        let '(ls, w) := dump_slots n (slot + 1) w in
        ((slot, v, d) :: ls, w)
  end.
Definition pci_dump_bus0 (w : W) : list (Z * Z * Z) * W := dump_slots 32 0 w.

(** ** What the loops see of a bus

    [cfg a] is the 32-bit register at configuration address [a]; it does not
    change while the search runs. *)
Class PciBus (cfg : Z → Z) := {
  pci_data a w : (inl PCI_CONFIG_DATA (outl PCI_CONFIG_ADDRESS a w)).1 = u32 (cfg a);
}.

Context (cfg : Z → Z) `{!PciBus cfg}.

Definition reg (slot func offset : Z) : Z := u32 (cfg (pci_config_address 0 slot func offset)).
Definition vendor_at (slot func : Z) : Z := u16 (reg slot func 0).
Definition device_at (slot func : Z) : Z := u16 (Z.shiftr (reg slot func 2) 16).

Lemma read_vendor slot func w : (pci_read_config_word 0 slot func 0x00 w).1 = vendor_at slot func.
Proof.
  unfold pci_read_config_word, vendor_at, reg. pose proof (pci_data (pci_config_address 0 slot func 0) w) as E.
  destruct (inl _ _) as [d w']. cbn [fst] in *. subst d. change (negb (Z.land 0 2 =? 0)) with false. cbv iota.
  change 0xFFFF with (Z.ones 16). rewrite Z.land_ones by lia. unfold u16. change (2 ^ 16) with 65536. by rewrite Z.mod_mod.
Qed.
Lemma read_device slot func w : (pci_read_config_word 0 slot func 0x02 w).1 = device_at slot func.
Proof.
  unfold pci_read_config_word, device_at, reg. pose proof (pci_data (pci_config_address 0 slot func 2) w) as E.
  destruct (inl _ _) as [d w']. cbn [fst] in *. by subst d.
Qed.

(** The functions the search visits, in order: all eight of a slot whose
    function 0 is present. *)
Definition present (slot func : Z) : bool := negb (vendor_at slot func =? 0xFFFF).
Definition visited : list (Z * Z) :=
  seqZ 0 32 ≫= λ slot, if present slot 0 then pair slot <$> seqZ 0 8 else [].
Definition matches (vendor device : Z) (p : Z * Z) : bool :=
  present p.1 p.2 && (vendor_at p.1 p.2 =? vendor) && (device_at p.1 p.2 =? device).

Definition device_record (p : Z * Z) : pci_device :=
  {| bus := 0; slot := p.1; function := p.2; vendor_id := vendor_at p.1 p.2; device_id := device_at p.1 p.2;
     bar0 := reg p.1 p.2 0x10; irq_line := u8 (Z.land (reg p.1 p.2 0x3C) 0xFF) |}.

Lemma fill_device_spec slot func w :
  (fill_device (vendor_at slot func) (device_at slot func) slot func w).1 = device_record (slot, func).
Proof.
  unfold fill_device, pci_read_config_dword.
  pose proof (pci_data (pci_config_address 0 slot func 0x10) w) as E1. destruct (inl _ _) as [d w1].
  pose proof (pci_data (pci_config_address 0 slot func 0x3C) w1) as E2. destruct (inl _ _) as [d' w2].
  cbn [fst] in *. by subst.
Qed.

(** The matching element of a list of functions. *)
Definition first_match (vendor device : Z) (ps : list (Z * Z)) : option pci_device :=
  i ← find_first (matches vendor device) ps; p ← ps !! i; Some (device_record p).

Lemma first_match_app vendor device a b :
  first_match vendor device (a ++ b) =
    match first_match vendor device a with Some d => Some d | None => first_match vendor device b end.
Proof.
  induction a as [|p a IH]; [done|]. unfold first_match in *. cbn [app find_first].
  destruct (matches vendor device p); [done|].
  destruct (find_first _ (a ++ b)), (find_first _ a), (find_first _ b); cbn in *; done.
Qed.

Lemma first_match_cons vendor device p ps :
  first_match vendor device (p :: ps) =
    if matches vendor device p then Some (device_record p) else first_match vendor device ps.
Proof.
  unfold first_match. cbn [find_first]. destruct (matches vendor device p); [done|].
  by destruct (find_first _ ps).
Qed.

Lemma find_func_spec n vendor device slot func w :
  (func ≠ 0 ∨ present slot 0 = true) → 0 <= func →
  (find_func n vendor device slot func w).1 = first_match vendor device (pair slot <$> seqZ func (Z.of_nat n)).
Proof.
  revert func w. induction n as [|n IH]; intros func w Hp Hf; [done|].
  rewrite seqZ_cons by lia. rewrite fmap_cons, first_match_cons.
  replace (Z.succ func) with (func + 1) by lia. replace (Z.pred (Z.of_nat (S n))) with (Z.of_nat n) by lia.
  cbn [find_func]. pose proof (read_vendor slot func w) as Ev. destruct (pci_read_config_word _ _ _ _ w) as [v w1].
  cbn [fst] in Ev. subst v. unfold matches, present in *. cbn [fst snd].
  destruct (Z.eqb_spec (vendor_at slot func) 0xFFFF) as [E|E]; cbn [negb andb].
  - destruct (Z.eqb_spec func 0) as [->|Hne]; [destruct Hp as [?|Hp]; [done|]; by rewrite E in Hp|].
    apply IH; [by left; lia|lia].
  - pose proof (read_device slot func w1) as Ed. destruct (pci_read_config_word _ _ _ _ w1) as [d w2].
    cbn [fst] in Ed. subst d.
    destruct ((vendor_at slot func =? vendor) && (device_at slot func =? device)).
    + pose proof (fill_device_spec slot func w2) as Er. destruct (fill_device _ _ _ _ w2) as [dev w3].
      cbn [fst] in *. by subst.
    + apply IH; [by left; lia|lia].
Qed.

Lemma find_func_absent n vendor device slot w :
  present slot 0 = false → (find_func (S n) vendor device slot 0 w).1 = None.
Proof.
  intros Hp. cbn [find_func]. pose proof (read_vendor slot 0 w) as Ev. destruct (pci_read_config_word _ _ _ _ w) as [v w1].
  cbn [fst] in Ev. subst v. unfold present in Hp. apply negb_false_iff in Hp. rewrite Hp. done.
Qed.

Lemma find_slot_spec n vendor device slot w :
  (find_slot n vendor device slot w).1 =
    first_match vendor device (seqZ slot (Z.of_nat n) ≫= λ s, if present s 0 then pair s <$> seqZ 0 8 else []).
Proof.
  revert slot w. induction n as [|n IH]; intros slot w; [done|].
  rewrite (seqZ_cons slot) by lia.
  rewrite bind_cons, first_match_app.
  replace (Z.succ slot) with (slot + 1) by lia. replace (Z.pred (Z.of_nat (S n))) with (Z.of_nat n) by lia.
  cbn [find_slot].
  assert ((find_func 8 vendor device slot 0 w).1 =
    first_match vendor device (if present slot 0 then pair slot <$> seqZ 0 8 else [])) as E.
  { destruct (present slot 0) eqn:Hp.
    - change 8 with (Z.of_nat 8). apply find_func_spec; [by right|lia].
    - by apply find_func_absent. }
  destruct (find_func 8 vendor device slot 0 w) as [[dev|] w1]; cbn [fst] in E; rewrite <- E; [done|apply IH].
Qed.
End pci.

(** On any bus, [pci_find_device] reports the first function with the given
    vendor and device in slot order, then function order, among the
    functions of the slots whose function 0 is present, with its base
    address and interrupt line, and -1 exactly when there is none; without an
    output pointer it returns -1 at once. *)
Theorem pci_find_device_first {W : Type} `{Ports W} (cfg : Z → Z) `{!PciBus cfg} (vendor device : Z) (w : W) :
  (pci_find_device vendor device true w).1 =
    match find_first (matches cfg vendor device) (visited cfg) with
    | Some i => (0, (λ p, device_record cfg p) <$> visited cfg !! i)
    | None => (-1, None)
    end ∧
  pci_find_device vendor device false w = (-1, None, w).
Proof.
  split; [|done]. unfold pci_find_device. cbn [negb].
  pose proof (find_slot_spec cfg 32 vendor device 0 w) as E. change (Z.of_nat 32) with 32 in E. fold (visited cfg) in E.
  unfold first_match in E. destruct (find_slot 32 vendor device 0 w) as [r w'] eqn:Er. cbn [fst] in E.
  destruct (find_first _ (visited cfg)) as [i|] eqn:Ei; cbn [mbind option_bind] in E; [|by subst r].
  apply find_first_lt in Ei. destruct (lookup_lt_is_Some_2 _ _ Ei) as [p Hp]. rewrite Hp in *. cbn in *. by subst r.
Qed.

(** ** Configuration addresses *)

(** The address word is an encoding: bus, slot, function and the aligned
    register offset can be read back from it, so two different registers
    never share an address. *)
Theorem pci_config_address_roundtrip bus slot func offset :
  0 <= bus < 256 → 0 <= slot < 32 → 0 <= func < 8 → 0 <= offset < 256 →
  let a := pci_config_address bus slot func offset in
  a = 0x80000000 + bus * 0x10000 + slot * 0x800 + func * 0x100 + offset / 4 * 4 ∧
  (a / 0x10000) mod 256 = bus ∧ (a / 0x800) mod 32 = slot ∧ (a / 0x100) mod 8 = func ∧ a mod 256 = offset / 4 * 4.
Proof.
  intros Hb Hs Hf Ho a.
  assert (a = 0x80000000 + bus * 0x10000 + slot * 0x800 + func * 0x100 + offset / 4 * 4) as E.
  { unfold a, pci_config_address. rewrite !Z.shiftl_mul_pow2 by lia.
    assert (Z.land offset 0xFC = offset / 4 * 4) as ->.
    { change 0xFC with (Z.ldiff (Z.ones 8) (Z.ones 2)). rewrite Z.ldiff_land, Z.land_assoc, <- Z.ldiff_land.
      rewrite Z.land_ones, Z.mod_small, Z.ldiff_ones_r, Z.shiftl_mul_pow2, Z.shiftr_div_pow2 by (cbn; lia). done. }
    rewrite !u32_id by (cbn; lia). change (2 ^ 31) with 0x80000000. change (2 ^ 16) with 0x10000.
    change (2 ^ 11) with 0x800. change (2 ^ 8) with 0x100.
    assert (offset / 4 * 4 < 256 ∧ 0 <= offset / 4 * 4) by (Z.div_mod_to_equations; lia).
    replace (1 * 0x80000000) with (2 ^ 24 * 128) by done. rewrite (lor_aligned 24 128 (bus * 0x10000)) by lia.
    replace (2 ^ 24 * 128 + bus * 0x10000) with (2 ^ 16 * (32768 + bus)) by lia.
    rewrite (lor_aligned 16 _ (slot * 0x800)) by lia.
    replace (2 ^ 16 * (32768 + bus) + slot * 0x800) with (2 ^ 11 * (32 * (32768 + bus) + slot)) by lia.
    rewrite (lor_aligned 11 _ (func * 0x100)) by lia.
    replace (2 ^ 11 * (32 * (32768 + bus) + slot) + func * 0x100) with (2 ^ 8 * (8 * (32 * (32768 + bus) + slot) + func)) by lia.
    rewrite (lor_aligned 8) by lia. lia. }
  clearbody a. subst a. split; [done|]. Z.div_mod_to_equations. lia.
Qed.

Lemma pci_config_address_roundtrip_witness :
  let a := pci_config_address 0 3 1 0x3E in
  a = 0x80000000 + 0 * 0x10000 + 3 * 0x800 + 1 * 0x100 + 0x3E / 4 * 4 ∧
  (a / 0x10000) mod 256 = 0 ∧ (a / 0x800) mod 32 = 3 ∧ (a / 0x100) mod 8 = 1 ∧ a mod 256 = 0x3E / 4 * 4.
Proof. apply (pci_config_address_roundtrip 0 3 1 0x3E); lia. Defined.

(** ** A concrete bus: the state is the address register *)
Definition config_bus (cfg : Z → Z) : Ports Z := {|
  inb _ a := (0, a);
  outb _ _ a := a;
  inw _ a := (0, a);
  outw _ _ a := a;
  inl port a := (if port =? PCI_CONFIG_DATA then u32 (cfg a) else 0, a);
  outl port v a := if port =? PCI_CONFIG_ADDRESS then v else a;
|}.
Lemma config_bus_law cfg : @PciBus Z (config_bus cfg) cfg.
Proof. by split. Qed.

(** An RTL-8029 in slot 3 and nothing else. *)
Definition demo_cfg (a : Z) : Z :=
  if a =? pci_config_address 0 3 0 0 then 0x802910EC
  else if a =? pci_config_address 0 3 0 0x10 then 0xC001
  else if a =? pci_config_address 0 3 0 0x3C then 0x10B else 0xFFFFFFFF.

Lemma pci_find_device_first_witness :
  (@pci_find_device Z (config_bus demo_cfg) 0x10EC 0x8029 true 0).1 =
    match find_first (matches demo_cfg 0x10EC 0x8029) (visited demo_cfg) with
    | Some i => (0, (λ p, device_record demo_cfg p) <$> visited demo_cfg !! i)
    | None => (-1, None)
    end ∧
  @pci_find_device Z (config_bus demo_cfg) 0x10EC 0x8029 false 0 = (-1, None, 0).
Proof. apply (@pci_find_device_first Z (config_bus demo_cfg) demo_cfg (config_bus_law demo_cfg) 0x10EC 0x8029 0). Defined.

End Pci.
