(* ===== verification/NetCore.v ===== *)
(** * NetCore: network device registry and NE2000 driver

    kernel/net_core.c and drivers/net_ne2k.c.  A [net_device_t *] is a number
    that [objs] maps to the structure it points to ([None]: not an object);
    the driver functions act on the driver state [D]. *)
From S2P Require Import Prelude CString Ports Pci.

Module NetCore.

Definition NET_MAX_DEVICES : Z := 8.

Record net_device (D : Type) := {
  mac : list Z;
  mtu : Z;
  nd_name : list Z;
  driver_data : Z;
  nd_send : option (list Z → Z → D → Z * D);
  nd_poll : option (D → D);
}.
Arguments mac {D}. Arguments mtu {D}. Arguments nd_name {D}. Arguments driver_data {D}.
Arguments nd_send {D}. Arguments nd_poll {D}.

Record net_state := {
  net_devices : list (option nat);
  net_device_count : Z;
  net_rx_frames : Z;
  net_rx_bytes : Z;
  net_tx_frames : Z;
  net_tx_bytes : Z;
}.

Definition set_devices (ds : list (option nat)) (n : Z) (s : net_state) : net_state :=
  {| net_devices := ds; net_device_count := n; net_rx_frames := net_rx_frames s; net_rx_bytes := net_rx_bytes s;
     net_tx_frames := net_tx_frames s; net_tx_bytes := net_tx_bytes s |}.

Definition net_init (s : net_state) : net_state :=
  {| net_devices := (λ _, None) <$> net_devices s; net_device_count := 0; net_rx_frames := 0; net_rx_bytes := 0;
     net_tx_frames := 0; net_tx_bytes := 0 |}.

Definition net_register_device (dev : option nat) (s : net_state) : option (Z * net_state) :=
  match dev with
  | None => Some (-1, s)
  | Some _ =>
      if NET_MAX_DEVICES <=? net_device_count s then Some (-1, s)
      else
        ds ← zset (net_devices s) (net_device_count s) dev;
        Some (0, set_devices ds (net_device_count s +u 1) s)
  end.

Definition net_get_device_count (s : net_state) : Z := net_device_count s.

Definition net_get_device (index : Z) (s : net_state) : option (option nat) :=
  if net_device_count s <=? index then Some None else (net_devices s).[index].

Definition net_receive_frame (len : Z) (s : net_state) : net_state :=
  if len =? 0 then s
  else {| net_devices := net_devices s; net_device_count := net_device_count s;
          net_rx_frames := net_rx_frames s +u 1; net_rx_bytes := net_rx_bytes s +u len;
          net_tx_frames := net_tx_frames s; net_tx_bytes := net_tx_bytes s |}.

(** The statistics stored through [out], [None] for NULL. *)
Definition net_get_stats (out : bool) (s : net_state) : option (Z * Z * Z * Z) :=
  if out then Some (net_rx_frames s, net_rx_bytes s, net_tx_frames s, net_tx_bytes s) else None.

Section poll.
Context {D : Type} (objs : nat → option (net_device D)).

(** The body of the loop over the registered devices. *)
Definition poll_device (dev : option nat) (d : D) : option D :=
  match dev with
  | None => Some d
  | Some p => obj ← objs p; Some (match nd_poll obj with Some poll => poll d | None => d end)
  end.

Fixpoint poll_from (n : nat) (i : Z) (s : net_state) (d : D) : option D :=
  match n with
  | O => Some d
  | S n => dev ← (net_devices s).[i]; d ← poll_device dev d; poll_from n (i + 1) s d
  end.
Definition net_poll_all (s : net_state) (d : D) : option D := poll_from (Z.to_nat (net_device_count s)) 0 s d.
End poll.

(** ** The NE2000 driver *)
Record ne2k_counters := { ne2k_tx_packets : Z; ne2k_tx_bytes : Z; ne2k_poll_calls : Z }.

Definition ne2k_send (buf : list Z) (len : Z) (c : ne2k_counters) : Z * ne2k_counters :=
  (s32 len, {| ne2k_tx_packets := ne2k_tx_packets c +u 1; ne2k_tx_bytes := ne2k_tx_bytes c +u len;
               ne2k_poll_calls := ne2k_poll_calls c |}).
Definition ne2k_poll (c : ne2k_counters) : ne2k_counters :=
  {| ne2k_tx_packets := ne2k_tx_packets c; ne2k_tx_bytes := ne2k_tx_bytes c; ne2k_poll_calls := ne2k_poll_calls c +u 1 |}.

Definition NE2K_VENDOR_ID : Z := 0x10EC.
Definition NE2K_DEVICE_ID : Z := 0x8029.

(** The static [ne2k_dev] is object 0. *)
Definition NE2K_DEV : nat := 0.

Record ne2k_state := { ne2k_dev : net_device ne2k_counters; counters : ne2k_counters; net : net_state }.

Definition set_dev (d : net_device ne2k_counters) (s : ne2k_state) : ne2k_state :=
  {| ne2k_dev := d; counters := counters s; net := net s |}.

Section ne2k.
Context {W : Type} `{Ports W}.

Definition ne2k_hw_init (s : ne2k_state) (w : W) : Z * ne2k_state * W :=
  let '(rc, _, w) := Pci.pci_find_device NE2K_VENDOR_ID NE2K_DEVICE_ID true w in
  if negb (rc =? 0) then (-1, s, w)
  else
    let d := ne2k_dev s in
    (0, set_dev {| mac := mac d; mtu := mtu d; nd_name := nd_name d; driver_data := 0; nd_send := nd_send d;
                   nd_poll := nd_poll d |} s, w).

Definition net_ne2k_init (s : ne2k_state) (w : W) : option (Z * ne2k_state * W) :=
  let '(rc, s, w) := ne2k_hw_init s w in
  if negb (rc =? 0) then Some (-1, s, w)
  else
    let s := set_dev {| mac := replicate 6 0; mtu := 1500; nd_name := lit "eth0"; driver_data := 0;
                        nd_send := Some ne2k_send; nd_poll := Some ne2k_poll |} s in
    '(rc, n) ← net_register_device (Some NE2K_DEV) (net s);
    let s := {| ne2k_dev := ne2k_dev s; counters := counters s; net := n |} in
    Some (if negb (rc =? 0) then -1 else 0, s, w).
End ne2k.

(** What pointers mean once the driver is there. *)
Definition ne2k_objs (s : ne2k_state) (p : nat) : option (net_device ne2k_counters) :=
  if bool_decide (p = NE2K_DEV) then Some (ne2k_dev s) else None.

Definition poll_ne2k (s : ne2k_state) : option ne2k_state :=
  c ← net_poll_all (ne2k_objs s) (net s) (counters s);
  Some {| ne2k_dev := ne2k_dev s; counters := c; net := net s |}.

(** ** The registry as a bounded list *)
Record registry (ps : list nat) (s : net_state) : Prop := {
  reg_length : zlen (net_devices s) = NET_MAX_DEVICES;
  reg_count : net_device_count s = zlen ps;
  reg_bound : zlen ps <= NET_MAX_DEVICES;
  reg_devices : ∀ i, 0 <= i < zlen ps → (net_devices s).[i] = Some <$> ps.[i];
}.

Lemma net_init_registry s : zlen (net_devices s) = NET_MAX_DEVICES → registry [] (net_init s).
Proof.
  intros Hl. split; cbn; [unfold zlen in *; by rewrite length_fmap|done|done|]. unfold zlen. cbn. lia.
Qed.

Lemma register_spec dev ps s :
  registry ps s →
  ∃ s', net_register_device (Some dev) s = Some (if zlen ps <? NET_MAX_DEVICES then 0 else -1, s') ∧
    registry (if zlen ps <? NET_MAX_DEVICES then ps ++ [dev] else ps) s'.
Proof.
  intros [Hl Hc Hb Hd]. unfold net_register_device, NET_MAX_DEVICES in *. rewrite Hc.
  assert (0 <= zlen ps) by (unfold zlen; lia).
  destruct (Z.leb_spec 8 (zlen ps)), (Z.ltb_spec (zlen ps) 8); try lia; [by exists s|].
  destruct (zset (net_devices s) (zlen ps) (Some dev)) as [ds|] eqn:E; [|rewrite zset_in in E by lia; done].
  cbn [mbind option_bind]. eexists. split; [done|].
  assert (zlen (ps ++ [dev]) = zlen ps + 1) as Hz by (unfold zlen; rewrite length_app; cbn; lia).
  split; cbn [net_devices net_device_count set_devices]; unfold NET_MAX_DEVICES.
  - apply zset_length in E. unfold zlen in *. lia.
  - rewrite Hz. apply u32_id. lia.
  - lia.
  - intros i Hi. rewrite Hz in Hi. destruct (decide (i = zlen ps)) as [->|Hne].
    + rewrite (zget_zset_eq _ _ _ _ E). unfold zlen. rewrite zget_nat, list_lookup_middle by done. done.
    + rewrite (zget_zset_ne _ _ _ _ _ (not_eq_sym Hne) E), Hd by lia. unfold zget, zlen in *.
      destruct (Z.ltb_spec i 0); [lia|]. by rewrite lookup_app_l by lia.
Qed.

(** Registering the given pointers in turn, and the results. *)
Fixpoint register_all (ds : list (option nat)) (s : net_state) : option (list Z * net_state) :=
  match ds with
  | [] => Some ([], s)
  | d :: ds => '(r, s) ← net_register_device d s; '(rs, s) ← register_all ds s; Some (r :: rs, s)
  end.

(** The first eight pointers that are not NULL, behind those already there. *)
Fixpoint accepted (ps : list nat) (ds : list (option nat)) : list nat :=
  match ds with
  | [] => ps
  | Some d :: ds => accepted (if zlen ps <? NET_MAX_DEVICES then ps ++ [d] else ps) ds
  | None :: ds => accepted ps ds
  end.

Lemma register_all_spec ds ps s :
  registry ps s → ∃ rs s', register_all ds s = Some (rs, s') ∧ registry (accepted ps ds) s'.
Proof.
  revert ps s. induction ds as [|[d|] ds IH]; intros ps s Hreg; cbn [register_all accepted].
  - by exists [], s.
  - destruct (register_spec d ps s Hreg) as (s1 & -> & Hreg1). cbn [mbind option_bind].
    destruct (IH _ s1 Hreg1) as (rs & s2 & -> & Hreg2). by eexists _, s2.
  - cbn. destruct (IH ps s Hreg) as (rs & s2 & -> & Hreg2). by eexists _, s2.
Qed.

Lemma poll_from_spec {D} (objs : nat → option (net_device D)) n i ps s d :
  registry ps s → 0 <= i → i + Z.of_nat n = zlen ps →
  poll_from objs n i s d = foldl (λ d p, d ← d; poll_device objs (Some p) d) (Some d) (drop (Z.to_nat i) ps).
Proof.
  intros Hreg. revert i d. induction n as [|n IH]; intros i d Hi Hn; cbn [poll_from].
  - by rewrite drop_ge by (unfold zlen in Hn; lia).
  - destruct (zget_Some ps i) as [p Hp]; [lia|]. rewrite (reg_devices ps s Hreg), Hp by lia.
    cbn [fmap option_fmap option_map mbind option_bind]. unfold zget in Hp. destruct (Z.ltb_spec i 0); [done|].
    rewrite (drop_S ps p) by done. cbn [foldl mbind option_bind].
    replace (S (Z.to_nat i)) with (Z.to_nat (i + 1)) by lia.
    destruct (poll_device objs (Some p) d) as [d'|]; cbn [mbind option_bind]; [apply IH; lia|].
    clear. induction (drop (Z.to_nat (i + 1)) ps) as [|q l IHl]; [done|]. exact IHl.
Qed.

(** The registry of network devices: after [net_init] and any sequence of
    registrations (NULL pointers included), the devices are the first eight
    non-NULL pointers in the order registered - the count and
    [net_get_device] say so, with NULL for every index from the count on -
    and [net_poll_all] calls the poll function of each of them once, in that
    order. *)
Theorem net_poll_all_order {D : Type} (objs : nat → option (net_device D)) (s0 : net_state) (ds : list (option nat)) (d : D) :
  zlen (net_devices s0) = NET_MAX_DEVICES →
  let ps := accepted [] ds in
  ∃ rs s, register_all ds (net_init s0) = Some (rs, s) ∧ zlen ps <= NET_MAX_DEVICES ∧
    net_get_device_count s = zlen ps ∧
    (∀ i, 0 <= i → net_get_device i s = Some (ps.[i])) ∧
    net_poll_all objs s d = foldl (λ d p, d ← d; poll_device objs (Some p) d) (Some d) ps.
Proof.
  intros Hl ps. destruct (register_all_spec ds [] (net_init s0) (net_init_registry s0 Hl)) as (rs & s & E & Hreg).
  fold ps in Hreg. exists rs, s. split; [exact E|]. clear E. pose proof Hreg as [_ Hc Hb Hd].
  split; [done|]. split; [done|]. split.
  - intros i Hi. unfold net_get_device. rewrite Hc. destruct (Z.leb_spec (zlen ps) i) as [Hge|Hlt].
    + unfold zget. destruct (Z.ltb_spec i 0); [done|]. by rewrite lookup_ge_None_2 by (unfold zlen in Hge; lia).
    + rewrite Hd by lia. destruct (zget_Some ps i) as [p ->]; [lia|]. done.
  - unfold net_poll_all. rewrite (poll_from_spec objs _ 0 ps s d Hreg) by (unfold zlen in *; lia). done.
Qed.

Definition net_bss : net_state :=
  {| net_devices := replicate 8 None; net_device_count := 0; net_rx_frames := 0; net_rx_bytes := 0;
     net_tx_frames := 0; net_tx_bytes := 0 |}.
Definition counting_objs (p : nat) : option (net_device (list nat)) :=
  Some {| mac := []; mtu := 0; nd_name := []; driver_data := 0; nd_send := None; nd_poll := Some (λ l, l ++ [p]) |}.

Lemma net_poll_all_order_witness :
  let ps := accepted [] [Some 3%nat; None; Some 5%nat; Some 3%nat] in
  ∃ rs s, register_all [Some 3%nat; None; Some 5%nat; Some 3%nat] (net_init net_bss) = Some (rs, s) ∧
    zlen ps <= NET_MAX_DEVICES ∧ net_get_device_count s = zlen ps ∧
    (∀ i, 0 <= i → net_get_device i s = Some (ps.[i])) ∧
    net_poll_all counting_objs s [] =
      foldl (λ d p, d ← d; poll_device counting_objs (Some p) d) (Some []) ps.
Proof. apply (net_poll_all_order counting_objs net_bss [Some 3%nat; None; Some 5%nat; Some 3%nat] []). reflexivity. Defined.

(** ** Repeated initialisation of the driver *)
Definition ne2k_ready (k : nat) (s : ne2k_state) : Prop :=
  registry (replicate k NE2K_DEV) (net s) ∧ ((0 < k)%nat → nd_poll (ne2k_dev s) = Some ne2k_poll).

(** Each initialisation registers the same device once more: nothing checks
    for a pointer that is already there. *)
Lemma ne2k_init_again {W} `{Ports W} k s w dev w' :
  ne2k_ready k s → (k < 8)%nat → Pci.pci_find_device NE2K_VENDOR_ID NE2K_DEVICE_ID true w = (0, dev, w') →
  ∃ s', net_ne2k_init s w = Some (0, s', w') ∧ ne2k_ready (S k) s' ∧ counters s' = counters s.
Proof.
  intros [Hreg _] Hk Hpci. unfold net_ne2k_init, ne2k_hw_init. rewrite Hpci. cbn [Z.eqb negb net set_dev].
  destruct (register_spec NE2K_DEV _ _ Hreg) as (n & -> & Hreg').
  assert ((zlen (replicate k NE2K_DEV) <? NET_MAX_DEVICES) = true) as E.
  { apply Z.ltb_lt. unfold zlen, NET_MAX_DEVICES. rewrite length_replicate. lia. }
  rewrite E in *. cbn [mbind option_bind Z.eqb negb]. eexists. split; [done|]. split; [|done]. split; [|done].
  cbn [net]. by rewrite <- replicate_cons_app in Hreg'.
Qed.

Lemma ne2k_poll_times k s :
  ne2k_ready k s → (0 < k)%nat →
  ∃ s', poll_ne2k s = Some s' ∧ ne2k_poll_calls (counters s') = u32 (ne2k_poll_calls (counters s) + Z.of_nat k).
Proof.
  intros [Hreg Hpoll] Hk. unfold poll_ne2k, net_poll_all. rewrite (poll_from_spec _ _ 0 _ _ _ Hreg).
  2: lia.
  2: { pose proof (reg_count _ _ Hreg). unfold zlen in *. lia. }
  change (drop (Z.to_nat 0) (replicate k NE2K_DEV)) with (replicate k NE2K_DEV).
  assert (∀ c, poll_device (ne2k_objs s) (Some NE2K_DEV) c = Some (ne2k_poll c)) as Hstep.
  { intros c. unfold poll_device, ne2k_objs. rewrite bool_decide_true by done. cbn [mbind option_bind].
    by rewrite Hpoll. }
  destruct k as [|k]; [lia|]. clear Hreg Hpoll Hk.
  assert (∀ j c, foldl (λ d p, d ← d; poll_device (ne2k_objs s) (Some p) d) (Some c) (replicate (S j) NE2K_DEV) =
    Some {| ne2k_tx_packets := ne2k_tx_packets c; ne2k_tx_bytes := ne2k_tx_bytes c;
            ne2k_poll_calls := u32 (ne2k_poll_calls c + Z.of_nat (S j)) |}) as Hfold.
  { induction j as [|j IH]; intros c; cbn [replicate foldl mbind option_bind]; rewrite Hstep; [done|].
    cbn [replicate] in IH. cbn [foldl mbind option_bind] in IH. cbn [mbind option_bind]. rewrite IH.
    cbn [ne2k_poll ne2k_poll_calls ne2k_tx_packets ne2k_tx_bytes]. do 2 f_equal. unfold u32.
    rewrite Zplus_mod_idemp_l. f_equal. lia. }
  rewrite Hfold. cbn [mbind option_bind]. by eexists.
Qed.

End NetCore.
