(* ===== verification/Timer.v ===== *)
(** * Timer: the clock interrupt (drivers/timer.c)

    The handler counts, calls the scheduler and shows the seconds in the
    corner of the screen; the switch of registers [schedule] ends with is not
    part of the state.  A [hlt] returns after one interrupt. *)
From S2P Require Import Prelude Ports Process Vga Idt.
Import Process Idt.

Module Timer.

Definition PIT_CMD_PORT : Z := 0x43.
Definition PIT_CHANNEL0 : Z := 0x40.
Definition PIT_FREQUENCY : Z := 100.

(** [timer_ticks], the process table and the video memory. *)
Record timer_state := { timer_ticks : Z; procs : process_system; video : list Z }.

Definition timer_interrupt_handler (k : timer_state) : option timer_state :=
  let ticks := timer_ticks k +u 1 in
  '(_, ps) ← schedule (procs k);
  v ← (if ticks mod 100 =? 0 then zset (video k) (80 * 24 + 70) (u16 (0x1F00 + (ticks / 100) mod 10 + 48))
       else Some (video k));
  Some {| timer_ticks := ticks; procs := ps; video := v |}.

Section init.
Context {F W : Type} `{Ports W}.

(** [handler] is the address of [timer_interrupt_handler]. *)
Definition timer_init (handler : F) (s : idt_state F) (w : W) : option (idt_state F * W) :=
  s ← register_interrupt_handler 32 (Some handler) s;
  let divisor := 1193180 / PIT_FREQUENCY in
  let w := outb PIT_CMD_PORT 0x36 w in
  let w := outb PIT_CHANNEL0 (Z.land divisor 0xFF) w in
  let w := outb PIT_CHANNEL0 (Z.shiftr divisor 8) w in
  w ← enable_irq 0 w;
  Some (s, w).
End init.

Definition timer_get_ticks (k : timer_state) : Z := timer_ticks k.

(** [timer_wait]: each [hlt] is ended by the next of the interrupts [wakes],
    [true] for one of the timer; the result is the counter and the interrupts
    still to come, [None] when the loop is still waiting after all of them. *)
Fixpoint wait_loop (start ticks : Z) (wakes : list bool) (now : Z) : option (Z * list bool) :=
  if (now -u start) <? ticks then
    match wakes with
    | [] => None
    | b :: wakes => wait_loop start ticks wakes (if b then now +u 1 else now)
    end
  else Some (now, wakes).
Definition timer_wait (ticks : Z) (wakes : list bool) (now : Z) : option (Z * list bool) := wait_loop now ticks wakes now.

(** ** The clock *)
Section clock.
Context {F W : Type} `{Ports W} (log : W → list (Z * Z)) `{!PortLog W log}.

(** What calling the registered functions does. *)
Context (call : F → regs → timer_state → W → option (timer_state * W)) (handler : F).
Hypothesis call_timer : ∀ r k w, call handler r k w = k ← timer_interrupt_handler k; Some (k, w).

(** [n] interrupts on vector 32. *)
Fixpoint clock_interrupts (n : nat) (s : idt_state F) (k : timer_state) (w : W) : option (timer_state * W) :=
  match n with
  | O => Some (k, w)
  | S n => '(k, w) ← irq_handler call s (regs_of 32) k w; clock_interrupts n s k w
  end.

Definition clock_ok (k : timer_state) : Prop := process_ok (procs k) ∧ zlen (video k) = 2000.

Lemma handler_ok k :
  clock_ok k →
  ∃ sw ps v, schedule (procs k) = Some (sw, ps) ∧ clock_ok {| timer_ticks := timer_ticks k +u 1; procs := ps; video := v |} ∧
    timer_interrupt_handler k = Some {| timer_ticks := timer_ticks k +u 1; procs := ps; video := v |}.
Proof.
  intros [Hp Hv]. destruct (schedule_ok (procs k) Hp) as (sw & ps & E & Hps).
  unfold timer_interrupt_handler. rewrite E. cbn [mbind option_bind].
  destruct ((timer_ticks k +u 1) mod 100 =? 0).
  - rewrite zset_in by lia. cbn [mbind option_bind]. eexists sw, ps, _. split; [done|]. split; [|done]. split; [done|].
    cbn [video]. unfold zlen in *. by rewrite length_insert.
  - eexists sw, ps, _. split; [done|]. split; [|done]. by split.
Qed.

Lemma timer_init_spec s w :
  interrupt_handlers s = replicate 256 None →
  ∃ s' w', timer_init handler s w = Some (s', w') ∧ (interrupt_handlers s').[32] = Some (Some handler) ∧
    ∃ v, log w' = log w ++ [(PIT_CMD_PORT, 0x36); (PIT_CHANNEL0, 11931 mod 256); (PIT_CHANNEL0, 11931 / 256); (PIC1_DATA, v)].
Proof.
  intros Hs. unfold timer_init. destruct (handler_registered 32 (Some handler) s) as (s' & -> & _ & Hh); [by rewrite Hs|].
  cbn [mbind option_bind]. unfold enable_irq. cbn [Z.ltb Z.leb Z.compare]. cbn iota beta.
  pose proof (log_inb PIC1_DATA
    (outb PIT_CHANNEL0 (Z.shiftr (1193180 / PIT_FREQUENCY) 8)
      (outb PIT_CHANNEL0 (Z.land (1193180 / PIT_FREQUENCY) 0xFF) (outb PIT_CMD_PORT 0x36 w)))) as Hlog.
  destruct (inb PIC1_DATA _) as [v w1]. cbn [snd mbind option_bind] in *.
  eexists _, _. split; [done|]. split; [by rewrite Hh|]. eexists. rewrite log_outb, Hlog, !log_outb, <- !app_assoc. done.
Qed.

(** C23. The clock: once [timer_init] has run on an interrupt table without
    handlers, [n] timer interrupts (vector 32, through [irq_handler]) never
    fail on a well-formed process table; they add [n] to the tick counter,
    modulo 2^32, call the scheduler exactly [n] times and acknowledge each
    interrupt once at the first controller; [timer_init] has programmed the
    divisor 11931, the low byte first. *)
Theorem clock_ticks (s : idt_state F) (w : W) (k : timer_state) (n : nat) :
  interrupt_handlers s = replicate 256 None → clock_ok k → 0 <= timer_ticks k < 4294967296 →
  ∃ s1 w1 v k' w', timer_init handler s w = Some (s1, w1) ∧ clock_interrupts n s1 k w1 = Some (k', w') ∧
    timer_ticks k' = u32 (timer_ticks k + Z.of_nat n) ∧ schedule_n n (procs k) = Some (procs k') ∧ clock_ok k' ∧
    log w' = log w ++ [(PIT_CMD_PORT, 0x36); (PIT_CHANNEL0, 11931 mod 256); (PIT_CHANNEL0, 11931 / 256); (PIC1_DATA, v)] ++
             concat (replicate n (eoi 32)).
Proof.
  intros Hs Hk Ht. destruct (timer_init_spec s w Hs) as (s1 & w1 & E1 & Hh & v & Hlog).
  exists s1, w1, v. rewrite app_assoc, <- Hlog. clear - Hh Hk Ht call_timer E1 PortLog0.
  cut (∃ k' w', clock_interrupts n s1 k w1 = Some (k', w') ∧
    timer_ticks k' = u32 (timer_ticks k + Z.of_nat n) ∧ schedule_n n (procs k) = Some (procs k') ∧ clock_ok k' ∧
    log w' = log w1 ++ concat (replicate n (eoi 32))).
  { intros (k' & w' & Hrest). by exists k', w'. }
  clear E1. revert k w1 Hk Ht. induction n as [|n IH]; intros k w1 Hk Ht.
  - exists k, w1. split; [done|]. split; [rewrite Z.add_0_r; symmetry; by apply u32_id|]. split; [done|]. split; [done|].
    cbn. by rewrite app_nil_r.
  - cbn [clock_interrupts]. unfold irq_handler. cbn [int_no regs_of Z.leb Z.compare Pos.compare Pos.compare_cont].
    rewrite Hh. cbn [mbind option_bind]. rewrite call_timer.
    destruct (handler_ok k Hk) as (sw & ps & vd & Esched & Hk' & ->). cbn [mbind option_bind].
    destruct (IH _ (outb PIC1_CMD 0x20 w1) Hk' (u32_range _)) as (k' & w' & -> & Et & Hn & Hok & Hl).
    exists k', w'. split; [done|]. split; [|split; [|split; [done|]]].
    + rewrite Et. cbn [timer_ticks]. unfold u32. rewrite Zplus_mod_idemp_l. f_equal. lia.
    + cbn [schedule_n]. by rewrite Esched.
    + rewrite Hl, log_outb, <- app_assoc. done.
Qed.
End clock.

(** C24. [timer_wait] ends: for every number of ticks to wait and every value
    of the counter, also one about to wrap around, the loop ends right after
    the [ticks]-th timer interrupt - other interrupts wake it and put it back
    to sleep - and with fewer timer interrupts than that it is still
    waiting. *)
Theorem timer_wait_exact (ticks now : Z) (wakes : list bool) :
  0 <= ticks < 4294967296 → 0 <= now < 4294967296 →
  match timer_wait ticks wakes now with
  | Some (now', rest) =>
      ∃ used, wakes = used ++ rest ∧ Z.of_nat (count_occ Bool.bool_dec used true) = ticks ∧
        now' = u32 (now + ticks) ∧ (used = [] ∨ last used = Some true)
  | None => Z.of_nat (count_occ Bool.bool_dec wakes true) < ticks
  end.
Proof.
  intros Ht Hn. unfold timer_wait.
  cut (∀ done wakes, 0 <= done <= ticks →
    match wait_loop now ticks wakes (u32 (now + done)) with
    | Some (now', rest) =>
        ∃ used, wakes = used ++ rest ∧ done + Z.of_nat (count_occ Bool.bool_dec used true) = ticks ∧
          now' = u32 (now + ticks) ∧ (used = [] ∨ last used = Some true)
    | None => done + Z.of_nat (count_occ Bool.bool_dec wakes true) < ticks
    end).
  { intros Hcut. specialize (Hcut 0 wakes ltac:(lia)). rewrite Z.add_0_r, u32_id in Hcut by done. exact Hcut. }
  clear wakes. intros d wakes. revert d. induction wakes as [|b wakes IH]; intros d Hd; cbn [wait_loop].
  all: assert (u32 (u32 (now + d) - now) = d) as -> by int_lia.
  all: destruct (Z.ltb_spec d ticks) as [Hlt|Hge].
  - cbn. lia.
  - exists []. cbn. repeat split; [lia|f_equal; lia|auto].
  - destruct b.
    + replace (u32 (u32 (now + d) + 1)) with (u32 (now + (d + 1))) by (unfold u32; rewrite Zplus_mod_idemp_l; f_equal; lia).
      specialize (IH (d + 1) ltac:(lia)). destruct (wait_loop now ticks wakes _) as [[now' rest]|].
      * destruct IH as (used & -> & Hc & -> & Hlast). exists (true :: used). split; [done|].
        change (count_occ Bool.bool_dec (true :: used) true) with (S (count_occ Bool.bool_dec used true)).
        split; [lia|]. split; [done|]. right. destruct Hlast as [->|Hl]; [done|]. by rewrite last_cons, Hl.
      * change (count_occ Bool.bool_dec (true :: wakes) true) with (S (count_occ Bool.bool_dec wakes true)). lia.
    + specialize (IH d Hd). destruct (wait_loop now ticks wakes _) as [[now' rest]|].
      * destruct IH as (used & -> & Hc & -> & Hlast). exists (false :: used). split; [done|].
        split; [exact Hc|]. split; [done|]. right. destruct Hlast as [->|Hl]; [cbn in Hc; lia|]. by rewrite last_cons, Hl.
      * exact IH.
  - exists []. cbn. repeat split; [lia|f_equal; lia|auto].
Qed.

Lemma timer_wait_exact_witness :
  match timer_wait 2 [true; false; true; true] 4294967295 with
  | Some (now', rest) =>
      ∃ used, [true; false; true; true] = used ++ rest ∧ Z.of_nat (count_occ Bool.bool_dec used true) = 2 ∧
        now' = u32 (4294967295 + 2) ∧ (used = [] ∨ last used = Some true)
  | None => Z.of_nat (count_occ Bool.bool_dec [true; false; true; true] true) < 2
  end.
Proof. apply (timer_wait_exact 2 4294967295 [true; false; true; true]); lia. Defined.

(** The kernel with the timer as its only handler. *)
Definition call_only_timer {W} (f : unit) (r : regs) (k : timer_state) (w : W) : option (timer_state * W) :=
  k ← timer_interrupt_handler k; Some (k, w).

Lemma clock_ticks_witness :
  ∃ ps, demo_table = Some ps ∧
  let k := {| timer_ticks := 4294967295; procs := ps; video := replicate 2000 0 |} in
  ∃ s1 w1 v k' w', timer_init tt (empty_idt unit) (constant_machine 0xFB) = Some (s1, w1) ∧
    clock_interrupts call_only_timer 3 s1 k w1 = Some (k', w') ∧
    timer_ticks k' = u32 (4294967295 + Z.of_nat 3) ∧ schedule_n 3 ps = Some (procs k') ∧ clock_ok k' ∧
    writes w' = [] ++ [(PIT_CMD_PORT, 0x36); (PIT_CHANNEL0, 11931 mod 256); (PIT_CHANNEL0, 11931 / 256); (PIC1_DATA, v)] ++
                concat (replicate 3 (eoi 32)).
Proof.
  destruct demo_table_ok as (ps & E & Hok & _). exists ps. split; [exact E|]. cbv zeta.
  apply (clock_ticks writes call_only_timer tt (λ _ _ _, eq_refl) (empty_idt unit) (constant_machine 0xFB)
    {| timer_ticks := 4294967295; procs := ps; video := replicate 2000 0 |} 3).
  - reflexivity.
  - split; [exact Hok|reflexivity].
  - cbn. lia.
Defined.

End Timer.
