(* ===== verification/Clock.v ===== *)
(** * Clock: printing while the clock interrupts (drivers/vga.c, drivers/timer.c)

    The shell prints with interrupts on, and once a second the clock's handler
    writes its digit straight into video memory.  Here [vga_print] is cut into
    its accesses to that volatile memory, in program order, and the handler -
    which an interrupt gate runs with interrupts off - may run between any two
    of them.  The process that prints is not switched away from. *)
From S2P Require Import Prelude CString Ports Process Vga Timer.
Import Process Vga Timer.

Module Clock.

(** ** The accesses of [vga_print] *)

(** [vga[i] = vga[j]] is a load into a register and a store of it. *)
Inductive access : Type :=
| Fetch (a : Z)
| Store (a : Z)
| Put (a v : Z).

(** The video memory and that register *)
Definition memory : Type := list Z * Z.

Definition access_step (x : access) (m : memory) : option memory :=
  let '(l, reg) := m in
  match x with
  | Fetch a => v ← l.[a]; Some (l, v)
  | Store a => l ← zset l a reg; Some (l, reg)
  | Put a v => l ← zset l a v; Some (l, reg)
  end.

Fixpoint run (xs : list access) (m : memory) : option memory :=
  match xs with
  | [] => Some m
  | x :: xs => m ← access_step x m; run xs m
  end.

Definition copy_cell (y x : Z) : list access := [Fetch ((y + 1) * VGA_WIDTH + x); Store (y * VGA_WIDTH + x)].
Definition each (n : nat) (f : Z → list access) : list access := concat (f <$> seqZ 0 (Z.of_nat n)).

(** [blank] is a space in the current colour. *)
Definition scroll_accesses (blank : Z) : list access :=
  each 24 (λ y, each 80 (copy_cell y)) ++ each 80 (λ x, [Put ((VGA_HEIGHT - 1) * VGA_WIDTH + x) blank]).

(** The cases of [put_on_screen]: the accesses, and the static variables
    afterwards *)
Definition put_accesses (c : Z) (s : vga_state) : list access * vga_state :=
  let put c s := [Put (cursor_y s * VGA_WIDTH + cursor_x s) (cell c (current_color s))] in
  if (c =? 10) || (c =? 13) then ([], set_pos 0 (cursor_y s + 1) s)
  else if c =? 8 then
    let s :=
      if 0 <? cursor_x s then set_pos (cursor_x s - 1) (cursor_y s) s
      else if 0 <? cursor_y s then set_pos (VGA_WIDTH - 1) (cursor_y s - 1) s
      else s in
    (put 32 s, s)
  else if c =? 9 then ([], set_pos (Z.land (cursor_x s + 8) (Z.lnot 7)) (cursor_y s) s)
  else if 32 <=? s8 c then
    let s := if VGA_WIDTH <=? cursor_x s then set_pos 0 (cursor_y s + 1) s else s in
    (put c s, set_pos (cursor_x s + 1) (cursor_y s) s)
  else ([], s).

Definition accesses (c : Z) (s : vga_state) : list access * vga_state :=
  let '(xs, s) := put_accesses c (clamp_cursor s) in
  if VGA_HEIGHT <=? cursor_y s then
    (xs ++ scroll_accesses (cell 32 (current_color s)), set_pos (cursor_x s) (VGA_HEIGHT - 1) s)
  else (xs, s).

Fixpoint print_accesses (text : list Z) (s : vga_state) : list access :=
  match text with
  | [] => []
  | c :: text => let '(xs, s) := accesses c s in xs ++ print_accesses text s
  end.

(** ** Left alone, they are [vga_putchar] *)
Lemma run_stores_app xs ys m : run (xs ++ ys) m = m ← run xs m; run ys m.
Proof. revert m. induction xs as [|x xs IH]; intros m; [done|]. cbn [app run]. destruct (access_step x m); [apply IH|done]. Qed.

(** [xs] are the accesses of [g], on states with that colour. *)
Definition does (color : Z) (xs : list access) (g : vga_state → option vga_state) : Prop :=
  ∀ s reg, current_color s = color → g s = '(l, _) ← run xs (screen s, reg); Some (set_screen l s).

Lemma does_nil color : does color [] Some.
Proof. intros s reg _. cbn. by rewrite set_screen_id. Qed.

Lemma does_app color xs ys g h : does color xs g → does color ys h → does color (xs ++ ys) (λ s, s ← g s; h s).
Proof.
  intros Hx Hy s reg Hs. rewrite run_stores_app, (Hx s reg Hs). destruct (run xs (screen s, reg)) as [[l reg']|]; [|done].
  cbn [mbind option_bind]. rewrite (Hy (set_screen l s) reg' Hs). cbn [screen set_screen]. by destruct (run ys (l, reg')) as [[? ?]|].
Qed.

Lemma does_ext color xs g h : does color xs g → (∀ s, h s = g s) → does color xs h.
Proof. intros Hx Hh s reg Hs. by rewrite Hh, (Hx s reg Hs). Qed.

Lemma does_loop color (n : nat) f g i :
  (∀ j, does color (f j) (g j)) → does color (concat (f <$> seqZ i (Z.of_nat n))) (for_loop n i g).
Proof.
  intros Hf. revert i. induction n as [|n IH]; intros i; [apply does_nil|].
  rewrite seqZ_cons by lia. cbn [fmap list_fmap concat for_loop]. rewrite Nat2Z.inj_succ, Z.pred_succ.
  apply does_app; [apply Hf|]. rewrite <- Z.add_1_r. apply IH.
Qed.

Lemma does_copy color y x : does color (copy_cell y x) (copy_up y x).
Proof.
  intros s reg _. unfold copy_up. cbn [copy_cell run access_step].
  destruct (screen s).[(y + 1) * VGA_WIDTH + x] as [v|]; [|done]. cbn [mbind option_bind access_step]. by destruct (zset _ _ _).
Qed.

Lemma does_put color c a : does color [Put a (cell c color)] (λ s, l ← zset (screen s) a (cell c (current_color s)); Some (set_screen l s)).
Proof. intros s reg <-. cbn [run access_step]. by destruct (zset (screen s) a _). Qed.

Lemma does_scroll color : does color (scroll_accesses (cell 32 color)) vga_scroll.
Proof.
  apply (does_app _ _ _ (for_loop 24 0 (λ y, for_loop 80 0 (λ x, copy_up y x)))).
  - apply does_loop. intros y. apply does_loop. intros x. apply does_copy.
  - apply does_loop. intros x. apply does_put.
Qed.

Section putchar.
Context {W : Type} `{Ports W}.

Lemma put_runs c s reg :
  put_on_screen c s = '(l, _) ← run (put_accesses c s).1 (screen s, reg); Some (set_screen l (put_accesses c s).2).
Proof.
  unfold put_on_screen, put_accesses, vga_putchar_at.
  destruct (_ || _); [cbn; by destruct s|]. destruct (c =? 8).
  { cbn [fst snd run access_step].
    match goal with |- context [zset (screen ?x) _ _] => assert (screen x = screen s) as -> by (by repeat case_match) end.
    by destruct (zset _ _ _). }
  destruct (c =? 9); [cbn; by destruct s|]. destruct (32 <=? s8 c); [|cbn; by destruct s].
  cbn [fst snd run access_step].
  match goal with |- context [zset (screen ?x) _ _] => assert (screen x = screen s) as -> by (by case_match) end.
  by destruct (zset _ _ _).
Qed.

Lemma putchar_runs c s w reg :
  vga_putchar c s w =
    '(l, _) ← run (accesses c s).1 (screen s, reg);
    Some (set_screen l (accesses c s).2, vga_update_cursor (accesses c s).2 w).
Proof.
  unfold vga_putchar, accesses. rewrite (put_runs c (clamp_cursor s) reg). change (screen (clamp_cursor s)) with (screen s).
  destruct (put_accesses c (clamp_cursor s)) as [xs s1]. cbn [fst snd].
  destruct (run xs (screen s, reg)) as [[l reg1]|] eqn:E.
  - cbn [mbind option_bind cursor_y set_screen]. destruct (VGA_HEIGHT <=? cursor_y s1); cbn [fst snd]; [|by rewrite E].
    rewrite run_stores_app, E. cbn [mbind option_bind].
    rewrite (does_scroll (current_color s1) (set_screen l s1) reg1 eq_refl). cbn [screen set_screen].
    by destruct (run (scroll_accesses _) (l, reg1)) as [[l' reg']|].
  - destruct (VGA_HEIGHT <=? cursor_y s1); cbn [fst snd]; [by rewrite run_stores_app, E|by rewrite E].
Qed.
End putchar.

(** ** The clock's cell *)

(** What the handler shows after [ticks] ticks, once a second *)
Definition digit (ticks : Z) : list Z :=
  if ticks mod 100 =? 0 then [u16 (0x1F00 + (ticks / 100) mod 10 + 48)] else [].

(** Values written to the cell one after the other *)
Definition overlay (l : list Z) (ds : list Z) : list Z := foldl (λ l d, <[1990%nat := d]> l) l ds.

Definition untouched (x : access) : bool :=
  match x with Fetch a | Store a | Put a _ => negb (a =? 1990) end.

Lemma overlay_length l ds : length (overlay l ds) = length l.
Proof. revert l. induction ds as [|d ds IH]; intros l; [done|]. cbn. rewrite IH. apply length_insert. Qed.
Lemma overlay_app l ds ds' : overlay l (ds ++ ds') = overlay (overlay l ds) ds'.
Proof. apply foldl_app. Qed.

Lemma overlay_lookup l ds i : i ≠ 1990%nat → overlay l ds !! i = l !! i.
Proof.
  intros Hi. revert l. induction ds as [|d ds IH]; intros l; [done|]. cbn. rewrite IH. by rewrite list_lookup_insert_ne by done.
Qed.
Lemma overlay_insert l ds i v : i ≠ 1990%nat → <[i := v]> (overlay l ds) = overlay (<[i := v]> l) ds.
Proof.
  intros Hi. revert l. induction ds as [|d ds IH]; intros l; [done|]. cbn. rewrite IH. by rewrite list_insert_insert_ne by done.
Qed.
Lemma overlay_overwritten l ds v : <[1990%nat := v]> (overlay l ds) = <[1990%nat := v]> l.
Proof.
  revert l. induction ds as [|d ds IH]; intros l; [done|]. cbn. rewrite IH. by rewrite list_insert_insert_eq.
Qed.

(** An access elsewhere moves past the clock. *)
Definition shown_over (ds : list Z) (m : memory) : memory := (overlay m.1 ds, m.2).

Lemma zset_overlay l ds a v :
  a ≠ 1990 → zset (overlay l ds) a v = (λ l, overlay l ds) <$> zset l a v.
Proof.
  intros Ha. unfold zset. rewrite overlay_length. destruct (Z.leb_spec 0 a); [|done].
  destruct (a <? _); [|done]. cbn [andb fmap option_fmap option_map]. by rewrite overlay_insert by lia.
Qed.

Lemma access_moves x ds m :
  untouched x = true → access_step x (shown_over ds m) = shown_over ds <$> access_step x m.
Proof.
  destruct m as [l reg]. unfold shown_over. cbn [fst snd].
  destruct x as [a|a|a v]; cbn [untouched access_step]; intros Ha%negb_true_iff%Z.eqb_neq.
  - unfold zget. destruct (Z.ltb_spec a 0); [done|]. rewrite overlay_lookup by lia. by destruct (l !! Z.to_nat a).
  - rewrite zset_overlay by done. by destruct (zset l a reg).
  - rewrite zset_overlay by done. by destruct (zset l a v).
Qed.

Lemma run_moves xs ds m :
  forallb untouched xs = true → run xs (shown_over ds m) = shown_over ds <$> run xs m.
Proof.
  revert m. induction xs as [|x xs IH]; intros m; [done|]. cbn [forallb run]. intros [Hx Hxs]%andb_true_iff.
  rewrite access_moves by done. destruct (access_step x m) as [m'|]; [|done]. cbn [fmap option_fmap option_map mbind option_bind]. by apply IH.
Qed.

(** ** Accesses and displays in any order *)
Inductive move : Type :=
| Main (x : access)
| Shown (d : Z).
Definition moves : Type := list move.
Definition mains (evs : moves) : list access := omap (λ e, match e with Main x => Some x | Shown _ => None end) evs.
Definition displays (evs : moves) : list Z := omap (λ e, match e with Main _ => None | Shown d => Some d end) evs.

Fixpoint mixed (evs : moves) (m : memory) : option memory :=
  match evs with
  | [] => Some m
  | Main x :: evs => m ← access_step x m; mixed evs m
  | Shown d :: evs => mixed evs (shown_over [d] m)
  end.

Lemma mixed_app e1 e2 m : mixed (e1 ++ e2) m = m ← mixed e1 m; mixed e2 m.
Proof.
  revert m. induction e1 as [|[x|d] e1 IH]; intros m; [done|..]; cbn [app mixed]; [|apply IH].
  destruct (access_step x m); [apply IH|done].
Qed.

(** Away from the clock's cell the displays can all come first, or last. *)
Lemma mixed_first evs m :
  forallb untouched (mains evs) = true → mixed evs m = run (mains evs) (shown_over (displays evs) m).
Proof.
  revert m. induction evs as [|[x|d] evs IH]; intros m Hu; [by destruct m| |].
  - change (mains (Main x :: evs)) with (x :: mains evs) in *. cbn [forallb] in Hu. apply andb_true_iff in Hu as [Hx Hu].
    cbn [mixed run]. change (displays (Main x :: evs)) with (displays evs). rewrite access_moves by done.
    destruct (access_step x m); [by apply IH|done].
  - cbn [mixed]. change (displays (Shown d :: evs)) with (d :: displays evs). by apply IH.
Qed.
Lemma mixed_last evs m :
  forallb untouched (mains evs) = true → mixed evs m = shown_over (displays evs) <$> run (mains evs) m.
Proof. intros Hu. by rewrite mixed_first, run_moves. Qed.

Lemma mains_app_inv evs xs ys :
  mains evs = xs ++ ys → ∃ e1 e2, evs = e1 ++ e2 ∧ mains e1 = xs ∧ mains e2 = ys.
Proof.
  revert xs. induction evs as [|[x|d] evs IH]; intros xs E.
  - exists [], []. by destruct xs, ys.
  - change (x :: mains evs = xs ++ ys) in E. destruct xs as [|x' xs].
    + by exists [], (Main x :: evs).
    + injection E as -> E. destruct (IH xs E) as (e1 & e2 & -> & <- & <-). by exists (Main x' :: e1), e2.
  - change (mains evs = xs ++ ys) in E. destruct (IH xs E) as (e1 & e2 & -> & <- & <-). by exists (Shown d :: e1), e2.
Qed.
Lemma mains_cons_inv evs x xs :
  mains evs = x :: xs → ∃ e1 e2, evs = e1 ++ Main x :: e2 ∧ mains e1 = [] ∧ mains e2 = xs.
Proof.
  induction evs as [|[y|d] evs IH]; intros E; [done|..].
  - injection E as -> E. by exists [], evs.
  - destruct (IH E) as (e1 & e2 & -> & ? & ?). by exists (Shown d :: e1), e2.
Qed.

Lemma displays_app e1 e2 : displays (e1 ++ e2) = displays e1 ++ displays e2.
Proof. apply omap_app. Qed.

(** ** One character *)
Definition cursor_ok (s : vga_state) : Prop := 0 <= cursor_x s ∧ 0 <= cursor_y s.

Lemma scroll_split blank :
  ∃ p q r, scroll_accesses blank = p ++ Fetch 1990 :: q ++ Put 1990 blank :: r ∧
    forallb untouched p = true ∧ forallb untouched q = true ∧ forallb untouched r = true.
Proof.
  exists (take 3820 (scroll_accesses blank)), (take 89 (drop 3821 (scroll_accesses blank))), (drop 3911 (scroll_accesses blank)).
  vm_compute. by repeat split.
Qed.

Lemma put_cases c s :
  0 <= cursor_x s < 80 → 0 <= cursor_y s < 25 →
  let '(xs, s') := put_accesses c s in
  cursor_ok s' ∧ (xs = [] ∨ cursor_y s' < 25 ∧ ∃ a v, xs = [Put a v]).
Proof.
  intros Hx Hy. unfold put_accesses, cursor_ok, VGA_WIDTH.
  destruct (_ || _); [split; [cbn; lia|by left]|]. destruct (c =? 8).
  { assert (∀ s', 0 <= cursor_x s' ∧ 0 <= cursor_y s' < 25 → ∀ xs : list access, (∃ a v, xs = [Put a v]) →
      (0 <= cursor_x s' ∧ 0 <= cursor_y s') ∧ (xs = [] ∨ cursor_y s' < 25 ∧ ∃ a v, xs = [Put a v])) as Hput.
    { intros s' Hs' xs Hxs. split; [lia|]. right. by split; [lia|]. }
    apply Hput; [|by eexists _, _]. destruct (Z.ltb_spec 0 (cursor_x s)); [cbn; lia|]. destruct (Z.ltb_spec 0 (cursor_y s)); cbn; lia. }
  destruct (c =? 9).
  { split; [|by left]. cbn. rewrite tab_stop by lia. split; [|lia]. assert (0 <= cursor_x s / 8) by (apply Z.div_pos; lia). lia. }
  destruct (32 <=? s8 c); [|split; [cbn; lia|by left]]. rewrite (proj2 (Z.leb_gt 80 (cursor_x s))) by lia.
  split; [cbn; lia|]. right. split; [cbn; lia|by eexists _, _].
Qed.

Lemma clamp_range s :
  cursor_ok s → 0 <= cursor_x (clamp_cursor s) < 80 ∧ 0 <= cursor_y (clamp_cursor s) < 25.
Proof.
  intros [Hx Hy]. unfold clamp_cursor, VGA_WIDTH, VGA_HEIGHT.
  destruct (Z.leb_spec 80 (cursor_x s)), (Z.leb_spec 25 (cursor_y s)); cbn; lia.
Qed.

Lemma accesses_cases c s :
  cursor_ok s → cursor_ok (accesses c s).2 ∧
    ((accesses c s).1 = [] ∨ (∃ a v, (accesses c s).1 = [Put a v]) ∨ ∃ blank, (accesses c s).1 = scroll_accesses blank).
Proof.
  intros Hs. unfold accesses, VGA_HEIGHT. destruct (clamp_range s Hs) as [Hx Hy].
  pose proof (put_cases c (clamp_cursor s) Hx Hy) as Hp. destruct (put_accesses c (clamp_cursor s)) as [xs s1].
  destruct Hp as [[Hx1 Hy1] Hxs].
  destruct (Z.leb_spec 25 (cursor_y s1)); cbn [fst snd].
  - split; [split; cbn; lia|]. destruct Hxs as [->|[? _]]; [|lia]. right. right. by eexists.
  - split; [by split|]. destruct Hxs as [->|(_ & a & v & ->)]; [by left|]. right. left. by eexists _, _.
Qed.

(** A display that the next access to the cell overwrites is lost. *)
Lemma mixed_overwritten evs v m :
  forallb untouched (mains evs) = true →
  mixed (evs ++ [Main (Put 1990 v)]) m = run (mains evs ++ [Put 1990 v]) m.
Proof.
  intros Hu. rewrite mixed_app, run_stores_app, mixed_last by done. destruct (run (mains evs) m) as [[l reg]|]; [|done].
  cbn [fmap option_fmap option_map mbind option_bind mixed run]. unfold shown_over. cbn [fst snd access_step].
  unfold zset. rewrite overlay_length. destruct (_ && _); [|done]. cbn [mbind option_bind]. by rewrite overlay_overwritten.
Qed.

(** The displays while the screen scrolls *)
Lemma scroll_moves evs p q r v :
  mains evs = p ++ Fetch 1990 :: q ++ Put 1990 v :: r →
  forallb untouched p = true → forallb untouched q = true → forallb untouched r = true →
  ∃ before lost after, displays evs = before ++ lost ++ after ∧
    ∀ m, mixed evs m = shown_over after <$> run (mains evs) (shown_over before m).
Proof.
  intros Hm Hp Hq Hr. rewrite Hm.
  destruct (mains_app_inv _ _ _ Hm) as (e1 & f1 & -> & <- & Hm1). destruct (mains_cons_inv _ _ _ Hm1) as (e2 & f2 & -> & E2 & Hm2).
  destruct (mains_app_inv _ _ _ Hm2) as (e3 & f3 & -> & <- & Hm3). destruct (mains_cons_inv _ _ _ Hm3) as (e4 & e5 & -> & E4 & <-).
  assert (mains (e1 ++ e2) = mains e1) as Ha by (unfold mains in *; by rewrite omap_app, E2, app_nil_r).
  assert (mains (e3 ++ e4) = mains e3) as Hb by (unfold mains in *; by rewrite omap_app, E4, app_nil_r).
  rewrite (app_assoc e1), (app_assoc e3). revert Hp Hq. rewrite <- Ha, <- Hb. generalize (e1 ++ e2), (e3 ++ e4). clear - Hr. intros a b Hp Hq.
  exists (displays a), (displays b), (displays e5). split.
  { rewrite displays_app. change (displays (Main (Fetch 1990) :: ?l)) with (displays l). by rewrite displays_app. }
  intros m.
  rewrite mixed_app, run_stores_app, mixed_first by done. destruct (run (mains a) _) as [m1|]; [|done]. cbn [mbind option_bind mixed run].
  destruct (access_step (Fetch 1990) m1) as [m2|]; [|done]. cbn [mbind option_bind].
  rewrite (cons_middle (Main _)), (cons_middle (Put _ _)), !app_assoc, mixed_app, run_stores_app, mixed_overwritten by done.
  destruct (run (mains b ++ _) m2) as [m3|]; [|done].
  cbn [mbind option_bind]. by apply mixed_last.
Qed.

(** The displays while one character is printed take effect before it, or
    after it, or not at all: those between the moment the clock's cell is
    copied to the line above and the moment it is cleared are lost. *)
Lemma char_moves evs c s :
  cursor_ok s → mains evs = (accesses c s).1 →
  ∃ before lost after, displays evs = before ++ lost ++ after ∧
    ∀ m, mixed evs m = shown_over after <$> run (mains evs) (shown_over before m).
Proof.
  intros Hs Hm. destruct (accesses_cases c s Hs) as [_ [E|[(a & v & E)|(blank & E)]]]; rewrite E in Hm.
  - exists (displays evs), [], []. rewrite app_nil_r. split; [done|]. intros m. rewrite mixed_first by (by rewrite Hm).
    by destruct (run _ _) as [[]|].
  - destruct (mains_cons_inv evs (Put a v) [] Hm) as (e1 & e2 & -> & E1 & E2).
    exists (displays e1), [], (displays e2). split; [by rewrite displays_app|]. intros m.
    rewrite Hm, mixed_app, mixed_first, E1 by (by rewrite E1). cbn [run mixed mbind option_bind].
    destruct (access_step _ _) as [m'|]; [|done]. cbn [mbind option_bind]. by rewrite mixed_last, E2 by (by rewrite E2).
  - destruct (scroll_split blank) as (p & q & r & Es & Hp & Hq & Hr). rewrite Es in Hm. by eapply scroll_moves.
Qed.

(** ** A string *)

Lemma put_accesses_screen c l s :
  put_accesses c (set_screen l s) = ((put_accesses c s).1, set_screen l (put_accesses c s).2).
Proof.
  unfold put_accesses. cbn [cursor_x cursor_y current_color set_screen set_pos]. destruct (_ || _); [done|].
  destruct (c =? 8); [destruct (0 <? cursor_x s); [done|]; by destruct (0 <? cursor_y s)|].
  destruct (c =? 9); [done|]. destruct (32 <=? s8 c); [|done]. by destruct (VGA_WIDTH <=? cursor_x s).
Qed.
Lemma accesses_screen c l s : accesses c (set_screen l s) = ((accesses c s).1, set_screen l (accesses c s).2).
Proof.
  unfold accesses. change (clamp_cursor (set_screen l s)) with (set_screen l (clamp_cursor s)). rewrite put_accesses_screen.
  destruct (put_accesses c (clamp_cursor s)) as [xs s1]. cbn [fst snd cursor_y set_screen current_color].
  by destruct (VGA_HEIGHT <=? cursor_y s1).
Qed.

(** Characters printed and digits shown, one at a time *)
Inductive op : Type :=
| Char (c : Z)
| Digit (d : Z).
Definition chars (ops : list op) : list Z := omap (λ o, match o with Char c => Some c | Digit _ => None end) ops.
Definition digits (ops : list op) : list Z := omap (λ o, match o with Char _ => None | Digit d => Some d end) ops.

Definition show_digits (ds : list Z) (s : vga_state) : vga_state := set_screen (overlay (screen s) ds) s.

Section strings.
Context {W : Type} `{Ports W}.

Fixpoint atomic (ops : list op) (s : vga_state) (w : W) : option (vga_state * W) :=
  match ops with
  | [] => Some (s, w)
  | Char c :: ops => '(s, w) ← vga_putchar c s w; atomic ops s w
  | Digit d :: ops => atomic ops (show_digits [d] s) w
  end.

Lemma atomic_digits ds ops s (w : W) : atomic ((Digit <$> ds) ++ ops) s w = atomic ops (show_digits ds s) w.
Proof.
  revert s. induction ds as [|d ds IH]; intros s; [|exact (IH (show_digits [d] s))].
  unfold show_digits. cbn [overlay foldl]. by rewrite set_screen_id.
Qed.

Lemma chars_app a b : chars (a ++ b) = chars a ++ chars b.
Proof. apply omap_app. Qed.
Lemma digits_app a b : digits (a ++ b) = digits a ++ digits b.
Proof. apply omap_app. Qed.
Lemma chars_digits ds : chars (Digit <$> ds) = [].
Proof. by induction ds. Qed.
Lemma digits_digits ds : digits (Digit <$> ds) = ds.
Proof. induction ds as [|d ds IH]; [done|]. cbn. by f_equal. Qed.

(** Whatever the displays between the accesses, some order of whole characters
    and displays gives the same screen. *)
Lemma print_moves evs text s :
  cursor_ok s → mains evs = print_accesses text s →
  ∃ ops, chars ops = text ∧ digits ops `sublist_of` displays evs ∧
    ∀ l reg (w : W), screen ∘ fst <$> atomic ops (set_screen l s) w = fst <$> mixed evs (l, reg).
Proof.
  revert evs s. induction text as [|c text IH]; intros evs s Hs Hm.
  - exists (Digit <$> displays evs). rewrite chars_digits, digits_digits. split_and!; [done|done|]. intros l reg w.
    rewrite <- (app_nil_r (Digit <$> _)), atomic_digits, mixed_first by (by rewrite Hm). by rewrite Hm.
  - cbn [print_accesses] in Hm. destruct (accesses_cases c s Hs) as [Hs' _].
    destruct (accesses c s) as [xs s1] eqn:Ea. cbn [snd] in Hs'.
    destruct (mains_app_inv _ _ _ Hm) as (e1 & e2 & -> & E1 & E2).
    destruct (char_moves e1 c s Hs) as (before & lost & after & Ed & Hmix); [by rewrite Ea|].
    destruct (IH e2 s1 Hs' E2) as (ops & Hc & Hd & Hops).
    exists ((Digit <$> before) ++ Char c :: (Digit <$> after) ++ ops). split_and!.
    + rewrite chars_app, chars_digits. change (c :: chars ((Digit <$> after) ++ ops) = c :: text).
      by rewrite chars_app, chars_digits, Hc.
    + rewrite digits_app, digits_digits. change (before ++ digits ((Digit <$> after) ++ ops) `sublist_of` displays (e1 ++ e2)).
      rewrite digits_app, digits_digits, displays_app, Ed, <- !app_assoc. apply sublist_app; [done|].
      apply sublist_inserts_l. by apply sublist_app.
    + intros l reg w. rewrite atomic_digits, mixed_app, Hmix, E1. cbn [atomic].
      unfold show_digits. rewrite set_screen_twice. cbn [screen set_screen].
      rewrite (putchar_runs c _ w reg), accesses_screen, Ea. cbn [fst snd screen set_screen]. unfold shown_over at 2. cbn [fst snd].
      destruct (run xs (overlay l before, reg)) as [[l' reg']|]; [|done]. cbn [mbind option_bind fmap option_fmap option_map].
      rewrite set_screen_twice, atomic_digits. unfold show_digits. rewrite set_screen_twice. apply Hops.
Qed.

(** A string without displays is printed as by [vga_print]. *)
Lemma atomic_print text rest s (w : W) :
  Forall (λ c, c ≠ 0) text → atomic (Char <$> text) s w = vga_print (text ++ 0 :: rest) s w.
Proof.
  intros Ht. revert s w. induction Ht as [|c text Hc Ht IH]; intros s w; [done|]. cbn [fmap list_fmap atomic app vga_print].
  rewrite (proj2 (Z.eqb_neq c 0) Hc). cbn [negb]. destruct (vga_putchar c s w) as [[s1 w1]|]; [|done]. apply IH.
Qed.

Lemma screen_shown s : zlen (screen s) = 2000 → cursor_ok s → ∃ t, shows t s.
Proof.
  intros Hl [Hx Hy]. destruct (lines_exist 25 (screen s)) as (rows & E & Hn & Hw); [unfold zlen in Hl; lia|].
  exists {| t_col := cursor_x s; t_row := cursor_y s; t_color := current_color s; t_lines := rows |}. by split.
Qed.

Lemma atomic_defined ops s (w : W) :
  zlen (screen s) = 2000 → cursor_ok s → ∃ s' w', atomic ops s w = Some (s', w').
Proof.
  revert s w. induction ops as [|[c|d] ops IH]; intros s w Hl Hs; [by eexists _, _|..]; cbn [atomic].
  - destruct (screen_shown s Hl Hs) as [t Ht]. destruct (putchar_shows c t s w Ht) as (s1 & -> & Hs1).
    cbn [mbind option_bind]. apply IH; [by eapply sh_cells|]. destruct Hs1. split; lia.
  - apply IH; [|done]. unfold zlen in *. cbn. by rewrite length_insert.
Qed.
End strings.

(** ** The handler *)
Inductive event : Type :=
| Access (x : access)
| Tick.

Definition set_video (l : list Z) (k : timer_state) : timer_state :=
  {| timer_ticks := timer_ticks k; procs := procs k; video := l |}.

Fixpoint interrupted (evs : list event) (k : timer_state) (reg : Z) : option (timer_state * Z) :=
  match evs with
  | [] => Some (k, reg)
  | Access x :: evs => '(l, reg) ← access_step x (video k, reg); interrupted evs (set_video l k) reg
  | Tick :: evs => k ← timer_interrupt_handler k; interrupted evs k reg
  end.

Definition own (evs : list event) : list access := omap (λ e, match e with Access x => Some x | Tick => None end) evs.
Fixpoint ticks_in (evs : list event) : nat :=
  match evs with
  | [] => 0
  | Access _ :: evs => ticks_in evs
  | Tick :: evs => S (ticks_in evs)
  end.

(** What [n] ticks show, and what is left of them when only the screen counts *)
Fixpoint shown_by (n : nat) (ticks : Z) : list Z :=
  match n with
  | O => []
  | S n => digit (ticks +u 1) ++ shown_by n (ticks +u 1)
  end.
Fixpoint screen_moves (evs : list event) (ticks : Z) : moves :=
  match evs with
  | [] => []
  | Access x :: evs => Main x :: screen_moves evs ticks
  | Tick :: evs => (Shown <$> digit (ticks +u 1)) ++ screen_moves evs (ticks +u 1)
  end.

Lemma mains_shown ds evs : mains ((Shown <$> ds) ++ evs) = mains evs.
Proof. by induction ds. Qed.
Lemma displays_shown ds evs : displays ((Shown <$> ds) ++ evs) = ds ++ displays evs.
Proof. induction ds as [|d ds IH]; [done|]. cbn. by f_equal. Qed.
Lemma mixed_shown ds evs m : mixed ((Shown <$> ds) ++ evs) m = mixed evs (shown_over ds m).
Proof. revert m. induction ds as [|d ds IH]; intros m; [by destruct m|exact (IH (shown_over [d] m))]. Qed.

Lemma screen_moves_own evs ticks : mains (screen_moves evs ticks) = own evs.
Proof.
  revert ticks. induction evs as [|[x|] evs IH]; intros ticks; [done|..]; cbn [screen_moves].
  - change (x :: mains (screen_moves evs ticks) = x :: own evs). by f_equal.
  - by rewrite mains_shown.
Qed.
Lemma screen_moves_shown evs ticks : displays (screen_moves evs ticks) = shown_by (ticks_in evs) ticks.
Proof.
  revert ticks. induction evs as [|[x|] evs IH]; intros ticks; [done|exact (IH ticks)|]. cbn [screen_moves ticks_in shown_by].
  rewrite displays_shown. by f_equal.
Qed.

Lemma access_length x m m' : access_step x m = Some m' → length m'.1 = length m.1.
Proof.
  destruct m as [l reg]. destruct x; cbn [access_step fst]; intros (l' & E & [= <-])%bind_Some; [done|..]; by eapply zset_length.
Qed.

Lemma print_tick_ok k :
  clock_ok k → ∃ k', timer_interrupt_handler k = Some k' ∧ clock_ok k' ∧ timer_ticks k' = timer_ticks k +u 1 ∧
    snd <$> schedule (procs k) = Some (procs k') ∧ video k' = overlay (video k) (digit (timer_ticks k +u 1)).
Proof.
  intros Hk. destruct (handler_ok k Hk) as (sw & ps & v & Es & Hk' & E). eexists. split; [exact E|]. split; [exact Hk'|].
  split; [done|]. split; [by rewrite Es|]. revert E. unfold timer_interrupt_handler, digit. rewrite Es. cbn [mbind option_bind video].
  destruct Hk as [_ Hl]. destruct (_ =? 0); [|by intros [= <-]]. rewrite zset_in by lia. by intros [= <-].
Qed.

Lemma interrupted_ok evs k reg l' reg' :
  clock_ok k → 0 <= timer_ticks k < 4294967296 → mixed (screen_moves evs (timer_ticks k)) (video k, reg) = Some (l', reg') →
  ∃ k', interrupted evs k reg = Some (k', reg') ∧ video k' = l' ∧
    timer_ticks k' = u32 (timer_ticks k + Z.of_nat (ticks_in evs)) ∧ schedule_n (ticks_in evs) (procs k) = Some (procs k').
Proof.
  revert k reg. induction evs as [|[x|] evs IH]; intros k reg Hk Ht; cbn [screen_moves mixed interrupted ticks_in].
  - intros [= <- <-]. exists k. rewrite Z.add_0_r, u32_id by done. by split_and!.
  - intros ((l & r) & E & Hm)%bind_Some. rewrite E. cbn [mbind option_bind].
    destruct (IH (set_video l k) r) as (k' & ? & ? & ? & ?); [|done|done|by exists k'].
    destruct Hk as [Hp Hl]. split; [done|]. apply access_length in E. cbn [fst] in E. cbn [set_video video]. unfold zlen in *. by rewrite E.
  - rewrite mixed_shown. unfold shown_over. cbn [fst snd]. destruct (print_tick_ok k Hk) as (k1 & -> & Hk1 & E1 & Es & <-).
    rewrite <- E1. intros Hm. cbn [mbind option_bind].
    destruct (IH k1 reg Hk1) as (k' & E' & Hv & Ht' & Hs'); [rewrite E1; apply u32_range|done|]. exists k'. split_and!; [done|done| |].
    + rewrite Ht', E1. unfold u32. rewrite Zplus_mod_idemp_l. f_equal. lia.
    + cbn [schedule_n]. destruct (schedule (procs k)) as [[sw ps]|]; [|done]. by injection Es as ->.
Qed.

Lemma no_digits ops : digits ops = [] → ops = Char <$> chars ops.
Proof.
  induction ops as [|[c|d] ops IH]; intros Hd; [done|..|done]. change (Char c :: ops = Char c :: (Char <$> chars ops)). f_equal. by apply IH.
Qed.

(** C17. Printing under the clock: however the clock interrupts between the
    accesses of [vga_print] to video memory, the ticks are all counted and the
    scheduler called for each, and the screen is the one that some order of
    whole characters and displayed digits leaves, each at one moment: the
    characters are those of the string, in order, and the digits are some of
    those the handler showed, in order.  (A digit shown while the screen
    scrolls may be lost.)  Without a tick it is the screen of [vga_print]. *)
Theorem print_under_clock {W : Type} `{Ports W} (b : list Z) (s : vga_state) (w : W) (k : timer_state) (evs : list event) (reg : Z) :
  text_ok b → cursor_ok s → clock_ok k → 0 <= timer_ticks k < 4294967296 → video k = screen s →
  own evs = print_accesses (str b) s →
  ∃ k' reg' ops s' w',
    interrupted evs k reg = Some (k', reg') ∧
    timer_ticks k' = u32 (timer_ticks k + Z.of_nat (ticks_in evs)) ∧ schedule_n (ticks_in evs) (procs k) = Some (procs k') ∧
    atomic ops s w = Some (s', w') ∧ video k' = screen s' ∧
    chars ops = str b ∧ digits ops `sublist_of` shown_by (ticks_in evs) (timer_ticks k) ∧
    (ticks_in evs = 0%nat → vga_print b s w = Some (s', w')).
Proof.
  intros Hb Hs Hk Ht Hv Hown.
  destruct (print_moves (W := W) (screen_moves evs (timer_ticks k)) (str b) s Hs) as (ops & Hc & Hd & Hops); [by rewrite screen_moves_own|].
  rewrite screen_moves_shown in Hd. specialize (Hops (screen s) reg w). rewrite set_screen_id, <- Hv in Hops.
  destruct (atomic_defined ops s w) as (s' & w' & E); [rewrite <- Hv; apply Hk|done|]. rewrite E in Hops.
  destruct (mixed _ _) as [[l' reg']|] eqn:Em; [|done]. injection Hops as Hl.
  destruct (interrupted_ok evs k reg l' reg' Hk Ht Em) as (k' & ? & Hv' & ? & ?).
  exists k', reg', ops, s', w'. split_and!; try done; [by rewrite Hv'|]. intros Hn. rewrite Hn in Hd. apply sublist_nil_r, no_digits in Hd.
  destruct (text_split b Hb) as (rest & Eb & Hnz). rewrite Eb at 1. by rewrite <- (atomic_print _ rest s w Hnz), <- Hc, <- Hd.
Qed.

(** A line feed in the last line, and the second that ends while the screen
    scrolls: the digit is written after its cell has been copied. *)
Definition last_line : vga_state := {| cursor_x := 0; cursor_y := 24; current_color := 7; screen := replicate 2000 0 |}.
Definition feed_events : list event :=
  let xs := print_accesses [10] last_line in (Access <$> take 3825 xs) ++ Tick :: (Access <$> drop 3825 xs).
Definition feed_clock (ps : process_system) : timer_state := {| timer_ticks := 99; procs := ps; video := screen last_line |}.

Lemma feed_events_own : own feed_events = print_accesses (str (lit "
")) last_line.
Proof. vm_compute. reflexivity. Qed.

(** Neither order of the line feed and the digit gives this screen: the cell
    above the clock's is still empty, and the clock's has been cleared. *)
Lemma digit_lost :
  (λ m : memory, (m.1 !! 1910%nat, m.1 !! 1990%nat)) <$> mixed (screen_moves feed_events 99) (screen last_line, 0) =
    Some (Some 0, Some (cell 32 7)).
Proof. vm_compute. reflexivity. Qed.

Lemma print_under_clock_witness :
  ∃ ps, demo_table = Some ps ∧ ∃ k' reg' ops s' w',
    interrupted feed_events (feed_clock ps) 0 = Some (k', reg') ∧
    timer_ticks k' = u32 (timer_ticks (feed_clock ps) + Z.of_nat (ticks_in feed_events)) ∧
    schedule_n (ticks_in feed_events) (procs (feed_clock ps)) = Some (procs k') ∧
    atomic ops last_line (constant_machine 0) = Some (s', w') ∧ video k' = screen s' ∧
    chars ops = str (lit "
") ∧ digits ops `sublist_of` shown_by (ticks_in feed_events) (timer_ticks (feed_clock ps)) ∧
    (ticks_in feed_events = 0%nat → vga_print (lit "
") last_line (constant_machine 0) = Some (s', w')).
Proof.
  destruct demo_table_ok as (ps & E & Hok & _). exists ps. split; [exact E|].
  apply (print_under_clock (lit "
") last_line (constant_machine 0) (feed_clock ps) feed_events 0).
  - by eexists.
  - split; cbn; lia.
  - split; [exact Hok|reflexivity].
  - cbn. lia.
  - reflexivity.
  - exact feed_events_own.
Defined.

End Clock.
