(* ===== verification/Syscall.v ===== *)
(** * Syscall: the system call layer (kernel/syscall.c)

    The handler reads a number and four words from the saved registers and
    runs a function on the state of the whole kernel.  A pointer is an offset
    into [k_mem], the memory user programs share with the kernel, which no
    kernel structure overlaps; following a NULL pointer or one past the end
    is undefined.  How the compiler lays out the structures copied to the
    user is a parameter. *)
From stdpp Require Import gmap.
From S2P Require Import Prelude CString Ports Serial Vga Process VfsSimple Network Device Security Monitor Keyboard Idt.

Module Syscall.

Definition SYS_SUCCESS : Z := 0.
Definition SYS_ERROR : Z := 4294967295.
Definition LOG_SOURCE_PROCESS : Z := 1.

(** The state of the kernel; [k_drv] is the state of the device drivers. *)
Record sys (D W : Type) := {
  k_procs : Process.process_system;
  k_fds : list VfsSimple.simple_fd_t;
  k_net : Network.network_state;
  k_devs : Device.device_state (D := D);
  k_drv : D;
  k_sec : Security.security_state;
  k_mon : Monitor.monitor_state;
  k_vga : Vga.vga_state;
  k_kbd : Keyboard.kb_state;
  k_mem : list Z;
  k_hw : W;
}.
Arguments k_procs {D W}. Arguments k_fds {D W}. Arguments k_net {D W}. Arguments k_devs {D W}. Arguments k_drv {D W}.
Arguments k_sec {D W}. Arguments k_mon {D W}. Arguments k_vga {D W}. Arguments k_kbd {D W}. Arguments k_mem {D W}.
Arguments k_hw {D W}.

(** ** Computations on one component *)
Record lens (S C : Type) := { get : S → C; put : C → S → S }.
Arguments get {S C}. Arguments put {S C}.

Section lenses.
Context {D W : Type}.
Implicit Types s : sys D W.

Definition procs : lens (sys D W) _ := {| get := k_procs; put c s :=
  {| k_procs := c; k_fds := k_fds s; k_net := k_net s; k_devs := k_devs s; k_drv := k_drv s; k_sec := k_sec s;
     k_mon := k_mon s; k_vga := k_vga s; k_kbd := k_kbd s; k_mem := k_mem s; k_hw := k_hw s |} |}.
Definition fds : lens (sys D W) _ := {| get := k_fds; put c s :=
  {| k_procs := k_procs s; k_fds := c; k_net := k_net s; k_devs := k_devs s; k_drv := k_drv s; k_sec := k_sec s;
     k_mon := k_mon s; k_vga := k_vga s; k_kbd := k_kbd s; k_mem := k_mem s; k_hw := k_hw s |} |}.
Definition netw : lens (sys D W) _ := {| get := k_net; put c s :=
  {| k_procs := k_procs s; k_fds := k_fds s; k_net := c; k_devs := k_devs s; k_drv := k_drv s; k_sec := k_sec s;
     k_mon := k_mon s; k_vga := k_vga s; k_kbd := k_kbd s; k_mem := k_mem s; k_hw := k_hw s |} |}.
Definition drv : lens (sys D W) _ := {| get := k_drv; put c s :=
  {| k_procs := k_procs s; k_fds := k_fds s; k_net := k_net s; k_devs := k_devs s; k_drv := c; k_sec := k_sec s;
     k_mon := k_mon s; k_vga := k_vga s; k_kbd := k_kbd s; k_mem := k_mem s; k_hw := k_hw s |} |}.
Definition secu : lens (sys D W) _ := {| get := k_sec; put c s :=
  {| k_procs := k_procs s; k_fds := k_fds s; k_net := k_net s; k_devs := k_devs s; k_drv := k_drv s; k_sec := c;
     k_mon := k_mon s; k_vga := k_vga s; k_kbd := k_kbd s; k_mem := k_mem s; k_hw := k_hw s |} |}.
Definition moni : lens (sys D W) _ := {| get := k_mon; put c s :=
  {| k_procs := k_procs s; k_fds := k_fds s; k_net := k_net s; k_devs := k_devs s; k_drv := k_drv s; k_sec := k_sec s;
     k_mon := c; k_vga := k_vga s; k_kbd := k_kbd s; k_mem := k_mem s; k_hw := k_hw s |} |}.
Definition kbd : lens (sys D W) _ := {| get := k_kbd; put c s :=
  {| k_procs := k_procs s; k_fds := k_fds s; k_net := k_net s; k_devs := k_devs s; k_drv := k_drv s; k_sec := k_sec s;
     k_mon := k_mon s; k_vga := k_vga s; k_kbd := c; k_mem := k_mem s; k_hw := k_hw s |} |}.
Definition umem : lens (sys D W) _ := {| get := k_mem; put c s :=
  {| k_procs := k_procs s; k_fds := k_fds s; k_net := k_net s; k_devs := k_devs s; k_drv := k_drv s; k_sec := k_sec s;
     k_mon := k_mon s; k_vga := k_vga s; k_kbd := k_kbd s; k_mem := c; k_hw := k_hw s |} |}.
(** The screen and the ports together *)
Definition console : lens (sys D W) (Vga.vga_state * W) := {| get s := (k_vga s, k_hw s); put c s :=
  {| k_procs := k_procs s; k_fds := k_fds s; k_net := k_net s; k_devs := k_devs s; k_drv := k_drv s; k_sec := k_sec s;
     k_mon := k_mon s; k_vga := c.1; k_kbd := k_kbd s; k_mem := k_mem s; k_hw := c.2 |} |}.
End lenses.

Section syscall.
Context {D W : Type} `{Ports W}.
Context (packet_bytes : Network.network_packet → list Z) (stats_bytes : Monitor.system_stats_t → list Z)
  (metrics_bytes : Monitor.performance_metrics_t → list Z).

(** A computation on the kernel's state that may be undefined. *)
Definition sysM (A : Type) : Type := sys D W → option (A * sys D W).
Definition ret {A} (a : A) : sysM A := λ s, Some (a, s).
Definition bind {A B} (m : sysM A) (f : A → sysM B) : sysM B := λ s, '(a, s) ← m s; f a s.
Notation "x ⇐ m ; k" := (bind m (λ x, k)) (at level 20, m at level 100, k at level 200, right associativity).
Notation "m ;; k" := (bind m (λ _, k)) (at level 100, k at level 200, right associativity).

Definition on {C A} (l : lens (sys D W) C) (f : C → option (A * C)) : sysM A :=
  λ s, '(a, c) ← f (get l s); Some (a, put l c s).
Definition read {C} (l : lens (sys D W) C) : sysM C := λ s, Some (get l s, s).
Definition undefined {A} : sysM A := λ _, UB.
Definition lift {A} (o : option A) : sysM A := λ s, a ← o; Some (a, s).

(** ** Pointers *)

(** What a [char *] that is followed points to. *)
Definition deref (p : Z) : sysM (list Z) :=
  if p =? 0 then undefined else m ⇐ read umem; ret (drop (Z.to_nat p) m).
(** A pointer that may be NULL *)
Definition ptr (p : Z) : sysM (option (list Z)) :=
  if p =? 0 then ret None else m ⇐ read umem; ret (Some (drop (Z.to_nat p) m)).
(** The bytes from [p] on are now [b]. *)
Definition store (p : Z) (b : list Z) : sysM unit := on umem (λ m, Some (tt, take (Z.to_nat p) m ++ b)).
(** [memcpy] to the user of a structure laid out as [b] *)
Definition copy_to_user (p : Z) (b : list Z) : sysM unit :=
  d ⇐ deref p; d ⇐ lift (memcpy d b (length b)); store p d.

(** The little-endian word at [p] *)
Definition load32 (m : list Z) (p : Z) : option Z :=
  a ← m.[p]; b ← m.[p + 1]; c ← m.[p + 2]; d ← m.[p + 3]; Some (a + 256 * b + 65536 * c + 16777216 * d).
Definition bytes32 (v : Z) : list Z := [v mod 256; (v / 256) mod 256; (v / 65536) mod 256; v / 16777216].

(** ** The services *)
Definition sys_exit (status : Z) : sysM Z :=
  on procs (λ p, '(_, p) ← Process.process_exit status p; Some (tt, p));; ret SYS_SUCCESS.

(** [for (i = 0; i < n; i++) serial_putchar(0x3F8, buf[i]);] *)
Fixpoint serial_bytes (n : nat) (buf : list Z) (w : W) : option W :=
  match n with
  | O => Some w
  | S n => match buf with [] => UB | c :: buf => serial_bytes n buf (Serial.serial_putchar 0x3F8 c w) end
  end.

(** The bytes at [buf] to the screen and to the serial line *)
Definition write_out (buf : list Z) (count : Z) : sysM unit :=
  on console (λ '(v, w), '(v, w) ← Vga.vga_print buf v w; w ← serial_bytes (Z.to_nat count) buf w; Some (tt, (v, w))).

Definition sys_write (fd buf count : Z) : sysM Z :=
  if fd =? 1 then b ⇐ deref buf; write_out b count;; ret count else ret SYS_ERROR.

Definition in_port (port : Z) : sysM Z := on console (λ '(v, w), let '(x, w) := inb port w in Some (x, (v, w))).

(** The keyboard and the serial line are polled in turn; [None] when nothing
    has come after [patience] rounds. *)
Fixpoint read_char (patience : nat) : sysM Z :=
  match patience with
  | O => λ _, None
  | S n =>
      c ⇐ on kbd Keyboard.keyboard_getchar;
      if negb (c =? 0) then ret c
      else
        st ⇐ in_port (0x3F8 + 5);
        if negb (Z.land st 1 =? 0) then in_port 0x3F8 else read_char n
  end.

Fixpoint read_chars (patience n : nat) (buf i : Z) : sysM unit :=
  match n with
  | O => ret tt
  | S n =>
      c ⇐ read_char patience;
      on umem (λ m, m ← (if buf =? 0 then UB else zset m (buf + i) c); Some (tt, m));;
      read_chars patience n buf (i + 1)
  end.

Definition sys_read (patience : nat) (fd buf count : Z) : sysM Z :=
  if fd =? 0 then read_chars patience (Z.to_nat count) buf 0;; ret count else ret SYS_ERROR.

Definition sys_getpid : sysM Z :=
  p ⇐ read procs;
  match Process.process_get_current p with
  | Some i => q ⇐ lift (Process.processes p !! i); ret (Process.pid q)
  | None => ret 0
  end.
Definition sys_fork : sysM Z := sys_getpid.
Definition sys_wait (pid : Z) : sysM Z := ret SYS_SUCCESS.
Definition sys_exec (path : Z) : sysM Z := ret SYS_ERROR.
Definition sys_yield : sysM Z := on procs (λ p, '(_, p) ← Process.schedule p; Some (tt, p));; ret SYS_SUCCESS.

Definition sys_open (filename mode : Z) : sysM Z :=
  fd ⇐ on fds (λ f, Some (VfsSimple.fs_open f)); ret (if 0 <=? fd then u32 fd else SYS_ERROR).
Definition sys_close (fd : Z) : sysM Z :=
  result ⇐ on fds (VfsSimple.fs_close (s32 fd)); ret (if result =? 0 then SYS_SUCCESS else SYS_ERROR).
Definition sys_seek (fd position : Z) : sysM Z :=
  result ⇐ on fds (VfsSimple.fs_seek fd position); ret (if 0 <=? result then u32 result else SYS_ERROR).
Definition sys_stat (filename : Z) : sysM Z := ret 0.

Definition sys_power_state (state : Z) : sysM Z := ret SYS_SUCCESS.
Definition sys_get_battery_info (buffer : Z) : sysM Z := ret SYS_ERROR.
Definition sys_get_power_stats (buffer : Z) : sysM Z := ret SYS_ERROR.

Definition sys_ipc_send (receiver type data length : Z) : sysM Z := ret 0.
Definition sys_ipc_receive (sender msg : Z) : sysM Z := ret 0.
Definition sys_vm_alloc (size flags : Z) : sysM Z := ret 0x10000000.
Definition sys_vm_free (addr : Z) : sysM Z := ret 0.
Definition sys_vm_map (virt_addr phys_addr flags : Z) : sysM Z := ret 0.

Definition sys_network_send (dst_ip type data length : Z) : sysM Z :=
  d ⇐ ptr data; r ⇐ on netw (Network.network_send_packet dst_ip type d length); ret (u32 r).
Definition sys_network_receive (buffer : Z) : sysM Z :=
  rp ⇐ on netw (λ n, '(r, p, n) ← Network.network_receive_packet (negb (buffer =? 0)) n; Some ((r, p), n));
  match rp.2 with
  | Some p => copy_to_user buffer (packet_bytes p);; ret (u32 rp.1)
  | None => ret (u32 rp.1)
  end.

Definition sys_device_open (name : Z) : sysM Z :=
  nm ⇐ deref name; devs ⇐ (λ s, Some (k_devs s, s)); r ⇐ on drv (Device.device_open nm devs); ret (u32 r).
Definition sys_device_close (name : Z) : sysM Z :=
  nm ⇐ deref name; devs ⇐ (λ s, Some (k_devs s, s)); r ⇐ on drv (Device.device_close nm devs); ret (u32 r).
Definition sys_device_read (name buffer size : Z) : sysM Z :=
  nm ⇐ deref name; b ⇐ ptr buffer; devs ⇐ (λ s, Some (k_devs s, s));
  rb ⇐ on drv (λ d, '(r, b, d) ← Device.device_read nm b size devs d; Some ((r, b), d));
  match rb.2 with
  | Some b => store buffer b;; ret (u32 rb.1)
  | None => ret (u32 rb.1)
  end.
Definition sys_device_write (name buffer size : Z) : sysM Z :=
  nm ⇐ deref name; b ⇐ ptr buffer; devs ⇐ (λ s, Some (k_devs s, s));
  r ⇐ on drv (Device.device_write nm b size devs); ret (u32 r).
(** The argument of the drivers' [ioctl] functions is a pointer to a word. *)
Definition sys_device_ioctl (name cmd arg : Z) : sysM Z :=
  nm ⇐ deref name; devs ⇐ (λ s, Some (k_devs s, s)); m ⇐ read umem;
  v ⇐ (if arg =? 0 then ret None else v ⇐ lift (load32 m arg); ret (Some v));
  rv ⇐ on drv (λ d, '(r, v, d) ← Device.device_ioctl nm cmd v devs d; Some ((r, v), d));
  match rv.2 with
  | Some v => if arg =? 0 then undefined else copy_to_user arg (bytes32 v);; ret (u32 rv.1)
  | None => ret (u32 rv.1)
  end.

Definition context_field (field : Security.security_context_t → Z) : sysM Z :=
  c ⇐ read secu;
  match Security.security_get_context true c with
  | (r, Some ctx) => ret (if r =? 0 then field ctx else SYS_ERROR)
  | (_, None) => ret SYS_ERROR
  end.
Definition sys_getuid : sysM Z := context_field Security.ctx_uid.
Definition sys_getgid : sysM Z := context_field Security.ctx_gid.
Definition sys_setuid (uid : Z) : sysM Z :=
  gid ⇐ sys_getgid; r ⇐ on secu (λ c, Some (Security.security_set_context uid gid c)); ret (u32 r).
Definition sys_setgid (gid : Z) : sysM Z :=
  uid ⇐ sys_getuid; r ⇐ on secu (λ c, Some (Security.security_set_context uid gid c)); ret (u32 r).
Definition sys_chmod (path mode : Z) : sysM Z :=
  p ⇐ ptr path; uid ⇐ sys_getuid; gid ⇐ sys_getgid;
  r ⇐ on secu (Security.security_set_permission p uid gid mode); ret (u32 r).
Definition sys_chown (path uid gid : Z) : sysM Z :=
  p ⇐ ptr path;
  r ⇐ on secu (Security.security_set_permission p uid gid
                 (Z.lor (Z.lor Security.PERM_READ Security.PERM_WRITE) Security.PERM_EXECUTE));
  ret (u32 r).

Definition sys_log (level message : Z) : sysM Z :=
  m ⇐ ptr message;
  on moni (λ c, c ← Monitor.monitor_log level LOG_SOURCE_PROCESS m c; Some (tt, c));; ret SYS_SUCCESS.

Definition sys_get_stats (type buffer : Z) : sysM Z :=
  if type =? 0 then
    rs ⇐ on moni (λ c, '(r, st, c) ← Monitor.monitor_get_system_stats (negb (buffer =? 0)) c; Some ((r, st), c));
    match rs.2 with Some st => copy_to_user buffer (stats_bytes st);; ret (u32 rs.1) | None => ret (u32 rs.1) end
  else if type =? 1 then
    rs ⇐ on moni (λ c, '(r, pm, c) ← Monitor.monitor_get_performance_metrics (negb (buffer =? 0)) c; Some ((r, pm), c));
    match rs.2 with Some pm => copy_to_user buffer (metrics_bytes pm);; ret (u32 rs.1) | None => ret (u32 rs.1) end
  else ret SYS_ERROR.

(** The instruction of [syscall], executed in the kernel: [idt_init] leaves the
    gate of vector 0x80 empty, so the processor raises an exception whose
    handler halts (file System, [int_0x80_halts]).  It never returns. *)
Definition int_0x80 : sysM Z := λ _, None.

(** The lines [monitor_dump_logs] writes, each with [syscall(SYS_WRITE, 1, ...)] *)
Fixpoint write_lines (lines : list (list Z)) : sysM unit :=
  match lines with
  | [] => ret tt
  | _ :: lines => int_0x80;; write_lines lines
  end.
Definition sys_dump_logs : sysM Z :=
  c ⇐ read moni; lines ⇐ lift (Monitor.monitor_dump_logs c); write_lines lines;; ret SYS_SUCCESS.

(** ** The table *)
Definition syscall_func_t : Type := Z → Z → Z → Z → sysM Z.

Definition sys_exit_wrapper : syscall_func_t := λ status _ _ _, sys_exit status.
Definition sys_write_wrapper : syscall_func_t := λ fd buf count _, sys_write fd buf count.
Definition sys_read_wrapper (patience : nat) : syscall_func_t := λ fd buf count _, sys_read patience fd buf count.
Definition sys_fork_wrapper : syscall_func_t := λ _ _ _ _, sys_fork.
Definition sys_wait_wrapper : syscall_func_t := λ pid _ _ _, sys_wait pid.
Definition sys_exec_wrapper : syscall_func_t := λ path _ _ _, sys_exec path.
Definition sys_getpid_wrapper : syscall_func_t := λ _ _ _ _, sys_getpid.
Definition sys_yield_wrapper : syscall_func_t := λ _ _ _ _, sys_yield.
Definition sys_open_wrapper : syscall_func_t := λ filename mode _ _, sys_open filename mode.
Definition sys_close_wrapper : syscall_func_t := λ fd _ _ _, sys_close fd.
Definition sys_seek_wrapper : syscall_func_t := λ fd position _ _, sys_seek (s32 fd) position.
Definition sys_stat_wrapper : syscall_func_t := λ filename _ _ _, sys_stat filename.
Definition sys_network_send_wrapper : syscall_func_t := λ dst_ip type data length, sys_network_send dst_ip (u8 type) data (u16 length).
Definition sys_network_receive_wrapper : syscall_func_t := λ packet _ _ _, sys_network_receive packet.
Definition sys_device_open_wrapper : syscall_func_t := λ name _ _ _, sys_device_open name.
Definition sys_device_close_wrapper : syscall_func_t := λ name _ _ _, sys_device_close name.
Definition sys_device_read_wrapper : syscall_func_t := λ name buffer size _, sys_device_read name buffer size.
Definition sys_device_write_wrapper : syscall_func_t := λ name buffer size _, sys_device_write name buffer size.
Definition sys_device_ioctl_wrapper : syscall_func_t := λ name cmd arg _, sys_device_ioctl name cmd arg.
Definition sys_setuid_wrapper : syscall_func_t := λ uid _ _ _, sys_setuid uid.
Definition sys_setgid_wrapper : syscall_func_t := λ gid _ _ _, sys_setgid gid.
Definition sys_getuid_wrapper : syscall_func_t := λ _ _ _ _, sys_getuid.
Definition sys_getgid_wrapper : syscall_func_t := λ _ _ _ _, sys_getgid.
Definition sys_chmod_wrapper : syscall_func_t := λ path mode _ _, sys_chmod path mode.
Definition sys_chown_wrapper : syscall_func_t := λ path uid gid _, sys_chown path uid gid.
Definition sys_log_wrapper : syscall_func_t := λ level message _ _, sys_log (u8 level) message.
Definition sys_get_stats_wrapper : syscall_func_t := λ stats_type buffer _ _, sys_get_stats stats_type buffer.
Definition sys_dump_logs_wrapper : syscall_func_t := λ _ _ _ _, sys_dump_logs.
Definition sys_power_state_wrapper : syscall_func_t := λ state _ _ _, sys_power_state state.
Definition sys_get_battery_info_wrapper : syscall_func_t := λ buffer _ _ _, sys_get_battery_info buffer.
Definition sys_get_power_stats_wrapper : syscall_func_t := λ buffer _ _ _, sys_get_power_stats buffer.

(** The entries the initialiser does not name are NULL. *)
Definition syscall_table (patience : nat) : list (option syscall_func_t) :=
  [ None; Some sys_exit_wrapper; Some sys_write_wrapper;
    Some (sys_read_wrapper patience); Some sys_open_wrapper; Some sys_close_wrapper;
    Some sys_getpid_wrapper; Some sys_yield_wrapper; None;
    None; None; None;
    Some sys_log_wrapper; Some sys_get_stats_wrapper; Some sys_fork_wrapper;
    Some sys_wait_wrapper; Some sys_exec_wrapper; Some sys_seek_wrapper;
    Some sys_stat_wrapper; Some sys_network_send_wrapper; Some sys_network_receive_wrapper;
    Some sys_device_open_wrapper; Some sys_device_close_wrapper; Some sys_device_read_wrapper;
    Some sys_device_write_wrapper; Some sys_device_ioctl_wrapper; Some sys_setuid_wrapper;
    Some sys_setgid_wrapper; Some sys_getuid_wrapper; Some sys_getgid_wrapper;
    Some sys_chmod_wrapper; Some sys_chown_wrapper; Some sys_dump_logs_wrapper;
    Some sys_power_state_wrapper; Some sys_get_battery_info_wrapper; Some sys_get_power_stats_wrapper ].

Definition set_eax (v : Z) (r : Idt.regs) : Idt.regs :=
  let '(Idt.Build_regs gs fs es ds edi esi ebp esp ebx edx ecx eax int_no err eip cs eflags useresp ss) := r in
  Idt.Build_regs gs fs es ds edi esi ebp esp ebx edx ecx v int_no err eip cs eflags useresp ss.

Definition syscall_interrupt_handler (patience : nat) (r : Idt.regs) : sysM Idt.regs :=
  let syscall_num := Idt.eax r in
  match (if syscall_num <? zlen (syscall_table patience) then (syscall_table patience).[syscall_num] else None) with
  | Some (Some f) => result ⇐ f (Idt.ebx r) (Idt.ecx r) (Idt.edx r) (Idt.esi r); ret (set_eax result r)
  | _ => ret (set_eax SYS_ERROR r)
  end.

Definition syscall_init {F} (handler : F) (s : Idt.idt_state F) : option (Idt.idt_state F) :=
  Idt.register_interrupt_handler 0x80 (Some handler) s.

End syscall.
End Syscall.
