(* ===== verification/Kernel.v ===== *)
(** * Kernel: what every system call preserves

    The components' invariants together, and the system calls against them:
    a call with valid arguments returns, and leaves every invariant and, for
    a caller without root rights, the whole security state as they were.  The
    drivers enter through their contract (class [Device.Driver]).  This is about
    [syscall_interrupt_handler] and what it calls; that [int $0x80] does not
    reach it on the kernel as it boots is in System. *)
From stdpp Require Import gmap.
From S2P Require Import Prelude CString Ring Ports Serial Vga Process VfsSimple Network Device CharDevice Security Monitor Keyboard Idt Syscall Memory.
Import Syscall.

Module Kernel.

(** The drivers of a kernel: their common invariant, and the transfers each of
    them can make. *)
Class Drivers (D : Type) := {
  drv_inv : D → Prop;
  drv_fits : Device.device_ops (D := D) → Z → D → Prop;
}.
(** Every registered driver keeps its contract. *)
Definition drivers_ok {D} `{Drivers D} (devs : Device.device_state (D := D)) : Prop :=
  ∃ es, Device.devices_rep devs es ∧
    ∀ e ops, e ∈ es → Device.ent_ops e = Some ops → Device.Driver drv_inv (drv_fits ops) ops.

Section kernel.
Context {D W : Type} `{Ports W} {HD : Drivers D}.
Context (packet_bytes : Network.network_packet → list Z) (stats_bytes : Monitor.system_stats_t → list Z)
  (metrics_bytes : Monitor.performance_metrics_t → list Z).
Implicit Types s : sys D W.

(** ** The invariant *)
Record sys_ok s : Prop := {
  so_procs : Process.process_ok (k_procs s);
  so_fds : VfsSimple.vfs_ok (k_fds s);
  so_net : Network.packets_ok (k_net s);
  so_sec : Security.security_ok (k_sec s);
  so_log : ∃ h, Monitor.log_ok h (k_mon s);
  so_vga : ∃ t, Vga.shows t (k_vga s);
  so_kbd : Keyboard.kb_ok (k_kbd s);
  so_devs : drivers_ok (k_devs s);
  so_drv : drv_inv (k_drv s);
}.

(** Kept from the state [c] at the start: the components are well formed, the
    security state is that of a caller who is not root, and statistics that
    were initialised stay so. *)
Definition inv (c s : sys D W) : Prop :=
  sys_ok s ∧ (Security.is_root (k_sec c) = false → k_sec s = k_sec c) ∧ (Monitor.stats_ok (k_mon c) → Monitor.stats_ok (k_mon s)).

(** ** Reasoning about computations *)
Definition wp {A} (m : sysM (D := D) (W := W) A) (Q : A → sys D W → Prop) s : Prop :=
  ∃ a s', m s = Some (a, s') ∧ Q a s'.

Lemma wp_ret {A} (a : A) Q s : Q a s → wp (ret a) Q s.
Proof. intros HQ. by exists a, s. Qed.

Lemma wp_bind {A B} (m : sysM A) (f : A → sysM B) Q s : wp m (λ a s', wp (f a) Q s') s → wp (bind m f) Q s.
Proof. intros (a & s1 & E & b & s2 & E2 & HQ). exists b, s2. unfold bind. rewrite E. done. Qed.

Lemma wp_on {A C} (l : lens (sys D W) C) (f : C → option (A * C)) a c Q s :
  f (get l s) = Some (a, c) → Q a (put l c s) → wp (on l f) Q s.
Proof. intros E HQ. exists a, (put l c s). unfold on. by rewrite E. Qed.

Lemma wp_read {C} (l : lens (sys D W) C) Q s : Q (get l s) s → wp (read l) Q s.
Proof. intros HQ. by eexists _, _. Qed.

Lemma wp_lift {A} (o : option A) a Q s : o = Some a → Q a s → wp (lift o) Q s.
Proof. intros -> HQ. by exists a, s. Qed.

Lemma wp_mono {A} (m : sysM A) (P Q : A → sys D W → Prop) s : wp m P s → (∀ a s', P a s' → Q a s') → wp m Q s.
Proof. intros (a & s' & E & HP) HPQ. exists a, s'. auto. Qed.

(** Returning a value after a step that keeps the invariant *)
Lemma wp_then {A B} (m : sysM A) (g : A → B) c s :
  wp m (λ _, inv c) s → wp (bind m (λ a, ret (g a))) (λ _, inv c) s.
Proof. intros Hm. apply wp_bind. eapply wp_mono; [exact Hm|]. intros a s' Hs'. by apply wp_ret. Qed.

(** ** Updating one component *)
Section updates.
Context c s (Hinv : inv c s).

Lemma inv_procs p : Process.process_ok p → inv c (put procs p s).
Proof. destruct Hinv as [[] []]. intros. split; [by split|done]. Qed.
Lemma inv_fds f : VfsSimple.vfs_ok f → inv c (put fds f s).
Proof. destruct Hinv as [[] []]. intros. split; [by split|done]. Qed.
Lemma inv_netw n : Network.packets_ok n → inv c (put netw n s).
Proof. destruct Hinv as [[] []]. intros. split; [by split|done]. Qed.
Lemma inv_moni m h : Monitor.log_ok h m → (Monitor.stats_ok (k_mon s) → Monitor.stats_ok m) → inv c (put moni m s).
Proof. destruct Hinv as [[] []]. intros Hl Hst. split; [|split; cbn; auto]. split; try done. by exists h. Qed.
Lemma inv_kbd k : Keyboard.kb_ok k → inv c (put kbd k s).
Proof. destruct Hinv as [[] []]. intros. split; [by split|done]. Qed.
Lemma inv_console v w t : Vga.shows t v → inv c (put console (v, w) s).
Proof. destruct Hinv as [[] []]. intros Hv. split; [|done]. split; try done. by exists t. Qed.
Lemma inv_secu sec : Security.security_ok sec → (Security.is_root (k_sec c) = false → sec = k_sec c) → inv c (put secu sec s).
Proof. destruct Hinv as [[] []]. intros. split; [by split|done]. Qed.
Lemma inv_drv d : drv_inv d → inv c (put drv d s).
Proof. destruct Hinv as [[] []]. intros. split; [by split|done]. Qed.
Lemma inv_umem m : inv c (put umem m s).
Proof. destruct Hinv as [[] []]. intros. split; [by split|done]. Qed.
End updates.

(** ** Memory of the caller *)
Definition user_string (p : Z) s : Prop := p ≠ 0 ∧ is_Some (cstr (drop (Z.to_nat p) (k_mem s))).
Definition user_bytes (p n : Z) s : Prop := 0 < p ∧ p + n <= zlen (k_mem s).

Lemma wp_deref p Q s : p ≠ 0 → Q (drop (Z.to_nat p) (k_mem s)) s → wp (deref p) Q s.
Proof. intros Hp HQ. unfold deref. destruct (Z.eqb_spec p 0); [done|]. apply wp_bind, wp_read, wp_ret, HQ. Qed.

Lemma wp_ptr p Q s :
  Q (if p =? 0 then None else Some (drop (Z.to_nat p) (k_mem s))) s → wp (ptr p) Q s.
Proof. intros HQ. unfold ptr. destruct (p =? 0); [by apply wp_ret|]. apply wp_bind, wp_read, wp_ret, HQ. Qed.

Lemma wp_copy_to_user p b c s :
  user_bytes p (zlen b) s → inv c s → wp (copy_to_user p b) (λ _, inv c) s.
Proof.
  intros [Hp Hlen] Hs. unfold copy_to_user. apply wp_bind, wp_deref; [lia|].
  apply wp_bind. eapply wp_lift.
  { apply memcpy_spec; [|done]. unfold zlen in Hlen. rewrite length_drop. lia. }
  eapply wp_on; [reflexivity|]. by apply inv_umem.
Qed.

(** ** The calls *)
Section calls.
Context (c : sys D W).
Definition keeps {A} (m : sysM A) s : Prop := wp m (λ _, inv c) s.

Lemma keeps_schedule s : inv c s → keeps sys_yield s.
Proof.
  intros Hs. apply wp_then. destruct (Process.schedule_ok (k_procs s)) as (sw & p & E & Hp); [apply Hs|].
  eapply wp_on; [cbn [get procs]; rewrite E; reflexivity|]. by apply inv_procs.
Qed.

Lemma keeps_exit status s : inv c s → keeps (sys_exit status) s.
Proof.
  intros Hs. apply wp_then. destruct (Process.process_exit_ok status (k_procs s)) as (sw & p & E & Hp); [apply Hs|].
  eapply wp_on; [cbn [get procs]; rewrite E; reflexivity|]. by apply inv_procs.
Qed.

Lemma keeps_getpid s : inv c s → keeps sys_getpid s.
Proof.
  intros Hs. apply wp_bind, wp_read. cbn [get procs]. pose proof Hs as [Hok _]. pose proof (so_procs s Hok) as [Hl Hn Hcur Hp _].
  unfold Process.process_get_current. rewrite Hp.
  destruct (lookup_lt_is_Some_2 (Process.processes (k_procs s)) (Z.to_nat (Process.current_process (k_procs s)))) as [q Hq].
  { rewrite Hl. lia. }
  apply wp_bind. eapply wp_lift; [exact Hq|]. by apply wp_ret.
Qed.

Lemma keeps_open filename mode s : inv c s → keeps (sys_open filename mode) s.
Proof.
  intros Hs. apply wp_then. destruct (VfsSimple.fd_step_refines VfsSimple.Open (k_fds s)) as (f & E & Hf & _); [apply Hs|done|].
  eapply wp_on; [exact E|]. by apply inv_fds.
Qed.
Lemma keeps_close fd s : inv c s → keeps (sys_close fd) s.
Proof.
  intros Hs. apply wp_then.
  destruct (VfsSimple.fd_step_refines (VfsSimple.Close (s32 fd)) (k_fds s)) as (f & E & Hf & _); [apply Hs|done|].
  eapply wp_on; [exact E|]. by apply inv_fds.
Qed.
Lemma keeps_seek fd position s : 0 <= position < 4294967296 → inv c s → keeps (sys_seek fd position) s.
Proof.
  intros Hp Hs. apply wp_then.
  destruct (VfsSimple.fd_step_refines (VfsSimple.Seek fd position) (k_fds s)) as (f & E & Hf & _); [apply Hs|done|].
  eapply wp_on; [exact E|]. by apply inv_fds.
Qed.

Lemma keeps_network_send dst type data len s :
  data = 0 ∨ user_bytes data len s → inv c s → keeps (sys_network_send dst type data len) s.
Proof.
  intros Hd Hs. apply wp_bind, wp_ptr, wp_then.
  destruct (Network.network_send_ok dst type (if data =? 0 then None else Some (drop (Z.to_nat data) (k_mem s))) len (k_net s))
    as (r & n & E & Hn); [apply Hs| |].
  - intros b Hb. destruct (Z.eqb_spec data 0); [done|]. injection Hb as <-. destruct Hd as [|[Hp Hl]]; [done|].
    unfold zlen in *. rewrite length_drop. lia.
  - eapply wp_on; [exact E|]. by apply inv_netw.
Qed.

Lemma keeps_network_receive buffer s :
  buffer = 0 ∨ (∀ p, user_bytes buffer (zlen (packet_bytes p)) s) → inv c s →
  keeps (sys_network_receive packet_bytes buffer) s.
Proof.
  intros Hb Hs. apply wp_bind. destruct (Z.eqb_spec buffer 0) as [->|Hne].
  - eapply wp_on.
    { cbn [get netw Z.eqb negb]. unfold Network.network_receive_packet. cbn [negb]. rewrite orb_true_r. reflexivity. }
    cbn [fst snd]. apply wp_ret. apply inv_netw; [done|apply Hs].
  - destruct Hb as [|Hb]; [done|]. cbn [negb].
    destruct (Network.network_receive_spec (k_net s)) as (r & p & n & E & Hn & _); [apply Hs|].
    eapply wp_on; [cbn [get netw]; rewrite E; reflexivity|]. cbn [fst snd].
    destruct p as [p|]; [|apply wp_ret; by apply inv_netw]. apply wp_then, wp_copy_to_user; [apply Hb|by apply inv_netw].
Qed.

Lemma keeps_context_field field s : inv c s → wp (context_field field) (λ _ s', s' = s) s.
Proof. intros Hs. apply wp_bind, wp_read. unfold Security.security_get_context. cbn. by apply wp_ret. Qed.

Lemma keeps_set_context uid gid s :
  inv c s → keeps (on secu (λ x, Some (Security.security_set_context uid gid x))) s.
Proof.
  intros Hs. pose proof Hs as (Hok & Hc & _). destruct (Security.set_context_ok uid gid (k_sec s) (so_sec s Hok)) as [Hsec Hnon].
  destruct (Security.security_set_context uid gid (k_sec s)) as [r x] eqn:E. cbn [snd] in *.
  eapply wp_on; [cbn [get secu]; rewrite E; reflexivity|]. apply inv_secu; [done|done|].
  intros Hr. rewrite <- (Hc Hr). apply Hnon. by rewrite (Hc Hr).
Qed.

Lemma keeps_setuid uid s : inv c s → keeps (sys_setuid uid) s.
Proof.
  intros Hs. apply wp_bind. eapply wp_mono; [by apply keeps_context_field|]. intros gid s' ->. apply wp_then.
  by apply keeps_set_context.
Qed.
Lemma keeps_setgid gid s : inv c s → keeps (sys_setgid gid) s.
Proof.
  intros Hs. apply wp_bind. eapply wp_mono; [by apply keeps_context_field|]. intros uid s' ->. apply wp_then.
  by apply keeps_set_context.
Qed.

Lemma keeps_set_permission p uid gid mode s :
  p = 0 ∨ user_string p s → inv c s →
  keeps (on secu (Security.security_set_permission (if p =? 0 then None else Some (drop (Z.to_nat p) (k_mem s))) uid gid mode)) s.
Proof.
  intros Hp Hs. pose proof Hs as (Hok & Hc & _).
  destruct (Security.set_permission_ok (if p =? 0 then None else Some (drop (Z.to_nat p) (k_mem s))) uid gid mode (k_sec s))
    as (r & x & E & Hx & Hnon); [apply Hok| |].
  - intros b Hb. destruct (Z.eqb_spec p 0); [done|]. injection Hb as <-. by destruct Hp as [|[_ Hstr]].
  - eapply wp_on; [exact E|]. apply inv_secu; [done|done|]. intros Hr. rewrite <- (Hc Hr). apply Hnon. by rewrite (Hc Hr).
Qed.

Lemma keeps_chmod path mode s : path = 0 ∨ user_string path s → inv c s → keeps (sys_chmod path mode) s.
Proof.
  intros Hp Hs. apply wp_bind, wp_ptr, wp_bind. eapply wp_mono; [by apply keeps_context_field|]. intros uid s' ->.
  apply wp_bind. eapply wp_mono; [by apply keeps_context_field|]. intros gid s' ->. by apply wp_then, keeps_set_permission.
Qed.
Lemma keeps_chown path uid gid s : path = 0 ∨ user_string path s → inv c s → keeps (sys_chown path uid gid) s.
Proof. intros Hp Hs. by apply wp_bind, wp_ptr, wp_then, keeps_set_permission. Qed.

Lemma keeps_log level message s : message = 0 ∨ user_string message s → inv c s → keeps (sys_log level message) s.
Proof.
  intros Hm Hs. apply wp_bind, wp_ptr, wp_then. pose proof Hs as [Hok _]. destruct (so_log s Hok) as [h Hh].
  destruct (Z.eqb_spec message 0) as [->|Hne].
  - eapply wp_on; [reflexivity|]. by eapply inv_moni.
  - destruct Hm as [|[_ [n Hn]]]; [done|].
    destruct (Monitor.monitor_log_ok h level LOG_SOURCE_PROCESS _ n (k_mon s) Hh Hn) as (m & E & _ & Hst & _ & Hm).
    eapply wp_on; [cbn [get moni]; rewrite E; reflexivity|]. eapply inv_moni; [done|exact Hm|].
    intros [H1 H2]. split; rewrite Hst; [exact H1|exact H2].
Qed.

(** Statistics of either kind, copied when there is a buffer. *)
Lemma keeps_update_stats s :
  Monitor.stats_ok (k_mon s) → inv c s → ∃ m, Monitor.monitor_update_stats (k_mon s) = Some m ∧ inv c (put moni m s).
Proof.
  intros Hmon Hs. pose proof Hs as [Hok _]. destruct (so_log s Hok) as [h Hh].
  destruct (Monitor.update_stats_ok (k_mon s) Hmon) as (m & E & Hst & _). exists m. split; [done|].
  eapply inv_moni; [done| |done]. by eapply Monitor.update_stats_log.
Qed.

Lemma keeps_get_stats type buffer s :
  (type = 0 → buffer = 0 ∨ Monitor.stats_ok (k_mon s) ∧ ∀ st, user_bytes buffer (zlen (stats_bytes st)) s) →
  (type = 1 → buffer = 0 ∨ Monitor.stats_ok (k_mon s) ∧ ∀ pm, user_bytes buffer (zlen (metrics_bytes pm)) s) →
  inv c s → keeps (sys_get_stats stats_bytes metrics_bytes type buffer) s.
Proof.
  intros H0 H1 Hs. unfold sys_get_stats.
  destruct (Z.eqb_spec type 0) as [Ht|_]; [specialize (H0 Ht)|destruct (Z.eqb_spec type 1) as [Ht|_]; [specialize (H1 Ht)|by apply wp_ret]].
  - apply wp_bind. destruct (Z.eqb_spec buffer 0) as [Hb|Hb].
    + eapply wp_on; [reflexivity|]. apply wp_ret. cbn. by destruct s.
    + destruct H0 as [|[Hst H0]]; [done|]. destruct (keeps_update_stats s Hst Hs) as (m & E & Hm).
      eapply wp_on; [cbn [get moni negb]; unfold Monitor.monitor_get_system_stats; cbn [negb]; rewrite E; reflexivity|].
      cbn [fst snd]. apply wp_then, wp_copy_to_user; [apply H0|done].
  - apply wp_bind. destruct (Z.eqb_spec buffer 0) as [Hb|Hb].
    + eapply wp_on; [reflexivity|]. apply wp_ret. cbn. by destruct s.
    + destruct H1 as [|[Hst H1]]; [done|]. destruct (keeps_update_stats s Hst Hs) as (m & E & Hm).
      eapply wp_on; [cbn [get moni negb]; unfold Monitor.monitor_get_performance_metrics; cbn [negb]; rewrite E; reflexivity|].
      cbn [fst snd]. apply wp_then, wp_copy_to_user; [apply H1|done].
Qed.

(** ** Output *)
Lemma serial_bytes_ok n b (w : W) : (n ≤ length b)%nat → is_Some (serial_bytes n b w).
Proof.
  revert b w. induction n as [|n IH]; intros b w Hn; [by eexists|]. destruct b as [|x b]; cbn in Hn; [lia|].
  cbn [serial_bytes]. apply IH. lia.
Qed.

Lemma keeps_write_out b count s :
  is_Some (cstr b) → count <= zlen b → inv c s → keeps (write_out b count) s.
Proof.
  intros Hb Hlen Hs. pose proof Hs as [Hok _]. destruct (so_vga s Hok) as [t Ht].
  destruct (Vga.print_shows b t (k_vga s) (k_hw s) Hb Ht) as (v & w & E & Hv & _).
  destruct (serial_bytes_ok (Z.to_nat count) b w) as [w' Ew]; [unfold zlen in Hlen; lia|].
  eapply wp_on; [cbn [get console]; rewrite E; cbn [mbind option_bind]; rewrite Ew; reflexivity|]. by eapply inv_console.
Qed.

Lemma keeps_write fd buf count s :
  (fd = 1 → user_string buf s ∧ user_bytes buf count s) → inv c s → keeps (sys_write fd buf count) s.
Proof.
  intros Ha Hs. unfold sys_write. destruct (Z.eqb_spec fd 1) as [Hfd|]; [|by apply wp_ret].
  destruct (Ha Hfd) as [[Hne Hstr] [Hp Hl]]. apply wp_bind, wp_deref; [done|]. apply wp_then, keeps_write_out; [done| |done].
  unfold zlen in *. rewrite length_drop. lia.
Qed.

(** A dump of the log never ends: its first line is written with a system call. *)
Lemma dump_logs_never_returns s : sys_dump_logs s = None.
Proof.
  unfold sys_dump_logs, bind, read, lift. cbn [mbind option_bind]. unfold Monitor.monitor_dump_logs.
  by destruct (Monitor.dump_lines _ _ _).
Qed.

(** ** Input: with enough keys waiting, nothing is polled in vain *)
Lemma keeps_read_chars patience n buf i s :
  0 < buf → 0 <= i → (0 < patience)%nat → (n ≤ length (Keyboard.pending (k_kbd s)))%nat →
  buf + i + Z.of_nat n <= zlen (k_mem s) → inv c s → keeps (read_chars patience n buf i) s.
Proof.
  intros Hb. revert i s. induction n as [|n IH]; intros i s Hi Hp Hn Hl Hs; [by apply wp_ret|].
  pose proof Hs as [Hok _]. destruct (Keyboard.keyboard_getchar_ok (k_kbd s) (so_kbd s Hok)) as (k & E & Hk & _ & Hpend).
  pose proof (Keyboard.ok_chars _ (so_kbd s Hok)) as Hnz.
  destruct (Keyboard.pending (k_kbd s)) as [|x l] eqn:El; [cbn in Hn; lia|]. apply Forall_cons in Hnz as [Hx _].
  destruct patience as [|patience]; [lia|]. cbn [read_chars read_char]. apply wp_bind, wp_bind.
  eapply wp_on; [exact E|]. cbn [default from_option id head]. destruct (Z.eqb_spec x 0); [done|]. cbn [negb].
  apply wp_ret, wp_bind. destruct (Z.eqb_spec buf 0); [lia|].
  eapply wp_on; [cbn [get umem put kbd k_mem]; rewrite zset_in by lia; reflexivity|].
  apply IH; [lia|lia| | |by apply inv_umem, inv_kbd]; cbn [put umem kbd k_kbd k_mem].
  - rewrite Hpend. cbn in Hn |- *. lia.
  - unfold zlen in *. rewrite length_insert. lia.
Qed.

Lemma keeps_read patience fd buf count s :
  (fd = 0 → (0 < patience)%nat ∧ user_bytes buf count s ∧ count <= zlen (Keyboard.pending (k_kbd s))) →
  inv c s → keeps (sys_read patience fd buf count) s.
Proof.
  intros Ha Hs. unfold sys_read. destruct (Z.eqb_spec fd 0) as [Hfd|]; [|by apply wp_ret].
  destruct (Ha Hfd) as (Hp & [Hb Hl] & Hc). apply wp_then. unfold zlen in *.
  destruct (Z.leb_spec 0 count).
  - apply keeps_read_chars; try done; unfold zlen; lia.
  - replace (Z.to_nat count) with 0%nat by lia. by apply wp_ret.
Qed.

(** ** Device calls, against the contract of the drivers *)

(** The device [name] can make a transfer of [size] bytes. *)
Definition device_fits (name size : Z) s : Prop :=
  ∀ d ops, Device.device_find (drop (Z.to_nat name) (k_mem s)) (k_devs s) = Some (Some d) →
    Device.dev_ops d = Some ops → drv_fits ops size (k_drv s).
(** A word of the caller *)
Definition user_word (p : Z) s : Prop := user_bytes p 4 s ∧ ∃ v, load32 (k_mem s) p = Some v ∧ 0 <= v < 4294967296.

Lemma wp_look {A} (f : sys D W → A) Q s : Q (f s) s → wp (λ s, Some (f s, s)) Q s.
Proof. intros HQ. by eexists _, _. Qed.

(** The function the registry finds for a name, and its contract *)
Lemma found_driver {F} (op : Device.device_ops (D := D) → option F) name s :
  user_string name s → inv c s →
  ∃ f, Device.device_op op (drop (Z.to_nat name) (k_mem s)) (k_devs s) = Some f ∧
    ∀ g, f = Some g → ∃ ops, Device.Driver drv_inv (drv_fits ops) ops ∧ op ops = Some g ∧
      ∀ size, device_fits name size s → drv_fits ops size (k_drv s).
Proof.
  intros [_ [n Hn]] [Hok _]. destruct (so_devs s Hok) as (es & Hrep & Hd).
  destruct (Device.device_op_ok op _ es _ n Hrep Hn) as (f & E & Hf). exists f. split; [exact E|]. intros g Hg.
  destruct (Hf g Hg) as (d & e & ops & Efind & He & Ed & Ee & Eop). exists ops. split; [by eapply Hd|]. split; [done|].
  intros size Hs. by eapply Hs.
Qed.

Lemma covers_user p n s :
  0 <= n → p = 0 ∨ user_bytes p n s → Device.covers (if p =? 0 then None else Some (drop (Z.to_nat p) (k_mem s))) n.
Proof.
  intros Hn Hp. split; [done|]. intros b. destruct (Z.eqb_spec p 0); [done|]. intros [= <-]. destruct Hp as [|[Hp Hl]]; [done|].
  unfold zlen in *. rewrite length_drop. lia.
Qed.

(** [open] and [close] *)
Lemma keeps_device_call (op : Device.device_ops (D := D) → option (D → option (Z * D))) name s :
  (∀ ops f w, Device.Driver drv_inv (drv_fits ops) ops → op ops = Some f → drv_inv w →
    ∃ r w', f w = Some (r, w') ∧ drv_inv w') →
  user_string name s → inv c s →
  keeps (bind (deref name) (λ nm, bind (λ s, Some (k_devs s, s)) (λ devs,
    bind (on drv (λ w, f ← Device.device_op op nm devs; match f with Some g => g w | None => Some (-1, w) end))
      (λ r, ret (u32 r))))) s.
Proof.
  intros Hop Hname Hs. apply wp_bind, wp_deref; [by destruct Hname|]. apply wp_bind, wp_look, wp_then.
  destruct (found_driver op name s Hname Hs) as (f & E & Hf). pose proof Hs as [Hok _]. destruct f as [g|].
  - destruct (Hf g eq_refl) as (ops & Hdr & Eop & _). destruct (Hop ops g (k_drv s) Hdr Eop (so_drv s Hok)) as (r & w & Eg & Hw).
    eapply wp_on; [cbn [get drv]; rewrite E; exact Eg|]. by apply inv_drv.
  - eapply wp_on; [cbn [get drv]; rewrite E; reflexivity|]. apply inv_drv; [done|apply Hok].
Qed.

Lemma keeps_device_open name s : user_string name s → inv c s → keeps (sys_device_open name) s.
Proof. apply (keeps_device_call Device.op_open). intros ops f w Hd. apply Hd. Qed.
Lemma keeps_device_close name s : user_string name s → inv c s → keeps (sys_device_close name) s.
Proof. apply (keeps_device_call Device.op_close). intros ops f w Hd. apply Hd. Qed.

Lemma keeps_device_write name buffer size s :
  user_string name s → device_fits name size s → 0 <= size → buffer = 0 ∨ user_bytes buffer size s → inv c s →
  keeps (sys_device_write name buffer size) s.
Proof.
  intros Hname Hfit Hsize Hb Hs. apply wp_bind, wp_deref; [by destruct Hname|]. apply wp_bind, wp_ptr, wp_bind, wp_look, wp_then.
  destruct (found_driver Device.op_write name s Hname Hs) as (f & E & Hf). pose proof Hs as [Hok _].
  pose proof (covers_user buffer size s Hsize Hb) as Hc. destruct f as [g|].
  - destruct (Hf g eq_refl) as (ops & Hdr & Eop & Hfits).
    destruct (Device.driver_write g _ size (k_drv s) Eop (so_drv s Hok) (Hfits size Hfit) Hc) as (r & w & Eg & Hw).
    eapply wp_on; [cbn [get drv]; unfold Device.device_write; rewrite E; exact Eg|]. by apply inv_drv.
  - eapply wp_on; [cbn [get drv]; unfold Device.device_write; rewrite E; reflexivity|]. apply inv_drv; [done|apply Hok].
Qed.

Lemma wp_store p b s : inv c s → wp (store p b) (λ _, inv c) s.
Proof. intros Hs. eapply wp_on; [reflexivity|]. by apply inv_umem. Qed.

Lemma keeps_device_read name buffer size s :
  user_string name s → device_fits name size s → 0 <= size → buffer = 0 ∨ user_bytes buffer size s → inv c s →
  keeps (sys_device_read name buffer size) s.
Proof.
  intros Hname Hfit Hsize Hb Hs. apply wp_bind, wp_deref; [by destruct Hname|]. apply wp_bind, wp_ptr, wp_bind, wp_look, wp_bind.
  destruct (found_driver Device.op_read name s Hname Hs) as (f & E & Hf). pose proof Hs as [Hok _].
  pose proof (covers_user buffer size s Hsize Hb) as Hc.
  assert (∀ r b w, drv_inv w → wp (match snd (r, b) with Some b => bind (store buffer b) (λ _, ret (u32 (fst (r, b)))) | None => ret (u32 (fst (r, b))) end)
    (λ _, inv c) (put drv w s)) as Hend.
  { intros r b w Hw. pose proof (inv_drv c s Hs w Hw). destruct b; cbn [snd]; [by apply wp_then, wp_store|by apply wp_ret]. }
  destruct f as [g|].
  - destruct (Hf g eq_refl) as (ops & Hdr & Eop & Hfits).
    destruct (Device.driver_read g _ size (k_drv s) Eop (so_drv s Hok) (Hfits size Hfit) Hc) as (r & b & w & Eg & Hw).
    eapply wp_on; [cbn [get drv]; unfold Device.device_read; rewrite E; cbn [mbind option_bind]; rewrite Eg; reflexivity|]. by apply Hend.
  - eapply wp_on; [cbn [get drv]; unfold Device.device_read; rewrite E; reflexivity|]. apply Hend, Hok.
Qed.

Lemma keeps_device_ioctl name cmd arg s :
  user_string name s → arg = 0 ∨ user_word arg s → inv c s → keeps (sys_device_ioctl name cmd arg) s.
Proof.
  intros Hname Ha Hs. apply wp_bind, wp_deref; [by destruct Hname|]. apply wp_bind, wp_look, wp_bind, wp_read, wp_bind.
  assert (∃ v, wp (if arg =? 0 then ret None else bind (lift (load32 (k_mem s) arg)) (λ v, ret (Some v))) (λ a s', a = v ∧ s' = s) s ∧
    Device.word_arg v ∧ (is_Some v → user_bytes arg 4 s)) as (v & Hv & Hword & Hbytes).
  { destruct (Z.eqb_spec arg 0); [exists None; split; [by apply wp_ret|by split; [|intros []]]|].
    destruct Ha as [|[Hu (v & Ev & Hv)]]; [done|]. exists (Some v). split; [|by split; [intros ? [= <-]|]].
    apply wp_bind. eapply wp_lift; [exact Ev|]. by apply wp_ret. }
  eapply wp_mono; [exact Hv|]. intros a s' [-> ->]. apply wp_bind.
  destruct (found_driver Device.op_ioctl name s Hname Hs) as (f & E & Hf). pose proof Hs as [Hok _].
  assert (∀ r v' w, drv_inv w → (is_Some v' → is_Some v) →
    wp (match snd (r, v') with Some v => if arg =? 0 then undefined else bind (copy_to_user arg (bytes32 v)) (λ _, ret (u32 (fst (r, v'))))
        | None => ret (u32 (fst (r, v'))) end) (λ _, inv c) (put drv w s)) as Hend.
  { intros r v' w Hw Hv'. pose proof (inv_drv c s Hs w Hw). destruct v' as [x|]; cbn [snd]; [|by apply wp_ret].
    specialize (Hbytes (Hv' ltac:(by eexists))). destruct (Z.eqb_spec arg 0) as [->|]; [by destruct Hbytes|].
    by apply wp_then, wp_copy_to_user. }
  destruct f as [g|].
  - destruct (Hf g eq_refl) as (ops & Hdr & Eop & _).
    destruct (Device.driver_ioctl g cmd v (k_drv s) Eop (so_drv s Hok) Hword) as (r & v' & w & Eg & Hw & Hv').
    eapply wp_on; [cbn [get drv]; unfold Device.device_ioctl; rewrite E; cbn [mbind option_bind]; rewrite Eg; reflexivity|]. by apply Hend.
  - eapply wp_on; [cbn [get drv]; unfold Device.device_ioctl; rewrite E; reflexivity|]. apply Hend; [apply Hok|done].
Qed.

(** ** Every entry of the table *)

(** Arguments call [n] can be made with in state [s]: the pointers it follows
    point to strings or to enough bytes, the statistics it asks for have been
    initialised, the transfer fits the device found, and for a read from the
    keyboard the keys have been typed.  No argument is valid for the dump of
    the log. *)
Definition valid_call (patience : nat) (n a b c' d : Z) s : Prop :=
  if n =? 2 then a = 1 → user_string b s ∧ user_bytes b c' s
  else if n =? 3 then a = 0 → (0 < patience)%nat ∧ user_bytes b c' s ∧ c' <= zlen (Keyboard.pending (k_kbd s))
  else if n =? 12 then b = 0 ∨ user_string b s
  else if n =? 13 then
    (a = 0 → b = 0 ∨ Monitor.stats_ok (k_mon s) ∧ ∀ st, user_bytes b (zlen (stats_bytes st)) s) ∧
    (a = 1 → b = 0 ∨ Monitor.stats_ok (k_mon s) ∧ ∀ pm, user_bytes b (zlen (metrics_bytes pm)) s)
  else if n =? 17 then 0 <= b < 4294967296
  else if n =? 19 then c' = 0 ∨ user_bytes c' (u16 d) s
  else if n =? 20 then a = 0 ∨ ∀ p, user_bytes a (zlen (packet_bytes p)) s
  else if (n =? 21) || (n =? 22) then user_string a s
  else if (n =? 23) || (n =? 24) then
    user_string a s ∧ device_fits a c' s ∧ 0 <= c' ∧ (b = 0 ∨ user_bytes b c' s)
  else if n =? 25 then user_string a s ∧ (c' = 0 ∨ user_word c' s)
  else if (n =? 30) || (n =? 31) then a = 0 ∨ user_string a s
  else if n =? 32 then False
  else True.

Lemma table_keeps patience (n : nat) f x y z t s :
  syscall_table packet_bytes stats_bytes metrics_bytes patience !! n = Some (Some f) →
  valid_call patience (Z.of_nat n) x y z t s → inv c s → keeps (f x y z t) s.
Proof.
  intros Hf Hv Hs.
  do 36 try (destruct n as [|n]; [cbn in Hf; first [discriminate Hf | injection Hf as <-]; unfold valid_call in Hv; cbn in Hv|]);
    [..|discriminate Hf].
  all: try by apply wp_ret.
  - by apply keeps_exit.
  - by apply keeps_write.
  - by apply keeps_read.
  - by apply keeps_open.
  - by apply keeps_close.
  - by apply keeps_getpid.
  - by apply keeps_schedule.
  - by apply keeps_log.
  - destruct Hv. by apply keeps_get_stats.
  - by apply keeps_getpid.
  - by apply keeps_seek.
  - by apply keeps_network_send.
  - by apply keeps_network_receive.
  - by apply keeps_device_open.
  - by apply keeps_device_close.
  - destruct Hv as (? & ? & ? & ?). by apply keeps_device_read.
  - destruct Hv as (? & ? & ? & ?). by apply keeps_device_write.
  - destruct Hv. by apply keeps_device_ioctl.
  - by apply keeps_setuid.
  - by apply keeps_setgid.
  - by apply keeps_chmod.
  - by apply keeps_chown.
  - done.
Qed.

Lemma handler_keeps patience r s :
  valid_call patience (Idt.eax r) (Idt.ebx r) (Idt.ecx r) (Idt.edx r) (Idt.esi r) s → inv c s →
  keeps (syscall_interrupt_handler packet_bytes stats_bytes metrics_bytes patience r) s.
Proof.
  intros Hv Hs. unfold syscall_interrupt_handler.
  set (T := syscall_table packet_bytes stats_bytes metrics_bytes patience) in *.
  destruct (if _ <? _ then _ else _) as [[f|]|] eqn:E; [|by apply wp_ret..].
  destruct (Idt.eax r <? zlen T); [|discriminate E]. pose proof (zget_range _ _ _ E) as [Hn _].
  apply wp_then. apply (table_keeps patience (Z.to_nat (Idt.eax r))); [|by rewrite Z2Nat.id|done].
  by rewrite <- zget_nat, Z2Nat.id.
Qed.

End calls.

(** ** Sequences of system calls *)

Definition valid_regs (patience : nat) (r : Idt.regs) s : Prop :=
  valid_call patience (Idt.eax r) (Idt.ebx r) (Idt.ecx r) (Idt.edx r) (Idt.esi r) s.
Definition kernel_step (patience : nat) s s' : Prop :=
  ∃ r r', valid_regs patience r s ∧
    syscall_interrupt_handler packet_bytes stats_bytes metrics_bytes patience r s = Some (r', s').

Lemma inv_refl s : sys_ok s → inv s s.
Proof. done. Qed.

Lemma steps_keep patience c s s' : inv c s → rtc (kernel_step patience) s s' → inv c s'.
Proof.
  intros H0 Hs. induction Hs as [|s1 s2 s3 (r & r' & Hv & E) _ IH]; [done|]. apply IH.
  destruct (handler_keeps c patience r s1 Hv H0) as (r2 & s2' & E2 & Hinv). by simplify_eq.
Qed.


(** The numbers that have a handler *)
Definition registered (n : Z) : bool := ((1 <=? n) && (n <=? 7)) || ((12 <=? n) && (n <=? 35)).

(** The dispatch of a system call: a number from 1 to 7 or 12 to 35 runs
    its wrapper on ebx, ecx, edx and esi and puts the result into eax; any
    other number (also 8 to 11, which have names but no handler) puts -1 into
    eax and changes nothing else; the other registers are always returned as
    they came. *)
Theorem syscall_dispatch_total (patience : nat) (r : Idt.regs) (s : sys D W) :
  if registered (Idt.eax r) then
    ∃ f, (syscall_table packet_bytes stats_bytes metrics_bytes patience).[Idt.eax r] = Some (Some f) ∧
      syscall_interrupt_handler packet_bytes stats_bytes metrics_bytes patience r s =
        ('(v, s) ← f (Idt.ebx r) (Idt.ecx r) (Idt.edx r) (Idt.esi r) s; Some (set_eax v r, s))
  else syscall_interrupt_handler packet_bytes stats_bytes metrics_bytes patience r s = Some (set_eax SYS_ERROR r, s).
Proof.
  unfold syscall_interrupt_handler. set (T := syscall_table packet_bytes stats_bytes metrics_bytes patience).
  assert (∀ n : nat, (n < 36)%nat → match T !! n with Some (Some _) => registered (Z.of_nat n) = true
    | _ => registered (Z.of_nat n) = false end) as HT.
  { intros n Hn. do 36 try (destruct n as [|n]; [reflexivity|]). lia. }
  change (zlen T) with 36. destruct (Z.ltb_spec (Idt.eax r) 36) as [Hlt|Hge].
  - destruct (Z.leb_spec 0 (Idt.eax r)) as [Hpos|Hneg].
    + specialize (HT (Z.to_nat (Idt.eax r)) ltac:(lia)). rewrite Z2Nat.id in HT by lia.
      rewrite <- zget_nat, Z2Nat.id in HT by lia.
      destruct (T.[Idt.eax r]) as [[f|]|]; rewrite HT; [|done|done]. exists f. by split.
    + assert (registered (Idt.eax r) = false) as ->.
      { unfold registered. rewrite orb_false_iff, !andb_false_iff, !Z.leb_gt. lia. }
      unfold zget. by destruct (Z.ltb_spec (Idt.eax r) 0); [|lia].
  - assert (registered (Idt.eax r) = false) as ->; [|done].
    unfold registered. rewrite orb_false_iff, !andb_false_iff, !Z.leb_gt. lia.
Qed.

End kernel.

(** ** A running kernel

    The components after their initialisation, the screen cleared, user 5
    logged in, the character device registered. *)
Definition user_regs (n a b c d : Z) : Idt.regs :=
  {| Idt.gs := 0; Idt.fs := 0; Idt.es := 0; Idt.ds := 0; Idt.edi := 0; Idt.esi := d; Idt.ebp := 0; Idt.esp_dummy := 0;
     Idt.ebx := a; Idt.edx := c; Idt.ecx := b; Idt.eax := n; Idt.int_no := 0x80; Idt.err_code := 0;
     Idt.eip := 0; Idt.cs := 0; Idt.eflags := 0; Idt.useresp := 0; Idt.ss := 0 |}.

#[export] Instance char_drivers : Drivers CharDevice.char_device_t :=
  {| drv_inv := CharDevice.char_ok; drv_fits _ _ _ := True |}.

Lemma char0_ok devs : Device.devices_rep devs [CharDevice.char0] → drivers_ok devs.
Proof.
  intros Hrep. exists [CharDevice.char0]. split; [done|]. intros e ops ->%list_elem_of_singleton [= <-].
  exact CharDevice.char_driver.
Qed.

Lemma user_kernel (mem : list Z) :
  ∃ s0 : sys CharDevice.char_device_t machine, sys_ok s0 ∧ Security.is_root (k_sec s0) = false ∧ k_mem s0 = mem.
Proof.
  destruct Process.process_init_ok as (p & _ & Hp & _). destruct Security.security_init_ok as (c & _ & Hc & Hr).
  destruct (Security.as_user_ok c Hc Hr) as [Hu Hur].
  destruct (Monitor.monitor_init_ok Monitor.monitor_bss) as (m & _ & _ & Ht & Hf & _ & Hl).
  destruct (CharDevice.char_device_registered (λ _, replicate Device.NAME_SIZE 0) (λ _, eq_refl) Memory.Memory.memory_bss
    CharDevice.fresh_char) as (_ & d & _ & _ & Hd).
  exists {| k_procs := p; k_fds := VfsSimple.fds_after_open; k_net := Network.network_init; k_devs := d;
            k_drv := CharDevice.fresh_char; k_sec := Security.as_user c; k_mon := m;
            k_vga := {| Vga.cursor_x := 0; Vga.cursor_y := 0; Vga.current_color := 7;
                        Vga.screen := concat (replicate 25 (Vga.blank_line 7)) |};
            k_kbd := Keyboard.kb_bss; k_mem := mem; k_hw := constant_machine 0 |}.
  split; [|done]. split; cbn [k_procs k_fds k_net k_sec k_mon k_vga k_kbd k_devs k_drv]; try done.
  - exact VfsSimple.fds_after_open_ok.
  - apply Network.network_init_ok.
  - by eexists.
  - exists {| Vga.t_col := 0; Vga.t_row := 0; Vga.t_color := 7; Vga.t_lines := replicate 25 (Vga.blank_line 7) |}.
    split; try done. cbn [Vga.t_lines]. by apply Forall_replicate.
  - split; [done|cbn; unfold Keyboard.KB_BUFFER_SIZE; lia..|by constructor].
  - by apply char0_ok.
  - exact CharDevice.fresh_char_ok.
Qed.

Definition no_bytes {A} (a : A) : list Z := replicate 4 0.


End Kernel.
