(* ===== verification/Shell.v ===== *)
(** * Shell: the command line (kernel/shell.c) and the process list

    Keys come from the key buffer, then from the serial line; what is printed
    goes to the text screen.  The inner loop that waits for keys is unbounded
    in the code; [rounds] bounds the polls of the model.  [stack n] is what a
    local array of [n] bytes holds before it is written. *)
From S2P Require Import Prelude CString Ring Ports Vga Output Log Process Keyboard.
Import Vga Output Log Process.

Module Shell.

Definition SHELL_BUFFER_SIZE : Z := 256.
Definition VGA_COLOR_LIGHT_GREEN : Z := 10.
Definition VGA_COLOR_LIGHT_BLUE : Z := 9.

(** The fields of [shell_state] the shell uses, and [history.count] *)
Record shell_state_t := { username : list Z; hostname : list Z; cwd : list Z; history_count : Z }.

Section shell.
Context (stack : nat → list Z) {W : Type} `{Ports W}.

(** ** Printing *)
#[local] Abbreviation out := (Output.out W).
Definition shell_print (str : list Z) : out := λ '(v, w), vga_print str v w.
Definition proc_vga_print (str : list Z) : out := λ '(v, w), vga_print str v w.

(** [itoa] into a local array of [n] bytes, then [k] *)
Definition with_number (value : Z) (n : nat) (k : list Z → out) : out :=
  λ c, buf ← itoa (s32 value) (stack n) 10; k buf c.

Definition state_text (st : process_state_t) : list Z :=
  match st with
  | PROCESS_RUNNING => lit "RUN     "
  | PROCESS_READY => lit "READY   "
  | PROCESS_BLOCKED => lit "BLOCKED "
  | PROCESS_ZOMBIE => lit "ZOMBIE  "
  | PROCESS_EMPTY => lit "?       "
  end.

(** The body of the loop of [process_print_list] *)
Definition print_process (p : process_t) : out :=
  if bool_decide (pstate p = PROCESS_EMPTY) then Some
  else
    with_number (pid p) 8 (λ pid_str,
      proc_vga_print (lit "  ");; proc_vga_print pid_str;; proc_vga_print (lit "  ");;
      proc_vga_print (state_text (pstate p));;
      with_number (runtime p) 16 (λ runtime_str,
        proc_vga_print (lit "  ");; proc_vga_print runtime_str;; proc_vga_print (lit "  ");;
        with_number (priority p) 4 (λ priority_str,
          proc_vga_print (lit "  ");; proc_vga_print priority_str;; proc_vga_print (lit "      ");;
          proc_vga_print (pname p);; proc_vga_print (lit "
")))).

Definition process_print_list (s : process_system) : out :=
  proc_vga_print (lit "  PID  STATE     RUNTIME  PRIORITY  NAME
");;
  proc_vga_print (lit "  ---  --------  -------  --------  ----
");;
  for_loop (Z.to_nat (next_pid s)) 0 (λ i c, p ← (processes s).[i]; print_process p c).

(** ** Commands *)
Section execute.
Context (sh : shell_state_t) (procs : process_system) (ticks : Z).

Definition help_text : out :=
  shell_print (lit "Minimalist OS Shell Commands:
");;
  shell_print (lit "  help      - Show this help message
");;
  shell_print (lit "  clear     - Clear the screen
");;
  shell_print (lit "  ps        - List running processes
");;
  shell_print (lit "  whoami    - Show current user
");;
  shell_print (lit "  ver       - Show OS version
");;
  shell_print (lit "  uptime    - Show system uptime
");;
  shell_print (lit "  testcmd   - Run test command
").

(** [if (strcmp(command, name) == 0) ... else ...] *)
Definition when (command name : list Z) (yes no : out) : out :=
  λ c, b ← streq command name; if (b : bool) then yes c else no c.

Definition shell_execute_command (command : list Z) : out :=
  λ c, n ← strlen command;
  if n =? 0 then Some c
  else
    when command (lit "help") help_text
    (when command (lit "?") help_text
    (when command (lit "clear") (λ '(v, w), vga_clear v w)
    (when command (lit "ps")
       (shell_print (lit "Process List:
");; process_print_list procs;; shell_print (lit "
"))
    (when command (lit "whoami") (shell_print (username sh);; shell_print (lit "
"))
    (when command (lit "ver") (shell_print (lit "Minimalist OS v1.0
"))
    (when command (lit "uptime")
       (shell_print (lit "Uptime: ");; with_number ticks 32 (λ buf, shell_print buf;; shell_print (lit " ticks
")))
    (when command (lit "testcmd") (shell_print (lit "Test command executed!
"))
    (shell_print (lit "Unknown command: '");; shell_print command;; shell_print (lit "'
"))))))))) c.

(** ** Reading a line *)
Definition shell_serial_getchar (w : W) : Z * W :=
  let '(st, w) := inb (0x3F8 + 5) w in
  if negb (Z.land st 1 =? 0) then inb 0x3F8 w else (0, w).

(** [c = keyboard_getchar(); if (c == 0) c = shell_serial_getchar();] *)
Definition poll_key (k : Keyboard.kb_state) (w : W) : option (Z * Keyboard.kb_state * W) :=
  '(c, k) ← Keyboard.keyboard_getchar k;
  if c =? 0 then let '(c, w) := shell_serial_getchar w in Some (c, k, w) else Some (c, k, w).

(** A key that does not end the line, on the buffer and the position. *)
Definition edit_key (c : Z) (buf : list Z) (pos : Z) : vga_state * W → option (list Z * Z * (vga_state * W)) :=
  λ con,
  if (c =? 8) || (u8 c =? 0x7F) then
    if 0 <? pos then
      buf ← zset buf (pos - 1) 0;
      con ← shell_print [8; 0] con; Some (buf, pos - 1, con)
    else Some (buf, pos, con)
  else if pos <? SHELL_BUFFER_SIZE - 1 then
    buf ← zset buf pos c;
    con ← shell_print [c; 0] con; Some (buf, pos + 1, con)
  else Some (buf, pos, con).

(** [while (pos > 0 && buf[pos - 1] <= ' ') buf[--pos] = 0;] *)
Fixpoint trim (fuel : nat) (buf : list Z) (pos : Z) : option (list Z * Z) :=
  match fuel with
  | O => None
  | S n =>
      if 0 <? pos then
        c ← buf.[pos - 1];
        if s8 c <=? 32 then buf ← zset buf (pos - 1) 0; trim n buf (pos - 1) else Some (buf, pos)
      else Some (buf, pos)
  end.

(** The end of the line [c], newline or carriage return *)
Definition end_line (c : Z) (buf : list Z) (pos : Z) : out :=
  λ '(v, w),
  '(v, w) ← vga_putchar 10 v w;
  buf ← zset buf pos 0;
  '(buf, pos) ← trim 257 buf pos;
  '(v, w) ← (if 0 <? pos then shell_execute_command buf (v, w) else Some (v, w));
  Some (v, if c =? 13 then (shell_serial_getchar w).2 else w).

(** The inner [while (1)] *)
Fixpoint read_line (rounds : nat) (buf : list Z) (pos : Z) (k : Keyboard.kb_state) (con : vga_state * W)
    : option (Keyboard.kb_state * (vga_state * W)) :=
  match rounds with
  | O => None
  | S n =>
      '(c, k, w) ← poll_key k con.2;
      let con := (con.1, w) in
      if c =? 0 then read_line n buf pos k con
      else if (c =? 10) || (c =? 13) then con ← end_line c buf pos con; Some (k, con)
      else '(buf, pos, con) ← edit_key c buf pos con; read_line n buf pos k con
  end.

Definition set_color (fg bg : Z) : out := λ '(v, w), Some (vga_set_color fg bg v, w).

Definition prompt : out :=
  set_color VGA_COLOR_LIGHT_GREEN VGA_COLOR_BLACK;; shell_print (username sh);;
  (λ c, h ← (hostname sh).[0];
        if negb (h =? 0) then (shell_print (lit "@");; shell_print (hostname sh)) c else Some c);;
  set_color VGA_COLOR_LIGHT_GREY VGA_COLOR_BLACK;; shell_print (lit ":");;
  set_color VGA_COLOR_LIGHT_BLUE VGA_COLOR_BLACK;; shell_print (cwd sh);;
  set_color VGA_COLOR_LIGHT_GREY VGA_COLOR_BLACK;; shell_print (lit "$ ").

(** One turn of the outer [while (1)] of [shell_run] *)
Definition shell_turn (rounds : nat) (k : Keyboard.kb_state) (con : vga_state * W) : option (Keyboard.kb_state * (vga_state * W)) :=
  con ← prompt con;
  buf ← memset (stack 256) 0 256;
  read_line rounds buf 0 k con.
End execute.

(** The bytes left in the keyboard controller are dropped, at most 1000. *)
Fixpoint drain (timeout : nat) (w : W) : W :=
  let '(st, w) := inb 0x64 w in
  if negb (Z.land st 1 =? 0) then
    match timeout with O => w | S t => drain t (inb 0x60 w).2 end
  else w.

Definition shell_init (sh : shell_state_t) (w : W) : option (shell_state_t * W) :=
  let w := drain 1000 w in
  u ← strcpy (username sh) (lit "Slime");
  h ← strcpy (hostname sh) (lit "");
  d ← strcpy (cwd sh) (lit "/");
  Some ({| username := u; hostname := h; cwd := d; history_count := 0 |}, w).


(** [n] turns of the outer [while (1)] of [shell_run] *)
Fixpoint shell_run (sh : shell_state_t) (procs : process_system) (ticks : Z) (rounds n : nat)
    (k : Keyboard.kb_state) (con : vga_state * W) : option (Keyboard.kb_state * (vga_state * W)) :=
  match n with
  | O => Some (k, con)
  | S n => '(k, con) ← shell_turn sh procs ticks rounds k con; shell_run sh procs ticks rounds n k con
  end.

(** ** What is printed *)

Lemma outputs_shell b : is_Some (cstr b) → outputs (shell_print b) (str b).
Proof. exact (outputs_print b). Qed.
Lemma outputs_proc b : is_Some (cstr b) → outputs (proc_vga_print b) (str b).
Proof. exact (outputs_print b). Qed.
Lemma outputs_proc_lit x : cstr (lit x) = Some (bytes_of_string x) → outputs (proc_vga_print (lit x)) (bytes_of_string x).
Proof. exact (outputs_lit x). Qed.

Context (stack_size : ∀ k, length (stack k) = k).

Lemma outputs_number value n k text :
  (length (numeral (s32 value) 10) < n)%nat →
  (∀ b, is_Some (cstr b) → str b = numeral (s32 value) 10 → outputs (k b) text) → outputs (with_number value n k) text.
Proof.
  intros Hn Hk t v w Hs. pose proof (s32_range value).
  destruct (itoa_numeral stack stack_size (s32 value) 10 n ltac:(lia) ltac:(lia) Hn) as (b & E & Hb).
  unfold with_number. rewrite E. cbn [mbind option_bind]. apply Hk; [by eexists| |exact Hs]. unfold str. by rewrite Hb.
Qed.

Lemma short_number value j n :
  Z.abs (s32 value) < 10 ^ Z.of_nat j → (0 < j)%nat → (j + 2 ≤ n)%nat → (length (numeral (s32 value) 10) < n)%nat.
Proof. intros Hv Hj Hn. pose proof (numeral_length (s32 value) 10 j ltac:(lia) Hv Hj). cbn in *. lia. Qed.

(** A line of the process list *)
Definition process_line (p : process_t) : list Z :=
  if bool_decide (pstate p = PROCESS_EMPTY) then []
  else bytes_of_string "  " ++ numeral (s32 (pid p)) 10 ++ bytes_of_string "  " ++ str (state_text (pstate p)) ++
       bytes_of_string "  " ++ numeral (s32 (runtime p)) 10 ++ bytes_of_string "  " ++
       bytes_of_string "  " ++ numeral (s32 (priority p)) 10 ++ bytes_of_string "      " ++ str (pname p) ++ [10].

(** The numbers fit the local arrays they are printed through, and the name
    ends. *)
Definition process_printable (p : process_t) : Prop :=
  0 <= pid p < 100000 ∧ 0 <= priority p < 100 ∧ is_Some (cstr (pname p)).

Lemma outputs_process p : process_printable p → outputs (print_process p) (process_line p).
Proof.
  intros (Hpid & Hprio & Hname). unfold print_process, process_line.
  case_bool_decide; [apply outputs_nil|].
  apply outputs_number; [apply (short_number _ 5); [rewrite s32_id by lia; cbn; lia|lia..]|]. intros bp Hbp <-.
  apply outputs_then; [by apply outputs_proc_lit|]. apply outputs_then; [by apply outputs_proc|].
  apply outputs_then; [by apply outputs_proc_lit|].
  apply outputs_then; [apply outputs_proc; by destruct (pstate p); eexists|].
  apply outputs_number; [apply (short_number _ 10); [pose proof (s32_range (runtime p)); cbn; lia|lia..]|]. intros br Hbr <-.
  apply outputs_then; [by apply outputs_proc_lit|]. apply outputs_then; [by apply outputs_proc|].
  apply outputs_then; [by apply outputs_proc_lit|].
  apply outputs_number; [apply (short_number _ 2); [rewrite s32_id by lia; cbn; lia|lia..]|]. intros bq Hbq <-.
  apply outputs_then; [by apply outputs_proc_lit|]. apply outputs_then; [by apply outputs_proc|].
  apply outputs_then; [by apply outputs_proc_lit|]. apply outputs_then; [by apply outputs_proc|].
  by apply (outputs_proc [10; 0]); eexists.
Qed.

(** ** The commands *)

(** The text of [ps]: the slots below [next_pid] *)
Definition process_list_text (s : process_system) : list Z :=
  bytes_of_string "  PID  STATE     RUNTIME  PRIORITY  NAME
" ++ bytes_of_string "  ---  --------  -------  --------  ----
" ++ concat (process_line <$> take (Z.to_nat (next_pid s)) (processes s)).

Definition processes_printable (s : process_system) : Prop :=
  0 <= next_pid s <= zlen (processes s) ∧ Forall process_printable (processes s).

Lemma outputs_slots ps (n : nat) pre :
  (n ≤ length ps)%nat → Forall process_printable ps →
  outputs (for_loop n (zlen pre) (λ i c, p ← (pre ++ ps).[i]; print_process p c)) (concat (process_line <$> take n ps)).
Proof.
  revert ps pre. induction n as [|n IH]; intros ps pre Hn Hps; [exact outputs_nil|].
  destruct Hps as [|p ps Hp Hps]; [cbn in Hn; lia|]. cbn [for_loop take fmap list_fmap concat].
  intros t v w Hs. unfold zlen. rewrite zget_nat, list_lookup_middle by done. cbn [mbind option_bind].
  destruct (outputs_process p Hp t v w Hs) as (v1 & w1 & -> & Hs1). cbn [mbind option_bind].
  rewrite t_print_app. replace (pre ++ p :: ps) with ((pre ++ [p]) ++ ps) by by rewrite <- app_assoc.
  replace (Z.of_nat (length pre) + 1) with (zlen (pre ++ [p])) by (unfold zlen; rewrite length_app; cbn; lia).
  apply IH; [cbn in Hn; lia|done|done].
Qed.

Lemma outputs_process_list s : processes_printable s → outputs (process_print_list s) (process_list_text s).
Proof.
  intros [Hn Hps]. unfold process_print_list, process_list_text.
  apply outputs_then; [by apply outputs_proc_lit|]. apply outputs_then; [by apply outputs_proc_lit|].
  apply (outputs_slots (processes s) (Z.to_nat (next_pid s)) []); [unfold zlen in Hn; lia|done].
Qed.

Definition help_lines : list Z :=
  bytes_of_string "Minimalist OS Shell Commands:
" ++ bytes_of_string "  help      - Show this help message
" ++ bytes_of_string "  clear     - Clear the screen
" ++ bytes_of_string "  ps        - List running processes
" ++ bytes_of_string "  whoami    - Show current user
" ++ bytes_of_string "  ver       - Show OS version
" ++ bytes_of_string "  uptime    - Show system uptime
" ++ bytes_of_string "  testcmd   - Run test command
".

Lemma outputs_help : outputs help_text help_lines.
Proof.
  unfold help_text, help_lines. repeat (apply outputs_then; [by apply outputs_lit|]). by apply outputs_lit.
Qed.

Section commands.
Context (sh : shell_state_t) (procs : process_system) (ticks : Z).
Context (user_ends : is_Some (cstr (username sh))) (printable : processes_printable procs).

(** What the command [cmd] does to the screen *)
Definition run_command (cmd : list Z) : terminal → terminal :=
  if bool_decide (cmd = []) then id
  else if bool_decide (cmd = bytes_of_string "help") then t_print help_lines
  else if bool_decide (cmd = bytes_of_string "?") then t_print help_lines
  else if bool_decide (cmd = bytes_of_string "clear") then t_clear
  else if bool_decide (cmd = bytes_of_string "ps") then
    t_print (bytes_of_string "Process List:
" ++ process_list_text procs ++ [10])
  else if bool_decide (cmd = bytes_of_string "whoami") then t_print (str (username sh) ++ [10])
  else if bool_decide (cmd = bytes_of_string "ver") then t_print (bytes_of_string "Minimalist OS v1.0
")
  else if bool_decide (cmd = bytes_of_string "uptime") then
    t_print (bytes_of_string "Uptime: " ++ numeral (s32 ticks) 10 ++ bytes_of_string " ticks
")
  else if bool_decide (cmd = bytes_of_string "testcmd") then t_print (bytes_of_string "Test command executed!
")
  else t_print (bytes_of_string "Unknown command: '" ++ cmd ++ bytes_of_string "'
").

Lemma acts_when command cmd name nm yes no f g :
  cstr command = Some cmd → cstr name = Some nm → acts yes f → acts no g →
  acts (when command name yes no) (if bool_decide (cmd = nm) then f else g).
Proof.
  intros Hc Hn Hy Hno t v w Hs. unfold when. rewrite (streq_spec _ _ _ _ Hc Hn). cbn [mbind option_bind].
  by case_bool_decide; [apply Hy|apply Hno].
Qed.

Lemma shell_execute_command_ok command cmd :
  cstr command = Some cmd → acts (shell_execute_command sh procs ticks command) (run_command cmd).
Proof.
  intros Hc. unfold shell_execute_command, run_command. intros t v w Hs. rewrite (strlen_cstr _ _ Hc). cbn [mbind option_bind].
  assert ((zlen cmd =? 0) = bool_decide (cmd = [])) as ->.
  { destruct cmd as [|x cmd]; [done|]. rewrite bool_decide_eq_false_2 by done. apply Z.eqb_neq. unfold zlen. cbn. lia. }
  destruct (bool_decide (cmd = [])); [by apply acts_id|]. revert t v w Hs.
  refine (acts_when _ cmd (lit "help") (bytes_of_string "help") _ _ _ _ Hc eq_refl outputs_help _).
  refine (acts_when _ cmd (lit "?") (bytes_of_string "?") _ _ _ _ Hc eq_refl outputs_help _).
  refine (acts_when _ cmd (lit "clear") (bytes_of_string "clear") _ _ _ _ Hc eq_refl acts_clear _).
  apply (acts_when _ cmd (lit "ps") (bytes_of_string "ps") _ _ _ _ Hc eq_refl).
  { apply outputs_then; [by apply outputs_lit|]. apply outputs_then; [by apply outputs_process_list|].
    apply (outputs_shell [10; 0]). by eexists. }
  apply (acts_when _ cmd (lit "whoami") (bytes_of_string "whoami") _ _ _ _ Hc eq_refl).
  { apply outputs_then; [by apply outputs_shell|]. apply (outputs_shell [10; 0]). by eexists. }
  apply (acts_when _ cmd (lit "ver") (bytes_of_string "ver") _ _ _ _ Hc eq_refl); [by apply outputs_lit|].
  apply (acts_when _ cmd (lit "uptime") (bytes_of_string "uptime") _ _ _ _ Hc eq_refl).
  { apply outputs_then; [by apply outputs_lit|].
    apply outputs_number; [apply (short_number _ 10); [pose proof (s32_range ticks); cbn; lia|lia..]|]. intros b Hb <-.
    apply outputs_then; [by apply outputs_shell|by apply outputs_lit]. }
  apply (acts_when _ cmd (lit "testcmd") (bytes_of_string "testcmd") _ _ _ _ Hc eq_refl); [by apply outputs_lit|].
  apply outputs_then; [by apply outputs_lit|]. apply outputs_then; [|by apply outputs_lit].
  pose proof (outputs_shell command ltac:(by eexists)) as Hp. unfold str in Hp. by rewrite Hc in Hp.
Qed.

(** ** Editing a line *)

(** The 256-byte buffer that holds the line [l] *)
Definition line_buffer (l : list Z) : list Z := l ++ replicate (256 - length l) 0.

Lemma line_buffer_length l : (length l <= 256)%nat → zlen (line_buffer l) = 256.
Proof. intros Hl. unfold zlen, line_buffer. rewrite length_app, length_replicate. lia. Qed.

Lemma line_buffer_cons l : (length l <= 255)%nat → line_buffer l = l ++ 0 :: replicate (255 - length l) 0.
Proof. intros Hl. unfold line_buffer. by replace (256 - length l)%nat with (S (255 - length l)) by lia. Qed.

Lemma line_buffer_cstr l : (length l <= 255)%nat → Forall (λ c, c ≠ 0) l → cstr (line_buffer l) = Some l.
Proof. intros Hl Hnz. rewrite line_buffer_cons by done. by apply cstr_app. Qed.

Lemma line_buffer_push l c : (length l < 255)%nat → zset (line_buffer l) (zlen l) c = Some (line_buffer (l ++ [c])).
Proof.
  intros Hl. rewrite line_buffer_cons by lia. rewrite zset_middle by done. unfold line_buffer.
  rewrite length_app, <- app_assoc. cbn [length app]. by replace (256 - (length l + 1))%nat with (255 - length l)%nat by lia.
Qed.

Lemma line_buffer_pop l c :
  (length l < 255)%nat → zset (line_buffer (l ++ [c])) (zlen (l ++ [c]) - 1) 0 = Some (line_buffer l).
Proof.
  intros Hl. rewrite (line_buffer_cons l) by lia. unfold line_buffer. rewrite length_app, <- app_assoc.
  replace (zlen (l ++ [c]) - 1) with (zlen l) by (unfold zlen; rewrite length_app; cbn; lia).
  cbn [length app]. rewrite zset_middle by done. by replace (256 - (length l + 1))%nat with (255 - length l)%nat by lia.
Qed.

Definition is_erase (c : Z) : bool := (c =? 8) || (u8 c =? 0x7F).

(** A key typed after the line [l], and its echo on the terminal *)
Definition type_key (st : list Z * terminal) (c : Z) : list Z * terminal :=
  let '(l, t) := st in
  if is_erase c then (removelast l, match l with [] => t | _ => t_put 8 t end)
  else if bool_decide (length l < 255)%nat then (l ++ [c], t_put c t)
  else (l, t).

(** The blanks at the end of a line, the bytes from 128 on with them *)
Definition blank (c : Z) : bool := s8 c <=? 32.
Fixpoint trimmed (l : list Z) : list Z :=
  match l with
  | [] => []
  | c :: l => match trimmed l with [] => if blank c then [] else [c] | r => c :: r end
  end.

Lemma trimmed_snoc l c : trimmed (l ++ [c]) = if blank c then trimmed l else l ++ [c].
Proof.
  induction l as [|d l IH]; [done|]. cbn [app trimmed]. rewrite IH. destruct (blank c); [done|].
  destruct (l ++ [c]) eqn:E; [by destruct l|done].
Qed.

Lemma trimmed_sub l : (length (trimmed l) <= length l)%nat ∧ Forall (λ c, c ∈ l) (trimmed l).
Proof.
  induction l as [|c l [IH1 IH2]]; [done|]. cbn [trimmed length]. destruct (trimmed l) as [|d r].
  - destruct (blank c); (split; [cbn; lia|]); repeat constructor.
  - split; [cbn in *; lia|]. constructor; [by constructor|]. eapply Forall_impl; [exact IH2|]. intros x Hx. by constructor.
Qed.

Lemma trim_spec fuel l :
  (length l <= 255)%nat → (length l < fuel)%nat →
  trim fuel (line_buffer l) (zlen l) = Some (line_buffer (trimmed l), zlen (trimmed l)).
Proof.
  revert l. induction fuel as [|fuel IH]; intros l Hl Hf; [lia|]. cbn [trim].
  destruct l as [|c l _] using rev_ind; [done|]. rewrite length_app in *. cbn [length] in *.
  assert ((0 <? zlen (l ++ [c])) = true) as -> by (apply Z.ltb_lt; unfold zlen; rewrite length_app; cbn; lia).
  assert (zlen (l ++ [c]) - 1 = zlen l) as Hz by (unfold zlen; rewrite length_app; cbn; lia).
  assert ((line_buffer (l ++ [c])).[zlen l] = Some c) as Hget.
  { unfold zlen, line_buffer. rewrite zget_nat, <- app_assoc. cbn [app]. by apply list_lookup_middle. }
  rewrite Hz, Hget. cbn [mbind option_bind]. rewrite trimmed_snoc. unfold blank. destruct (s8 c <=? 32); [|done].
  rewrite <- Hz, line_buffer_pop by lia. cbn [mbind option_bind]. rewrite Hz. apply IH; lia.
Qed.

Lemma edit_key_ok c l t v w :
  c ≠ 0 → (length l <= 255)%nat → shows t v →
  ∃ v' w', edit_key c (line_buffer l) (zlen l) (v, w) =
      Some (line_buffer (type_key (l, t) c).1, zlen (type_key (l, t) c).1, (v', w')) ∧
    shows (type_key (l, t) c).2 v' ∧ (length (type_key (l, t) c).1 <= 255)%nat.
Proof.
  intros Hc Hl Hs. unfold edit_key, type_key. fold (is_erase c). destruct (is_erase c).
  - destruct l as [|d l _] using rev_ind; [by exists v, w|]. rewrite length_app in Hl. cbn in Hl.
    assert ((0 <? zlen (l ++ [d])) = true) as -> by (apply Z.ltb_lt; unfold zlen; rewrite length_app; cbn; lia).
    rewrite line_buffer_pop by lia. cbn [mbind option_bind].
    destruct (outputs_shell [8; 0] ltac:(by eexists) t v w Hs) as (v' & w' & -> & Hs'). cbn [mbind option_bind].
    rewrite removelast_last. exists v', w'. cbn [fst snd].
    replace (zlen (l ++ [d]) - 1) with (zlen l) by (unfold zlen; rewrite length_app; cbn; lia).
    split; [done|]. split; [by destruct l|lia].
  - unfold SHELL_BUFFER_SIZE. case_bool_decide as E.
    + assert ((zlen l <? 256 - 1) = true) as -> by (apply Z.ltb_lt; unfold zlen; lia).
      rewrite line_buffer_push by lia. cbn [mbind option_bind].
      assert (cstr [c; 0] = Some [c]) as Hb by (by apply (cstr_app [c] []); repeat constructor).
      destruct (outputs_shell [c; 0] ltac:(by eexists) t v w Hs) as (v' & w' & -> & Hs'). cbn [mbind option_bind].
      unfold str in Hs'. rewrite Hb in Hs'. exists v', w'. cbn [fst snd].
      replace (zlen l + 1) with (zlen (l ++ [c])) by (unfold zlen; rewrite length_app; cbn; lia).
      rewrite length_app. cbn. split; [done|]. split; [done|lia].
    + assert ((zlen l <? 256 - 1) = false) as -> by (apply Z.ltb_ge; unfold zlen; lia). by exists v, w.
Qed.

(** ** Lines and sessions *)

Definition t_enter (l : list Z) (t : terminal) : terminal := run_command (trimmed l) (t_put 10 t).

Lemma end_line_ok c l t v w :
  (length l <= 255)%nat → Forall (λ c, c ≠ 0) l → shows t v →
  ∃ v' w', end_line sh procs ticks c (line_buffer l) (zlen l) (v, w) = Some (v', w') ∧ shows (t_enter l t) v'.
Proof.
  intros Hl Hnz Hs. unfold end_line. destruct (putchar_shows 10 t v w Hs) as (v1 & -> & Hs1). cbn [mbind option_bind].
  assert (zset (line_buffer l) (zlen l) 0 = Some (line_buffer l)) as ->.
  { rewrite line_buffer_cons by done. by rewrite zset_middle. }
  cbn [mbind option_bind]. rewrite trim_spec by lia. cbn [mbind option_bind].
  destruct (trimmed_sub l) as [Hlen Hsub]. unfold t_enter. set (w1 := vga_update_cursor v1 w). clearbody w1.
  destruct (0 <? zlen (trimmed l)) eqn:E.
  - assert (cstr (line_buffer (trimmed l)) = Some (trimmed l)) as Hc.
    { apply line_buffer_cstr; [lia|]. eapply Forall_impl; [exact Hsub|]. intros x Hx. exact (proj1 (Forall_forall _ _) Hnz x Hx). }
    destruct (shell_execute_command_ok _ _ Hc _ v1 w1 Hs1) as (v2 & w2 & -> & Hs2). cbn [mbind option_bind]. by eexists _, _.
  - apply Z.ltb_ge in E. destruct (trimmed l); [|unfold zlen in E; cbn in E; lia]. cbn [mbind option_bind]. by eexists _, _.
Qed.

(** A key that does not end the line *)
Definition ordinary (c : Z) : Prop := c ≠ 10 ∧ c ≠ 13.

Lemma type_key_nonzero l t c : c ≠ 0 → Forall (λ c, c ≠ 0) l → Forall (λ c, c ≠ 0) (type_key (l, t) c).1.
Proof.
  intros Hc Hl. unfold type_key. destruct (is_erase c); [|case_bool_decide; [|done]]; cbn [fst].
  - destruct l as [|d l _] using rev_ind; [done|]. rewrite removelast_last. by apply Forall_app in Hl as [? _].
  - apply Forall_app. by repeat constructor.
Qed.

Lemma poll_key_pending k w c r :
  Keyboard.kb_ok k → Keyboard.pending k = c :: r →
  c ≠ 0 ∧ ∃ k', poll_key k w = Some (c, k', w) ∧ Keyboard.kb_ok k' ∧ Keyboard.pending k' = r.
Proof.
  intros Hk Hp. pose proof (Keyboard.ok_chars k Hk) as Hnz. rewrite Hp in Hnz. inversion Hnz as [|? ? Hc _]; subst.
  split; [done|]. destruct (Keyboard.keyboard_getchar_ok k Hk) as (k' & E & Hk' & _ & Hp'). exists k'.
  unfold poll_key. rewrite E, Hp. cbn [mbind option_bind]. change (default 0 (head (c :: r))) with c. rewrite (proj2 (Z.eqb_neq c 0) Hc).
  split; [done|]. split; [done|]. by rewrite Hp', Hp.
Qed.

Lemma read_line_ok keys nl rest rounds k l t v w :
  Keyboard.kb_ok k → Keyboard.pending k = keys ++ nl :: rest → Forall ordinary keys → nl = 10 ∨ nl = 13 →
  (length keys < rounds)%nat → (length l <= 255)%nat → Forall (λ c, c ≠ 0) l → shows t v →
  ∃ k' v' w', read_line sh procs ticks rounds (line_buffer l) (zlen l) k (v, w) = Some (k', (v', w')) ∧
    Keyboard.kb_ok k' ∧ Keyboard.pending k' = rest ∧
    shows (let '(l, t) := foldl type_key (l, t) keys in t_enter l t) v'.
Proof.
  intros Hk Hp Hkeys Hnl. revert rounds k l t v w Hk Hp.
  induction Hkeys as [|c keys [Hc10 Hc13] Hkeys IH]; intros rounds k l t v w Hk Hp Hr Hl Hnz Hs;
    (destruct rounds as [|rounds]; [cbn in Hr; lia|]); cbn [read_line foldl app fst snd] in *.
  - destruct (poll_key_pending k w nl rest Hk Hp) as (Hnl0 & k' & -> & Hk' & Hp'). cbn [mbind option_bind].
    rewrite (proj2 (Z.eqb_neq nl 0) Hnl0). assert (((nl =? 10) || (nl =? 13)) = true) as -> by (destruct Hnl; by subst).
    destruct (end_line_ok nl l t v w Hl Hnz Hs) as (v' & w' & -> & Hs'). cbn [mbind option_bind]. by exists k', v', w'.
  - destruct (poll_key_pending k w c _ Hk Hp) as (Hc0 & k' & -> & Hk' & Hp'). cbn [mbind option_bind].
    rewrite (proj2 (Z.eqb_neq c 0) Hc0), (proj2 (Z.eqb_neq c 10) Hc10), (proj2 (Z.eqb_neq c 13) Hc13). cbn [orb].
    destruct (edit_key_ok c l t v w Hc0 Hl Hs) as (v1 & w1 & -> & Hs1 & Hl1). cbn [mbind option_bind].
    pose proof (type_key_nonzero l t c Hc0 Hnz) as Hnz1. destruct (type_key (l, t) c) as [l1 t1]. cbn [fst snd length] in *. apply IH; (done || lia).
Qed.

Context (host_ends : is_Some (cstr (hostname sh))) (cwd_ends : is_Some (cstr (cwd sh))).

(** The prompt: the user in green, the directory in blue *)
Definition t_prompt (t : terminal) : terminal :=
  let t := t_print (str (username sh)) (t_call (SetColor 10 0) t) in
  let t := match str (hostname sh) with [] => t | h => t_print (bytes_of_string "@" ++ h) t end in
  let t := t_print (bytes_of_string ":") (t_call (SetColor 7 0) t) in
  let t := t_print (str (cwd sh)) (t_call (SetColor 9 0) t) in
  t_print (bytes_of_string "$ ") (t_call (SetColor 7 0) t).

Lemma prompt_ok : acts (prompt sh) t_prompt.
Proof.
  unfold prompt. eapply acts_seq; [apply acts_color| |]. 1: eapply acts_seq; [by apply outputs_shell| |].
  1: eapply (acts_seq _ _ (λ t, match str (hostname sh) with [] => t | h => t_print (bytes_of_string "@" ++ h) t end)).
  { intros t v w Hs. unfold str. clear user_ends cwd_ends.
    pose proof host_ends as Hh. destruct (hostname sh) as [|h r] eqn:Eh; [by destruct Hh|]. pose proof Hh as [s Es]. rewrite Es. change ((h :: r).[0]) with (Some h). cbn [mbind option_bind]. cbn [cstr] in Es.
    destruct (Z.eqb_spec h 0) as [->|Hnz]; [injection Es as <-; by apply acts_id|].
    apply bind_Some in Es as (s' & Es' & [= <-]). cbn [negb]. change (default [] (Some (h :: s'))) with (h :: s'). cbn match.
    apply (outputs_then _ _ (bytes_of_string "@") (h :: s')); [by apply outputs_lit| |exact Hs].
    pose proof (outputs_shell (h :: r) Hh) as Hp. unfold str in Hp. cbn [cstr] in Hp.
    rewrite (proj2 (Z.eqb_neq h 0) Hnz), Es' in Hp. exact Hp. }
  1: eapply acts_seq; [apply acts_color| |]. 1: eapply acts_seq; [by apply outputs_lit| |].
  1: eapply acts_seq; [apply acts_color| |]. 1: eapply acts_seq; [by apply outputs_shell| |].
  1: eapply acts_seq; [apply acts_color|by apply outputs_lit|].
  all: intros t; reflexivity.
Qed.

(** One line [keys] typed at the prompt *)
Definition t_turn (t : terminal) (keys : list Z) : terminal :=
  let '(l, t) := foldl type_key ([], t_prompt t) keys in t_enter l t.

Lemma shell_turn_ok keys nl rest rounds k t v w :
  Keyboard.kb_ok k → Keyboard.pending k = keys ++ nl :: rest → Forall ordinary keys → nl = 10 ∨ nl = 13 →
  (length keys < rounds)%nat → shows t v →
  ∃ k' v' w', shell_turn sh procs ticks rounds k (v, w) = Some (k', (v', w')) ∧
    Keyboard.kb_ok k' ∧ Keyboard.pending k' = rest ∧ shows (t_turn t keys) v'.
Proof.
  intros Hk Hp Hkeys Hnl Hr Hs. unfold shell_turn. destruct (prompt_ok t v w Hs) as (v1 & w1 & -> & Hs1). cbn [mbind option_bind].
  rewrite memset_spec by (by rewrite stack_size). rewrite drop_ge by (by rewrite stack_size). rewrite app_nil_r. cbn [mbind option_bind].
  exact (read_line_ok keys nl rest rounds k [] (t_prompt t) v1 w1 Hk Hp Hkeys Hnl Hr ltac:(cbn; lia) ltac:(done) Hs1).
Qed.

Lemma shell_run_ok lines rounds k t v w :
  Keyboard.kb_ok k → Keyboard.pending k = concat ((λ l, l ++ [10]) <$> lines) → Forall (Forall ordinary) lines →
  Forall (λ l, (length l < rounds)%nat) lines → shows t v →
  ∃ k' v' w', shell_run sh procs ticks rounds (length lines) k (v, w) = Some (k', (v', w')) ∧
    Keyboard.pending k' = [] ∧ shows (foldl t_turn t lines) v'.
Proof.
  intros Hk Hp Hl. revert k t v w Hk Hp. induction Hl as [|l lines Hl Hls IH]; intros k t v w Hk Hp Hr Hs; [by exists k, v, w|].
  inversion Hr as [|? ? Hr1 Hr2]; subst. cbn [fmap list_fmap concat] in Hp. rewrite <- app_assoc in Hp.
  destruct (shell_turn_ok l 10 _ rounds k t v w Hk Hp Hl (or_introl eq_refl) Hr1 Hs) as (k1 & v1 & w1 & E & Hk1 & Hp1 & Hs1).
  cbn [length shell_run foldl]. rewrite E. cbn [mbind option_bind]. by apply IH.
Qed.
End commands.

(** The state after [shell_init] *)
Lemma shell_init_ok sh w :
  (6 <= length (username sh))%nat → (1 <= length (hostname sh))%nat → (2 <= length (cwd sh))%nat →
  ∃ sh' w', shell_init sh w = Some (sh', w') ∧ cstr (username sh') = Some (bytes_of_string "Slime") ∧
    cstr (hostname sh') = Some [] ∧ cstr (cwd sh') = Some (bytes_of_string "/").
Proof.
  intros Hu Hh Hd. unfold shell_init.
  rewrite (strcpy_spec (username sh) _ (bytes_of_string "Slime")) by (done || (cbn; lia)). cbn [mbind option_bind].
  rewrite (strcpy_spec (hostname sh) _ []) by (done || (cbn; lia)). cbn [mbind option_bind].
  rewrite (strcpy_spec (cwd sh) _ (bytes_of_string "/")) by (done || (cbn; lia)). cbn [mbind option_bind].
  eexists _, _. split; [reflexivity|]. cbn [username hostname cwd].
  repeat split; apply cstr_app; by repeat constructor.
Qed.

(** C18. A session of the shell, from its start: every line that is waiting in
    the key buffer is read to its end, the screen shows what the reference
    terminal shows after the prompts, the echoed and corrected keys and the
    output of the commands, and no key is left. *)
Theorem shell_session sh0 procs ticks lines rounds k t v w :
  (6 <= length (username sh0))%nat → (1 <= length (hostname sh0))%nat → (2 <= length (cwd sh0))%nat →
  processes_printable procs →
  Keyboard.kb_ok k → Keyboard.pending k = concat ((λ l, l ++ [10]) <$> lines) → Forall (Forall ordinary) lines →
  Forall (λ l, (length l < rounds)%nat) lines → shows t v →
  ∃ sh w1, shell_init sh0 w = Some (sh, w1) ∧
  ∃ k' v' w', shell_run sh procs ticks rounds (length lines) k (v, w1) = Some (k', (v', w')) ∧
    Keyboard.pending k' = [] ∧ shows (foldl (t_turn sh procs ticks) t lines) v'.
Proof.
  intros Hu Hh Hd Hps Hk Hp Hl Hr Hs. destruct (shell_init_ok sh0 w Hu Hh Hd) as (sh & w1 & E & Eu & Eh & Ed).
  exists sh, w1. split; [exact E|]. apply shell_run_ok; (done || by eexists).
Qed.
End shell.

Definition typed (keys : list Z) : Keyboard.kb_state :=
  {| Keyboard.mods := Keyboard.mods Keyboard.kb_bss; Keyboard.kb_buffer := keys ++ replicate (256 - length keys) 0;
     Keyboard.kb_write_ptr := length keys; Keyboard.kb_read_ptr := 0 |}.

Definition kernel_only : process_system :=
  {| processes := set_state PROCESS_RUNNING zero_process :: replicate 63 zero_process; next_pid := 1;
     current_process := 0; scheduler_ticks := 0; current_process_ptr := Some 0%nat |}.

(** "vex", a backspace, "r " and the enter key, then "ps". *)
Lemma shell_session_witness :
  let keys := [118; 101; 120; 8; 114; 32; 10; 112; 115; 10] in
  let sh0 := {| username := replicate 32 0; hostname := replicate 32 0; cwd := replicate 256 0; history_count := 0 |} in
  ∃ sh w1, shell_init sh0 (constant_machine 0) = Some (sh, w1) ∧
  ∃ k' v' w', shell_run junk sh kernel_only 0 10 2 (typed keys) (blank_screen, w1) = Some (k', (v', w')) ∧
    Keyboard.pending k' = [] ∧
    shows (foldl (t_turn sh kernel_only 0) blank_terminal [[118; 101; 120; 8; 114; 32]; [112; 115]]) v'.
Proof.
  cbv zeta. apply (shell_session junk (λ n, length_replicate n _) _ kernel_only 0 [[118; 101; 120; 8; 114; 32]; [112; 115]]).
  - cbn. lia.
  - cbn. lia.
  - cbn. lia.
  - split; [by vm_compute|]. repeat constructor; try done; by eexists.
  - split; try (vm_compute; lia). vm_compute. by repeat constructor.
  - vm_compute. reflexivity.
  - by repeat constructor.
  - repeat constructor; cbn; lia.
  - exact (proj1 blank_displayed).
Defined.
End Shell.
