(* ===== verification/Mouse.v ===== *)
(** * Mouse: the PS/2 mouse (drivers/mouse.c)

    The driver assembles three-byte packets, one byte per interrupt, and draws
    its cursor on the text screen.  The interrupts are run one after another on
    the state of the driver, the screen and the hardware. *)
From S2P Require Import Prelude CString Ports Vga Log Idt.
Import Vga Log Idt.

Module Mouse.

Definition PS2_DATA_PORT : Z := 0x60.
Definition PS2_STATUS_PORT : Z := 0x64.
Definition PS2_CMD_PORT : Z := 0x64.
Definition MOUSE_IRQ_VECTOR : Z := 44.
Definition MOUSE_IRQ_LINE : Z := 12.
(** [timeout] in [mouse_wait] *)
Definition MOUSE_TIMEOUT : nat := Z.to_nat 100000.
#[global] Arguments MOUSE_TIMEOUT : simpl never.
#[global] Opaque MOUSE_TIMEOUT.

(** The statics *)
Record mouse_state := { packet : list Z; packet_index : Z; mouse_x : Z; mouse_y : Z; mouse_buttons : Z }.

Definition set_packet (p : list Z) (i : Z) (m : mouse_state) : mouse_state :=
  {| packet := p; packet_index := i; mouse_x := mouse_x m; mouse_y := mouse_y m; mouse_buttons := mouse_buttons m |}.
Definition set_mouse (x y : Z) (m : mouse_state) : mouse_state :=
  {| packet := packet m; packet_index := packet_index m; mouse_x := x; mouse_y := y; mouse_buttons := mouse_buttons m |}.

Section mouse.
Context {W : Type} `{Ports W}.

(** [while (timeout-- && wait(inb(PS2_STATUS_PORT)));] *)
Fixpoint wait_while (wait : Z → bool) (timeout : nat) (w : W) : W :=
  match timeout with
  | O => w
  | S n => let '(st, w) := inb PS2_STATUS_PORT w in if wait st then wait_while wait n w else w
  end.

Definition mouse_wait (type : Z) (w : W) : W :=
  if type =? 0 then wait_while (λ st, negb (Z.land st 0x02 =? 0)) MOUSE_TIMEOUT w
  else wait_while (λ st, Z.land st 0x01 =? 0) MOUSE_TIMEOUT w.

Definition mouse_write (data : Z) (w : W) : W :=
  let w := outb PS2_CMD_PORT 0xD4 (mouse_wait 0 w) in
  outb PS2_DATA_PORT data (mouse_wait 0 w).

Definition mouse_read (w : W) : Z * W := inb PS2_DATA_PORT (mouse_wait 1 w).

Definition clamp_mouse (m : mouse_state) : mouse_state :=
  let m := if mouse_x m <? 0 then set_mouse 0 (mouse_y m) m else m in
  let m := if mouse_y m <? 0 then set_mouse (mouse_x m) 0 m else m in
  let m := if VGA_WIDTH <=? mouse_x m then set_mouse (VGA_WIDTH - 1) (mouse_y m) m else m in
  if VGA_HEIGHT <=? mouse_y m then set_mouse (mouse_x m) (VGA_HEIGHT - 1) m else m.

Definition draw_cursor (m : mouse_state) (v : vga_state) (w : W) : option (mouse_state * vga_state * W) :=
  let m := clamp_mouse m in
  '(v, w) ← vga_print_at [88; 0] (mouse_x m) (mouse_y m) v w;
  Some (m, v, w).

Definition clear_cursor (m : mouse_state) (v : vga_state) (w : W) : option (vga_state * W) :=
  if (mouse_x m <? 0) || (mouse_y m <? 0) || (VGA_WIDTH <=? mouse_x m) || (VGA_HEIGHT <=? mouse_y m) then Some (v, w)
  else vga_print_at [32; 0] (mouse_x m) (mouse_y m) v w.

Definition mouse_irq_handler (m : mouse_state) (v : vga_state) (w : W) : option (mouse_state * vga_state * W) :=
  let '(status, w) := inb PS2_STATUS_PORT w in
  if Z.land status 0x20 =? 0 then Some (m, v, w)
  else
    let '(data, w) := inb PS2_DATA_PORT w in
    if (packet_index m =? 0) && (Z.land data 0x08 =? 0) then Some (m, v, w)
    else
      p ← zset (packet m) (packet_index m) data;
      let m := set_packet p (packet_index m + 1) m in
      if packet_index m <? 3 then Some (m, v, w)
      else
        let m := set_packet p 0 m in
        dx ← (packet m).[1];
        dy ← (packet m).[2];
        '(v, w) ← clear_cursor m v w;
        let m := set_mouse (mouse_x m + s8 dx) (mouse_y m - s8 dy) m in
        b ← (packet m).[0];
        draw_cursor {| packet := packet m; packet_index := packet_index m; mouse_x := mouse_x m;
                       mouse_y := mouse_y m; mouse_buttons := Z.land b 0x07 |} v w.

(** [handler] is the address of [mouse_irq_handler]; [stack] and [cur] are
    the local arrays and the level of the log. *)
Definition mouse_init {F} (handler : F) (stack : nat → list Z) (cur : Z)
    (m : mouse_state) (s : idt_state F) (v : vga_state) (w : W) : option (mouse_state * idt_state F * vga_state * W) :=
  let w := outb PS2_CMD_PORT 0xA8 (mouse_wait 0 w) in
  let w := outb PS2_CMD_PORT 0x20 (mouse_wait 0 w) in
  let '(status, w) := inb PS2_DATA_PORT (mouse_wait 1 w) in
  let status := Z.lor status 0x02 in
  let w := outb PS2_CMD_PORT 0x60 (mouse_wait 0 w) in
  let w := outb PS2_DATA_PORT status (mouse_wait 0 w) in
  let m := {| packet := packet m; packet_index := 0; mouse_x := 0; mouse_y := 0; mouse_buttons := 0 |} in
  let w := (mouse_read (mouse_write 0xF6 w)).2 in
  let w := (mouse_read (mouse_write 0xF4 w)).2 in
  s ← register_interrupt_handler MOUSE_IRQ_VECTOR (Some handler) s;
  w ← enable_irq MOUSE_IRQ_LINE w;
  '(v, w) ← vga_print (lit "Mouse: initialized
") v w;
  '(v, w) ← log_info stack cur (lit "Mouse driver initialized") [] v w;
  Some (m, s, v, w).

Definition mouse_get_x (m : mouse_state) : Z := mouse_x m.
Definition mouse_get_y (m : mouse_state) : Z := mouse_y m.
Definition mouse_get_buttons (m : mouse_state) : Z := mouse_buttons m.

(** ** Reference: packets *)

(** The byte an interrupt at [w] brings, when it is the mouse's *)
Definition mouse_byte (w : W) : option Z :=
  let '(st, w) := inb PS2_STATUS_PORT w in if Z.land st 0x20 =? 0 then None else Some (inb PS2_DATA_PORT w).1.

(** [n] interrupts, and the bytes they brought *)
Fixpoint mouse_irqs (n : nat) (m : mouse_state) (v : vga_state) (w : W) : option (list Z * (mouse_state * vga_state * W)) :=
  match n with
  | O => Some ([], (m, v, w))
  | S n =>
      let d := mouse_byte w in
      '(m, v, w) ← mouse_irq_handler m v w;
      '(l, r) ← mouse_irqs n m v w;
      Some (option_list d ++ l, r)
  end.
End mouse.

(** The packets of the bytes [l] after the bytes [q] of a packet that has
    begun: a packet begins at a byte with bit 3 set, other bytes are skipped
    there; the bytes of a packet that is not complete are left. *)
Fixpoint packets (q l : list Z) : list (Z * Z * Z) * list Z :=
  match l with
  | [] => ([], q)
  | d :: l =>
      match q with
      | [] => packets (if Z.testbit d 3 then [d] else []) l
      | [a] => packets [a; d] l
      | a :: b :: _ => let '(ps, q) := packets [] l in ((a, b, d) :: ps, q)
      end
  end.

Definition clamp (hi v : Z) : Z := Z.max 0 (Z.min hi v).

(** What a packet does to the position, the buttons and the screen *)
Definition t_packet (st : Z * Z * Z * terminal) (p : Z * Z * Z) : Z * Z * Z * terminal :=
  let '(x, y, _, t) := st in
  let '(a, dx, dy) := p in
  let x' := clamp 79 (x + s8 dx) in
  let y' := clamp 24 (y - s8 dy) in
  (x', y', a mod 8, t_call (PrintAt [88; 0] x' y') (t_call (PrintAt [32; 0] x y) t)).

Definition position (m : mouse_state) : Z * Z * Z := (mouse_get_x m, mouse_get_y m, mouse_get_buttons m).

(** The bytes [q] of a packet have arrived, and the cursor is on the screen. *)
Record mouse_ok (q : list Z) (m : mouse_state) : Prop := {
  mo_length : length (packet m) = 3%nat;
  mo_index : packet_index m = zlen q;
  mo_short : (length q < 3)%nat;
  mo_bytes : take (length q) (packet m) = q;
  mo_x : 0 <= mouse_x m < 80;
  mo_y : 0 <= mouse_y m < 25;
}.

Lemma clamp_mouse_position m :
  clamp_mouse m = set_mouse (clamp 79 (mouse_x m)) (clamp 24 (mouse_y m)) m.
Proof.
  unfold clamp_mouse, clamp, VGA_WIDTH, VGA_HEIGHT. destruct m as [p i x y b]. unfold set_mouse. cbn [mouse_x mouse_y].
  destruct (Z.ltb_spec x 0); cbn [mouse_x mouse_y packet packet_index mouse_buttons];
    destruct (Z.ltb_spec y 0); cbn [mouse_x mouse_y packet packet_index mouse_buttons];
    match goal with |- context [80 <=? ?a] => destruct (Z.leb_spec 80 a) end;
    cbn [mouse_x mouse_y packet packet_index mouse_buttons];
    match goal with |- context [25 <=? ?a] => destruct (Z.leb_spec 25 a) end; f_equal; lia.
Qed.

(** The flag bit and the buttons *)
Lemma flag_bit d : (Z.land d 0x08 =? 0) = negb (Z.testbit d 3).
Proof.
  change 8 with (2 ^ 3). apply Bool.eq_iff_eq_true. rewrite Z.eqb_eq, negb_true_iff. split; intros E.
  - apply (f_equal (λ z, Z.testbit z 3)) in E. rewrite Z.land_spec, Z.pow2_bits_true, andb_true_r in E by lia. by rewrite E, Z.bits_0.
  - apply Z.bits_inj'. intros n Hn. rewrite Z.land_spec, Z.bits_0. destruct (Z.eq_dec n 3) as [->|Hne]; [by rewrite E|].
    rewrite Z.pow2_bits_false by lia. apply andb_false_r.
Qed.

Section tracking.
Context {W : Type} `{Ports W} (log : W → list (Z * Z)) `{!PortLog W log}.

(** A complete packet *)
Lemma packet_moves a dx dy m t v w :
  0 <= mouse_x m < 80 → 0 <= mouse_y m < 25 → packet m = [a; dx; dy] → displayed log t v w →
  ∃ v1 w1 m' v' w', clear_cursor m v w = Some (v1, w1) ∧
    draw_cursor {| packet := packet m; packet_index := packet_index m; mouse_x := mouse_x m + s8 dx;
                   mouse_y := mouse_y m - s8 dy; mouse_buttons := Z.land a 0x07 |} v1 w1 = Some (m', v', w') ∧
    packet m' = packet m ∧ packet_index m' = packet_index m ∧ 0 <= mouse_x m' < 80 ∧ 0 <= mouse_y m' < 25 ∧
    let '(p', t') := t_packet (position m, t) (a, dx, dy) in position m' = p' ∧ displayed log t' v' w'.
Proof.
  intros Hx Hy Hp Hd. unfold clear_cursor, VGA_WIDTH, VGA_HEIGHT.
  assert (((mouse_x m <? 0) || (mouse_y m <? 0) || (80 <=? mouse_x m) || (25 <=? mouse_y m)) = false) as ->
    by (rewrite !orb_false_iff; lia).
  destruct (call_displayed log (PrintAt [32; 0] (mouse_x m) (mouse_y m)) t v w) as (v1 & w1 & E1 & Hd1);
    [split; [by eexists|lia]|done|]. cbn [run_call] in E1. rewrite E1. exists v1, w1.
  unfold draw_cursor. rewrite clamp_mouse_position. cbn [mouse_x mouse_y set_mouse].
  set (x' := clamp 79 _). set (y' := clamp 24 _).
  assert (0 <= x' < 80 ∧ 0 <= y' < 25) as [Hx' Hy'] by (unfold x', y', clamp; lia).
  destruct (call_displayed log (PrintAt [88; 0] x' y') _ v1 w1 ltac:(split; [by eexists|lia]) Hd1) as (v2 & w2 & E2 & Hd2).
  cbn [run_call] in E2. rewrite E2. cbn [mbind option_bind]. eexists _, v2, w2. split; [reflexivity|]. split; [reflexivity|].
  cbn [packet packet_index mouse_x mouse_y set_mouse]. do 4 (split; [done|]). unfold t_packet, position. split; [|exact Hd2].
  unfold mouse_get_x, mouse_get_y, mouse_get_buttons, set_mouse. cbn [mouse_x mouse_y mouse_buttons].
  change 0x07 with (Z.ones 3). by rewrite Z.land_ones by lia.
Qed.

(** The bytes of a packet, in the array *)
Lemma packet_store (q p : list Z) (d : Z) :
  length p = 3%nat → (length q < 3)%nat → take (length q) p = q →
  ∃ p', zset p (zlen q) d = Some p' ∧ length p' = 3%nat ∧ take (S (length q)) p' = q ++ [d].
Proof.
  intros Hl Hq Ht. assert (length q < length p)%nat as Hlt by lia. eexists. split; [apply zset_in; unfold zlen; lia|].
  unfold zlen. rewrite Nat2Z.id, length_insert. split; [done|].
  rewrite (take_S_r _ _ d) by by apply list_lookup_insert_eq. by rewrite take_insert_ge, Ht by lia.
Qed.

(** One interrupt *)
Lemma irq_tracks q m t v w :
  mouse_ok q m → displayed log t v w →
  let '(ps, q') := packets q (option_list (mouse_byte w)) in
  ∃ m' v' w', mouse_irq_handler m v w = Some (m', v', w') ∧ mouse_ok q' m' ∧
    let '(p', t') := foldl t_packet (position m, t) ps in position m' = p' ∧ displayed log t' v' w'.
Proof.
  intros [Hl Hi Hs Hb Hx Hy] Hd. unfold mouse_irq_handler, mouse_byte.
  assert (displayed log t v (inb PS2_STATUS_PORT w).2) as Hd1 by by apply displayed_inb.
  destruct (inb PS2_STATUS_PORT w) as [st w1]. cbn [snd] in Hd1.
  destruct (Z.land st 0x20 =? 0); [cbn; by eexists _, _, _|].
  assert (displayed log t v (inb PS2_DATA_PORT w1).2) as Hd2 by by apply displayed_inb.
  destruct (inb PS2_DATA_PORT w1) as [d w2]. cbn [fst snd] in *. change (option_list (Some d)) with [d]. rewrite flag_bit, Hi.
  destruct ((zlen q =? 0) && negb (Z.testbit d 3)) eqn:E.
  { apply andb_true_iff in E as [E1%Z.eqb_eq E2%negb_true_iff]. destruct q; [|done]. cbn [packets]. rewrite E2. cbn. by eexists _, _, _. }
  destruct (packet_store q (packet m) d Hl Hs Hb) as (p & -> & Hp & Ht). cbn [mbind option_bind].
  cbn [set_packet packet_index packet]. destruct q as [|a [|b [|c q]]]; [| | |cbn in Hs; lia].
  - cbn [zlen length Z.of_nat Z.eqb andb] in E. apply negb_false_iff in E. cbn [packets]. rewrite E. cbn. eexists _, _, _. split; [reflexivity|].
    split; [by split; cbn; lia || done|done].
  - cbn. eexists _, _, _. split; [reflexivity|]. split; [by split; cbn; lia || done|done].
  - cbn [packets]. change (zlen [a; b] + 1 <? 3) with false. cbn match.
    destruct p as [|a' [|b' [|d' [|? ?]]]]; try done. cbn in Ht. injection Ht as -> -> ->.
    unfold set_packet, set_mouse. cbn [packet packet_index mouse_x mouse_y mouse_buttons]. change ([a; b; d].[1]) with (Some b). change ([a; b; d].[2]) with (Some d).
    change ([a; b; d].[0]) with (Some a). cbn [mbind option_bind].
    destruct (packet_moves a b d {| packet := [a; b; d]; packet_index := 0; mouse_x := mouse_x m; mouse_y := mouse_y m;
      mouse_buttons := mouse_buttons m |} t v w2 Hx Hy eq_refl Hd2) as (v1 & w3 & m' & v' & w' & -> & E2 & Hp' & Hi' & Hx' & Hy' & Hpos).
    cbn [mbind option_bind set_mouse packet packet_index mouse_x mouse_y mouse_buttons] in *.
    change ([a; b; d].[0]) with (Some a). cbn [mbind option_bind]. rewrite E2.
    eexists _, _, _. split; [reflexivity|]. split; [|exact Hpos].
    split; rewrite ?Hp', ?Hi'; (done || cbn; lia).
Qed.

Lemma packets_app q l1 l2 :
  packets q (l1 ++ l2) = let '(ps, q1) := packets q l1 in let '(ps2, q2) := packets q1 l2 in (ps ++ ps2, q2).
Proof.
  revert q. induction l1 as [|d l1 IH]; intros q; [cbn; by destruct (packets q l2)|].
  destruct q as [|a [|b q]]; cbn [app packets]; [apply IH|apply IH|]. rewrite IH.
  destruct (packets [] l1) as [ps q1]. by destruct (packets q1 l2).
Qed.

Lemma irqs_track n q m t v w :
  mouse_ok q m → displayed log t v w →
  ∃ l m' v' w', mouse_irqs n m v w = Some (l, (m', v', w')) ∧
    let '(ps, q') := packets q l in mouse_ok q' m' ∧
    let '(p', t') := foldl t_packet (position m, t) ps in position m' = p' ∧ displayed log t' v' w'.
Proof.
  revert q m t v w. induction n as [|n IH]; intros q m t v w Hm Hd; [by exists [], m, v, w|]. cbn [mouse_irqs].
  pose proof (irq_tracks q m t v w Hm Hd) as Hstep. destruct (packets q (option_list (mouse_byte w))) as [ps q1] eqn:E1.
  destruct Hstep as (m1 & v1 & w1 & -> & Hm1 & Hpos). cbn [mbind option_bind].
  destruct (foldl t_packet (position m, t) ps) as [p1 t1] eqn:E2. destruct Hpos as [<- Hd1].
  destruct (IH q1 m1 t1 v1 w1 Hm1 Hd1) as (l & m' & v' & w' & -> & Hrest). cbn [mbind option_bind].
  eexists _, m', v', w'. split; [reflexivity|]. rewrite packets_app, E1. destruct (packets q1 l) as [ps2 q2].
  rewrite foldl_app, E2. exact Hrest.
Qed.

(** ** Initialisation *)
Lemma displayed_wait wait n t v w : displayed log t v w → displayed log t v (wait_while wait n w).
Proof.
  revert w. induction n as [|n IH]; intros w Hd; [done|]. cbn [wait_while].
  pose proof (displayed_inb log PS2_STATUS_PORT t v w Hd) as Hd1. destruct (inb PS2_STATUS_PORT w) as [st w1].
  destruct (wait st); [by apply IH|done].
Qed.
Lemma displayed_mouse_wait type t v w : displayed log t v w → displayed log t v (mouse_wait type w).
Proof. intros Hd. unfold mouse_wait. destruct (type =? 0); by apply displayed_wait. Qed.

#[local] Ltac other_port := first [apply (displayed_outb log); [by vm_compute|by vm_compute|] | apply (displayed_inb log) | apply displayed_mouse_wait].

Lemma displayed_mouse_write d t v w : displayed log t v w → displayed log t v (mouse_write d w).
Proof. intros Hd. unfold mouse_write. by repeat other_port. Qed.
Lemma displayed_mouse_read t v w : displayed log t v w → displayed log t v (mouse_read w).2.
Proof. intros Hd. unfold mouse_read. by repeat other_port. Qed.

Context {F : Type} (handler : F) (stack : nat → list Z) (stack_size : ∀ k, length (stack k) = k) (cur : Z).

(** The two messages of [mouse_init] *)
Definition t_init (t : terminal) : terminal :=
  logged cur LOG_INFO (bytes_of_string "Mouse driver initialized") (t_print (str (lit "Mouse: initialized
")) t).

Lemma mouse_start p :
  length p = 3%nat → mouse_ok [] {| packet := p; packet_index := 0; mouse_x := 0; mouse_y := 0; mouse_buttons := 0 |}.
Proof. intros Hp. split; cbn; lia || done. Qed.

(** Line 12 is bit 4 of the second controller's mask. *)
Lemma displayed_enable t v w :
  displayed log t v w → ∃ w', enable_irq MOUSE_IRQ_LINE w = Some w' ∧ displayed log t v w'.
Proof.
  intros Hd. apply (displayed_inb log PIC2_DATA) in Hd.
  assert (enable_irq MOUSE_IRQ_LINE w = let '(x, w) := inb PIC2_DATA w in Some (outb PIC2_DATA (u8 (Z.land x (Z.lnot (Z.shiftl 1 4)))) w)) as ->
    by reflexivity.
  destruct (inb PIC2_DATA w) as [x w1]. eexists. split; [done|]. by other_port.
Qed.

Lemma mouse_init_ok m (s : idt_state F) t v w :
  length (packet m) = 3%nat → zlen (interrupt_handlers s) = 256 → displayed log t v w →
  ∃ m' s' v' w', mouse_init handler stack cur m s v w = Some (m', s', v', w') ∧
    mouse_ok [] m' ∧ position m' = (0, 0, 0) ∧ displayed log (t_init t) v' w' ∧
    zlen (interrupt_handlers s') = 256 ∧
    ∀ i, (interrupt_handlers s').[i] = if 44 =? i then Some (Some handler) else (interrupt_handlers s).[i].
Proof.
  intros Hp Hs Hd. unfold mouse_init.
  assert (displayed log t v (inb PS2_DATA_PORT (mouse_wait 1 (outb PS2_CMD_PORT 0x20 (mouse_wait 0
    (outb PS2_CMD_PORT 0xA8 (mouse_wait 0 w)))))).2) as Hd1 by by repeat other_port.
  destruct (inb PS2_DATA_PORT _) as [status w1]. cbn [snd] in Hd1.
  destruct (handler_registered MOUSE_IRQ_VECTOR (Some handler) s Hs) as (s' & -> & Hs' & Hh). cbn [mbind option_bind].
  match goal with |- context [enable_irq MOUSE_IRQ_LINE ?a] => destruct (displayed_enable t v a) as (w2 & -> & Hd3) end.
  { apply displayed_mouse_read, displayed_mouse_write, displayed_mouse_read, displayed_mouse_write. by repeat other_port. }
  cbn [mbind option_bind].
  destruct (print_displayed log (lit "Mouse: initialized
") t v _ ltac:(by eexists) Hd3) as (v1 & w3 & -> & Hd4). cbn [mbind option_bind].
  destruct (log_keeps (displayed log) (call_displayed log) stack cur LOG_INFO (lit "Mouse driver initialized") (bytes_of_string "Mouse driver initialized") []
    (bytes_of_string "Mouse driver initialized") _ v1 w3 stack_size ltac:(done) eq_refl eq_refl Hd4) as (v2 & w4 & E2 & Hd5).
  unfold log_info. rewrite E2. cbn [mbind option_bind]. eexists _, s', v2, w4. split; [reflexivity|].
  split; [exact (mouse_start _ Hp)|]. split; [exact eq_refl|]. split; [exact Hd5|]. split; [exact Hs'|]. exact Hh.
Qed.

(** C25. The mouse: after [mouse_init], the handler is registered on vector 44
    alone, and after any number of interrupts, whatever the controller
    answers, the bytes that came from the mouse have been cut into packets,
    position and buttons are those of the packets, the position stays on the
    screen, and the screen shows the cursor moved by every packet. *)
Theorem mouse_tracks_packets n m (s : idt_state F) t v w :
  length (packet m) = 3%nat → zlen (interrupt_handlers s) = 256 → displayed log t v w →
  ∃ m1 s1 v1 w1, mouse_init handler stack cur m s v w = Some (m1, s1, v1, w1) ∧
  (∀ i, (interrupt_handlers s1).[i] = if 44 =? i then Some (Some handler) else (interrupt_handlers s).[i]) ∧
  ∃ bytes m' v' w', mouse_irqs n m1 v1 w1 = Some (bytes, (m', v', w')) ∧
    let '(p, t') := foldl t_packet (0, 0, 0, t_init t) (packets [] bytes).1 in
    position m' = p ∧ displayed log t' v' w' ∧ 0 <= mouse_get_x m' < 80 ∧ 0 <= mouse_get_y m' < 25.
Proof.
  intros Hp Hs Hd. destruct (mouse_init_ok m s t v w Hp Hs Hd) as (m1 & s1 & v1 & w1 & E & Hm1 & Hpos & Hd1 & _ & Hh).
  exists m1, s1, v1, w1. split; [exact E|]. split; [exact Hh|].
  destruct (irqs_track n [] m1 _ v1 w1 Hm1 Hd1) as (l & m' & v' & w' & E' & Hrest).
  exists l, m', v', w'. split; [exact E'|]. destruct (packets [] l) as [ps q]. destruct Hrest as [Hm' Hrest]. rewrite Hpos in Hrest.
  destruct (foldl t_packet (0, 0, 0, t_init t) ps) as [p t'] eqn:Ef. cbn [fst]. rewrite Ef. destruct Hrest as [Hpm Hdm].
  destruct Hm' as [_ _ _ _ Hx Hy]. split; [exact Hpm|]. split; [exact Hdm|]. split; [exact Hx|exact Hy].
Qed.
End tracking.

(** A machine on which every status byte is 0x29, "data from the mouse", and
    every data byte 0x0D. *)
Definition mouse_machine : machine :=
  {| reads := λ _ port, if port =? 0x60 then 0x0D else 0x29; clock := 0; writes := []; word_writes := []; long_writes := [] |}.

Lemma mouse_tracks_packets_witness :
  let m := {| packet := [0; 0; 0]; packet_index := 2; mouse_x := 5; mouse_y := 5; mouse_buttons := 1 |} in
  let s := {| idt := []; idtp := (0, 0); interrupt_handlers := replicate 256 None; idtr := (0, 0) |} : idt_state nat in
  ∃ m1 s1 v1 w1, mouse_init 7%nat junk LOG_INFO m s blank_screen mouse_machine = Some (m1, s1, v1, w1) ∧
  (∀ i, (interrupt_handlers s1).[i] = if 44 =? i then Some (Some 7%nat) else (interrupt_handlers s).[i]) ∧
  ∃ bytes m' v' w', mouse_irqs 7 m1 v1 w1 = Some (bytes, (m', v', w')) ∧
    let '(p, t') := foldl t_packet (0, 0, 0, t_init LOG_INFO blank_terminal) (packets [] bytes).1 in
    position m' = p ∧ displayed writes t' v' w' ∧ 0 <= mouse_get_x m' < 80 ∧ 0 <= mouse_get_y m' < 25.
Proof.
  cbv zeta. apply (mouse_tracks_packets writes 7%nat junk (λ k, length_replicate k 170) LOG_INFO 7).
  - done.
  - vm_compute. reflexivity.
  - split; [|by repeat split]. exact (proj1 blank_displayed).
Defined.
End Mouse.
