(* ===== verification/Quiet.v ===== *)
(** * Quiet: the code that leaves the interrupt controllers alone

    The masks [enable_irq] opens stay as they are through the screen, the log,
    the serial line, the keyboard and the shell: none of them writes to a port
    of the controllers.  Stated once for every property [I] of the machine that
    only such a write can change (class [Quiet]); and what the initialisations of
    the serial port, the timer and the keyboard write to their own ports. *)
From S2P Require Import Prelude CString Ports Vga Log Serial Keyboard Timer Shell Idt.

Module Quiet.

(** ** The masks are such a property *)
#[export] Instance masks_quiet {W : Type} `{Ports W} (log : W → list (Z * Z)) `{!PortLog W log} m1 m2 :
  Quiet (λ w, Idt.masks log w m1 m2).
Proof.
  split.
  - intros port w. unfold Idt.masks. by rewrite log_inb.
  - intros port v w Hp [H1 H2]. unfold pic_port in Hp. apply bool_decide_eq_false in Hp.
    unfold Idt.masks, Idt.pic1, Idt.pic2 in *. rewrite log_outb, !Idt.pic_run_app, H1, H2. cbn [foldl Idt.pic_write].
    destruct (Z.eqb_spec (u16 port) Idt.PIC1_CMD) as [E|_]; [rewrite E in Hp; by destruct Hp; left|].
    destruct (Z.eqb_spec (u16 port) Idt.PIC1_DATA) as [E|_]; [rewrite E in Hp; by destruct Hp; right; left|].
    destruct (Z.eqb_spec (u16 port) Idt.PIC2_CMD) as [E|_]; [rewrite E in Hp; by destruct Hp; do 2 right; left|].
    destruct (Z.eqb_spec (u16 port) Idt.PIC2_DATA) as [E|_]; [rewrite E in Hp; by destruct Hp; do 3 right; left|]. done.
Qed.

(** So is what has been written to the ports, in whatever order. *)
#[export] Instance wrote_quiet {W : Type} `{Ports W} (log : W → list (Z * Z)) `{!PortLog W log} l : Quiet (λ w, l `sublist_of` log w).
Proof.
  split.
  - intros port w. by rewrite log_inb.
  - intros port v w _ Hl. rewrite log_outb. by apply sublist_inserts_r.
Qed.
#[export] Instance and_quiet {W : Type} `{Ports W} (I J : W → Prop) `{!Quiet I} `{!Quiet J} : Quiet (λ w, I w ∧ J w).
Proof.
  split.
  - intros port w [? ?]. split; by apply quiet_inb.
  - intros port v w Hp [? ?]. split; by apply quiet_outb.
Qed.

(** A command without bit 4 starts no initialisation: the end of an interrupt
    is quiet too. *)
Lemma eoi_masks {W : Type} `{Ports W} (log : W → list (Z * Z)) `{!PortLog W log} m1 m2 port w :
  port = Idt.PIC1_CMD ∨ port = Idt.PIC2_CMD → Idt.masks log w m1 m2 → Idt.masks log (outb port 0x20 w) m1 m2.
Proof.
  intros Hp [H1 H2]. unfold Idt.masks, Idt.pic1, Idt.pic2 in *. rewrite log_outb, !Idt.pic_run_app, H1, H2.
  by destruct Hp as [-> | ->].
Qed.

(** The masks after the two [enable_irq] of the start: the lines of the clock,
    of the keyboard and of the second controller *)
Lemma kernel_lines {W : Type} `{Ports W} (log : W → list (Z * Z)) w n v :
  Idt.masks log w 0xF8 0xFF → 0 <= n < 16 → Idt.line_open (log w) n v ↔ n <= 2 ∧ v = 32 + n.
Proof.
  intros [H1 H2] Hn. unfold Idt.line_open. rewrite H1, H2. cbn [Idt.pic_mask Idt.pic_offset].
  assert (n = 0 ∨ n = 1 ∨ n = 2 ∨ n = 3 ∨ n = 4 ∨ n = 5 ∨ n = 6 ∨ n = 7 ∨ 8 <= n) as Hc by lia.
  destruct Hc as [->|[->|[->|[->|[->|[->|[->|[->|H8]]]]]]]]; cbn; try (split; intros [? ?]; (done || lia)).
  destruct (Z.ltb_spec n 8); [lia|]. assert (Z.testbit 0xFF (n - 8) = true) as ->.
  { change 0xFF with (Z.ones 8). apply Z.ones_spec_low. lia. }
  split; intros [? ?]; (done || lia).
Qed.

(** ** What the initialisations of the devices write *)
Section writes.
Context {W : Type} `{Ports W} (log : W → list (Z * Z)) `{!PortLog W log}.

(** The serial port without interrupts, at the divisor 3, 8 bits, with its
    FIFO; the timer's chip in mode 3 at 11931, a hundred times a second; the
    keyboard controller asked for its command byte and given a new one, the
    keyboard switched on. *)
Definition serial_writes : list (Z * Z) :=
  [(0x3F9, 0); (0x3FB, 0x80); (0x3F8, 3); (0x3F9, 0); (0x3FB, 3); (0x3FA, 0xC7); (0x3FC, 0x0B)].
Definition timer_writes : list (Z * Z) := [(0x43, 0x36); (0x40, 0x9B); (0x40, 0x2E)].
Definition keyboard_writes : list (Z * Z) := [(0x64, 0x20); (0x64, 0x60); (0x60, 0xF4)].

Lemma serial_init_writes w : log (Serial.serial_init w).2 = log w ++ serial_writes.
Proof. unfold Serial.serial_init. cbn [snd]. rewrite !log_outb, <- !app_assoc. reflexivity. Qed.

Lemma enable_irq_writes n w w' : Idt.enable_irq n w = Some w' → log w `prefix_of` log w'.
Proof.
  unfold Idt.enable_irq. destruct (if n <? 8 then _ else _) as [port irq]. destruct (31 <=? irq); [done|].
  pose proof (log_inb port w) as Hl. destruct (inb port w) as [v w1]. intros [= <-]. rewrite log_outb. cbn [snd] in Hl. rewrite Hl.
  by apply prefix_app_r.
Qed.

Lemma timer_init_writes {F} (h : F) (s s' : Idt.idt_state F) w w' :
  Timer.timer_init h s w = Some (s', w') → (log w ++ timer_writes) `prefix_of` log w'.
Proof.
  unfold Timer.timer_init. intros (s1 & _ & (w1 & E & [= _ <-])%bind_Some)%bind_Some. apply enable_irq_writes in E.
  rewrite !log_outb, <- !app_assoc in E. exact E.
Qed.

(** Reading a port writes nothing. *)
Lemma read_log port w v w' : inb port w = (v, w') → log w' = log w.
Proof. intros E. pose proof (log_inb port w) as Hl. by rewrite E in Hl. Qed.

Lemma kb_drain_log n w : log (Keyboard.kb_drain n w) = log w.
Proof.
  revert w. induction n as [|n IH]; intros w; cbn [Keyboard.kb_drain]; [done|].
  destruct (inb _ w) as [v w1] eqn:E. apply read_log in E. destruct (_ =? 0); [done|]. by rewrite IH, log_inb.
Qed.

Lemma kb_poll_log cond n w w' : Keyboard.kb_poll cond n w = Some w' → log w' = log w.
Proof.
  revert w. induction n as [|n IH]; intros w; cbn [Keyboard.kb_poll]; [done|].
  destruct (inb _ w) as [v w1] eqn:E. apply read_log in E. destruct (cond v); [intros E'%IH|intros [= <-]]; congruence.
Qed.

Lemma keyboard_init_writes {F} rounds (h : F) k (idt : Idt.idt_state F) w k' idt' w' l :
  Keyboard.keyboard_init rounds h k idt w = Some (k', idt', w') → l `sublist_of` log w → (l ++ keyboard_writes) `sublist_of` log w'.
Proof.
  unfold Keyboard.keyboard_init. intros (t & _ & (w1 & E1%kb_poll_log & E)%bind_Some)%bind_Some Hl.
  destruct (inb _ w1) as [cb w2] eqn:E2. apply read_log in E2. apply bind_Some in E as (w3 & E3%kb_poll_log & [= _ _ <-]).
  rewrite !log_outb, E3, log_outb, E2, E1, log_outb, kb_drain_log, <- !app_assoc. apply sublist_app; [exact Hl|].
  do 2 apply sublist_skip. apply sublist_cons. reflexivity.
Qed.
End writes.

Section quiet.
Context {W : Type} `{Ports W} (I : W → Prop) `{!Quiet I}.

Ltac quiet := repeat match goal with
  | |- I (outb _ _ _) => apply quiet_outb; [reflexivity|]
  | |- I (inb _ _).2 => apply quiet_inb
  | |- I (let '(_, w) := inb ?p ?v in w) => change (I (inb p v).2)
  | Hw : I ?w |- I ?w => exact Hw
  end.

(** Reading a port into a variable *)
Lemma inb_quiet port w v w' : inb port w = (v, w') → I w → I w'.
Proof. intros E Hw. pose proof (quiet_inb port w Hw) as Hq. by rewrite E in Hq. Qed.

(** ** drivers/vga.c *)
Lemma update_cursor_quiet s w : I w → I (Vga.vga_update_cursor s w).
Proof. intros Hw. unfold Vga.vga_update_cursor. quiet. Qed.
Lemma enable_cursor_quiet a b w : I w → I (Vga.vga_enable_cursor a b w).
Proof. intros Hw. unfold Vga.vga_enable_cursor. quiet. Qed.
Lemma clear_quiet s w s' w' : Vga.vga_clear s w = Some (s', w') → I w → I w'.
Proof. intros (s1 & _ & [= <- <-])%bind_Some Hw. by apply update_cursor_quiet. Qed.
Lemma vga_init_quiet s w s' w' : Vga.vga_init s w = Some (s', w') → I w → I w'.
Proof.
  intros ([s1 w1] & E & [= <- <-])%bind_Some Hw. eapply update_cursor_quiet, clear_quiet; [exact E|].
  by apply enable_cursor_quiet.
Qed.
Lemma putchar_quiet c s w s' w' : Vga.vga_putchar c s w = Some (s', w') → I w → I w'.
Proof. intros (s1 & _ & (s2 & _ & [= <- <-])%bind_Some)%bind_Some Hw. by apply update_cursor_quiet. Qed.
Lemma print_quiet b s w s' w' : Vga.vga_print b s w = Some (s', w') → I w → I w'.
Proof.
  revert s w. induction b as [|c b IH]; intros s w; cbn [Vga.vga_print]; [done|].
  destruct (negb _); [|by intros [= <- <-]]. intros ([s1 w1] & E & E2)%bind_Some Hw. eapply IH; [exact E2|]. by eapply putchar_quiet.
Qed.
Lemma call_quiet c s w s' w' : Vga.run_call c s w = Some (s', w') → I w → I w'.
Proof.
  destruct c as [b|b x y|fg bg|x y|]; cbn [Vga.run_call].
  - apply print_quiet.
  - intros ([s1 w1] & E & [= <- <-])%bind_Some Hw. eapply update_cursor_quiet, print_quiet; [exact E|exact Hw].
  - by intros [= <- <-].
  - unfold Vga.vga_set_cursor. destruct (_ && _); intros [= <- <-]; [apply update_cursor_quiet|done].
  - apply clear_quiet.
Qed.

(** ** kernel/log.c *)
Lemma log_quiet stack cur level fmt args s w s' w' : Log.log_vprintf stack cur level fmt args s w = Some (s', w') → I w → I w'.
Proof.
  unfold Log.log_vprintf. destruct (_ <? _); [by intros [= <- <-]|].
  intros ([s1 w1] & E1 & ([n b] & _ & (b' & _ & ([s2 w2] & E2 & E3)%bind_Some)%bind_Some)%bind_Some)%bind_Some Hw.
  eapply print_quiet; [exact E3|]. eapply print_quiet; [exact E2|]. clear E2 E3. unfold Log.print_log_prefix in E1.
  repeat match type of E1 with
    | (if ?b then _ else _) = _ => destruct b
    | (_ ≫= _) = _ => apply bind_Some in E1 as (? & _ & E1)
    end; by eapply print_quiet.
Qed.
Lemma log_init_quiet stack cur s w s' w' : Log.log_init stack cur s w = Some (s', w') → I w → I w'.
Proof.
  intros ([s1 w1] & E1 & ([s2 w2] & E2 & E3)%bind_Some)%bind_Some Hw.
  eapply log_quiet; [exact E3|]. eapply clear_quiet; [exact E2|]. by eapply vga_init_quiet.
Qed.

(** ** drivers/serial.c *)
Lemma wait_transmit_quiet n w : I w → I (Serial.wait_transmit n Serial.SERIAL_COM1_BASE w).
Proof.
  revert w. induction n as [|n IH]; intros w Hw; cbn [Serial.wait_transmit]; unfold Serial.serial_is_transmit_empty;
    destruct (inb _ w) as [v w1] eqn:E; pose proof (inb_quiet _ _ _ _ E Hw); destruct (negb _); auto.
Qed.
Lemma serial_putchar_quiet c w : I w → I (Serial.serial_putchar Serial.SERIAL_COM1_BASE c w).
Proof. intros Hw. apply quiet_outb; [reflexivity|]. by apply wait_transmit_quiet. Qed.
Lemma serial_write_quiet b w w' : Serial.serial_write Serial.SERIAL_COM1_BASE b w = Some w' → I w → I w'.
Proof.
  revert w. induction b as [|c b IH]; intros w; cbn [Serial.serial_write]; [done|].
  destruct (c =? 0); [by intros [= <-]|]. intros E Hw. eapply IH; [exact E|]. apply serial_putchar_quiet.
  destruct (c =? 10); [by apply serial_putchar_quiet|done].
Qed.
Lemma serial_info_quiet b w w' : Serial.serial_info b w = Some w' → I w → I w'.
Proof.
  intros (w1 & E1 & (w2 & E2 & [= <-])%bind_Some)%bind_Some Hw. apply serial_putchar_quiet.
  eapply serial_write_quiet; [exact E2|]. by eapply serial_write_quiet.
Qed.
Lemma serial_init_quiet w : I w → I (Serial.serial_init w).2.
Proof. intros Hw. unfold Serial.serial_init. cbn [snd]. quiet. Qed.

(** ** drivers/keyboard.c and the shell's start *)
Lemma kb_drain_quiet n w : I w → I (Keyboard.kb_drain n w).
Proof.
  revert w. induction n as [|n IH]; intros w Hw; cbn [Keyboard.kb_drain]; [done|].
  destruct (inb _ w) as [v w1] eqn:E. pose proof (inb_quiet _ _ _ _ E Hw). destruct (_ =? 0); [done|]. apply IH. quiet.
Qed.
Lemma kb_poll_quiet cond n w w' : Keyboard.kb_poll cond n w = Some w' → I w → I w'.
Proof.
  revert w. induction n as [|n IH]; intros w; cbn [Keyboard.kb_poll]; [done|].
  destruct (inb _ w) as [v w1] eqn:E. intros E' Hw. pose proof (inb_quiet _ _ _ _ E Hw). destruct (cond v); [by eapply IH|].
  by injection E' as <-.
Qed.
Lemma keyboard_init_quiet {F} rounds (h : F) k (idt : Idt.idt_state F) w k' idt' w' :
  Keyboard.keyboard_init rounds h k idt w = Some (k', idt', w') → I w → I w'.
Proof.
  unfold Keyboard.keyboard_init. intros (t & _ & (w1 & E1 & E)%bind_Some)%bind_Some Hw.
  assert (I w1) as H1 by (eapply kb_poll_quiet; [exact E1|]; apply quiet_outb; [reflexivity|]; by apply kb_drain_quiet).
  destruct (inb _ w1) as [cb w2] eqn:E2. pose proof (inb_quiet _ _ _ _ E2 H1) as H2.
  apply bind_Some in E as (w3 & E3 & [= _ _ <-]). quiet. eapply kb_poll_quiet; [exact E3|]. quiet.
Qed.
Lemma drain_quiet n w : I w → I (Shell.drain n w).
Proof.
  revert w. induction n as [|n IH]; intros w Hw; cbn [Shell.drain]; destruct (inb _ w) as [v w1] eqn:E;
    pose proof (inb_quiet _ _ _ _ E Hw); destruct (negb _); auto. apply IH. quiet.
Qed.
Lemma shell_init_quiet sh w sh' w' : Shell.shell_init sh w = Some (sh', w') → I w → I w'.
Proof.
  unfold Shell.shell_init. intros E Hw. pose proof (drain_quiet 1000 w Hw) as Hd. revert E Hd.
  generalize (Shell.drain 1000 w). cbv zeta. intros w1 E Hd.
  apply bind_Some in E as (u & _ & (h & _ & (d & _ & [= _ <-])%bind_Some)%bind_Some). exact Hd.
Qed.

End quiet.
End Quiet.
