(* ===== verification/Boot.v ===== *)
(** * Boot: the start of the kernel (kernel/kmain.c)

    [kmain] up to the shell loop, on the statics of the parts it starts.  The
    messages of the file systems, which their own models leave out, are
    printed here. *)
From S2P Require Import Prelude CString Mem Ports Vga Log Idt Memory Serial Process VfsSimple RamFs Keyboard Power ProgramLoader Timer Syscall Shell Network Security Monitor Quiet.
Import Vga Log Quiet.

Module Boot.

(** The statics of the parts [kmain] starts, and after them those of parts that
    have an initialisation of their own, which [kmain] does not call: the
    packet buffer, the security tables, the system log, the device list.
    [timer_ticks] is 0 from the start. *)
Record statics (F : Type) := {
  st_idt : Idt.idt_state F;
  st_mem : Memory.memory_state;
  st_procs : Process.process_system;
  st_fds : list VfsSimple.simple_fd_t;
  st_ram : RamFs.ramfs_ptr;
  st_kbd : Keyboard.kb_state;
  st_power : Power.power_state;
  st_loader : ProgramLoader.loader_state;
  st_shell : Shell.shell_state_t;
  st_ticks : Z;
  st_net : Network.network_state;
  st_sec : Security.security_state;
  st_mon : Monitor.monitor_state;
  st_device_list : Z;
}.
Arguments st_idt {F}. Arguments st_mem {F}. Arguments st_procs {F}. Arguments st_fds {F}. Arguments st_ram {F}.
Arguments st_kbd {F}. Arguments st_power {F}. Arguments st_loader {F}. Arguments st_shell {F}.
Arguments st_ticks {F}. Arguments st_net {F}. Arguments st_sec {F}. Arguments st_mon {F}. Arguments st_device_list {F}.

Section boot.
Context {F W : Type} `{Ports W}.
(** What local arrays hold, the level of the log, the addresses of the
    assembly stubs, the table of gates, the page table and the handlers, what
    the blocks of [kmalloc] hold, and the bound on the waits for the keyboard
    controller *)
Context (stack : nat → list Z) (cur : Z) (isr irq : nat → Z) (idt_addr kpt : Z)
  (timer_interrupt_handler keyboard_interrupt_handler syscall_interrupt_handler : F)
  (fresh : RamFs.ramfs_t) (fresh_data : mem) (rounds : nat).

Definition out : Type := vga_state * W → option (vga_state * W).
Definition say (text : String.string) : out := λ '(v, w), vga_print (lit text) v w.
Definition info (text : String.string) : out := λ '(v, w), log_info stack cur (lit text) [] v w.
Definition error (text : String.string) : out := λ '(v, w), log_error stack cur (lit text) [] v w.
#[global] Arguments say _%_string_scope. #[global] Arguments info _%_string_scope. #[global] Arguments error _%_string_scope.

(** "File created: %s (%d bytes)" *)
Definition created (name : list Z) (size : Z) : out := λ '(v, w),
  log_info stack cur (lit "File created: %s (%d bytes)") [VStr (Some name); VInt size] v w.

(** The messages of [ramfs_mount] *)
Definition ramfs_mount_says (p : RamFs.ramfs_ptr) (k : Memory.memory_state) : out := λ c,
  match p with
  | Some _ => c ← (λ '(v, w), log_warn stack cur (lit "RAMFS already initialized") [] v w) c; info "Filesystem mounted" c
  | None =>
      match Memory.kmalloc RamFs.SIZEOF_RAMFS k with
      | (None, _) => error "Failed to allocate RAMFS structure" c
      | (Some _, k) =>
          match Memory.kmalloc RamFs.FILE_DATA_SIZE k with
          | (None, _) => error "Failed to allocate RAMFS data" c
          | (Some _, _) =>
              c ← created (lit "hello.txt") 14 c; c ← created (lit "kernel.txt") 26 c; c ← created (lit "readme.txt") 33 c;
              c ← info "RAM filesystem initialized" c; info "Filesystem mounted" c
          end
      end
  end.

(** [fs_init] with its messages *)
Definition fs_init (s : list VfsSimple.simple_fd_t) : vga_state * W → option (list VfsSimple.simple_fd_t * (vga_state * W)) :=
  λ c, c ← info "Virtual File System initialized" c; c ← say "VFS: OK
" c; Some (VfsSimple.fs_init s, c).

(** [kmain] up to [shell_run] *)
Definition kmain (s : statics F) (c : vga_state * W) : option (statics F * (vga_state * W)) :=
  c ← (let '(v, w) := c in log_init stack cur v w);
  '(v, w) ← info "Kernel started" c;
  '(idt, w) ← Idt.idt_init isr irq idt_addr (st_idt s) w;
  c ← info "IDT initialized" (v, w);
  mem ← Memory.memory_init (st_mem s);
  c ← info "Memory initialized" c;
  mem ← Memory.paging_init kpt mem;
  '(v, w) ← info "Paging initialized" c;
  c ← vga_init v w;
  '(v, w) ← say "Initializing serial port...
" c;
  let '(ok, w) := Serial.serial_init w in
  c ← (if negb (ok =? 0) then
         '(v, w) ← say "Serial port: OK
" (v, w);
         w ← Serial.serial_info (lit "Serial port initialized for debugging") w;
         Some (v, w)
       else say "Serial port: FAILED
" (v, w));
  c ← say "Networking: SKIPPED
" c;
  c ← say "Initializing process management...
" c;
  procs ← Process.process_init (st_procs s);
  c ← say "Process management: READY
" c;
  '(v, w) ← say "Initializing timer...
" c;
  '(idt, w) ← Timer.timer_init timer_interrupt_handler idt w;
  c ← say "Timer: READY
" (v, w);
  c ← say "Initializing filesystem...
" c;
  '(fds, c) ← fs_init (st_fds s) c;
  c ← ramfs_mount_says (st_ram s) mem c;
  '(_, ram, mem) ← RamFs.ramfs_mount fresh fresh_data (st_ram s) mem;
  c ← say "Filesystem: READY
" c;
  c ← say "Initializing system call interface...
" c;
  idt ← Syscall.syscall_init syscall_interrupt_handler idt;
  c ← say "Syscalls: READY
" c;
  '(v, w) ← say "Initializing keyboard...
" c;
  '(kbd, idt, w) ← Keyboard.keyboard_init rounds keyboard_interrupt_handler (st_kbd s) idt w;
  c ← say "Keyboard driver: READY
" (v, w);
  '(v, w) ← say "Enabling IRQ 1...
" c;
  w ← Idt.enable_irq 1 w;
  let power := Power.power_init (st_power s) in
  let '(_, loader) := ProgramLoader.program_loader_init (st_loader s) in
  '(v, w) ← vga_clear v w;
  '(sh, w) ← Shell.shell_init (st_shell s) w;
  let v := vga_set_color Idt.VGA_COLOR_WHITE VGA_COLOR_BLACK v in
  c ← say "Minimalist OS v1.0 - Welcome
" (v, w);
  c ← say "----------------------------
" c;
  Some ({| st_idt := idt; st_mem := mem; st_procs := procs; st_fds := fds; st_ram := ram; st_kbd := kbd;
           st_power := power; st_loader := loader; st_shell := sh; st_ticks := st_ticks s;
           st_net := st_net s; st_sec := st_sec s; st_mon := st_mon s; st_device_list := st_device_list s |}, c).

(** ** Every step returns

    and keeps what only the ports of the interrupt controllers can change. *)
Definition good (v : vga_state) : Prop := ∃ t, shows t v.
Definition ready (I : W → Prop) (v : vga_state) (w : W) : Prop := good v ∧ I w.

Lemma good_cells v : good v → zlen (screen v) = 2000.
Proof. intros [t Hs]. exact (sh_cells _ _ Hs). Qed.

(** The screen: blanks in some colour, and the two lines of the welcome *)
Definition welcome (c : Z) : terminal :=
  t_call (Print (lit "----------------------------
")) (t_call (Print (lit "Minimalist OS v1.0 - Welcome
")) (t_call (SetColor Idt.VGA_COLOR_WHITE VGA_COLOR_BLACK)
    {| t_col := 0; t_row := 0; t_color := c; t_lines := replicate 25 (blank_line c) |})).

Definition returns {A} (Q : A → Prop) (m : option A) : Prop := ∃ a, m = Some a ∧ Q a.
Lemma bind_eq {A B} (m : option A) (f : A → option B) a r : m = Some a → f a = r → m ≫= f = r.
Proof. intros -> E. exact E. Qed.
Lemma returns_bind {A B} (m : option A) (f : A → option B) a Q :
  m = Some a → returns Q (f a) → returns Q (m ≫= f).
Proof. intros -> HQ. exact HQ. Qed.

Context (stack_size : ∀ k, length (stack k) = k).

Section steps.
Context (I : W → Prop) `{!Quiet I}.

Lemma say_ok text v w : is_Some (cstr (lit text)) → ready I v w → ∃ v' w', say text (v, w) = Some (v', w') ∧ ready I v' w'.
Proof.
  intros Ht [[t Hs] Hw]. destruct (call_shows (Print (lit text)) t v w Ht Hs) as (v' & w' & E & Hs').
  exists v', w'. split; [exact E|]. split; [by eexists|]. by eapply print_quiet.
Qed.

Lemma log_ok level text v w :
  0 <= level → cstr (lit text) = Some (bytes_of_string text) → is_Some (expand (bytes_of_string text) []) → ready I v w →
  ∃ v' w', log_vprintf stack cur level (lit text) [] v w = Some (v', w') ∧ ready I v' w'.
Proof.
  intros Hl Ht [o Ho] [[t Hs] Hw].
  destruct (log_shows stack cur level (lit text) _ [] o t v w stack_size Hl Ht Ho Hs) as (v' & w' & E & Hs').
  exists v', w'. split; [exact E|]. split; [by eexists|]. by eapply log_quiet.
Qed.
Lemma info_ok text v w :
  cstr (lit text) = Some (bytes_of_string text) → is_Some (expand (bytes_of_string text) []) → ready I v w →
  ∃ v' w', info text (v, w) = Some (v', w') ∧ ready I v' w'.
Proof. by apply (log_ok LOG_INFO). Qed.
#[local] Arguments say_ok _%_string_scope. #[local] Arguments info_ok _%_string_scope.
Lemma error_ok text v w :
  cstr (lit text) = Some (bytes_of_string text) → is_Some (expand (bytes_of_string text) []) → ready I v w →
  ∃ v' w', error text (v, w) = Some (v', w') ∧ ready I v' w'.
Proof. by apply (log_ok LOG_ERROR). Qed.

Lemma vga_init_ok v w : zlen (screen v) = 2000 → I w → ∃ v' w', vga_init v w = Some (v', w') ∧ ready I v' w'.
Proof.
  intros Hl Hw. unfold vga_init.
  destruct (clear_shows (vga_set_color VGA_COLOR_LIGHT_GREY VGA_COLOR_BLACK v) (vga_enable_cursor 0 15 w) Hl) as (v' & E & Hs).
  rewrite E. cbn [mbind option_bind]. eexists _, _. split; [done|]. split; [by eexists|].
  apply update_cursor_quiet; [done|]. eapply clear_quiet; [done|exact E|]. by apply enable_cursor_quiet.
Qed.

Lemma log_init_ok v w : zlen (screen v) = 2000 → I w → ∃ v' w', log_init stack cur v w = Some (v', w') ∧ ready I v' w'.
Proof.
  intros Hl Hw. unfold log_init. destruct (vga_init_ok v w Hl Hw) as (v1 & w1 & -> & Hg1 & Hw1). cbn [mbind option_bind].
  destruct (clear_shows v1 w1 (good_cells _ Hg1)) as (v2 & E2 & Hs2). rewrite E2. cbn [mbind option_bind].
  apply (info_ok "Kernel logging system initialized"); [done|by eexists|]. split; [by eexists|]. by eapply clear_quiet.
Qed.

Lemma serial_write_ok com b w : is_Some (cstr b) → is_Some (Serial.serial_write com b w).
Proof.
  intros [x (r & -> & Hx)%cstr_alt]. revert w. induction Hx as [|c x Hc _ IH]; intros w; [by eexists|].
  cbn [app Serial.serial_write]. rewrite (proj2 (Z.eqb_neq c 0) Hc). apply IH.
Qed.
Lemma serial_info_ok b w : is_Some (cstr b) → is_Some (Serial.serial_info b w).
Proof.
  intros Hb. unfold Serial.serial_info, Serial.serial_message.
  destruct (serial_write_ok Serial.SERIAL_COM1_BASE (lit "[INFO] ") w ltac:(by eexists)) as [w1 ->]. cbn [mbind option_bind].
  destruct (serial_write_ok Serial.SERIAL_COM1_BASE b w1 Hb) as [w2 ->]. by eexists.
Qed.

(** From a fresh heap the second block of [ramfs_init] does not fit: the
    mount fails, but the pointer to the first block stays. *)
Lemma ramfs_mount_ok k :
  Memory.heap_pos k = 0 →
  ∃ k', RamFs.ramfs_mount fresh fresh_data None k = Some (-1, Some (RamFs.set_data None fresh), k') ∧
    Memory.page_bitmap k' = Memory.page_bitmap k ∧ Memory.used_pages k' = Memory.used_pages k ∧
    Memory.kernel_page_directory k' = Memory.kernel_page_directory k ∧ Memory.kernel_page_table k' = Memory.kernel_page_table k ∧
    Memory.paging_enabled k' = Memory.paging_enabled k.
Proof. intros Hk. unfold RamFs.ramfs_mount, RamFs.ramfs_init, Memory.kmalloc. rewrite Hk. by eexists. Qed.

Lemma ramfs_says_ok k v w :
  Memory.heap_pos k = 0 → ready I v w → ∃ v' w', ramfs_mount_says None k (v, w) = Some (v', w') ∧ ready I v' w'.
Proof.
  intros Hk Hg. unfold ramfs_mount_says. unfold Memory.kmalloc at 1. rewrite Hk.
  change (Memory.HEAP_SIZE <? 0 +u RamFs.SIZEOF_RAMFS) with false. cbn match. unfold Memory.kmalloc.
  change (Memory.HEAP_SIZE <? _) with true. cbn match. by apply error_ok; [..|by eexists|].
Qed.

Lemma fs_started fds v w :
  ready I v w → ∃ v' w', fs_init fds (v, w) = Some (VfsSimple.fs_init fds, (v', w')) ∧ ready I v' w'.
Proof.
  intros Hg. unfold fs_init. destruct (info_ok "Virtual File System initialized" v w) as (v1 & w1 & -> & Hg1); [done|by eexists|done|].
  cbn [mbind option_bind]. destruct (say_ok "VFS: OK
" v1 w1) as (v2 & w2 & -> & Hg2); [by eexists|done|]. cbn [mbind option_bind]. by exists v2, w2.
Qed.

Lemma serial_reported v w :
  ready I v w →
  ∃ v' w', (if negb (1 =? 0) then
      say "Serial port: OK
" (v, w) ≫= λ '(v, w), Serial.serial_info (lit "Serial port initialized for debugging") w ≫= λ w, Some (v, w)
    else say "Serial port: FAILED
" (v, w)) = Some (v', w') ∧ ready I v' w'.
Proof.
  intros Hg. assert (negb (1 =? 0) = true) as Eb by done. rewrite Eb. cbv match.
  destruct (say_ok "Serial port: OK
" v w ltac:(by eexists) Hg) as (v1 & w1 & E1 & [Hg1 Hw1]).
  destruct (serial_info_ok (lit "Serial port initialized for debugging") w1 ltac:(by eexists)) as [w2 E2].
  exists v1, w2. split; [|split; [exact Hg1|by eapply serial_info_quiet]].
  eapply bind_eq; [exact E1|]. cbv beta iota. eapply bind_eq; [exact E2|]. exact eq_refl.
Qed.

Lemma greeting_ok v w :
  ready I v w →
  ∃ c v1 w1, vga_clear v w = Some (v1, w1) ∧ I w1 ∧
    ∀ w', I w' → ∃ v2 w2 v3 w3, say "Minimalist OS v1.0 - Welcome
" (vga_set_color Idt.VGA_COLOR_WHITE VGA_COLOR_BLACK v1, w') = Some (v2, w2) ∧
      say "----------------------------
" (v2, w2) = Some (v3, w3) ∧ shows (welcome c) v3 ∧ I w3.
Proof.
  intros [Hg Hw]. destruct (clear_shows v w (good_cells _ Hg)) as (v1 & E & Hs). exists (current_color v), v1, (vga_update_cursor v1 w).
  split; [exact E|]. split; [by apply update_cursor_quiet|]. intros w' Hw'.
  destruct (call_shows (SetColor Idt.VGA_COLOR_WHITE VGA_COLOR_BLACK) _ v1 w' Logic.I Hs) as (v1' & w1' & [= <- <-] & Hs1).
  destruct (call_shows (Print (lit "Minimalist OS v1.0 - Welcome
")) _ _ w' ltac:(by eexists) Hs1) as (v2 & w2 & E2 & Hs2).
  destruct (call_shows (Print (lit "----------------------------
")) _ v2 w2 ltac:(by eexists) Hs2) as (v3 & w3 & E3 & Hs3).
  exists v2, w2, v3, w3. split; [exact E2|]. split; [exact E3|]. split; [exact Hs3|].
  eapply print_quiet; [done|exact E3|]. eapply print_quiet; [done|exact E2|exact Hw'].
Qed.
End steps.

(** ** The state the shell starts in *)

(** What the statics hold before [kmain] *)
Record fresh_statics (s : statics F) : Prop := {
  fs_handlers : Idt.interrupt_handlers (st_idt s) = replicate 256 None;
  fs_procs : st_procs s = Process.process_bss;
  fs_fds : length (st_fds s) = VfsSimple.MAX_OPEN_FILES;
  fs_ram : st_ram s = None;
  fs_kbd : length (Keyboard.kb_buffer (st_kbd s)) = Keyboard.KB_BUFFER_SIZE;
  fs_user : (6 <= length (Shell.username (st_shell s)))%nat;
  fs_host : (1 <= length (Shell.hostname (st_shell s)))%nat;
  fs_cwd : (2 <= length (Shell.cwd (st_shell s)))%nat;
  fs_power : st_power s = Power.power_bss;
  fs_ticks : st_ticks s = 0;
  fs_net : st_net s = Network.network_bss;
  fs_sec : st_sec s = Security.security_bss;
  fs_mon : st_mon s = Monitor.monitor_bss;
  fs_devs : st_device_list s = 0;
}.

(** The parts after [kmain]: the three interrupt handlers, the gates and the
    register that points to them, page zero to 255 in use, the kernel mapped,
    one running process, no open file, no key pending, the power manager on with
    its battery at three quarters, no program loaded; and the four parts nothing
    has started, as they were. *)
Record started (s : statics F) : Prop := {
  sd_handlers : ∀ i, 0 <= i < 256 → (Idt.interrupt_handlers (st_idt s)).[i] =
    Some (if i =? 32 then Some timer_interrupt_handler else if i =? 33 then Some keyboard_interrupt_handler
          else if i =? 0x80 then Some syscall_interrupt_handler else None);
  sd_gates : ∀ i, 0 <= i < 256 → Idt.gate_at (st_idt s) i =
    Some (if i <? 32 then (u32 (isr (Z.to_nat i)), 0x08, 0x8E)
          else if i <? 48 then (u32 (irq (Z.to_nat (i - 32))), 0x08, 0x8E) else (0, 0, 0));
  sd_idtr : Idt.idtr (st_idt s) = (2047, idt_addr);
  sd_pages : Memory.pages_ok (st_mem s);
  sd_used : ∀ p, 0 <= p → Memory.page_used (st_mem s) p = (p <? 256);
  sd_count : Memory.used_pages (st_mem s) = 256;
  sd_paging : Memory.paging_ok kpt (st_mem s) ∧ Memory.paging_enabled (st_mem s) = true;
  sd_procs : Process.process_ok (st_procs s) ∧ Process.next_pid (st_procs s) = 1 ∧
    Process.state_at (st_procs s) 0 = Some Process.PROCESS_RUNNING;
  sd_names : Shell.processes_printable (st_procs s);
  sd_fds : VfsSimple.vfs_ok (st_fds s) ∧ VfsSimple.fd_view (st_fds s) = replicate 16 None;
  sd_ram : st_ram s = Some (RamFs.set_data None fresh);
  sd_kbd : Keyboard.kb_ok (st_kbd s) ∧ Keyboard.pending (st_kbd s) = [];
  sd_shell : cstr (Shell.username (st_shell s)) = Some (bytes_of_string "Slime") ∧
    cstr (Shell.hostname (st_shell s)) = Some [] ∧ cstr (Shell.cwd (st_shell s)) = Some (bytes_of_string "/");
  sd_power : Power.power_ok (st_power s) ∧ Power.current_power_state (st_power s) = Power.POWER_STATE_ON ∧
    Power.present (Power.battery_status (st_power s)) = 1 ∧ Power.percentage (Power.battery_status (st_power s)) = 75;
  sd_loader : ProgramLoader.program_memory_used (st_loader s) = 0;
  sd_ticks : st_ticks s = 0;
  sd_unstarted : st_net s = Network.network_bss ∧ st_sec s = Security.security_bss ∧ st_mon s = Monitor.monitor_bss ∧
    st_device_list s = 0;
}.

(** The interrupt lines of the clock, of the keyboard and of the second
    controller are open, each at its vector; no other line is. *)
Definition lines_started (log : W → list (Z * Z)) (w : W) : Prop :=
  ∀ n v, 0 <= n < 16 → Idt.line_open (log w) n v ↔ n <= 2 ∧ v = 32 + n.

Lemma registered_gates n h (s s' : Idt.idt_state F) i :
  Idt.register_interrupt_handler n h s = Some s' → Idt.gate_at s' i = Idt.gate_at s i ∧ Idt.idtr s' = Idt.idtr s.
Proof. unfold Idt.register_interrupt_handler. intros (l & _ & [= <-])%bind_Some. done. Qed.

Lemma paging_init_pages s s' :
  Memory.paging_init kpt s = Some s' →
  Memory.page_bitmap s' = Memory.page_bitmap s ∧ Memory.used_pages s' = Memory.used_pages s ∧ Memory.heap_pos s' = Memory.heap_pos s.
Proof.
  unfold Memory.paging_init. generalize (Memory.table_entry <$> seqZ 0 1024) (replicate 1024 0). intros table zeros.
  intros (d & _ & (d' & _ & [= <-])%bind_Some)%bind_Some. done.
Qed.

(** The waits for the keyboard controller end within [rounds] polls. *)
Context (output_ready : ∀ w, is_Some (Keyboard.kb_poll (λ st, Z.land st 0x01 =? 0) rounds w)).
Context (input_empty : ∀ w, is_Some (Keyboard.kb_poll (λ st, negb (Z.land st 0x02 =? 0)) rounds w)).

(** One step of a chain of binds: [E] gives the result of the first. *)
#[local] Ltac step E := eapply returns_bind; [exact E|clear E; cbv beta iota].
#[local] Ltac say :=
  match goal with Hg : ready ?I ?v ?w |- returns _ (say ?x (?v, ?w) ≫= _) =>
    let E := fresh in destruct (say_ok I x v w ltac:(by eexists) Hg) as (? & ? & E & ?); clear Hg; step E end.
#[local] Ltac inform :=
  match goal with Hg : ready ?I ?v ?w |- returns _ (info ?x (?v, ?w) ≫= _) =>
    let E := fresh in destruct (info_ok I x v w eq_refl ltac:(by eexists) Hg) as (? & ? & E & ?); clear Hg; step E end.

(** The handlers registered one after the other *)
Lemma three_registered (s : Idt.idt_state F) :
  Idt.interrupt_handlers s = replicate 256 None →
  ∃ s1 s2 s3, Idt.register_interrupt_handler 32 (Some timer_interrupt_handler) s = Some s1 ∧
    Idt.register_interrupt_handler 0x80 (Some syscall_interrupt_handler) s1 = Some s2 ∧
    zlen (Idt.interrupt_handlers s2) = 256 ∧
    Idt.register_interrupt_handler 33 (Some keyboard_interrupt_handler) s2 = Some s3 ∧
    (∀ i, Idt.gate_at s3 i = Idt.gate_at s i ∧ Idt.idtr s3 = Idt.idtr s) ∧
    ∀ i, 0 <= i < 256 → (Idt.interrupt_handlers s3).[i] =
      Some (if i =? 32 then Some timer_interrupt_handler else if i =? 33 then Some keyboard_interrupt_handler
            else if i =? 0x80 then Some syscall_interrupt_handler else None).
Proof.
  intros Hs. assert (zlen (Idt.interrupt_handlers s) = 256) as Hl by by rewrite Hs.
  destruct (Idt.handler_registered 32 (Some timer_interrupt_handler) s Hl) as (s1 & E1 & Hl1 & H1).
  destruct (Idt.handler_registered 0x80 (Some syscall_interrupt_handler) s1 Hl1) as (s2 & E2 & Hl2 & H2).
  destruct (Idt.handler_registered 33 (Some keyboard_interrupt_handler) s2 Hl2) as (s3 & E3 & _ & H3).
  exists s1, s2, s3. split; [done|]. split; [done|]. split; [done|]. split; [done|]. split.
  - intros i. destruct (registered_gates _ _ _ _ i E3), (registered_gates _ _ _ _ i E2), (registered_gates _ _ _ _ i E1).
    split; congruence.
  - intros i Hi. rewrite H3, H2, H1, Hs. change (u8 33) with 33. change (u8 0x80) with 128. change (u8 32) with 32.
    assert ((replicate 256 (@None F)).[i] = Some None) as ->.
    { unfold zget. destruct (Z.ltb_spec i 0); [lia|]. apply lookup_replicate_2. lia. }
    rewrite !(Z.eqb_sym _ i). destruct (Z.eqb_spec i 32) as [->|]; [done|]. destruct (i =? 33), (i =? 128); done.
Qed.

Lemma init_printable p : Process.process_init Process.process_bss = Some p → Shell.processes_printable p.
Proof.
  intros E. vm_compute in E. injection E as <-. split; [vm_compute; by split|]. cbn [Process.processes].
  repeat (constructor; [split; [cbn; lia|split; [cbn; lia|by eexists]]|]). constructor.
Qed.

Lemma serial_present w : ∃ w', Serial.serial_init w = (1, w').
Proof. by eexists. Qed.

(** ** The masks *)
Context (log : W → list (Z * Z)) `{!PortLog W log} `{!Idt.PicReads W log}.

(** The masks of the two controllers, and what has been written so far *)
Definition ports_set (m1 m2 : Z) (l : list (Z * Z)) (w : W) : Prop := Idt.masks log w m1 m2 ∧ l `sublist_of` log w.
#[local] Instance ports_set_quiet m1 m2 l : Quiet (ports_set m1 m2 l).
Proof. apply and_quiet; exact _. Qed.

(** The serial port, the timer's chip and the keyboard have been set up. *)
Definition devices_set_up (w : W) : Prop := (serial_writes ++ timer_writes ++ keyboard_writes) `sublist_of` log w.

Lemma serial_init_ok w w' m1 m2 :
  Serial.serial_init w = (1, w') → ports_set m1 m2 [] w → ports_set m1 m2 serial_writes w'.
Proof.
  intros E [Hm _]. pose proof (serial_init_quiet (λ w, Idt.masks log w m1 m2) w Hm) as Hm'. pose proof (serial_init_writes log w) as Hw.
  rewrite E in Hm', Hw. split; [exact Hm'|]. cbn [snd] in Hw. rewrite Hw. by apply sublist_inserts_l.
Qed.

Lemma timer_init_ok (s s1 : Idt.idt_state F) w m1 m2 l :
  Idt.register_interrupt_handler 32 (Some timer_interrupt_handler) s = Some s1 → ports_set m1 m2 l w →
  ∃ w', Timer.timer_init timer_interrupt_handler s w = Some (s1, w') ∧ ports_set (Idt.clear_bit m1 0) m2 (l ++ timer_writes) w'.
Proof.
  intros E [Hm Hl]. pose proof (timer_init_writes log timer_interrupt_handler s) as Hw. unfold Timer.timer_init in *. rewrite E in *.
  cbn [mbind option_bind] in *.
  match goal with |- context [Idt.enable_irq 0 ?a] =>
    assert (Idt.masks log a m1 m2) as Ha by (do 3 (apply (quiet_outb (I := λ w, Idt.masks log w m1 m2)); [reflexivity|]); exact Hm);
    destruct (Idt.enable_irq_masks log 0 a m1 m2 ltac:(lia) Ha) as (w' & Eq & Hw'); rewrite Eq end.
  exists w'. split; [done|]. split; [exact Hw'|]. specialize (Hw s1 w w'). rewrite Eq in Hw.
  destruct (Hw eq_refl) as [k ->]. apply sublist_inserts_r. by apply sublist_app.
Qed.

Lemma keyboard_opened w m1 m2 l :
  ports_set m1 m2 l w → ∃ w', Idt.enable_irq 1 w = Some w' ∧ ports_set (Idt.clear_bit m1 1) m2 l w'.
Proof.
  intros [Hm Hl]. destruct (Idt.enable_irq_masks log 1 w m1 m2 ltac:(lia) Hm) as (w' & E & Hm'). exists w'. split; [exact E|].
  split; [exact Hm'|]. apply (enable_irq_writes log) in E as [k ->]. by apply sublist_inserts_r.
Qed.

Lemma lines_open w : Idt.masks log w 0xF8 0xFF → lines_started log w.
Proof. intros Hm n v Hn. by apply kernel_lines. Qed.

Lemma kmain_ok s v w :
  fresh_statics s → zlen (screen v) = 2000 →
  returns (λ '(s', (v', w')), started s' ∧ Idt.masks log w' 0xF8 0xFF ∧ devices_set_up w' ∧ Keyboard.mods (st_kbd s') = Keyboard.mods (st_kbd s) ∧
      ∃ c, shows (welcome c) v')
    (kmain s (v, w)).
Proof.
  intros [Hh Hp Hf Hr Hk Hu Hho Hc Hpow Hticks Hnet Hsec Hmon Hdev] Hl. unfold kmain.
  destruct (log_init_ok (λ _, True) v w Hl Logic.I) as (v1 & w1 & E & Hg1). step E. inform.
  match goal with |- context [Idt.idt_init _ _ _ _ ?w] =>
    destruct (Idt.idt_init_gates isr irq idt_addr (st_idt s) w) as (idt1 & w2 & E & Ew2 & Hgates & Hidtr & Hh1);
    pose proof (Idt.remap_masks log w) as Hm; rewrite <- Ew2 in Hm; clear Ew2 end. step E.
  match goal with Hg : ready _ ?v _ |- returns _ (info _ (?v, _) ≫= _) =>
    apply (conj (proj1 Hg)) in Hm; clear Hg;
    assert (ready (ports_set 0xFB 0xFF []) v w2) as Hset by (split; [apply Hm|split; [apply Hm|apply sublist_nil_l]]); clear Hm end. inform.
  destruct (Memory.memory_init_ok (st_mem s)) as (m1 & E & Hm1 & Hu1 & Hheap & Hused). step E. inform.
  destruct (Memory.paging_init_ok kpt m1) as (m2 & E & Hm2 & Hon & _).
  destruct (paging_init_pages _ _ E) as (Eb & Eu & Eh). step E. inform.
  match goal with Hg : ready ?I ?v ?w |- returns _ (vga_init ?v ?w ≫= _) =>
    destruct (vga_init_ok I v w (good_cells _ (proj1 Hg)) (proj2 Hg)) as (v6 & w8 & E & Hg6); clear Hg end. step E. say.
  match goal with Hg : ready ?I ?v ?w |- context [Serial.serial_init ?w] =>
    destruct (serial_present w) as [w9 E]; pose proof (conj (proj1 Hg) (serial_init_ok w w9 _ _ E (proj2 Hg))) as Hw9; rewrite E;
    clear Hg; clear E; change (ready (ports_set 0xFB 0xFF serial_writes) v w9) in Hw9; cbv beta iota end.
  match goal with Hg : ready ?I ?v ?w |- returns _ ((if _ then say _ (?v, ?w) ≫= _ else _) ≫= _) =>
    destruct (serial_reported I v w Hg) as (v10 & w10 & E & Hg10); clear Hg end. step E. say. say.
  destruct Process.process_init_ok as (procs & E & Hprocs). pose proof (init_printable _ E) as Hnames. rewrite <- Hp in E. step E. say. say.
  rewrite <- Hh1 in Hh. destruct (three_registered idt1 Hh) as (idt2 & idt3 & idt4 & R1 & R2 & Hl3 & R3 & Hg4 & Hh4).
  match goal with Hg : ready _ ?v ?w |- returns _ (Timer.timer_init _ _ ?w ≫= _) =>
    destruct (timer_init_ok idt1 idt2 w _ _ _ R1 (proj2 Hg)) as (w17 & E & Hw17); apply (conj (proj1 Hg)) in Hw17; clear Hg;
    change (ready (ports_set 0xFA 0xFF (serial_writes ++ timer_writes)) v w17) in Hw17 end.
  step E. say. say.
  match goal with Hg : ready ?I ?v ?w |- returns _ (fs_init ?fds (?v, ?w) ≫= _) =>
    destruct (fs_started I fds v w Hg) as (v20 & w20 & E & Hg20); clear Hg end. step E.
  rewrite Hr. rewrite Hheap in Eh. destruct (ramfs_says_ok _ m2 v20 w20 Eh Hg20) as (v21 & w21 & E & Hg21). clear Hg20. step E.
  destruct (ramfs_mount_ok m2 Eh) as (m3 & E & Eb3 & Eu3 & Ed3 & Et3 & Eon3). step E. say. say.
  unfold Syscall.syscall_init. step R2. say. say.
  match goal with Hg : ready ?I ?v ?w |- returns _ (Keyboard.keyboard_init _ _ _ _ ?w ≫= _) =>
    destruct (Keyboard.keyboard_init_ok rounds keyboard_interrupt_handler (st_kbd s) idt3 w output_ready input_empty Hk Hl3)
      as (kbd & idt4' & w26 & E & Hkbd & Hpend & Hmods & R3');
    pose proof (conj (proj1 Hg) (conj (proj1 (keyboard_init_quiet I _ _ _ _ _ _ _ _ E (proj2 Hg)))
      (keyboard_init_writes log _ _ _ _ _ _ _ _ _ E (proj2 (proj2 Hg))))) as Hw26; clear Hg;
    change (ready (ports_set 0xFA 0xFF ((serial_writes ++ timer_writes) ++ keyboard_writes)) v w26) in Hw26 end.
  assert (idt4' = idt4) as -> by congruence. step E. say. say.
  match goal with Hg : ready _ ?v ?w |- returns _ (Idt.enable_irq 1 ?w ≫= _) =>
    destruct (keyboard_opened w _ _ _ (proj2 Hg)) as (w29 & E & Hw29); apply (conj (proj1 Hg)) in Hw29; clear Hg;
    change (ready (ports_set 0xF8 0xFF ((serial_writes ++ timer_writes) ++ keyboard_writes)) v w29) in Hw29 end. step E.
  unfold ProgramLoader.program_loader_init. cbv beta iota.
  match goal with Hg : ready ?I ?v ?w |- returns _ (vga_clear ?v ?w ≫= _) =>
    destruct (greeting_ok I v w Hg) as (c & v30 & w30 & E & Hw30 & Hend) end. step E.
  destruct (Shell.shell_init_ok (st_shell s) w30 Hu Hho Hc) as (sh & w31 & E & Hsh).
  apply (shell_init_quiet (ports_set _ _ _) _ _ _ _ E) in Hw30. step E.
  destruct (Hend w31 Hw30) as (v32 & w32 & v33 & w33 & E & Elast & Hshow & Hw33). step E. step Elast.
  rewrite <- app_assoc in Hw33. eexists. split; [reflexivity|].
  split; [|split; [apply Hw33|split; [apply Hw33|split; [exact Hmods|by exists c]]]].
  destruct Hm1 as [Hbm Hcount Hres], Hm2 as [Hdir Htable].
  split; cbn [st_idt st_mem st_procs st_fds st_ram st_kbd st_shell st_power st_loader st_ticks st_net st_sec st_mon st_device_list].
  - exact Hh4.
  - intros i Hi. rewrite (proj1 (Hg4 i)). by apply Hgates.
  - by rewrite (proj2 (Hg4 0)).
  - by split; rewrite ?Eb3, ?Eb, ?Eu3, ?Eu.
  - intros p Hp0. unfold Memory.page_used. rewrite Eb3, Eb. by apply Hused.
  - by rewrite Eu3, Eu.
  - split; [split|]; rewrite ?Ed3, ?Et3, ?Eon3; done.
  - exact Hprocs.
  - exact Hnames.
  - by apply VfsSimple.fs_init_view.
  - done.
  - done.
  - exact Hsh.
  - rewrite Hpow. split; [exact Power.power_init_ok|done].
  - done.
  - exact Hticks.
  - done.
Qed.

(** C2. The kernel boots: from its zeroed statics [kmain] reaches the shell
    loop with the parts it starts initialised - the three handlers registered,
    the gates of the stubs set, the lines of the clock, the keyboard and the
    second controller the only open ones, the serial port, the timer's chip and
    the keyboard set up in this order, pages 0 to 255 taken, the kernel mapped
    and paging on, one running process, no open file, no key pending, the power
    manager on with its battery at 75 percent, no program loaded and the welcome
    on the screen (the RAM disk is not mounted and its pointer dangles); the
    packet buffer, the security tables, the system log and the device list are
    still zero - and whatever keys then arrive as interrupts, once they make up
    whole lines the shell runs these lines and the screen shows the session
    below the welcome. *)
Theorem kernel_boots s v w :
  fresh_statics s → zlen (screen v) = 2000 →
  ∃ s' v' w', kmain s (v, w) = Some (s', (v', w')) ∧ started s' ∧ lines_started log w' ∧ devices_set_up w' ∧
  ∃ c, shows (welcome c) v' ∧
  ∀ scancodes lines ticks polls,
    let events := Keyboard.Interrupt <$> scancodes in
    Forall (λ k, 0 <= k < 256) scancodes →
    (Keyboard.spec_kb_run events (Keyboard.mods (st_kbd s)) []).2.2 = concat ((λ l, l ++ [10]) <$> lines) →
    Forall (Forall Shell.ordinary) lines → Forall (λ l, (length l < polls)%nat) lines →
    ∃ read k, Keyboard.kb_run events (st_kbd s') = Some (read, k) ∧
    ∃ k' v'' w'', Shell.shell_run stack (st_shell s') (st_procs s') ticks polls (length lines) k (v', w') = Some (k', (v'', w'')) ∧
      Keyboard.pending k' = [] ∧ shows (foldl (Shell.t_turn (st_shell s') (st_procs s') ticks) (welcome c) lines) v''.
Proof.
  intros Hs Hl. destruct (kmain_ok s v w Hs Hl) as ([s' [v' w']] & E & Hst & Hmask & Hdev & Hmods & c & Hshow).
  exists s', v', w'. split; [exact E|]. split; [exact Hst|]. split; [by apply lines_open|]. split; [exact Hdev|]. exists c. split; [exact Hshow|].
  intros scancodes lines ticks polls events Hsc Hp Hord Hlen. destruct (sd_kbd _ Hst) as [Hok Hpend].
  assert (Forall Keyboard.event_ok events) as Hev by by apply Forall_fmap.
  destruct (Keyboard.kb_run_ok events (st_kbd s') Hok Hev) as (k & Ek & Hk & Hview). rewrite Hpend, Hmods in Ek, Hview.
  eexists _, k. split; [exact Ek|]. destruct (sd_shell _ Hst) as (Hu & Hh & Hc).
  apply (Shell.shell_run_ok stack stack_size); try done; try (by eexists); [by apply (sd_names _ Hst)|].
  by rewrite <- Hp, <- Hview.
Qed.
End boot.

(** A machine whose two controllers read back their masks and on which every
    other port reads 1: data is waiting and the keyboard controller takes
    commands. *)
Definition ready_ports : Ports (list (Z * Z)) := {|
  inb port l := (if port =? Idt.PIC1_DATA then Idt.pic_mask (Idt.pic1 l) else if port =? Idt.PIC2_DATA then Idt.pic_mask (Idt.pic2 l) else 1, l);
  outb port v l := l ++ [(u16 port, u8 v)];
  inw _ l := (1, l); outw _ _ l := l; inl _ l := (1, l); outl _ _ l := l;
|}.
Lemma ready_ports_log : @PortLog _ ready_ports id.
Proof. split; done. Qed.
Lemma ready_ports_reads : @Idt.PicReads _ ready_ports id.
Proof. split; done. Qed.

Definition zero_statics {F} : statics F :=
  {| st_idt := {| Idt.idt := replicate 256 Idt.zero_entry; Idt.idtp := (0, 0); Idt.interrupt_handlers := replicate 256 None; Idt.idtr := (0, 0) |};
     st_mem := Memory.memory_bss; st_procs := Process.process_bss;
     st_fds := replicate 16 {| VfsSimple.inode := 0; VfsSimple.offset := 0; VfsSimple.in_use := 0 |};
     st_ram := None; st_kbd := Keyboard.kb_bss; st_power := Power.power_bss;
     st_loader := {| ProgramLoader.program_memory := mem_zero; ProgramLoader.program_memory_used := 0 |};
     st_shell := {| Shell.username := replicate 32 0; Shell.hostname := replicate 32 0; Shell.cwd := replicate 256 0; Shell.history_count := 0 |};
     st_ticks := 0; st_net := Network.network_bss; st_sec := Security.security_bss; st_mon := Monitor.monitor_bss; st_device_list := 0 |}.

Lemma zero_statics_fresh {F} : fresh_statics (zero_statics (F := F)).
Proof. split; try done; vm_compute; lia. Qed.

(** The keys v, e, r and enter. *)
Lemma kernel_boots_witness :
  ∃ s' v' w', @kmain nat _ ready_ports junk LOG_INFO (λ _, 0x100000) (λ _, 0x101000) 0x108000 0x109000 1%nat 2%nat 3%nat
      RamFs.zero_block mem_zero 1 zero_statics (vga_bss, []) = Some (s', (v', w')) ∧ lines_started id w' ∧
  ∃ c lines, lines = [[118; 101; 114]] ∧
  ∃ read k, Keyboard.kb_run (Keyboard.Interrupt <$> [47; 18; 19; 28]) (st_kbd s') = Some (read, k) ∧
  ∃ k' v'' w'', @Shell.shell_run junk _ ready_ports (st_shell s') (st_procs s') 0 9 1 k (v', w') = Some (k', (v'', w'')) ∧
    Keyboard.pending k' = [] ∧ shows (foldl (Shell.t_turn (st_shell s') (st_procs s') 0) (welcome c) lines) v''.
Proof.
  destruct (@kernel_boots nat _ ready_ports junk LOG_INFO (λ _, 0x100000) (λ _, 0x101000) 0x108000 0x109000 1%nat 2%nat 3%nat
      RamFs.zero_block mem_zero 1 (λ k, length_replicate k 170) ltac:(intros w; by eexists) ltac:(intros w; by eexists)
      id ready_ports_log ready_ports_reads zero_statics vga_bss []) as (s' & v' & w' & E & Hst & Hopen & Hdev & c & Hshow & Hrun).
  - exact zero_statics_fresh.
  - vm_compute. reflexivity.
  - exists s', v', w'. split; [exact E|]. split; [exact Hopen|]. exists c, [[118; 101; 114]]. split; [done|].
    apply (Hrun [47; 18; 19; 28] [[118; 101; 114]] 0 9%nat).
    + repeat constructor; discriminate.
    + vm_compute. reflexivity.
    + repeat constructor; discriminate.
    + repeat constructor; cbn; lia.
Defined.
End Boot.
