(* ===== verification/System.v ===== *)
(** * System: the kernel with its interrupts (kernel/idt.c, interrupts.s,
    drivers/timer.c, drivers/keyboard.c, kernel/syscall.c)

    The parts of Syscall with the clock's counter and the interrupt tables.  An
    interrupt, from the hardware or from an [int] instruction, goes through the
    processor: the gate of its vector, the stub the gate leads to, then
    [irq_handler] and the registered function, or [fault_handler].  So
    [int $0x80], for which [syscall_init] registers a handler but nobody sets a
    gate, ends in the exception handler.  Between interrupts the kernel's own
    thread, the shell, reads keys and writes to the screen. *)
From S2P Require Import Prelude CString Ports Vga Process Keyboard Idt Timer Syscall Network Monitor Quiet Log.
Import Syscall Quiet.

Module System.

(** What can be registered in the table *)
Inductive handler : Type :=
| TimerHandler
| KeyboardHandler
| SyscallHandler.

(** The clock shows the last digit of the seconds at column 70 of the last line. *)
Definition show_clock (ticks : Z) (t : Vga.terminal) : Vga.terminal :=
  {| Vga.t_col := Vga.t_col t; Vga.t_row := Vga.t_row t; Vga.t_color := Vga.t_color t;
     Vga.t_lines := alter (insert 70%nat (u16 (0x1F00 + (ticks / 100) mod 10 + 48))) 24%nat (Vga.t_lines t) |}.
(** The screen after the tick that makes the counter [ticks] *)
Definition tick_screen (ticks : Z) (t : Vga.terminal) : Vga.terminal :=
  if ticks mod 100 =? 0 then show_clock ticks t else t.

(** The message of an exception, in white on red *)
Definition fault_screen (n : Z) (t : Vga.terminal) : Vga.terminal :=
  Vga.t_print (bytes_of_string " ***
") (Vga.t_print (Log.numeral n 10) (Vga.t_print (bytes_of_string "
*** CPU EXCEPTION: ") (Vga.t_call (Vga.SetColor 15 4) t))).

Section system.
Context {D W : Type} `{Ports W}.
Context (packet_bytes : Network.network_packet → list Z) (stats_bytes : Monitor.system_stats_t → list Z)
  (metrics_bytes : Monitor.performance_metrics_t → list Z) (patience : nat).
(** The addresses of the stubs and of the table, and what the local array of
    [fault_handler] holds *)
Context (isr irq : nat → Z) (idt_addr : Z) (buf : list Z).

Record kernel := { sys_of : sys D W; ticks : Z; table : Idt.idt_state handler }.

Definition set_sys (s : sys D W) (k : kernel) : kernel := {| sys_of := s; ticks := ticks k; table := table k |}.

(** The handlers, on the kernel and its clock; the ports are passed along. *)
Definition call (f : handler) (r : Idt.regs) (k : sys D W * Z) (w : W) : option ((sys D W * Z) * W) :=
  let '(s, n) := k in
  match f with
  | TimerHandler =>
      t ← Timer.timer_interrupt_handler {| Timer.timer_ticks := n; Timer.procs := k_procs s; Timer.video := Vga.screen (k_vga s) |};
      let s := put procs (Timer.procs t) s in
      Some ((put console (Vga.set_screen (Timer.video t) (k_vga s), k_hw s) s, Timer.timer_ticks t), w)
  | KeyboardHandler =>
      let '(scancode, w) := inb Keyboard.KEYBOARD_DATA_PORT w in
      kb ← Keyboard.keyboard_handler (u8 scancode) (k_kbd s); Some ((put kbd kb s, n), w)
  | SyscallHandler =>
      '(_, s) ← syscall_interrupt_handler packet_bytes stats_bytes metrics_bytes patience r (put console (k_vga s, w) s);
      Some ((s, n), k_hw s)
  end.

(** [irq_handler] for vector [n], as its stub calls it *)
Definition interrupt (n : Z) (k : kernel) : option kernel :=
  '(s, t, w) ← Idt.irq_handler call (table k) (Idt.regs_of n) (sys_of k, ticks k) (k_hw (sys_of k));
  Some {| sys_of := put console (k_vga s, w) s; ticks := t; table := table k |}.

(** [fault_handler] for exception [n]: the message, and then [cli; hlt] *)
Definition exception (n : Z) (k : kernel) : option kernel :=
  c ← Idt.fault_handler buf (Idt.regs_of n) (k_vga (sys_of k)) (k_hw (sys_of k));
  Some (set_sys (put console c (sys_of k)) k).

(** ** The processor *)

(** The stubs of kernel/interrupts.s *)
Inductive stub : Type :=
| Isr (i : nat)
| Irq (i : nat).
Definition stub_addr (st : stub) : Z := match st with Isr i => u32 (isr i) | Irq i => u32 (irq i) end.
Definition stubs : list stub := (Isr <$> seq 0 32) ++ (Irq <$> seq 0 16).
Definition stub_at (a : Z) : option stub := head (filter (λ st, stub_addr st = a) stubs).

(** How an interrupt ends: the interrupted code goes on, or the processor has
    stopped for good. *)
Inductive outcome : Type :=
| Resumed (k : kernel)
| Halted (k : kernel).

Definition run_stub (a : Z) (k : kernel) : option outcome :=
  st ← stub_at a;
  match st with
  | Irq i => Resumed <$> interrupt (32 + Z.of_nat i) k
  | Isr i => Halted <$> exception (Z.of_nat i) k
  end.

(** Where the gate of vector [n] leads.  A vector past the limit of the table, a
    descriptor that is not a 32-bit interrupt gate and one without the kernel's
    code segment raise exception 13, a gate that is not present raises 11. *)
Inductive entry : Type :=
| Code (address : Z)
| Fault (e : Z).
Definition enter (n : Z) (k : kernel) : option entry :=
  let '(limit, base) := Idt.idtr (table k) in
  if negb (base =? idt_addr) then None
  else if limit <? 8 * n + 7 then Some (Fault 13)
  else
    '(address, sel, flags) ← Idt.gate_at (table k) n;
    Some (if negb (Z.land flags 0x1F =? 0x0E) then Fault 13
          else if negb (Z.testbit flags 7) then Fault 11
          else if negb (sel =? 0x08) then Fault 13
          else Code address).

(** An interrupt of vector [n]; an exception on the way to an exception is
    left out. *)
Definition deliver (n : Z) (k : kernel) : option outcome :=
  e ← enter n k;
  match e with
  | Code a => run_stub a k
  | Fault x =>
      e ← enter x k;
      match e with Code a => run_stub a k | Fault _ => None end
  end.

(** ** What can happen between two instructions of the shell's thread

    A line of the controllers interrupts, the thread takes a key or it writes to
    the screen.  [sc] is what the keyboard's data port gives at that moment. *)
Inductive label : Type :=
| Line (n sc : Z)
| Read (c : Z)
| Wrote (c : Vga.vga_call).

Definition scancode (w : W) : Z := u8 (inb Keyboard.KEYBOARD_DATA_PORT (outb Idt.PIC1_CMD 0x20 w)).1.

Context (log : W → list (Z * Z)).

Inductive kstep : kernel → option label → kernel → Prop :=
| k_line n v k k' :
    0 <= n < 16 → Idt.line_open (log (k_hw (sys_of k))) n v → deliver v k = Some (Resumed k') →
    kstep k (Some (Line n (scancode (k_hw (sys_of k))))) k'
| k_read k c kb :
    Keyboard.keyboard_getchar (k_kbd (sys_of k)) = Some (c, kb) →
    kstep k (Some (Read c)) (set_sys (put kbd kb (sys_of k)) k)
| k_wrote k c con :
    Vga.call_ok c → Vga.run_call c (k_vga (sys_of k)) (k_hw (sys_of k)) = Some con →
    kstep k (Some (Wrote c)) (set_sys (put console con (sys_of k)) k).

(** ** The specification: a clock, a terminal and a queue of keys *)
Record desk := {
  d_ticks : Z;
  d_screen : Vga.terminal;
  d_mods : Keyboard.modifiers;
  d_keys : list Z;
}.

Definition tick (d : desk) : desk :=
  {| d_ticks := d_ticks d +u 1; d_screen := tick_screen (d_ticks d +u 1) (d_screen d); d_mods := d_mods d; d_keys := d_keys d |}.
Definition press (sc : Z) (d : desk) : desk :=
  {| d_ticks := d_ticks d; d_screen := d_screen d; d_mods := Keyboard.key_mods (d_mods d) sc;
     d_keys := match Keyboard.key_char (d_mods d) sc with
               | Some c => if bool_decide (length (d_keys d) < 255)%nat then d_keys d ++ [c] else d_keys d
               | None => d_keys d
               end |}.
Definition on_desk (l : label) (d : desk) : desk :=
  match l with
  | Line n sc => if n =? 0 then tick d else if n =? 1 then press sc d else d
  | Read _ => {| d_ticks := d_ticks d; d_screen := d_screen d; d_mods := d_mods d; d_keys := tail (d_keys d) |}
  | Wrote c => {| d_ticks := d_ticks d; d_screen := Vga.t_call c (d_screen d); d_mods := d_mods d; d_keys := d_keys d |}
  end.

(** A clock, the keyboard and the second controller can interrupt; a read
    gives the oldest key, or 0. *)
Inductive dstep : desk → option label → desk → Prop :=
| d_line n sc d : 0 <= n <= 2 → 0 <= sc < 256 → dstep d (Some (Line n sc)) (on_desk (Line n sc) d)
| d_read d : dstep d (Some (Read (default 0 (head (d_keys d))))) (on_desk (Read (default 0 (head (d_keys d)))) d)
| d_wrote c d : Vga.call_ok c → dstep d (Some (Wrote c)) (on_desk (Wrote c) d).

(** ** The kernel as [kmain] leaves it, some time later *)

(** The gates and the registered functions *)
Record table_ok (t : Idt.idt_state handler) : Prop := {
  to_idtr : Idt.idtr t = (2047, idt_addr);
  to_gates : ∀ i, 0 <= i < 256 → Idt.gate_at t i =
    Some (if i <? 32 then (u32 (isr (Z.to_nat i)), 0x08, 0x8E)
          else if i <? 48 then (u32 (irq (Z.to_nat (i - 32))), 0x08, 0x8E) else (0, 0, 0));
  to_handlers : ∀ i, 0 <= i < 256 → (Idt.interrupt_handlers t).[i] =
    Some (if i =? 32 then Some TimerHandler else if i =? 33 then Some KeyboardHandler
          else if i =? 0x80 then Some SyscallHandler else None);
}.

(** The process table but for the scheduler's own counter *)
Definition same_processes (p q : Process.process_system) : Prop :=
  Process.processes p = Process.processes q ∧ Process.next_pid p = Process.next_pid q ∧
  Process.current_process p = Process.current_process q ∧ Process.current_process_ptr p = Process.current_process_ptr q.

(** What neither the interrupts nor the shell's thread touch *)
Record untouched (k0 k : kernel) : Prop := {
  un_table : table k = table k0;
  un_procs : same_processes (k_procs (sys_of k)) (k_procs (sys_of k0));
  un_fds : k_fds (sys_of k) = k_fds (sys_of k0);
  un_net : k_net (sys_of k) = k_net (sys_of k0);
  un_devs : k_devs (sys_of k) = k_devs (sys_of k0);
  un_drv : k_drv (sys_of k) = k_drv (sys_of k0);
  un_sec : k_sec (sys_of k) = k_sec (sys_of k0);
  un_mon : k_mon (sys_of k) = k_mon (sys_of k0);
  un_mem : k_mem (sys_of k) = k_mem (sys_of k0);
}.

(** The kernel shows and holds what the desk says; one process, the tables and
    the masks as they were set up. *)
Record related (k : kernel) (d : desk) : Prop := {
  re_table : table_ok (table k);
  re_masks : Idt.masks log (k_hw (sys_of k)) 0xF8 0xFF;
  re_one : Process.next_pid (k_procs (sys_of k)) = 1;
  re_ticks : ticks k = d_ticks d;
  re_screen : Vga.shows (d_screen d) (k_vga (sys_of k));
  re_kbd : Keyboard.kb_ok (k_kbd (sys_of k));
  re_mods : Keyboard.mods (k_kbd (sys_of k)) = d_mods d;
  re_keys : Keyboard.pending (k_kbd (sys_of k)) = d_keys d;
}.

(** ** What an interrupt does *)

Lemma poke_shows t v x :
  Vga.shows t v →
  ∃ l, zset (Vga.screen v) (80 * 24 + 70) x = Some l ∧
    Vga.shows {| Vga.t_col := Vga.t_col t; Vga.t_row := Vga.t_row t; Vga.t_color := Vga.t_color t;
                 Vga.t_lines := alter (insert 70%nat x) 24%nat (Vga.t_lines t) |} (Vga.set_screen l v).
Proof.
  intros Hs. pose proof (Vga.sh_cells _ _ Hs) as Hc. destruct Hs as [Hx Hy Hcol Hscr Hl Hw H1 H2].
  rewrite zset_in by lia. eexists. split; [reflexivity|]. split; try done; cbn [Vga.set_screen Vga.screen Vga.t_lines].
  - rewrite Hscr. change (Z.to_nat (80 * 24 + 70)) with (80 * 24 + 70)%nat. apply Vga.insert_concat; [done|lia].
  - by rewrite length_alter.
  - apply Forall_alter; [done|]. intros l _ Hlen. by rewrite length_insert.
Qed.


Lemma idle_schedule p : Process.next_pid p = 1 → Process.schedule p = Some (None, Process.tick p).
Proof. intros E. unfold Process.schedule. cbn [Process.tick Process.next_pid]. by rewrite E. Qed.

Lemma untouched_refl k : untouched k k.
Proof. by split. Qed.
Lemma untouched_trans k1 k2 k3 : untouched k1 k2 → untouched k2 k3 → untouched k1 k3.
Proof. intros [? (?&?&?&?) ? ? ? ? ? ? ?] [? (?&?&?&?) ? ? ? ? ? ? ?]. split; [congruence|split_and!; congruence|congruence..]. Qed.

Context `{!PortLog W log}.

Lemma eoi_kept w : Idt.masks log w 0xF8 0xFF → Idt.masks log (outb Idt.PIC1_CMD 0x20 w) 0xF8 0xFF.
Proof. apply eoi_masks; [exact _|by left]. Qed.

(** The controller has had the command that ends an interrupt, and no other. *)
Definition acknowledged (k k' : kernel) : Prop := log (k_hw (sys_of k')) = log (k_hw (sys_of k)) ++ [(Idt.PIC1_CMD, 0x20)].

Lemma acked k k' : k_hw (sys_of k') = outb Idt.PIC1_CMD 0x20 (k_hw (sys_of k)) → acknowledged k k'.
Proof. intros E. unfold acknowledged. by rewrite E, log_outb. Qed.

Lemma clock_interrupt k d :
  related k d → ∃ k', interrupt 32 k = Some k' ∧ related k' (tick d) ∧ untouched k k' ∧ acknowledged k k'.
Proof.
  intros [Ht Hm H1 Hn Hs Hk Hmods Hkeys]. unfold interrupt, Idt.irq_handler.
  cbn [Idt.regs_of Idt.int_no Z.leb Z.compare Pos.compare Pos.compare_cont].
  rewrite (to_handlers _ Ht 32) by lia. cbn [mbind option_bind Z.eqb Pos.eqb call]. unfold Timer.timer_interrupt_handler.
  cbn [Timer.procs Timer.timer_ticks Timer.video]. rewrite idle_schedule by done. cbn [mbind option_bind]. rewrite Hn.
  apply eoi_kept in Hm. destruct ((d_ticks d +u 1) mod 100 =? 0) eqn:Em.
  - destruct (poke_shows (d_screen d) (k_vga (sys_of k)) (u16 (0x1F00 + ((d_ticks d +u 1) / 100) mod 10 + 48)) Hs) as (l & El & Hs').
    rewrite El. cbn [mbind option_bind]. eexists. split; [reflexivity|]. split; [|split; [by split|by apply acked]].
    split; try done. cbn [sys_of tick d_screen]. unfold tick_screen. rewrite Em. exact Hs'.
  - cbn [mbind option_bind]. eexists. split; [reflexivity|]. split; [|split; [by split|by apply acked]].
    split; try done. cbn [sys_of tick d_screen]. unfold tick_screen. rewrite Em.
    change (Vga.shows (d_screen d) (Vga.set_screen (Vga.screen (k_vga (sys_of k))) (k_vga (sys_of k)))). by rewrite Vga.set_screen_id.
Qed.

Lemma keyboard_interrupt k d :
  related k d → (∀ w m1 m2, Idt.masks log w m1 m2 → Idt.masks log (inb Keyboard.KEYBOARD_DATA_PORT w).2 m1 m2) →
  ∃ k', interrupt 33 k = Some k' ∧ related k' (press (scancode (k_hw (sys_of k))) d) ∧ untouched k k' ∧ acknowledged k k'.
Proof.
  intros [Ht Hm H1 Hn Hs Hk Hmods Hkeys] Hin. unfold interrupt, Idt.irq_handler.
  cbn [Idt.regs_of Idt.int_no Z.leb Z.compare Pos.compare Pos.compare_cont].
  rewrite (to_handlers _ Ht 33) by lia. cbn [mbind option_bind Z.eqb Pos.eqb call].
  apply eoi_kept, Hin in Hm. unfold scancode. pose proof (log_inb Keyboard.KEYBOARD_DATA_PORT (outb Idt.PIC1_CMD 0x20 (k_hw (sys_of k)))) as Ew.
  destruct (inb Keyboard.KEYBOARD_DATA_PORT (outb Idt.PIC1_CMD 0x20 (k_hw (sys_of k)))) as [sc w]. cbn [fst snd] in *.
  destruct (Keyboard.keyboard_handler_ok (u8 sc) (k_kbd (sys_of k)) Hk (u8_range sc)) as (kb & -> & Hkb & Em & Ep).
  cbn [mbind option_bind]. eexists. split; [reflexivity|]. split; [|split; [by split|]].
  2: { unfold acknowledged. etrans; [exact Ew|]. by rewrite log_outb. }
  split; try done; cbn [sys_of put kbd console k_kbd press d_mods d_keys].
  - by rewrite Em, Hmods.
  - by rewrite Ep, Hmods, Hkeys.
Qed.

Lemma cascade_interrupt k d : related k d → ∃ k', interrupt 34 k = Some k' ∧ related k' d ∧ untouched k k' ∧ acknowledged k k'.
Proof.
  intros [Ht Hm H1 Hn Hs Hk Hmods Hkeys]. unfold interrupt, Idt.irq_handler.
  cbn [Idt.regs_of Idt.int_no Z.leb Z.compare Pos.compare Pos.compare_cont].
  rewrite (to_handlers _ Ht 34) by lia. cbn [mbind option_bind Z.eqb Pos.eqb]. eexists. split; [reflexivity|].
  split; [|split; [by split|by apply acked]]. split; try done. by apply eoi_kept.
Qed.

(** An interrupt of one of the three open lines *)
Lemma line_interrupt k d n :
  related k d → 0 <= n <= 2 →
  ∃ k', interrupt (32 + n) k = Some k' ∧ related k' (on_desk (Line n (scancode (k_hw (sys_of k)))) d) ∧
    untouched k k' ∧ acknowledged k k'.
Proof.
  intros HR Hn. assert (n = 0 ∨ n = 1 ∨ n = 2) as Hc by lia. destruct Hc as [->|[->| ->]].
  - by apply clock_interrupt.
  - apply keyboard_interrupt; [done|]. intros w m1 m2 Hm. by apply (quiet_inb (I := λ w, Idt.masks log w m1 m2)).
  - by apply cascade_interrupt.
Qed.

(** ** The way through the gates *)
Context (stubs_apart : NoDup (stub_addr <$> stubs)).

Lemma stub_found st : st ∈ stubs → stub_at (stub_addr st) = Some st.
Proof.
  unfold stub_at. revert stubs_apart. generalize stubs. intros l. induction l as [|x l IH]; intros Hnd Hin; [by apply not_elem_of_nil in Hin|].
  cbn [fmap list_fmap] in Hnd. apply NoDup_cons in Hnd as [Hx Hnd]. apply elem_of_cons in Hin as [->|Hin].
  - by rewrite filter_cons_True.
  - rewrite filter_cons_False; [by apply IH|]. intros E. apply Hx. rewrite E. by apply list_elem_of_fmap_2.
Qed.

Lemma enter_gate n k : table_ok (table k) → 0 <= n < 256 →
  enter n k = Some (if n <? 32 then Code (u32 (isr (Z.to_nat n))) else if n <? 48 then Code (u32 (irq (Z.to_nat (n - 32)))) else Fault 13).
Proof.
  intros Ht Hn. unfold enter. rewrite (to_idtr _ Ht), Z.eqb_refl. cbn [negb]. destruct (Z.ltb_spec 2047 (8 * n + 7)); [lia|].
  rewrite (to_gates _ Ht n Hn). cbn [mbind option_bind]. by destruct (n <? 32), (n <? 48).
Qed.

Lemma line_delivered n k : table_ok (table k) → 0 <= n < 16 → deliver (32 + n) k = Resumed <$> interrupt (32 + n) k.
Proof.
  intros Ht Hn. unfold deliver. rewrite enter_gate by (done || lia).
  destruct (Z.ltb_spec (32 + n) 32); [lia|]. destruct (Z.ltb_spec (32 + n) 48); [|lia]. cbn [mbind option_bind].
  unfold run_stub. replace (Z.to_nat (32 + n - 32)) with (Z.to_nat n) by lia.
  change (u32 (irq (Z.to_nat n))) with (stub_addr (Irq (Z.to_nat n))). rewrite stub_found.
  - cbn [mbind option_bind]. by rewrite Z2Nat.id by lia.
  - unfold stubs. apply elem_of_app. right. apply list_elem_of_fmap. exists (Z.to_nat n). split; [done|]. apply elem_of_seq. lia.
Qed.

(** The open lines interrupt and return. *)
Lemma open_line_returns k d n : related k d → 0 <= n <= 2 → ∃ k', deliver (32 + n) k = Some (Resumed k') ∧ acknowledged k k'.
Proof.
  intros HR Hn. rewrite line_delivered by (apply HR || lia). destruct (line_interrupt k d n HR Hn) as (k' & -> & _ & _ & Ha). by exists k'.
Qed.

Lemma numeral_printed n b :
  0 <= n < 32 → length b = 16%nat →
  ∃ b', itoa (s32 n) b 10 = Some b' ∧ cstr b' = Some (Log.numeral n 10).
Proof.
  intros Hn Hb. rewrite s32_id by lia.
  assert ((length (if ((n <? 0) && (10 =? 10))%Z then [45%Z] else []) + length (digits itoa_fuel (Z.abs n) 10) < length b)%nat) as Hlen.
  { destruct (Z.ltb_spec n 0); [lia|]. pose proof (digits_length 10 ltac:(lia) itoa_fuel (Z.abs n) 2 ltac:(lia) ltac:(lia)). cbn [andb length]. lia. }
  rewrite (itoa_spec n b 10 _ _ ltac:(lia) ltac:(lia) eq_refl eq_refl Hlen). eexists. split; [reflexivity|].
  destruct (Z.ltb_spec n 0); [lia|]. cbn [andb app].
  assert (cstr (rev (itoa_digit <$> digits itoa_fuel (Z.abs n) 10) ++ 0 :: drop (S (0 + length (digits itoa_fuel (Z.abs n) 10))) b) =
    Some (rev (itoa_digit <$> digits itoa_fuel (Z.abs n) 10))) as E.
  { apply cstr_app. apply Forall_rev, Forall_fmap. eapply List.Forall_impl; [|apply (digits_range 10); lia].
    intros x Hx. pose proof (itoa_digit_range 10 ltac:(lia) x Hx). unfold compose. lia. }
  cbn [length] in *. rewrite E. unfold Log.numeral. by destruct (Z.ltb_spec n 0); [lia|].
Qed.

Context (buf_size : length buf = 16%nat).

Lemma set_color_shows fg bg t v : Vga.shows t v → Vga.shows (Vga.t_call (Vga.SetColor fg bg) t) (Vga.vga_set_color fg bg v).
Proof. intros [? ? ? ? ? ? ? ?]. split; try done. cbn. by rewrite Vga.set_color_value. Qed.

(** Printing a literal whose text is [x] *)
Lemma literal_shows b x t v (w : W) :
  cstr b = Some x → Vga.shows t v → ∃ v' w', Vga.vga_print b v w = Some (v', w') ∧ Vga.shows (Vga.t_print x t) v'.
Proof.
  intros Hb Hs. destruct (Vga.print_shows b t v w ltac:(by eexists) Hs) as (v' & w' & E & Hs' & _). unfold str in Hs'.
  rewrite Hb in Hs'. by exists v', w'.
Qed.

Lemma exception_shows n k t :
  0 <= n < 32 → Vga.shows t (k_vga (sys_of k)) →
  ∃ k', exception n k = Some k' ∧ Vga.shows (fault_screen n t) (k_vga (sys_of k')).
Proof.
  intros Hn Hs. unfold exception, Idt.fault_handler. cbn [Idt.regs_of Idt.int_no].
  apply (set_color_shows 15 4) in Hs. change Idt.VGA_COLOR_WHITE with 15. change Vga.VGA_COLOR_RED with 4.
  destruct (literal_shows (lit "
*** CPU EXCEPTION: ") (bytes_of_string "
*** CPU EXCEPTION: ") _ _ (k_hw (sys_of k)) eq_refl Hs) as (v1 & w1 & -> & H1). cbn [mbind option_bind].
  destruct (numeral_printed n buf Hn buf_size) as (b & -> & Hb). cbn [mbind option_bind].
  destruct (literal_shows b _ _ v1 w1 Hb H1) as (v2 & w2 & -> & H2). cbn [mbind option_bind].
  destruct (literal_shows (lit " ***
") (bytes_of_string " ***
") _ v2 w2 eq_refl H2) as (v3 & w3 & -> & H3). cbn [mbind option_bind].
  eexists. split; [reflexivity|]. exact H3.
Qed.

(** A vector without a gate, also 0x80, ends in exception 13. *)
Lemma empty_gate n k d :
  related k d → 48 <= n < 256 →
  ∃ k', deliver n k = Some (Halted k') ∧ Vga.shows (fault_screen 13 (d_screen d)) (k_vga (sys_of k')).
Proof.
  intros HR Hn. pose proof (re_table _ _ HR) as Ht. unfold deliver.
  rewrite (enter_gate n) by (done || lia). destruct (Z.ltb_spec n 32); [lia|]. destruct (Z.ltb_spec n 48); [lia|].
  cbn [mbind option_bind]. rewrite (enter_gate 13) by (done || lia). cbn [mbind option_bind Z.ltb Z.compare Pos.compare Pos.compare_cont].
  unfold run_stub. change (Z.to_nat 13) with 13%nat. change (u32 (isr 13)) with (stub_addr (Isr 13)). rewrite stub_found.
  - cbn [mbind option_bind]. destruct (exception_shows 13 k _ ltac:(lia) (re_screen _ _ HR)) as (k' & E & Hs).
    change (Z.of_nat 13) with 13. rewrite E. by exists k'.
  - unfold stubs. apply elem_of_app. left. apply list_elem_of_fmap. exists 13%nat. split; [done|]. apply elem_of_seq. lia.
Qed.

(** [int $0x80] never reaches [syscall_interrupt_handler]. *)
Lemma int_0x80_halts k d :
  related k d → ∃ k', deliver 0x80 k = Some (Halted k') ∧ Vga.shows (fault_screen 13 (d_screen d)) (k_vga (sys_of k')).
Proof. intros HR. apply empty_gate; [done|lia]. Qed.

(** ** The simulation *)
Lemma kstep_simulated k d o k' : related k d → kstep k o k' → ∃ d', dstep d o d' ∧ related k' d' ∧ untouched k k'.
Proof.
  intros HR Hs. destruct Hs as [n v k k' Hn Hopen E|k c kb E|k c con Hc E].
  - apply (kernel_lines _ _ _ _ (re_masks _ _ HR) Hn) in Hopen as [Hn2 ->]. rewrite line_delivered in E by (apply HR || lia).
    destruct (line_interrupt k d n HR ltac:(lia)) as (k2 & E2 & HR2 & Hu & _). rewrite E2 in E. cbn in E. injection E as <-.
    eexists. split; [|by split]. constructor; [lia|]. apply u8_range.
  - pose proof HR as [Ht Hm H1 Htk Hscr Hk Hmods Hkeys].
    destruct (Keyboard.keyboard_getchar_ok (k_kbd (sys_of k)) Hk) as (kb' & E' & Hk' & Hm' & Hp'). rewrite E in E'. injection E' as -> <-.
    rewrite Hkeys in *. eexists. split; [constructor|]. split; [|by split]. split; try done. cbn. congruence.
  - pose proof HR as [Ht Hm H1 Htk Hscr Hk Hmods Hkeys]. destruct con as [v w].
    destruct (Vga.call_shows c (d_screen d) (k_vga (sys_of k)) (k_hw (sys_of k)) Hc Hscr) as (v' & w' & E' & Hs').
    rewrite E in E'. injection E' as <- <-. eexists. split; [by constructor|]. split; [|by split]. split; try done.
    exact (call_quiet (λ w, Idt.masks log w 0xF8 0xFF) _ _ _ _ _ E Hm).
Qed.

End system.
End System.
