(* ===== verification/Running.v ===== *)
(** * Running: the kernel from its start on (kernel/kmain.c)

    The kernel [kmain] leaves, in one state, and everything that can then
    happen to it while the shell's thread runs.  The kernel's statics are
    those of Boot; the state of the drivers and the memory of the programs,
    which [kmain] does not touch, are arbitrary. *)
From stdpp Require Import gmap.
From S2P Require Import Prelude CString Mem Traces Ports Vga Idt Process Network Device Security Monitor RamFs Keyboard Log Syscall Kernel Quiet Boot System.
Import Syscall.

Module Running.

(** The kernel with the statics [s]: the device list is the kernel's own, and
    no page of its memory holds a device yet. *)
Definition booted {D W : Type} (s : Boot.statics System.handler) (v : Vga.vga_state) (w : W)
    (drivers : D) (memory : list Z) : System.kernel (D := D) (W := W) :=
  {| System.sys_of :=
       {| k_procs := Boot.st_procs s; k_fds := Boot.st_fds s; k_net := Boot.st_net s;
          k_devs := {| Device.device_list := Boot.st_device_list s; Device.dev_at := ∅; Device.dev_mem := Boot.st_mem s |};
          k_drv := drivers; k_sec := Boot.st_sec s; k_mon := Boot.st_mon s; k_vga := v; k_kbd := Boot.st_kbd s;
          k_mem := memory; k_hw := w |};
     System.ticks := Boot.st_ticks s; System.table := Boot.st_idt s |}.

(** The desk the user finds: the welcome, and no key *)
Definition first_desk (c : Z) (m : Keyboard.modifiers) : System.desk :=
  {| System.d_ticks := 0; System.d_screen := Boot.welcome c; System.d_mods := m; System.d_keys := [] |}.

Section running.
Context {D W : Type} `{Ports W} `{Kernel.Drivers D}.
Context (packet_bytes : Network.network_packet → list Z) (stats_bytes : Monitor.system_stats_t → list Z)
  (metrics_bytes : Monitor.performance_metrics_t → list Z) (patience : nat).
(** The surroundings of [kmain], as in Boot, and of the processor, as in System *)
Context (stack : nat → list Z) (cur : Z) (isr irq : nat → Z) (idt_addr kpt : Z) (fresh : RamFs.ramfs_t) (fresh_data : mem) (rounds : nat).
Context (buf : list Z) (log : W → list (Z * Z)).
Context (stack_size : ∀ k, length (stack k) = k) (buf_size : length buf = 16%nat).
Context (output_ready : ∀ w, is_Some (Keyboard.kb_poll (λ st, Z.land st 0x01 =? 0) rounds w)).
Context (input_empty : ∀ w, is_Some (Keyboard.kb_poll (λ st, negb (Z.land st 0x02 =? 0)) rounds w)).
Context `{!PortLog W log} `{!Idt.PicReads W log}.
Context (stubs_apart : NoDup (System.stub_addr isr irq <$> System.stubs)).

Definition kmain : Boot.statics System.handler → Vga.vga_state * W → option (Boot.statics System.handler * (Vga.vga_state * W)) :=
  Boot.kmain stack cur isr irq idt_addr kpt System.TimerHandler System.KeyboardHandler System.SyscallHandler fresh fresh_data rounds.
Definition step := System.kstep (D := D) packet_bytes stats_bytes metrics_bytes patience isr irq idt_addr buf log.
Definition deliver := System.deliver (D := D) packet_bytes stats_bytes metrics_bytes patience isr irq idt_addr buf.

Definition started : Boot.statics System.handler → Prop :=
  Boot.started isr irq idt_addr kpt System.TimerHandler System.KeyboardHandler System.SyscallHandler fresh.

(** ** Where the kernel starts *)

Lemma booted_sys_ok s v w drivers memory :
  started s → (∃ t, Vga.shows t v) → Kernel.drv_inv drivers → Kernel.sys_ok (System.sys_of (booted s v (w : W) drivers memory)).
Proof.
  intros Hst Hv Hd. destruct Hst as [_ _ _ Hp Hu Hc _ Hpr _ Hf _ Hk _ _ _ _ (En & Es & Em & Ed)].
  split; cbn [booted System.sys_of k_procs k_fds k_net k_sec k_mon k_vga k_kbd k_devs k_drv]; rewrite ?En, ?Es, ?Em, ?Ed; try tauto.
  - exact Network.network_bss_ok.
  - apply Security.security_bss_ok.
  - exists []. by apply Monitor.empty_log_ok.
  - exists []. split; [|by intros e ops ?%not_elem_of_nil]. exists []. split_and!; [done|apply List.Forall2_nil|done|intros a; by left|].
    split; [done|constructor| |done]. intros a. split; [by intros ?%not_elem_of_nil|]. intros (p & _ & Hp' & E).
    cbn [Device.dev_mem] in E. rewrite Hu in E by lia. destruct (Z.ltb_spec p 256); [lia|done].
Qed.

Lemma booted_related s v w drivers memory c m :
  started s → Idt.masks log w 0xF8 0xFF → Keyboard.mods (Boot.st_kbd s) = m → Vga.shows (Boot.welcome c) v →
  System.related isr irq idt_addr log (booted s v w (drivers : D) memory) (first_desk c m).
Proof.
  intros Hst Hm Hmods Hv. destruct Hst. split; try done; cbn [booted System.sys_of k_procs k_kbd]; try tauto.
Qed.

(** The invariant of the system calls along whatever happens *)
Lemma related_sys_ok k0 k d :
  Kernel.sys_ok (System.sys_of k0) → System.untouched k0 k → System.related isr irq idt_addr log k d → Kernel.sys_ok (System.sys_of (D := D) k).
Proof.
  intros [Hp ? ? ? ? ? ? ? ?] [? (E1 & E2 & E3 & E4) Ef En Ed Edr Es Emo Eme] [? ? ? ? ? ? ? ?].
  split; rewrite ?Ef, ?En, ?Ed, ?Edr, ?Es, ?Emo; try done; [|by eexists].
  destruct Hp. split; rewrite ?E1, ?E2, ?E3, ?E4; done.
Qed.

Lemma running k0 d0 ls k :
  System.related isr irq idt_addr log k0 d0 → trace step k0 ls k →
  ∃ d, trace System.dstep d0 ls d ∧ System.related isr irq idt_addr log k d ∧ System.untouched k0 k.
Proof.
  intros HR Ht.
  destruct (simulation_traces step System.dstep (λ k d, System.related isr irq idt_addr log k d ∧ System.untouched k0 k) k0 d0 ls k)
    as (d & Hd & HR' & Hu); [|by split; [|apply System.untouched_refl]|exact Ht|by exists d].
  intros k1 d1 o k2 [HR1 Hu1] Hs.
  destruct (System.kstep_simulated _ _ _ _ _ _ _ _ _ stubs_apart buf_size _ _ _ _ HR1 Hs) as (d2 & Hd2 & HR2 & Hu2).
  exists d2. split; [|split; [done|by eapply System.untouched_trans]]. rewrite <- (app_nil_r (shown o)). econstructor; [exact Hd2|constructor].
Qed.

(** C3. The kernel runs as a desk with a clock, a screen and a queue of keys.
    From its zeroed statics [kmain] reaches the shell, and whatever then
    happens - the open interrupt lines in any order, each through its gate, its
    stub, [irq_handler] and the registered function, between them the shell's
    thread taking keys and writing to the screen - is a history of the desk that
    starts with the welcome, no key and the clock at 0: the tick counter, the
    screen, the modifiers and the pending keys are the desk's, everything else
    (process table, descriptors, packets, devices, security tables, system log,
    the interrupt tables) is as [kmain] left it, and the invariants the system
    calls rely on hold.  At any such moment only the clock, the keyboard and the
    second controller can interrupt, and their interrupts return with exactly
    one end of interrupt for the first controller; the next key read and the next call of the screen driver return, and any other vector
    from 48 on, also the [int $0x80] of a system call, halts the machine with
    the message of exception 13: the gate of the system calls is empty. *)
Theorem booted_kernel_safe s v w :
  Boot.fresh_statics s → zlen (Vga.screen v) = 2000 →
  ∃ s' v' w' c, kmain s (v, w) = Some (s', (v', w')) ∧
  ∀ drivers memory ls k, Kernel.drv_inv drivers →
    let k0 := booted s' v' w' drivers memory in
    trace step k0 ls k →
    ∃ d, trace System.dstep (first_desk c (Keyboard.mods (Boot.st_kbd s))) ls d ∧
      System.ticks k = System.d_ticks d ∧ Vga.shows (System.d_screen d) (k_vga (System.sys_of k)) ∧
      Keyboard.mods (k_kbd (System.sys_of k)) = System.d_mods d ∧ Keyboard.pending (k_kbd (System.sys_of k)) = System.d_keys d ∧
      System.untouched k0 k ∧ Kernel.sys_ok (System.sys_of k) ∧
      Boot.lines_started log (k_hw (System.sys_of k)) ∧
      (∀ n, 0 <= n <= 2 → ∃ k', deliver (32 + n) k = Some (System.Resumed k') ∧ System.acknowledged log k k') ∧
      is_Some (Keyboard.keyboard_getchar (k_kbd (System.sys_of k))) ∧
      (∀ f, Vga.call_ok f → is_Some (Vga.run_call f (k_vga (System.sys_of k)) (k_hw (System.sys_of k)))) ∧
      ∀ n, 48 <= n < 256 → ∃ k', deliver n k = Some (System.Halted k') ∧
        Vga.shows (System.fault_screen 13 (System.d_screen d)) (k_vga (System.sys_of k')).
Proof.
  intros Hs Hl.
  destruct (Boot.kmain_ok stack cur isr irq idt_addr kpt System.TimerHandler System.KeyboardHandler System.SyscallHandler fresh fresh_data
    rounds stack_size output_ready input_empty log s v w Hs Hl) as ([s' [v' w']] & E & Hst & Hmask & _ & Hmods & c & Hshow).
  exists s', v', w', c. split; [exact E|]. clear E. intros drivers memory ls k Hd k0 Ht.
  destruct (running k0 _ ls k (booted_related s' v' w' drivers memory c _ Hst Hmask Hmods Hshow) Ht) as (d & Hdesk & HR & Hu).
  exists d. split; [exact Hdesk|]. pose proof HR as [_ _ _ Htk Hscr Hk Hmd Hkeys].
  split; [exact Htk|]. split; [exact Hscr|]. split; [exact Hmd|]. split; [exact Hkeys|]. split; [exact Hu|].
  split; [exact (related_sys_ok k0 k d (booted_sys_ok s' v' w' drivers memory Hst ltac:(by eexists) Hd) Hu HR)|].
  split; [intros n vector Hn; by apply (Quiet.kernel_lines _ _ _ _ (System.re_masks _ _ _ _ _ _ HR))|]. split; [|split; [|split]].
  - intros n. exact (System.open_line_returns _ _ _ _ _ _ _ _ _ stubs_apart k d n HR).
  - destruct (Keyboard.keyboard_getchar_ok _ Hk) as (kb & -> & _). by eexists.
  - intros f Hf. destruct (Vga.call_shows f _ _ (k_hw (System.sys_of k)) Hf Hscr) as (v2 & w2 & -> & _). by eexists.
  - intros n Hn. exact (System.empty_gate _ _ _ _ _ _ _ _ _ stubs_apart buf_size n k d HR Hn).
Qed.

(** ** What is left unstarted *)

(** Only the divisor differs *)
Definition with_total (t : Z) (s : Monitor.monitor_state) : Monitor.monitor_state :=
  let st := Monitor.system_stats s in
  {| Monitor.log_buffer := Monitor.log_buffer s; Monitor.log_index := Monitor.log_index s; Monitor.log_count := Monitor.log_count s;
     Monitor.system_stats :=
       {| Monitor.total_processes := Monitor.total_processes st; Monitor.running_processes := Monitor.running_processes st;
          Monitor.sleeping_processes := Monitor.sleeping_processes st; Monitor.total_memory := t; Monitor.used_memory := Monitor.used_memory st;
          Monitor.free_memory := Monitor.free_memory st; Monitor.total_cpu_time := Monitor.total_cpu_time st;
          Monitor.idle_cpu_time := Monitor.idle_cpu_time st; Monitor.system_calls_count := Monitor.system_calls_count st;
          Monitor.interrupts_count := Monitor.interrupts_count st |};
     Monitor.performance_metrics := Monitor.performance_metrics s; Monitor.timers := Monitor.timers s;
     Monitor.uptime_seconds := Monitor.uptime_seconds s; Monitor.timestamp_counter := Monitor.timestamp_counter s |}.

Definition five_permissions : list Z :=
  [Security.PERM_READ; Security.PERM_WRITE; Security.PERM_EXECUTE; Security.PERM_DELETE; Security.PERM_ADMIN].

Lemma update_divides t s :
  Monitor.uptime_seconds s = 0 → Monitor.monitor_update_stats (with_total t s) = None ↔ t = 0.
Proof.
  intros Hu. unfold Monitor.monitor_update_stats, with_total. cbn [Monitor.uptime_seconds Monitor.system_stats Monitor.total_memory Monitor.free_memory].
  rewrite Hu. unfold Monitor.udiv at 1. change (((0 +u 1) *u 100) +u 1 =? 0) with false. cbn [mbind option_bind]. unfold Monitor.udiv.
  destruct (Z.eqb_spec t 0) as [->|Hne]; split; done.
Qed.

(** C39. [kmain] leaves four parts unstarted that have an initialisation of
    their own.  On the kernel it leaves, from its zeroed statics: updating the
    statistics divides by the total memory, which is still 0 - with any other
    total it would return, and after [monitor_init] it does; no packet is
    accepted and none received - after [network_init] one would be; the current
    user is root and yet has no permission at all - after [security_init] it has
    every one of the five; and no device opens. *)
Theorem parts_never_started s v w :
  Boot.fresh_statics s → zlen (Vga.screen v) = 2000 →
  ∃ s' v' w', kmain s (v, w) = Some (s', (v', w')) ∧
  ∀ (drivers : D) memory,
    let k := System.sys_of (booted s' v' w' drivers memory) in
    (Monitor.monitor_update_stats (k_mon k) = None ∧
     (∀ t, t ≠ 0 → is_Some (Monitor.monitor_update_stats (with_total t (k_mon k)))) ∧
     ∃ m, Monitor.monitor_init (k_mon k) = Some m ∧ is_Some (Monitor.monitor_update_stats m)) ∧
    ((∀ dst type data len, Network.network_send_packet dst type data len (k_net k) = Some (-1, k_net k)) ∧
     (∀ out, Network.network_receive_packet out (k_net k) = Some (-1, None, k_net k)) ∧
     ∀ dst type data, zlen data <= 1514 →
       ∃ n, Network.network_send_packet dst type (Some data) (zlen data) Network.network_init = Some (0, n)) ∧
    (Security.is_root (k_sec k) = true ∧
     (∀ perm, 0 < perm → Security.security_check_permission perm (k_sec k) = -1) ∧
     ∃ sec, Security.security_init = Some sec ∧ ∀ perm, perm ∈ five_permissions → Security.security_check_permission perm sec = 0) ∧
    ∀ name, Device.device_open name (k_devs k) drivers = Some (-1, drivers).
Proof.
  clear buf_size stubs_apart. intros Hs Hl.
  destruct (Boot.kmain_ok stack cur isr irq idt_addr kpt System.TimerHandler System.KeyboardHandler System.SyscallHandler fresh fresh_data
    rounds stack_size output_ready input_empty log s v w Hs Hl) as ([s' [v' w']] & E & Hst & _).
  exists s', v', w'. split; [exact E|]. clear E. intros drivers memory k.
  destruct (Boot.sd_unstarted _ _ _ _ _ _ _ _ _ Hst) as (En & Es & Em & Ed).
  unfold k. cbn [booted System.sys_of k_mon k_net k_sec k_devs]. rewrite En, Es, Em, Ed. split; [|split; [|split]].
  - split; [done|]. split.
    + intros t Ht. apply not_eq_None_Some. by rewrite update_divides.
    + destruct (Monitor.monitor_init_ok Monitor.monitor_bss) as (m & Em' & _ & Ht & Hf & _). exists m. split; [exact Em'|].
      destruct (Monitor.update_stats_ok m) as (m' & -> & _); [by split|by eexists].
  - split; [exact Network.network_bss_sends_nothing|]. split; [done|]. intros dst type data Hlen.
    destruct (Network.network_send_spec {| Network.msg_dst := dst; Network.msg_type := type; Network.msg_payload := data |} _
      Network.network_init_ok Hlen) as (n & En' & _). exists n. exact En'.
  - split; [done|]. split.
    + intros perm Hp. unfold Security.security_check_permission, Security.has_permission. cbn. rewrite Z.land_0_l.
      destruct (Z.eqb_spec 0 perm); [lia|done].
    + eexists. split; [vm_compute; reflexivity|]. by apply Forall_forall; repeat constructor.
  - done.
Qed.

End running.
(** ** Boot's example machine *)
#[local] Instance no_drivers : Kernel.Drivers unit := {| Kernel.drv_inv _ := True; Kernel.drv_fits _ _ _ := False |}.
#[local] Existing Instances Boot.ready_ports Boot.ready_ports_log Boot.ready_ports_reads.

Definition demo_isr (i : nat) : Z := 0x100000 + 16 * Z.of_nat i.
Definition demo_irq (i : nat) : Z := 0x101000 + 16 * Z.of_nat i.
Definition demo_start := kmain (λ n, replicate n 170) Log.LOG_INFO demo_isr demo_irq 0x108000 0x109000 RamFs.zero_block mem_zero 1.
Definition demo_deliver := deliver (D := unit) Kernel.no_bytes Kernel.no_bytes Kernel.no_bytes 1 demo_isr demo_irq 0x108000 (replicate 16 170).

Lemma demo_stubs : NoDup (System.stub_addr demo_isr demo_irq <$> System.stubs).
Proof. apply (bool_decide_unpack _). vm_compute. exact I. Qed.

(** One tick of the clock after the start; then a system call halts. *)
Lemma booted_kernel_safe_witness :
  ∃ s' v' w' c k d, demo_start Boot.zero_statics (Vga.vga_bss, []) = Some (s', (v', w')) ∧
    demo_deliver 32 (booted s' v' w' tt [0; 0]) = Some (System.Resumed k) ∧
    trace System.dstep (first_desk c (Keyboard.mods Keyboard.kb_bss)) [System.Line 0 1] d ∧ System.ticks k = System.d_ticks d ∧
    Vga.shows (System.d_screen d) (k_vga (System.sys_of k)) ∧ Kernel.sys_ok (System.sys_of k) ∧
    ∃ k', demo_deliver 0x80 k = Some (System.Halted k') ∧
      Vga.shows (System.fault_screen 13 (System.d_screen d)) (k_vga (System.sys_of k')).
Proof.
  destruct (booted_kernel_safe (D := unit) Kernel.no_bytes Kernel.no_bytes Kernel.no_bytes 1 (λ n, replicate n 170) Log.LOG_INFO demo_isr demo_irq
    0x108000 0x109000 RamFs.zero_block mem_zero 1 (replicate 16 170) id (λ k, length_replicate k 170) eq_refl
    ltac:(intros w; by eexists) ltac:(intros w; by eexists) demo_stubs Boot.zero_statics Vga.vga_bss [])
    as (s' & v' & w' & c & E & Hall).
  - exact Boot.zero_statics_fresh.
  - vm_compute. reflexivity.
  - destruct (Hall tt [0; 0] [] _ Logic.I (trace_nil _ _)) as (_ & _ & _ & _ & _ & _ & _ & _ & Hlines & Hret & _).
    destruct (Hret 0 ltac:(lia)) as (k & Ek & _). assert (Idt.line_open w' 0 32) as Hopen by (apply (Hlines 0 32); lia).
    assert (trace (step Kernel.no_bytes Kernel.no_bytes Kernel.no_bytes 1 demo_isr demo_irq 0x108000 (replicate 16 170) id)
      (booted s' v' w' tt [0; 0]) [System.Line 0 1] k) as Hk.
    { apply (trace_one _ _ (Some (System.Line 0 1))).
      assert (System.scancode w' = 1) as <- by reflexivity.
      eapply (System.k_line _ _ _ _ _ _ _ _ _ 0 32 (booted s' v' w' tt [0; 0]) k); [lia|exact Hopen|exact Ek]. }
    destruct (Hall tt [0; 0] _ _ Logic.I Hk) as (d & Hd & Htk & Hscr & _ & _ & _ & Hok & _ & _ & _ & _ & Hgate).
    exists s', v', w', c, k, d. exact (conj E (conj Ek (conj Hd (conj Htk (conj Hscr (conj Hok (Hgate 0x80 ltac:(lia)))))))).
Defined.

Lemma parts_never_started_witness :
  ∃ s' v' w', demo_start Boot.zero_statics (Vga.vga_bss, []) = Some (s', (v', w')) ∧
    let k := System.sys_of (booted s' v' w' tt [0; 0]) in
    Monitor.monitor_update_stats (k_mon k) = None ∧ is_Some (Monitor.monitor_update_stats (with_total 1048576 (k_mon k))) ∧
    Network.network_send_packet 0xC0A80101 17 (Some [65]) 1 (k_net k) = Some (-1, k_net k) ∧
    Security.security_check_permission Security.PERM_READ (k_sec k) = -1 ∧
    Device.device_open (lit "char0") (k_devs k) tt = Some (-1, tt).
Proof.
  destruct (parts_never_started (D := unit) (λ n, replicate n 170) Log.LOG_INFO demo_isr demo_irq
    0x108000 0x109000 RamFs.zero_block mem_zero 1 id (λ k, length_replicate k 170)
    ltac:(intros w; by eexists) ltac:(intros w; by eexists) Boot.zero_statics Vga.vga_bss [])
    as (s' & v' & w' & E & Hall).
  - exact Boot.zero_statics_fresh.
  - vm_compute. reflexivity.
  - destruct (Hall tt [0; 0]) as ((Hm & Ht & _) & (Hn & _) & (_ & Hs & _) & Hd). exists s', v', w'. split; [exact E|].
    split; [exact Hm|]. split; [by apply Ht|]. split; [apply Hn|]. split; [by apply Hs|]. apply Hd.
Defined.

End Running.
