(* ===== verification/Programs.v ===== *)
(** * Programs: the sample processes as interaction trees
    (kernel/user_process.c, user_program.c, test_process.c, network_test.c,
    device_test.c)

    A process runs for ever and meets the kernel only through system calls, so
    it is an interaction tree: its events are the calls of [syscall], the
    writes and reads of its own stack frame, the writes two of the programs do
    to the screen memory, and the overflow of a counter, which is undefined.
    Where the compiler puts the local arrays is a parameter of each program.
    Delay loops do nothing and are left out. *)
From ITree Require Import ITree.
From S2P Require Import Prelude CString.

Module Programs.

(** The numbers of include/syscall.h *)
Definition SYS_EXIT : Z := 1.
Definition SYS_WRITE : Z := 2.
Definition SYS_READ : Z := 3.
Definition SYS_OPEN : Z := 4.
Definition SYS_CLOSE : Z := 5.
Definition SYS_GETPID : Z := 6.
Definition SYS_YIELD : Z := 7.
Definition SYS_MALLOC : Z := 8.
Definition SYS_FREE : Z := 9.
Definition SYS_SLEEP : Z := 10.
Definition SYS_GET_TIME : Z := 11.
Definition SYS_LOG : Z := 12.
Definition SYS_GET_STATS : Z := 13.
Definition SYS_FORK : Z := 14.
Definition SYS_WAIT : Z := 15.
Definition SYS_EXEC : Z := 16.
Definition SYS_SEEK : Z := 17.
Definition SYS_STAT : Z := 18.
Definition SYS_NETWORK_SEND : Z := 19.
Definition SYS_NETWORK_RECEIVE : Z := 20.
Definition SYS_DEVICE_OPEN : Z := 21.
Definition SYS_DEVICE_CLOSE : Z := 22.
Definition SYS_DEVICE_READ : Z := 23.
Definition SYS_DEVICE_WRITE : Z := 24.
Definition SYS_DEVICE_IOCTL : Z := 25.
Definition SYS_SETUID : Z := 26.
Definition SYS_SETGID : Z := 27.
Definition SYS_GETUID : Z := 28.
Definition SYS_GETGID : Z := 29.
Definition SYS_CHMOD : Z := 30.
Definition SYS_CHOWN : Z := 31.
Definition SYS_DUMP_LOGS : Z := 32.
Definition SYS_POWER_STATE : Z := 33.
Definition SYS_GET_BATTERY_INFO : Z := 34.
Definition SYS_GET_POWER_STATS : Z := 35.

(** ** What a program does *)
Variant progE : Type → Type :=
| Syscall (num arg1 arg2 arg3 : Z) : progE Z
| Store (p : Z) (b : list Z) : progE unit
| Load (p : Z) : progE Z
| Screen (i v : Z) : progE unit
| Overflow : progE Empty_set.

Definition prog : Type := itree progE Empty_set.
Definition part (A : Type) : Type := itree progE A.

Definition syscall (num arg1 arg2 arg3 : Z) : part Z := ITree.trigger (Syscall num arg1 arg2 arg3).
(** [p[0] = b[0]; p[1] = b[1]; ...]: an initialised array or one element *)
Definition store (p : Z) (b : list Z) : part unit := ITree.trigger (Store p b).
Definition load (p : Z) : part Z := ITree.trigger (Load p).
Definition screen (i v : Z) : part unit := ITree.trigger (Screen i v).

#[local] Notation "x ⇐ m ; k" := (ITree.bind m (λ x, k)) (at level 20, m at level 100, k at level 200, right associativity).
#[local] Notation "m ;; k" := (ITree.bind m (λ _, k)) (at level 100, k at level 200, right associativity).

Definition INT_MAX : Z := 2147483647.
(** [count++] *)
Definition increment (count : Z) : part Z :=
  if count =? INT_MAX then (x ⇐ ITree.trigger Overflow; match (x : Empty_set) with end) else Ret (count + 1).

Definition digit (n : Z) : Z := 48 + Z.rem n 10.

(** [while (1) body], the state being the counter *)
Definition forever (body : Z → part Z) : Z → prog :=
  ITree.iter (λ count, count ⇐ body count; Ret (inl count)).

(** [syscall(SYS_WRITE, 1, (uint32_t)p, n)] *)
Definition write (p n : Z) : part Z := syscall SYS_WRITE 1 p n.
(** [char x[] = text; syscall(SYS_WRITE, 1, (uint32_t)x, sizeof(x) - 1);] *)
Definition say (p : Z) (text : list Z) : part unit := store p text;; write p (zlen text - 1);; Ret tt.

(** ** kernel/user_process.c *)
Definition hello_1 : list Z := lit "Process 1: Hello World!
".
Definition hello_2 : list Z := lit "Process 2: System Calls!
".

Section user_processes.
Context (msg count_msg : Z).

(** The bodies of the three loops, one iteration each *)
Definition user_loop_1 (count : Z) : part Z :=
  write msg (zlen hello_1 - 1);;
  store count_msg (lit "Count: 0
");;
  store (count_msg + 7) [digit count];;
  write count_msg (zlen (lit "Count: 0
") - 1);;
  count ⇐ increment count;
  syscall SYS_YIELD 0 0 0;;
  Ret count.
Definition user_process_1 : prog := store msg hello_1;; forever user_loop_1 0.

(** Here [count_msg] is the array [pid_msg]; the process number is unsigned. *)
Definition user_loop_2 (count : Z) : part Z :=
  write msg (zlen hello_2 - 1);;
  pid ⇐ syscall SYS_GETPID 0 0 0;
  store count_msg (lit "PID: 0
");;
  store (count_msg + 5) [u8 (48 + pid mod 10)];;
  write count_msg (zlen (lit "PID: 0
") - 1);;
  count ⇐ increment count;
  syscall SYS_YIELD 0 0 0;;
  Ret count.
Definition user_process_2 : prog := store msg hello_2;; forever user_loop_2 0.

(** ** kernel/user_program.c *)
Definition user_mode_hello : list Z := lit "User Mode: Hello from Ring 3!
".
Definition user_mode_loop (count : Z) : part Z :=
  store count_msg (lit "User Mode: Count 0
");;
  store (count_msg + 16) [digit count];;
  write count_msg 20;;
  count ⇐ increment count;
  syscall SYS_YIELD 0 0 0;;
  Ret count.
Definition user_program_main : prog := store msg user_mode_hello;; write msg 27;; forever user_mode_loop 0.
End user_processes.

(** ** kernel/test_process.c *)
Definition counting_process (cell color : Z) : prog :=
  forever (λ count, screen cell (u16 (color + (Z.rem count 10 + 48)));; increment count) 0.
Definition test_process_1 : prog := counting_process (80 * 12 + 10) 0x0A00.
Definition test_process_2 : prog := counting_process (80 * 13 + 10) 0x0C00.

(** ** kernel/network_test.c *)
Definition PACKET_TYPE_UDP : Z := 17.

Definition network_test_sender (msg test_msg success_msg : Z) : prog :=
  say msg (lit "NET Test: Network sender started!
");;
  forever (λ count,
    store test_msg (lit "Network packet #0 from sender");;
    store (test_msg + 16) [digit count];;
    result ⇐ syscall SYS_NETWORK_SEND 0xC0A80101 PACKET_TYPE_UDP test_msg;
    (if result =? 0 then say success_msg (lit "NET Test: Packet sent successfully!
") else Ret tt);;
    count ⇐ increment count;
    syscall SYS_YIELD 0 0 0;;
    Ret count) 0.

(** [packet] is the local structure; its data come first and its length, a
    16-bit word, behind the 1514 bytes of data. *)
Definition network_test_receiver (msg packet recv_msg newline : Z) : prog :=
  say msg (lit "NET Test: Network receiver started!
");;
  forever (λ packets_received,
    result ⇐ syscall SYS_NETWORK_RECEIVE packet 0 0;
    packets_received ⇐
      (if result =? 0 then
         packets_received ⇐ increment packets_received;
         store recv_msg (lit "NET Test: Received packet! Count: 0
");;
         store (recv_msg + 36) [digit packets_received];;
         write recv_msg (zlen (lit "NET Test: Received packet! Count: 0
") - 1);;
         lo ⇐ load (packet + 1514);
         hi ⇐ load (packet + 1515);
         write packet (lo + 256 * hi);;
         say newline (lit "
");;
         Ret packets_received
       else Ret packets_received);
    syscall SYS_YIELD 0 0 0;;
    Ret packets_received) 0.

(** ** kernel/device_test.c *)

(** [name] is the address of the device's name; [m] gives those of the local
    arrays: three messages, the test data and the read buffer. *)
Definition test_device (name : Z) (m : nat → Z) (opened text wrote read : list Z) : part unit :=
  result ⇐ syscall SYS_DEVICE_OPEN name 0 0;
  if result =? 0 then
    say (m 0%nat) opened;;
    store (m 3%nat) text;;
    write_result ⇐ syscall SYS_DEVICE_WRITE name (m 3%nat) (zlen text - 1);
    (if 0 <? s32 write_result then say (m 1%nat) wrote else Ret tt);;
    read_result ⇐ syscall SYS_DEVICE_READ name (m 4%nat) 64;
    (if 0 <? s32 read_result then say (m 2%nat) read else Ret tt);;
    syscall SYS_DEVICE_CLOSE name 0 0;;
    Ret tt
  else Ret tt.

Definition device_test_process (block0 char0 msg block_msg char_msg : Z) (m1 m2 : nat → Z) : prog :=
  say msg (lit "DEV Test: Device driver test started!
");;
  say block_msg (lit "DEV Test: Testing block device...
");;
  test_device block0 m1 (lit "DEV Test: Block device opened successfully!
") (lit "This is test data for block device!") (lit "DEV Test: Block device write successful!
") (lit "DEV Test: Block device read successful!
");;
  say char_msg (lit "DEV Test: Testing character device...
");;
  test_device char0 m2 (lit "DEV Test: Character device opened successfully!
") (lit "Hello from character device!") (lit "DEV Test: Character device write successful!
") (lit "DEV Test: Character device read successful!
");;
  forever (λ _, syscall SYS_YIELD 0 0 0;; Ret 0) 0.

End Programs.
