(* ===== verification/Userland.v ===== *)
(** * Userland: what the sample processes ask of the kernel
    (kernel/user_process.c, user_program.c, test_process.c)

    A process alone: its interaction tree (Programs), its stack frame in the
    memory all programs share, and the calls it makes.  The kernel's answers
    are arbitrary but for the process number; what happens to the memory
    outside the frame, at any time, is arbitrary too.  Nothing is assumed of
    the way from [int $0x80] to the kernel's functions: as idt.c stands, the
    first call of any of these programs ends in an exception (System), and what
    the kernel's functions would do with a call is the matter of Kernel. *)
From ITree Require Import ITree.
From S2P Require Import Prelude CString Traces Programs.
Import Programs.

Module Userland.

(** [memcpy] into the memory of the programs *)
Definition put_bytes (p : Z) (b m : list Z) : list Z := take (Z.to_nat p) m ++ b ++ drop (Z.to_nat (p + zlen b)) m.

(** What the outside sees: a message for file descriptor 1 with the length
    given, another system call, a character put on the screen. *)
Inductive deed : Type :=
| Said (n : Z) (text : list Z)
| Called (num arg1 arg2 arg3 : Z)
| Drew (cell v : Z).

Definition called (num a b c : Z) (m : list Z) : deed :=
  if (num =? SYS_WRITE) && (a =? 1) then Said c (str (drop (Z.to_nat b) m)) else Called num a b c.

Record process := { memory : list Z; code : prog }.

Section process.
(** The frame of the process, and its number *)
Context (lo hi me : Z).

Definition frame_kept (m m' : list Z) : Prop :=
  zlen m' = zlen m ∧ ∀ i : nat, lo <= Z.of_nat i < hi → m !! i = m' !! i.
Definition answers (num v : Z) : Prop := num = SYS_GETPID → v = me.

(** A step of the process itself; outside the memory it is undefined. *)
Inductive own_step : process → option deed → process → Prop :=
| p_pause m t t' : observe t = TauF t' → own_step {| memory := m; code := t |} None {| memory := m; code := t' |}
| p_syscall m t num a b c k v :
    observe t = VisF (Syscall num a b c) k → answers num v →
    own_step {| memory := m; code := t |} (Some (called num a b c m)) {| memory := m; code := k v |}
| p_store m t p b k :
    observe t = VisF (Store p b) k → 0 < p → p + zlen b <= zlen m →
    own_step {| memory := m; code := t |} None {| memory := put_bytes p b m; code := k tt |}
| p_load m t p k x :
    observe t = VisF (Load p) k → 0 < p → m.[p] = Some x →
    own_step {| memory := m; code := t |} None {| memory := m; code := k x |}
| p_screen m t i v k :
    observe t = VisF (Screen i v) k → 0 <= i < 2000 →
    own_step {| memory := m; code := t |} (Some (Drew i v)) {| memory := m; code := k tt |}.

(** The kernel and the other processes run between any two steps. *)
Inductive pstep : process → option deed → process → Prop :=
| p_own p o p' : own_step p o p' → pstep p o p'
| p_others m m' t : frame_kept m m' → pstep {| memory := m; code := t |} None {| memory := m'; code := t |}.

End process.

(** ** Facts about memory *)
Lemma put_bytes_length p b m : 0 <= p → p + zlen b <= zlen m → zlen (put_bytes p b m) = zlen m.
Proof. intros Hp Hl. unfold put_bytes, zlen in *. rewrite !length_app, length_take, length_drop. lia. Qed.

Lemma put_bytes_out p b m i :
  0 <= p → p + zlen b <= zlen m → (Z.of_nat i < p ∨ p + zlen b <= Z.of_nat i) → put_bytes p b m !! i = m !! i.
Proof.
  intros Hp Hl Hi. unfold put_bytes, zlen in *. destruct Hi as [Hi|Hi].
  - rewrite lookup_app_l by (rewrite length_take; lia). apply lookup_take_lt. lia.
  - rewrite lookup_app_r by (rewrite length_take; lia). rewrite lookup_app_r by (rewrite length_take; lia).
    rewrite lookup_drop, length_take. f_equal. lia.
Qed.

Lemma put_bytes_in p b m i : 0 <= p → p + zlen b <= zlen m → (i < length b)%nat → put_bytes p b m !! (Z.to_nat p + i)%nat = b !! i.
Proof.
  intros Hp Hl Hi. unfold put_bytes, zlen in *. rewrite lookup_app_r by (rewrite length_take; lia).
  rewrite lookup_app_l by (rewrite length_take; lia). rewrite length_take. f_equal. lia.
Qed.

(** The bytes [b] are at [p]. *)
Definition holds (p : Z) (b m : list Z) : Prop := ∀ i x, b !! i = Some x → m !! (Z.to_nat p + i)%nat = Some x.

Lemma holds_put p b m : 0 <= p → p + zlen b <= zlen m → holds p b (put_bytes p b m).
Proof. intros Hp Hl i x Hi. rewrite put_bytes_in; [done..|]. by eapply lookup_lt_Some. Qed.

Lemma holds_other p b q c m :
  0 <= p → p + zlen b <= zlen m → 0 <= q → q + zlen c <= p ∨ p + zlen b <= q → holds q c m → holds q c (put_bytes p b m).
Proof.
  intros Hp Hl Hq Hd Hc i x Hi. pose proof (lookup_lt_Some _ _ _ Hi). rewrite put_bytes_out; [by apply Hc|done..|].
  unfold zlen in *. lia.
Qed.

(** One byte of the bytes that are there is changed. *)
Lemma holds_byte q c k x m :
  0 <= q → (k < length c)%nat → q + zlen c <= zlen m → holds q c m → holds q (<[k := x]> c) (put_bytes (q + Z.of_nat k) [x] m).
Proof.
  intros Hq Hk Hl Hc i y Hi. unfold zlen in *. destruct (decide (i = k)) as [->|Hne].
  - rewrite list_lookup_insert_eq in Hi by done. injection Hi as <-.
    replace (Z.to_nat q + k)%nat with (Z.to_nat (q + Z.of_nat k) + 0)%nat by lia.
    rewrite put_bytes_in; [done|lia|unfold zlen; cbn; lia|cbn; lia].
  - rewrite list_lookup_insert_ne in Hi by done. rewrite put_bytes_out; [by apply Hc|lia|unfold zlen; cbn; lia|].
    unfold zlen. cbn. lia.
Qed.

Lemma holds_cstr q c s m : 0 <= q → cstr c = Some s → holds q c m → cstr (drop (Z.to_nat q) m) = Some s.
Proof.
  intros Hq (r & -> & Hs)%cstr_alt Hc. apply cstr_alt. exists (drop (length s + 1) (drop (Z.to_nat q) m)). split; [|done].
  apply list_eq. intros i. rewrite lookup_drop. destruct (Nat.lt_ge_cases i (length s + 1)) as [Hi|Hi].
  - destruct (lookup_lt_is_Some_2 (s ++ 0 :: r) i) as [x Hx]; [rewrite length_app; cbn; lia|]. rewrite (Hc i x Hx).
    rewrite <- Hx. destruct (Nat.lt_ge_cases i (length s)); [by rewrite !lookup_app_l|].
    replace i with (length s) by lia. by rewrite !lookup_app_r, !Nat.sub_diag.
  - rewrite lookup_app_r by lia. replace (i - length s)%nat with (S (i - (length s + 1)))%nat by lia.
    rewrite lookup_cons, !lookup_drop. f_equal. lia.
Qed.

Definition assertion : Type := list Z → Prop.

(** [A] speaks of the addresses from [lo] to [hi] only. *)
Definition stable (lo hi : Z) (A : assertion) : Prop :=
  ∀ m m', (∀ i : nat, lo <= Z.of_nat i < hi → m !! i = m' !! i) → A m → A m'.

Lemma holds_stable lo hi p b : 0 <= lo → lo <= p → p + zlen b <= hi → stable lo hi (holds p b).
Proof.
  intros Hlo Hp Hl m m' Hm Hb i x Hi. pose proof (lookup_lt_Some _ _ _ Hi). rewrite <- Hm; [by apply Hb|].
  unfold zlen in *. lia.
Qed.
Lemma stable_and lo hi A A' : stable lo hi A → stable lo hi A' → stable lo hi (λ m, A m ∧ A' m).
Proof. intros H H' m m' Hm [HA HA']. split; [by eapply H|by eapply H']. Qed.
Lemma stable_true lo hi : stable lo hi (λ _, True).
Proof. done. Qed.

(** ** What a program does, line by line

    A [line] is one event of a program with what it does: a store, after which
    [A] holds; a message that is printed; a question for its number, which is
    [me]; a yield; a character put on the screen; the end of an iteration; or undefined behaviour. *)
Inductive line : Type :=
| Put (p : Z) (b : list Z) (A : assertion)
| Say (buf n : Z) (text : list Z)
| Ask
| Yield
| Draw (cell v : Z)
| Pause
| Stop.

Section scripts.
Context (lo hi me : Z).

(** [t] follows the lines and then satisfies [fin]; [A] is known before. *)
Fixpoint runs (A : assertion) (t : prog) (sc : list line) (fin : assertion → prog → Prop) : Prop :=
  match sc with
  | [] => fin A t
  | Put p b A' :: sc =>
      ∃ k, observe t = VisF (Store p b) k ∧ lo <= p ∧ p + zlen b <= hi ∧ stable lo hi A' ∧
        (∀ m, hi <= zlen m → A m → A' (put_bytes p b m)) ∧ runs A' (k tt) sc fin
  | Say buf n text :: sc =>
      ∃ k, observe t = VisF (Programs.Syscall SYS_WRITE 1 buf n) k ∧ lo <= buf ∧ buf + n <= hi ∧
        (∀ m, A m → cstr (drop (Z.to_nat buf) m) = Some text) ∧ ∀ a, runs A (k a) sc fin
  | Ask :: sc => ∃ k, observe t = VisF (Programs.Syscall SYS_GETPID 0 0 0) k ∧ runs A (k me) sc fin
  | Yield :: sc => ∃ k, observe t = VisF (Programs.Syscall SYS_YIELD 0 0 0) k ∧ ∀ a, runs A (k a) sc fin
  | Draw i v :: sc => ∃ k, observe t = VisF (Screen i v) k ∧ 0 <= i < 2000 ∧ runs A (k tt) sc fin
  | Pause :: sc => ∃ t', observe t = TauF t' ∧ runs A t' sc fin
  | Stop :: _ => ∃ k, observe t = VisF Overflow k
  end.

(** The program is back at [h], where [inv] is known. *)
Definition ends (inv : assertion) (h : prog) (A : assertion) (t : prog) : Prop :=
  observe t = observe h ∧ ∀ m, A m → inv m.

Lemma runs_here (A A' : assertion) t t' l sc fin :
  observe t' = observe t → (∀ m, A' m → A m) → runs A t (l :: sc) fin →
  (∀ A0 A1 u, (∀ m, A1 m → A0 m) → fin A0 u → fin A1 u) → runs A' t' (l :: sc) fin.
Proof.
  intros Ht HA Hr Hfin. assert (∀ sc u A0 A1, (∀ m, A1 m → A0 m) → runs A0 u sc fin → runs A1 u sc fin) as Hmono.
  { clear -Hfin. induction sc as [|l sc IH]; intros u A0 A1 HA; [by apply Hfin|].
    destruct l as [p b A'|buf n text| | |i v| |]; cbn [runs].
    - intros (k & Ho & H1 & H2 & H3 & H4 & H5). exists k. split_and!; auto.
    - intros (k & Ho & H1 & H2 & H3 & H4). exists k. split_and!; eauto.
    - intros (k & Ho & Hk). exists k. split; [done|]. by eapply IH.
    - intros (k & Ho & Hk). exists k. split; [done|]. intros a. by eapply IH.
    - intros (k & Ho & Hi & Hk). exists k. split; [done|]. split; [done|]. by eapply IH.
    - intros (t' & Ho & Hk). exists t'. split; [done|]. by eapply IH.
    - done. }
  apply (Hmono (l :: sc) t' A A' HA). destruct l; cbn [runs] in *; by rewrite Ht.
Qed.
End scripts.

(** A process that talks for ever: its memory, its beginning, and one
    iteration after the other. *)
Record speaker := {
  sp_lo : Z;
  sp_hi : Z;
  sp_start : prog;
  sp_head : Z → prog;
  sp_intro : list line;
  sp_body : Z → list line;
  sp_inv : assertion;
}.

Record speaker_ok (me : Z) (sp : speaker) : Prop := {
  sk_lo : 0 < sp_lo sp;
  sk_stable : stable (sp_lo sp) (sp_hi sp) (sp_inv sp);
  sk_intro : runs (sp_lo sp) (sp_hi sp) (me) (λ _, True) (sp_start sp) (sp_intro sp) (ends (sp_inv sp) (sp_head sp 0));
  sk_body n : 0 <= n → sp_body sp n ≠ [] ∧
    runs (sp_lo sp) (sp_hi sp) (me) (sp_inv sp) (sp_head sp n) (sp_body sp n) (ends (sp_inv sp) (sp_head sp (n + 1)));
}.

Definition deed_of (l : line) : option deed :=
  match l with
  | Say _ n text => Some (Said n text)
  | Ask => Some (Called SYS_GETPID 0 0 0)
  | Yield => Some (Called SYS_YIELD 0 0 0)
  | Draw i v => Some (Drew i v)
  | Put _ _ _ | Pause | Stop => None
  end.
Definition deeds (sc : list line) : list deed := omap deed_of sc.

(** The lines of the beginning and of the first iterations *)
Definition segment (sp : speaker) (k : nat) : list line := match k with O => sp_intro sp | S j => sp_body sp (Z.of_nat j) end.
Definition speech (sp : speaker) (k : nat) : list deed := concat ((λ j, deeds (segment sp j)) <$> seq 0 k).

(** Where the process is: it has done [outs] and is in segment [k]. *)
Record at_point (me : Z) (sp : speaker) (m : list Z) (outs : list deed) (t : prog) : Prop := {
  ap_point : ∃ k done_ rest A,
    segment sp k = done_ ++ rest ∧ rest ≠ [] ∧ outs = speech sp k ++ deeds done_ ∧
    stable (sp_lo sp) (sp_hi sp) A ∧ A m ∧
    runs (sp_lo sp) (sp_hi sp) (me) A t rest (ends (sp_inv sp) (sp_head sp (Z.of_nat k)))
}.

Lemma deeds_app l l' : deeds (l ++ l') = deeds l ++ deeds l'.
Proof. apply list.omap_app. Qed.

Lemma speech_S sp k : speech sp (S k) = speech sp k ++ deeds (segment sp k).
Proof. unfold speech. rewrite seq_S, fmap_app, concat_app. cbn. by rewrite app_nil_r. Qed.

(** After a line, at the next one or at the head of the next iteration *)
Lemma next_point me sp k done_ rest A m outs t :
  speaker_ok me sp → segment sp k = done_ ++ rest → outs = speech sp k ++ deeds done_ →
  stable (sp_lo sp) (sp_hi sp) A → A m →
  runs (sp_lo sp) (sp_hi sp) (me) A t rest (ends (sp_inv sp) (sp_head sp (Z.of_nat k))) →
  at_point me sp m outs t.
Proof.
  intros Hsp Hseg Houts Hst HA Hr. constructor. destruct rest as [|l rest].
  - rewrite app_nil_r in Hseg. destruct Hr as [Hobs Hinv].
    destruct (sk_body me sp Hsp (Z.of_nat k) ltac:(lia)) as [Hne Hbody]. destruct (sp_body sp (Z.of_nat k)) as [|l rest] eqn:Eb; [done|].
    exists (S k), [], (l :: rest), (sp_inv sp). split; [exact Eb|]. split; [done|].
    split; [by rewrite speech_S, Hseg, app_nil_r|]. split; [apply Hsp|]. split; [by apply Hinv|].
    eapply runs_here; [exact Hobs|done| |].
    + by replace (Z.of_nat (S k)) with (Z.of_nat k + 1) by lia.
    + intros A0 A1 u H01 [Ho Hi]. split; [done|]. auto.
  - by exists k, done_, (l :: rest), A.
Qed.

Lemma point_prefix me sp m outs t : at_point me sp m outs t → ∃ k, outs `prefix_of` speech sp k.
Proof.
  intros [(k & d & r & A & Hseg & _ & -> & _)]. exists (S k). rewrite speech_S, Hseg, deeds_app. apply prefix_app.
  by exists (deeds r).
Qed.

Lemma point_stable me sp m m' outs t :
  (∀ i : nat, sp_lo sp <= Z.of_nat i < sp_hi sp → m !! i = m' !! i) → at_point me sp m outs t → at_point me sp m' outs t.
Proof.
  intros Hm [(k & d & r & A & Hseg & Hne & Ho & Hst & HA & Hr)]. constructor. exists k, d, r, A. split_and!; try done.
  by eapply Hst.
Qed.

(** ** The process follows its lines *)

(** What the first event of a tree asks for, and the tree after the answer. *)
Inductive request : Type :=
| RDone
| RPause
| RSyscall (num a b c : Z)
| RStore (p : Z) (b : list Z)
| RLoad (p : Z)
| RScreen (i v : Z)
| ROverflow.

Definition asked (o : itree' progE Empty_set) : request :=
  match o with
  | RetF _ => RDone
  | TauF _ => RPause
  | VisF e _ =>
      match e with
      | Programs.Syscall num a b c => RSyscall num a b c
      | Store p b => RStore p b
      | Load p => RLoad p
      | Screen i v => RScreen i v
      | Overflow => ROverflow
      end
  end.

Definition resumed (o : itree' progE Empty_set) (a : Z) : option prog :=
  match o with
  | RetF _ => None
  | TauF t => Some t
  | VisF e k =>
      match e in progE X return (X → prog) → option prog with
      | Programs.Syscall _ _ _ _ | Load _ => λ k, Some (k a)
      | Store _ _ | Screen _ _ => λ k, Some (k tt)
      | Overflow => λ _, None
      end k
  end.

Lemma observed t o o' : observe t = o → observe t = o' → asked o = asked o' ∧ ∀ a, resumed o a = resumed o' a.
Proof. by intros <- <-. Qed.

(** A line that does not ask for what the tree asks for *)
Ltac other_line Hr Ho :=
  exfalso; destruct Hr as (? & ?Hr & _) || destruct Hr as (? & ?Hr);
  match goal with H1 : observe ?t = ?o |- _ => destruct (observed t _ _ Ho H1) as [?Hreq _]; discriminate Hreq end.

Section speaking.
Context (me : Z) (sp : speaker) (len : Z).
Hypothesis Hsp : speaker_ok me sp.
Hypothesis Hlen : sp_hi sp <= len.

Record process_inv (ds : list deed) (p : process) : Prop := {
  pi_len : zlen (memory p) = len;
  pi_point : at_point me sp (memory p) ds (code p);
}.

(** The line [l], which was next, is done. *)
Lemma inv_update ds o m t k d l rest A :
  zlen m = len → segment sp k = d ++ l :: rest → ds = speech sp k ++ deeds d → shown o = deeds [l] →
  stable (sp_lo sp) (sp_hi sp) A → A m →
  runs (sp_lo sp) (sp_hi sp) me A t rest (ends (sp_inv sp) (sp_head sp (Z.of_nat k))) →
  process_inv (ds ++ shown o) {| memory := m; code := t |}.
Proof.
  intros Hm Hseg Hds Ho Hst HA Hr. split; [done|]. eapply (next_point me sp k (d ++ [l]) rest A); [done| | |done..].
  - by rewrite <- app_assoc.
  - by rewrite Hds, Ho, deeds_app, app_assoc.
Qed.

Lemma own_inv ds p o p' : process_inv ds p → own_step me p o p' → process_inv (ds ++ shown o) p'.
Proof.
  intros [Hm [(n & d & rest & A & Hseg & Hne & Hds & Hst & HA & Hr)]] Hs. pose proof (sk_lo me sp Hsp) as Hlo.
  destruct rest as [|l rest]; [done|].
  destruct Hs as [m t t' Ho|m t num a b c k v Ho Hv|m t p b k Ho Hp Hb|m t p k x Ho|m t i v k Ho Hi]; cbn [memory code] in *.
  - destruct l; try (by other_line Hr Ho). destruct Hr as (t2 & Ho2 & Hr). destruct (observed t _ _ Ho Ho2) as [_ Hres].
    specialize (Hres 0). injection Hres as <-. by eapply inv_update.
  - destruct l as [|buf cnt text| | | | |]; try (by other_line Hr Ho).
    + destruct Hr as (k2 & Ho2 & Hbuf & Hin & Htext & Hr). destruct (observed t _ _ Ho Ho2) as [Hreq Hres].
      injection Hreq as -> -> -> ->. specialize (Hres v). injection Hres as ->. eapply inv_update; try done.
      unfold called, str. cbn. by rewrite (Htext _ HA).
    + destruct Hr as (k2 & Ho2 & Hr). destruct (observed t _ _ Ho Ho2) as [Hreq Hres]. injection Hreq as -> -> -> ->.
      specialize (Hres v). injection Hres as ->. rewrite (Hv eq_refl). by eapply inv_update.
    + destruct Hr as (k2 & Ho2 & Hr). destruct (observed t _ _ Ho Ho2) as [Hreq Hres]. injection Hreq as -> -> -> ->.
      specialize (Hres v). injection Hres as ->. by eapply inv_update.
  - destruct l as [p' b' A'| | | | | |]; try (by other_line Hr Ho). destruct Hr as (k2 & Ho2 & Hp2 & Hin & Hst' & HA' & Hr).
    destruct (observed t _ _ Ho Ho2) as [Hreq Hres]. injection Hreq as <- <-. specialize (Hres 0). injection Hres as ->.
    eapply inv_update; try done.
    + rewrite put_bytes_length; lia.
    + apply HA'; [lia|done].
  - by destruct l; other_line Hr Ho.
  - destruct l; try (by other_line Hr Ho). destruct Hr as (k2 & Ho2 & _ & Hr). destruct (observed t _ _ Ho Ho2) as [Hreq Hres].
    injection Hreq as <- <-. specialize (Hres 0). injection Hres as ->. by eapply inv_update.
Qed.

Lemma step_inv ds p o p' : process_inv ds p → pstep (sp_lo sp) (sp_hi sp) me p o p' → process_inv (ds ++ shown o) p'.
Proof.
  intros Hp Hs. destruct Hs as [p o p' Hs|m m' t [Hl Hf]]; [by eapply own_inv|]. destruct Hp as [Hm Hpt]. cbn [memory code] in *.
  cbn [shown]. rewrite app_nil_r. split; cbn [memory code]; [by rewrite Hl|]. by eapply point_stable.
Qed.

Lemma trace_inv p0 ds p :
  process_inv [] p0 → trace (pstep (sp_lo sp) (sp_hi sp) me) p0 ds p → process_inv ds p.
Proof. intros H0 Ht. exact (trace_invariant _ process_inv p0 ds p [] step_inv Ht H0). Qed.

(** It can go on, unless its counter overflows. *)
Lemma progress ds p :
  process_inv ds p →
  (∃ o p', own_step me p o p') ∨
  ∃ k d rest n, observe (code p) = VisF Overflow k ∧ segment sp n = d ++ Stop :: rest ∧ ds = speech sp n ++ deeds d.
Proof.
  intros [Hm [(n & d & rest & A & Hseg & Hne & Hds & Hst & HA & Hr)]]. pose proof (sk_lo me sp Hsp) as Hlo.
  destruct rest as [|l rest]; [done|]. destruct p as [m t]. cbn [memory code] in *. destruct l as [p b A'|buf cnt text| | |i v| |]; cbn [runs] in Hr.
  - left. destruct Hr as (k & Ho & Hp & Hin & _). eexists _, _. eapply p_store; [done|lia|lia].
  - left. destruct Hr as (k & Ho & _). eexists _, _. by eapply (p_syscall me m t _ _ _ _ k 0).
  - left. destruct Hr as (k & Ho & _). eexists _, _. by eapply (p_syscall me m t _ _ _ _ k me).
  - left. destruct Hr as (k & Ho & _). eexists _, _. by eapply (p_syscall me m t _ _ _ _ k 0).
  - left. destruct Hr as (k & Ho & Hi & _). eexists _, _. by eapply p_screen.
  - left. destruct Hr as (t' & Ho & _). eexists _, _. by eapply p_pause.
  - right. destruct Hr as (k & Ho). by exists k, d, rest, n.
Qed.

Lemma starts m : len = zlen m → sp_intro sp ≠ [] → process_inv [] {| memory := m; code := sp_start sp |}.
Proof.
  intros Hm Hne. split; [done|]. constructor. exists 0%nat, [], (sp_intro sp), (λ _, True). split_and!; try done. apply (sk_intro me sp Hsp).
Qed.
End speaking.

(** ** The user processes of the repository *)
Inductive kind : Type :=
| Hello
| Pid
| Ring3.

(** A process that runs one of the programs, its stack frame and where the two
    arrays lie in it. *)
Record job := { j_kind : kind; j_lo : Z; j_hi : Z; j_msg : Z; j_count : Z }.

Definition loop (j : job) : Z → part Z :=
  match j_kind j with
  | Hello => user_loop_1 (j_msg j) (j_count j)
  | Pid => user_loop_2 (j_msg j) (j_count j)
  | Ring3 => user_mode_loop (j_count j)
  end.
Definition program (j : job) : prog :=
  match j_kind j with
  | Hello => user_process_1 (j_msg j) (j_count j)
  | Pid => user_process_2 (j_msg j) (j_count j)
  | Ring3 => user_program_main (j_msg j) (j_count j)
  end.

Definition msg_text (k : kind) : list Z :=
  match k with Hello => hello_1 | Pid => hello_2 | Ring3 => user_mode_hello end.
Definition count_text (k : kind) : list Z :=
  match k with Hello => lit "Count: 0
" | Pid => lit "PID: 0
" | Ring3 => lit "User Mode: Count 0
" end.

(** Both arrays lie in the frame and do not overlap. *)
Definition job_ok (j : job) : Prop :=
  let m := zlen (msg_text (j_kind j)) in let c := zlen (count_text (j_kind j)) in
  0 < j_lo j ∧ j_lo j <= j_msg j ∧ j_msg j + m <= j_hi j ∧ j_lo j <= j_count j ∧ j_count j + c <= j_hi j ∧
  (j_msg j + m <= j_count j ∨ j_count j + c <= j_msg j).

(** What process [me] does before its loop and in iteration [n] *)
Definition opening (k : kind) : list deed :=
  match k with Ring3 => [Said 27 (bytes_of_string "User Mode: Hello from Ring 3!
")] | _ => [] end.
Definition iteration (k : kind) (me n : Z) : list deed :=
  match k with
  | Hello => [Said 24 (bytes_of_string "Process 1: Hello World!
"); Said 9 (bytes_of_string "Count: " ++ [48 + n mod 10; 10])]
  | Pid => [Said 25 (bytes_of_string "Process 2: System Calls!
"); Called SYS_GETPID 0 0 0; Said 7 (bytes_of_string "PID: " ++ [48 + me mod 10; 10])]
  | Ring3 => [Said 20 (bytes_of_string "User Mode: Count" ++ [48 + n mod 10; 48; 10])]
  end ++ if n =? INT_MAX then [] else [Called SYS_YIELD 0 0 0].
Definition monologue (k : kind) (me : Z) (n : nat) : list deed :=
  opening k ++ concat (iteration k me <$> seqZ 0 (Z.of_nat n)).

(** The byte of the counter text the program overwrites, and with what *)
Definition digit_at (k : kind) : nat := match k with Hello => 7 | Pid => 5 | Ring3 => 16 end.
Definition digit_of (k : kind) (me n : Z) : Z := match k with Pid => u8 (48 + me mod 10) | _ => digit n end.

Section jobs.
Context (j : job) (me : Z).
Let k := j_kind j.
Definition knows : assertion := holds (j_msg j) (msg_text k).
Definition knows_count (c : list Z) : assertion := λ m, knows m ∧ holds (j_count j) c m.

Definition count_said (n : Z) : list Z :=
  match k with
  | Hello => bytes_of_string "Count: " ++ [48 + n mod 10; 10]
  | Pid => bytes_of_string "PID: " ++ [48 + me mod 10; 10]
  | Ring3 => bytes_of_string "User Mode: Count" ++ [48 + n mod 10; 48; 10]
  end.

(** The store of the counter text, its digit, and the call that prints it *)
Definition count_lines (n : Z) : list line :=
  let c := <[digit_at k := digit_of k me n]> (count_text k) in
  [Put (j_count j) (count_text k) (knows_count (count_text k));
   Put (j_count j + Z.of_nat (digit_at k)) [digit_of k me n] (knows_count c);
   Say (j_count j) (match k with Ring3 => 20 | _ => zlen (count_text k) - 1 end) (count_said n)].

Definition turn_end (n : Z) : list line := if n =? INT_MAX then [Stop] else [Yield; Pause].
Definition say_hello : line := Say (j_msg j) (match k with Ring3 => 27 | _ => zlen (msg_text k) - 1 end) (str (msg_text k)).

Definition the_speaker : speaker :=
  {| sp_lo := j_lo j; sp_hi := j_hi j; sp_start := program j;
     sp_head := forever (loop j);
     sp_intro := Put (j_msg j) (msg_text k) knows :: match k with Ring3 => [say_hello] | _ => [] end;
     sp_body n := match k with Hello => [say_hello] | Pid => [say_hello; Ask] | Ring3 => [] end ++ count_lines n ++ turn_end n;
     sp_inv := knows |}.

Hypothesis Hj : job_ok j.

Lemma knows_msg m : j_hi j <= zlen m → knows (put_bytes (j_msg j) (msg_text k) m).
Proof. intros Hm. unfold job_ok in Hj. fold k in Hj. apply holds_put; lia. Qed.

Lemma knows_stable : stable (j_lo j) (j_hi j) knows.
Proof. unfold job_ok in Hj. fold k in Hj. apply holds_stable; lia. Qed.

Lemma count_stable c : length c = length (count_text k) → stable (j_lo j) (j_hi j) (knows_count c).
Proof.
  intros Hc. apply stable_and; [apply knows_stable|]. unfold job_ok in Hj. fold k in Hj. unfold zlen in Hj.
  apply holds_stable; unfold zlen; lia.
Qed.

Lemma knows_put_count m : j_hi j <= zlen m → knows m → knows_count (count_text k) (put_bytes (j_count j) (count_text k) m).
Proof.
  intros Hm Hk. unfold job_ok in Hj. fold k in Hj. split; [apply holds_other; [lia..|done]|apply holds_put; lia].
Qed.

Lemma knows_put_digit m d :
  j_hi j <= zlen m → knows_count (count_text k) m →
  knows_count (<[digit_at k := d]> (count_text k)) (put_bytes (j_count j + Z.of_nat (digit_at k)) [d] m).
Proof.
  intros Hm [Hk Hc]. unfold job_ok in Hj. fold k in Hj.
  assert (digit_at k < length (count_text k))%nat as Hd by (destruct k; cbn; lia).
  split; [apply holds_other; [unfold zlen in *; cbn; lia..|done]|apply holds_byte; [lia|done|lia|done]].
Qed.

Lemma digit_range n : 0 <= n → digit n = 48 + n mod 10 ∧ 48 <= digit n < 58.
Proof. intros Hn. unfold digit. rewrite Z.rem_mod_nonneg by lia. pose proof (Z.mod_pos_bound n 10). lia. Qed.

Lemma count_cstr n : 0 <= n → cstr (<[digit_at k := digit_of k me n]> (count_text k)) = Some (count_said n).
Proof.
  intros Hn. destruct (digit_range n Hn) as (E & H1 & H2). unfold count_said.
  assert (u8 (48 + me mod 10) = 48 + me mod 10) as Eu.
  { pose proof (Z.mod_pos_bound me 10). unfold u8. apply Z.mod_small. lia. }
  pose proof (Z.mod_pos_bound me 10 ltac:(lia)) as Hm.
  destruct k; cbn; rewrite ?Eu, ?E;
    match goal with |- context [?a =? 0] => destruct (Z.eqb_spec a 0); [lia|done] end.
Qed.

Lemma runs_forever lo hi A body n l sc fin :
  runs lo hi me A
    (ITree.bind (ITree.bind (body n) (λ c, Ret (Datatypes.inl c))) (λ lr, match lr with Datatypes.inl c => Tau (forever body c) | Datatypes.inr r => Ret r end))
    (l :: sc) fin →
  runs lo hi me A (forever body n) (l :: sc) fin.
Proof. by destruct l. Qed.

(** The message the program stored is what it prints. *)
Lemma msg_cstr m : knows m → cstr (drop (Z.to_nat (j_msg j)) m) = Some (str (msg_text k)).
Proof.
  unfold job_ok in Hj. fold k in Hj. intros Hm. apply (holds_cstr _ (msg_text k)); [lia| |exact Hm].
  by destruct k.
Qed.

Lemma said_cstr n m :
  0 <= n → knows_count (<[digit_at k := digit_of k me n]> (count_text k)) m →
  cstr (drop (Z.to_nat (j_count j)) m) = Some (count_said n).
Proof. unfold job_ok in Hj. fold k in Hj. intros Hn [_ Hc]. eapply holds_cstr; [lia|by apply count_cstr|exact Hc]. Qed.

End jobs.

(** ** The programs follow their lines *)

(** The next event of the program is the one of the next line. *)
Ltac observed_now := match goal with |- ?o = ?e => let v := eval hnf in o in change (v = e) end; reflexivity.
Ltac event := eexists; split; [observed_now|].

Lemma speaker_intro j me :
  job_ok j →
  runs (j_lo j) (j_hi j) me (λ _, True) (program j) (sp_intro (the_speaker j me)) (ends (knows j) (forever (loop j) 0)).
Proof.
  intros Hj. pose proof (knows_msg j Hj) as Hmsg. pose proof (msg_cstr j Hj) as Hcstr. pose proof (knows_stable j Hj) as Hst.
  unfold job_ok in Hj. destruct j as [kd lo hi p q]. unfold the_speaker, program, say_hello, loop. destruct kd;
    cbn [sp_intro j_kind j_lo j_hi j_msg j_count msg_text] in *.
  1, 2: event; split_and!; auto; try lia; by split.
  event. split_and!; auto; try lia.
  event. split_and!; [lia| |exact Hcstr|by split]. unfold zlen in *. cbn in *. lia.
Qed.

Ltac frame_arith := unfold zlen in *; cbn in *; lia.

(** The store of the counter text and of its digit, the call that prints them *)
Ltac count_steps Hput Hdig Hsaid Hcst :=
  event; split_and!; [lia|lia|by apply Hcst|exact Hput|];
  event; split_and!; [frame_arith|frame_arith|apply Hcst; by rewrite length_insert|intros m; apply Hdig|];
  event; split_and!; [lia|frame_arith|exact Hsaid|intros ?].
(** The counter overflows, or the process yields and the loop starts again. *)
Ltac turn_steps Hdone :=
  first [eexists; observed_now
        |event; intros ?; event; split; [reflexivity|apply Hdone]].

Lemma speaker_body j me n :
  job_ok j → 0 <= n →
  runs (j_lo j) (j_hi j) me (knows j) (forever (loop j) n) (sp_body (the_speaker j me) n) (ends (knows j) (forever (loop j) (n + 1))).
Proof.
  intros Hj Hn. pose proof (knows_stable j Hj) as Hst. pose proof (count_stable j Hj) as Hcst.
  pose proof (msg_cstr j Hj) as Hcstr. pose proof (λ m, said_cstr j me Hj n m Hn) as Hsaid.
  pose proof (knows_put_count j Hj) as Hput. pose proof (knows_put_digit j Hj) as Hdig.
  assert (∀ c m, knows_count j c m → knows j m) as Hdone by (by intros c m [? _]). unfold job_ok in Hj.
  destruct j as [kd lo hi p q]. unfold the_speaker, turn_end, loop, say_hello, count_lines.
  destruct kd; cbn [sp_body j_kind j_lo j_hi j_msg j_count msg_text count_text app] in *; apply runs_forever;
    unfold user_loop_1, user_loop_2, user_mode_loop, increment; destruct (n =? INT_MAX).
  1, 2: event; split_and!; [lia|frame_arith|exact Hcstr|intros ?]; count_steps Hput Hdig Hsaid Hcst; turn_steps Hdone.
  1, 2: event; split_and!; [lia|frame_arith|exact Hcstr|intros ?]; event; count_steps Hput Hdig Hsaid Hcst; turn_steps Hdone.
  all: count_steps Hput Hdig Hsaid Hcst; turn_steps Hdone.
Qed.

Lemma the_speaker_ok j me : job_ok j → speaker_ok me (the_speaker j me).
Proof.
  intros Hj. split.
  - apply Hj.
  - by apply knows_stable.
  - by apply speaker_intro.
  - intros n Hn. split; [|by apply speaker_body]. destruct j as [[] ? ? ? ?]; done.
Qed.

Lemma body_deeds j me n : deeds (sp_body (the_speaker j me) n) = iteration (j_kind j) me n.
Proof. destruct j as [[] ? ? ? ?]; unfold the_speaker, turn_end; cbn [sp_body j_kind]; rewrite !deeds_app; unfold iteration; destruct (n =? INT_MAX); reflexivity. Qed.

Lemma speech_monologue j me k : speech (the_speaker j me) (S k) = monologue (j_kind j) me k.
Proof.
  unfold speech, monologue. cbn [seq]. rewrite fmap_cons. cbn [concat]. f_equal; [by destruct j as [[] ? ? ? ?]|].
  f_equal. rewrite <- fmap_S_seq, <- list_fmap_compose. unfold seqZ. rewrite <- list_fmap_compose, Nat2Z.id.
  apply list_fmap_ext. intros _ x _. unfold compose. cbn [segment]. rewrite body_deeds. by rewrite Z.add_0_r.
Qed.

(** Only the end of the last iteration is undefined. *)
Lemma stops_last j me k d rest :
  segment (the_speaker j me) k = d ++ Stop :: rest → Z.of_nat k = INT_MAX + 1 ∧ rest = [].
Proof.
  destruct k as [|k]; cbn [segment].
  - intros E. exfalso. assert (Stop ∈ sp_intro (the_speaker j me)) as Hin by (rewrite E; apply elem_of_app; right; by left).
    revert Hin. destruct j as [[] ? ? ? ?]; cbn; rewrite ?elem_of_cons, elem_of_nil; intuition discriminate.
  - destruct (Z.eqb_spec (Z.of_nat k) INT_MAX) as [Hk|Hk].
    + intros E. split; [lia|]. revert E. destruct j as [[] ? ? ? ?]; cbn [sp_body the_speaker j_kind count_lines turn_end app]; unfold turn_end;
        rewrite Hk, Z.eqb_refl; intros E;
        repeat (destruct d as [|? d]; cbn [app] in E; [first [discriminate E|by injection E]|injection E as _ E]); by destruct d.
    + intros E. exfalso. assert (Stop ∈ sp_body (the_speaker j me) (Z.of_nat k)) as Hin by (rewrite E; apply elem_of_app; right; by left).
      revert Hin. destruct j as [[] ? ? ? ?]; cbn [sp_body the_speaker j_kind count_lines turn_end app]; unfold turn_end;
        apply Z.eqb_neq in Hk; rewrite Hk; cbn; rewrite ?elem_of_cons, elem_of_nil; intuition discriminate.
Qed.

(** C8. The user processes speak as written: whatever the kernel answers and
    whatever happens outside its stack frame, each of [user_process_1],
    [user_process_2] and [user_program_main] makes a beginning of exactly the
    system calls of its monologue - the greeting, then in every turn the message
    with the last digit of its counter or of the process number the kernel gave
    it, written with the lengths of the source, and a yield - and it is never
    stuck: it can take its next step, inside its frame, until the counter
    overflows after 2^31 turns, when the monologue is complete. *)
Theorem user_processes_speak (j : job) (me : Z) (m : list Z) (ds : list deed) (p : process) :
  job_ok j → j_hi j <= zlen m →
  trace (pstep (j_lo j) (j_hi j) me) {| memory := m; code := program j |} ds p →
  (∃ n, ds `prefix_of` monologue (j_kind j) me n) ∧
  ((∃ o p', own_step me p o p') ∨
   (∃ k, observe (code p) = VisF Overflow k) ∧ ds = monologue (j_kind j) me (Z.to_nat (INT_MAX + 1))).
Proof.
  intros Hj Hm Htr. pose proof (the_speaker_ok j me Hj) as Hsp. set (sp := the_speaker j me) in *.
  assert (process_inv me sp (zlen m) [] {| memory := m; code := sp_start sp |}) as H0.
  { apply starts; [done..|]. by destruct j as [[] ? ? ? ?]. }
  pose proof (trace_inv me sp (zlen m) Hsp Hm _ ds p H0 Htr) as Hp. split.
  - destruct (point_prefix _ _ _ _ _ (pi_point _ _ _ _ _ Hp)) as [k Hk]. exists k.
    unfold sp in Hk. rewrite <- speech_monologue, speech_S. by apply prefix_app_r.
  - destruct (progress me sp (zlen m) Hsp Hm ds p Hp) as [Hown|(k & d & rest & n & Ho & Hseg & Hds)]; [by left|right].
    split; [by exists k|]. destruct (stops_last j me n d rest Hseg) as [En ->].
    assert (n = S (n - 1)) as E by (unfold INT_MAX in En; lia).
    replace (Z.to_nat (INT_MAX + 1)) with n by lia. rewrite <- speech_monologue, speech_S. fold sp. rewrite Hseg, deeds_app.
    by rewrite app_nil_r.
Qed.

(** ** kernel/test_process.c

    The two counting processes draw the last digit of their counter, for ever. *)
Definition counting_speaker (cell color : Z) : speaker :=
  {| sp_lo := 1; sp_hi := 1; sp_start := counting_process cell color;
     sp_head := forever (λ count, ITree.bind (screen cell (u16 (color + (Z.rem count 10 + 48)))) (λ _, increment count));
     sp_intro := [];
     sp_body n := Draw cell (u16 (color + (n mod 10 + 48))) :: (if n =? INT_MAX then [Stop] else [Pause]);
     sp_inv := λ _, True |}.

Lemma counting_speaker_ok me cell color : 0 <= cell < 2000 → speaker_ok me (counting_speaker cell color).
Proof.
  intros Hc. split; cbn [counting_speaker sp_lo sp_hi sp_inv sp_intro sp_start sp_head sp_body]; [done|done|by split|].
  intros n Hn. split; [done|]. apply runs_forever. unfold increment. rewrite <- Z.rem_mod_nonneg by lia.
  destruct (n =? INT_MAX); event; (split; [exact Hc|]); [eexists; observed_now|]. event. by split.
Qed.

Lemma counting_processes_count (me cell color : Z) (m : list Z) (ds : list deed) (p : process) :
  0 <= cell < 2000 → 1 <= zlen m → trace (pstep 1 1 me) {| memory := m; code := counting_process cell color |} ds p →
  ∃ n, ds `prefix_of` ((λ i, Drew cell (u16 (color + (i mod 10 + 48)))) <$> seqZ 0 (Z.of_nat n)).
Proof.
  intros Hc Hm Htr. pose proof (counting_speaker_ok me cell color Hc) as Hsp. set (sp := counting_speaker cell color) in *.
  assert (process_inv me sp (zlen m) [] {| memory := m; code := sp_start sp |}) as H0.
  { split; [done|]. eapply (next_point me sp 0 [] [] (λ _, True)); [done..|]. by split. }
  pose proof (trace_inv me sp (zlen m) Hsp Hm _ ds p H0 Htr) as Hp.
  destruct (point_prefix _ _ _ _ _ (pi_point _ _ _ _ _ Hp)) as [k Hk]. exists k. etrans; [exact Hk|].
  assert (∀ i, deeds (sp_body sp i) = [Drew cell (u16 (color + (i mod 10 + 48)))]) as Hbody.
  { intros i. unfold sp. cbn [counting_speaker sp_body]. by destruct (i =? INT_MAX). }
  assert (speech sp (S k) = (λ i, Drew cell (u16 (color + (i mod 10 + 48)))) <$> seqZ 0 (Z.of_nat k)) as <-.
  { clear -Hbody. induction k as [|k IH]; [done|]. rewrite speech_S, IH, seqZ_S, fmap_app, Z.add_0_l. cbn [segment]. by rewrite Hbody. }
  rewrite speech_S. by apply prefix_app_r.
Qed.

(** ** A process with its frame at 16, the greeting at 20 and the counter at 48 *)
Definition demo_job : job := {| j_kind := Hello; j_lo := 16; j_hi := 60; j_msg := 20; j_count := 48 |}.

Lemma user_processes_speak_witness :
  ∃ p ds, ds = [Said 24 (bytes_of_string "Process 1: Hello World!
")] ∧
    trace (pstep 16 60 7) {| memory := replicate 160 0; code := program demo_job |} ds p ∧
    (∃ n, ds `prefix_of` monologue Hello 7 n) ∧
    ((∃ o p', own_step 7 p o p') ∨
     (∃ k, observe (code p) = VisF Overflow k) ∧ ds = monologue Hello 7 (Z.to_nat (INT_MAX + 1))).
Proof.
  assert (∃ p, trace (pstep 16 60 7) {| memory := replicate 160 0; code := program demo_job |}
    [Said 24 (bytes_of_string "Process 1: Hello World!
")] p) as [p Hp].
  { assert (∃ k, observe (program demo_job) = VisF (Store 20 hello_1) k ∧
      ∃ k', observe (k tt) = VisF (Syscall SYS_WRITE 1 20 24) k') as (k & Ho & k' & Ho').
    { event. eexists. observed_now. }
    eexists. eapply (trace_step _ _ None _ [_]).
    - apply p_own. eapply p_store; [exact Ho|lia|vm_compute; discriminate].
    - apply (trace_one _ _ (Some (Said 24 (bytes_of_string "Process 1: Hello World!
")))). apply p_own.
      exact (p_syscall 7 _ (k tt) SYS_WRITE 1 20 24 k' 0 Ho' ltac:(discriminate)). }
  exists p, [Said 24 (bytes_of_string "Process 1: Hello World!
")]. split; [reflexivity|]. split; [exact Hp|].
  apply (user_processes_speak demo_job 7 (replicate 160 0) _ p); [|vm_compute; discriminate|exact Hp].
  unfold job_ok, zlen. cbn. lia.
Defined.

End Userland.
