(* ===== verification/Usermode.v ===== *)
(** * Usermode: ring 3 (kernel/usermode.c)

    The task state segment, the memory of a user process, and the assembly
    that is to enter user mode, on the instructions of Context with the
    processor's check of the segments it loads. *)
From S2P Require Import Prelude Mem Bitmap Memory Process Context Segments.
Import Memory Segments.

Module Usermode.

Definition RING3 : Z := 0x60.
Definition USER_CS : Z := Z.lor 0x18 RING3.
Definition USER_DS : Z := Z.lor 0x20 RING3.

Record tss_t := {
  prev_tss : Z; esp0 : Z; ss0 : Z; esp1 : Z; ss1 : Z; esp2 : Z; ss2 : Z; cr3 : Z; eip : Z; eflags : Z;
  eax : Z; ecx : Z; edx : Z; ebx : Z; esp : Z; ebp : Z; esi : Z; edi : Z;
  es : Z; cs : Z; ss : Z; ds : Z; fs : Z; gs : Z; ldt : Z; trap : Z; iomap_base : Z;
}.

(** All fields are cleared first, whatever [kernel_tss] held. *)
Definition setup_tss (kernel_stack : Z) (kernel_tss : tss_t) : tss_t :=
  {| prev_tss := 0; esp0 := u32 kernel_stack; ss0 := 0x10; esp1 := 0; ss1 := 0; esp2 := 0; ss2 := 0; cr3 := 0; eip := 0;
     eflags := 0; eax := 0; ecx := 0; edx := 0; ebx := 0; esp := 0; ebp := 0; esi := 0; edi := 0;
     es := USER_DS; cs := USER_CS; ss := USER_DS; ds := USER_DS; fs := USER_DS; gs := USER_DS; ldt := 0; trap := 0;
     iomap_base := 0 |}.

Definition usermode_init (kernel_tss : tss_t) : tss_t := setup_tss 0x200000 kernel_tss.

Definition user_base : Z := 0x40000000.

Section usermode.
Context (kpt : Z).

(** The loop of [create_user_process]: [None] when [return 0] ends it *)
Fixpoint map_user_pages (n : nat) (i : Z) (s : memory_state) : option (bool * memory_state) :=
  match n with
  | O => Some (true, s)
  | S n =>
      '(phys_page, s) ← alloc_page s;
      if phys_page =? 0 then Some (false, s)
      else
        s ← map_page kpt (user_base +u i *u PAGE_SIZE) phys_page (Z.lor (Z.lor PAGE_PRESENT PAGE_WRITE) PAGE_USER) s;
        map_user_pages n (i + 1) s
  end.

Definition create_user_process (s : memory_state) : option (Z * memory_state) :=
  '(ok, s) ← map_user_pages 1024 0 s;
  Some (if (ok : bool) then user_base else 0, s).

(** The entry point and the stack user mode is entered with, if it is *)
Definition syscall_enter_usermode (procs : Process.process_system) : option (option (Z * Z)) :=
  match Process.process_get_current procs with
  | None => Some None
  | Some i =>
      p ← Process.processes procs !! i;
      Some (if 1 <? Process.pid p then Some (0x40000000, 0x40000000 + 4 * PAGE_SIZE - 16) else None)
  end.

Context (kpt_range : 0 < kpt < 4294967296).

Lemma map_user_pages_fails n s :
  pages_ok s → paging_ok kpt s →
  map_user_pages (S n) 0 s = if used_pages s =? MAX_PAGES then Some (false, s) else UB.
Proof.
  intros Hs Hp. cbn [map_user_pages].
  destruct (alloc_page_first_fit_aux s Hs) as (a & s' & E & Hs' & Hcase). rewrite E. cbn [mbind option_bind].
  destruct Hcase as [(Hu & -> & ->)|(p & Hp0 & -> & Hfree & Hbefore & Hu & Hbits)].
  - by rewrite Hu, Z.eqb_refl.
  - assert ((used_pages s =? MAX_PAGES) = false) as ->.
    { apply Z.eqb_neq. intros Hfull. pose proof (used_pages_range s' Hs'). lia. }
    rewrite (proj2 (Z.eqb_neq _ _)) by (unfold PAGE_SIZE; lia). unfold map_page, set_entry.
    change (user_base +u 0 *u PAGE_SIZE) with user_base.
    rewrite (page_table_unmapped kpt kpt_range user_base s'); [done|by eapply alloc_page_tables|unfold user_base; lia|].
    unfold mapped, user_base. lia.
Qed.

(** Creating a user process never works: while a page is free it is taken
    and then mapped at 1 GiB, where the kernel's directory has no page table,
    so the entry is written through the address 0; with no page free the call
    returns 0 and nothing has changed. *)
Lemma create_user_process_fails s :
  pages_ok s → paging_ok kpt s →
  create_user_process s = if used_pages s =? MAX_PAGES then Some (0, s) else UB.
Proof.
  intros Hs Hp. unfold create_user_process. rewrite (map_user_pages_fails 1023 s Hs Hp). by destruct (_ =? _).
Qed.
End usermode.

(** ** Entering user mode *)

(** [ra] and [rb] are the registers the compiler chooses for the stack and the
    entry point.  Up to the [iret]: *)
Definition enter_usermode (ra rb : Context.reg) : list Context.instr :=
  let ax := Context.EAX in
  Context.Cli :: load_segments 0x20 ++
  [Context.Mov ra Context.ESP; Context.PushImm 0x20; Context.Push Context.ESP; Context.Pushf;
   Context.Pop ax; Context.OrImm 0x200 ax; Context.Push ax; Context.PushImm 0x18; Context.Push rb].

(** An [iret] in ring 0 leaves it only for a code selector of another ring;
    the selector is the second word on the stack. *)
Definition iret_ring (c : Context.cpu) : Z := Context.mem c (Context.r c Context.ESP +u 4) mod 4.

Definition general (x : Context.reg) : bool :=
  match x with Context.EBX | Context.ECX | Context.EDX | Context.ESI | Context.EDI | Context.EBP => true | _ => false end.

Lemma r_same x v c : Context.r (Context.set_reg x v c) x = v.
Proof. destruct c as [[] ? ? ?]. by destruct x. Qed.
Lemma r_general x y v c : general x = true → general y = false → Context.r (Context.set_reg y v c) x = Context.r c x.
Proof. intros Hx Hy. destruct c as [[] ? ? ?]. by destruct x, y. Qed.

(** With the table of the boot loader, which ends after the kernel's two
    segments, user mode is never entered: the processor faults at the first
    load of a segment register, with interrupts off. *)
Lemma enter_usermode_faults ra rb c :
  ∃ c', run gdt (enter_usermode ra rb) c = Fault (drop 2 (enter_usermode ra rb)) c' ∧
    Context.flags c' = Z.ldiff (Context.flags c) Context.IF.
Proof.
  unfold enter_usermode. destruct c as [f fl ip m]. cbn -[u16 Z.ldiff gdt loads].
  match goal with |- context [loads gdt ?s] => assert (s = 0x20) as Hs by (destruct f; cbn -[u16]; apply ax_loaded; lia) end.
  rewrite Hs. change (loads gdt 0x20) with false. cbn iota. eexists. by split.
Qed.

Lemma run_loaded table ra rb c :
  loads table 0x20 = true → run table (enter_usermode ra rb) c = Ran (Context.run (enter_usermode ra rb) c).
Proof.
  intros Ht. unfold enter_usermode. change (run table (Context.Cli :: ?l) c) with (run table l (Context.exec Context.Cli c)).
  rewrite run_load_segments, run_plain by done. by rewrite (Context.run_cons Context.Cli), Context.run_app.
Qed.

(** With a table that has data segments there, it is not left either: the
    selector 0x18 on the stack asks for ring 0, so the [iret] goes to the
    entry point in the kernel's own ring, two words below the stack it was to
    have. *)
Lemma enter_usermode_stays_in_ring_0 table ra rb c :
  loads table 0x20 = true → general ra = true → general rb = true → 24 <= Context.r c ra < 4294967296 →
  ∃ c', run table (enter_usermode ra rb) c = Ran c' ∧ iret_ring c' = 0 ∧
    Context.eip (Context.exec Context.Iret c') = Context.r c rb ∧
    Context.r (Context.exec Context.Iret c') Context.ESP = Context.r c ra - 8 ∧
    Z.testbit (Context.flags (Context.exec Context.Iret c')) 9 = true.
Proof.
  intros Ht Ha Hb Hs. rewrite run_loaded by done. eexists. split; [done|].
  set (s := Context.r c ra) in *. set (e := Context.r c rb). unfold iret_ring.
  assert (∃ c7, Context.run (enter_usermode ra rb) c = Context.run (drop 7 (enter_usermode ra rb)) c7 ∧
    Context.r c7 Context.ESP = s ∧ Context.r c7 rb = e ∧ Context.flags c7 = Z.ldiff (Context.flags c) Context.IF) as (c7 & -> & Hsp & Hrb & Hfl).
  { eexists. split; [unfold enter_usermode, load_segments; cbn [app]; rewrite 7!Context.run_cons; reflexivity|].
    cbn [Context.exec]. split_and!; [rewrite r_same|..|done]; by rewrite !r_general by done. }
  set (fl0 := Z.ldiff _ _) in *. clearbody s e fl0. destruct c7 as [[a b x d si di bp sp dd ee ff gg] fl ip m]. cbn in Hsp, Hfl. subst sp fl.
  cbn [drop enter_usermode load_segments app].
  assert (Z.testbit (Z.lor fl0 512) 9 = true) as Hif by (by rewrite Z.lor_spec, orb_true_r).
  destruct rb; try done; cbn in Hrb; subst e; do 8 Context.step; cbn [Context.run foldl]; Context.evaluate; by split_and!.
Qed.

End Usermode.
