(* ===== verification/Spare.v ===== *)
(** * Spare: code no build links (kernel/minimal.c, fs/ramfs_simple.c)

    The screen output of the minimal kernel, which writes video memory
    directly, and the stand-in for the RAM file system, which only reports. *)
From S2P Require Import Prelude CString Ports Vga Log.
Import Vga Log.

Module Spare.


(** ** kernel/minimal.c *)

(** The video memory is a list of cells.  [color << 8] and the signed [c] are
    joined as ints. *)
Definition cell_of (c color : Z) : Z := u16 (Z.lor (Z.shiftl color 8) (s8 c)).
Definition vga_putc (x y c color : Z) (buffer : list Z) : option (list Z) := zset buffer (y * 80 + x) (cell_of c color).

Fixpoint vga_puts (x y : Z) (s : list Z) (color : Z) (buffer : list Z) : option (list Z) :=
  match s with
  | [] => UB
  | c :: s =>
      if c =? 0 then Some buffer
      else
        buffer ← vga_putc x y c color buffer;
        if 80 <=? x + 1 then vga_puts 0 (y + 1) s color buffer else vga_puts (x + 1) y s color buffer
  end.

(** A string is written cell by cell from its position on, over the ends of
    lines, and nothing else changes. *)
Lemma vga_puts_ok (text rest : list Z) (x y color : Z) (a b c : list Z) :
  Forall (λ v, v ≠ 0) text → 0 <= x < 80 → 0 <= y → zlen a = 80 * y + x → length b = length text →
  vga_puts x y (text ++ 0 :: rest) color (a ++ b ++ c) = Some (a ++ ((λ v, cell_of v color) <$> text) ++ c).
Proof.
  intros Ht. revert x y a b. induction Ht as [|v text Hv Ht IH]; intros x y a b Hx Hy Ha Hb; [by destruct b|].
  destruct b as [|b0 b]; [done|]. cbn [app vga_puts]. rewrite (proj2 (Z.eqb_neq v 0) Hv). unfold vga_putc.
  assert (zset (a ++ b0 :: b ++ c) (y * 80 + x) (cell_of v color) = Some ((a ++ [cell_of v color]) ++ b ++ c)) as ->.
  { unfold zlen in Ha. rewrite zset_in by (unfold zlen; rewrite length_app; cbn; lia).
    replace (Z.to_nat (y * 80 + x)) with (length a + 0)%nat by lia. rewrite insert_app_r. cbn. by rewrite <- app_assoc. }
  cbn [mbind option_bind]. injection Hb as Hb.
  assert (∀ x' y', 80 * y' + x' = 80 * y + x + 1 → zlen (a ++ [cell_of v color]) = 80 * y' + x') as Hlen.
  { intros x' y' E. unfold zlen in *. rewrite length_app. cbn. lia. }
  destruct (Z.leb_spec 80 (x + 1)).
  - rewrite (IH 0 (y + 1)) by (done || lia || (apply Hlen; lia)). by rewrite fmap_cons, <- app_assoc.
  - rewrite (IH (x + 1) y) by (done || lia || (apply Hlen; lia)). by rewrite fmap_cons, <- app_assoc.
Qed.

(** The colour is the high byte, but a character from 128 on is negative as
    an int and hides it. *)
Lemma cell_of_char c color :
  0 <= c < 256 → 0 <= color < 256 → cell_of c color = if c <? 128 then 256 * color + c else 65280 + c.
Proof.
  intros Hc Hcol. unfold cell_of. rewrite (Z.shiftl_mul_pow2 color 8), (Z.mul_comm color) by done.
  destruct (Z.ltb_spec c 128).
  - assert (s8 c = c) as -> by (unfold s8; Z.div_mod_to_equations; lia).
    rewrite lor_aligned by (cbn; lia). apply Z.mod_small. cbn. lia.
  - assert (s8 c = 2 ^ 8 * -1 + c) as -> by (unfold s8; cbn; Z.div_mod_to_equations; lia).
    rewrite <- (lor_aligned 8 (-1) c), Z.lor_assoc by (cbn; lia).
    assert (Z.lor (2 ^ 8 * color) (2 ^ 8 * -1) = 2 ^ 8 * -1) as ->.
    { rewrite !(Z.mul_comm (2 ^ 8)), <- !Z.shiftl_mul_pow2, <- Z.shiftl_lor, Z.lor_m1_r by done. done. }
    rewrite lor_aligned by (cbn; lia). unfold u16. cbn. Z.div_mod_to_equations. lia.
Qed.

(** ** fs/ramfs_simple.c *)

Section Output.
Context (stack : nat → list Z) {W : Type} `{Ports W}.

Definition ramfs_mount (level : Z) (s : vga_state) (w : W) : option (Z * vga_state * W) :=
  '(s, w) ← log_info stack level (lit "RAM filesystem mounted") [] s w;
  '(s, w) ← vga_print (lit "RAMFS: OK
") s w;
  Some (1, s, w).

Definition ramfs_init (level : Z) (s : vga_state) (w : W) : option (Z * vga_state * W) :=
  '(s, w) ← log_info stack level (lit "RAM filesystem initialized") [] s w;
  Some (0, s, w).

End Output.

End Spare.
