(* ===== verification/SelfTest.v ===== *)
(** * SelfTest: the kernel's tests of itself (kernel/test.c, string_tests.c,
    tests.c, fs_test.c)

    The tests are run on the functions of this library, and the report of the
    test runner is the text that appears on the screen.  [stack n] is what a
    local array of [n] bytes holds before it is written. *)
From S2P Require Import Prelude CString Ports Mem Vga Output FsEnhanced.
Import Vga Output FsEnhanced.

Module SelfTest.

Record test_case_t := { name : list Z; func : option bool }.
Record test_suite_t := { suite_name : list Z; tests : list test_case_t }.

(** ** String tests *)

(** [TEST_ASSERT(e)], then the rest of the test *)
Definition TEST_ASSERT (e : option bool) (rest : option bool) : option bool := b ← e; if b : bool then rest else Some false.

Section suites.
Context (stack : nat → list Z).

Definition length_is (s : list Z) (n : Z) : option bool := k ← strlen s; Some (k =? n).

Definition test_strlen : option bool :=
  TEST_ASSERT (length_is (lit "") 0) (
  TEST_ASSERT (length_is (lit "a") 1) (
  TEST_ASSERT (length_is (lit "test") 4) (Some true))).

(** [dest] is copied into twice. *)
Definition test_strcpy : option bool :=
  dest ← strcpy (stack 32) (lit "");
  TEST_ASSERT (streq dest (lit "")) (
  dest ← strcpy dest (lit "test");
  TEST_ASSERT (streq dest (lit "test")) (Some true)).

Definition test_strcmp : option bool :=
  TEST_ASSERT (streq (lit "") (lit "")) (
  TEST_ASSERT (streq (lit "a") (lit "a")) (
  TEST_ASSERT (r ← strcmp (lit "a") (lit "b"); Some (r <? 0)) (
  TEST_ASSERT (r ← strcmp (lit "b") (lit "a"); Some (0 <? r)) (Some true)))).

(** [for (i = 0; i < sizeof(buf); i++) TEST_ASSERT(buf[i] == c);] *)
Fixpoint all_equal (buf : list Z) (c : Z) : option bool :=
  match buf with
  | [] => Some true
  | x :: buf => TEST_ASSERT (Some (x =? c)) (all_equal buf c)
  end.

Definition test_memset : option bool := buf ← memset (stack 16) 65 16; all_equal buf 65.

(** [char src[8] = "test"] is filled up with zeros. *)
Definition test_memcpy : option bool :=
  let src := lit "test" ++ replicate 3 0 in
  dest ← memcpy (stack 8) src 8;
  TEST_ASSERT (r ← memcmp dest src 8; Some (r =? 0)) (Some true).

Definition string_tests : list test_case_t :=
  [ {| name := lit "strlen"; func := test_strlen |}; {| name := lit "strcpy"; func := test_strcpy |};
    {| name := lit "strcmp"; func := test_strcmp |}; {| name := lit "memset"; func := test_memset |};
    {| name := lit "memcpy"; func := test_memcpy |} ].

Definition string_test_suite : test_suite_t := {| suite_name := lit "String Functions"; tests := string_tests |}.

(** ** The runner *)
Context {W : Type} `{Ports W}.

(** A number below 100; larger ones are not printed. *)
Definition print_count (n : Z) : out W :=
  if n <? 10 then putchar (48 + n)
  else if n <? 100 then putchar (48 + n / 10);; putchar (48 + n mod 10)
  else Some.

Definition print_test_results (suite : test_suite_t) (passed_tests : Z) : out W :=
  print (lit "
Test Results for ");; print (suite_name suite);; print (lit ":
");;
  print (lit "  Total:   ");; print_count (zlen (tests suite));;
  print (lit "
  Passed:  ");; print_count passed_tests;;
  print (lit "
  Failed:  ");; print_count (zlen (tests suite) -u passed_tests);;
  print (lit "

").

(** One test; the count of the passed ones goes on. *)
Definition run_test (t : test_case_t) (passed_tests : Z) (c : vga_state * W) : option (Z * (vga_state * W)) :=
  c ← (print (lit "  [ ] ");; print (name t);; print (lit " ")) c;
  ok ← func t;
  if ok : bool then c ← print (lit "[PASS]
") c; Some (passed_tests +u 1, c)
  else c ← print (lit "[FAIL]
") c; Some (passed_tests, c).

Fixpoint run_tests (ts : list test_case_t) (passed_tests : Z) (c : vga_state * W) : option (Z * (vga_state * W)) :=
  match ts with
  | [] => Some (passed_tests, c)
  | t :: ts => '(passed_tests, c) ← run_test t passed_tests c; run_tests ts passed_tests c
  end.

Definition run_test_suite (suite : test_suite_t) : out W := λ c,
  c ← (print (lit "
Running test suite: ");; print (suite_name suite);; print (lit "
")) c;
  '(passed_tests, c) ← run_tests (tests suite) 0 c;
  print_test_results suite passed_tests c.

Definition run_all_tests : out W := run_test_suite string_test_suite.

Definition kmain_tests : out W :=
  clear;; print (lit "Minimalist OS Test Runner
");;
  print (lit "========================

");;
  run_all_tests;;
  print (lit "
All tests completed.
").

(** ** What it reports *)
Context (stack_size : ∀ n, length (stack n) = n).

Lemma all_equal_replicate n c : all_equal (replicate n c) c = Some true.
Proof. induction n as [|n IH]; [done|]. cbn. by rewrite Z.eqb_refl. Qed.

(** Every string test passes, whatever the local arrays hold. *)
Lemma string_tests_pass : Forall (λ t, func t = Some true) string_tests.
Proof.
  repeat constructor; cbn [func].
  - unfold test_strcpy.
    rewrite (strcpy_spec (stack 32) (lit "") []) by (rewrite ?stack_size; done || (cbn; lia)). cbn [mbind option_bind app].
    rewrite (strcpy_spec _ (lit "test") (bytes_of_string "test")) by (rewrite ?length_cons, ?length_drop, ?stack_size; done || (cbn; lia)).
    reflexivity.
  - unfold test_memset. rewrite memset_spec by (by rewrite stack_size). rewrite drop_ge, app_nil_r by (by rewrite stack_size).
    exact (all_equal_replicate 16 65).
  - unfold test_memcpy. rewrite memcpy_spec by (rewrite ?stack_size; done). rewrite drop_ge by (by rewrite stack_size). reflexivity.
Qed.

(** The line of a test that passes *)
Definition pass_line (t : test_case_t) : list Z :=
  bytes_of_string "  [ ] " ++ str (name t) ++ bytes_of_string " " ++ bytes_of_string "[PASS]
".

Lemma run_tests_pass ts n t v w :
  Forall (λ t, func t = Some true ∧ is_Some (cstr (name t))) ts → 0 <= n → n + zlen ts < 2 ^ 32 → shows t v →
  ∃ v' w', run_tests ts n (v, w) = Some (n + zlen ts, (v', w')) ∧ shows (t_print (concat (pass_line <$> ts)) t) v'.
Proof.
  intros Hts. revert n t v w. induction Hts as [|tc ts [Hf Hn] Hts IH]; intros n t v w H0 Hr Hs.
  { exists v, w. by rewrite Z.add_0_r. }
  assert (zlen (tc :: ts) = 1 + zlen ts) as Hlen by (unfold zlen; cbn [length]; lia). rewrite Hlen in *.
  assert (0 <= zlen ts) by (unfold zlen; lia).
  assert (outputs (print (lit "  [ ] ");; print (name tc);; print (lit " ")) (bytes_of_string "  [ ] " ++ str (name tc) ++ bytes_of_string " ")) as Ho.
  { apply outputs_then; [by apply outputs_lit|]. apply outputs_then; [by apply outputs_print|by apply outputs_lit]. }
  destruct (Ho t v w Hs) as (v1 & w1 & E1 & Hs1).
  destruct (outputs_lit "[PASS]
" eq_refl _ v1 w1 Hs1) as (v2 & w2 & E2 & Hs2).
  cbn [run_tests]. unfold run_test. rewrite E1. cbn [mbind option_bind]. rewrite Hf. cbn [mbind option_bind].
  rewrite E2. cbn [mbind option_bind]. assert (n +u 1 = n + 1) as -> by (apply Z.mod_small; lia).
  destruct (IH (n + 1) _ v2 w2 ltac:(lia) ltac:(lia) Hs2) as (v3 & w3 & -> & Hs3).
  exists v3, w3. rewrite <- Z.add_assoc. split; [done|]. cbn [fmap list_fmap concat]. unfold pass_line at 1.
  rewrite !t_print_app. rewrite !t_print_app in Hs3. exact Hs3.
Qed.

(** The report of [kmain_tests] *)
Definition report : list Z := bytes_of_string
"Minimalist OS Test Runner
========================


Running test suite: String Functions
  [ ] strlen [PASS]
  [ ] strcpy [PASS]
  [ ] strcmp [PASS]
  [ ] memset [PASS]
  [ ] memcpy [PASS]

Test Results for String Functions:
  Total:   5
  Passed:  5
  Failed:  0


All tests completed.
".

Definition results : list Z := bytes_of_string
"
Test Results for String Functions:
  Total:   5
  Passed:  5
  Failed:  0

".

Lemma outputs_results : outputs (print_test_results string_test_suite 5) results.
Proof.
  change results with (bytes_of_string "
Test Results for " ++ str (lit "String Functions") ++ bytes_of_string ":
" ++ bytes_of_string "  Total:   " ++ [53] ++ bytes_of_string "
  Passed:  " ++ [53] ++ bytes_of_string "
  Failed:  " ++ [48] ++ bytes_of_string "

").
  unfold print_test_results, string_test_suite. cbn [suite_name tests].
  change (print_count 5) with (putchar 53). change (print_count (zlen string_tests)) with (putchar 53).
  change (print_count (zlen string_tests -u 5)) with (putchar 48).
  repeat (apply outputs_then; [by first [apply outputs_lit | apply outputs_print; eexists | apply outputs_putchar]|]). by apply outputs_lit.
Qed.

Lemma outputs_suite : outputs run_all_tests (bytes_of_string "
Running test suite: String Functions
" ++ concat (pass_line <$> string_tests) ++ results).
Proof.
  intros t v w Hs. unfold run_all_tests, run_test_suite.
  assert (outputs (print (lit "
Running test suite: ");; print (suite_name string_test_suite);; print (lit "
")) (bytes_of_string "
Running test suite: String Functions
")) as Ho.
  { change (bytes_of_string "
Running test suite: String Functions
") with (bytes_of_string "
Running test suite: " ++ str (suite_name string_test_suite) ++ bytes_of_string "
").
    apply outputs_then; [by apply outputs_lit|]. apply outputs_then; [apply outputs_print; by eexists|by apply outputs_lit]. }
  destruct (Ho t v w Hs) as (v1 & w1 & -> & Hs1). cbn [mbind option_bind].
  assert (Forall (λ t, func t = Some true ∧ is_Some (cstr (name t))) string_tests) as Hall.
  { apply Forall_and. split; [exact string_tests_pass|]. repeat constructor; by eexists. }
  destruct (run_tests_pass _ 0 _ v1 w1 Hall ltac:(done) ltac:(done) Hs1) as (v2 & w2 & E & Hs2).
  change (tests string_test_suite) with string_tests. rewrite E. cbn [mbind option_bind].
  rewrite !t_print_app. exact (outputs_results _ v2 w2 Hs2).
Qed.

(** On any screen the runner shows this report. *)
Lemma kmain_tests_report : acts kmain_tests (λ t, t_print report (t_clear t)).
Proof.
  change report with (bytes_of_string "Minimalist OS Test Runner
" ++ bytes_of_string "========================

" ++ (bytes_of_string "
Running test suite: String Functions
" ++ concat (pass_line <$> string_tests) ++ results) ++ bytes_of_string "
All tests completed.
").
  apply (acts_then _ _ t_clear); [exact acts_clear|].
  apply outputs_then; [by apply outputs_lit|]. apply outputs_then; [by apply outputs_lit|].
  apply outputs_then; [exact outputs_suite|by apply outputs_lit].
Qed.

End suites.

(** ** File system test

    What the process hands to [SYS_WRITE] is the output; the file system calls
    are made directly. *)
Definition said : Type := list (list Z).

Definition FILE_READ : Z := 0x01.
Definition size_msg : list Z := lit "FS Test: File size: 0 bytes
".

(** [size_msg[17]], and [size_msg[16]] for more than one digit *)
Definition size_digits (size : Z) : option (list Z) :=
  m ← zset size_msg 17 (u8 (48 + size mod 10));
  if 10 <=? size then zset m 16 (u8 (48 + size / 10 mod 10)) else Some m.

Definition file_text : list Z := lit "File system test data
Line 2
Line 3
".

(** From the first message to the last; the two [if]s inside are in sequence,
    each with what is left to do. *)
Definition fs_test_read (s : filesystem_t) : option (said * filesystem_t) :=
  '(fd, s) ← fs_open (lit "fs_test.txt") FILE_READ s;
  if 0 <=? fd then
    '(bytes_read, read_buffer) ← fs_read fd 100 99 s;
    Some (if 0 <? bytes_read then [bytes_of_string "FS Test: Data read successfully!
"; take (Z.to_nat bytes_read) read_buffer; bytes_of_string "
"] else [], s)
  else Some ([], s).

Definition fs_test_size_delete (s : filesystem_t) : option (said * filesystem_t) :=
  size ← get_file_size (lit "fs_test.txt") s;
  m ← size_digits size;
  '(r, s) ← fs_delete (lit "fs_test.txt") s;
  Some (removelast m :: (if r =? 0 then [bytes_of_string "FS Test: File deleted successfully!
"] else []), s).

Definition fs_test_write (fd : Z) (s : filesystem_t) : option (said * filesystem_t) :=
  n ← strlen file_text;
  '(bytes_written, s) ← fs_write fd file_text n s;
  if 0 <? bytes_written then
    '(r, s) ← fs_test_read s;
    '(d, s) ← fs_test_size_delete s;
    Some ((bytes_of_string "FS Test: Data written successfully!
" :: r) ++ d, s)
  else Some ([], s).

Definition fs_test_process (s : filesystem_t) : option (said * filesystem_t) :=
  '(fd, s) ← fs_create (lit "fs_test.txt") FILE_TYPE_REGULAR s;
  '(m, s) ← (if 0 <=? fd then
      '(m, s) ← fs_test_write fd s;
      Some (bytes_of_string "FS Test: File created successfully!
" :: m, s)
    else Some ([], s));
  Some (([bytes_of_string "FS Test: Starting file system tests...
"] ++ m) ++ [bytes_of_string "FS Test: All file system tests completed!
"], s).

(** On a new file system every step succeeds; the size of 36 bytes is written
    over the word it belongs behind. *)
Lemma fs_test_report :
  (s ← fs_init; '(m, s) ← fs_test_process s; Some (concat m)) = Some (bytes_of_string
"FS Test: Starting file system tests...
FS Test: File created successfully!
FS Test: Data written successfully!
FS Test: Data read successfully!
File system test data
Line 2
Line 3

FS Test: File si36: 0 bytes
FS Test: File deleted successfully!
FS Test: All file system tests completed!
").
Proof. vm_compute. reflexivity. Qed.

End SelfTest.
