(* ===== verification/ServiceTests.v ===== *)
(** * ServiceTests: the test processes of the services
    (kernel/security_test.c, power_test.c, monitor_test.c, memory_test.c)

    Each process calls the functions of a service directly and reports what
    succeeded with [SYS_WRITE]; here its first part, up to the endless loop, is
    a function on the service's state, and its output is the list of texts it
    hands to the system call - which, with the gate of [int $0x80] empty, would
    end in an exception at the first of them (System); the tests themselves are
    what is modelled here, as if the calls came back.  Run on the state the kernel is in - [kmain] starts none of these
    services but memory - and on the state after the service's own
    initialisation, the reports show which of the tests can succeed. *)
From S2P Require Import Prelude CString Mem Memory Security Power Monitor Syscall.

Module ServiceTests.

Definition said : Type := list (list Z).
Definition say (b : bool) (text : list Z) : said := if b then [text] else [].

(** A message with digits written into it, one at each index *)
Fixpoint with_digits (msg : list Z) (i : Z) (ds : list Z) : option (list Z) :=
  match ds with
  | [] => Some msg
  | d :: ds => msg ← zset msg i (u8 (48 + d)); with_digits msg (i + 1) ds
  end.

(** ** kernel/security_test.c *)
Definition hex_digit (nibble : Z) : Z := if nibble <? 10 then nibble else nibble + 7.

Definition uid_report (uid : Z) : option (list Z) :=
  with_digits (bytes_of_string "SEC Test: Current UID: 0000
") 21 ((λ i, hex_digit (Z.land (Z.shiftr uid (4 * i)) 0xF)) <$> [3; 2; 1; 0]).

Definition security_access (s : Security.security_state) : option said :=
  let r1 := Security.security_check_permission Security.PERM_READ s in
  r2 ← Security.security_check_file_access (Some (lit "/dev/block0")) Security.PERM_READ s;
  let r3 := Security.security_check_device_access (Some (lit "block0")) Security.PERM_READ s in
  Some (say (r1 =? 0) (bytes_of_string "SEC Test: Read permission granted!
") ++ say (r2 =? 0) (bytes_of_string "SEC Test: File access granted!
") ++ say (r3 =? 0) (bytes_of_string "SEC Test: Device access granted!
")).

Definition security_users (s : Security.security_state) : option (said * Security.security_state) :=
  '(r, s) ← Security.security_create_user (Some (lit "testuser")) 1000 1000 s;
  if r =? 0 then
    '(a, s) ← Security.security_authenticate_user (Some (lit "testuser")) (Some (lit "")) s;
    Some (bytes_of_string "SEC Test: User created successfully!
" :: say (a =? 0) (bytes_of_string "SEC Test: User authentication successful!
"), s)
  else Some ([], s).

Definition security_contexts (uid : Z) (s : Security.security_state) : said * Security.security_state :=
  if uid =? Security.ROOT_UID then
    let '(r, s) := Security.security_set_context 1000 1000 s in
    if r =? 0 then
      let '(_, s) := Security.security_set_context Security.ROOT_UID Security.ROOT_UID s in
      ([bytes_of_string "SEC Test: Context switched to user 1000!
"; bytes_of_string "SEC Test: Context switched back to root!
"], s)
    else ([], s)
  else ([], s).

Definition security_test_process (s : Security.security_state) : option (said * Security.security_state) :=
  let uid := Security.ctx_uid (Security.current_context s) in
  m ← uid_report uid;
  access ← security_access s;
  '(users, s) ← security_users s;
  '(r, s) ← Security.security_set_permission (Some (lit "/test/file")) 1000 1000 (Z.lor Security.PERM_READ Security.PERM_WRITE) s;
  let '(contexts, s) := security_contexts uid s in
  Some ([bytes_of_string "SEC Test: Security system test started!
"; m] ++ access ++ users ++ say (r =? 0) (bytes_of_string "SEC Test: Permission set successfully!
") ++ contexts, s).

(** In the kernel, where security is never initialised, every check fails;
    logging in as the new user gives up the rights of root, so that neither
    the permission nor the context can be set afterwards. *)
Lemma security_test_report :
  ('(m, s) ← security_test_process Security.security_bss;
   Some (concat m, Security.ctx_uid (Security.current_context s))) = Some (bytes_of_string
"SEC Test: Security system test started!
SEC Test: Current UID000000
SEC Test: User created successfully!
SEC Test: User authentication successful!
", 1000).
Proof. vm_compute. reflexivity. Qed.

(** After [security_init] the checks of access succeed; the rest is as before. *)
Lemma security_test_report_init :
  (s ← Security.security_init; '(m, _) ← security_test_process s; Some (concat (drop 2 m))) = Some (bytes_of_string
"SEC Test: Read permission granted!
SEC Test: File access granted!
SEC Test: Device access granted!
SEC Test: User created successfully!
SEC Test: User authentication successful!
").
Proof. vm_compute. reflexivity. Qed.

(** ** kernel/power_test.c *)

(** [if (f(...) == 0) write(message);] for the operations in turn *)
Fixpoint power_checks (l : list ((Power.power_state → Z * Power.power_state) * list Z)) (s : Power.power_state)
    : said * Power.power_state :=
  match l with
  | [] => ([], s)
  | (f, message) :: l =>
      let '(r, s) := f s in
      let '(m, s) := power_checks l s in (say (r =? 0) message ++ m, s)
  end.

Definition power_battery (s : Power.power_state) : option (said * Power.power_state) :=
  let '(r, battery, s) := Power.power_get_battery_status true s in
  if r =? 0 then
    battery ← battery;
    let p := s32 (Power.percentage battery) in
    m ← with_digits (bytes_of_string "PWR Test: Battery: 000%
") 17 [Z.quot p 100; Z.quot (Z.rem p 100) 10; Z.rem p 10];
    Some (bytes_of_string "PWR Test: Battery status retrieved!
" :: (if Power.present battery =? 0 then [] else [bytes_of_string "PWR Test: Battery is present
"; m]), s)
  else Some ([], s).

Definition power_figures (s : Power.power_state) : option (said * Power.power_state) :=
  let '(r, stats, s) := Power.power_get_statistics true s in
  if r =? 0 then
    stats ← stats;
    let freq := Power.st_cpu_frequency stats in
    let temp := Power.st_thermal_state stats in
    m1 ← with_digits (bytes_of_string "PWR Test: CPU: 0000MHz
") 13 [freq / 1000; freq mod 1000 / 100; freq mod 100 / 10; freq mod 10];
    m2 ← with_digits (bytes_of_string "PWR Test: Temp: 000°C
") 13 [temp / 100; temp mod 100 / 10; temp mod 10];
    Some ([bytes_of_string "PWR Test: Power statistics retrieved!
"; m1; m2], s)
  else Some ([], s).

Definition power_controls : list ((Power.power_state → Z * Power.power_state) * list Z) :=
  [ (Power.power_set_cpu_frequency 500, bytes_of_string "PWR Test: CPU frequency scaled to 500MHz
"); (Power.power_set_cpu_frequency 1000, bytes_of_string "PWR Test: CPU frequency restored to 1000MHz
"); (Power.power_throttle_cpu 50, bytes_of_string "PWR Test: CPU throttled to 50%
"); (Power.power_throttle_cpu 100, bytes_of_string "PWR Test: CPU restored to 100%
"); (Power.power_set_fan_speed 1500, bytes_of_string "PWR Test: Fan speed set to 1500 RPM
") ].

Definition power_sleep (s : Power.power_state) : said * Power.power_state :=
  let '(r, s) := Power.power_request_sleep Power.S1_STATE s in
  if r =? 0 then
    let '(m, s) := power_checks [(Power.power_request_wake, bytes_of_string "PWR Test: Woke from sleep state
")] s in (bytes_of_string "PWR Test: Entered sleep state
" :: m, s)
  else ([], s).

(** [battery_call] and [stats_call] are the results of the two system calls. *)
Definition power_test_process (battery_call stats_call : Z) (s : Power.power_state) : option (said * Power.power_state) :=
  let on := say (Power.power_get_state s =? Power.POWER_STATE_ON) (bytes_of_string "PWR Test: Power state is ON
") in
  '(battery, s) ← power_battery s;
  '(figures, s) ← power_figures s;
  let '(controls, s) := power_checks power_controls s in
  let '(sleep, s) := power_sleep s in
  let '(event, s) := power_checks [(Power.power_handle_event Power.POWER_EVENT_BATTERY_LOW,
    bytes_of_string "PWR Test: Handled battery low event
")] s in
  Some ([bytes_of_string "PWR Test: Power management test started!
"] ++ on ++ battery ++ figures ++ controls ++ sleep ++ event ++
    say (battery_call =? 0) (bytes_of_string "PWR Test: Syscall battery info works!
") ++ say (stats_call =? 0) (bytes_of_string "PWR Test: Syscall power stats work!
"), s).

(** After [power_init] the service passes, but for the two system calls, which
    return an error; the figures stand in the wrong columns. *)
Lemma power_test_report :
  ('(m, _) ← power_test_process Syscall.SYS_ERROR Syscall.SYS_ERROR (Power.power_init Power.power_bss); Some (concat m)) =
  Some (bytes_of_string
"PWR Test: Power management test started!
PWR Test: Power state is ON
PWR Test: Battery status retrieved!
PWR Test: Battery is present
PWR Test: Battery07500%
PWR Test: Power statistics retrieved!
PWR Test: CPU100000MHz
PWR Test: Tem045000°C
PWR Test: CPU frequency scaled to 500MHz
PWR Test: CPU frequency restored to 1000MHz
PWR Test: CPU throttled to 50%
PWR Test: CPU restored to 100%
PWR Test: Fan speed set to 1500 RPM
PWR Test: Entered sleep state
PWR Test: Woke from sleep state
PWR Test: Handled battery low event
").
Proof. vm_compute. reflexivity. Qed.

(** ** kernel/monitor_test.c *)
Definition LOG_SOURCE_PROCESS : Z := 1.

Definition monitor_logs (s : Monitor.monitor_state) : option Monitor.monitor_state :=
  s ← Monitor.monitor_log 1 LOG_SOURCE_PROCESS (Some (lit "Monitor test: Starting logging tests")) s;
  s ← Monitor.monitor_log 0 LOG_SOURCE_PROCESS (Some (lit "Monitor test: Debug message")) s;
  s ← Monitor.monitor_log 2 LOG_SOURCE_PROCESS (Some (lit "Monitor test: Warning message")) s;
  Monitor.monitor_log 3 LOG_SOURCE_PROCESS (Some (lit "Monitor test: Error message")) s.

Definition monitor_timer (s : Monitor.monitor_state) : option (said * Monitor.monitor_state) :=
  s ← Monitor.monitor_start_timer (Some (lit "test_operation")) s;
  s ← Monitor.monitor_end_timer (Some (lit "test_operation")) s;
  timer_value ← Monitor.monitor_get_timer_value (Some (lit "test_operation")) s;
  Some (say (0 <? timer_value) (bytes_of_string "MON Test: Performance timer working!
"), s).

(** The two system calls run [monitor_log] and [monitor_get_system_stats]. *)
Definition monitor_test_process (s : Monitor.monitor_state) : option (said * Monitor.monitor_state) :=
  s ← monitor_logs s;
  '(timer, s) ← monitor_timer s;
  '(r1, _, s) ← Monitor.monitor_get_system_stats true s;
  '(r2, _, s) ← Monitor.monitor_get_performance_metrics true s;
  '(r3, _) ← Monitor.monitor_get_log_entry 0 true s;
  s ← Monitor.monitor_log 1 LOG_SOURCE_PROCESS (Some (lit "MON Test: System call logging works!")) s;
  '(r4, _, s) ← Monitor.monitor_get_system_stats true s;
  Some ([bytes_of_string "MON Test: Monitoring system test started!
"; bytes_of_string "MON Test: Logging tests completed!
"] ++ timer ++ say (r1 =? 0) (bytes_of_string "MON Test: System statistics retrieved!
") ++ say (r2 =? 0) (bytes_of_string "MON Test: Performance metrics retrieved!
") ++ say (r3 =? 0) (bytes_of_string "MON Test: Log entry retrieved successfully!
") ++ say (r4 =? 0) (bytes_of_string "MON Test: Syscall statistics retrieved!
"), s).

(** After [monitor_init] all but the timer works: time passes only when a
    message is logged, so what is timed takes no time.  In the kernel, which
    does not call [monitor_init], the first statistics divide by zero. *)
Lemma monitor_test_report :
  (s ← Monitor.monitor_init Monitor.monitor_bss; '(m, _) ← monitor_test_process s; Some (concat m)) = Some (bytes_of_string
"MON Test: Monitoring system test started!
MON Test: Logging tests completed!
MON Test: System statistics retrieved!
MON Test: Performance metrics retrieved!
MON Test: Log entry retrieved successfully!
MON Test: Syscall statistics retrieved!
") ∧ monitor_test_process Monitor.monitor_bss = UB.
Proof. vm_compute. by split. Qed.

(** ** kernel/memory_test.c *)

(** [true] is a line of [log_info], [false] one of [log_error]; the texts
    differ only in the result they report.  [heap_addr] is where the heap is,
    [kpt] where the page table is. *)
Section memory_test.
Context (heap_addr kpt : Z).

Fixpoint allocate_all (sizes : list Z) (s : Memory.memory_state) : bool * Memory.memory_state :=
  match sizes with
  | [] => (true, s)
  | n :: sizes =>
      match Memory.kmalloc n s with
      | (Some _, s) => allocate_all sizes s
      | (None, s) => (false, s)
      end
  end.

Definition test_memory_allocation (s : Memory.memory_state) : option (list bool * Memory.memory_state) :=
  let '(ptr1, s) := Memory.kmalloc 100 s in
  let '(ptr2, s) := Memory.kmalloc_aligned 256 16 s in
  '(ptr3, s) ← Memory.kcalloc 10 20 s;
  zeroed ← (match ptr3 with
            | Some p => bytes ← mem_load Memory.HEAP_SIZE (Memory.heap s) p 200 200; Some [true; forallb (Z.eqb 0) bytes]
            | None => Some [false]
            end);
  let '(success, s) := allocate_all ((λ i, 100 * (i + 1)) <$> seqZ 0 10) s in
  Some ([bool_decide (is_Some ptr1); match ptr2 with Some p => (heap_addr + p) mod 16 =? 0 | None => false end]
          ++ zeroed ++ [success], s).

(** The mapping is the last thing the test does with the pages: the write
    through it is not reached. *)
Definition test_page_allocation (s : Memory.memory_state) : option Memory.memory_state :=
  '(page1, s) ← Memory.alloc_page s;
  '(page2, s) ← Memory.alloc_page s;
  '(page3, s) ← Memory.alloc_page s;
  if negb (page1 =? 0) && negb (page2 =? 0) && negb (page3 =? 0) then
    Memory.map_page kpt 0x10000000 page1 (Z.lor Memory.PAGE_PRESENT Memory.PAGE_WRITE) s
  else Some s.

End memory_test.

(** The allocations succeed on a new heap that lies at a multiple of 16: only
    the offset in the heap is aligned, not the address. *)
Lemma memory_allocation_report heap_addr :
  heap_addr mod 16 = 0 →
  (s ← Memory.memory_init Memory.memory_bss; '(r, _) ← test_memory_allocation heap_addr s; Some r) = Some [true; true; true; true; true].
Proof.
  intros Ha. assert (∀ s, test_memory_allocation heap_addr s = test_memory_allocation 0 s) as E.
  { intros s. unfold test_memory_allocation. destruct (Memory.kmalloc 100 s) as [p1 s1].
    destruct (Memory.kmalloc_aligned 256 16 s1) as [[p2|] s2]; [|done].
    by rewrite <- (Z.add_mod_idemp_l heap_addr), Ha, Z.add_0_l by done. }
  transitivity (s ← Memory.memory_init Memory.memory_bss; '(r, _) ← test_memory_allocation 0 s; Some r).
  - destruct (Memory.memory_init Memory.memory_bss) as [s|]; [|done]. cbn [mbind option_bind]. by rewrite E.
  - vm_compute. reflexivity.
Qed.

(** The page test never ends: the kernel's directory has no table for the
    address it maps, so [map_page] writes through address 0. *)
Lemma page_allocation_fails kpt s :
  0 < kpt < 4294967296 → Memory.pages_ok s → Memory.paging_ok kpt s → Memory.used_pages s + 3 <= Memory.MAX_PAGES →
  test_page_allocation kpt s = UB.
Proof.
  intros Hk Hs Hp Hfree. unfold test_page_allocation.
  destruct (Memory.alloc_page_first_fit_aux s Hs) as (a1 & s1 & E1 & Hs1 & [?|(p1 & Hp1 & -> & _ & _ & U1 & _)]); [lia|].
  destruct (Memory.alloc_page_first_fit_aux s1 Hs1) as (a2 & s2 & E2 & Hs2 & [?|(p2 & Hp2 & -> & _ & _ & U2 & _)]); [lia|].
  destruct (Memory.alloc_page_first_fit_aux s2 Hs2) as (a3 & s3 & E3 & Hs3 & [?|(p3 & Hp3 & -> & _ & _ & U3 & _)]); [lia|].
  rewrite E1. cbn [mbind option_bind]. rewrite E2. cbn [mbind option_bind]. rewrite E3. cbn [mbind option_bind].
  rewrite !(proj2 (Z.eqb_neq (_ * Memory.PAGE_SIZE) 0)) by (unfold Memory.PAGE_SIZE; lia). cbn [negb andb].
  unfold Memory.map_page, Memory.set_entry. rewrite (Memory.page_table_unmapped kpt Hk); [done| |lia|].
  - by do 3 (eapply Memory.alloc_page_tables; [eassumption|]).
  - unfold Memory.mapped. lia.
Qed.

End ServiceTests.
